(* ===== verification/_CoqProject ===== *)
-Q . S2P
Prelude.v
JsText.v
Json.v
JsonRoundtrip.v
Web.v
Search.v
Client.v
Errors.v
Auth.v
Hooks.v
Dashboard.v
Format.v
Schema.v
GenApi.v
Queries.v
Cache.v
Interfaces.v
Locale.v
Forms.v
Controls.v
Policy.v
Zones.v
Dhcp.v
Logs.v
Widgets.v
Analytics.v
DashboardPage.v
AnalyticsPage.v
Effects.v
Crud.v
Modal.v
Upstream.v
UpstreamForms.v
ReservationTab.v
Dhcp6.v
DhcpPage.v
DhcpForms.v
Tables.v
RowPage.v
Translations.v
LogTables.v
Html.v
BlockPage.v
Feeds.v
Users.v
Registry.v
Settings.v
AdminForms.v
Routing.v
RegistryPages.v
UsersPage.v
SettingsPage.v
Shell.v
ZonePages.v
ListPages.v
TabViews.v
FeedsScreen.v
ZoneListPage.v
ZoneDetail.v
ZoneForms.v
Frame.v
PolicyPage.v
PolicyScreen.v
ModalViews.v
