(* ===== verification/Prelude.v ===== *)
(** * Mantis-DNS management UI: a verification development

    Mantis-DNS is a filtering DNS service with a control plane and a web UI for
    its administrators.  This development models the UI, the TypeScript program
    under [src/apps/ui/src], and the script under [src/apps/ui/scripts] that generates its
    API description: how it talks to the control plane, how it keeps the
    session, what it caches, what its formatting functions compute, and what the
    editors, forms and lists of its pages do.

    ** The program and the files

    The UI is a React application.  [main.tsx] and [App.tsx] wrap the pages in the
    session provider and a guard; each page reads data through the hooks of
    [api/hooks.ts], which call the control plane through [api/client.ts] and
    leave caching to react-query; failures become messages through
    [api/errors.ts].  State is React state, the URL's search parameters, one entry
    of [localStorage], two module variables (the session listener and the
    navigation flag) and the query cache.  The parts and their models:

    - [Prelude.v] (this file): errors as values ([exc]), truthiness, the tactics
      and hint databases, lemmas on strings and lists.
    - [JsText.v], [Json.v], [JsonRoundtrip.v], [Web.v]: the part of JavaScript and
      of the browser the program uses: string methods on UTF-8 bytes, JSON values
      with [JSON.parse] and [JSON.stringify] and their round trip, search
      parameters, headers, [decodeURIComponent].  [Search.v]: encoding and parsing
      of the query part of a URL.
    - [Client.v] models [api/client.ts]: base URL, cookie and CSRF header, the typed
      client with its options and its middleware, [rawRequest] and its wrappers,
      [unwrap].  [fetch] and [URL] are arguments; openapi-fetch, which builds the
      request of a typed call, is the class [OpenapiFetch].
    - [Errors.v] models [api/errors.ts].
    - [Auth.v] models [auth/AuthContext.tsx], [auth/RequireAuth.tsx],
      [auth/sessionEvents.ts], [pages/LoginPage.tsx] and the navigation items of
      [app/Shell.tsx]; the provider is a state machine over answers and events.
    - [Hooks.v] models [hooks/useUrlFilters.ts] (Module [UrlFilters], over a
      session history) and [hooks/useUnsavedChangesGuard.ts] (Module [NavGuard],
      over commits and unmounts).
    - [Dashboard.v] models [pages/dashboard/widgetConfig.ts] and the handlers of
      [pages/DashboardPage.tsx]; [DashboardPage.v] the page as a whole and
      [pages/dashboard/CustomizeDrawer.tsx].
    - [Format.v] models [format.ts] and [pages/dhcp/helpers.ts].
    - [Schema.v] is [api/schema.ts] as data (paths, component schemas, operations)
      with a decision procedure [conforms] for its types.  [GenApi.v] models
      [scripts/gen-api.mjs], which writes and checks that file; the process it starts
      and openapi-typescript are arguments.
    - [Queries.v] is [api/hooks.ts]: each query hook is its key, call and options,
      each mutation hook its call and what it does to the cache; also the queries
      of the dashboard.  [Cache.v] runs calls and applies mutations to a cache;
      react-query's filters are the class [QueryFilter].  [Interfaces.v] has the
      response interfaces of [api/hooks.ts] and [pages/dashboard/types.ts].
    - [Locale.v] is sorting by [localeCompare], with the class [LocaleOrder] for
      what is relied on; [Forms.v] is what is relied on of @mantine/form (the
      class [UseForm]) and of number inputs; [Controls.v] is the inputs of a form (text,
      number, select, switch, tags), what each can be made to hold, and scripts that
      operate them.
    - [Effects.v] is what a handler does around a mutation: the request in flight,
      the notifications, what then happens to the page's state, the hooks through which
      requests are sent and heard, and [Promise.allSettled]; also [components/crud/CrudTable.tsx].  [Modal.v] is the
      two kinds of modal (form mounted with the modal, form kept mounted), [Crud.v]
      the tab with a table and an add/edit modal: the class [Crud], its state
      machine, and the screen it implements.
    - [Policy.v] models the editor of [pages/PolicyPage.tsx], [PolicyPage.v] the page
      around it and [pages/DuplicatePolicyModal.tsx], [PolicyScreen.v] the whole screen
      with [categoryIcons.tsx] and the guard; [Zones.v] and [ZonePages.v] model
      [pages/ZonesPage.tsx] and [pages/ZoneDetailPage.tsx], their forms and lists
      and their handlers and tables; [Logs.v] models [pages/QueryLogPage.tsx] and
      [pages/AuditPage.tsx], [LogTables.v] their controls and rows, with the texts of
      [locales/en/translation.json] in [Translations.v] (i18next is the class [I18n]).
    - [Dhcp.v] and [Dhcp6.v] model the forms, bodies and actions of the tabs of
      [pages/dhcp], [ReservationTab.v] the reservations tab of both families,
      [DhcpPage.v] the page that holds the scopes and the prefill; [Upstream.v] models
      [pages/upstream].  [Tables.v] has the columns and cells of both, [TabViews.v] the
      two pages and their tabs on screen.
    - [UpstreamForms.v], [DhcpForms.v], [ZoneForms.v] and [AdminForms.v] have the inputs
      of the forms of the pages, as [Controls.v] describes them.
    - [Feeds.v], [Users.v], [Settings.v] and [BlockPage.v] model the page of their
      name, the last with [Html.v] for escaping and a tokenizer of the HTML it
      writes; [Registry.v] models [pages/TenantsPage.tsx], [pages/GroupsPage.tsx]
      and [pages/ClientsPage.tsx].  The pages as state machines, from the loader to the
      confirmation of a deletion and the answers: [RowPage.v] is what a page with rows
      and modals has in common with the others, [RegistryPages.v], [UsersPage.v] and
      [ZoneListPage.v] are its instances; [FeedsScreen.v], [ZoneDetail.v] and
      [SettingsPage.v] are the feeds, the page of a zone and the settings.
      [ListPages.v] is the lists of feeds and zones with their filters in the URL,
      [ModalViews.v] the modals of all these pages on screen.
    - [Widgets.v] models [pages/dashboard/widgets] and the figures of the
      dashboard, [Analytics.v] and [AnalyticsPage.v] model [pages/AnalyticsPage.tsx] and
      the links of both to the query log.
    - [Routing.v] models the routes of [App.tsx], the active items of
      [app/Shell.tsx] and [app/ErrorBoundary.tsx]; how a router matches is the class
      [Router].  [Shell.v] models the rest of [app/Shell.tsx]: the menu, the sidebar,
      leaving a page and signing out.  [Frame.v] has the tree of providers of
      [main.tsx], the context of the session, the theme, and the small components:
      headings, figures, the sign-in form, the skip link.

    ** What the theorems show

    - Requests: for every cookie jar the CSRF token, when there is one, goes with
      every mutating request and no other, and the session's credentials with all, on
      both ways a request is made; the base URL is normalised; every request of every hook is an operation of the
      API with the right parameters; equal query keys mean equal requests; no
      enabled query has a missing id in its path; a mutation refreshes what it
      wrote and nothing of another tenant; the response types the program assumes
      are those of the API; the API description is consistent.
    - Errors: which message is shown for which failure, and that queries never
      turn an error into data.
    - Session: a user is signed in only by a grant that was not revoked, an expired
      session returns to its route, roles are monotone.
    - State: URL filters, the navigation guard, the widget configuration and the
      paging of the logs keep their invariants over every sequence of actions.
    - Text: timestamps, latencies and MAC addresses.
    - Pages: the policy editor recognises unsaved changes exactly and saves a body
      of the API's type; overrides, category actions, zone and record forms, DHCP
      scope and reservation forms do what they show; lists show what the filters
      select; bodies conform to the API wherever the form can be sent.
    - Forms are sound and complete: over every script of their inputs a theorem says
      exactly when what the forms send is of the types of the API, for new upstream
      entities with the defaults of the API ([UpstreamForms.takes]), and every value within the bounds of the inputs can be entered
      ([UpstreamForms.v], [DhcpForms.v], [ZoneForms.v], [AdminForms.v]).
    - Pages as state machines: over every script of clicks, typing and answers, what
      is sent is what the role allows and what was on screen
      ([RegistryPages.registry_gate], [SettingsPage.settings_gate],
      [UsersPage.users_gate], [ZoneListPage.zones_gate], [ZoneDetail.zone_detail_gate],
      [FeedsScreen.feeds_gate], [PolicyScreen.policy_screen_gate],
      [DhcpPage.reservations_stay_in_scope]); a form sends again only after its request
      settled or it went ([RowPage.no_double_submit]), and its button turns exactly then
      ([ModalViews.modals_told]); a modal is titled as what it saves, and the tabs follow
      the URL ([TabViews.modals_tell], [TabViews.pages_show]); filters
      in the URL behave as plain state ([ListPages.filters_refine_state]); the
      dashboard always renders, is found so on reload whatever the store held, and its
      drawer reaches every arrangement ([DashboardPage.v]); leaving a page asks exactly
      when its last render had unsaved changes ([Shell.leaving_asks]); Compile is offered
      exactly when the editor shows what the page last loaded or saved
      ([PolicyPage.compile_publishes_shown]).
    - Tables: rows show enough to tell their entities apart ([Tables.rows_readable]).
    - Tabs with a modal refine their screens over every run ([Crud.v] and
      [Upstream.tabs_refine_screens]); the one-pass grouping of the feeds equals its
      specification; bulk actions ask once per selected feed.
    - The schema generator: its check accepts exactly what it writes, and writes nothing
      ([GenApi.check_accepts_generated]).
    - The entry point: no hook misses its provider, also not in a confirmation
      ([Frame.providers_complete]).
    - The block page preview is the document its settings describe, whatever is
      typed into them.
    - Navigation: redirects end, links lead to the page for their ids, and a row of
      the dashboard or the analytics opens the query log on what it counts.
    - Deviations: where the code does not do what it means to, the theorem states
      what it does: [Errors.unwrap_validation_error_lost],
      [Format.fmtExpire_shifts_naive], [Hooks.UrlFilters.back_skips_filter_changes],
      [Zones.edit_from_list_overwrites], [Routing.sign_in_drops_filters], the
      examples at the end of [Feeds.v], and parts of [Zones.record_form_body],
      [Dhcp.scope_save_schema], [Dhcp6.scopes6_tab_saves], [Policy.refetch_and_edits],
      [Upstream.policy_tab_follows_tenant], [Upstream.resolver_form_sends],
      [Registry.client_registration], [Settings.capabilities_agree],
      [Users.user_forms], [Analytics.drill_down], [Shell.sign_out],
      [DashboardPage.scope_outlives_options], [ListPages.failed_list_looks_empty],
      [AnalyticsPage.analytics_page_shows], [PolicyScreen.policy_screen_gate],
      [PolicyPage.compile_publishes_shown], [SettingsPage.settings_gate],
      [Logs.query_log_paging], [ZoneForms.zone_forms_send],
      [FeedsScreen.feeds_gate], [UsersPage.late_answer_discards],
      [ZoneListPage.late_save_discards] and [Frame.skip_link].

    ** Bounds and fuel

    [json_parse] has fuel of twice the length of the text plus two, which the round
    trip shows to be enough for every printed value; the loops that strip prefixes
    have the length of the text as fuel and remove at least a byte each time;
    [conforms] follows at most two references, and [refs_depth] shows that no
    schema needs more; [follow] allows two redirects, and [Routing.redirects_end]
    shows that none needs more ([Shell.land] allows three); [decode] of character references has the length of
    the text as fuel.  Numbers in JSON are exact decimals, those the UI prints are
    below 10^21; latencies are divided as IEEE doubles.  Texts are UTF-8 bytes and
    case mapping is that of ASCII.

    ** What is not modelled

    Rendering beyond what is said and offered: sizes, spacing, icons and charts.  The
    third-party libraries, except for the laws stated in the classes above.  That
    react-query runs the callbacks of a call only for the last call of a hook and while
    its component is mounted is modelled where a page has its hooks: [Crud.v],
    [ReservationTab.v], [RowPage.v] and its instances, [FeedsScreen.v], [ZoneDetail.v]
    and [SettingsPage.v]; in [PolicyScreen.v] and [BlockPage.v] every answer is taken to
    be heard.  The disabled preview of the
    single sign-on settings, import lists and re-exports are not code that does
    anything.  Numbers typed into number inputs are integers, and the offset and the
    window of a log URL are read when they are decimal integers ([Logs.number_int]).  Of a
    stored widget the truth of its [visible] is kept ([Dashboard.read_entry]).  That the
    schema file can be written is taken for granted ([GenApi.write_schema]).  The control
    plane and the resolvers are other programs. *)

From stdpp Require Export base list strings sets gmap.
From Stdlib Require Export ZArith Lia.

(** ** Errors: a JavaScript computation that may throw *)

(** [Throw msg] is a thrown [Error] whose message is [msg]. *)
Inductive exc (A : Type) : Type :=
| Ok (a : A)
| Throw (msg : string).
Arguments Ok {A} a.
Arguments Throw {A} msg.

Declare Scope exc_scope.
Delimit Scope exc_scope with exc.
Notation "x <- c ;; k" := (match c with Ok x => k | Throw e => Throw e end)
  (at level 100, c at next level, right associativity) : exc_scope.

(** ** Truthiness *)

(** [!!s] of a string: the empty string is falsy. *)
Definition truthy (s : string) : bool := bool_decide (s ≠ EmptyString).

(** [s || null]. *)
Definition or_null (s : string) : option string :=
  if decide (s = EmptyString) then None else Some s.

(** [!!o] of a [string | null | undefined]. *)
Definition truthy_opt (o : option string) : bool :=
  match o with Some s => truthy s | None => false end.

(** ** Hint databases and tactics of the development *)

Create HintDb mantis discriminated.
Create Rewrite HintDb mantis.

(** Case analysis on the guards of a handler: every [decide], [bool_decide]
    and option match in the goal, closing what is immediate. *)
Ltac guards :=
  repeat (simplify_eq/=;
    first [ case_decide | case_bool_decide | case_match ]);
  simplify_eq/=; try done.

(** Boolean hypotheses to propositions. *)
Ltac bools :=
  repeat match goal with
  | H : _ && _ = true |- _ => apply andb_true_iff in H as [??]
  | H : _ || _ = false |- _ => apply orb_false_iff in H as [??]
  | H : negb _ = true |- _ => apply negb_true_iff in H
  | H : negb _ = false |- _ => apply negb_false_iff in H
  | H : bool_decide _ = true |- _ => apply bool_decide_eq_true in H
  | H : bool_decide _ = false |- _ => apply bool_decide_eq_false in H
  end.

(** ** Strings *)

Lemma sapp_assoc (s t u : string) : (s +:+ t) +:+ u = s +:+ (t +:+ u).
Proof. unfold String.app. induction s; simpl; congruence. Qed.

Lemma sapp_nil_r (s : string) : s +:+ "" = s.
Proof. unfold String.app. induction s; simpl; congruence. Qed.

Lemma sapp_nil_l (s : string) : "" +:+ s = s.
Proof. reflexivity. Qed.

Lemma sapp_cons c (s t : string) : String c s +:+ t = String c (s +:+ t).
Proof. reflexivity. Qed.

Lemma sapp_eq_nil (s t : string) : s +:+ t = "" ↔ s = "" ∧ t = "".
Proof. destruct s; naive_solver. Qed.

Lemma slength_app (s t : string) :
  String.length (s +:+ t) = String.length s + String.length t.
Proof. induction s as [|c s IH]; [done|]. rewrite sapp_cons. cbn. by rewrite IH. Qed.

Lemma sapp_inj_r (s t u : string) : t +:+ s = u +:+ s → t = u.
Proof.
  revert u. induction t as [|c t IH]; intros [|d u] H; [done|..].
  - apply (f_equal String.length) in H. rewrite !slength_app in H. simpl in H. lia.
  - apply (f_equal String.length) in H. rewrite !slength_app in H. simpl in H. lia.
  - rewrite !sapp_cons in H. simplify_eq. f_equal. by apply IH.
Qed.

(** Every character of a string satisfies a boolean test. *)
Fixpoint sforall (p : Ascii.ascii → bool) (s : string) : bool :=
  match s with
  | "" => true
  | String c s' => p c && sforall p s'
  end.

Lemma sforall_app p s t : sforall p (s +:+ t) = sforall p s && sforall p t.
Proof.
  induction s as [|c s IH]; [done|]. rewrite sapp_cons. cbn. by rewrite IH, andb_assoc.
Qed.

Lemma sforall_impl p q s :
  (∀ c, p c = true → q c = true) → sforall p s = true → sforall q s = true.
Proof.
  intros Hpq. induction s as [|c s IH]; cbn; [done|]. intros ?; bools.
  apply andb_true_iff; auto.
Qed.

#[export] Hint Rewrite sapp_assoc sapp_nil_r sapp_nil_l sapp_cons : mantis.

(** ** Lists *)

Section lists.
Context {A B : Type}.

(** Removing the entries with a given key leaves the others as they were. *)
Lemma find_filter_same (f g : A → bool) (l : list A) :
  (∀ x, f x = true → g x = true) →
  List.find f (List.filter g l) = List.find f l.
Proof.
  intros Hfg. induction l as [|x l IH]; simpl; [done|].
  destruct (f x) eqn:Hf; [rewrite (Hfg x Hf); simpl; by rewrite Hf|].
  destruct (g x); simpl; [by rewrite Hf|done].
Qed.

Lemma find_filter_none (f g : A → bool) (l : list A) :
  (∀ x, f x = true → g x = false) → List.find f (List.filter g l) = None.
Proof.
  intros Hfg. induction l as [|x l IH]; simpl; [done|].
  destruct (g x) eqn:Hg; simpl; [|done].
  destruct (f x) eqn:Hf; [|done]. rewrite (Hfg x Hf) in Hg. done.
Qed.

Lemma find_cons (f : A → bool) x (l : list A) :
  List.find f (x :: l) = if f x then Some x else List.find f l.
Proof. done. Qed.

Lemma find_app (f : A → bool) (l k : list A) :
  List.find f (l ++ k) =
  match List.find f l with Some x => Some x | None => List.find f k end.
Proof. induction l as [|x l IH]; simpl; [done|]. by destruct (f x). Qed.

Lemma NoDup_map_filter (f : A → B) (g : A → bool) (l : list A) :
  NoDup (f <$> l) → NoDup (f <$> List.filter g l).
Proof.
  induction l as [|x l IH]; simpl; [done|]. intros [Hx Hl]%NoDup_cons.
  destruct (g x); simpl; [|auto]. apply NoDup_cons. split; [|auto].
  intros (y & Heq & Hy)%list_elem_of_fmap. apply Hx. rewrite Heq. apply list_elem_of_fmap.
  exists y. split; [done|]. apply list_elem_of_In in Hy.
  apply filter_In in Hy as [Hy _]. by apply list_elem_of_In.
Qed.

(** Grouped by a key, under every key once, nothing is lost or repeated. *)
Lemma partition_perm `{EqDecision B} (key : A → B) (l : list A) (ks : list B) :
  NoDup ks → Forall (λ x, key x ∈ ks) l →
  concat ((λ k, filter (λ x, key x = k) l) <$> ks) ≡ₚ l.
Proof.
  intros Hn Hc. induction Hc as [|x l Hx Hl IH].
  { clear Hn. induction ks as [|k ks IH]; [done|]. by cbn. }
  transitivity (x :: concat ((λ k, filter (λ x, key x = k) l) <$> ks)); [|by rewrite IH].
  clear IH Hl. induction ks as [|k ks IH]; [by apply not_elem_of_nil in Hx|].
  apply NoDup_cons in Hn as [Hk Hn]. rewrite !fmap_cons. cbn [concat]. rewrite filter_cons.
  destruct (decide (key x = k)) as [<-|Hne].
  - cbn [app]. do 2 f_equiv. apply reflexive_eq. f_equal. apply list_fmap_ext. intros i k' Hi.
    rewrite filter_cons, decide_False; [done|].
    intros Heq. apply Hk. rewrite Heq. by eapply list_elem_of_lookup_2.
  - rewrite IH; [|done|set_solver]. by rewrite Permutation_middle.
Qed.
End lists.
