(* ===== verification/JsText.v ===== *)
(** * JavaScript text and number primitives

    The string methods of the language that the UI uses, on UTF-8 byte
    strings: [trim], [toLowerCase], [includes], [startsWith], [endsWith],
    [split], [join], the character classes of the regular expressions, and the
    decimal printing of integers.  White space is the ECMAScript set, so the
    multi-byte Unicode spaces are listed as their UTF-8 sequences.  Case
    mapping is the ASCII part of the Unicode mapping. *)

From S2P Require Import Prelude.
From stdpp Require Export pretty.
From Stdlib Require Export Ascii.

(** ** Character classes *)

(** The code of a byte. *)
Definition code (c : ascii) : N := N_of_ascii c.

Definition in_range (lo hi : N) (c : ascii) : bool := (lo <=? code c)%N && (code c <=? hi)%N.

(** [\d] *)
Definition is_digit (c : ascii) : bool := in_range 48 57 c.

(** [[a-z]], [[A-Z]] *)
Definition is_lower (c : ascii) : bool := in_range 97 122 c.
Definition is_upper (c : ascii) : bool := in_range 65 90 c.

(** [[0-9a-f]] *)
Definition is_hex_lower (c : ascii) : bool := is_digit c || in_range 97 102 c.

(** [[0-9a-fA-F]] *)
Definition is_hex (c : ascii) : bool := is_hex_lower c || in_range 65 70 c.

#[global] Arguments is_digit : simpl never.
#[global] Arguments is_lower : simpl never.
#[global] Arguments is_upper : simpl never.
#[global] Arguments is_hex_lower : simpl never.
#[global] Arguments is_hex : simpl never.

(** ** Case mapping *)

Definition lower_char (c : ascii) : ascii :=
  if is_upper c then ascii_of_N (code c + 32) else c.

Fixpoint toLowerCase (s : string) : string :=
  match s with
  | "" => ""
  | String c s' => String (lower_char c) (toLowerCase s')
  end.

Definition upper_char (c : ascii) : ascii :=
  if is_lower c then ascii_of_N (code c - 32) else c.

Fixpoint toUpperCase (s : string) : string :=
  match s with
  | "" => ""
  | String c s' => String (upper_char c) (toUpperCase s')
  end.

(** [s.charAt(0).toUpperCase() + s.slice(1)] *)
Definition capitalize (s : string) : string :=
  match s with "" => "" | String c r => String (upper_char c) r end.

(** [s.length]: the UTF-16 code units of a text in UTF-8. *)
Fixpoint js_length (s : string) : nat :=
  match s with
  | "" => 0
  | String c r => (if in_range 128 191 c then 0 else if in_range 240 255 c then 2 else 1) + js_length r
  end.

(** ** White space *)

(** The UTF-8 encodings of the ECMAScript WhiteSpace and LineTerminator code
    points. *)
Definition ws_seqs : list (list N) :=
  [ [9]; [10]; [11]; [12]; [13]; [32]; [194; 160]; [225; 154; 128];
    [226; 128; 128]; [226; 128; 129]; [226; 128; 130]; [226; 128; 131];
    [226; 128; 132]; [226; 128; 133]; [226; 128; 134]; [226; 128; 135];
    [226; 128; 136]; [226; 128; 137]; [226; 128; 138]; [226; 128; 168];
    [226; 128; 169]; [226; 128; 175]; [226; 129; 159]; [227; 128; 128];
    [239; 187; 191] ]%N.

Definition str_of_codes (l : list N) : string :=
  foldr (λ n s, String (ascii_of_N n) s) "" l.

(** [s] without the prefix [p], when it has it. *)
Fixpoint strip_prefix (p s : string) : option string :=
  match p, s with
  | "", _ => Some s
  | String a p', String b s' => if Ascii.eqb a b then strip_prefix p' s' else None
  | String _ _, "" => None
  end.

(** The rest after one leading separator of [seqs], when there is one. *)
Fixpoint strip_first (seqs : list string) (s : string) : option string :=
  match seqs with
  | [] => None
  | q :: qs => match strip_prefix q s with
               | Some r => Some r
               | None => strip_first qs s
               end
  end.

(** Strips leading sequences while there are any; each step consumes a byte,
    so the length of the string is enough fuel. *)
Fixpoint strip_loop (seqs : list string) (fuel : nat) (s : string) : string :=
  match fuel with
  | O => s
  | S n => match strip_first seqs s with
           | Some r => strip_loop seqs n r
           | None => s
           end
  end.

Definition ws_forward : list string := str_of_codes <$> ws_seqs.
Definition ws_backward : list string := (λ l, str_of_codes (reverse l)) <$> ws_seqs.

(** [s.trimStart()], [s.trimEnd()], [s.trim()] *)
Definition trimStart (s : string) : string := strip_loop ws_forward (String.length s) s.
Definition trimEnd (s : string) : string :=
  String.rev (strip_loop ws_backward (String.length s) (String.rev s)).
Definition trim (s : string) : string := trimEnd (trimStart s).

(** ** Searching and splitting *)

(** [s.startsWith(p)] *)
Definition startsWith (s p : string) : bool :=
  match strip_prefix p s with Some _ => true | None => false end.

(** [s.endsWith(p)] *)
Definition endsWith (s p : string) : bool := startsWith (String.rev s) (String.rev p).

(** [s.includes(p)] *)
Fixpoint includes (s p : string) : bool :=
  startsWith s p || match s with "" => false | String _ s' => includes s' p end.

(** [s.slice(0, -n)] for a string that has at least [n] bytes. *)
Definition drop_last (n : nat) (s : string) : string :=
  String.substring 0 (String.length s - n) s.

(** [l.join(sep)] *)
Fixpoint join (sep : string) (l : list string) : string :=
  match l with
  | [] => ""
  | [x] => x
  | x :: l' => x +:+ sep +:+ join sep l'
  end.

(** [s.split(c)] for a one-byte separator: the pieces between the separators,
    at least one. *)
Fixpoint split_on (c : ascii) (s : string) : list string :=
  match s with
  | "" => [""]
  | String a s' =>
      if Ascii.eqb a c then "" :: split_on c s'
      else match split_on c s' with
           | [] => [String a ""]
           | w :: ws => String a w :: ws
           end
  end.

(** Removes every byte that satisfies [p]: [s.replace(/[..]/g, '')]. *)
Fixpoint remove_chars (p : ascii → bool) (s : string) : string :=
  match s with
  | "" => ""
  | String c s' => if p c then remove_chars p s' else String c (remove_chars p s')
  end.

(** ** Numbers *)

(** [String(n)] of an integer below 10^21 in absolute value. *)
Definition Z_str (n : Z) : string := pretty n.

(** [Math.floor(a / b)] and [Math.round(a / b)] (halves round up) of integers,
    for a positive divisor. *)
Definition math_floor_div (a b : Z) : Z := (a / b)%Z.
Definition math_round_div (a b : Z) : Z := ((2 * a + b) / (2 * b))%Z.

(** ** Lemmas *)

Lemma strip_prefix_Some p s r : strip_prefix p s = Some r ↔ s = p +:+ r.
Proof.
  revert s. induction p as [|a p IH]; intros s; cbn.
  - rewrite sapp_nil_l. naive_solver.
  - rewrite sapp_cons. destruct s as [|b s]; [naive_solver|].
    destruct (Ascii.eqb_spec a b) as [->|?]; [rewrite IH; naive_solver|naive_solver].
Qed.

Lemma strip_prefix_cons a p b s :
  strip_prefix (String a p) (String b s) =
  if Ascii.eqb a b then strip_prefix p s else None.
Proof. done. Qed.

Lemma startsWith_true s p : startsWith s p = true ↔ ∃ r, s = p +:+ r.
Proof.
  unfold startsWith. destruct (strip_prefix p s) as [r|] eqn:H.
  - apply strip_prefix_Some in H. naive_solver.
  - split; [done|]. intros [r Hr]. apply strip_prefix_Some in Hr. congruence.
Qed.

Lemma strip_first_shorter seqs s r :
  Forall (λ q, q ≠ "") seqs → strip_first seqs s = Some r →
  String.length r < String.length s.
Proof.
  induction 1 as [|q qs Hq _ IH]; cbn; [done|].
  destruct (strip_prefix q s) as [r'|] eqn:H; [|apply IH].
  intros [= ->]. apply strip_prefix_Some in H as ->. rewrite slength_app.
  destruct q; [done|]. cbn. lia.
Qed.

(** The fuel of [strip_loop] is enough: nothing is left to strip. *)
Lemma strip_loop_done seqs fuel s :
  Forall (λ q, q ≠ "") seqs → String.length s ≤ fuel →
  strip_first seqs (strip_loop seqs fuel s) = None.
Proof.
  intros Hne. revert s. induction fuel as [|n IH]; intros s Hs; cbn.
  - destruct s; [|cbn in Hs; lia]. clear -Hne.
    induction Hne as [|q qs Hq _ IH]; cbn; [done|]. by destruct q.
  - destruct (strip_first seqs s) as [r|] eqn:H; [|done]. apply IH.
    pose proof (strip_first_shorter _ _ _ Hne H). lia.
Qed.

Lemma strip_loop_none seqs fuel s :
  strip_first seqs s = None → strip_loop seqs fuel s = s.
Proof. destruct fuel; cbn; [done|]. by intros ->. Qed.

(** A visible ASCII byte: none of the white space sequences starts with it. *)
Definition visible (c : ascii) : bool := in_range 33 126 c.

Lemma ascii_cases (p : ascii → bool) :
  forallb (λ n, p (ascii_of_N (N.of_nat n))) (seq 0 256) = true → ∀ c, p c = true.
Proof.
  intros H c. rewrite List.forallb_forall in H.
  specialize (H (N.to_nat (code c))). rewrite N2Nat.id in H.
  unfold code in H. rewrite ascii_N_embedding in H. apply H.
  apply in_seq. pose proof (N_ascii_bounded c). lia.
Qed.

Lemma ascii_impl (p q : ascii → bool) :
  forallb (λ n, implb (p (ascii_of_N (N.of_nat n))) (q (ascii_of_N (N.of_nat n)))) (seq 0 256) = true →
  ∀ c, p c = true → q c = true.
Proof.
  intros H c Hc. pose proof (ascii_cases (λ c, implb (p c) (q c)) H c) as Hi. cbn beta in Hi.
  by rewrite Hc in Hi.
Qed.

Definition not_ws_head (seqs : list string) (c : ascii) : bool :=
  forallb (λ q, match q with "" => false | String a _ => negb (Ascii.eqb a c) end) seqs.

Lemma strip_first_head seqs c s :
  not_ws_head seqs c = true → strip_first seqs (String c s) = None.
Proof.
  induction seqs as [|q qs IH]; cbn; [done|]. intros ?; bools.
  destruct q as [|a q]; [done|]. cbn. bools. rewrite H. by apply IH.
Qed.

Lemma visible_not_ws c :
  visible c = true → not_ws_head ws_forward c = true ∧ not_ws_head ws_backward c = true.
Proof.
  intros H.
  assert (Hall : implb (visible c) (not_ws_head ws_forward c && not_ws_head ws_backward c) = true).
  { revert c H. intros c _. revert c. apply ascii_cases. vm_compute. reflexivity. }
  rewrite H in Hall. cbn [implb] in Hall. by apply andb_true_iff in Hall.
Qed.

Lemma srev_app_spec s t : String.rev_app s t = String.rev s +:+ t.
Proof.
  revert t. induction s as [|c s IH]; intros t; cbn; [done|].
  unfold String.rev. cbn. rewrite !IH, sapp_assoc. reflexivity.
Qed.

Lemma srev_cons c s : String.rev (String c s) = String.rev s +:+ String c "".
Proof. unfold String.rev. cbn. by rewrite srev_app_spec. Qed.

Lemma srev_app s t : String.rev (s +:+ t) = String.rev t +:+ String.rev s.
Proof.
  induction s as [|c s IH]; [by rewrite sapp_nil_l, sapp_nil_r|].
  rewrite sapp_cons, !srev_cons, IH, sapp_assoc. done.
Qed.

Lemma srev_involutive s : String.rev (String.rev s) = s.
Proof. induction s as [|c s IH]; [done|]. by rewrite srev_cons, srev_app, IH. Qed.

Lemma srev_forall p s : sforall p (String.rev s) = sforall p s.
Proof.
  induction s as [|c s IH]; [done|]. rewrite srev_cons, sforall_app, IH. cbn.
  by rewrite andb_true_r, andb_comm.
Qed.

(** Trimming leaves a string of visible ASCII bytes as it is. *)
Lemma trim_visible s : sforall visible s = true → trim s = s.
Proof.
  intros H. unfold trim, trimEnd.
  assert (trimStart s = s) as ->.
  { unfold trimStart. destruct s as [|c s]; [done|]. cbn in H. bools.
    apply strip_loop_none, strip_first_head. by apply visible_not_ws. }
  rewrite <- srev_forall in H. destruct (String.rev s) as [|c r] eqn:Hr.
  - rewrite strip_loop_none; [|vm_compute; done]. by rewrite <- Hr, srev_involutive.
  - rewrite strip_loop_none; [by rewrite <- Hr, srev_involutive|].
    cbn in H. bools. apply strip_first_head. by apply visible_not_ws.
Qed.

(** Trimming leaves a string that starts and ends with visible bytes. *)
Lemma trim_ends c s d :
  visible c = true → visible d = true →
  trim (String c (s +:+ String d "")) = String c (s +:+ String d "").
Proof.
  intros Hc Hd. apply visible_not_ws in Hc as [Hc _], Hd as [_ Hd].
  unfold trim, trimStart, trimEnd.
  rewrite (strip_loop_none ws_forward) by (by apply strip_first_head).
  rewrite <- sapp_cons, srev_app. change (String.rev (String d "") +:+ ?x) with (String d x).
  rewrite strip_loop_none by (by apply strip_first_head).
  change (String d ?x) with (String.rev (String d "") +:+ x). by rewrite <- srev_app, srev_involutive.
Qed.

Lemma endsWith_app s p : endsWith (s +:+ p) p = true.
Proof. unfold endsWith. apply startsWith_true. rewrite srev_app. eauto. Qed.

Lemma endsWith_true s p : endsWith s p = true ↔ ∃ r, s = r +:+ p.
Proof.
  split; [|intros [r ->]; apply endsWith_app].
  unfold endsWith. intros [r Hr]%startsWith_true. exists (String.rev r).
  apply (f_equal String.rev) in Hr. by rewrite srev_involutive, srev_app, srev_involutive in Hr.
Qed.

Lemma substring_app_l s t : String.substring 0 (String.length s) (s +:+ t) = s.
Proof.
  induction s as [|c s IH]; [by destruct t|]. rewrite sapp_cons. cbn. by rewrite IH.
Qed.

Lemma drop_last_app s t : drop_last (String.length t) (s +:+ t) = s.
Proof.
  unfold drop_last. rewrite slength_app.
  replace (String.length s + String.length t - String.length t) with (String.length s) by lia.
  apply substring_app_l.
Qed.

Lemma toLowerCase_app s t : toLowerCase (s +:+ t) = toLowerCase s +:+ toLowerCase t.
Proof. induction s as [|c s IH]; [done|]. rewrite sapp_cons. cbn. by rewrite IH. Qed.

Lemma lower_char_idemp c : lower_char (lower_char c) = lower_char c.
Proof.
  assert (H : ∀ c, Ascii.eqb (lower_char (lower_char c)) (lower_char c) = true).
  { apply ascii_cases. vm_compute. reflexivity. }
  apply Ascii.eqb_eq, H.
Qed.

Lemma toLowerCase_idemp s : toLowerCase (toLowerCase s) = toLowerCase s.
Proof. induction s as [|c s IH]; [done|]. cbn. by rewrite lower_char_idemp, IH. Qed.

Lemma remove_chars_none p s : sforall (λ c, negb (p c)) (remove_chars p s) = true.
Proof. induction s as [|c s IH]; [done|]. cbn. destruct (p c) eqn:E; cbn; [done|]. by rewrite E. Qed.

Lemma remove_chars_id p s : sforall (λ c, negb (p c)) s = true → remove_chars p s = s.
Proof.
  induction s as [|c s IH]; [done|]. cbn. intros ?; bools. rewrite H. by rewrite IH.
Qed.

Lemma remove_chars_app p s t :
  remove_chars p (s +:+ t) = remove_chars p s +:+ remove_chars p t.
Proof.
  induction s as [|c s IH]; [done|]. rewrite sapp_cons. cbn.
  destruct (p c); rewrite IH; done.
Qed.

Lemma split_on_ne c s : split_on c s ≠ [].
Proof. destruct s; cbn; [done|]. case_match; [done|]. by case_match. Qed.

(** [split] then [join] with the separator gives the string back. *)
Lemma join_split_on c s : join (String c "") (split_on c s) = s.
Proof.
  induction s as [|a s IH]; [done|]. cbn.
  pose proof (split_on_ne c s) as Hne.
  destruct (Ascii.eqb_spec a c) as [->|Ha].
  - destruct (split_on c s) as [|w ws] eqn:E; [done|].
    change (join (String c "") ("" :: w :: ws)) with ("" +:+ String c "" +:+ join (String c "") (w :: ws)).
    rewrite IH. done.
  - destruct (split_on c s) as [|w ws] eqn:E; [done|].
    destruct ws; cbn in IH |- *; [by rewrite IH|].
    change (String a w +:+ ?x) with (String a (w +:+ x)). by rewrite IH.
Qed.

Lemma split_on_none c s :
  sforall (λ x, negb (Ascii.eqb x c)) s = true → split_on c s = [s].
Proof.
  induction s as [|a s IH]; [done|]. cbn. intros ?; bools. by rewrite H, IH.
Qed.

Lemma split_on_cons c s r :
  sforall (λ x, negb (Ascii.eqb x c)) s = true →
  split_on c (s +:+ String c r) = s :: split_on c r.
Proof.
  induction s as [|a s IH]; intros Hs.
  - rewrite sapp_nil_l. cbn. by rewrite Ascii.eqb_refl.
  - cbn in Hs. bools. rewrite sapp_cons. cbn. by rewrite H, IH.
Qed.

Lemma math_round_div_bounds a b :
  (0 < b)%Z → (2 * b * math_round_div a b - b ≤ 2 * a < 2 * b * math_round_div a b + b)%Z.
Proof.
  intros Hb. unfold math_round_div.
  pose proof (Z.mul_div_le (2 * a + b) (2 * b)). 
  pose proof (Z.mul_succ_div_gt (2 * a + b) (2 * b)). lia.
Qed.

(** One leading space is stripped, up to a visible byte. *)
Lemma trimStart_space c s :
  visible c = true → trimStart (String " " (String c s)) = String c s.
Proof.
  intros H. unfold trimStart. cbn [String.length strip_loop].
  change (strip_first ws_forward (String " " (String c s))) with (Some (String c s)).
  cbv iota beta. apply visible_not_ws in H as [H _].
  by rewrite strip_first_head by done.
Qed.

(** The integers of three digits, as [Z_str] prints them. *)
Lemma Z_str_3 n : (100 ≤ n ≤ 999)%Z →
  ∃ a b c, Z_str n = String a (String b (String c "")) ∧
    is_digit a = true ∧ is_digit b = true ∧ is_digit c = true.
Proof.
  intros Hn.
  assert (Hall : forallb (λ n, match Z_str (Z.of_nat n) with
      | String a (String b (String c "")) => is_digit a && is_digit b && is_digit c
      | _ => false end) (seq 100 900) = true) by (vm_compute; reflexivity).
  rewrite List.forallb_forall in Hall. specialize (Hall (Z.to_nat n)).
  rewrite Z2Nat.id in Hall by lia.
  destruct (Z_str n) as [|a [|b [|c [|]]]]; try (by discriminate Hall; apply in_seq; lia).
  all: rewrite in_seq in Hall; specialize (Hall ltac:(lia)); try done.
  apply andb_true_iff in Hall as [[? ?]%andb_true_iff ?]. by eexists _, _, _.
Qed.

(** ** Items of a list *)

(** A text of visible characters other than the comma. *)
Definition item_ok (s : string) : bool :=
  truthy s && sforall (λ c, visible c && negb (Ascii.eqb c ",")) s.

Lemma item_ok_visible s : item_ok s = true → s ≠ "" ∧ sforall visible s = true.
Proof.
  unfold item_ok, truthy. intros ?; bools. split; [done|].
  eapply sforall_impl; [|done]. cbn. by intros c [??]%andb_true_iff.
Qed.

Lemma item_ok_truthy s : item_ok s = true → truthy s = true.
Proof. unfold item_ok. by intros [? _]%andb_true_iff. Qed.

Lemma item_ok_no_comma s :
  item_ok s = true → sforall (λ x, negb (Ascii.eqb x ",")) s = true.
Proof.
  unfold item_ok. intros ?; bools. eapply sforall_impl; [|done]. cbn. by intros c [??]%andb_true_iff.
Qed.

Lemma trim_space_item s : item_ok s = true → trim (String " " s) = s.
Proof.
  intros [Hne Hv]%item_ok_visible. destruct s as [|c s]; [done|].
  pose proof (trim_visible _ Hv) as Ht. unfold trim in *. cbn in Hv. bools.
  rewrite trimStart_space by done. rewrite <- Ht at 2. f_equal.
  unfold trimStart. symmetry. apply strip_loop_none, strip_first_head. by apply visible_not_ws.
Qed.
