(* ===== verification/Json.v ===== *)
(** * JSON.parse and JSON.stringify

    The JSON values the UI exchanges with the control plane and keeps in
    [localStorage], [JSON.stringify] and [JSON.parse] on UTF-8 byte strings, and
    the round trip.  A number is an exact decimal [m * 10^e] in normal form; it
    agrees with the binary64 value and its shortest printing for literals of at
    most 15 significant digits. *)

From S2P Require Import Prelude JsText.

(** ** Values *)

Inductive json : Type :=
| JNull
| JBool (b : bool)
| JNum (m e : Z)
| JStr (s : string)
| JArr (l : list json)
| JObj (l : list (string * json)).

(** Induction that reaches the elements of arrays and objects. *)
Section json_ind.
Variable P : json → Prop.
Hypothesis Hnull : P JNull.
Hypothesis Hbool : ∀ b, P (JBool b).
Hypothesis Hnum : ∀ m e, P (JNum m e).
Hypothesis Hstr : ∀ s, P (JStr s).
Hypothesis Harr : ∀ l, Forall P l → P (JArr l).
Hypothesis Hobj : ∀ l, Forall (λ kv, P kv.2) l → P (JObj l).

Fixpoint json_tree_ind (j : json) : P j :=
  match j with
  | JNull => Hnull
  | JBool b => Hbool b
  | JNum m e => Hnum m e
  | JStr s => Hstr s
  | JArr l => Harr l ((fix go l : Forall P l :=
      match l with
      | [] => Forall_nil_2 _
      | x :: l => Forall_cons_2 _ _ _ (json_tree_ind x) (go l)
      end) l)
  | JObj l => Hobj l ((fix go l : Forall (λ kv, P kv.2) l :=
      match l with
      | [] => Forall_nil_2 _
      | x :: l => Forall_cons_2 _ _ _ (json_tree_ind x.2) (go l)
      end) l)
  end.
End json_ind.

(** An integer. *)
Fixpoint norm_loop (fuel : nat) (m e : Z) : Z * Z :=
  match fuel with
  | O => (m, e)
  | S n => if (m mod 10 =? 0)%Z then norm_loop n (m / 10) (e + 1) else (m, e)
  end.

(** The normal form of [m * 10^e]: no trailing zero, and [(0, 0)] for zero. *)
Definition normalize (m e : Z) : Z * Z :=
  if (m =? 0)%Z then (0, 0)%Z else norm_loop (Z.to_nat (Z.log2_up (Z.abs m) + 1)) m e.

Definition jnum (m e : Z) : json := let '(m', e') := normalize m e in JNum m' e'.

Definition JInt (n : Z) : json := jnum n 0.

(** ** Printing *)

(** The bytes with a meaning in the JSON grammar. *)
Definition c_quote : ascii := "034".
Definition c_backslash : ascii := "092".
Definition c_comma : ascii := ",".
Definition c_colon : ascii := ":".
Definition c_lbracket : ascii := "[".
Definition c_rbracket : ascii := "]".
Definition c_lbrace : ascii := "{".
Definition c_rbrace : ascii := "}".

Definition hex_char (n : N) : ascii :=
  if (n <? 10)%N then ascii_of_N (48 + n) else ascii_of_N (87 + n).

(** One byte of a string literal. *)
Definition escape_char (c : ascii) : string :=
  let n := code c in
  if (n =? 34)%N || (n =? 92)%N then String c_backslash (String c "")
  else if (n =? 8)%N then String c_backslash "b"
  else if (n =? 9)%N then String c_backslash "t"
  else if (n =? 10)%N then String c_backslash "n"
  else if (n =? 12)%N then String c_backslash "f"
  else if (n =? 13)%N then String c_backslash "r"
  else if (n <? 32)%N
  then String c_backslash ("u00" +:+ String (hex_char (n / 16)) (String (hex_char (n mod 16)) ""))
  else String c "".

Fixpoint escape (s : string) : string :=
  match s with
  | "" => ""
  | String c s' => escape_char c +:+ escape s'
  end.

Definition quote (s : string) : string :=
  String c_quote (escape s +:+ String c_quote "").

Definition zeros (n : nat) : string := foldr (λ _ s, String "0" s) "" (seq 0 n).

(** [Number.prototype.toString] of [m * 10^e] in normal form: [k] digits, the
    decimal point after digit [n]. *)
Definition num_str (m e : Z) : string :=
  let digits := Z_str (Z.abs m) in
  let k := Z.of_nat (String.length digits) in
  let n := (k + e)%Z in
  let sign := if (m <? 0)%Z then "-" else "" in
  let take i := String.substring 0 i digits in
  let drop i := String.substring i (String.length digits - i) digits in
  if (m =? 0)%Z then "0"
  else if (0 <=? e)%Z && (n <=? 21)%Z then Z_str (m * 10 ^ e)
  else if (0 <? n)%Z && (n <=? 21)%Z
  then sign +:+ take (Z.to_nat n) +:+ "." +:+ drop (Z.to_nat n)
  else if (-6 <? n)%Z && (n <=? 0)%Z
  then sign +:+ "0." +:+ zeros (Z.to_nat (- n)) +:+ digits
  else
    let ex := (if (0 <=? n - 1)%Z then "+" else "-") +:+ Z_str (Z.abs (n - 1)) in
    if (k =? 1)%Z then sign +:+ digits +:+ "e" +:+ ex
    else sign +:+ take 1 +:+ "." +:+ drop 1 +:+ "e" +:+ ex.

(** [JSON.stringify(j)] *)
Fixpoint stringify (j : json) : string :=
  match j with
  | JNull => "null"
  | JBool true => "true"
  | JBool false => "false"
  | JNum m e => num_str m e
  | JStr s => quote s
  | JArr l => String c_lbracket (join "," (stringify <$> l) +:+ "]")
  | JObj l =>
      String c_lbrace
        (join "," ((λ kv, quote kv.1 +:+ String c_colon (stringify kv.2)) <$> l) +:+ "}")
  end.

(** [String(j)] of a value that came out of [JSON.parse]. *)
Fixpoint js_String (j : json) : string :=
  match j with
  | JNull => "null"
  | JBool true => "true"
  | JBool false => "false"
  | JNum m e => num_str m e
  | JStr s => s
  | JArr l => join "," ((λ x, match x with JNull => "" | _ => js_String x end) <$> l)
  | JObj _ => "[object Object]"
  end.

(** ** Parsing *)

(** JSON white space. *)
Definition is_json_ws (c : ascii) : bool :=
  let n := code c in (n =? 9)%N || (n =? 10)%N || (n =? 13)%N || (n =? 32)%N.

Fixpoint skip_ws (s : string) : string :=
  match s with
  | String c s' => if is_json_ws c then skip_ws s' else s
  | "" => ""
  end.

Definition digit_val (c : ascii) : Z := (Z.of_N (code c) - 48)%Z.

(** The digits at the head of [s]: the value read after [acc], how many there
    are, and the rest. *)
Fixpoint scan_digits (acc : Z) (s : string) : Z * nat * string :=
  match s with
  | String c s' =>
      if is_digit c
      then let '(v, n, r) := scan_digits (acc * 10 + digit_val c) s' in (v, S n, r)
      else (acc, O, s)
  | "" => (acc, O, "")
  end.

(** The integer part: a single zero, or digits that start with no zero. *)
Definition parse_int (s : string) : option (Z * string) :=
  match s with
  | String c s' =>
      if Ascii.eqb c "0" then Some (0%Z, s')
      else if is_digit c then let '(v, _, r) := scan_digits (digit_val c) s' in Some (v, r)
      else None
  | "" => None
  end.

(** The fraction: the mantissa with the fraction's digits, and their number. *)
Definition parse_frac (m : Z) (s : string) : option (Z * nat * string) :=
  match s with
  | String c s' =>
      if Ascii.eqb c "."
      then match scan_digits m s' with
           | (_, O, _) => None
           | (v, n, r) => Some (v, n, r)
           end
      else Some (m, O, s)
  | "" => Some (m, O, "")
  end.

(** The exponent. *)
Definition parse_exp (s : string) : option (Z * string) :=
  match s with
  | String c s' =>
      if Ascii.eqb c "e" || Ascii.eqb c "E"
      then
        let '(neg, s2) := match s' with
          | String d t => if Ascii.eqb d "-" then (true, t)
                          else if Ascii.eqb d "+" then (false, t) else (false, s')
          | "" => (false, "")
          end in
        match scan_digits 0 s2 with
        | (_, O, _) => None
        | (v, _, r) => Some ((if neg : bool then - v else v)%Z, r)
        end
      else Some (0%Z, s)
  | "" => Some (0%Z, "")
  end.

Definition parse_num (s : string) : option (json * string) :=
  let '(neg, s1) := match s with
    | String c t => if Ascii.eqb c "-" then (true, t) else (false, s)
    | "" => (false, "")
    end in
  match parse_int s1 with
  | None => None
  | Some (i, s2) =>
      match parse_frac i s2 with
      | None => None
      | Some (m, f, s3) =>
          match parse_exp s3 with
          | None => None
          | Some (ex, r) => Some (jnum (if neg : bool then - m else m) (ex - Z.of_nat f), r)
          end
      end
  end.

Definition hex_val (c : ascii) : option N :=
  let n := code c in
  if is_digit c then Some (n - 48)%N
  else if in_range 97 102 c then Some (n - 87)%N
  else if in_range 65 70 c then Some (n - 55)%N
  else None.

Definition hex4 (a b c d : ascii) : option N :=
  match hex_val a, hex_val b, hex_val c, hex_val d with
  | Some a, Some b, Some c, Some d => Some (((a * 16 + b) * 16 + c) * 16 + d)%N
  | _, _, _, _ => None
  end.

(** The UTF-8 encoding of a code point. *)
Definition utf8 (n : N) : string :=
  (if n <? 128 then str_of_codes [n]
   else if n <? 2048 then str_of_codes [192 + n / 64; 128 + n mod 64]
   else if n <? 65536
   then str_of_codes [224 + n / 4096; 128 + n / 64 mod 64; 128 + n mod 64]
   else str_of_codes [240 + n / 262144; 128 + n / 4096 mod 64;
                      128 + n / 64 mod 64; 128 + n mod 64])%N.

(** The value of a two-character escape. *)
Definition simple_escape (c : ascii) : option ascii :=
  let n := code c in
  if (n =? 34)%N || (n =? 92)%N || (n =? 47)%N then Some c
  else if (n =? 98)%N then Some (ascii_of_N 8)
  else if (n =? 102)%N then Some (ascii_of_N 12)
  else if (n =? 110)%N then Some (ascii_of_N 10)
  else if (n =? 114)%N then Some (ascii_of_N 13)
  else if (n =? 116)%N then Some (ascii_of_N 9)
  else None.

Definition cons_str (p : string) (r : option (string * string)) : option (string * string) :=
  match r with Some (s, t) => Some (p +:+ s, t) | None => None end.

(** A string literal after its opening quote. *)
Fixpoint parse_str (s : string) : option (string * string) :=
  match s with
  | "" => None
  | String c s1 =>
      if Ascii.eqb c c_quote then Some ("", s1)
      else if (code c <? 32)%N then None
      else if Ascii.eqb c c_backslash then
        match s1 with
        | "" => None
        | String e s2 =>
            if Ascii.eqb e "u" then
              match s2 with
              | String h1 (String h2 (String h3 (String h4 s3))) =>
                  match hex4 h1 h2 h3 h4 with
                  | None => None
                  | Some u =>
                      match s3 with
                      | String b (String v (String l1 (String l2 (String l3 (String l4 s4))))) =>
                          match hex4 l1 l2 l3 l4 with
                          | Some w =>
                              if Ascii.eqb b c_backslash && Ascii.eqb v "u"
                                 && (55296 <=? u)%N && (u <=? 56319)%N
                                 && (56320 <=? w)%N && (w <=? 57343)%N
                              then cons_str (utf8 (65536 + (u - 55296) * 1024 + (w - 56320))) (parse_str s4)
                              else cons_str (utf8 u) (parse_str s3)
                          | None => cons_str (utf8 u) (parse_str s3)
                          end
                      | _ => cons_str (utf8 u) (parse_str s3)
                      end
                  end
              | _ => None
              end
            else match simple_escape e with
                 | Some x => cons_str (String x "") (parse_str s2)
                 | None => None
                 end
        end
      else cons_str (String c "") (parse_str s1)
  end.

(** The property [k] of the object gets the value [v]: in place when the object
    has it, at the end when not. *)
Fixpoint obj_set (k : string) (v : json) (l : list (string * json)) : list (string * json) :=
  match l with
  | [] => [(k, v)]
  | (k', v') :: l' =>
      if decide (k = k') then (k, v) :: l' else (k', v') :: obj_set k v l'
  end.

(** [o[k]] of an object. *)
Definition obj_get (k : string) (l : list (string * json)) : option json :=
  snd <$> List.find (λ kv, bool_decide (kv.1 = k)) l.

(** Values, the elements of an array after its bracket or a comma, the members
    of an object likewise; [fuel] bounds the nesting of the calls. *)
Fixpoint parse_value (fuel : nat) (s : string) : option (json * string) :=
  match fuel with
  | O => None
  | S n =>
      match skip_ws s with
      | "" => None
      | String c t =>
          if Ascii.eqb c c_lbrace then
            match skip_ws t with
            | String d u => if Ascii.eqb d c_rbrace then Some (JObj [], u)
                            else parse_members n [] (String d u)
            | "" => None
            end
          else if Ascii.eqb c c_lbracket then
            match skip_ws t with
            | String d u => if Ascii.eqb d c_rbracket then Some (JArr [], u)
                            else parse_elems n [] (String d u)
            | "" => None
            end
          else if Ascii.eqb c c_quote then
            match parse_str t with Some (x, r) => Some (JStr x, r) | None => None end
          else match strip_prefix "null" (String c t) with
          | Some r => Some (JNull, r)
          | None =>
            match strip_prefix "true" (String c t) with
            | Some r => Some (JBool true, r)
            | None =>
              match strip_prefix "false" (String c t) with
              | Some r => Some (JBool false, r)
              | None => parse_num (String c t)
              end
            end
          end
      end
  end
with parse_elems (fuel : nat) (acc : list json) (s : string) : option (json * string) :=
  match fuel with
  | O => None
  | S n =>
      match parse_value n s with
      | None => None
      | Some (v, r) =>
          match skip_ws r with
          | String c t =>
              if Ascii.eqb c c_comma then parse_elems n (acc ++ [v]) t
              else if Ascii.eqb c c_rbracket then Some (JArr (acc ++ [v]), t)
              else None
          | "" => None
          end
      end
  end
with parse_members (fuel : nat) (acc : list (string * json)) (s : string) : option (json * string) :=
  match fuel with
  | O => None
  | S n =>
      match skip_ws s with
      | String q s1 =>
          if Ascii.eqb q c_quote then
            match parse_str s1 with
            | None => None
            | Some (k, s2) =>
                match skip_ws s2 with
                | String c s3 =>
                    if Ascii.eqb c c_colon then
                      match parse_value n s3 with
                      | None => None
                      | Some (v, s4) =>
                          match skip_ws s4 with
                          | String d s5 =>
                              if Ascii.eqb d c_comma then parse_members n (obj_set k v acc) s5
                              else if Ascii.eqb d c_rbrace then Some (JObj (obj_set k v acc), s5)
                              else None
                          | "" => None
                          end
                      end
                    else None
                | "" => None
                end
            end
          else None
      | "" => None
      end
  end.

(** [JSON.parse(s)]: [None] is the thrown [SyntaxError]. *)
Definition json_parse (s : string) : option json :=
  match parse_value (2 * String.length s + 2) s with
  | Some (j, r) => if decide (skip_ws r = "") then Some j else None
  | None => None
  end.
