(* ===== verification/JsonRoundtrip.v ===== *)
(** * JSON round trip

    [json_parse (stringify j) = Some j] for every value whose numbers are
    integers below [10^21] and whose objects have distinct keys; [stringify] is
    injective on those values. *)

From S2P Require Import Prelude JsText Json.

(** ** Decimal integers *)

Lemma digit_char x : (x < 10)%N →
  is_digit (pretty_N_char x) = true ∧ digit_val (pretty_N_char x) = Z.of_N x ∧
  Ascii.eqb (pretty_N_char x) "0" = (x =? 0)%N.
Proof.
  intros Hx.
  assert (x = 0 ∨ x = 1 ∨ x = 2 ∨ x = 3 ∨ x = 4 ∨ x = 5 ∨ x = 6 ∨ x = 7 ∨ x = 8 ∨ x = 9)%N
    as Hc by lia.
  by repeat destruct Hc as [->|Hc]; subst.
Qed.

Lemma pretty_N_go_app x s t : pretty_N_go x s +:+ t = pretty_N_go x (s +:+ t).
Proof.
  revert s. induction (N.lt_wf_0 x) as [x _ IH]; intros s.
  assert (x = 0 ∨ 0 < x)%N as [->|?] by lia; [by rewrite !pretty_N_go_0|].
  rewrite !(pretty_N_go_step x) by done. rewrite IH by (by apply N.div_lt). done.
Qed.

(** The integer scanner reads back what [pretty] prints. *)
Lemma parse_int_go x s : (0 < x)%N →
  parse_int (pretty_N_go x s) =
  let '(v, _, r) := scan_digits (Z.of_N x) s in Some (v, r).
Proof.
  revert s. induction (N.lt_wf_0 x) as [x _ IH]; intros s Hx.
  rewrite pretty_N_go_step by done.
  pose proof (N.mod_lt x 10 ltac:(lia)) as Hm.
  destruct (digit_char (x mod 10) Hm) as (Hd & Hv & Hz).
  destruct (decide (x / 10 = 0)%N) as [H0|H0].
  - rewrite H0, pretty_N_go_0. cbn [parse_int]. rewrite Hz, Hd, Hv.
    assert (x mod 10 = x)%N as -> by (apply N.mod_small; apply N.div_small_iff in H0; lia).
    replace (x =? 0)%N with false by (symmetry; apply N.eqb_neq; lia). done.
  - assert (x / 10 < x)%N by (by apply N.div_lt). rewrite IH by (done || by apply N.neq_0_lt_0).
    cbn [scan_digits]. rewrite Hd, Hv.
    replace (Z.of_N (x / 10) * 10 + Z.of_N (x mod 10))%Z with (Z.of_N x)
      by (pose proof (N.div_mod x 10 ltac:(lia)); lia).
    by destruct (scan_digits _ _) as [[??]?].
Qed.

(** The text after a number does not continue it. *)
Definition num_stop (s : string) : bool :=
  match s with
  | "" => true
  | String c _ => negb (is_digit c || Ascii.eqb c "." || Ascii.eqb c "e" || Ascii.eqb c "E")
  end.

Lemma scan_digits_stop acc s : num_stop s = true → scan_digits acc s = (acc, O, s).
Proof. destruct s as [|c s]; [done|]. cbn. by destruct (is_digit c). Qed.

Lemma parse_int_pretty (x : N) s :
  num_stop s = true → parse_int (pretty x +:+ s) = Some (Z.of_N x, s).
Proof.
  intros Hs. unfold pretty, pretty_N. case_decide as Hx; [subst; done|].
  rewrite pretty_N_go_app, sapp_nil_l, parse_int_go by lia. by rewrite scan_digits_stop.
Qed.

Lemma pretty_N_head (x : N) : ∃ c t, pretty x = String c t ∧ is_digit c = true.
Proof.
  unfold pretty, pretty_N. case_decide as Hx; [by eexists _, _|].
  assert (H : ∀ x s, (0 < x)%N → ∃ c t, pretty_N_go x s = String c t ∧ is_digit c = true).
  { clear. intros x. induction (N.lt_wf_0 x) as [x _ IH]; intros s Hx.
    rewrite pretty_N_go_step by done.
    destruct (decide (x / 10 = 0)%N) as [H0|H0].
    - rewrite H0, pretty_N_go_0. eexists _, _. split; [done|].
      apply digit_char. by apply N.mod_lt.
    - apply IH; [by apply N.div_lt|by apply N.neq_0_lt_0]. }
  apply H. lia.
Qed.

(** The number of digits [pretty] prints. *)
Lemma pretty_N_go_length x s : (0 < x)%N →
  ∃ l, String.length (pretty_N_go x s) = S l + String.length s ∧ (10 ^ N.of_nat l ≤ x)%N.
Proof.
  revert s. induction (N.lt_wf_0 x) as [x _ IH]; intros s Hx.
  rewrite pretty_N_go_step by done.
  destruct (decide (x / 10 = 0)%N) as [H0|H0].
  - rewrite H0, pretty_N_go_0. exists 0. cbn. split; lia.
  - destruct (IH (x / 10)%N ltac:(by apply N.div_lt) (String (pretty_N_char (x mod 10)) s) ltac:(by apply N.neq_0_lt_0))
      as (l & Hl & Hp).
    exists (S l). split; [rewrite Hl; cbn; lia|].
    rewrite Nat2N.inj_succ, N.pow_succ_r'.
    etrans; [apply N.mul_le_mono_l, Hp|apply N.Div0.mul_div_le].
Qed.

Lemma Z_str_abs m : Z_str (Z.abs m) = pretty (Z.to_N (Z.abs m)).
Proof. by destruct m. Qed.

Lemma Z_str_sign n :
  Z_str n = if (n <? 0)%Z then "-" +:+ pretty (Z.to_N (Z.abs n)) else pretty (Z.to_N (Z.abs n)).
Proof. by destruct n. Qed.

(** ** Normal forms *)

Lemma norm_loop_value fuel m e m' e' :
  norm_loop fuel m e = (m', e') → (e ≤ e' ∧ m' * 10 ^ (e' - e) = m)%Z.
Proof.
  revert m e. induction fuel as [|n IH]; intros m e; cbn.
  - intros [= <- <-]. rewrite Z.sub_diag. lia.
  - destruct (Z.eqb_spec (m mod 10) 0) as [Hm|Hm].
    + intros [He Hv]%IH. split; [lia|].
      replace (e' - e)%Z with (Z.succ (e' - (e + 1))) by lia.
      rewrite Z.pow_succ_r by lia.
      pose proof (Z.div_mod m 10 ltac:(lia)). lia.
    + intros [= <- <-]. rewrite Z.sub_diag. lia.
Qed.

Lemma normalize_value m m' e' :
  normalize m 0 = (m', e') → (0 ≤ e' ∧ m' * 10 ^ e' = m)%Z.
Proof.
  unfold normalize. destruct (Z.eqb_spec m 0) as [->|Hm]; [by intros [= <- <-]|].
  intros [He Hv]%norm_loop_value. rewrite Z.sub_0_r in Hv. auto.
Qed.

Lemma num_str_int n m e :
  (Z.abs n < 10 ^ 21)%Z → normalize n 0 = (m, e) → num_str m e = Z_str n.
Proof.
  intros Hn Hnorm. apply normalize_value in Hnorm as [He Hv].
  unfold num_str. destruct (Z.eqb_spec m 0) as [->|Hm].
  { rewrite Z.mul_0_l in Hv. by subst. }
  replace (0 <=? e)%Z with true by (symmetry; apply Z.leb_le; lia).
  destruct (Z.leb_spec (Z.of_nat (String.length (Z_str (Z.abs m))) + e) 21) as [_|Hk];
    [by rewrite Hv|].
  exfalso. rewrite Z_str_abs in Hk. unfold pretty, pretty_N in Hk.
  case_decide as Hz; [lia|].
  destruct (pretty_N_go_length (Z.to_N (Z.abs m)) "" ltac:(lia)) as (l & Hl & Hp).
  rewrite Hl in Hk. cbn in Hk.
  assert (10 ^ Z.of_nat l ≤ Z.abs m)%Z as Hp'.
  { apply N2Z.inj_le in Hp. rewrite N2Z.inj_pow, nat_N_Z, Z2N.id in Hp by lia. done. }
  assert (10 ^ 21 ≤ 10 ^ (Z.of_nat l + e))%Z by (apply Z.pow_le_mono_r; lia).
  rewrite Z.pow_add_r in H by lia.
  assert (Z.abs n = Z.abs m * 10 ^ e)%Z as Hn'.
  { rewrite <- Hv, Z.abs_mul. f_equal. apply Z.abs_eq. by apply Z.pow_nonneg. }
  assert (0 < 10 ^ e)%Z by (apply Z.pow_pos_nonneg; lia). nia.
Qed.

Lemma parse_num_int n s :
  num_stop s = true → parse_num (Z_str n +:+ s) = Some (JInt n, s).
Proof.
  intros Hs. unfold parse_num, JInt. rewrite Z_str_sign.
  assert (Hrest : ∀ neg : bool,
    match parse_int (pretty (Z.to_N (Z.abs n)) +:+ s) with
    | None => None
    | Some (i, s2) =>
      match parse_frac i s2 with
      | None => None
      | Some (m, f, s3) =>
        match parse_exp s3 with
        | None => None
        | Some (ex, r) => Some (jnum (if neg then - m else m) (ex - Z.of_nat f), r)
        end
      end
    end = Some (jnum (if neg then - Z.abs n else Z.abs n) 0, s)).
  { intros neg. rewrite parse_int_pretty by done. rewrite Z2N.id by lia.
    destruct s as [|c s]; cbn; [done|]. cbn in Hs.
    destruct (is_digit c), (Ascii.eqb c "."); try done. cbn in *.
    destruct (Ascii.eqb c "e"), (Ascii.eqb c "E"); done. }
  destruct (Z.ltb_spec n 0) as [Hn|Hn].
  - change ("-" +:+ ?x +:+ s) with (String "-" (x +:+ s)). cbn [Ascii.eqb Bool.eqb].
    specialize (Hrest true). cbv beta iota in Hrest.
    rewrite sapp_assoc. change ("-" +:+ ?x) with (String "-" x). cbn.
    rewrite Hrest. by replace (- Z.abs n)%Z with n by lia.
  - specialize (Hrest false). destruct (pretty_N_head (Z.to_N (Z.abs n))) as (c & t & E & Hc).
    rewrite E in Hrest |- *. rewrite sapp_cons in Hrest |- *.
    destruct (Ascii.eqb_spec c "-") as [->|_]; [done|]. rewrite Hrest.
    by rewrite Z.abs_eq by lia.
Qed.

(** ** Strings *)

Lemma parse_str_unicode h1 h2 h3 h4 u t :
  hex4 h1 h2 h3 h4 = Some u → (u < 55296)%N →
  parse_str (String c_backslash (String "u" (String h1 (String h2 (String h3 (String h4 t))))))
  = cons_str (utf8 u) (parse_str t).
Proof.
  intros Hh Hu. cbn -[hex4 utf8 N.leb parse_str]. unfold parse_str at 1. fold parse_str.
  cbn [Ascii.eqb Bool.eqb c_quote c_backslash]. cbn -[hex4 utf8 N.leb parse_str]. rewrite Hh.
  assert ((55296 <=? u)%N = false) as Hle by (apply N.leb_gt; lia).
  destruct t as [|b [|v [|l1 [|l2 [|l3 [|l4 t]]]]]]; try reflexivity.
  destruct (hex4 l1 l2 l3 l4); [|reflexivity].
  by rewrite Hle, !andb_false_r.
Qed.

Lemma parse_str_escape_char c t :
  parse_str (escape_char c +:+ t) = cons_str (String c "") (parse_str t).
Proof.
  destruct c as [[] [] [] [] [] [] [] []]; first
    [ reflexivity
    | match goal with |- context [escape_char ?c] =>
        change (escape_char c +:+ t) with
          (String c_backslash (String "u" (String "0" (String "0"
             (String (hex_char (code c / 16)) (String (hex_char (code c mod 16)) t))))));
        apply (parse_str_unicode "0" "0" (hex_char (code c / 16)) (hex_char (code c mod 16)) (code c));
        reflexivity
      end ].
Qed.

Lemma parse_str_quote s rest :
  parse_str (escape s +:+ String c_quote rest) = Some (s, rest).
Proof.
  induction s as [|c s IH]; [done|]. cbn [escape].
  rewrite sapp_assoc, parse_str_escape_char, IH. done.
Qed.

(** ** Values *)

(** The values [JSON.stringify] prints exactly: integers below [10^21] and
    objects whose keys are distinct. *)
Fixpoint json_ok (j : json) : Prop :=
  match j with
  | JNum m e => ∃ n, (Z.abs n < 10 ^ 21)%Z ∧ normalize n 0 = (m, e)
  | JArr l => Forall id (json_ok <$> l)
  | JObj l => NoDup l.*1 ∧ Forall id ((λ kv, json_ok kv.2) <$> l)
  | _ => True
  end.

Lemma skip_ws_cons c s : is_json_ws c = false → skip_ws (String c s) = String c s.
Proof. intros H. cbn. by rewrite H. Qed.

(** The first byte of a printed value starts no white space and no closing
    bracket. *)
Definition value_head (c : ascii) : bool :=
  negb (is_json_ws c || Ascii.eqb c c_rbracket || Ascii.eqb c c_rbrace).

Lemma pretty_N_digits (x : N) : sforall is_digit (pretty x) = true.
Proof.
  unfold pretty, pretty_N. case_decide as Hx; [done|].
  assert (H : ∀ x s, sforall is_digit s = true → sforall is_digit (pretty_N_go x s) = true); [|by apply H].
  clear. intros x. induction (N.lt_wf_0 x) as [x _ IH]; intros s Hs.
  assert (x = 0 ∨ 0 < x)%N as [->|?] by lia; [by rewrite pretty_N_go_0|].
  rewrite pretty_N_go_step by done. apply IH; [by apply N.div_lt|]. cbn.
  rewrite Hs, andb_true_r. apply digit_char. by apply N.mod_lt.
Qed.

Lemma Z_str_digits n : (0 ≤ n)%Z → sforall is_digit (Z_str n) = true.
Proof. intros Hn. rewrite <- (Z.abs_eq n) by done. rewrite Z_str_abs. apply pretty_N_digits. Qed.

Lemma Z_str_head n : ∃ c t, Z_str n = String c t ∧ (is_digit c || Ascii.eqb c "-") = true.
Proof.
  rewrite Z_str_sign. destruct (n <? 0)%Z; [by eexists _, _|].
  destruct (pretty_N_head (Z.to_N (Z.abs n))) as (c & t & -> & Hc).
  eexists _, _. split; [done|]. by rewrite Hc.
Qed.

(** A byte that starts a number starts no other kind of value. *)
Lemma num_head_cases c :
  (is_digit c || Ascii.eqb c "-") = true →
  value_head c = true ∧ Ascii.eqb c c_lbrace = false ∧ Ascii.eqb c c_lbracket = false ∧
  Ascii.eqb c c_quote = false ∧ Ascii.eqb "n" c = false ∧ Ascii.eqb "t" c = false ∧
  Ascii.eqb "f" c = false.
Proof. destruct c as [[] [] [] [] [] [] [] []]; try done; cbn; auto 10. Qed.

Lemma stringify_head j :
  json_ok j → ∃ c t, stringify j = String c t ∧ value_head c = true.
Proof.
  destruct j as [|[]|m e|s|l|l]; cbn; try (intros _; by eexists _, _).
  intros (n & Hn & Hnorm). rewrite (num_str_int n) by done.
  destruct (Z_str_head n) as (c & t & -> & Hc). eexists _, _. split; [done|].
  by apply num_head_cases in Hc as [? _].
Qed.

Lemma parse_value_num fuel n s :
  num_stop s = true → parse_value (S fuel) (Z_str n +:+ s) = Some (JInt n, s).
Proof.
  intros Hs. pose proof (parse_num_int n s Hs) as Hp.
  destruct (Z_str_head n) as (c & t & E & Hc). rewrite E in Hp |- *.
  rewrite sapp_cons in Hp |- *.
  apply num_head_cases in Hc as (Hv & H1 & H2 & H3 & H4 & H5 & H6).
  cbn [parse_value]. rewrite skip_ws_cons
    by (unfold value_head in Hv; by destruct (is_json_ws c)).
  rewrite H1, H2, H3. cbn [strip_prefix]. by rewrite H4, H5, H6.
Qed.

Lemma obj_set_fresh k v l : k ∉ l.*1 → obj_set k v l = l ++ [(k, v)].
Proof.
  induction l as [|[k' v'] l IH]; cbn; [done|]. intros Hk.
  case_decide as E; [subst; exfalso; apply Hk; left|]. by rewrite IH by set_solver.
Qed.

(** The round trip of one value, for any fuel above twice its length. *)
Definition reads_back (j : json) : Prop :=
  ∀ fuel rest, 2 * String.length (stringify j) < fuel → num_stop rest = true →
  parse_value fuel (stringify j +:+ rest) = Some (j, rest).

Lemma join_cons sep x y l : join sep (x :: y :: l) = x +:+ sep +:+ join sep (y :: l).
Proof. done. Qed.

Lemma parse_elems_join l fuel acc rest :
  Forall reads_back l → l ≠ [] →
  2 * String.length (join "," (stringify <$> l)) + 1 < fuel →
  parse_elems fuel acc (join "," (stringify <$> l) +:+ String c_rbracket rest)
  = Some (JArr (acc ++ l), rest).
Proof.
  intros Hl. revert fuel acc. induction Hl as [|j l Hj Hl IH]; intros fuel acc Hne Hf; [done|].
  destruct fuel as [|fuel]; [lia|]. cbn [parse_elems].
  destruct l as [|j' l].
  - cbn [fmap list_fmap join] in Hf |- *. rewrite Hj by (done || lia).
    cbn [skip_ws]. done.
  - cbn [fmap list_fmap] in Hf, IH |- *. rewrite join_cons in Hf |- *.
    rewrite !slength_app in Hf. cbn in Hf.
    rewrite !sapp_assoc, Hj by (done || lia).
    change ("," +:+ ?x) with (String c_comma x). rewrite skip_ws_cons by done.
    change (Ascii.eqb c_comma c_comma) with true. cbn iota.
    rewrite IH by (done || (cbn in *; lia)). by rewrite <- app_assoc.
Qed.

Lemma NoDup_app_cons_fresh {A} (k : A) l1 l2 :
  NoDup (l1 ++ (k :: l2)) → (k ∉ l1) ∧ NoDup ((l1 ++ [k]) ++ l2).
Proof.
  intros H. split.
  - apply NoDup_app in H as (_ & H & _). intros Hk. apply (H k Hk). left.
  - by rewrite <- app_assoc.
Qed.

Definition member (kv : string * json) : string :=
  quote kv.1 +:+ String c_colon (stringify kv.2).

Lemma member_length kv :
  String.length (stringify kv.2) + 3 ≤ String.length (member kv).
Proof. unfold member, quote. rewrite slength_app. cbn. rewrite slength_app. cbn. lia. Qed.

(** One member at the head of the text, up to the byte after its value. *)
Lemma parse_members_step k v fuel acc c t :
  reads_back v → 2 * String.length (member (k, v)) < S fuel → num_stop (String c t) = true →
  is_json_ws c = false →
  parse_members (S fuel) acc (member (k, v) +:+ String c t) =
  (if Ascii.eqb c c_comma then parse_members fuel (obj_set k v acc) t
   else if Ascii.eqb c c_rbrace then Some (JObj (obj_set k v acc), t)
   else None).
Proof.
  intros Hv Hf Hs Hc. pose proof (member_length (k, v)) as Hm. cbn in Hm.
  unfold member at 1, quote. cbn [fst snd]. rewrite !sapp_cons, !sapp_assoc.
  cbn [parse_members skip_ws]. rewrite !sapp_cons.
  change (is_json_ws c_quote) with false. cbn iota.
  change (Ascii.eqb c_quote c_quote) with true. cbn iota.
  rewrite sapp_nil_l, parse_str_quote. cbn [skip_ws].
  change (is_json_ws c_colon) with false. cbn iota.
  change (Ascii.eqb c_colon c_colon) with true. cbn iota.
  rewrite Hv by (done || lia). by rewrite skip_ws_cons.
Qed.

Lemma parse_members_join l fuel acc rest :
  Forall (λ kv, reads_back kv.2) l → l ≠ [] → NoDup (acc.*1 ++ l.*1) →
  2 * String.length (join "," (member <$> l)) < fuel →
  parse_members fuel acc (join "," (member <$> l) +:+ String c_rbrace rest)
  = Some (JObj (acc ++ l), rest).
Proof.
  intros Hl. revert fuel acc.
  induction Hl as [|[k v] l Hv Hl IH]; intros fuel acc Hne Hnd Hf; [done|].
  destruct fuel as [|fuel]; [lia|]. cbn in Hnd.
  apply NoDup_app_cons_fresh in Hnd as [Hk Hnd].
  destruct l as [|kv' l].
  - cbn [fmap list_fmap join] in Hf |- *. rewrite parse_members_step by done.
    cbn. by rewrite obj_set_fresh.
  - cbn [fmap list_fmap] in Hf, IH |- *. rewrite join_cons in Hf |- *.
    rewrite !slength_app in Hf. cbn in Hf.
    rewrite !sapp_assoc. change ("," +:+ ?x) with (String c_comma x).
    rewrite parse_members_step by (done || lia). cbn [Ascii.eqb].
    change (Ascii.eqb c_comma c_comma) with true. cbn iota.
    rewrite IH; [by rewrite obj_set_fresh, <- app_assoc by done|done| |cbn in *; lia].
    by rewrite obj_set_fresh, fmap_app by done.
Qed.

Lemma join_head sep x l c t : x = String c t → ∃ t', join sep (x :: l) = String c t'.
Proof. intros ->. destruct l; cbn; [by eexists|]. rewrite sapp_cons. by eexists. Qed.

Lemma parse_value_arr l fuel rest :
  Forall reads_back l → Forall json_ok l → 2 * String.length (stringify (JArr l)) < fuel →
  parse_value fuel (stringify (JArr l) +:+ rest) = Some (JArr l, rest).
Proof.
  intros Hl Hok Hf. destruct fuel as [|fuel]; [lia|]. cbn [stringify] in Hf |- *.
  rewrite sapp_cons, sapp_assoc. change ("]" +:+ rest) with (String c_rbracket rest).
  cbn [String.length] in Hf. rewrite slength_app in Hf. cbn in Hf.
  destruct l as [|j l]; [done|].
  assert (∃ c t', join "," (stringify <$> j :: l) = String c t' ∧ value_head c = true)
    as (c & t' & E & Hc).
  { apply Forall_cons in Hok as [Hj _]. destruct (stringify_head j Hj) as (c & t & Ec & Hc).
    destruct (join_head "," (stringify j) (stringify <$> l) c t Ec) as [t' ?]. eauto. }
  cbn [parse_value skip_ws]. change (is_json_ws c_lbracket) with false. cbn iota.
  change (Ascii.eqb c_lbracket c_lbrace) with false. cbn iota.
  change (Ascii.eqb c_lbracket c_lbracket) with true. cbn iota.
  pose proof (parse_elems_join (j :: l) fuel [] rest Hl ltac:(done) ltac:(cbn in *; lia)) as Hp.
  rewrite E in Hp |- *. rewrite sapp_cons in Hp |- *. unfold value_head in Hc.
  rewrite skip_ws_cons by (by destruct (is_json_ws c)).
  destruct (Ascii.eqb c c_rbracket); [by rewrite orb_true_r in Hc|]. exact Hp.
Qed.

Lemma parse_value_obj l fuel rest :
  Forall (λ kv, reads_back kv.2) l → NoDup l.*1 →
  2 * String.length (stringify (JObj l)) < fuel →
  parse_value fuel (stringify (JObj l) +:+ rest) = Some (JObj l, rest).
Proof.
  intros Hl Hnd Hf. destruct fuel as [|fuel]; [lia|]. cbn [stringify] in Hf |- *.
  change (λ kv : string * json, quote kv.1 +:+ String c_colon (stringify kv.2)) with member in *.
  rewrite sapp_cons, sapp_assoc. change ("}" +:+ rest) with (String c_rbrace rest).
  cbn [String.length] in Hf. rewrite slength_app in Hf. cbn in Hf.
  destruct l as [|kv l]; [done|].
  destruct (join_head "," (member kv) (member <$> l) c_quote
              (escape kv.1 +:+ String c_quote "" +:+ String c_colon (stringify kv.2))) as [t' E].
  { unfold member, quote. by rewrite sapp_cons, sapp_assoc. }
  cbn [parse_value skip_ws]. change (is_json_ws c_lbrace) with false. cbn iota.
  change (Ascii.eqb c_lbrace c_lbrace) with true. cbn iota.
  pose proof (parse_members_join (kv :: l) fuel [] rest Hl ltac:(done) Hnd ltac:(cbn in *; lia)) as Hp.
  cbn [fmap list_fmap] in Hp |- *. rewrite E in Hp |- *. exact Hp.
Qed.

Lemma json_ok_reads_back j : json_ok j → reads_back j.
Proof.
  induction j as [|b|m e|s|l IH|l IH] using json_tree_ind; intros Hok fuel rest Hf Hs.
  - destruct fuel; [cbn in Hf; lia|]. done.
  - destruct fuel; [lia|]. by destruct b.
  - destruct Hok as (n & Hn & Hnorm). cbn [stringify] in *.
    rewrite (num_str_int n) in * by done. destruct fuel; [lia|].
    rewrite parse_value_num by done. unfold JInt, jnum. by rewrite Hnorm.
  - destruct fuel; [lia|]. cbn [stringify]. unfold quote.
    rewrite sapp_cons, sapp_assoc. cbn [parse_value skip_ws].
    change (is_json_ws c_quote) with false. cbn iota.
    change (Ascii.eqb c_quote c_lbrace) with false. change (Ascii.eqb c_quote c_lbracket) with false.
    change (Ascii.eqb c_quote c_quote) with true. cbn iota. rewrite sapp_cons, sapp_nil_l.
    by rewrite parse_str_quote.
  - cbn in Hok. rewrite Forall_fmap in Hok. apply parse_value_arr; [|done|done].
    eapply Forall_impl; [apply (proj2 (Forall_and _ _) (conj IH Hok))|].
    intros ? [H1 H2]. auto.
  - cbn in Hok. destruct Hok as [Hnd Hok]. rewrite Forall_fmap in Hok.
    apply parse_value_obj; [|done|done].
    eapply Forall_impl; [apply (proj2 (Forall_and _ _) (conj IH Hok))|].
    intros ? [H1 H2]. auto.
Qed.

Lemma json_parse_stringify j : json_ok j → json_parse (stringify j) = Some j.
Proof.
  intros Hok. unfold json_parse.
  pose proof (json_ok_reads_back j Hok (2 * String.length (stringify j) + 2) "") as H.
  rewrite sapp_nil_r in H. by rewrite H by (done || lia).
Qed.

Lemma stringify_inj j1 j2 :
  json_ok j1 → json_ok j2 → stringify j1 = stringify j2 → j1 = j2.
Proof.
  intros H1 H2 E. apply json_parse_stringify in H1, H2. congruence.
Qed.
