(* ===== verification/Web.v ===== *)
(** * The web platform objects the UI uses

    [URLSearchParams] as the ordered list of its pairs, request [Headers],
    [decodeURIComponent], and the browser state the API client reads
    ([window.location], [document.cookie]). *)

From S2P Require Import Prelude JsText Json.

(** ** URLSearchParams *)

Module Params.

(** [get(k)]: the first value, or null. *)
Definition get (k : string) (p : list (string * string)) : option string :=
  snd <$> List.find (λ kv, bool_decide (kv.1 = k)) p.

(** [delete(k)]: every pair with the key. *)
Definition delete (k : string) (p : list (string * string)) : list (string * string) :=
  List.filter (λ kv, negb (bool_decide (kv.1 = k))) p.

(** [set(k, v)]: the first pair with the key gets the value and the others are
    removed; without one a pair is appended. *)
Fixpoint set (k v : string) (p : list (string * string)) : list (string * string) :=
  match p with
  | [] => [(k, v)]
  | (k', v') :: p' =>
      if decide (k' = k) then (k, v) :: delete k p' else (k', v') :: set k v p'
  end.

Lemma get_set_same k v p : get k (set k v p) = Some v.
Proof.
  unfold get. induction p as [|[k' v'] p IH]; cbn.
  - by rewrite bool_decide_eq_true_2.
  - case_decide as E; cbn; [by rewrite bool_decide_eq_true_2|].
    by rewrite bool_decide_eq_false_2.
Qed.

Lemma get_delete_same k p : get k (delete k p) = None.
Proof.
  unfold get, delete. rewrite find_filter_none; [done|].
  intros x ->. done.
Qed.

Lemma get_delete_other k k' p : k ≠ k' → get k (delete k' p) = get k p.
Proof.
  intros Hk. unfold get, delete. rewrite find_filter_same; [done|].
  intros x ?; bools. apply negb_true_iff, bool_decide_eq_false. congruence.
Qed.

Lemma get_set_other k k' v p : k ≠ k' → get k (set k' v p) = get k p.
Proof.
  intros Hk. unfold get. induction p as [|[k2 v2] p IH]; cbn.
  - by rewrite bool_decide_eq_false_2.
  - case_decide as E; cbn.
    + subst. rewrite !bool_decide_eq_false_2 by done. by apply get_delete_other.
    + case_bool_decide; [done|]. done.
Qed.

Lemma delete_idemp k p : delete k (delete k p) = delete k p.
Proof.
  unfold delete. induction p as [|x p IH]; cbn; [done|].
  destruct (negb _) eqn:E; cbn; [rewrite E; by f_equal|done].
Qed.

Lemma set_set k v w p : set k v (set k w p) = set k v p.
Proof.
  induction p as [|[k' v'] p IH]; cbn.
  - by rewrite decide_True by done.
  - case_decide as E; cbn.
    + rewrite decide_True by done. by rewrite delete_idemp.
    + rewrite decide_False by done. by rewrite IH.
Qed.

Lemma NoDup_delete k p : NoDup p.*1 → NoDup (delete k p).*1.
Proof. apply NoDup_map_filter. Qed.

Lemma elem_of_keys_set k v p x : x ∈ (set k v p).*1 → x = k ∨ x ∈ p.*1.
Proof.
  induction p as [|[k' v'] p IH]; cbn; [set_solver|].
  case_decide as E; cbn; [|set_solver]. intros [->|Hx]%elem_of_cons; [by left|].
  right. right. apply list_elem_of_fmap in Hx as ([k2 v2] & -> & Hx).
  apply list_elem_of_In, filter_In in Hx as [Hx _]. apply list_elem_of_fmap.
  exists (k2, v2). split; [done|]. by apply list_elem_of_In.
Qed.

Lemma NoDup_set k v p : NoDup p.*1 → NoDup (set k v p).*1.
Proof.
  induction p as [|[k' v'] p IH]; cbn.
  - intros _. apply NoDup_singleton.
  - intros [Hk Hp]%NoDup_cons. case_decide as E; cbn; apply NoDup_cons.
    + split; [|by apply NoDup_delete]. subst.
      intros (x & Hx & Hin)%list_elem_of_fmap.
      apply list_elem_of_In, filter_In in Hin as [_ Hin]. bools. congruence.
    + split; [|auto]. intros [->|?]%elem_of_keys_set; done.
Qed.

End Params.

(** ** Request headers *)

(** [headers.set(k, v)] on the header list; names compare without case. *)
Definition header_set (k v : string) (h : list (string * string)) : list (string * string) :=
  List.filter (λ kv, negb (bool_decide (toLowerCase kv.1 = toLowerCase k))) h ++ [(k, v)].

Definition header_get (k : string) (h : list (string * string)) : option string :=
  snd <$> List.find (λ kv, bool_decide (toLowerCase kv.1 = toLowerCase k)) h.

Lemma header_get_set k v h : header_get k (header_set k v h) = Some v.
Proof.
  unfold header_get, header_set. rewrite find_app, find_filter_none.
  - cbn. by rewrite bool_decide_eq_true_2.
  - intros x ?; bools. apply negb_false_iff. by apply bool_decide_eq_true.
Qed.

(** ** decodeURIComponent *)

(** The byte of one [%XX] at the head of the text. *)
Definition percent_byte (s : string) : option (N * string) :=
  match s with
  | String p (String a (String b r)) =>
      if Ascii.eqb p "%"
      then match hex_val a, hex_val b with
           | Some x, Some y => Some ((x * 16 + y)%N, r)
           | _, _ => None
           end
      else None
  | _ => None
  end.

(** [n] continuation bytes, each percent-encoded. *)
Fixpoint percent_conts (n : nat) (s : string) : option (list N * string) :=
  match n with
  | O => Some ([], s)
  | S m =>
      match percent_byte s with
      | Some (b, r) =>
          if (128 <=? b)%N && (b <=? 191)%N
          then match percent_conts m r with
               | Some (bs, r') => Some (b :: bs, r')
               | None => None
               end
          else None
      | None => None
      end
  end.

(** How many continuation bytes follow a leading byte. *)
Definition lead_len (b : N) : option nat :=
  if (194 <=? b)%N && (b <=? 223)%N then Some 1
  else if (224 <=? b)%N && (b <=? 239)%N then Some 2
  else if (240 <=? b)%N && (b <=? 244)%N then Some 3
  else None.

(** The ranges of the second byte that exclude overlong forms, surrogates and
    code points above U+10FFFF. *)
Definition second_ok (b c : N) : bool :=
  if (b =? 224)%N then (160 <=? c)%N
  else if (b =? 237)%N then (c <=? 159)%N
  else if (b =? 240)%N then (144 <=? c)%N
  else if (b =? 244)%N then (c <=? 143)%N
  else true.

(** One percent-encoded character. *)
Definition percent_char (s : string) : option (string * string) :=
  match percent_byte s with
  | None => None
  | Some (b, r) =>
      if (b <? 128)%N then Some (str_of_codes [b], r)
      else match lead_len b with
           | None => None
           | Some n =>
               match percent_conts n r with
               | Some (c :: cs, r') =>
                   if second_ok b c then Some (str_of_codes (b :: c :: cs), r') else None
               | _ => None
               end
           end
  end.

Fixpoint decode_loop (fuel : nat) (s : string) : exc string :=
  match fuel with
  | O => Ok ""
  | S n =>
      match s with
      | "" => Ok ""
      | String c r =>
          if Ascii.eqb c "%"
          then match percent_char s with
               | Some (x, r') => (t <- decode_loop n r' ;; Ok (x +:+ t))%exc
               | None => Throw "URI malformed"
               end
          else (t <- decode_loop n r ;; Ok (String c t))%exc
      end
  end.

(** [decodeURIComponent(s)]; each step consumes a byte. *)
Definition decodeURIComponent (s : string) : exc string := decode_loop (String.length s) s.

Lemma decode_plain s :
  sforall (λ c, negb (Ascii.eqb c "%")) s = true → decodeURIComponent s = Ok s.
Proof.
  unfold decodeURIComponent. induction s as [|c s IH]; [done|]. cbn. intros ?; bools.
  rewrite H. by rewrite IH.
Qed.

(** ** The browser *)

(** What the API client reads of the browser: the origin when there is a
    [window], the path of the current page, and [document.cookie]. *)
Record browser := Browser {
  origin : option string;
  pathname : string;
  cookie : string;
}.
