(* ===== verification/Search.v ===== *)
(** * Query strings of URLs

    [URLSearchParams] to and from text, [encodeURIComponent], and the parts of a
    path with a query that the router tells apart, on texts in UTF-8. *)

From S2P Require Import Prelude JsText Json Web.

(** ** Percent encoding *)

Definition hex_upper (n : N) : ascii := ascii_of_N (if (n <? 10)%N then 48 + n else 55 + n)%N.

(** A byte as [%XX]. *)
Definition percent (c : ascii) : string :=
  String "%" (String (hex_upper (code c / 16)) (String (hex_upper (code c mod 16)) "")).

Definition is_alnum (c : ascii) : bool := is_digit c || is_lower c || is_upper c.

Definition char_in (l : list ascii) (c : ascii) : bool := existsb (Ascii.eqb c) l.

Fixpoint encode_with (f : ascii → string) (s : string) : string :=
  match s with "" => "" | String c r => f c +:+ encode_with f r end.

(** application/x-www-form-urlencoded *)
Definition form_plain (c : ascii) : bool := is_alnum c || char_in ["*"; "-"; "."; "_"]%char c.
Definition form_char (c : ascii) : string :=
  if Ascii.eqb c " " then "+" else if form_plain c then String c "" else percent c.

Definition form_encode : string → string := encode_with form_char.

Definition uri_plain (c : ascii) : bool :=
  is_alnum c || char_in ["-"; "_"; "."; "!"; "~"; "*"; "'"; "("; ")"]%char c.
Definition uri_char (c : ascii) : string := if uri_plain c then String c "" else percent c.

Definition encodeURIComponent : string → string := encode_with uri_char.

(** Reading: a plus is a space, and a percent sign without two hexadecimal digits
    after it is itself. *)
Fixpoint form_decode (s : string) : string :=
  match s with
  | "" => ""
  | String c r =>
      if Ascii.eqb c "+" then String " " (form_decode r)
      else if Ascii.eqb c "%" then
        match r with
        | String a (String b r') =>
            match hex_val a, hex_val b with
            | Some x, Some y => String (ascii_of_N (x * 16 + y)) (form_decode r')
            | _, _ => String c (form_decode r)
            end
        | _ => String c (form_decode r)
        end
      else String c (form_decode r)
  end.

(** ** Search parameters as text *)

(** The text before the first [c] and the text after it. *)
Fixpoint cut (c : ascii) (s : string) : string * option string :=
  match s with
  | "" => ("", None)
  | String a r => if Ascii.eqb a c then ("", Some r) else let '(x, y) := cut c r in (String a x, y)
  end.

(** [new URLSearchParams(s)], without the leading question mark. *)
Definition parse_pair (w : string) : string * string :=
  let '(k, v) := cut "=" w in (form_decode k, form_decode (default "" v)).

Definition parse_search (s : string) : list (string * string) :=
  parse_pair <$> List.filter truthy (split_on "&" s).

(** [p.toString()] *)
Definition pair_text (kv : string * string) : string := form_encode kv.1 +:+ "=" +:+ form_encode kv.2.

Definition search_text (p : list (string * string)) : string := join "&" (pair_text <$> p).

(** The router's [parsePath]: the hash is cut off first, then the query. *)
Definition parsePath (to : string) : string * string :=
  let path := (cut "#" to).1 in
  let '(p, q) := cut "?" path in (p, default "" q).

(** ** Lemmas *)

(** The characters that have a meaning in a query string. *)
Definition separator (c : ascii) : bool := char_in ["&"; "="; "#"; "?"]%char c.

(** The two digits of a byte are read back. *)
Definition hex_pair_ok (c : ascii) : bool :=
  bool_decide (hex_val (hex_upper (code c / 16)) = Some (code c / 16)%N) &&
  bool_decide (hex_val (hex_upper (code c mod 16)) = Some (code c mod 16)%N).

Lemma hex_val_upper c :
  hex_val (hex_upper (code c / 16)) = Some (code c / 16)%N ∧
  hex_val (hex_upper (code c mod 16)) = Some (code c mod 16)%N.
Proof.
  enough (Hall : ∀ c, hex_pair_ok c = true).
  { specialize (Hall c). unfold hex_pair_ok in Hall. by bools. }
  apply ascii_cases. vm_compute. reflexivity.
Qed.

Lemma decode_percent c t : form_decode (percent c +:+ t) = String c (form_decode t).
Proof.
  destruct (hex_val_upper c) as [H1 H2]. unfold percent. rewrite !sapp_cons, sapp_nil_l.
  cbn [form_decode]. change (Ascii.eqb "%" "+") with false. change (Ascii.eqb "%" "%") with true.
  cbn iota. rewrite H1, H2. f_equal.
  replace (code c / 16 * 16 + code c mod 16)%N with (code c)
    by (pose proof (N.div_mod (code c) 16 ltac:(done)); lia).
  apply ascii_N_embedding.
Qed.

Lemma decode_plain_char c t :
  char_in ["+"; "%"]%char c = false → form_decode (String c "" +:+ t) = String c (form_decode t).
Proof.
  unfold char_in. cbn [existsb]. intros [Hp [Hq _]%orb_false_iff]%orb_false_iff.
  change (form_decode (String c t) = String c (form_decode t)). cbn [form_decode]. by rewrite Hp, Hq.
Qed.

Lemma decode_form_char c t : form_decode (form_char c +:+ t) = String c (form_decode t).
Proof.
  unfold form_char. destruct (Ascii.eqb_spec c " ") as [->|Hs]; [done|].
  destruct (form_plain c) eqn:E; [|apply decode_percent]. apply decode_plain_char.
  apply negb_true_iff. revert E. apply (ascii_impl form_plain (λ c, negb (char_in ["+"; "%"]%char c))).
  vm_compute. reflexivity.
Qed.

Lemma decode_uri_char c t : form_decode (uri_char c +:+ t) = String c (form_decode t).
Proof.
  unfold uri_char. destruct (uri_plain c) eqn:E; [|apply decode_percent]. apply decode_plain_char.
  apply negb_true_iff. revert E. apply (ascii_impl uri_plain (λ c, negb (char_in ["+"; "%"]%char c))).
  vm_compute. reflexivity.
Qed.

Lemma decode_encode (f : ascii → string) s :
  (∀ c t, form_decode (f c +:+ t) = String c (form_decode t)) → form_decode (encode_with f s) = s.
Proof. intros Hf. induction s as [|c s IH]; [done|]. cbn [encode_with]. by rewrite Hf, IH. Qed.

Lemma form_roundtrip s : form_decode (form_encode s) = s.
Proof. apply decode_encode, decode_form_char. Qed.

Lemma uri_roundtrip s : form_decode (encodeURIComponent s) = s.
Proof. apply decode_encode, decode_uri_char. Qed.

(** Encoded texts have no separators. *)
Lemma encode_no_separator (f : ascii → string) s :
  forallb (λ n, sforall (λ x, negb (separator x)) (f (ascii_of_N (N.of_nat n)))) (seq 0 256) = true →
  sforall (λ x, negb (separator x)) (encode_with f s) = true.
Proof.
  intros Hf. assert (∀ c, sforall (λ x, negb (separator x)) (f c) = true) as Hc
    by (by apply (ascii_cases (λ c, sforall (λ x, negb (separator x)) (f c)))).
  induction s as [|c s IH]; [done|]. cbn [encode_with]. by rewrite sforall_app, Hc, IH.
Qed.

Lemma form_encode_no_separator s : sforall (λ x, negb (separator x)) (form_encode s) = true.
Proof. apply encode_no_separator. vm_compute. reflexivity. Qed.

Lemma uri_no_separator s : sforall (λ x, negb (separator x)) (encodeURIComponent s) = true.
Proof. apply encode_no_separator. vm_compute. reflexivity. Qed.

(** A text without separators has none of a given one. *)
Lemma no_separator_char c s :
  separator c = true → sforall (λ x, negb (separator x)) s = true →
  sforall (λ x, negb (Ascii.eqb x c)) s = true.
Proof.
  intros Hc. apply sforall_impl. intros x Hx. destruct (Ascii.eqb_spec x c) as [->|]; [|done].
  by rewrite Hc in Hx.
Qed.

Lemma cut_none c s : sforall (λ x, negb (Ascii.eqb x c)) s = true → cut c s = (s, None).
Proof. induction s as [|a s IH]; [done|]. cbn. intros ?; bools. by rewrite H, IH. Qed.

Lemma cut_some c s r :
  sforall (λ x, negb (Ascii.eqb x c)) s = true → cut c (s +:+ String c r) = (s, Some r).
Proof.
  induction s as [|a s IH]; intros Hs; [rewrite sapp_nil_l; cbn; by rewrite Ascii.eqb_refl|].
  rewrite sapp_cons. cbn in *. bools. by rewrite H, IH.
Qed.

(** A pair written with any two texts that decode to the key and the value. *)
Lemma parse_pair_text k v :
  sforall (λ x, negb (separator x)) k = true →
  parse_pair (k +:+ "=" +:+ v) = (form_decode k, form_decode v).
Proof.
  intros Hk. unfold parse_pair. change ("=" +:+ v) with (String "=" v).
  by rewrite cut_some by (by apply no_separator_char).
Qed.

Lemma pair_text_no_amp k v :
  sforall (λ x, negb (separator x)) k = true → sforall (λ x, negb (separator x)) v = true →
  sforall (λ x, negb (Ascii.eqb x "&")) (k +:+ "=" +:+ v) = true.
Proof. intros Hk Hv. rewrite !sforall_app. by rewrite (no_separator_char "&" k), (no_separator_char "&" v). Qed.

(** Search parameters that are written out and read are the same again. *)
Lemma search_roundtrip p : parse_search (search_text p) = p.
Proof.
  unfold parse_search, search_text. induction p as [|[k v] p IH]; [done|].
  assert (sforall (λ x, negb (Ascii.eqb x "&")) (pair_text (k, v)) = true) as Hn.
  { apply pair_text_no_amp; apply form_encode_no_separator. }
  assert (truthy (pair_text (k, v)) = true) as Ht.
  { unfold truthy, pair_text. apply bool_decide_eq_true. by intros [_ [? _]%sapp_eq_nil]%sapp_eq_nil. }
  assert (parse_pair (pair_text (k, v)) = (k, v)) as Hp.
  { unfold pair_text. rewrite parse_pair_text by apply form_encode_no_separator.
    cbn [fst snd]. by rewrite !form_roundtrip. }
  destruct p as [|kv p]; rewrite ?fmap_cons; cbn [fmap list_fmap join].
  - rewrite split_on_none by done. cbn [List.filter]. rewrite Ht. cbn [fmap list_fmap]. by rewrite Hp.
  - change (?x +:+ "&" +:+ ?y) with (x +:+ String "&" y). rewrite split_on_cons by done.
    cbn [List.filter]. rewrite Ht, fmap_cons, Hp. f_equal. exact IH.
Qed.
