(* ===== verification/Client.v ===== *)
(** * The API client

    [api/client.ts]: the API base URL, the CSRF header of mutating requests,
    the handling of a 401, [rawRequest] and its [rawGet]/[rawPost]/... wrappers,
    and [unwrap].  The network and the URL parser are outside the program: a
    request is a value, the response to it an argument, and [new URL(u, base)]
    a variable of the section that uses it. *)

From S2P Require Import Prelude JsText Json Web.

(** ** The base URL *)

Section base.
Variable b : browser.

Definition sameOriginBase : string :=
  match origin b with None => "" | Some o => o end.

(** [value.replace(/\/+$/, "")] *)
Definition strip_slashes (s : string) : string :=
  String.rev (strip_loop ["/"] (String.length s) (String.rev s)).

Definition normalizeApiBase (value : option string) : string :=
  match value with
  | Some v =>
      if decide (v = "") then sameOriginBase
      else
        let trimmed := strip_slashes v in
        if endsWith trimmed "/api/v1"
        then
          let s := drop_last (String.length "/api/v1") trimmed in
          if decide (s = "") then sameOriginBase else s
        else trimmed
  | None => "http://localhost:8000"
  end.
End base.

(** ** Cookies and the CSRF header *)

(** The longest prefix without a semicolon. *)
Fixpoint until_semicolon (s : string) : string :=
  match s with
  | "" => ""
  | String c r => if Ascii.eqb c ";" then "" else String c (until_semicolon r)
  end.

(** The cookie's value when the text starts with [name=]. *)
Definition cookie_here (name s : string) : option string :=
  until_semicolon <$> strip_prefix (name +:+ "=") s.

(** The value after the leftmost [; name=]. *)
Fixpoint cookie_scan (name s : string) : option string :=
  match s with
  | "" => None
  | String _ r =>
      match match strip_prefix "; " s with
            | Some t => cookie_here name t
            | None => None
            end with
      | Some v => Some v
      | None => cookie_scan name r
      end
  end.

(** The cookie [name] of [document.cookie]: at the start of the text or after a
    semicolon and a space, decoded. *)
Definition readCookie (b : browser) (name : string) : exc (option string) :=
  match match cookie_here name (cookie b) with
        | Some v => Some v
        | None => cookie_scan name (cookie b)
        end with
  | Some v => (d <- decodeURIComponent v ;; Ok (Some d))%exc
  | None => Ok None
  end.

Definition csrf_header : string := "X-Mantis-CSRF-Token".

Definition csrfHeaders (b : browser) : exc (list (string * string)) :=
  (csrf <- readCookie b "mantis_csrf" ;;
   match csrf with
   | Some c => if truthy c then Ok [(csrf_header, c)] else Ok []
   | None => Ok []
   end)%exc.

(** ** Requests and responses *)

Record request := Request {
  r_method : string;
  r_url : string;
  r_credentials : string;
  r_headers : list (string * string);
  r_body : option string;
}.

(** [res.text()] and [res.json()] may reject. *)
Record response := Response {
  status : Z;
  statusText : string;
  text : exc string;
  body_json : exc json;
}.

(** [res.ok] *)
Definition ok (r : response) : bool := (200 <=? status r)%Z && (status r <=? 299)%Z.

(** Whether a 401 notifies the session listener. *)
Definition handleUnauthorized (b : browser) (st : Z) : bool :=
  (st =? 401)%Z && negb (startsWith (pathname b) "/login").

Definition isMutating (method : string) : bool :=
  bool_decide (method ≠ "GET") && bool_decide (method ≠ "HEAD").

(** [authMiddleware.onRequest] *)
Definition onRequest (b : browser) (r : request) : exc request :=
  if isMutating (r_method r)
  then
    (hs <- csrfHeaders b ;;
     Ok (Request (r_method r) (r_url r) (r_credentials r)
           (foldl (λ h kv, header_set kv.1 kv.2 h) (r_headers r) hs) (r_body r)))%exc
  else Ok r.

(** [authMiddleware.onResponse]: the response as it is, and whether the session
    listener is notified. *)
Definition onResponse (b : browser) (r : response) : response * bool :=
  (r, handleUnauthorized b (status r)).

(** The request [rawRequest] gives to [fetch]. *)
Definition rawRequest_request (b : browser) (method url : string) (body : option json) : exc request :=
  (hs <- (if isMutating method then csrfHeaders b else Ok []) ;;
   Ok (Request method url "include"
         ((match body with Some _ => [("Content-Type", "application/json")] | None => [] end) ++ hs)
         (stringify <$> body)))%exc.

(** ** The typed client *)

(** The options of [createClient] that [apiClient] uses. *)
Record client_options := ClientOptions {
  baseUrl : string;
  credentials : option string;
}.

(** What the client relies on of [openapi-fetch], which builds the [Request] of a
    call from the options of the client, the method, the path and the body: the
    request has the method of the call, the fetch options given to [createClient]
    are those of every request, and no header but the default [Content-Type] is set
    before the middleware runs. *)
Class OpenapiFetch (construct : client_options → string → string → option json → request) := {
  construct_method : ∀ o m p bd, r_method (construct o m p bd) = m;
  construct_credentials : ∀ o m p bd c, credentials o = Some c → r_credentials (construct o m p bd) = c;
  construct_headers : ∀ o m p bd, Forall (λ kv, kv.1 = "Content-Type") (r_headers (construct o m p bd));
}.

(** [createClient<paths>({ baseUrl: API_BASE, credentials: "include" })] *)
Definition apiClient_options (b : browser) (vite_api_url : option string) : client_options :=
  ClientOptions (normalizeApiBase b vite_api_url) (Some "include").

(** The request a call of [apiClient] gives to [fetch]: the one the library builds,
    through [authMiddleware], the only middleware in use. *)
Definition apiClient_request (construct : client_options → string → string → option json → request)
    (b : browser) (vite_api_url : option string) (method path : string) (body : option json) : exc request :=
  onRequest b (construct (apiClient_options b vite_api_url) method path body).

(** What [rawRequest] does with the response: whether the session listener is
    notified, and the value or the error. *)
Definition rawRequest_response (b : browser) (res : response) : bool * exc (option json) :=
  (handleUnauthorized b (status res),
   if negb (ok res)
   then
     let t := match text res with Ok t => t | Throw _ => statusText res end in
     Throw (Z_str (status res) +:+ ": " +:+ t)
   else if (status res =? 204)%Z then Ok None
   else match body_json res with Ok j => Ok (Some j) | Throw m => Throw m end).

(** [rawRequest]: [fetch] gives a response or rejects. *)
Definition rawRequest (b : browser) (fetch : request → exc response)
    (method url : string) (body : option json) : bool * exc (option json) :=
  match rawRequest_request b method url body with
  | Throw m => (false, Throw m)
  | Ok r =>
      match fetch r with
      | Throw m => (false, Throw m)
      | Ok res => rawRequest_response b res
      end
  end.

Section urls.
(** [new URL(u, base).toString()]. *)
Variable newURL : string → string → string.
Variable b : browser.
(** [import.meta.env.VITE_API_URL] *)
Variable vite_api_url : option string.
Variable fetch : request → exc response.

Definition API_BASE : string := normalizeApiBase b vite_api_url.

Definition apiUrl (path : string) : string :=
  newURL (API_BASE +:+ path) (sameOriginBase b).

(** The search parameters [rawGet] sets: the defined ones, in order. *)
Definition rawGet_params (params : list (string * option string)) : list (string * string) :=
  foldl (λ p kv, match kv.2 with Some v => Params.set kv.1 v p | None => p end) [] params.

(** [withQuery u p]: the text of the URL [u] with the search parameters [p]. *)
Variable withQuery : string → list (string * string) → string.

Definition rawGet (path : string) (params : list (string * option string)) :=
  rawRequest b fetch "GET" (withQuery (apiUrl path) (rawGet_params params)) None.
Definition rawPost (path : string) (body : json) :=
  rawRequest b fetch "POST" (apiUrl path) (Some body).
Definition rawPatch (path : string) (body : json) :=
  rawRequest b fetch "PATCH" (apiUrl path) (Some body).
Definition rawPut (path : string) (body : json) :=
  rawRequest b fetch "PUT" (apiUrl path) (Some body).
Definition rawDelete (path : string) :=
  rawRequest b fetch "DELETE" (apiUrl path) None.
End urls.

(** ** unwrap *)

(** The result of a typed call: [{ data, error, response }]. *)
Record api_result := ApiResult {
  data : option json;
  error : option json;
  resp : response;
}.

Definition error_detail (e : json) : string :=
  match e with
  | JObj l => match obj_get "detail" l with
              | Some d => js_String d
              | None => stringify e
              end
  | _ => stringify e
  end.

Definition unwrap (r : api_result) : exc (option json) :=
  match error r with
  | Some e => Throw (Z_str (status (resp r)) +:+ ": " +:+ error_detail e)
  | None =>
      match data r with
      | None => if ok (resp r) then Ok None
                else Throw (Z_str (status (resp r)) +:+ ": empty response")
      | Some d => Ok (Some d)
      end
  end.

(** ** Lemmas *)

Fixpoint slashes (n : nat) : string :=
  match n with O => "" | S m => String "/" (slashes m) end.

Lemma slashes_snoc n : slashes n +:+ "/" = slashes (S n).
Proof. induction n as [|n IH]; [done|]. cbn. by rewrite sapp_cons, IH. Qed.

Lemma srev_slashes n : String.rev (slashes n) = slashes n.
Proof. induction n as [|n IH]; [done|]. cbn [slashes]. by rewrite srev_cons, IH, slashes_snoc. Qed.

Lemma strip_loop_slashes n fuel s :
  n ≤ fuel → strip_prefix "/" s = None →
  strip_loop ["/"] fuel (slashes n +:+ s) = s.
Proof.
  intros Hn Hs. revert fuel Hn. induction n as [|n IH]; intros fuel Hn.
  - apply strip_loop_none. cbn [strip_first]. change (slashes 0 +:+ s) with s. by rewrite Hs.
  - destruct fuel as [|fuel]; [lia|]. cbn [slashes]. rewrite sapp_cons. cbn. apply IH. lia.
Qed.

(** Trailing slashes are all removed, and nothing else. *)
Lemma strip_slashes_app s n :
  endsWith s "/" = false → strip_slashes (s +:+ slashes n) = s.
Proof.
  intros H. unfold strip_slashes. rewrite srev_app, srev_slashes.
  rewrite strip_loop_slashes; [apply srev_involutive| |].
  - rewrite slength_app. assert (String.length (slashes n) = n) as ->; [|lia].
    induction n as [|n IH]; [done|]. cbn. by rewrite IH.
  - unfold endsWith, startsWith in H. change (String.rev "/") with "/" in H.
    by destruct (strip_prefix _ _).
Qed.

(** [document.cookie] of a cookie jar. *)
Definition jar_text (jar : list (string * string)) : string :=
  join "; " ((λ kv, kv.1 +:+ "=" +:+ kv.2) <$> jar).

Definition no_char (c : ascii) (s : string) : bool := sforall (λ x, negb (Ascii.eqb x c)) s.

(** A pair that can stand in [document.cookie]. *)
Definition cookie_pair_ok (kv : string * string) : bool :=
  no_char ";" kv.1 && no_char "=" kv.1 && no_char ";" kv.2.

Lemma until_semicolon_app v t :
  no_char ";" v = true → until_semicolon (v +:+ String ";" t) = v.
Proof.
  induction v as [|c v IH]; [done|]. cbn. intros ?; bools.
  rewrite sapp_cons. cbn. rewrite H. by rewrite IH.
Qed.

Lemma until_semicolon_id v : no_char ";" v = true → until_semicolon v = v.
Proof. induction v as [|c v IH]; [done|]. cbn. intros ?; bools. rewrite H. by rewrite IH. Qed.

(** The name of a pair is the requested one exactly when [name=] starts it. *)
Lemma strip_prefix_name name k v t :
  no_char "=" name = true → no_char "=" k = true →
  strip_prefix (name +:+ "=") (k +:+ "=" +:+ v +:+ t) =
  if decide (k = name) then Some (v +:+ t) else None.
Proof.
  revert k. induction name as [|c name IH]; intros [|d k] Hn Hk; try done.
  - cbn [no_char sforall] in Hk. bools. rewrite sapp_cons, sapp_nil_l, strip_prefix_cons.
    rewrite Ascii.eqb_sym, H. done.
  - cbn [no_char sforall] in Hn. bools. rewrite sapp_cons, sapp_nil_l.
    change ("=" +:+ ?x) with (String "=" x). rewrite strip_prefix_cons. by rewrite H.
  - cbn [no_char sforall] in Hn, Hk. bools. rewrite !sapp_cons, strip_prefix_cons.
    destruct (Ascii.eqb_spec c d) as [->|Hcd].
    + rewrite IH by done. repeat case_decide; congruence.
    + case_decide; congruence.
Qed.

(** Scanning passes over text without a semicolon. *)
Lemma cookie_scan_skip name v t :
  no_char ";" v = true → cookie_scan name (v +:+ t) = cookie_scan name t.
Proof.
  induction v as [|c v IH]; [done|]. cbn [no_char sforall]. intros ?; bools.
  rewrite sapp_cons. cbn [cookie_scan]. change "; " with (String ";" " ").
  rewrite strip_prefix_cons, Ascii.eqb_sym, H. by apply IH.
Qed.

Lemma cookie_here_pair name kv t :
  no_char "=" name = true → cookie_pair_ok kv = true → t = "" ∨ (∃ u, t = String ";" u) →
  cookie_here name (kv.1 +:+ "=" +:+ kv.2 +:+ t) =
  if decide (kv.1 = name) then Some kv.2 else None.
Proof.
  intros Hn Hkv Ht. unfold cookie_pair_ok in Hkv. bools. unfold cookie_here.
  rewrite strip_prefix_name by done. case_decide; [|done]. cbn. f_equal.
  destruct Ht as [->|[u ->]]; [by rewrite sapp_nil_r, until_semicolon_id|].
  by apply until_semicolon_app.
Qed.

Lemma no_semicolon_pair kv :
  cookie_pair_ok kv = true → no_char ";" (kv.1 +:+ "=" +:+ kv.2) = true.
Proof.
  unfold cookie_pair_ok, no_char. intros ?; bools. rewrite !sforall_app.
  by rewrite H, H0.
Qed.

Lemma jar_lookup name jar :
  no_char "=" name = true → forallb cookie_pair_ok jar = true →
  match cookie_here name (jar_text jar) with
  | Some v => Some v
  | None => cookie_scan name (jar_text jar)
  end = snd <$> List.find (λ kv, bool_decide (kv.1 = name)) jar.
Proof.
  intros Hn Hjar. induction jar as [|kv jar IH].
  - unfold jar_text. cbn. unfold cookie_here. by destruct name.
  - cbn in Hjar. bools. specialize (IH H0). unfold jar_text in *. cbn [fmap list_fmap] in *.
    destruct jar as [|kv' jar].
    + cbn [join fmap list_fmap]. pose proof (cookie_here_pair name kv "" Hn H (or_introl eq_refl)) as Hc.
      rewrite sapp_nil_r in Hc. rewrite Hc. cbn. case_decide; [by rewrite bool_decide_eq_true_2|].
      rewrite bool_decide_eq_false_2 by done. cbn.
      rewrite <- (sapp_nil_r (kv.1 +:+ "=" +:+ kv.2)).
      by rewrite cookie_scan_skip by (by apply no_semicolon_pair).
    + cbn [fmap list_fmap] in IH |- *.
      change (join "; " (?x :: ?y :: ?l)) with (x +:+ String ";" (String " " (join "; " (y :: l)))).
      set (rest := join "; " _) in *.
      rewrite !sapp_assoc, cookie_here_pair by (done || right; by eexists).
      rewrite find_cons. case_decide; [by rewrite bool_decide_eq_true_2|].
      rewrite bool_decide_eq_false_2 by done.
      rewrite <- !sapp_assoc, cookie_scan_skip
        by (rewrite sapp_assoc; by apply no_semicolon_pair).
      rewrite <- IH. cbn. by destruct (cookie_here name rest).
Qed.

(** ** Properties *)

(** The API base is the same however the deployment writes it: with any
    number of trailing slashes, and with the [/api/v1] suffix the paths already
    carry. *)
Theorem normalizeApiBase_forms (b : browser) (base : string) (n : nat) :
  base ≠ "" → endsWith base "/" = false → endsWith base "/api/v1" = false →
  normalizeApiBase b (Some (base +:+ slashes n)) = base ∧
  normalizeApiBase b (Some (base +:+ "/api/v1" +:+ slashes n)) = base.
Proof.
  intros Hne Hs Ha. unfold normalizeApiBase. split.
  - rewrite decide_False by (intros ?%sapp_eq_nil; naive_solver).
    by rewrite strip_slashes_app, Ha.
  - rewrite decide_False by (intros ?%sapp_eq_nil; naive_solver).
    rewrite <- sapp_assoc, strip_slashes_app.
    + rewrite endsWith_app, drop_last_app. by rewrite decide_False.
    + unfold endsWith. by rewrite srev_app.
Qed.

(** The header the CSRF cookie of a jar asks for: the first cookie of the name,
    decoded; a value that cannot be decoded is an error, an empty one no header. *)
Definition csrf_of_jar (jar : list (string * string)) : exc (option string) :=
  match List.find (λ kv, bool_decide (kv.1 = "mantis_csrf")) jar with
  | None => Ok None
  | Some kv => (d <- decodeURIComponent kv.2 ;; Ok (if decide (d = "") then None else Some d))%exc
  end.

(** The cookie jar's text is read back: the first pair with the name. *)
Lemma readCookie_jar b jar name :
  cookie b = jar_text jar → forallb cookie_pair_ok jar = true → no_char "=" name = true →
  readCookie b name =
    match List.find (λ kv, bool_decide (kv.1 = name)) jar with
    | None => Ok None
    | Some kv => (d <- decodeURIComponent kv.2 ;; Ok (Some d))%exc
    end.
Proof.
  intros Hb Hjar Hn. unfold readCookie. rewrite Hb, jar_lookup by done. by destruct (List.find _ jar).
Qed.

Lemma csrfHeaders_jar b jar :
  cookie b = jar_text jar → forallb cookie_pair_ok jar = true →
  csrfHeaders b = (h <- csrf_of_jar jar ;; Ok (match h with Some v => [(csrf_header, v)] | None => [] end))%exc.
Proof.
  intros Hb Hjar. unfold csrfHeaders, csrf_of_jar. rewrite (readCookie_jar b jar "mantis_csrf") by done.
  destruct (List.find _ jar) as [kv|]; [|done]. destruct (decodeURIComponent kv.2) as [d|m]; [|done]. cbn.
  unfold truthy. case_decide; [by rewrite bool_decide_eq_false_2 by naive_solver|by rewrite bool_decide_eq_true_2].
Qed.

Lemma isMutating_spec method :
  isMutating method = negb (bool_decide (method = "GET" ∨ method = "HEAD")).
Proof.
  unfold isMutating. rewrite !bool_decide_not, <- negb_orb. f_equal. symmetry. apply bool_decide_or.
Qed.

Lemma no_csrf_header l : Forall (λ kv, kv.1 = "Content-Type") l → header_get csrf_header l = None.
Proof.
  induction 1 as [|[k v] l Hk _ IH]; [done|]. cbn in Hk. subst k. exact IH.
Qed.

(** C1: the double-submit of the CSRF token, on both ways a request is made.  For
    every cookie jar, let [h] be the [mantis_csrf] cookie decoded (none when there is
    no such cookie or it is empty; a value without a percent sign is its own decoding).
    [rawRequest] and a call of the typed client send their method with the session's
    credentials included, with [h] in the CSRF header of a mutating request and no
    CSRF header with GET and HEAD; when the cookie cannot be decoded a mutating request
    is not sent and fails with the decoder's error.  The middleware changes nothing
    else of the request: not its credentials, and nothing at all of a GET or HEAD. *)
Theorem csrf_double_submit (construct : client_options → string → string → option json → request)
    (b : browser) (vite : option string) (jar : list (string * string))
    (method url path : string) (body : option json) (r0 : request) :
  OpenapiFetch construct → cookie b = jar_text jar → forallb cookie_pair_ok jar = true →
  (∀ v, List.find (λ kv, bool_decide (kv.1 = "mantis_csrf")) jar = Some ("mantis_csrf", v) →
        no_char "%" v = true → csrf_of_jar jar = Ok (if decide (v = "") then None else Some v)) ∧
  match (if decide (method = "GET" ∨ method = "HEAD") then Ok None else csrf_of_jar jar) with
  | Throw m =>
      rawRequest_request b method url body = Throw m ∧
      apiClient_request construct b vite method path body = Throw m
  | Ok h =>
      (∃ r, rawRequest_request b method url body = Ok r ∧
         r_method r = method ∧ r_url r = url ∧ r_credentials r = "include" ∧
         r_body r = stringify <$> body ∧ header_get "X-Mantis-CSRF-Token" (r_headers r) = h) ∧
      (∃ r, apiClient_request construct b vite method path body = Ok r ∧
         r_method r = method ∧ r_credentials r = "include" ∧
         header_get "X-Mantis-CSRF-Token" (r_headers r) = h) ∧
      (r_method r0 = method →
       ∃ r, onRequest b r0 = Ok r ∧ r_method r = method ∧ r_url r = r_url r0 ∧
         r_credentials r = r_credentials r0 ∧ r_body r = r_body r0 ∧
         (method = "GET" ∨ method = "HEAD" → r = r0) ∧
         (∀ v, h = Some v → header_get "X-Mantis-CSRF-Token" (r_headers r) = Some v))
  end.
Proof.
  intros HC Hb Hjar. split.
  { intros v Hf Hv. unfold csrf_of_jar. rewrite Hf. cbn [snd]. by rewrite decode_plain. }
  pose proof (csrfHeaders_jar b jar Hb Hjar) as Hc.
  set (r1 := construct (apiClient_options b vite) method path body).
  assert (r_method r1 = method) as Hm by apply construct_method.
  assert (r_credentials r1 = "include") as Hi by by apply construct_credentials.
  assert (header_get csrf_header (r_headers r1) = None) as Hh by apply no_csrf_header, construct_headers.
  unfold apiClient_request, rawRequest_request. fold r1. unfold onRequest. rewrite Hm, isMutating_spec.
  case_decide as Hd; [rewrite bool_decide_eq_true_2 by done|rewrite bool_decide_eq_false_2 by done];
    cbn [negb].
  - split; [|split]; [eexists; do 5 (split; [done|]); by destruct body|by exists r1|].
    intros Hr. rewrite Hr, isMutating_spec, bool_decide_eq_true_2 by done. exists r0. naive_solver.
  - rewrite Hc. destruct (csrf_of_jar jar) as [[v|]|m]; cbn [negb]; [..|done].
    + split; [|split].
      * eexists; do 5 (split; [done|]). by destruct body.
      * eexists; do 3 (split; [done|]). apply header_get_set.
      * intros Hr. rewrite Hr, isMutating_spec, bool_decide_eq_false_2 by done. eexists; do 5 (split; [done|]).
        split; [naive_solver|]. intros ? [= ->]. apply header_get_set.
    + split; [|split].
      * eexists; do 5 (split; [done|]). by destruct body.
      * by eexists.
      * intros Hr. rewrite Hr, isMutating_spec, bool_decide_eq_false_2 by done. eexists; do 5 (split; [done|]).
        split; [naive_solver|done].
Qed.

(** A client as the library documents it: the path after the base, the options of
    the client, the content type with a body. *)
Definition sample_construct (o : client_options) (m p : string) (bd : option json) : request :=
  Request m (baseUrl o +:+ p) (default "same-origin" (credentials o))
    (match bd with Some _ => [("Content-Type", "application/json")] | None => [] end) (stringify <$> bd).

#[export] Instance sample_openapi : OpenapiFetch sample_construct.
Proof.
  split; [done|by intros o m p bd c H; cbn; rewrite H|]. intros o m p [j|]; cbn; repeat constructor.
Qed.

Lemma csrf_double_submit_witness :
  ∃ r, apiClient_request sample_construct
         (Browser (Some "https://ui") "/zones" "theme=dark; mantis_csrf=tok") None "DELETE" "/api/v1/feeds/7" None = Ok r ∧
       r_credentials r = "include" ∧ header_get csrf_header (r_headers r) = Some "tok".
Proof.
  destruct (csrf_double_submit sample_construct
    (Browser (Some "https://ui") "/zones" "theme=dark; mantis_csrf=tok") None
    [("theme", "dark"); ("mantis_csrf", "tok")] "DELETE" "/u" "/api/v1/feeds/7" None
    (Request "DELETE" "/u" "include" [] None)) as [_ H]; [apply _|reflexivity|reflexivity|].
  rewrite decide_False in H by (intros [?|?]; discriminate).
  destruct H as (_ & (r & Hr & _ & Hc & Hh) & _).
  exists r. split; [exact Hr|]. split; [exact Hc|exact Hh].
Defined.

Lemma normalizeApiBase_forms_witness :
  normalizeApiBase (Browser None "/" "") (Some "https://dns.example.com/api/v1//")
  = "https://dns.example.com".
Proof.
  exact (proj2 (normalizeApiBase_forms (Browser None "/" "") "https://dns.example.com" 2
    ltac:(discriminate) ltac:(reflexivity) ltac:(reflexivity))).
Defined.

(** A response with the status and body of the control plane. *)
Lemma rawRequest_response_cases b res :
  (rawRequest_response b res).1 = handleUnauthorized b (status res) ∧
  match (rawRequest_response b res).2 with
  | Ok None => status res = 204%Z
  | Ok (Some j) => ok res = true ∧ status res ≠ 204%Z ∧ body_json res = Ok j
  | Throw m => ok res = false ∨ ∃ m', body_json res = Throw m'
  end.
Proof.
  unfold rawRequest_response. split; [done|]. cbn. destruct (ok res) eqn:Hok; cbn; [|by left].
  destruct (Z.eqb_spec (status res) 204); [done|]. destruct (body_json res); eauto.
Qed.
