(* ===== verification/Errors.v ===== *)
(** * Error messages

    [api/errors.ts]: the message shown for a failed API call, from the
    ["STATUS: body"] text that [Client.rawRequest] and [Client.unwrap] throw. *)

From S2P Require Import Prelude JsText Json JsonRoundtrip Web Client.

Definition STATUS_PREFIX (st : Z) : option string :=
  match st with
  | 400 => Some "Invalid request"
  | 401 => Some "Session expired"
  | 403 => Some "You don't have permission to do this"
  | 404 => Some "Not found"
  | 409 => Some "Already exists or conflicts with existing data"
  | 422 => Some "Invalid input"
  | 429 => Some "Too many requests — try again shortly"
  | 500 => Some "Server error"
  | 502 => Some "Server error"
  | 503 => Some "Service unavailable"
  | _ => None
  end%Z.

(** [d.msg] of an entry of a validation-error list, as a string. *)
Definition entry_msg (d : json) : option string :=
  match d with
  | JObj l => js_String <$> obj_get "msg" l
  | _ => None
  end.

(** The value the message is taken from: the [detail] of an object, else the
    parsed value itself. *)
Definition detail_of (parsed : json) : json :=
  match parsed with
  | JObj l => default parsed (obj_get "detail" l)
  | _ => parsed
  end.

Definition extractDetail (rest : string) : option string :=
  match json_parse rest with
  | Some (JStr s) => Some s
  | Some parsed =>
      match detail_of parsed with
      | JStr s => Some s
      | JArr l =>
          let msgs := omap entry_msg l in
          if decide (msgs = []) then None else Some (join "; " msgs)
      | _ => None
      end
  | None => or_null (trim rest)
  end.

(** The status match of the raw text: three digits, a colon, and the rest after
    the white space. *)
Definition match_status (raw : string) : option (string * string) :=
  match raw with
  | String a (String b (String c (String d r))) =>
      if is_digit a && is_digit b && is_digit c && Ascii.eqb d ":"
      then Some (String a (String b (String c "")), trimStart r)
      else None
  | _ => None
  end.

(** [Number(statusStr)] of a string of digits. *)
Definition number_of_digits (s : string) : Z := (scan_digits 0 s).1.1.

(** [formatError(e)], for the message of the error (or its string form). *)
Definition formatError (raw : string) : string :=
  match match_status raw with
  | None => raw
  | Some (statusStr, rest) =>
      let st := number_of_digits statusStr in
      let prefix := match STATUS_PREFIX st with
                    | Some p => p
                    | None => "Error " +:+ Z_str st
                    end in
      match extractDetail rest with
      | Some d => if truthy d && bool_decide (d ≠ prefix) then prefix +:+ ": " +:+ d else prefix
      | None => prefix
      end
  end.

(** ** Lemmas *)

(** The text shown for a status. *)
Definition prefix_of (st : Z) : string :=
  match STATUS_PREFIX st with Some p => p | None => "Error " +:+ Z_str st end.

(** What [formatError] makes of an extracted detail. *)
Definition show (prefix : string) (detail : option string) : string :=
  match detail with
  | Some d => if truthy d && bool_decide (d ≠ prefix) then prefix +:+ ": " +:+ d else prefix
  | None => prefix
  end.

Lemma number_of_Z_str n : (100 ≤ n ≤ 999)%Z → number_of_digits (Z_str n) = n.
Proof.
  intros Hn. unfold number_of_digits.
  assert (Hall : forallb (λ n, Z.eqb (scan_digits 0 (Z_str (Z.of_nat n))).1.1 (Z.of_nat n))
    (seq 100 900) = true) by (vm_compute; reflexivity).
  rewrite List.forallb_forall in Hall. specialize (Hall (Z.to_nat n)).
  rewrite Z2Nat.id in Hall by lia. apply Z.eqb_eq, Hall, in_seq. lia.
Qed.

(** The thrown text splits into its status and its body. *)
Lemma formatError_thrown st t :
  (100 ≤ st ≤ 999)%Z →
  formatError (Z_str st +:+ ": " +:+ t) =
  show (prefix_of st) (extractDetail (trimStart (String " " t))).
Proof.
  intros Hst. unfold formatError. pose proof (number_of_Z_str st Hst) as Hn.
  destruct (Z_str_3 st Hst) as (a & b & c & E & Ha & Hb & Hc).
  rewrite E in Hn |- *. rewrite !sapp_cons, sapp_nil_l.
  change (": " +:+ t) with (String ":" (String " " t)). cbn [match_status].
  rewrite Ha, Hb, Hc. cbn [andb Ascii.eqb Bool.eqb]. rewrite Hn. reflexivity.
Qed.

(** A JSON body is parsed after the space of the thrown text. *)
Lemma extractDetail_json j :
  json_ok j → match j with JObj _ | JArr _ | JStr _ => True | _ => False end →
  extractDetail (trimStart (String " " (stringify j))) =
  match j with
  | JStr s => Some s
  | _ => match detail_of j with
         | JStr s => Some s
         | JArr l => let msgs := omap entry_msg l in
                     if decide (msgs = []) then None else Some (join "; " msgs)
         | _ => None
         end
  end.
Proof.
  intros Hok Hj.
  assert (∃ c s, stringify j = String c s ∧ visible c = true) as (c & s & E & Hc).
  { destruct j; try done; by eexists _, _. }
  rewrite E, trimStart_space, <- E by done. unfold extractDetail.
  rewrite json_parse_stringify by done. by destruct j.
Qed.

Lemma omap_entry_msgs (entries : list (list (string * json) * string)) :
  Forall (λ e, obj_get "msg" e.1 = Some (JStr e.2)) entries →
  omap entry_msg ((λ e, JObj e.1) <$> entries) = entries.*2.
Proof. induction 1 as [|[l m] es H _ IH]; cbn in *; [done|]. rewrite H. cbn. by f_equal. Qed.

(** A failed raw request throws the status and the body's text. *)
Lemma rawRequest_fails b res t :
  ok res = false → text res = Ok t →
  (rawRequest_response b res).2 = Throw (Z_str (status res) +:+ ": " +:+ t).
Proof. intros Hok Ht. unfold rawRequest_response. cbn. by rewrite Hok, Ht. Qed.

(** ** Properties *)

(** C26: when a raw request fails with a FastAPI body [{"detail": ...}], the
    message shown is the status' text followed by the detail: the string itself,
    or the [msg] fields of a validation-error list joined by semicolons. *)
Theorem rawRequest_error_shown (b : browser) (res : response) (d : json) (m : string) :
  (100 ≤ status res ≤ 999)%Z → ok res = false →
  text res = Ok (stringify (JObj [("detail", d)])) → json_ok d →
  m ≠ "" → m ≠ prefix_of (status res) →
  d = JStr m ∨
  (∃ entries : list (list (string * json) * string), entries ≠ [] ∧
     d = JArr ((λ e, JObj e.1) <$> entries) ∧ m = join "; " entries.*2 ∧
     Forall (λ e, obj_get "msg" e.1 = Some (JStr e.2)) entries) →
  ∃ raw, (rawRequest_response b res).2 = Throw raw ∧
         formatError raw = prefix_of (status res) +:+ ": " +:+ m.
Proof.
  intros Hst Hok Ht Hd Hm Hp Hcases. eexists. split; [by apply rawRequest_fails|].
  rewrite formatError_thrown by done.
  rewrite extractDetail_json; [|split; [apply NoDup_singleton|by repeat constructor]|done].
  assert (Hshow : show (prefix_of (status res)) (Some m)
                  = prefix_of (status res) +:+ ": " +:+ m).
  { unfold show, truthy. by rewrite !bool_decide_eq_true_2. }
  destruct Hcases as [->|(entries & Hne & -> & -> & Hall)]; [exact Hshow|].
  change (detail_of (JObj [("detail", JArr ?l)])) with (JArr l). cbv iota zeta.
  rewrite omap_entry_msgs by done.
  rewrite decide_False; [exact Hshow|]. by destruct entries.
Qed.

Lemma rawRequest_error_shown_witness :
  formatError "422: {" = "Invalid input: {" ∧
  ∃ raw, (rawRequest_response (Browser (Some "https://ui") "/dhcp" "")
            (Response 422 "Unprocessable Entity"
               (Ok (stringify (JObj [("detail", JArr [JObj [("msg", JStr "field required")];
                                                     JObj [("msg", JStr "invalid url")]])])))
               (Throw "x"))).2 = Throw raw ∧
         formatError raw = "Invalid input: field required; invalid url".
Proof.
  split; [vm_compute; reflexivity|].
  apply (rawRequest_error_shown (Browser (Some "https://ui") "/dhcp" "")
    (Response 422 "Unprocessable Entity"
       (Ok (stringify (JObj [("detail", JArr [JObj [("msg", JStr "field required")];
                                             JObj [("msg", JStr "invalid url")]])])))
       (Throw "x"))
    (JArr [JObj [("msg", JStr "field required")]; JObj [("msg", JStr "invalid url")]])
    "field required; invalid url").
  - cbn. lia.
  - reflexivity.
  - reflexivity.
  - cbn. repeat constructor; set_solver.
  - discriminate.
  - vm_compute. discriminate.
  - right. exists [([("msg", JStr "field required")], "field required");
                   ([("msg", JStr "invalid url")], "invalid url")].
    split; [discriminate|]. split; [reflexivity|]. split; [reflexivity|].
    repeat constructor.
Defined.

(** The text of a list of objects starts and ends with brackets. *)
Lemma objects_text (entries : list (list (string * json))) : entries ≠ [] →
  ∃ s, join "," ((λ _, "[object Object]") <$> entries) = String "[" (s +:+ "]").
Proof.
  induction entries as [|e [|e' es] IH]; intros Hne; [done|by exists "object Object"|].
  destruct IH as [s Hs]; [done|]. exists ("object Object],[" +:+ s).
  cbn [fmap list_fmap] in Hs |- *. rewrite join_cons, Hs. by rewrite !sapp_assoc.
Qed.

(** It is not JSON. *)
Lemma objects_text_no_json t :
  (∃ entries : list (list (string * json)), entries ≠ [] ∧
     t = join "," ((λ _, "[object Object]") <$> entries)) → json_parse t = None.
Proof.
  intros (entries & Hne & ->).
  assert (∃ r, join "," ((λ _, "[object Object]") <$> entries) = "[object Object]" +:+ r) as [r ->].
  { destruct entries as [|e [|e' es]]; [done|by exists ""|]. by eexists. }
  unfold json_parse. rewrite slength_app. done.
Qed.

(** [unwrap] turns the list of a validation error into text before
    [formatError] sees it: whatever the entries say, the message shown for a
    422 of a typed call is one [[object Object]] per entry, and none of the
    entries' messages. *)
Theorem unwrap_validation_error_lost (r : api_result) (fields : list (string * json))
    (entries : list (list (string * json))) :
  status (resp r) = 422%Z → error r = Some (JObj fields) →
  obj_get "detail" fields = Some (JArr (JObj <$> entries)) → entries ≠ [] →
  ∃ raw, unwrap r = Throw raw ∧
    formatError raw =
      "Invalid input: " +:+ join "," ((λ _, "[object Object]") <$> entries).
Proof.
  intros Hst He Hd Hne. unfold unwrap. rewrite He, Hst. eexists. split; [done|].
  cbn [error_detail]. rewrite Hd. rewrite formatError_thrown by lia.
  set (t := js_String _).
  assert (Ht : t = join "," ((λ _, "[object Object]") <$> entries)).
  { unfold t. cbn [js_String]. f_equal. clear. induction entries; cbn; congruence. }
  rewrite Ht. destruct (objects_text entries Hne) as [s Hs]. rewrite Hs.
  rewrite trimStart_space by done. unfold extractDetail.
  rewrite objects_text_no_json by (rewrite <- Hs; by exists entries). rewrite trim_ends by done. done.
Qed.

Lemma unwrap_validation_error_lost_witness :
  ∃ raw, unwrap (ApiResult None
           (Some (JObj [("detail", JArr [JObj [("msg", JStr "name is required")]])]))
           (Response 422 "" (Ok "") (Ok JNull))) = Throw raw ∧
         formatError raw = "Invalid input: [object Object]".
Proof.
  apply (unwrap_validation_error_lost
    (ApiResult None (Some (JObj [("detail", JArr [JObj [("msg", JStr "name is required")]])]))
       (Response 422 "" (Ok "") (Ok JNull)))
    [("detail", JArr [JObj [("msg", JStr "name is required")]])]
    [[("msg", JStr "name is required")]]); [reflexivity..|discriminate].
Defined.

(** A message without a leading [ddd:] status is shown unchanged, and a
    status without a usable detail shows the status' text alone. *)
Theorem formatError_fallbacks (raw : string) (st : Z) :
  (match_status raw = None → formatError raw = raw) ∧
  ((100 ≤ st ≤ 999)%Z → formatError (Z_str st +:+ ": ") = prefix_of st).
Proof.
  split.
  - intros H. unfold formatError. by rewrite H.
  - intros Hst. rewrite <- (sapp_nil_r (Z_str st +:+ ": ")), sapp_assoc.
    rewrite formatError_thrown by done. done.
Qed.

Lemma formatError_fallbacks_witness :
  formatError "network request failed" = "network request failed" ∧
  formatError "503: " = "Service unavailable".
Proof.
  split.
  - exact (proj1 (formatError_fallbacks "network request failed" 503) ltac:(reflexivity)).
  - exact (proj2 (formatError_fallbacks "network request failed" 503) ltac:(lia)).
Defined.
