(* ===== verification/Auth.v ===== *)
(** * Sessions, roles and the login route

    [auth/sessionEvents.ts], [auth/AuthContext.tsx], [auth/RequireAuth.tsx], the
    navigation items of [app/Shell.tsx] and the submit handler of
    [pages/LoginPage.tsx].  The provider is a state machine over the events that
    reach it: the answers of the control plane to [/auth/me], [/auth/login] and
    [/auth/logout], and the session-expired notification that
    [Client.handleUnauthorized] raises. *)

From S2P Require Import Prelude JsText Json Web Client.

(** ** Roles *)

Inductive Role := Admin | Operator | Viewer.

#[export] Instance Role_eq_dec : EqDecision Role.
Proof. solve_decision. Defined.

Record AuthUser := MkAuthUser {
  u_id : string;
  u_email : string;
  u_role : Role;
  u_tenant_id : option string;
}.

Definition ROLE_RANK (r : Role) : Z :=
  match r with Viewer => 0 | Operator => 1 | Admin => 2 end%Z.

(** [Math.max(...l)]: [None] stands for [-Infinity], the maximum of nothing. *)
Definition math_max (l : list Z) : option Z :=
  foldr (λ x m, match m with Some y => Some (Z.max x y) | None => Some x end) None l.

(** [x >= m] *)
Definition geq (x : Z) (m : option Z) : bool :=
  match m with Some y => (y <=? x)%Z | None => true end.

Definition hasRole (user : option AuthUser) (roles : list Role) : bool :=
  match user with
  | None => false
  | Some u => geq (ROLE_RANK (u_role u)) (math_max (ROLE_RANK <$> roles))
  end.

(** ** The session-expired listener *)

(** The module variable [listener]; a callback is known by its identity. *)
Definition onSessionExpired (cb : nat) (listener : option nat) : option nat := Some cb.

(** The function [onSessionExpired] returns: it unsubscribes its own callback
    only. *)
Definition unsubscribe (cb : nat) (listener : option nat) : option nat :=
  if decide (listener = Some cb) then None else listener.

(** [notifySessionExpired]: the callback that runs. *)
Definition notifySessionExpired (listener : option nat) : option nat := listener.

(** ** The provider *)

Record auth_state := AuthState { user : option AuthUser; loading : bool }.

Definition auth_init : auth_state := AuthState None true.

(** The answer to [GET /api/v1/auth/me]: [res.data] when there is no error, or
    the request itself failed. *)
Inductive me_answer := MeUser (u : AuthUser) | MeNone | MeRejected.

Definition on_me (a : me_answer) (s : auth_state) : auth_state :=
  match a with
  | MeUser u => AuthState (Some u) false
  | MeNone => AuthState None false
  | MeRejected => AuthState (user s) false
  end.

(** [login]: [unwrap] of the answer throws, or its [user] becomes the session's. *)
Definition login (a : exc AuthUser) (s : auth_state) : auth_state * exc unit :=
  match a with
  | Ok u => (AuthState (Some u) (loading s), Ok ())
  | Throw m => (s, Throw m)
  end.

(** [logout]: whatever the status of the answer, unless the request itself
    fails. *)
Definition logout (a : exc Z) (s : auth_state) : auth_state * exc unit :=
  match a with
  | Ok _ => (AuthState None (loading s), Ok ())
  | Throw m => (s, Throw m)
  end.

(** The callback the provider subscribes: [() => setUser(null)]. *)
Definition session_expired (s : auth_state) : auth_state := AuthState None (loading s).

Inductive auth_event :=
| EvMe (a : me_answer)
| EvLogin (a : exc AuthUser)
| EvLogout (a : exc Z)
| EvExpired.

Definition auth_step (s : auth_state) (e : auth_event) : auth_state :=
  match e with
  | EvMe a => on_me a s
  | EvLogin a => (login a s).1
  | EvLogout a => (logout a s).1
  | EvExpired => session_expired s
  end.

Definition auth_run (es : list auth_event) : auth_state := foldl auth_step auth_init es.

(** ** Routes *)

Inductive view := ShowLoader | ShowPage | RedirectLogin (from : string) | RedirectTo (to : string) | ShowLogin.

Definition RequireAuth (s : auth_state) (path : string) : view :=
  if loading s then ShowLoader
  else match user s with
       | None => RedirectLogin path
       | Some _ => ShowPage
       end.

(** The [from] of the location's state, when it is a path of this application. *)
Definition safeFrom (from : option string) : string :=
  match from with
  | Some raw =>
      if negb (truthy raw) || negb (startsWith raw "/") || startsWith raw "//"
      then "/tenants" else raw
  | None => "/tenants"
  end.

Definition LoginPage (s : auth_state) (from : option string) : view :=
  if negb (loading s) then
    match user s with
    | Some _ => RedirectTo (safeFrom from)
    | None => ShowLogin
    end
  else ShowLogin.

(** The login form: the error shown, the submit button's state, and where it
    navigated. *)
Record login_form := LoginForm {
  lf_error : option string;
  submitting : bool;
  navigated : option string;
}.

(** [handleSubmit], from the click to its [finally]. *)
Definition handleSubmit (a : exc AuthUser) (from : option string)
    (s : auth_state) (f : login_form) : auth_state * login_form :=
  let f1 := LoginForm None true (navigated f) in
  match login a s with
  | (s', Ok _) => (s', LoginForm (lf_error f1) false (Some (safeFrom from)))
  | (s', Throw m) => (s', LoginForm (Some m) false (navigated f1))
  end.

(** ** The navigation bar *)

Record nav_item := NavItem { nav_to : string; labelKey : string; minRole : option Role }.

Definition NAV_ITEMS : list nav_item :=
  [ NavItem "/dashboard" "nav.dashboard" None;
    NavItem "/tenants" "nav.tenants" None;
    NavItem "/feeds" "nav.feeds" None;
    NavItem "/zones" "nav.dnsZones" None;
    NavItem "/analytics" "nav.analytics" None;
    NavItem "/query-log" "nav.queryLog" (Some Operator);
    NavItem "/audit" "nav.auditLog" (Some Operator);
    NavItem "/users" "nav.users" (Some Admin);
    NavItem "/upstream" "nav.dnsUpstream" (Some Operator);
    NavItem "/dhcp" "nav.dhcp" (Some Operator);
    NavItem "/settings" "nav.settings" None ].

Definition visibleNavItems (u : option AuthUser) : list nav_item :=
  List.filter (λ i, match minRole i with None => true | Some r => hasRole u [r] end) NAV_ITEMS.

(** ** Lemmas *)

Lemma geq_math_max x l : geq x (math_max l) = true ↔ Forall (λ y, (y ≤ x)%Z) l.
Proof.
  induction l as [|y l IH]; [split; auto|].
  rewrite Forall_cons, <- IH. cbn [math_max foldr].
  fold (math_max l). destruct (math_max l) as [m|]; unfold geq; rewrite ?Z.leb_le; lia.
Qed.

Lemma hasRole_spec u roles :
  hasRole u roles = true ↔
  ∃ v, u = Some v ∧ Forall (λ r, (ROLE_RANK r ≤ ROLE_RANK (u_role v))%Z) roles.
Proof.
  unfold hasRole. destruct u as [v|]; [|naive_solver].
  rewrite geq_math_max, Forall_fmap. split; [intros; by exists v|].
  by intros (? & [= <-] & ?).
Qed.

Lemma safeFrom_path p :
  startsWith p "/" = true → startsWith p "//" = false → safeFrom (Some p) = p.
Proof.
  intros H1 H2. unfold safeFrom. rewrite H1, H2.
  destruct p; [discriminate H1|]. done.
Qed.

Lemma startsWith_double p : startsWith p "//" = true → startsWith p "/" = true.
Proof.
  intros [r ->]%startsWith_true. apply startsWith_true. by exists (String "/" r).
Qed.

Lemma handleSubmit_ok u from s f :
  handleSubmit (Ok u) from s f =
  (AuthState (Some u) (loading s), LoginForm None false (Some (safeFrom from))).
Proof. done. Qed.

Lemma auth_run_snoc es e : auth_run (es ++ [e]) = auth_step (auth_run es) e.
Proof. unfold auth_run. by rewrite foldl_app. Qed.

(** An event after which the session has the user [u]. *)
Definition grants (e : auth_event) (u : AuthUser) : Prop :=
  e = EvMe (MeUser u) ∨ e = EvLogin (Ok u).

(** An event that ends or replaces the session. *)
Definition replaces (e : auth_event) : bool :=
  match e with
  | EvMe (MeUser _) | EvMe MeNone | EvLogin (Ok _) | EvLogout (Ok _) | EvExpired => true
  | _ => false
  end.

Lemma auth_step_keeps s e : replaces e = false → user (auth_step s e) = user s.
Proof. destruct e as [[]|[]|[]|]; done. Qed.

Lemma auth_step_user s e u :
  replaces e = true → user (auth_step s e) = Some u → grants e u.
Proof. unfold grants. destruct e as [[]|[]|[]|]; naive_solver. Qed.

(** ** Properties *)

(** C25: [hasRole] holds exactly for a signed-in user whose role ranks at least
    as high as every role listed; a higher role never loses a permission. *)
Theorem hasRole_correct (u : option AuthUser) (v w : AuthUser) (roles : list Role) :
  (hasRole u roles = true ↔
     ∃ x, u = Some x ∧ Forall (λ r, (ROLE_RANK r ≤ ROLE_RANK (u_role x))%Z) roles) ∧
  ((ROLE_RANK (u_role v) ≤ ROLE_RANK (u_role w))%Z →
     hasRole (Some v) roles = true → hasRole (Some w) roles = true ∧
     visibleNavItems (Some v) ⊆ visibleNavItems (Some w)).
Proof.
  split; [apply hasRole_spec|]. intros Hvw Hv.
  assert (Hmono : ∀ rs, hasRole (Some v) rs = true → hasRole (Some w) rs = true).
  { intros rs (x & [= <-] & H)%hasRole_spec. apply hasRole_spec. exists w.
    split; [done|]. eapply Forall_impl; [done|]. cbn. lia. }
  split; [by apply Hmono|]. unfold visibleNavItems. intros i.
  rewrite !list_elem_of_In, !filter_In. intros [Hi Hr]. split; [done|].
  destruct (minRole i); auto.
Qed.

Lemma hasRole_correct_witness :
  let v := MkAuthUser "1" "op@x" Operator None in
  let w := MkAuthUser "2" "ad@x" Admin None in
  hasRole (Some w) [Viewer; Operator] = true ∧ visibleNavItems (Some v) ⊆ visibleNavItems (Some w).
Proof.
  exact (proj2 (hasRole_correct None (MkAuthUser "1" "op@x" Operator None)
    (MkAuthUser "2" "ad@x" Admin None) [Viewer; Operator]) ltac:(cbn; lia) ltac:(reflexivity)).
Defined.

(** C2: in every run of the provider the session has a user only because the
    control plane granted exactly that user, by [/auth/me] or a successful
    login, and since then no answer, logout or expiry ended or replaced the
    session; once the first answer is in, the loader never comes back. *)
Theorem session_only_by_grant (es : list auth_event) :
  (∀ u, user (auth_run es) = Some u →
     ∃ pre e post, es = pre ++ e :: post ∧ grants e u ∧
       Forall (λ x, replaces x = false) post) ∧
  (loading (auth_run es) = false ↔ ∃ a, EvMe a ∈ es).
Proof.
  split.
  - intros u. induction es as [|e es IH] using rev_ind; [done|].
    rewrite auth_run_snoc. intros Hu. destruct (replaces e) eqn:He.
    + exists es, e, []. split; [done|]. split; [by eapply auth_step_user|constructor].
    + rewrite auth_step_keeps in Hu by done.
      destruct (IH Hu) as (pre & g & post & -> & Hg & Hpost).
      exists pre, g, (post ++ [e]). rewrite <- app_assoc. split; [done|].
      split; [done|]. apply Forall_app. auto.
  - induction es as [|e es IH] using rev_ind; [split; [done|]; intros [? ?%elem_of_nil]; done|].
    rewrite auth_run_snoc. destruct e as [a|a|a|].
    + split; [|by destruct a]. intros _. exists a. set_solver.
    + replace (loading _) with (loading (auth_run es)) by (by destruct a).
      rewrite IH. set_solver.
    + replace (loading _) with (loading (auth_run es)) by (by destruct a).
      rewrite IH. set_solver.
    + change (loading (auth_step _ _)) with (loading (auth_run es)). rewrite IH. set_solver.
Qed.

Lemma session_only_by_grant_witness :
  let u := MkAuthUser "1" "a@x" Admin None in
  loading (auth_run [EvMe MeNone; EvLogin (Ok u)]) = false ∧
  ∃ pre e post, [EvMe MeNone; EvLogin (Ok u)] = pre ++ e :: post ∧ grants e u ∧
       Forall (λ x, replaces x = false) post.
Proof.
  split.
  - apply (proj2 (session_only_by_grant [EvMe MeNone; EvLogin (Ok (MkAuthUser "1" "a@x" Admin None))])).
    exists MeNone. left.
  - exact (proj1 (session_only_by_grant [EvMe MeNone; EvLogin (Ok (MkAuthUser "1" "a@x" Admin None))])
      (MkAuthUser "1" "a@x" Admin None) eq_refl).
Defined.

(** C15: a 401 on a page keeps the user's route.  The response notifies the
    session listener, the provider's callback (subscribed and not unsubscribed by
    another subscriber's clean-up) drops the user, the guard of the page redirects to the
    login with the page's path, and the next successful sign-in navigates to that
    same path.  On the login page itself a 401 notifies nobody. *)
Theorem session_expiry_returns_to_route (b : browser) (res : response)
    (cb other : nat) (l : option nat) (s : auth_state) (u : AuthUser) (f : login_form) :
  status res = 401%Z → loading s = false →
  startsWith (pathname b) "/" = true → startsWith (pathname b) "//" = false →
  startsWith (pathname b) "/login" = false → other ≠ cb →
  (onResponse b res).2 = true ∧
  (rawRequest_response b res).1 = true ∧
  notifySessionExpired (unsubscribe other (onSessionExpired cb l)) = Some cb ∧
  let s1 := session_expired s in
  RequireAuth s1 (pathname b) = RedirectLogin (pathname b) ∧
  let '(s2, f2) := handleSubmit (Ok u) (Some (pathname b)) s1 f in
  navigated f2 = Some (pathname b) ∧ lf_error f2 = None ∧ submitting f2 = false ∧
  RequireAuth s2 (pathname b) = ShowPage ∧
  (∀ b', startsWith (pathname b') "/login" = true → (onResponse b' res).2 = false).
Proof.
  intros Hst Hl H1 H2 H3 Hcb. cbv zeta. rewrite handleSubmit_ok, safeFrom_path by done.
  unfold onResponse, rawRequest_response, handleUnauthorized.
  rewrite Hst, H3. cbn. split; [done|]. split; [done|].
  split. { unfold unsubscribe, onSessionExpired. by rewrite decide_False by naive_solver. }
  unfold RequireAuth, session_expired. cbn. rewrite Hl.
  repeat (split; [reflexivity|]). intros b' ->. done.
Qed.

Lemma session_expiry_returns_to_route_witness :
  (onResponse (Browser (Some "https://ui") "/zones/42" "") (Response 401 "" (Ok "") (Ok JNull))).2
  = true.
Proof.
  exact (proj1 (session_expiry_returns_to_route (Browser (Some "https://ui") "/zones/42" "")
    (Response 401 "" (Ok "") (Ok JNull)) 1 2 None
    (AuthState (Some (MkAuthUser "1" "a@x" Admin None)) false)
    (MkAuthUser "1" "a@x" Admin None) (LoginForm None false None)
    ltac:(reflexivity) ltac:(reflexivity) ltac:(reflexivity) ltac:(reflexivity)
    ltac:(reflexivity) ltac:(discriminate))).
Defined.

(** The path the login navigates to is always a path of this origin: it
    starts with one slash and not with two. *)
Theorem safeFrom_same_origin (from : option string) :
  startsWith (safeFrom from) "/" = true ∧ startsWith (safeFrom from) "//" = false.
Proof.
  destruct from as [raw|]; [|done]. unfold safeFrom.
  destruct (truthy raw), (startsWith raw "/") eqn:H1, (startsWith raw "//") eqn:H2; done.
Qed.
