(* ===== verification/Hooks.v ===== *)
(** * The UI's own hooks

    [hooks/useUrlFilters.ts] over the search parameters of the current history
    entry, and [hooks/useUnsavedChangesGuard.ts]: the module variable
    [isBlocked], the effects that maintain it, and [confirmNavigation]. *)

From S2P Require Import Prelude JsText Web.

(** ** useUrlFilters *)

Module UrlFilters.

(** The values: the defaults, each overridden by the URL's value. *)
Definition values (defaults : list (string * string)) (p : list (string * string)) :
    list (string * string) :=
  (λ kv, (kv.1, default kv.2 (Params.get kv.1 p))) <$> defaults.

(** One key of a patch; [None] is [undefined]. *)
Definition patch_key (defaults : list (string * string)) (p : list (string * string))
    (kv : string * option string) : list (string * string) :=
  match kv.2 with
  | None => Params.delete kv.1 p
  | Some v =>
      if decide (Params.get kv.1 defaults = Some v) then Params.delete kv.1 p
      else Params.set kv.1 v p
  end.

(** The next search parameters: [Object.keys(patch)] in order, from a copy. *)
Definition apply_patch (defaults : list (string * string))
    (patch : list (string * option string)) (prev : list (string * string)) :
    list (string * string) :=
  foldl (patch_key defaults) prev patch.

(** The session history: the entries before the current one, the search
    parameters of the current one. *)
Record history := History { past : list (list (string * string)); current : list (string * string) }.

(** [setFilters(patch)]: [setSearchParams(..., { replace: true })] replaces the
    current entry. *)
Definition setFilters (defaults : list (string * string))
    (patch : list (string * option string)) (h : history) : history :=
  History (past h) (apply_patch defaults patch (current h)).

(** The back button. *)
Definition back (h : history) : history :=
  match past h with
  | [] => h
  | p :: ps => History ps p
  end.

(** The value a page reads for a key of its defaults. *)
Definition read (defaults : list (string * string)) (p : list (string * string)) (k : string) :
    option string :=
  Params.get k (values defaults p).

(** *** Lemmas *)

Lemma read_spec defaults p k :
  read defaults p k = (λ d, default d (Params.get k p)) <$> Params.get k defaults.
Proof.
  unfold read, values, Params.get at 1 3. induction defaults as [|[k' d] ds IH]; cbn; [done|].
  case_bool_decide; [by subst|]. exact IH.
Qed.

Lemma get_patch_other defaults p k kv :
  kv.1 ≠ k → Params.get k (patch_key defaults p kv) = Params.get k p.
Proof.
  intros Hk. unfold patch_key. destruct kv as [k' [v|]]; cbn in *; [case_decide|].
  - by apply Params.get_delete_other.
  - by apply Params.get_set_other.
  - by apply Params.get_delete_other.
Qed.

Lemma get_apply_other defaults patch p k :
  k ∉ patch.*1 → Params.get k (apply_patch defaults patch p) = Params.get k p.
Proof.
  unfold apply_patch. revert p. induction patch as [|kv patch IH]; intros p Hk; cbn [foldl]; [done|].
  cbn in Hk.
  rewrite IH by set_solver. apply get_patch_other. set_solver.
Qed.

(** The URL's value of one key after the key is patched. *)
Lemma get_patch_same defaults p k o :
  Params.get k (patch_key defaults p (k, o)) =
  match o with
  | Some v => if decide (Params.get k defaults = Some v) then None else Some v
  | None => None
  end.
Proof.
  unfold patch_key. cbn. destruct o as [v|]; [case_decide|].
  - apply Params.get_delete_same.
  - apply Params.get_set_same.
  - apply Params.get_delete_same.
Qed.

Lemma get_apply_same defaults patch p k o :
  NoDup patch.*1 → (k, o) ∈ patch →
  Params.get k (apply_patch defaults patch p) =
  match o with
  | Some v => if decide (Params.get k defaults = Some v) then None else Some v
  | None => None
  end.
Proof.
  revert p. induction patch as [|kv patch IH]; intros p Hnd Hin; [by apply elem_of_nil in Hin|].
  cbn in Hnd. apply NoDup_cons in Hnd as [Hk Hnd].
  change (apply_patch defaults (kv :: patch) p)
    with (apply_patch defaults patch (patch_key defaults p kv)).
  apply elem_of_cons in Hin as [<-|Hin]; [|by apply IH].
  rewrite get_apply_other by done. apply get_patch_same.
Qed.

Lemma patch_key_NoDup defaults p kv : NoDup p.*1 → NoDup (patch_key defaults p kv).*1.
Proof.
  intros H. unfold patch_key. destruct (kv.2); [case_decide|];
    auto using Params.NoDup_delete, Params.NoDup_set.
Qed.

(** *** Properties *)

(** After [setFilters] every key of the patch reads as it was set (an
    [undefined] one as its default), every other key reads as before, a search
    parameter of another component of the page stays, and no key stands in the URL
    with its default value once it was set. *)
Theorem setFilters_reads (defaults : list (string * string))
    (patch : list (string * option string)) (h : history) (k d : string) :
  Params.get k defaults = Some d → NoDup patch.*1 →
  (∀ o, (k, o) ∈ patch →
     read defaults (current (setFilters defaults patch h)) k = Some (default d o) ∧
     Params.get k (current (setFilters defaults patch h)) ≠ Some d) ∧
  (k ∉ patch.*1 →
     read defaults (current (setFilters defaults patch h)) k = read defaults (current h) k) ∧
  (∀ k', k' ∉ patch.*1 →
     Params.get k' (current (setFilters defaults patch h)) = Params.get k' (current h)).
Proof.
  intros Hd Hnd. unfold setFilters. cbn [current]. split; [|split].
  - intros o Hin. rewrite read_spec, Hd. cbn.
    rewrite (get_apply_same _ _ _ _ o) by done. rewrite Hd.
    destruct o as [v|]; [|done]. case_decide; [by simplify_eq/=|]. cbn. naive_solver.
  - intros Hk. rewrite !read_spec. by rewrite get_apply_other.
  - intros k' Hk. by apply get_apply_other.
Qed.

Lemma setFilters_reads_witness :
  read [("hours", "24"); ("offset", "0")]
    (current (setFilters [("hours", "24"); ("offset", "0")]
       [("hours", Some "168"); ("offset", Some "0")]
       (History [] [("tab", "x"); ("offset", "50")]))) "offset" = Some "0".
Proof.
  exact (proj1 (proj1 (setFilters_reads [("hours", "24"); ("offset", "0")]
    [("hours", Some "168"); ("offset", Some "0")]
    (History [] [("tab", "x"); ("offset", "50")]) "offset" "0"
    ltac:(reflexivity) ltac:(cbn; repeat constructor; set_solver))
    (Some "0") ltac:(set_solver))).
Defined.

(** [setFilters] adds no history entry, so the back button never restores
    the filters of before a change: it leaves to the entry before the page,
    whatever the filter changes were. *)
Theorem back_skips_filter_changes (defaults : list (string * string))
    (patches : list (list (string * option string))) (h : history) :
  length (past (foldl (λ h p, setFilters defaults p h) h patches)) = length (past h) ∧
  (past h ≠ [] →
   back (foldl (λ h p, setFilters defaults p h) h patches) = back h).
Proof.
  assert (Hpast : past (foldl (λ h p, setFilters defaults p h) h patches) = past h).
  { revert h. induction patches as [|p ps IH]; intros h; cbn; [done|]. by rewrite IH. }
  split; [by rewrite Hpast|]. intros Hne. unfold back. rewrite Hpast.
  by destruct (past h).
Qed.

Lemma back_skips_filter_changes_witness :
  back (foldl (λ h p, setFilters [("q", "")] p h) (History [[("from", "home")]] [])
          [[("q", Some "a")]; [("q", Some "ab")]]) = History [] [("from", "home")].
Proof.
  exact (proj2 (back_skips_filter_changes [("q", "")] [[("q", Some "a")]; [("q", Some "ab")]]
    (History [[("from", "home")]] [])) ltac:(discriminate)).
Defined.

End UrlFilters.

(** ** useUnsavedChangesGuard *)

Module NavGuard.

(** The module variable [isBlocked], and the [dirty] flag of the mounted page
    that uses the guard (its last committed render), if there is one. *)
Record guard := Guard { isBlocked : bool; mounted : option bool }.

Definition init : guard := Guard false None.

(** The effect [isBlocked = dirty] and its clean-up [isBlocked = false]. *)
Definition effect (dirty : bool) (g : guard) : guard := Guard dirty (mounted g).
Definition cleanup (g : guard) : guard := Guard false (mounted g).

(** React commits a render of the page: the first runs the effect; a later one
    with another [dirty] runs the clean-up of the last and then the effect. *)
Definition commit (dirty : bool) (g : guard) : guard :=
  match mounted g with
  | None => let g1 := effect dirty g in Guard (isBlocked g1) (Some dirty)
  | Some d =>
      if decide (d = dirty) then g
      else let g1 := effect dirty (cleanup g) in Guard (isBlocked g1) (Some dirty)
  end.

Definition unmount (g : guard) : guard :=
  match mounted g with
  | None => g
  | Some _ => let g1 := cleanup g in Guard (isBlocked g1) None
  end.

Definition isNavigationBlocked (g : guard) : bool := isBlocked g.

(** Whether [onBeforeUnload] of the mounted page prevents closing the tab. *)
Definition onBeforeUnload (g : guard) : bool :=
  match mounted g with Some dirty => dirty | None => false end.

(** What [confirmNavigation(proceed)] does: run it, or open the confirmation
    whose confirm button runs it. *)
Inductive navigation := Proceed | AskFirst.

Definition confirmNavigation (g : guard) : navigation :=
  if negb (isBlocked g) then Proceed else AskFirst.

(** The sidebar link's click in [Shell]: the router's own navigation, or the
    confirmation. *)
Definition navLink_onClick (g : guard) : navigation :=
  if negb (isNavigationBlocked g) then Proceed else confirmNavigation g.

Inductive event := Commit (dirty : bool) | Unmount.

Definition step (g : guard) (e : event) : guard :=
  match e with Commit d => commit d g | Unmount => unmount g end.

Definition run (es : list event) : guard := foldl step init es.

(** The invariant: the variable is the mounted page's flag. *)
Definition inv (g : guard) : Prop := isBlocked g = default false (mounted g).

Lemma inv_step g e : inv g → inv (step g e).
Proof.
  unfold inv. destruct g as [b [d|]], e as [d'|]; cbn; intros H; try done.
  by case_decide; subst.
Qed.

Lemma inv_run es : inv (run es).
Proof.
  unfold run. assert (Hi : inv init) by done. revert Hi. generalize init.
  induction es as [|e es IH]; intros g Hi; cbn; [done|]. apply IH. by apply inv_step.
Qed.

(** The flag of the page mounted after a run. *)
Fixpoint last_commit (acc : option bool) (es : list event) : option bool :=
  match es with
  | [] => acc
  | Commit d :: es' => last_commit (Some d) es'
  | Unmount :: es' => last_commit None es'
  end.

Lemma mounted_run es : mounted (run es) = last_commit None es.
Proof.
  unfold run. change (@None bool) with (mounted init). generalize init.
  induction es as [|e es IH]; intros g; cbn; [done|]. rewrite IH. f_equal.
  destruct g as [b [d|]], e as [d'|]; cbn; try done. by case_decide; subst.
Qed.

Lemma last_commit_snoc acc es d : last_commit acc (es ++ [Commit d]) = Some d.
Proof. revert acc. induction es as [|[d'|] es IH]; intros acc; cbn; auto. Qed.

(** After any sequence of renders and unmounts, in-app navigation asks
    first exactly when the page on screen has unsaved changes, at the sidebar and
    at the breadcrumbs alike, and so does closing the tab; a page that was left
    blocks nothing. *)
Theorem guard_tracks_dirty (es : list event) :
  let dirty := default false (last_commit None es) in
  isNavigationBlocked (run es) = dirty ∧
  confirmNavigation (run es) = (if dirty then AskFirst else Proceed) ∧
  navLink_onClick (run es) = (if dirty then AskFirst else Proceed) ∧
  onBeforeUnload (run es) = dirty ∧
  isNavigationBlocked (run (es ++ [Unmount])) = false.
Proof.
  cbv zeta. pose proof (inv_run es) as Hi. pose proof (inv_run (es ++ [Unmount])) as Hu.
  unfold inv in *. rewrite mounted_run in Hi, Hu.
  unfold navLink_onClick, confirmNavigation, isNavigationBlocked, onBeforeUnload.
  rewrite mounted_run, Hi, Hu. repeat split.
  - by destruct (default false _).
  - by destruct (default false _).
  - clear. assert (H : ∀ acc, last_commit acc (es ++ [Unmount]) = None); [|by rewrite H].
    induction es as [|[d|] es IH]; intros acc; cbn; auto.
Qed.

End NavGuard.
