(* ===== verification/Dashboard.v ===== *)
(** * The dashboard's widget configuration

    [pages/dashboard/widgetConfig.ts] and the configuration handlers of
    [pages/DashboardPage.tsx] and [pages/dashboard/CustomizeDrawer.tsx]: the
    list of widgets in display order, kept in [localStorage] as JSON. *)

From S2P Require Import Prelude JsText Json JsonRoundtrip.

Definition WIDGET_DEFS : list (string * string) :=
  [ ("query-volume", "Query volume"); ("decision", "Decision breakdown");
    ("top-domains", "Top blocked domains"); ("categories", "Blocks by category");
    ("top-clients", "Top clients"); ("group-breakdown", "Group breakdown");
    ("feed-health", "Feed health"); ("recent-events", "Recent block events");
    ("latency", "Resolver latency"); ("query-mix", "Query mix") ].

Definition widget_ids : list string := WIDGET_DEFS.*1.

Record WidgetConfig := MkWidget { wid : string; visible : bool }.

Definition DEFAULT_CONFIG : list WidgetConfig := (λ d, MkWidget d.1 true) <$> WIDGET_DEFS.

(** Truthiness of a property; an absent one is [undefined]. *)
Definition json_truthy (o : option json) : bool :=
  match o with
  | None | Some JNull => false
  | Some (JBool b) => b
  | Some (JNum m _) => negb (m =? 0)%Z
  | Some (JStr s) => truthy s
  | Some (JArr _) | Some (JObj _) => true
  end.

(** [w[k]] of a parsed entry: reading a property of [null] throws, other
    values without it give [undefined]. *)
Definition prop (w : json) (k : string) : exc (option json) :=
  match w with
  | JNull => Throw "Cannot read properties of null"
  | JObj l => Ok (obj_get k l)
  | _ => Ok None
  end.

(** An entry of the saved array: its [id] and the truth of its [visible], the only
    thing of it that is shown; a value that is no boolean is kept as it is by the code
    until the widget is toggled, and read again with the same truth. *)
Definition read_entry (w : json) : exc (option json * bool) :=
  match prop w "id", prop w "visible" with
  | Ok i, Ok v => Ok (i, json_truthy v)
  | _, _ => Throw "Cannot read properties of null"
  end.

Fixpoint read_entries (l : list json) : exc (list (option json * bool)) :=
  match l with
  | [] => Ok []
  | w :: l' => (e <- read_entry w ;; es <- read_entries l' ;; Ok (e :: es))%exc
  end.

(** [ids.has(id)] for the ids of the saved entries. *)
Definition saved_has (saved : list (option json * bool)) (id : string) : bool :=
  existsb (λ e, match e.1 with Some (JStr s) => bool_decide (s = id) | _ => false end) saved.

(** An entry whose id is one of the known widgets. *)
Definition keep_valid (e : option json * bool) : option WidgetConfig :=
  match e.1 with
  | Some (JStr s) => if decide (s ∈ widget_ids) then Some (MkWidget s e.2) else None
  | _ => None
  end.

(** The saved entries, then the widgets they do not name, less the unknown ones. *)
Definition merge_config (saved : list (option json * bool)) : list WidgetConfig :=
  omap keep_valid saved ++ List.filter (λ w, negb (saved_has saved (wid w))) DEFAULT_CONFIG.

(** [loadWidgetConfig()] on the stored text. *)
Definition loadWidgetConfig (raw : option string) : list WidgetConfig :=
  match raw with
  | None => DEFAULT_CONFIG
  | Some t =>
      if negb (truthy t) then DEFAULT_CONFIG
      else match json_parse t with
           | Some (JArr l) =>
               match read_entries l with
               | Ok saved => merge_config saved
               | Throw _ => DEFAULT_CONFIG
               end
           | _ => DEFAULT_CONFIG
           end
  end.

Definition config_json (c : list WidgetConfig) : json :=
  JArr ((λ w, JObj [("id", JStr (wid w)); ("visible", JBool (visible w))]) <$> c).

(** [saveWidgetConfig(config)]: the stored text. *)
Definition saveWidgetConfig (c : list WidgetConfig) : string := stringify (config_json c).

(** ** The page's handlers *)

Record dashboard := MkDashboard { widgetConfig : list WidgetConfig; storage : option string }.

(** [useState(loadWidgetConfig)] *)
Definition mount (stored : option string) : dashboard :=
  MkDashboard (loadWidgetConfig stored) stored.

Definition updateConfig (next : list WidgetConfig) (d : dashboard) : dashboard :=
  MkDashboard next (Some (saveWidgetConfig next)).

Definition toggleWidget (id : string) (d : dashboard) : dashboard :=
  updateConfig
    ((λ w, if decide (wid w = id) then MkWidget (wid w) (negb (visible w)) else w)
       <$> widgetConfig d) d.

(** [findIndex] *)
Fixpoint find_index (id : string) (c : list WidgetConfig) : option nat :=
  match c with
  | [] => None
  | w :: c' => if decide (wid w = id) then Some 0 else S <$> find_index id c'
  end.

Inductive direction := Up | Down.

(** [[next[i], next[j]] = [next[j], next[i]]] for indices in range. *)
Definition swap (i j : nat) (c : list WidgetConfig) : list WidgetConfig :=
  match c !! i, c !! j with
  | Some x, Some y => <[j := x]> (<[i := y]> c)
  | _, _ => c
  end.

Definition moveWidget (id : string) (dir : direction) (d : dashboard) : dashboard :=
  let c := widgetConfig d in
  match find_index id c with
  | None => d
  | Some i =>
      match dir with
      | Up => match i with O => d | S j => updateConfig (swap i j c) d end
      | Down => if decide (length c ≤ S i) then d else updateConfig (swap i (S i) c) d
      end
  end.

Definition resetConfig (d : dashboard) : dashboard := updateConfig DEFAULT_CONFIG d.

Inductive action := Toggle (id : string) | Move (id : string) (dir : direction) | Reset.

Definition act (d : dashboard) (a : action) : dashboard :=
  match a with
  | Toggle id => toggleWidget id d
  | Move id dir => moveWidget id dir d
  | Reset => resetConfig d
  end.

(** The widgets of the grid, in order. *)
Definition grid (d : dashboard) : list string :=
  wid <$> List.filter visible (widgetConfig d).

(** The drawer's count of hidden widgets. *)
Definition hiddenCount (c : list WidgetConfig) : nat :=
  length (List.filter (λ w, negb (visible w)) c).

(** ** Lemmas *)

(** Every known widget exactly once. *)
Definition config_ok (c : list WidgetConfig) : Prop := wid <$> c ≡ₚ widget_ids.

Lemma config_json_ok c : json_ok (config_json c).
Proof.
  unfold config_json. cbn. rewrite Forall_fmap, Forall_fmap. apply Forall_true.
  intros w. cbn. split; [|by repeat constructor]. repeat constructor; set_solver.
Qed.

Lemma read_entries_config c :
  read_entries ((λ w, JObj [("id", JStr (wid w)); ("visible", JBool (visible w))]) <$> c)
  = Ok ((λ w, (Some (JStr (wid w)), visible w)) <$> c).
Proof. induction c as [|w c IH]; cbn in *; [done|]. by rewrite IH. Qed.

Lemma omap_keep_valid c :
  Forall (λ w, wid w ∈ widget_ids) c →
  omap keep_valid ((λ w, (Some (JStr (wid w)), visible w)) <$> c) = c.
Proof.
  induction 1 as [|[i v] c Hw _ IH]; [done|]. cbn [fmap list_fmap omap list_omap].
  unfold keep_valid at 1. cbn [fst snd wid] in *. rewrite decide_True by done.
  f_equal. exact IH.
Qed.

Lemma saved_has_spec saved id :
  saved_has saved id = true ↔ ∃ v, (Some (JStr id), v) ∈ saved.
Proof.
  unfold saved_has. rewrite existsb_exists. split.
  - intros ([i v] & Hin & H). cbn in H. destruct i as [[]|]; try done.
    bools. subst. exists v. by apply list_elem_of_In.
  - intros [v Hin]. exists (Some (JStr id), v). split; [by apply list_elem_of_In|].
    cbn. by apply bool_decide_eq_true.
Qed.

Lemma filter_all_false {A} (f : A → bool) l : (∀ x, x ∈ l → f x = false) → List.filter f l = [].
Proof.
  induction l as [|x l IH]; intros H; cbn; [done|]. rewrite (H x) by set_solver.
  apply IH. set_solver.
Qed.

Lemma default_ids : wid <$> DEFAULT_CONFIG = widget_ids.
Proof. reflexivity. Qed.

#[local] Opaque DEFAULT_CONFIG.

Lemma config_ok_ids c : config_ok c → Forall (λ w, wid w ∈ widget_ids) c.
Proof.
  unfold config_ok. intros Hc. apply Forall_forall. intros w Hw. rewrite <- Hc.
  apply list_elem_of_fmap. eauto.
Qed.

(** Known widgets only, and every known widget at least once. *)
Definition covers (c : list WidgetConfig) : Prop := ∀ id, id ∈ (wid <$> c) ↔ id ∈ widget_ids.

Lemma config_ok_covers c : config_ok c → covers c.
Proof. unfold config_ok, covers. intros Hc id. by rewrite Hc. Qed.

(** What is stored is read back, also when a widget is named twice. *)
Lemma load_save_covers c : covers c → loadWidgetConfig (Some (saveWidgetConfig c)) = c.
Proof.
  intros Hc. unfold loadWidgetConfig, saveWidgetConfig.
  assert (truthy (stringify (config_json c)) = true) as ->.
  { unfold truthy. by apply bool_decide_eq_true. }
  rewrite json_parse_stringify by apply config_json_ok. unfold config_json at 1.
  cbn [negb]. rewrite read_entries_config. unfold merge_config.
  rewrite omap_keep_valid by (apply Forall_forall; intros w Hw; apply Hc, list_elem_of_fmap; eauto).
  rewrite filter_all_false; [apply app_nil_r|].
  intros w Hw. apply negb_false_iff, saved_has_spec.
  assert (wid w ∈ wid <$> c) as (w' & Hww & Hin)%list_elem_of_fmap.
  { apply Hc. rewrite <- default_ids. apply list_elem_of_fmap. eauto. }
  exists (visible w'). apply list_elem_of_fmap. exists w'. by rewrite Hww.
Qed.

Lemma load_save c : config_ok c → loadWidgetConfig (Some (saveWidgetConfig c)) = c.
Proof. intros Hc. by apply load_save_covers, config_ok_covers. Qed.

Lemma elem_of_merge_ids saved id :
  id ∈ (wid <$> merge_config saved) ↔ id ∈ widget_ids.
Proof.
  unfold merge_config. rewrite fmap_app, elem_of_app. split.
  - intros [(w & -> & Hw)%list_elem_of_fmap|(w & -> & Hw)%list_elem_of_fmap].
    + apply list_elem_of_omap in Hw as ([i v] & _ & H). unfold keep_valid in H. cbn in H.
      destruct i as [[]|]; try done. case_decide; by simplify_eq/=.
    + apply list_elem_of_In, filter_In in Hw as [Hw _]. rewrite <- default_ids.
      apply list_elem_of_fmap. exists w. split; [done|]. by apply list_elem_of_In.
  - intros Hid. destruct (saved_has saved id) eqn:Hs.
    + left. apply saved_has_spec in Hs as [v Hv]. apply list_elem_of_fmap.
      exists (MkWidget id v). split; [done|]. apply list_elem_of_omap.
      eexists. split; [exact Hv|]. unfold keep_valid. cbn. by rewrite decide_True.
    + right. rewrite <- default_ids in Hid. apply list_elem_of_fmap in Hid as (w & -> & Hw).
      apply list_elem_of_fmap. exists w. split; [done|].
      apply list_elem_of_In, filter_In. split; [by apply list_elem_of_In|]. by rewrite Hs.
Qed.

Lemma NoDup_omap_valid saved :
  NoDup saved.*1 → NoDup (wid <$> omap keep_valid saved).
Proof.
  induction saved as [|[i v] saved IH]; cbn [fmap list_fmap fst]; intros Hnd; [constructor|].
  apply NoDup_cons in Hnd as [Hi Hnd]. cbn [omap list_omap].
  destruct (keep_valid (i, v)) as [w|] eqn:E; [|by apply IH]. cbn. apply NoDup_cons.
  split; [|by apply IH]. unfold keep_valid in E. cbn in E. destruct i as [[]|]; try done.
  case_decide; simplify_eq/=.
  intros (w & Hw & ([i' v'] & Hin & Hk)%list_elem_of_omap)%list_elem_of_fmap.
  unfold keep_valid in Hk. cbn in Hk. destruct i' as [[]|]; try done. case_decide; simplify_eq/=.
  apply Hi. apply list_elem_of_fmap. by exists (Some (JStr s0), v').
Qed.

Lemma NoDup_widget_ids : NoDup widget_ids.
Proof. apply (bool_decide_unpack _). vm_compute. done. Qed.

Lemma merge_ok saved : NoDup saved.*1 → config_ok (merge_config saved).
Proof.
  intros Hnd. unfold config_ok. apply NoDup_Permutation.
  - unfold merge_config. rewrite fmap_app. apply NoDup_app. split; [by apply NoDup_omap_valid|].
    split.
    + intros id (w & -> & ([i v] & Hin & Hk)%list_elem_of_omap)%list_elem_of_fmap.
      unfold keep_valid in Hk. cbn in Hk. destruct i as [[]|]; try done.
      case_decide; simplify_eq/=.
      intros (w & -> & (_ & Hf)%list_elem_of_In%filter_In)%list_elem_of_fmap.
      apply negb_true_iff, not_true_iff_false in Hf. apply Hf, saved_has_spec. eauto.
    + apply NoDup_map_filter. rewrite default_ids. apply NoDup_widget_ids.
  - apply NoDup_widget_ids.
  - apply elem_of_merge_ids.
Qed.

Lemma default_ok : config_ok DEFAULT_CONFIG.
Proof. unfold config_ok. by rewrite default_ids. Qed.

Lemma swap_perm i j c : swap i j c ≡ₚ c.
Proof.
  unfold swap. destruct (c !! i) as [x|] eqn:Hi; [|done].
  destruct (c !! j) as [y|] eqn:Hj; [|done].
  by apply Permutation_insert_swap.
Qed.

Lemma config_ok_perm c c' : wid <$> c' ≡ₚ wid <$> c → config_ok c → config_ok c'.
Proof. unfold config_ok. intros -> H. exact H. Qed.

Lemma toggle_ids id (c : list WidgetConfig) :
  wid <$> ((λ w, if decide (wid w = id) then MkWidget (wid w) (negb (visible w)) else w) <$> c)
  = wid <$> c.
Proof. rewrite <- list_fmap_compose. apply list_fmap_ext. intros ? w _. cbn. by case_decide. Qed.

(** The invariant of the page: every widget once, and the store agrees with
    the screen. *)
Definition dashboard_inv (d : dashboard) : Prop :=
  config_ok (widgetConfig d) ∧ loadWidgetConfig (storage d) = widgetConfig d.

Lemma updateConfig_inv c d : config_ok c → dashboard_inv (updateConfig c d).
Proof. intros Hc. split; [done|]. by apply load_save. Qed.

Lemma act_inv d a : dashboard_inv d → dashboard_inv (act d a).
Proof.
  intros [Hok Hst]. destruct a as [id|id dir|].
  - apply updateConfig_inv. eapply config_ok_perm; [|exact Hok]. by rewrite toggle_ids.
  - cbn [act]. unfold moveWidget. destruct (find_index id (widgetConfig d)) as [i|]; [|done].
    assert (Hs : ∀ i j, config_ok (swap i j (widgetConfig d))).
    { intros i' j'. eapply config_ok_perm; [|exact Hok]. by rewrite swap_perm. }
    destruct dir; [destruct i as [|j]; [done|]|case_decide; [done|]];
      by apply updateConfig_inv.
  - apply updateConfig_inv, default_ok.
Qed.

Lemma load_covers stored : covers (loadWidgetConfig stored).
Proof.
  assert (covers DEFAULT_CONFIG) as Hd by (apply config_ok_covers, default_ok).
  unfold loadWidgetConfig. destruct stored as [t|]; [|done]. destruct (negb (truthy t)); [done|].
  destruct (json_parse t) as [[]|]; try done. destruct (read_entries l) as [saved|]; [|done].
  intros id. apply elem_of_merge_ids.
Qed.

(** Whatever the store held, it agrees with the screen. *)
Definition stored_shown (d : dashboard) : Prop :=
  covers (widgetConfig d) ∧ loadWidgetConfig (storage d) = widgetConfig d.

Lemma updateConfig_shown c d : covers c → stored_shown (updateConfig c d).
Proof. intros Hc. split; [done|]. by apply load_save_covers. Qed.

Lemma act_shown d a : stored_shown d → stored_shown (act d a).
Proof.
  intros [Hok Hst]. destruct a as [id|id dir|].
  - apply updateConfig_shown. intros x. by rewrite toggle_ids.
  - cbn [act]. unfold moveWidget. destruct (find_index id (widgetConfig d)) as [i|]; [|done].
    assert (Hs : ∀ i j, covers (swap i j (widgetConfig d))).
    { intros i' j' x. rewrite <- (Hok x). by rewrite swap_perm. }
    destruct dir; [destruct i as [|j]; [done|]|case_decide; [done|]]; by apply updateConfig_shown.
  - apply updateConfig_shown, config_ok_covers, default_ok.
Qed.

Lemma find_index_spec id c i :
  find_index id c = Some i → ∃ w, c !! i = Some w ∧ wid w = id.
Proof.
  revert i. induction c as [|w c IH]; intros i; cbn; [done|].
  case_decide; [intros [= <-]; eauto|]. destruct (find_index id c); [|done].
  intros [= <-]. by apply IH.
Qed.

Lemma swap_lookup i j c x y :
  c !! i = Some x → c !! j = Some y → i ≠ j →
  swap i j c !! i = Some y ∧ swap i j c !! j = Some x ∧
  ∀ k, k ≠ i → k ≠ j → swap i j c !! k = c !! k.
Proof.
  intros Hi Hj Hij. unfold swap. rewrite Hi, Hj.
  apply lookup_lt_Some in Hi as Hil. apply lookup_lt_Some in Hj as Hjl. split; [|split].
  - rewrite list_lookup_insert_ne by done. by apply list_lookup_insert_eq.
  - apply list_lookup_insert_eq. by rewrite length_insert.
  - intros k Hki Hkj. by rewrite !list_lookup_insert_ne.
Qed.

(** ** Properties *)

(** Loading never fails, whatever the store holds: the result names known
    widgets only and every known widget, and each exactly once when the store's
    entries name no widget twice; a configuration that was saved is loaded back as
    it was. *)
Theorem loadWidgetConfig_total (raw : option string) (c : list WidgetConfig) (l : list json)
    (saved : list (option json * bool)) (t : string) :
  (∀ id, id ∈ (wid <$> loadWidgetConfig raw) ↔ id ∈ widget_ids) ∧
  (json_parse t = Some (JArr l) → read_entries l = Ok saved → NoDup saved.*1 →
     config_ok (loadWidgetConfig (Some t))) ∧
  (config_ok c → loadWidgetConfig (Some (saveWidgetConfig c)) = c).
Proof.
  assert (Hdef : ∀ id, id ∈ (wid <$> DEFAULT_CONFIG) ↔ id ∈ widget_ids) by (by rewrite default_ids).
  split; [|split].
  - intros id. destruct raw as [u|]; [|apply Hdef]. unfold loadWidgetConfig.
    destruct (truthy u); [|apply Hdef]. cbn [negb].
    destruct (json_parse u) as [[]|]; try apply Hdef.
    destruct (read_entries _); [apply elem_of_merge_ids|apply Hdef].
  - intros Hp Hr Hnd. unfold loadWidgetConfig. destruct (truthy t); [|apply default_ok].
    cbn [negb]. rewrite Hp, Hr. by apply merge_ok.
  - apply load_save.
Qed.

Lemma loadWidgetConfig_total_witness :
  config_ok (loadWidgetConfig (Some "[]")) ∧
  loadWidgetConfig (Some (saveWidgetConfig DEFAULT_CONFIG)) = DEFAULT_CONFIG.
Proof.
  split.
  - apply (proj1 (proj2 (loadWidgetConfig_total None [] [] [] "[]")));
      [vm_compute; reflexivity|reflexivity|constructor].
  - apply (proj2 (proj2 (loadWidgetConfig_total None DEFAULT_CONFIG [] [] ""))), Permutation_refl.
Defined.

(** From any stored configuration without duplicates, every sequence of
    toggles, moves and resets keeps each widget exactly once and keeps the store
    equal to the screen, so a reload shows the same dashboard. *)
Theorem dashboard_reload_same (stored : option string) (as_ : list action) :
  config_ok (loadWidgetConfig stored) →
  let d := foldl act (mount stored) as_ in
  config_ok (widgetConfig d) ∧ widgetConfig (mount (storage d)) = widgetConfig d ∧
  grid (mount (storage d)) = grid d.
Proof.
  intros Hok d. assert (Hinv : dashboard_inv d).
  { unfold d. assert (Hi : dashboard_inv (mount stored)) by done. revert Hi.
    generalize (mount stored). induction as_ as [|a l IH]; intros d0 Hi; cbn; [done|].
    apply IH. by apply act_inv. }
  destruct Hinv as [H1 H2]. split; [done|]. unfold grid, mount. cbn [widgetConfig]. by rewrite H2.
Qed.

Lemma dashboard_reload_same_witness :
  grid (mount (storage (foldl act (mount None) [Toggle "latency"; Move "decision" Up])))
  = grid (foldl act (mount None) [Toggle "latency"; Move "decision" Up]).
Proof.
  exact (proj2 (proj2 (dashboard_reload_same None [Toggle "latency"; Move "decision" Up]
    ltac:(apply Permutation_refl)))).
Defined.

(** A move exchanges the widget with its neighbour and nothing else, and
    does nothing at the ends or for an unknown widget; moving it back restores the
    order; a toggle flips one widget and two toggles are none. *)
Theorem move_and_toggle (d : dashboard) (id : string) (i : nat) (x y : WidgetConfig) :
  find_index id (widgetConfig d) = Some (S i) →
  widgetConfig d !! i = Some x → widgetConfig d !! S i = Some y →
  (let c := widgetConfig (moveWidget id Up d) in
   c !! i = Some y ∧ c !! S i = Some x ∧
   (∀ k, k ≠ i → k ≠ S i → c !! k = widgetConfig d !! k)) ∧
  (∀ id', find_index id' (widgetConfig d) = None → ∀ dir, moveWidget id' dir d = d) ∧
  (∀ id', find_index id' (widgetConfig d) = Some 0 → moveWidget id' Up d = d) ∧
  widgetConfig (toggleWidget id (toggleWidget id d)) = widgetConfig d.
Proof.
  intros Hf Hx Hy. split; [|split; [|split]].
  - cbv zeta. unfold moveWidget. rewrite Hf. cbn [widgetConfig updateConfig].
    destruct (swap_lookup (S i) i (widgetConfig d) y x Hy Hx ltac:(lia)) as (H1 & H2 & H3).
    auto.
  - intros id' Hn dir. unfold moveWidget. by rewrite Hn.
  - intros id' Hn. unfold moveWidget. by rewrite Hn.
  - cbn. rewrite <- list_fmap_compose. etrans; [|apply list_fmap_id].
    apply list_fmap_ext. intros ? [w v] _. cbn. repeat case_decide; cbn in *; try done.
    by rewrite negb_involutive.
Qed.

Lemma move_and_toggle_witness :
  widgetConfig (moveWidget "decision" Up (mount None)) !! 0 = Some (MkWidget "decision" true).
Proof.
  exact (proj1 (proj1 (move_and_toggle (mount None) "decision" 0
    (MkWidget "query-volume" true) (MkWidget "decision" true)
    ltac:(reflexivity) ltac:(reflexivity) ltac:(reflexivity)))).
Defined.
