(* ===== verification/Format.v ===== *)
(** * Dates, durations and addresses as text

    [format.ts] and [pages/dhcp/helpers.ts].  Instants are milliseconds since
    the epoch; the browser's clock is an argument, and so is the offset of local
    time (in milliseconds east of UTC at a local instant).  [Date]'s parser is
    modelled on the ISO format of the control plane's timestamps. *)

From S2P Require Import Prelude JsText Json.

#[local] Open Scope Z_scope.

(** ** Date parsing *)

(** Days from 1970-01-01 to a proleptic Gregorian date. *)
Definition days_from_civil (y m d : Z) : Z :=
  let y := if m <=? 2 then y - 1 else y in
  let era := y / 400 in
  let yoe := y - era * 400 in
  let doy := (153 * (if 2 <? m then m - 3 else m + 9) + 2) / 5 + d - 1 in
  let doe := yoe * 365 + yoe / 4 - yoe / 100 + doy in
  era * 146097 + doe - 719468.

(** Exactly [n] digits at the head of the text. *)
Fixpoint digits_n (n : nat) (acc : Z) (s : string) : option (Z * string) :=
  match n with
  | O => Some (acc, s)
  | S k => match s with
           | String c r => if is_digit c then digits_n k (acc * 10 + digit_val c) r else None
           | "" => None
           end
  end.

Definition expect (c : ascii) (s : string) : option string :=
  match s with String d r => if Ascii.eqb c d then Some r else None | "" => None end.

Notation "'let?' x := c 'in' k" := (match c with Some x => k | None => None end)
  (at level 10, x pattern, k at level 200).

(** The time zone of a timestamp. *)
Inductive zone := Utc | Offset (minutes : Z) | Local.

(** [Z], [+hh:mm], [-hhmm] or nothing, up to the end. *)
Definition parse_zone (s : string) : option zone :=
  match s with
  | "" => Some Local
  | String c r =>
      if Ascii.eqb c "Z" || Ascii.eqb c "z" then
        match r with "" => Some Utc | _ => None end
      else if Ascii.eqb c "+" || Ascii.eqb c "-" then
        let? (h, r1) := digits_n 2 0 r in
        let r2 := match expect ":" r1 with Some x => x | None => r1 end in
        let? (m, r3) := digits_n 2 0 r2 in
        match r3 with
        | "" => Some (Offset (if Ascii.eqb c "-" then - (h * 60 + m) else h * 60 + m))
        | _ => None
        end
      else None
  end.

(** The milliseconds of a fraction: its first three digits. *)
Definition frac_ms (digits : string) : Z :=
  match digits with
  | String a (String b (String c _)) => digit_val a * 100 + digit_val b * 10 + digit_val c
  | String a (String b "") => digit_val a * 100 + digit_val b * 10
  | String a "" => digit_val a * 100
  | "" => 0
  end.

(** The digits at the head of the text, and the rest. *)
Fixpoint take_digits (s : string) : string * string :=
  match s with
  | String c r => if is_digit c then let '(d, t) := take_digits r in (String c d, t) else ("", s)
  | "" => ("", "")
  end.

(** [.fff...], or nothing. *)
Definition parse_fraction (s : string) : option (Z * string) :=
  match s with
  | String c r =>
      if Ascii.eqb c "." then
        let '(d, t) := take_digits r in
        match d with "" => None | _ => Some (frac_ms d, t) end
      else Some (0, s)
  | "" => Some (0, "")
  end.

(** The fields of [YYYY-MM-DDTHH:MM:SS.fff] as milliseconds, and the zone. *)
Definition parse_iso (s : string) : option (Z * zone) :=
  let? (y, s) := digits_n 4 0 s in
  let? s := expect "-" s in
  let? (mo, s) := digits_n 2 0 s in
  let? s := expect "-" s in
  let? (d, s) := digits_n 2 0 s in
  let? s := expect "T" s in
  let? (h, s) := digits_n 2 0 s in
  let? s := expect ":" s in
  let? (mi, s) := digits_n 2 0 s in
  let? s := expect ":" s in
  let? (se, s) := digits_n 2 0 s in
  let? (ms, s) := parse_fraction s in
  let? z := parse_zone s in
  if (1 <=? mo) && (mo <=? 12) && (1 <=? d) && (d <=? 31) && (h <=? 23) && (mi <=? 59) && (se <=? 59)
  then Some (((days_from_civil y mo d * 24 + h) * 60 + mi) * 60000 + se * 1000 + ms, z)
  else None.

(** [new Date(s).getTime()]: [None] is [NaN].  [local t] is the offset of local
    time at the local instant [t]. *)
Definition date_parse (local : Z → Z) (s : string) : option Z :=
  let? (t, z) := parse_iso s in
  Some match z with
       | Utc => t
       | Offset m => t - m * 60000
       | Local => t - local t
       end.

(** ** format.ts *)

(** [/[zZ]|[+-]\d{2}:?\d{2}$/.test(iso)]: the second alternative on the
    reversed text. *)
Definition ends_with_offset (s : string) : bool :=
  match String.rev s with
  | String a (String b r) =>
      is_digit a && is_digit b &&
      match r with
      | String c (String d (String e r')) =>
          if Ascii.eqb c ":"
          then match r' with
               | String f _ => is_digit d && is_digit e && (Ascii.eqb f "+" || Ascii.eqb f "-")
               | "" => false
               end
          else is_digit c && is_digit d && (Ascii.eqb e "+" || Ascii.eqb e "-")
      | _ => false
      end
  | _ => false
  end.

Definition hasTz (iso : string) : bool :=
  negb (sforall (λ c, negb (Ascii.eqb c "z" || Ascii.eqb c "Z")) iso) || ends_with_offset iso.

Definition toDate (local : Z → Z) (iso : string) : option Z :=
  date_parse local (if hasTz iso then iso else iso +:+ "Z").

(** [Math.floor((now - t) / 1000)] of a timestamp, at least zero. *)
Definition age_seconds (now t : Z) : Z := Z.max 0 (math_floor_div (now - t) 1000).

Definition formatRelativeTime (local : Z → Z) (now : Z) (iso : option string) : string :=
  match iso with
  | None => "Never"
  | Some s =>
      if negb (truthy s) then "Never"
      else match toDate local s with
           | None => "NaNd ago"
           | Some t =>
               let seconds := age_seconds now t in
               if seconds <? 60 then "Just now"
               else if seconds <? 3600 then Z_str (math_floor_div seconds 60) +:+ "m ago"
               else if seconds <? 86400 then Z_str (math_floor_div seconds 3600) +:+ "h ago"
               else Z_str (math_floor_div seconds 86400) +:+ "d ago"
           end
  end.

(** The unit a duration is shown in: its length in seconds and its letter. *)
Definition formatDuration (seconds : Z) : string :=
  if seconds <? 3600 then Z_str (math_round_div seconds 60) +:+ "m"
  else if seconds <? 86400 then Z_str (math_round_div seconds 3600) +:+ "h"
  else Z_str (math_round_div seconds 86400) +:+ "d".

(** [a / b] in binary64 for positive integers [a < 2^53] and [b]: the 53-bit
    mantissa, rounded half to even, and the exponent, as [m / 2^k]. *)
Definition round_half_even (p q : Z) : Z :=
  let d := p / q in
  let r := p mod q in
  if 2 * r <? q then d
  else if q <? 2 * r then d + 1
  else if Z.even d then d else d + 1.

Definition double_div (a b : Z) : Z * Z :=
  let k0 := 53 + Z.log2 b - Z.log2 a in
  let k := if a * 2 ^ k0 / b <? 2 ^ 53 then k0 else k0 - 1 in
  (round_half_even (a * 2 ^ k) b, k).

(** [(m / 2^k).toFixed(1)]: the nearest number of tenths, the larger of two. *)
Definition tenths (m k : Z) : Z := (20 * m + 2 ^ k) / 2 ^ (k + 1).

(** [Math.round(m / 2^k)], which is also [(m / 2^k).toFixed(0)] *)
Definition math_round_double (m k : Z) : Z := (2 * m + 2 ^ k) / 2 ^ (k + 1).

(** [(m / 2^k).toFixed(2)], in hundredths. *)
Definition hundredths (m k : Z) : Z := (200 * m + 2 ^ k) / 2 ^ (k + 1).

Definition toFixed1 (n : Z) : string := Z_str (n / 10) +:+ "." +:+ Z_str (n mod 10).

Definition latency_tenths (us : Z) : Z := let '(m, k) := double_div us 1000 in tenths m k.

Definition formatLatency (us : option Z) : string :=
  match us with
  | None => "—"
  | Some us =>
      if us <? 1000 then Z_str us +:+ "µs"
      else toFixed1 (latency_tenths us) +:+ "ms"
  end.

(** ** dhcp/helpers.ts *)

Definition LEASE_STATE (n : Z) : option (string * string) :=
  match n with
  | 0 => Some ("Active", "green")
  | 1 => Some ("Declined", "red")
  | 2 => Some ("Expired", "gray")
  | _ => None
  end.

(** The text of a remaining time in seconds. *)
Definition remaining (diff : Z) : string :=
  if diff <? 0 then "expired"
  else if diff <? 3600 then Z_str (math_round_div diff 60) +:+ "m"
  else if diff <? 86400 then Z_str (math_round_div diff 3600) +:+ "h"
  else Z_str (math_round_div diff 86400) +:+ "d".

Definition fmtExpire (local : Z → Z) (now : Z) (iso : option string) : string :=
  match iso with
  | None => "—"
  | Some s =>
      if negb (truthy s) then "—"
      else match date_parse local s with
           | None => "NaNd"
           | Some t => remaining (math_round_div (t - now) 1000)
           end
  end.

Definition fmtDuration (seconds : Z) : string :=
  if seconds <? 60 then Z_str seconds +:+ "s"
  else if seconds <? 3600 then Z_str (math_round_div seconds 60) +:+ "m"
  else if seconds <? 86400 then Z_str (math_round_div seconds 3600) +:+ "h"
  else Z_str (math_round_div seconds 86400) +:+ "d".

Definition is_mac_sep (c : ascii) : bool := Ascii.eqb c ":" || Ascii.eqb c "-".

(** [hex.match(/.{2}/g)] of an even number of characters. *)
Fixpoint pairs (s : string) : list string :=
  match s with
  | String a (String b r) => String a (String b "") :: pairs r
  | _ => []
  end.

Definition normalizeMac (raw : string) : option string :=
  let hex := toLowerCase (remove_chars is_mac_sep raw) in
  if (String.length hex =? 12)%nat && sforall is_hex_lower hex
  then Some (join ":" (pairs hex)) else None.

(** ** Lemmas *)

Lemma digits_n_spec n acc s v r :
  digits_n n acc s = Some (v, r) →
  ∃ p, s = p +:+ r ∧ String.length p = n ∧ sforall is_digit p = true ∧
       ∀ x, digits_n n acc (p +:+ x) = Some (v, x).
Proof.
  revert acc s. induction n as [|n IH]; intros acc s; cbn.
  - intros [= <- <-]. by exists "".
  - destruct s as [|c s]; [done|]. destruct (is_digit c) eqn:Hc; [|done].
    intros (p & -> & Hl & Hp & Hx)%IH. exists (String c p). rewrite sapp_cons.
    split; [done|]. split; [cbn; by rewrite Hl|]. split; [cbn; by rewrite Hc|].
    intros x. rewrite sapp_cons. cbn. by rewrite Hc.
Qed.

Lemma expect_spec c s r : expect c s = Some r → s = String c r ∧ ∀ x, expect c (String c x) = Some x.
Proof.
  destruct s as [|d s]; cbn [expect]; [done|]. destruct (Ascii.eqb_spec c d) as [->|]; [|done].
  intros [= ->]. split; [done|]. intros x. by rewrite Ascii.eqb_refl.
Qed.

Lemma take_digits_spec s : ∀ d t, take_digits s = (d, t) →
  s = d +:+ t ∧ sforall is_digit d = true.
Proof.
  induction s as [|c s IH]; intros d t; cbn; [by intros [= <- <-]|].
  destruct (is_digit c) eqn:Hc; [|by intros [= <- <-]].
  destruct (take_digits s) as [d' t'] eqn:E. intros [= <- <-].
  destruct (IH _ _ eq_refl) as [-> H]. rewrite sapp_cons. cbn. by rewrite Hc.
Qed.

Lemma take_digits_app d x :
  sforall is_digit d = true → match x with String c _ => is_digit c = false | _ => True end →
  take_digits (d +:+ x) = (d, x).
Proof.
  intros Hd Hx. induction d as [|c d IH]; cbn in *.
  - rewrite sapp_nil_l. destruct x; cbn; [done|]. by rewrite Hx.
  - bools. rewrite sapp_cons. cbn. by rewrite H, IH.
Qed.

Lemma parse_zone_local s : parse_zone s = Some Local → s = "".
Proof.
  destruct s as [|c r]; [done|]. cbn [parse_zone]. intros H.
  repeat (case_match; try done).
Qed.

(** A timestamp without a zone: its digits and separators, and the fraction. *)
Lemma parse_iso_local s t :
  parse_iso s = Some (t, Local) →
  parse_iso (s +:+ "Z") = Some (t, Utc) ∧
  ∃ p1 p2 p3 p4 p5 p6 f,
    s = p1 +:+ "-" +:+ p2 +:+ "-" +:+ p3 +:+ "T" +:+ p4 +:+ ":" +:+ p5 +:+ ":" +:+ p6 +:+ f ∧
    Forall (λ p, sforall is_digit p = true) [p1; p2; p3; p4; p5; p6] ∧
    String.length p5 = 2%nat ∧ String.length p6 = 2%nat ∧
    (f = "" ∨ ∃ d, d ≠ "" ∧ f = String "." d ∧ sforall is_digit d = true).
Proof.
  unfold parse_iso. intros H.
  destruct (digits_n 4 0 s) as [[y s1]|] eqn:E1; [|done].
  apply digits_n_spec in E1 as (p1 & -> & _ & D1 & R1).
  destruct (expect "-" s1) as [s2|] eqn:E2; [|done]. apply expect_spec in E2 as [-> _].
  destruct (digits_n 2 0 s2) as [[mo s3]|] eqn:E3; [|done].
  apply digits_n_spec in E3 as (p2 & -> & _ & D2 & R2).
  destruct (expect "-" s3) as [s4|] eqn:E4; [|done]. apply expect_spec in E4 as [-> _].
  destruct (digits_n 2 0 s4) as [[d s5]|] eqn:E5; [|done].
  apply digits_n_spec in E5 as (p3 & -> & _ & D3 & R3).
  destruct (expect "T" s5) as [s6|] eqn:E6; [|done]. apply expect_spec in E6 as [-> _].
  destruct (digits_n 2 0 s6) as [[h s7]|] eqn:E7; [|done].
  apply digits_n_spec in E7 as (p4 & -> & _ & D4 & R4).
  destruct (expect ":" s7) as [s8|] eqn:E8; [|done]. apply expect_spec in E8 as [-> _].
  destruct (digits_n 2 0 s8) as [[mi s9]|] eqn:E9; [|done].
  apply digits_n_spec in E9 as (p5 & -> & L5 & D5 & R5).
  destruct (expect ":" s9) as [s10|] eqn:E10; [|done]. apply expect_spec in E10 as [-> _].
  destruct (digits_n 2 0 s10) as [[se s11]|] eqn:E11; [|done].
  apply digits_n_spec in E11 as (p6 & -> & L6 & D6 & R6).
  destruct (parse_fraction s11) as [[ms s12]|] eqn:E12; [|done].
  destruct (parse_zone s12) as [z|] eqn:E13; [|done].
  destruct (_ && _) eqn:Hr in H; [|done]. injection H as <- ->.
  apply parse_zone_local in E13 as ->.
  assert (Hf : parse_fraction (s11 +:+ "Z") = Some (ms, "Z") ∧
    (s11 = "" ∨ ∃ d, d ≠ "" ∧ s11 = String "." d ∧ sforall is_digit d = true)).
  { destruct s11 as [|c r]; cbn [parse_fraction] in E12.
    { injection E12 as <-. split; [done|by left]. }
    destruct (Ascii.eqb_spec c ".") as [->|]; [|done].
    destruct (take_digits r) as [d' t'] eqn:Et. apply take_digits_spec in Et as [-> Hd].
    destruct d' as [|a d']; [done|]. injection E12 as <- ->. rewrite sapp_nil_r.
    split; [|right; by exists (String a d')].
    rewrite sapp_cons. cbn [parse_fraction Ascii.eqb Bool.eqb]. cbn [Ascii.eqb].
    change (Ascii.eqb "." ".") with true. cbn iota.
    rewrite take_digits_app by done. done. }
  destruct Hf as [Hf Hshape]. split.
  - autorewrite with mantis. rewrite R1. cbn [expect]. rewrite !Ascii.eqb_refl.
    rewrite R2. cbn [expect]. rewrite !Ascii.eqb_refl. rewrite R3. cbn [expect].
    rewrite !Ascii.eqb_refl. rewrite R4. cbn [expect]. rewrite !Ascii.eqb_refl.
    rewrite R5. cbn [expect]. rewrite !Ascii.eqb_refl. rewrite R6, Hf.
    change (parse_zone "Z") with (Some Utc). cbn iota. by rewrite Hr.
  - exists p1, p2, p3, p4, p5, p6, s11. split; [by autorewrite with mantis|].
    split; [by repeat constructor|]. auto.
Qed.

Definition no_zulu (c : ascii) : bool := negb (Ascii.eqb c "z" || Ascii.eqb c "Z").

Lemma digit_facts c :
  is_digit c = true →
  no_zulu c = true ∧ Ascii.eqb c ":" = false ∧ Ascii.eqb c "+" = false ∧ Ascii.eqb c "-" = false ∧
  Ascii.eqb c "." = false ∧ is_mac_sep c = false ∧ lower_char c = c.
Proof.
  intros H.
  assert (Hall : ∀ c, implb (is_digit c)
    (no_zulu c && negb (Ascii.eqb c ":") && negb (Ascii.eqb c "+") && negb (Ascii.eqb c "-")
     && negb (Ascii.eqb c ".") && negb (is_mac_sep c) && Ascii.eqb (lower_char c) c) = true).
  { apply ascii_cases. vm_compute. reflexivity. }
  specialize (Hall c). rewrite H in Hall. cbn [implb] in Hall. bools.
  repeat split; try done. by apply Ascii.eqb_eq.
Qed.

Lemma digits_no_zulu p : sforall is_digit p = true → sforall no_zulu p = true.
Proof. apply sforall_impl. intros c Hc. by apply digit_facts. Qed.

Lemma offset_false_frac pre d :
  d ≠ "" → sforall is_digit d = true → ends_with_offset (pre +:+ String "." d) = false.
Proof.
  intros Hne Hd. unfold ends_with_offset. change (String "." d) with ("." +:+ d).
  rewrite !srev_app. rewrite <- srev_forall in Hd. rewrite sapp_assoc.
  change (String.rev "." +:+ ?x) with (String "." x).
  destruct (String.rev d) as [|a r] eqn:E.
  { exfalso. apply Hne. by rewrite <- (srev_involutive d), E. }
  destruct r as [|b [|c [|d' [|e r]]]]; cbn in Hd; bools; rewrite ?sapp_cons, ?sapp_nil_l.
  - apply andb_false_iff. left. apply andb_false_r.
  - apply andb_false_iff. right. by destruct (String.rev pre) as [|x [|y ?]].
  - destruct (digit_facts c) as (_ & Hc & _); [done|]. apply andb_false_iff. right.
    destruct (String.rev pre) as [|x ?]; [done|]. rewrite Hc. by rewrite andb_false_r.
  - destruct (digit_facts c) as (_ & Hc & _); [done|]. apply andb_false_iff. right.
    rewrite Hc. apply andb_false_r.
  - destruct (digit_facts c) as (_ & Hc & _); [done|].
    destruct (digit_facts e) as (_ & _ & He1 & He2 & _); [done|]. apply andb_false_iff. right.
    rewrite Hc, He1, He2. apply andb_false_r.
Qed.

Lemma offset_false_plain pre p5 p6 :
  String.length p5 = 2%nat → String.length p6 = 2%nat →
  sforall is_digit p5 = true → sforall is_digit p6 = true →
  ends_with_offset (pre +:+ ":" +:+ p5 +:+ ":" +:+ p6) = false.
Proof.
  destruct p5 as [|a [|b [|]]], p6 as [|c [|d [|]]]; try done. intros _ _ _ _.
  unfold ends_with_offset. rewrite !srev_app. cbn. apply andb_false_iff. right.
  by rewrite andb_false_r.
Qed.

Lemma hasTz_local s t : parse_iso s = Some (t, Local) → hasTz s = false.
Proof.
  intros [_ (p1 & p2 & p3 & p4 & p5 & p6 & f & -> & Hd & L5 & L6 & Hf)]%parse_iso_local.
  rewrite !Forall_cons in Hd. destruct Hd as (D1 & D2 & D3 & D4 & D5 & D6 & _).
  unfold hasTz. apply orb_false_iff. split.
  - apply negb_false_iff.
    assert (Hff : sforall no_zulu f = true).
    { destruct Hf as [->|(d & _ & -> & Dd)]; [done|]. cbn. by apply digits_no_zulu. }
    enough (sforall no_zulu (p1 +:+ "-" +:+ p2 +:+ "-" +:+ p3 +:+ "T" +:+ p4 +:+ ":"
      +:+ p5 +:+ ":" +:+ p6 +:+ f) = true) as HH by exact HH.
    rewrite !sforall_app, Hff.
    by rewrite (digits_no_zulu p1), (digits_no_zulu p2), (digits_no_zulu p3),
      (digits_no_zulu p4), (digits_no_zulu p5), (digits_no_zulu p6).
  - destruct Hf as [->|(d & Hne & -> & Dd)].
    + rewrite sapp_nil_r, <- (sapp_assoc _ _ (":" +:+ p5 +:+ ":" +:+ p6)).
      rewrite <- !sapp_assoc.
      rewrite (sapp_assoc _ _ p6), (sapp_assoc _ p5), (sapp_assoc _ ":").
      by apply offset_false_plain.
    + rewrite <- !sapp_assoc. by apply offset_false_frac.
Qed.

Lemma toDate_local local s t : parse_iso s = Some (t, Local) → toDate local s = Some t.
Proof.
  intros H. unfold toDate. rewrite (hasTz_local s t H). unfold date_parse.
  apply parse_iso_local in H as [-> _]. done.
Qed.

Lemma round_half_even_bound p q : 0 < q → 2 * Z.abs (round_half_even p q * q - p) ≤ q.
Proof.
  intros Hq. unfold round_half_even.
  pose proof (Z.div_mod p q ltac:(lia)) as Hd. pose proof (Z.mod_pos_bound p q Hq) as Hm.
  destruct (Z.ltb_spec (2 * (p mod q)) q); [nia|].
  destruct (Z.ltb_spec q (2 * (p mod q))); [nia|]. destruct (Z.even _); nia.
Qed.

Lemma double_div_exponent a : 0 < a < 2 ^ 53 → 9 ≤ (double_div a 1000).2.
Proof.
  intros Ha. unfold double_div. cbn [snd].
  assert (Z.log2 a ≤ 52) by (apply Z.lt_succ_r; apply Z.log2_lt_pow2; lia).
  change (Z.log2 1000) with 9. case_match; lia.
Qed.

Lemma tenths_bound m k : 0 ≤ k → 2 * Z.abs (tenths m k * 2 ^ k - 10 * m) ≤ 2 ^ k.
Proof.
  intros Hk. unfold tenths. rewrite Z.pow_add_r, Z.pow_1_r by lia.
  assert (0 < 2 ^ k) by (apply Z.pow_pos_nonneg; lia).
  pose proof (Z.mul_div_le (20 * m + 2 ^ k) (2 ^ k * 2) ltac:(lia)).
  pose proof (Z.mul_succ_div_gt (20 * m + 2 ^ k) (2 ^ k * 2) ltac:(lia)). nia.
Qed.

(** The pairs of a string of twelve bytes. *)
Lemma length_12 s : String.length s = 12%nat →
  ∃ a b c d e f g h i j k l, s = String a (String b (String c (String d (String e (String f
    (String g (String h (String i (String j (String k (String l ""))))))))))).
Proof.
  intros H. destruct s as [|a [|b [|c [|d [|e [|f [|g [|h [|i [|j [|k [|l [|]]]]]]]]]]]]]; try done.
  by repeat eexists.
Qed.

Lemma hex_lower_facts c :
  is_hex_lower c = true → is_mac_sep c = false ∧ lower_char c = c.
Proof.
  intros H.
  assert (Hall : ∀ c, implb (is_hex_lower c) (negb (is_mac_sep c) && Ascii.eqb (lower_char c) c) = true)
    by (apply ascii_cases; vm_compute; reflexivity).
  specialize (Hall c). rewrite H in Hall. cbn [implb] in Hall. bools. split; [done|].
  by apply Ascii.eqb_eq.
Qed.

Lemma hex_lower_stable h :
  sforall is_hex_lower h = true → toLowerCase (remove_chars is_mac_sep h) = h.
Proof.
  induction h as [|c h IH]; cbn; [done|]. intros ?; bools.
  destruct (hex_lower_facts c) as [Hs Hl]; [done|]. rewrite Hs. cbn. by rewrite Hl, IH.
Qed.

(** Dropping the separators of the colon form gives the digits back. *)
Lemma colon_form_strip h :
  String.length h = 12%nat → sforall is_hex_lower h = true →
  remove_chars is_mac_sep (join ":" (pairs h)) = h ∧
  remove_chars is_mac_sep (join "-" (pairs h)) = h.
Proof.
  intros (a & b & c & d & e & f & g & i & j & k & l & m & ->)%length_12 Hh.
  cbn in Hh. bools.
  repeat match goal with H : is_hex_lower ?x = true |- _ =>
    apply hex_lower_facts in H as [? _] end.
  assert (is_mac_sep ":" = true) by done. assert (is_mac_sep "-" = true) by done.
  split; cbn [pairs join]; rewrite !sapp_cons, !sapp_nil_l, ?sapp_cons; cbn -[is_mac_sep];
    repeat match goal with H : is_mac_sep _ = _ |- _ => rewrite H; clear H end; reflexivity.
Qed.

(** ** Properties *)

(** A timestamp without a time zone is read as UTC by [toDate], in every
    local time zone, so the relative time shown for it is the same everywhere:
    "Just now" in the first minute (and for the future), then whole minutes, hours
    and days that have passed. *)
Theorem naive_timestamps_are_utc (local : Z → Z) (now : Z) (iso : string) (t : Z) :
  parse_iso iso = Some (t, Local) →
  toDate local iso = Some t ∧
  let s := age_seconds now t in
  formatRelativeTime local now (Some iso) =
    (if s <? 60 then "Just now"
     else if s <? 3600 then Z_str (s / 60) +:+ "m ago"
     else if s <? 86400 then Z_str (s / 3600) +:+ "h ago"
     else Z_str (s / 86400) +:+ "d ago") ∧
  (now ≤ t → formatRelativeTime local now (Some iso) = "Just now").
Proof.
  intros H. pose proof (toDate_local local iso t H) as Ht.
  assert (truthy iso = true) as Hi.
  { unfold truthy. apply bool_decide_eq_true. by intros ->. }
  split; [done|]. cbv zeta. unfold formatRelativeTime. rewrite Hi, Ht. cbn [negb].
  split; [done|]. intros Hle.
  assert (age_seconds now t = 0) as ->; [|done]. unfold age_seconds, math_floor_div.
  apply Z.max_l. apply Z.div_le_upper_bound; lia.
Qed.

Lemma naive_timestamps_are_utc_witness :
  toDate (λ _, 7200000) "2026-01-02T03:04:05.123456" = Some 1767323045123.
Proof.
  exact (proj1 (naive_timestamps_are_utc (λ _, 7200000) 0 "2026-01-02T03:04:05.123456"
    1767323045123 ltac:(vm_compute; reflexivity))).
Defined.

(** [fmtExpire] reads the same kind of timestamp as local time.  East of
    UTC, a lease that is still valid (its UTC expiry [t] is in the future) is shown
    as expired as soon as it has less than the local offset left. *)
Theorem fmtExpire_shifts_naive (local : Z → Z) (now : Z) (iso : string) (t : Z) :
  parse_iso iso = Some (t, Local) → now < t → t - now < local t - 500 →
  toDate local iso = Some t ∧ fmtExpire local now (Some iso) = "expired".
Proof.
  intros H Hnow Hoff. split; [by apply toDate_local|].
  assert (truthy iso = true) as Hi.
  { unfold truthy. apply bool_decide_eq_true. by intros ->. }
  unfold fmtExpire. rewrite Hi. cbn [negb]. unfold date_parse. rewrite H.
  unfold remaining. pose proof (math_round_div_bounds (t - local t - now) 1000 ltac:(lia)).
  assert ((math_round_div (t - local t - now) 1000 <? 0) = true) as ->; [|done].
  apply Z.ltb_lt. lia.
Qed.

Lemma fmtExpire_shifts_naive_witness :
  fmtExpire (λ _, 7200000) 1767323000000 (Some "2026-01-02T03:34:05") = "expired".
Proof.
  exact (proj2 (fmtExpire_shifts_naive (λ _, 7200000) 1767323000000 "2026-01-02T03:34:05"
    1767324845000 ltac:(vm_compute; reflexivity) ltac:(lia) ltac:(lia))).
Defined.

(** A duration is shown as a whole number of minutes, hours or days that is
    off by at most half of the unit shown, in both formatters and in the remaining
    time of a lease; seconds below a minute are exact in the DHCP one. *)
Theorem durations_round_to_half_unit (s : Z) :
  0 ≤ s →
  (∃ n unit letter, formatDuration s = Z_str n +:+ letter ∧
     (unit, letter) ∈ [(60, "m"); (3600, "h"); (86400, "d")] ∧ 2 * Z.abs (n * unit - s) ≤ unit) ∧
  (∃ n unit letter, fmtDuration s = Z_str n +:+ letter ∧
     (unit, letter) ∈ [(1, "s"); (60, "m"); (3600, "h"); (86400, "d")] ∧ 2 * Z.abs (n * unit - s) ≤ unit) ∧
  (60 ≤ s → fmtDuration s = formatDuration s ∧ remaining s = formatDuration s).
Proof.
  intros Hs.
  assert (Hr : ∀ u, 0 < u → 2 * Z.abs (math_round_div s u * u - s) ≤ u).
  { intros u Hu. pose proof (math_round_div_bounds s u Hu). lia. }
  unfold formatDuration, fmtDuration, remaining. split; [|split].
  - destruct (s <? 3600); [exists (math_round_div s 60), 60, "m"|
      destruct (s <? 86400); [exists (math_round_div s 3600), 3600, "h"|
        exists (math_round_div s 86400), 86400, "d"]];
      (split; [reflexivity|]); (split; [set_solver|]); by apply Hr.
  - destruct (s <? 60); [exists s, 1, "s"|
      destruct (s <? 3600); [exists (math_round_div s 60), 60, "m"|
        destruct (s <? 86400); [exists (math_round_div s 3600), 3600, "h"|
          exists (math_round_div s 86400), 86400, "d"]]];
      (split; [reflexivity|]); (split; [set_solver|]); try (by apply Hr). lia.
  - intros H60. replace (s <? 60) with false by (symmetry; apply Z.ltb_ge; lia).
    replace (s <? 0) with false by (symmetry; apply Z.ltb_ge; lia). done.
Qed.

Lemma durations_round_to_half_unit_witness : fmtDuration 5400 = formatDuration 5400.
Proof.
  exact (proj1 (proj2 (proj2 (durations_round_to_half_unit 5400 ltac:(lia))) ltac:(lia))).
Defined.

(** The latency shown in milliseconds is the measured number of microseconds
    to the nearest tenth of a millisecond, although it goes through a binary
    division. *)
Theorem formatLatency_accurate (us : Z) :
  1000 ≤ us < 2 ^ 53 →
  ∃ n, formatLatency (Some us) = Z_str (n / 10) +:+ "." +:+ Z_str (n mod 10) +:+ "ms" ∧
       Z.abs (100 * n - us) ≤ 50.
Proof.
  intros Hus. exists (latency_tenths us). split.
  - unfold formatLatency. replace (us <? 1000) with false by (symmetry; apply Z.ltb_ge; lia).
    unfold toFixed1. by rewrite !sapp_assoc.
  - unfold latency_tenths. pose proof (double_div_exponent us ltac:(lia)) as Hk.
    destruct (double_div us 1000) as [m k] eqn:E. cbn [snd] in Hk.
    assert (2 * Z.abs (m * 1000 - us * 2 ^ k) ≤ 1000) as Hm.
    { unfold double_div in E. injection E as <- <-. apply round_half_even_bound. lia. }
    pose proof (tenths_bound m k ltac:(lia)) as Ht.
    assert (2 ^ 9 ≤ 2 ^ k) by (apply Z.pow_le_mono_r; lia).
    change (2 ^ 9) with 512 in H. nia.
Qed.

Lemma formatLatency_accurate_witness :
  ∃ n, formatLatency (Some 8345) = Z_str (n / 10) +:+ "." +:+ Z_str (n mod 10) +:+ "ms" ∧
       Z.abs (100 * n - 8345) ≤ 50.
Proof. exact (formatLatency_accurate 8345 ltac:(lia)). Defined.

(** [normalizeMac] gives every documented spelling of an address the same
    colon form, changes nothing in an address that has it, and its result has
    twelve lower-case hexadecimal digits. *)
Theorem normalizeMac_canonical (raw h m : string) :
  (String.length h = 12%nat → sforall is_hex_lower h = true →
     normalizeMac h = Some (join ":" (pairs h)) ∧
     normalizeMac (join ":" (pairs h)) = Some (join ":" (pairs h)) ∧
     normalizeMac (join "-" (pairs h)) = Some (join ":" (pairs h))) ∧
  (normalizeMac raw = Some m →
     normalizeMac m = Some m ∧ normalizeMac (toLowerCase raw) = Some m ∧
     String.length (remove_chars is_mac_sep m) = 12%nat ∧
     sforall is_hex_lower (remove_chars is_mac_sep m) = true).
Proof.
  assert (Hcanon : ∀ h x, String.length h = 12%nat → sforall is_hex_lower h = true →
    toLowerCase (remove_chars is_mac_sep x) = h → normalizeMac x = Some (join ":" (pairs h))).
  { intros h' x Hl Hh Hx. unfold normalizeMac. by rewrite Hx, Hl, Hh. }
  assert (Hlow : ∀ s, sforall is_hex_lower s = true → toLowerCase s = s).
  { intros s Hs. induction s as [|c s IH]; cbn in *; [done|]. bools.
    destruct (hex_lower_facts c) as [_ ->]; [done|]. by rewrite IH. }
  split.
  - intros Hl Hh. destruct (colon_form_strip h Hl Hh) as [Hc Hd].
    split; [|split]; apply Hcanon; try done; [by apply hex_lower_stable|rewrite Hc|rewrite Hd];
      by apply Hlow.
  - unfold normalizeMac at 1. set (h' := toLowerCase _). destruct (_ && _) eqn:E; [|done].
    intros [= <-]. apply andb_true_iff in E as [Hl%Nat.eqb_eq Hh].
    destruct (colon_form_strip h' Hl Hh) as [Hc _]. rewrite Hc.
    split; [apply Hcanon; try done; rewrite Hc; by apply Hlow|]. split; [|done].
    apply Hcanon; [done|done|]. unfold h'. clear.
    induction raw as [|c raw IH]; [done|].
    assert (Hsep : is_mac_sep (lower_char c) = is_mac_sep c).
    { apply eqb_prop. revert c. apply (ascii_cases (λ c, Bool.eqb _ _)). vm_compute. reflexivity. }
    cbn [toLowerCase remove_chars]. rewrite Hsep. destruct (is_mac_sep c); [done|].
    cbn [toLowerCase]. by rewrite lower_char_idemp, IH.
Qed.

Lemma normalizeMac_canonical_witness :
  normalizeMac (join "-" (pairs "aabbccddeeff")) = Some "aa:bb:cc:dd:ee:ff" ∧
  normalizeMac "aa:bb:cc:dd:ee:ff" = Some "aa:bb:cc:dd:ee:ff".
Proof.
  split.
  - exact (proj2 (proj2 (proj1 (normalizeMac_canonical "" "aabbccddeeff" "")
      ltac:(reflexivity) ltac:(reflexivity)))).
  - exact (proj1 (proj2 (normalizeMac_canonical "AABB-CCDD-EEFF" "" "aa:bb:cc:dd:ee:ff")
      ltac:(reflexivity))).
Defined.

Close Scope Z_scope.
