(* ===== verification/Schema.v ===== *)
(** * The API schema

    [api/schema.ts], the OpenAPI description of the control-plane API that the
    typed client is instantiated with: the paths with the operation of each
    method, the component schemas, and the operations with their path, query
    and header parameters, request body and JSON responses.  The tables below
    follow the file from top to bottom.  [conforms] decides whether a JSON value
    has a type of the schema. *)

From S2P Require Import Prelude JsText Json.

(** ** Types *)

Inductive method := GET | PUT | POST | DELETE | PATCH.

#[export] Instance method_eq_dec : EqDecision method.
Proof. solve_decision. Defined.

Inductive ty :=
| TString | TNumber | TBool | TNull | TAny | TNever
| TLit (s : string)
| TArr (t : ty)
| TRecord (t : ty)
| TUnion (ts : list ty)
| TRef (name : string).

(** [name?: ty] has [f_optional = true]. *)
Record field := Field { f_name : string; f_optional : bool; f_ty : ty }.

Inductive schema :=
| Obj (fields : list field)
| Alias (t : ty).

Record path_item := PathItem { p_path : string; p_ops : list (method * string) }.

Record operation := Operation {
  o_id : string;
  o_path : list string;
  o_query : list field;
  o_header : list field;
  o_body : option ty;
  o_responses : list (Z * option ty);
}.

(** ** The tables *)

Definition paths_1 : list path_item :=
  [ PathItem "/api/v1/categories" [(GET, "list_categories_api_v1_categories_get")];
    PathItem "/api/v1/tenants" [(GET, "list_tenants_api_v1_tenants_get"); (POST, "create_tenant_api_v1_tenants_post")];
    PathItem "/api/v1/tenants/{tenant_id}" [(GET, "get_tenant_api_v1_tenants__tenant_id__get"); (DELETE, "delete_tenant_api_v1_tenants__tenant_id__delete")];
    PathItem "/api/v1/tenants/{tenant_id}/groups" [(GET, "list_groups_api_v1_tenants__tenant_id__groups_get"); (POST, "create_group_api_v1_tenants__tenant_id__groups_post")];
    PathItem "/api/v1/groups/{group_id}/subnet" [(PUT, "set_group_subnet_api_v1_groups__group_id__subnet_put")];
    PathItem "/api/v1/groups/{group_id}" [(PUT, "rename_group_api_v1_groups__group_id__put"); (DELETE, "delete_group_api_v1_groups__group_id__delete")];
    PathItem "/api/v1/routing-table" [(GET, "get_routing_table_api_v1_routing_table_get")] ].

Definition paths_2 : list path_item :=
  [ PathItem "/api/v1/local-zones" [(GET, "get_local_zone_records_api_v1_local_zones_get")];
    PathItem "/api/v1/groups/{group_id}/policy" [(GET, "get_policy_api_v1_groups__group_id__policy_get"); (PUT, "upsert_policy_api_v1_groups__group_id__policy_put")];
    PathItem "/api/v1/public-key" [(GET, "get_public_key_api_v1_public_key_get")];
    PathItem "/api/v1/groups/{group_id}/bundle" [(GET, "get_latest_bundle_api_v1_groups__group_id__bundle_get"); (POST, "compile_bundle_api_v1_groups__group_id__bundle_post")];
    PathItem "/api/v1/groups/{group_id}/policy/test" [(POST, "test_domain_api_v1_groups__group_id__policy_test_post")];
    PathItem "/api/v1/groups/{group_id}/block-page-template" [(GET, "get_group_block_template_api_v1_groups__group_id__block_page_template_get"); (PUT, "upsert_group_block_template_api_v1_groups__group_id__block_page_template_put")] ].

Definition paths_3 : list path_item :=
  [ PathItem "/api/v1/tenants/{tenant_id}/block-page-template" [(PUT, "upsert_tenant_block_template_api_v1_tenants__tenant_id__block_page_template_put")];
    PathItem "/api/v1/groups/{group_id}/block-template" [(GET, "get_effective_block_template_api_v1_groups__group_id__block_template_get")];
    PathItem "/api/v1/feeds" [(GET, "list_feeds_api_v1_feeds_get"); (POST, "create_feed_api_v1_feeds_post")];
    PathItem "/api/v1/feeds/{feed_id}" [(DELETE, "delete_feed_api_v1_feeds__feed_id__delete"); (PATCH, "update_feed_api_v1_feeds__feed_id__patch")];
    PathItem "/api/v1/feeds/{feed_id}/ingest" [(POST, "ingest_feed_api_v1_feeds__feed_id__ingest_post")];
    PathItem "/api/v1/query-log" [(GET, "query_log_api_v1_query_log_get")];
    PathItem "/api/v1/query-events" [(POST, "ingest_query_events_api_v1_query_events_post")] ].

Definition paths_4 : list path_item :=
  [ PathItem "/api/v1/groups/{group_id}/top-domains" [(GET, "top_domains_api_v1_groups__group_id__top_domains_get")];
    PathItem "/api/v1/analytics/summary" [(GET, "analytics_summary_api_v1_analytics_summary_get")];
    PathItem "/api/v1/analytics/timeseries" [(GET, "analytics_timeseries_api_v1_analytics_timeseries_get")];
    PathItem "/api/v1/analytics/by-group" [(GET, "analytics_by_group_api_v1_analytics_by_group_get")];
    PathItem "/api/v1/analytics/top-clients" [(GET, "top_clients_analytics_api_v1_analytics_top_clients_get")];
    PathItem "/api/v1/analytics/top-categories" [(GET, "top_categories_analytics_api_v1_analytics_top_categories_get")];
    PathItem "/api/v1/analytics/latency" [(GET, "latency_analytics_api_v1_analytics_latency_get")] ].

Definition paths_5 : list path_item :=
  [ PathItem "/api/v1/analytics/query-mix" [(GET, "query_mix_analytics_api_v1_analytics_query_mix_get")];
    PathItem "/api/v1/analytics/recent-events" [(GET, "recent_events_analytics_api_v1_analytics_recent_events_get")];
    PathItem "/api/v1/audit-log" [(GET, "list_audit_log_api_v1_audit_log_get")];
    PathItem "/api/v1/auth/login" [(POST, "login_api_v1_auth_login_post")];
    PathItem "/api/v1/auth/logout" [(POST, "logout_api_v1_auth_logout_post")];
    PathItem "/api/v1/auth/me" [(GET, "me_api_v1_auth_me_get")];
    PathItem "/api/v1/auth/change-password" [(POST, "change_password_api_v1_auth_change_password_post")];
    PathItem "/api/v1/users" [(GET, "list_users_api_v1_users_get"); (POST, "create_user_api_v1_users_post")] ].

Definition paths_6 : list path_item :=
  [ PathItem "/api/v1/users/{user_id}" [(DELETE, "delete_user_api_v1_users__user_id__delete"); (PATCH, "update_user_api_v1_users__user_id__patch")];
    PathItem "/api/v1/siem/events" [(GET, "list_siem_events_api_v1_siem_events_get")];
    PathItem "/api/v1/siem/syslog" [(GET, "list_syslog_api_v1_siem_syslog_get"); (POST, "create_syslog_api_v1_siem_syslog_post")];
    PathItem "/api/v1/siem/syslog/{syslog_id}" [(DELETE, "delete_syslog_api_v1_siem_syslog__syslog_id__delete"); (PATCH, "update_syslog_api_v1_siem_syslog__syslog_id__patch")];
    PathItem "/api/v1/siem/syslog/{syslog_id}/test" [(POST, "test_syslog_api_v1_siem_syslog__syslog_id__test_post")];
    PathItem "/api/v1/tenants/{tenant_id}/clients" [(GET, "list_clients_api_v1_tenants__tenant_id__clients_get")];
    PathItem "/api/v1/tenants/{tenant_id}/clients/{ip}" [(PUT, "register_client_api_v1_tenants__tenant_id__clients__ip__put"); (DELETE, "delete_client_api_v1_tenants__tenant_id__clients__ip__delete")];
    PathItem "/api/v1/dns-zones" [(GET, "list_zones_api_v1_dns_zones_get"); (POST, "create_zone_api_v1_dns_zones_post")] ].

Definition paths_7 : list path_item :=
  [ PathItem "/api/v1/dns-zones/{zone_id}" [(GET, "get_zone_api_v1_dns_zones__zone_id__get"); (DELETE, "delete_zone_api_v1_dns_zones__zone_id__delete"); (PATCH, "update_zone_api_v1_dns_zones__zone_id__patch")];
    PathItem "/api/v1/dns-zones/{zone_id}/export" [(GET, "export_zone_api_v1_dns_zones__zone_id__export_get")];
    PathItem "/api/v1/dns-zones/{zone_id}/records" [(GET, "list_records_api_v1_dns_zones__zone_id__records_get"); (POST, "create_record_api_v1_dns_zones__zone_id__records_post")];
    PathItem "/api/v1/dns-zones/{zone_id}/records/{record_id}" [(DELETE, "delete_record_api_v1_dns_zones__zone_id__records__record_id__delete"); (PATCH, "update_record_api_v1_dns_zones__zone_id__records__record_id__patch")];
    PathItem "/api/v1/upstream/resolvers" [(GET, "list_resolvers_api_v1_upstream_resolvers_get"); (POST, "create_resolver_api_v1_upstream_resolvers_post")];
    PathItem "/api/v1/upstream/resolvers/{resolver_id}" [(DELETE, "delete_resolver_api_v1_upstream_resolvers__resolver_id__delete"); (PATCH, "update_resolver_api_v1_upstream_resolvers__resolver_id__patch")];
    PathItem "/api/v1/upstream/resolvers/{resolver_id}/probe" [(POST, "probe_resolver_api_v1_upstream_resolvers__resolver_id__probe_post")];
    PathItem "/api/v1/upstream/pools" [(GET, "list_pools_api_v1_upstream_pools_get"); (POST, "create_pool_api_v1_upstream_pools_post")] ].

Definition paths_8 : list path_item :=
  [ PathItem "/api/v1/upstream/pools/{pool_id}" [(DELETE, "delete_pool_api_v1_upstream_pools__pool_id__delete"); (PATCH, "update_pool_api_v1_upstream_pools__pool_id__patch")];
    PathItem "/api/v1/upstream/pools/{pool_id}/members/{resolver_id}" [(PUT, "upsert_pool_member_api_v1_upstream_pools__pool_id__members__resolver_id__put"); (DELETE, "remove_pool_member_api_v1_upstream_pools__pool_id__members__resolver_id__delete")];
    PathItem "/api/v1/tenants/{tenant_id}/upstream/routes" [(GET, "list_routes_api_v1_tenants__tenant_id__upstream_routes_get"); (POST, "create_route_api_v1_tenants__tenant_id__upstream_routes_post")];
    PathItem "/api/v1/tenants/{tenant_id}/upstream/routes/{route_id}" [(DELETE, "delete_route_api_v1_tenants__tenant_id__upstream_routes__route_id__delete"); (PATCH, "update_route_api_v1_tenants__tenant_id__upstream_routes__route_id__patch")];
    PathItem "/api/v1/tenants/{tenant_id}/upstream/policy" [(GET, "get_tenant_policy_api_v1_tenants__tenant_id__upstream_policy_get"); (PUT, "upsert_tenant_policy_api_v1_tenants__tenant_id__upstream_policy_put")];
    PathItem "/api/v1/upstream-bundle/{tenant_id}" [(GET, "get_upstream_bundle_api_v1_upstream_bundle__tenant_id__get")];
    PathItem "/api/v1/dhcp/scopes" [(GET, "list_scopes_api_v1_dhcp_scopes_get"); (POST, "create_scope_api_v1_dhcp_scopes_post")] ].

Definition paths_9 : list path_item :=
  [ PathItem "/api/v1/dhcp/scopes/{scope_id}" [(GET, "get_scope_api_v1_dhcp_scopes__scope_id__get"); (DELETE, "delete_scope_api_v1_dhcp_scopes__scope_id__delete"); (PATCH, "update_scope_api_v1_dhcp_scopes__scope_id__patch")];
    PathItem "/api/v1/dhcp/scopes/{scope_id}/reservations" [(GET, "list_reservations_api_v1_dhcp_scopes__scope_id__reservations_get"); (POST, "create_reservation_api_v1_dhcp_scopes__scope_id__reservations_post")];
    PathItem "/api/v1/dhcp/scopes/{scope_id}/reservations/{reservation_id}" [(DELETE, "delete_reservation_api_v1_dhcp_scopes__scope_id__reservations__reservation_id__delete"); (PATCH, "update_reservation_api_v1_dhcp_scopes__scope_id__reservations__reservation_id__patch")];
    PathItem "/api/v1/dhcp/scopes/{scope_id}/options" [(GET, "list_options_api_v1_dhcp_scopes__scope_id__options_get"); (POST, "create_option_api_v1_dhcp_scopes__scope_id__options_post")];
    PathItem "/api/v1/dhcp/scopes/{scope_id}/options/{option_id}" [(DELETE, "delete_option_api_v1_dhcp_scopes__scope_id__options__option_id__delete")];
    PathItem "/api/v1/dhcp/scopes/{scope_id}/relays" [(GET, "list_relays_api_v1_dhcp_scopes__scope_id__relays_get"); (POST, "create_relay_api_v1_dhcp_scopes__scope_id__relays_post")];
    PathItem "/api/v1/dhcp/scopes/{scope_id}/relays/{relay_id}" [(DELETE, "delete_relay_api_v1_dhcp_scopes__scope_id__relays__relay_id__delete")];
    PathItem "/api/v1/dhcp/leases" [(GET, "list_leases_api_v1_dhcp_leases_get")] ].

Definition paths_10 : list path_item :=
  [ PathItem "/api/v1/dhcp/stats" [(GET, "dhcp_stats_api_v1_dhcp_stats_get")];
    PathItem "/api/v1/dhcp/interfaces" [(GET, "list_interfaces_api_v1_dhcp_interfaces_get")];
    PathItem "/api/v1/dhcp/health" [(GET, "dhcp_health_api_v1_dhcp_health_get")];
    PathItem "/api/v1/internal/dhcp-event" [(POST, "dhcp_event_api_v1_internal_dhcp_event_post")];
    PathItem "/api/v1/dhcp6/scopes" [(GET, "list_scopes6_api_v1_dhcp6_scopes_get"); (POST, "create_scope6_api_v1_dhcp6_scopes_post")];
    PathItem "/api/v1/dhcp6/scopes/{scope_id}" [(GET, "get_scope6_api_v1_dhcp6_scopes__scope_id__get"); (DELETE, "delete_scope6_api_v1_dhcp6_scopes__scope_id__delete"); (PATCH, "update_scope6_api_v1_dhcp6_scopes__scope_id__patch")] ].

Definition paths_11 : list path_item :=
  [ PathItem "/api/v1/dhcp6/scopes/{scope_id}/reservations" [(GET, "list_reservations6_api_v1_dhcp6_scopes__scope_id__reservations_get"); (POST, "create_reservation6_api_v1_dhcp6_scopes__scope_id__reservations_post")];
    PathItem "/api/v1/dhcp6/scopes/{scope_id}/reservations/{reservation_id}" [(DELETE, "delete_reservation6_api_v1_dhcp6_scopes__scope_id__reservations__reservation_id__delete"); (PATCH, "update_reservation6_api_v1_dhcp6_scopes__scope_id__reservations__reservation_id__patch")];
    PathItem "/api/v1/dhcp6/leases" [(GET, "list_leases6_api_v1_dhcp6_leases_get")];
    PathItem "/api/v1/nodes/credentials" [(GET, "list_node_credentials_api_v1_nodes_credentials_get"); (POST, "create_node_credential_api_v1_nodes_credentials_post")];
    PathItem "/api/v1/nodes/credentials/{node_name}/rotate" [(POST, "rotate_node_credential_api_v1_nodes_credentials__node_name__rotate_post")];
    PathItem "/api/v1/nodes/credentials/{node_name}/revoke" [(POST, "revoke_node_credential_api_v1_nodes_credentials__node_name__revoke_post")];
    PathItem "/health" [(GET, "health_health_get")] ].

Definition paths : list path_item :=
  paths_1 ++ paths_2 ++ paths_3 ++ paths_4 ++ paths_5 ++ paths_6 ++ paths_7 ++ paths_8 ++ paths_9 ++ paths_10 ++ paths_11.

Definition schemas_1 : list (string * schema) :=
  [ ("AnalyticsSummary", Obj [Field "total_queries" false (TNumber);
       Field "blocked_queries" false (TNumber);
       Field "allowed_queries" false (TNumber);
       Field "block_ratio" false (TNumber);
       Field "cache_hit_ratio" false (TNumber);
       Field "unique_clients" false (TNumber);
       Field "tenant_count" false (TNumber);
       Field "group_count" false (TNumber);
       Field "feed_count" false (TNumber);
       Field "top_blocked_domains" false (TArr (TRef "TopDomain"))]);
    ("AuditLogEntry", Obj [Field "id" false (TString);
       Field "occurred_at" false (TString);
       Field "actor" false (TString);
       Field "action" false (TString);
       Field "resource_type" false (TString);
       Field "resource_id" false (TString);
       Field "detail" false (TString);
       Field "tenant_id" true (TUnion [TString; TNull])]);
    ("BlockPageTemplateOut", Obj [Field "id" false (TString);
       Field "tenant_id" false (TString);
       Field "group_id" false (TUnion [TString; TNull]);
       Field "block_mode" false (TString);
       Field "redirect_ipv4" false (TUnion [TString; TNull]);
       Field "redirect_ipv6" false (TUnion [TString; TNull]);
       Field "ttl_seconds" false (TNumber);
       Field "title" false (TUnion [TString; TNull]);
       Field "message" false (TUnion [TString; TNull]);
       Field "logo_url" false (TUnion [TString; TNull]);
       Field "brand_color" false (TUnion [TString; TNull]);
       Field "contact_url" false (TUnion [TString; TNull]);
       Field "show_domain" false (TBool);
       Field "show_category" false (TBool)]);
    ("BlockPageTemplateUpsert", Obj [Field "block_mode" false (TUnion [TLit "BLOCK_MODE_NXDOMAIN"; TLit "BLOCK_MODE_ZERO_IP"; TLit "BLOCK_MODE_REDIRECT"]);
       Field "redirect_ipv4" true (TUnion [TString; TNull]);
       Field "redirect_ipv6" true (TUnion [TString; TNull]);
       Field "ttl_seconds" false (TNumber);
       Field "title" true (TUnion [TString; TNull]);
       Field "message" true (TUnion [TString; TNull]);
       Field "logo_url" true (TUnion [TString; TNull]);
       Field "brand_color" true (TUnion [TString; TNull]);
       Field "contact_url" true (TUnion [TString; TNull]);
       Field "show_domain" false (TBool);
       Field "show_category" false (TBool)]);
    ("CategoryBreakdown", Obj [Field "category" false (TString);
       Field "count" false (TNumber);
       Field "pct" false (TNumber)]) ].

Definition schemas_2 : list (string * schema) :=
  [ ("CategoryOut", Obj [Field "id" false (TString);
       Field "label" false (TString);
       Field "description" false (TString);
       Field "group" false (TString);
       Field "color" false (TString);
       Field "icon" false (TString);
       Field "default_action" false (TString);
       Field "has_bundled_feed" false (TBool)]);
    ("CategoryToggleIn", Obj [Field "category_id" false (TString);
       Field "action" false (TUnion [TLit "ACTION_BLOCK"; TLit "ACTION_LOG_ONLY"; TLit "ACTION_ALLOW"])]);
    ("CategoryToggleOut", Obj [Field "category_id" false (TString);
       Field "action" false (TString)]);
    ("ChangePasswordRequest", Obj [Field "current_password" false (TString);
       Field "new_password" false (TString)]);
    ("ClientOut", Obj [Field "id" false (TString);
       Field "tenant_id" false (TString);
       Field "group_id" false (TUnion [TString; TNull]);
       Field "ip" false (TString);
       Field "hostname" false (TUnion [TString; TNull]);
       Field "owner" false (TUnion [TString; TNull]);
       Field "device_type" false (TUnion [TString; TNull]);
       Field "tags" false (TArr (TString));
       Field "last_seen" false (TString);
       Field "registered_at" false (TUnion [TString; TNull]);
       Field "registered_by" false (TUnion [TString; TNull])]);
    ("ClientUpsert", Obj [Field "hostname" true (TUnion [TString; TNull]);
       Field "owner" true (TUnion [TString; TNull]);
       Field "device_type" true (TUnion [TString; TNull]);
       Field "tags" true (TArr (TString))]);
    ("DaemonHeartbeatOut", Obj [Field "instance_id" false (TString);
       Field "family" false (TString);
       Field "hostname" false (TUnion [TString; TNull]);
       Field "started_at" false (TString);
       Field "last_seen_at" false (TString);
       Field "stale" false (TBool)]);
    ("DhcpEvent", Obj [Field "event" false (TString);
       Field "ip" false (TString);
       Field "hostname" false (TString);
       Field "family" false (TString);
       Field "mac" false (TString);
       Field "duid" false (TString);
       Field "scope_id" false (TString)]) ].

Definition schemas_3 : list (string * schema) :=
  [ ("FeedCreate", Obj [Field "id" false (TString);
       Field "category_id" false (TString);
       Field "url" false (TString);
       Field "format" false (TString);
       Field "interval_seconds" false (TNumber);
       Field "license" false (TString);
       Field "provider" false (TString);
       Field "enabled" false (TBool)]);
    ("FeedOut", Obj [Field "id" false (TString);
       Field "category_id" false (TString);
       Field "url" false (TString);
       Field "format" false (TString);
       Field "interval_seconds" false (TNumber);
       Field "license" false (TString);
       Field "provider" false (TString);
       Field "from_catalog" false (TBool);
       Field "enabled" false (TBool);
       Field "last_domain_count" false (TUnion [TNumber; TNull]);
       Field "last_version" false (TUnion [TString; TNull]);
       Field "last_fetched_at" false (TUnion [TString; TNull])]);
    ("FeedUpdate", Obj [Field "category_id" true (TUnion [TString; TNull]);
       Field "url" true (TUnion [TString; TNull]);
       Field "format" true (TUnion [TString; TNull]);
       Field "interval_seconds" true (TUnion [TNumber; TNull]);
       Field "license" true (TUnion [TString; TNull]);
       Field "provider" true (TUnion [TString; TNull]);
       Field "enabled" true (TUnion [TBool; TNull])]);
    ("GroupBreakdown", Obj [Field "group_id" false (TString);
       Field "group_name" false (TString);
       Field "tenant_name" false (TString);
       Field "total" false (TNumber);
       Field "blocked" false (TNumber);
       Field "block_ratio" false (TNumber)]);
    ("GroupCreate", Obj [Field "name" false (TString);
       Field "vpn_subnet" true (TUnion [TString; TNull])]);
    ("GroupOut", Obj [Field "id" false (TString);
       Field "tenant_id" false (TString);
       Field "name" false (TString);
       Field "vpn_subnet" false (TUnion [TString; TNull]);
       Field "created_at" false (TString)]);
    ("GroupSubnetUpdate", Obj [Field "vpn_subnet" false (TString)]);
    ("GroupUpdate", Obj [Field "name" false (TString)]);
    ("HTTPValidationError", Obj [Field "detail" true (TArr (TRef "ValidationError"))]);
    ("IngestOut", Obj [Field "status" false (TString);
       Field "domain_count" false (TNumber);
       Field "reason" false (TString)]) ].

Definition schemas_4 : list (string * schema) :=
  [ ("LatencyStats", Obj [Field "p50_us" false (TUnion [TNumber; TNull]);
       Field "p95_us" false (TUnion [TNumber; TNull]);
       Field "p99_us" false (TUnion [TNumber; TNull]);
       Field "sample_count" false (TNumber)]);
    ("Lease6Out", Obj [Field "ip_address" false (TString);
       Field "duid" false (TString);
       Field "hostname" false (TUnion [TString; TNull]);
       Field "scope_id" false (TString);
       Field "expires_at" false (TString);
       Field "state" false (TNumber);
       Field "lease_type" false (TNumber)]);
    ("LeaseOut", Obj [Field "ip_address" false (TString);
       Field "mac_address" false (TString);
       Field "hostname" false (TUnion [TString; TNull]);
       Field "scope_id" false (TString);
       Field "expires_at" false (TString);
       Field "state" false (TNumber)]);
    ("LocalZoneRecord", Obj [Field "name" false (TString);
       Field "zone" false (TString);
       Field "record_type" false (TString);
       Field "ttl" false (TNumber);
       Field "data" false (TString);
       Field "priority" true (TUnion [TNumber; TNull])]);
    ("LoginRequest", Obj [Field "email" false (TString);
       Field "password" false (TString)]);
    ("LoginResponse", Obj [Field "user" false (TRef "UserOut");
       Field "csrf_token" false (TString)]);
    ("MixSlice", Obj [Field "label" false (TString);
       Field "count" false (TNumber);
       Field "pct" false (TNumber)]);
    ("NodeCredentialCreate", Obj [Field "node_name" false (TString);
       Field "allow_all" false (TBool);
       Field "allowed_tenant_ids" true (TArr (TString));
       Field "allowed_group_ids" true (TArr (TString))]);
    ("NodeCredentialIssued", Obj [Field "node_name" false (TString);
       Field "created_at" false (TString);
       Field "created_by" false (TString);
       Field "revoked_at" false (TUnion [TString; TNull]);
       Field "last_seen_at" false (TString);
       Field "allow_all" false (TBool);
       Field "allowed_tenant_ids" false (TArr (TString));
       Field "allowed_group_ids" false (TArr (TString));
       Field "token" false (TString)]) ].

Definition schemas_5 : list (string * schema) :=
  [ ("NodeCredentialOut", Obj [Field "node_name" false (TString);
       Field "created_at" false (TString);
       Field "created_by" false (TString);
       Field "revoked_at" false (TUnion [TString; TNull]);
       Field "last_seen_at" false (TString);
       Field "allow_all" false (TBool);
       Field "allowed_tenant_ids" false (TArr (TString));
       Field "allowed_group_ids" false (TArr (TString))]);
    ("OptionCreate", Obj [Field "option_code" false (TNumber);
       Field "option_space" false (TString);
       Field "value" false (TString);
       Field "always_send" false (TBool)]);
    ("OptionOut", Obj [Field "id" false (TString);
       Field "scope_id" false (TUnion [TString; TNull]);
       Field "static_lease_id" false (TUnion [TString; TNull]);
       Field "option_code" false (TNumber);
       Field "option_space" false (TString);
       Field "value" false (TString);
       Field "always_send" false (TBool)]);
    ("OverrideIn", Obj [Field "domain" false (TString);
       Field "kind" false (TUnion [TLit "allow"; TLit "deny"])]);
    ("OverrideOut", Obj [Field "domain" false (TString);
       Field "kind" false (TString)]);
    ("PolicyOut", Obj [Field "id" false (TString);
       Field "group_id" false (TString);
       Field "on_load_failure" false (TString);
       Field "category_toggles" false (TArr (TRef "CategoryToggleOut"));
       Field "overrides" false (TArr (TRef "OverrideOut"))]);
    ("PolicyTestRequest", Obj [Field "domain" false (TString)]);
    ("PolicyTestResult", Obj [Field "domain" false (TString);
       Field "decision" false (TString);
       Field "matched" false (TString);
       Field "matched_category" true (TUnion [TString; TNull]);
       Field "matched_feed_id" true (TUnion [TString; TNull])]);
    ("PolicyUpsert", Obj [Field "on_load_failure" false (TUnion [TLit "FAIL_OPEN"; TLit "FAIL_CLOSED"]);
       Field "category_toggles" false (TArr (TRef "CategoryToggleIn"));
       Field "overrides" false (TArr (TRef "OverrideIn"))]) ].

Definition schemas_6 : list (string * schema) :=
  [ ("PoolCreate", Obj [Field "name" false (TString);
       Field "strategy" false (TUnion [TLit "round_robin"; TLit "weighted_round_robin"; TLit "failover"; TLit "latency"]);
       Field "health_check_interval_s" false (TNumber);
       Field "health_check_timeout_ms" false (TNumber);
       Field "health_check_query" false (TString);
       Field "health_check_type" false (TUnion [TLit "soa"; TLit "a"; TLit "txt"]);
       Field "unhealthy_threshold" false (TNumber);
       Field "healthy_threshold" false (TNumber);
       Field "min_healthy_members" false (TNumber);
       Field "fallback_pool_id" true (TUnion [TString; TNull]);
       Field "members" false (TArr (TRef "PoolMemberIn"))]);
    ("PoolMemberIn", Obj [Field "resolver_id" false (TString);
       Field "weight" false (TNumber);
       Field "priority" false (TNumber)]);
    ("PoolMemberOut", Obj [Field "id" false (TString);
       Field "pool_id" false (TString);
       Field "resolver_id" false (TString);
       Field "weight" false (TNumber);
       Field "priority" false (TNumber)]);
    ("PoolOut", Obj [Field "id" false (TString);
       Field "name" false (TString);
       Field "strategy" false (TString);
       Field "health_check_interval_s" false (TNumber);
       Field "health_check_timeout_ms" false (TNumber);
       Field "health_check_query" false (TString);
       Field "health_check_type" false (TString);
       Field "unhealthy_threshold" false (TNumber);
       Field "healthy_threshold" false (TNumber);
       Field "min_healthy_members" false (TNumber);
       Field "fallback_pool_id" false (TUnion [TString; TNull]);
       Field "members" false (TArr (TRef "PoolMemberOut"));
       Field "created_at" false (TString);
       Field "updated_at" false (TString)]);
    ("PoolUpdate", Obj [Field "name" true (TUnion [TString; TNull]);
       Field "strategy" true (TUnion [TUnion [TLit "round_robin"; TLit "weighted_round_robin"; TLit "failover"; TLit "latency"]; TNull]);
       Field "health_check_interval_s" true (TUnion [TNumber; TNull]);
       Field "health_check_timeout_ms" true (TUnion [TNumber; TNull]);
       Field "health_check_query" true (TUnion [TString; TNull]);
       Field "health_check_type" true (TUnion [TUnion [TLit "soa"; TLit "a"; TLit "txt"]; TNull]);
       Field "unhealthy_threshold" true (TUnion [TNumber; TNull]);
       Field "healthy_threshold" true (TUnion [TNumber; TNull]);
       Field "min_healthy_members" true (TUnion [TNumber; TNull]);
       Field "fallback_pool_id" true (TUnion [TString; TNull])]) ].

Definition schemas_7 : list (string * schema) :=
  [ ("ProbeResult", Obj [Field "ok" false (TBool);
       Field "latency_ms" false (TUnion [TNumber; TNull]);
       Field "response_code" false (TUnion [TString; TNull]);
       Field "dnssec_ad" false (TBool);
       Field "tls_subject" false (TUnion [TString; TNull]);
       Field "error" false (TUnion [TString; TNull])]);
    ("QueryEventBatch", Obj [Field "events" true (TArr (TRef "QueryEventIn"))]);
    ("QueryEventIn", Obj [Field "group_id" false (TString);
       Field "qname" false (TString);
       Field "decision" false (TString);
       Field "client_ip" true (TUnion [TString; TNull]);
       Field "qtype" true (TUnion [TString; TNull]);
       Field "matched_rule" true (TUnion [TString; TNull]);
       Field "matched_category" true (TUnion [TString; TNull]);
       Field "matched_feed_id" true (TUnion [TString; TNull]);
       Field "response_code" true (TUnion [TString; TNull]);
       Field "cache_hit" true (TUnion [TBool; TNull]);
       Field "latency_us" true (TUnion [TNumber; TNull]);
       Field "occurred_at_ms" true (TUnion [TNumber; TNull])]);
    ("QueryLogEntry", Obj [Field "id" false (TString);
       Field "occurred_at" false (TString);
       Field "group_id" false (TString);
       Field "group_name" true (TUnion [TString; TNull]);
       Field "tenant_id" true (TUnion [TString; TNull]);
       Field "client_ip" true (TUnion [TString; TNull]);
       Field "client_name" true (TUnion [TString; TNull]);
       Field "qname" false (TString);
       Field "qtype" true (TUnion [TString; TNull]);
       Field "decision" false (TString);
       Field "matched_rule" true (TUnion [TString; TNull]);
       Field "matched_category" true (TUnion [TString; TNull]);
       Field "matched_feed_id" true (TUnion [TString; TNull]);
       Field "response_code" true (TUnion [TString; TNull]);
       Field "cache_hit" true (TUnion [TBool; TNull]);
       Field "latency_us" true (TUnion [TNumber; TNull])]);
    ("QueryMix", Obj [Field "qtype" false (TArr (TRef "MixSlice"));
       Field "response_code" false (TArr (TRef "MixSlice"));
       Field "matched_rule" false (TArr (TRef "MixSlice"))]);
    ("RecentEvent", Obj [Field "id" false (TString);
       Field "occurred_at" false (TString);
       Field "client_ip" false (TUnion [TString; TNull]);
       Field "client_name" false (TUnion [TString; TNull]);
       Field "qname" false (TString);
       Field "decision" false (TString);
       Field "matched_category" false (TUnion [TString; TNull]);
       Field "matched_feed_id" false (TUnion [TString; TNull]);
       Field "group_name" false (TUnion [TString; TNull]);
       Field "latency_us" false (TUnion [TNumber; TNull])]);
    ("RecordIn", Obj [Field "name" false (TString);
       Field "record_type" false (TString);
       Field "data" false (TString);
       Field "ttl" true (TUnion [TNumber; TNull]);
       Field "priority" true (TUnion [TNumber; TNull]);
       Field "enabled" false (TBool)]) ].

Definition schemas_8 : list (string * schema) :=
  [ ("RecordOut", Obj [Field "id" false (TString);
       Field "zone_id" false (TString);
       Field "name" false (TString);
       Field "record_type" false (TString);
       Field "data" false (TString);
       Field "ttl" false (TUnion [TNumber; TNull]);
       Field "priority" false (TUnion [TNumber; TNull]);
       Field "enabled" false (TBool);
       Field "created_at" false (TString);
       Field "updated_at" false (TString)]);
    ("RecordUpdate", Obj [Field "name" true (TUnion [TString; TNull]);
       Field "record_type" true (TUnion [TString; TNull]);
       Field "data" true (TUnion [TString; TNull]);
       Field "ttl" true (TUnion [TNumber; TNull]);
       Field "priority" true (TUnion [TNumber; TNull]);
       Field "enabled" true (TUnion [TBool; TNull])]);
    ("RelayCreate", Obj [Field "relay_ip" false (TString);
       Field "description" true (TUnion [TString; TNull]);
       Field "circuit_id_hex" true (TUnion [TString; TNull]);
       Field "remote_id_hex" true (TUnion [TString; TNull])]);
    ("RelayOut", Obj [Field "id" false (TString);
       Field "scope_id" false (TString);
       Field "relay_ip" false (TString);
       Field "description" false (TUnion [TString; TNull]);
       Field "circuit_id_hex" false (TUnion [TString; TNull]);
       Field "remote_id_hex" false (TUnion [TString; TNull])]);
    ("Reservation6Create", Obj [Field "duid" false (TString);
       Field "ip_address" false (TString);
       Field "hostname" true (TUnion [TString; TNull]);
       Field "description" true (TUnion [TString; TNull]);
       Field "enabled" false (TBool)]);
    ("Reservation6Out", Obj [Field "id" false (TString);
       Field "scope_id" false (TString);
       Field "tenant_id" false (TString);
       Field "duid" false (TString);
       Field "ip_address" false (TString);
       Field "hostname" false (TUnion [TString; TNull]);
       Field "description" false (TUnion [TString; TNull]);
       Field "enabled" false (TBool);
       Field "created_at" false (TString);
       Field "updated_at" false (TString)]);
    ("Reservation6Update", Obj [Field "duid" true (TUnion [TString; TNull]);
       Field "ip_address" true (TUnion [TString; TNull]);
       Field "hostname" true (TUnion [TString; TNull]);
       Field "description" true (TUnion [TString; TNull]);
       Field "enabled" true (TUnion [TBool; TNull])]) ].

Definition schemas_9 : list (string * schema) :=
  [ ("ReservationCreate", Obj [Field "mac_address" false (TString);
       Field "ip_address" false (TString);
       Field "hostname" true (TUnion [TString; TNull]);
       Field "description" true (TUnion [TString; TNull]);
       Field "client_id" true (TUnion [TString; TNull]);
       Field "next_server" true (TUnion [TString; TNull]);
       Field "boot_filename" true (TUnion [TString; TNull]);
       Field "uefi_boot_filename" true (TUnion [TString; TNull]);
       Field "enabled" false (TBool)]);
    ("ReservationOut", Obj [Field "id" false (TString);
       Field "scope_id" false (TString);
       Field "tenant_id" false (TString);
       Field "mac_address" false (TString);
       Field "ip_address" false (TString);
       Field "hostname" false (TUnion [TString; TNull]);
       Field "description" false (TUnion [TString; TNull]);
       Field "client_id" false (TUnion [TString; TNull]);
       Field "next_server" false (TUnion [TString; TNull]);
       Field "boot_filename" false (TUnion [TString; TNull]);
       Field "uefi_boot_filename" false (TUnion [TString; TNull]);
       Field "enabled" false (TBool);
       Field "created_at" false (TString);
       Field "updated_at" false (TString)]);
    ("ReservationUpdate", Obj [Field "mac_address" true (TUnion [TString; TNull]);
       Field "ip_address" true (TUnion [TString; TNull]);
       Field "hostname" true (TUnion [TString; TNull]);
       Field "description" true (TUnion [TString; TNull]);
       Field "client_id" true (TUnion [TString; TNull]);
       Field "next_server" true (TUnion [TString; TNull]);
       Field "boot_filename" true (TUnion [TString; TNull]);
       Field "uefi_boot_filename" true (TUnion [TString; TNull]);
       Field "enabled" true (TUnion [TBool; TNull])]);
    ("ResolverCreate", Obj [Field "name" false (TString);
       Field "protocol" false (TUnion [TLit "dot"; TLit "doh"; TLit "do53"]);
       Field "address" false (TString);
       Field "port" false (TNumber);
       Field "tls_hostname" true (TUnion [TString; TNull]);
       Field "tls_pin_sha256" false (TArr (TString));
       Field "doh_path" false (TString);
       Field "dnssec_validation" false (TUnion [TLit "strict"; TLit "opportunistic"; TLit "disabled"]);
       Field "timeout_ms" false (TNumber);
       Field "max_retries" false (TNumber);
       Field "tags" false (TArr (TString));
       Field "enabled" false (TBool)]) ].

Definition schemas_10 : list (string * schema) :=
  [ ("ResolverOut", Obj [Field "id" false (TString);
       Field "name" false (TString);
       Field "protocol" false (TString);
       Field "address" false (TString);
       Field "port" false (TNumber);
       Field "tls_hostname" false (TUnion [TString; TNull]);
       Field "tls_pin_sha256" false (TArr (TString));
       Field "doh_path" false (TString);
       Field "dnssec_validation" false (TString);
       Field "timeout_ms" false (TNumber);
       Field "max_retries" false (TNumber);
       Field "tags" false (TArr (TString));
       Field "enabled" false (TBool);
       Field "created_at" false (TString);
       Field "updated_at" false (TString)]);
    ("ResolverUpdate", Obj [Field "name" true (TUnion [TString; TNull]);
       Field "protocol" true (TUnion [TUnion [TLit "dot"; TLit "doh"; TLit "do53"]; TNull]);
       Field "address" true (TUnion [TString; TNull]);
       Field "port" true (TUnion [TNumber; TNull]);
       Field "tls_hostname" true (TUnion [TString; TNull]);
       Field "tls_pin_sha256" true (TUnion [TArr (TString); TNull]);
       Field "doh_path" true (TUnion [TString; TNull]);
       Field "dnssec_validation" true (TUnion [TUnion [TLit "strict"; TLit "opportunistic"; TLit "disabled"]; TNull]);
       Field "timeout_ms" true (TUnion [TNumber; TNull]);
       Field "max_retries" true (TUnion [TNumber; TNull]);
       Field "tags" true (TUnion [TArr (TString); TNull]);
       Field "enabled" true (TUnion [TBool; TNull])]);
    ("RouteCreate", Obj [Field "name" false (TString);
       Field "group_id" true (TUnion [TString; TNull]);
       Field "match_type" false (TUnion [TLit "domain_suffix"; TLit "domain_exact"; TLit "qtype"; TLit "category"; TLit "default"]);
       Field "match_value" true (TUnion [TString; TNull]);
       Field "pool_id" false (TString);
       Field "nxdomain_ttl_override" true (TUnion [TNumber; TNull]);
       Field "require_dnssec" true (TUnion [TBool; TNull]);
       Field "priority" false (TNumber);
       Field "enabled" false (TBool)]);
    ("RouteOut", Obj [Field "id" false (TString);
       Field "name" false (TString);
       Field "tenant_id" false (TUnion [TString; TNull]);
       Field "group_id" false (TUnion [TString; TNull]);
       Field "match_type" false (TString);
       Field "match_value" false (TUnion [TString; TNull]);
       Field "pool_id" false (TString);
       Field "nxdomain_ttl_override" false (TUnion [TNumber; TNull]);
       Field "require_dnssec" false (TUnion [TBool; TNull]);
       Field "priority" false (TNumber);
       Field "enabled" false (TBool);
       Field "created_at" false (TString);
       Field "updated_at" false (TString)]) ].

Definition schemas_11 : list (string * schema) :=
  [ ("RouteUpdate", Obj [Field "name" true (TUnion [TString; TNull]);
       Field "group_id" true (TUnion [TString; TNull]);
       Field "match_type" true (TUnion [TUnion [TLit "domain_suffix"; TLit "domain_exact"; TLit "qtype"; TLit "category"; TLit "default"]; TNull]);
       Field "match_value" true (TUnion [TString; TNull]);
       Field "pool_id" true (TUnion [TString; TNull]);
       Field "nxdomain_ttl_override" true (TUnion [TNumber; TNull]);
       Field "require_dnssec" true (TUnion [TBool; TNull]);
       Field "priority" true (TUnion [TNumber; TNull]);
       Field "enabled" true (TUnion [TBool; TNull])]);
    ("RoutingTableEntry", Obj [Field "cidr" false (TString);
       Field "group_id" false (TString);
       Field "tenant_id" false (TString)]);
    ("Scope6Create", Obj [Field "tenant_id" false (TString);
       Field "name" false (TString);
       Field "description" true (TUnion [TString; TNull]);
       Field "subnet" false (TString);
       Field "pool_start" false (TString);
       Field "pool_end" false (TString);
       Field "pd_prefix" true (TUnion [TString; TNull]);
       Field "pd_prefix_len" true (TUnion [TNumber; TNull]);
       Field "dns_servers" false (TArr (TString));
       Field "domain_name" true (TUnion [TString; TNull]);
       Field "interface" true (TUnion [TString; TNull]);
       Field "preferred_lifetime_s" false (TNumber);
       Field "valid_lifetime_s" false (TNumber);
       Field "renew_time_s" true (TUnion [TNumber; TNull]);
       Field "rebind_time_s" true (TUnion [TNumber; TNull]);
       Field "ddns_enabled" false (TBool);
       Field "ddns_zone_id" true (TUnion [TString; TNull]);
       Field "ddns_ttl_s" false (TNumber);
       Field "enabled" false (TBool)]);
    ("Scope6Out", Obj [Field "id" false (TString);
       Field "tenant_id" false (TString);
       Field "name" false (TString);
       Field "description" false (TUnion [TString; TNull]);
       Field "subnet" false (TString);
       Field "pool_start" false (TString);
       Field "pool_end" false (TString);
       Field "pd_prefix" false (TUnion [TString; TNull]);
       Field "pd_prefix_len" false (TUnion [TNumber; TNull]);
       Field "dns_servers" false (TArr (TString));
       Field "domain_name" false (TUnion [TString; TNull]);
       Field "interface" false (TUnion [TString; TNull]);
       Field "preferred_lifetime_s" false (TNumber);
       Field "valid_lifetime_s" false (TNumber);
       Field "renew_time_s" false (TUnion [TNumber; TNull]);
       Field "rebind_time_s" false (TUnion [TNumber; TNull]);
       Field "ddns_enabled" false (TBool);
       Field "ddns_zone_id" false (TUnion [TString; TNull]);
       Field "ddns_ttl_s" false (TNumber);
       Field "enabled" false (TBool);
       Field "created_at" false (TString);
       Field "updated_at" false (TString)]) ].

Definition schemas_12 : list (string * schema) :=
  [ ("Scope6Update", Obj [Field "name" true (TUnion [TString; TNull]);
       Field "description" true (TUnion [TString; TNull]);
       Field "pool_start" true (TUnion [TString; TNull]);
       Field "pool_end" true (TUnion [TString; TNull]);
       Field "pd_prefix" true (TUnion [TString; TNull]);
       Field "pd_prefix_len" true (TUnion [TNumber; TNull]);
       Field "dns_servers" true (TUnion [TArr (TString); TNull]);
       Field "domain_name" true (TUnion [TString; TNull]);
       Field "interface" true (TUnion [TString; TNull]);
       Field "preferred_lifetime_s" true (TUnion [TNumber; TNull]);
       Field "valid_lifetime_s" true (TUnion [TNumber; TNull]);
       Field "renew_time_s" true (TUnion [TNumber; TNull]);
       Field "rebind_time_s" true (TUnion [TNumber; TNull]);
       Field "ddns_enabled" true (TUnion [TBool; TNull]);
       Field "ddns_zone_id" true (TUnion [TString; TNull]);
       Field "ddns_ttl_s" true (TUnion [TNumber; TNull]);
       Field "enabled" true (TUnion [TBool; TNull])]);
    ("ScopeCreate", Obj [Field "tenant_id" false (TString);
       Field "name" false (TString);
       Field "description" true (TUnion [TString; TNull]);
       Field "subnet" false (TString);
       Field "range_start" false (TString);
       Field "range_end" false (TString);
       Field "router_ip" true (TUnion [TString; TNull]);
       Field "dns_servers" false (TArr (TString));
       Field "ntp_server" true (TUnion [TString; TNull]);
       Field "domain_name" true (TUnion [TString; TNull]);
       Field "interface" true (TUnion [TString; TNull]);
       Field "vlan_id" true (TUnion [TNumber; TNull]);
       Field "lease_time_s" false (TNumber);
       Field "max_lease_time_s" false (TNumber);
       Field "renew_time_s" true (TUnion [TNumber; TNull]);
       Field "rebind_time_s" true (TUnion [TNumber; TNull]);
       Field "ddns_enabled" false (TBool);
       Field "ddns_zone_id" true (TUnion [TString; TNull]);
       Field "ddns_ttl_s" false (TNumber);
       Field "pxe_next_server" true (TUnion [TString; TNull]);
       Field "pxe_boot_filename" true (TUnion [TString; TNull]);
       Field "pxe_uefi_boot_filename" true (TUnion [TString; TNull]);
       Field "enabled" false (TBool)]) ].

Definition schemas_13 : list (string * schema) :=
  [ ("ScopeOut", Obj [Field "id" false (TString);
       Field "tenant_id" false (TString);
       Field "name" false (TString);
       Field "description" false (TUnion [TString; TNull]);
       Field "subnet" false (TString);
       Field "range_start" false (TString);
       Field "range_end" false (TString);
       Field "router_ip" false (TUnion [TString; TNull]);
       Field "dns_servers" false (TArr (TString));
       Field "ntp_server" false (TUnion [TString; TNull]);
       Field "domain_name" false (TUnion [TString; TNull]);
       Field "interface" false (TUnion [TString; TNull]);
       Field "vlan_id" false (TUnion [TNumber; TNull]);
       Field "lease_time_s" false (TNumber);
       Field "max_lease_time_s" false (TNumber);
       Field "renew_time_s" false (TUnion [TNumber; TNull]);
       Field "rebind_time_s" false (TUnion [TNumber; TNull]);
       Field "ddns_enabled" false (TBool);
       Field "ddns_zone_id" false (TUnion [TString; TNull]);
       Field "ddns_ttl_s" false (TNumber);
       Field "pxe_next_server" false (TUnion [TString; TNull]);
       Field "pxe_boot_filename" false (TUnion [TString; TNull]);
       Field "pxe_uefi_boot_filename" false (TUnion [TString; TNull]);
       Field "enabled" false (TBool);
       Field "created_at" false (TString);
       Field "updated_at" false (TString)]);
    ("ScopeUpdate", Obj [Field "name" true (TUnion [TString; TNull]);
       Field "description" true (TUnion [TString; TNull]);
       Field "range_start" true (TUnion [TString; TNull]);
       Field "range_end" true (TUnion [TString; TNull]);
       Field "router_ip" true (TUnion [TString; TNull]);
       Field "dns_servers" true (TUnion [TArr (TString); TNull]);
       Field "ntp_server" true (TUnion [TString; TNull]);
       Field "domain_name" true (TUnion [TString; TNull]);
       Field "interface" true (TUnion [TString; TNull]);
       Field "vlan_id" true (TUnion [TNumber; TNull]);
       Field "lease_time_s" true (TUnion [TNumber; TNull]);
       Field "max_lease_time_s" true (TUnion [TNumber; TNull]);
       Field "renew_time_s" true (TUnion [TNumber; TNull]);
       Field "rebind_time_s" true (TUnion [TNumber; TNull]);
       Field "ddns_enabled" true (TUnion [TBool; TNull]);
       Field "ddns_zone_id" true (TUnion [TString; TNull]);
       Field "ddns_ttl_s" true (TUnion [TNumber; TNull]);
       Field "pxe_next_server" true (TUnion [TString; TNull]);
       Field "pxe_boot_filename" true (TUnion [TString; TNull]);
       Field "pxe_uefi_boot_filename" true (TUnion [TString; TNull]);
       Field "enabled" true (TUnion [TBool; TNull])]) ].

Definition schemas_14 : list (string * schema) :=
  [ ("SiemSyslogCreate", Obj [Field "tenant_id" true (TUnion [TString; TNull]);
       Field "name" false (TString);
       Field "host" false (TString);
       Field "port" false (TNumber);
       Field "transport" false (TUnion [TLit "tcp"; TLit "tls"; TLit "udp"]);
       Field "format" false (TUnion [TLit "json"; TLit "cef"]);
       Field "facility" false (TNumber);
       Field "app_name" false (TString);
       Field "batch_size" false (TNumber);
       Field "flush_interval_s" false (TNumber);
       Field "filter_decision" false (TUnion [TLit "all"; TLit "block"; TLit "allow"]);
       Field "ca_cert_pem" true (TUnion [TString; TNull]);
       Field "enabled" false (TBool)]);
    ("SiemSyslogOut", Obj [Field "id" false (TString);
       Field "tenant_id" false (TUnion [TString; TNull]);
       Field "name" false (TString);
       Field "host" false (TString);
       Field "port" false (TNumber);
       Field "transport" false (TString);
       Field "format" false (TString);
       Field "facility" false (TNumber);
       Field "app_name" false (TString);
       Field "batch_size" false (TNumber);
       Field "flush_interval_s" false (TNumber);
       Field "filter_decision" false (TString);
       Field "ca_cert_pem" false (TUnion [TString; TNull]);
       Field "enabled" false (TBool);
       Field "last_delivered_at" false (TUnion [TString; TNull]);
       Field "last_error" false (TUnion [TString; TNull]);
       Field "consecutive_failures" false (TNumber);
       Field "created_at" false (TString)]);
    ("SiemSyslogUpdate", Obj [Field "name" true (TUnion [TString; TNull]);
       Field "host" true (TUnion [TString; TNull]);
       Field "port" true (TUnion [TNumber; TNull]);
       Field "transport" true (TUnion [TUnion [TLit "tcp"; TLit "tls"; TLit "udp"]; TNull]);
       Field "format" true (TUnion [TUnion [TLit "json"; TLit "cef"]; TNull]);
       Field "facility" true (TUnion [TNumber; TNull]);
       Field "app_name" true (TUnion [TString; TNull]);
       Field "batch_size" true (TUnion [TNumber; TNull]);
       Field "flush_interval_s" true (TUnion [TNumber; TNull]);
       Field "filter_decision" true (TUnion [TUnion [TLit "all"; TLit "block"; TLit "allow"]; TNull]);
       Field "ca_cert_pem" true (TUnion [TString; TNull]);
       Field "enabled" true (TUnion [TBool; TNull])]);
    ("SubnetStatOut", Obj [Field "scope_id" false (TString);
       Field "scope_name" false (TString);
       Field "subnet" false (TString);
       Field "total_addresses" false (TNumber);
       Field "assigned_addresses" false (TNumber);
       Field "declined_addresses" false (TNumber)]);
    ("SyslogTestResult", Obj [Field "success" false (TBool);
       Field "error" false (TUnion [TString; TNull])]) ].

Definition schemas_15 : list (string * schema) :=
  [ ("TenantCreate", Obj [Field "name" false (TString)]);
    ("TenantOut", Obj [Field "id" false (TString);
       Field "name" false (TString);
       Field "created_at" false (TString)]);
    ("TenantPolicyIn", Obj [Field "require_encrypted" false (TBool);
       Field "dnssec_validation" false (TUnion [TLit "strict"; TLit "opportunistic"; TLit "disabled"]);
       Field "min_ttl_s" false (TNumber);
       Field "max_ttl_s" false (TNumber);
       Field "negative_ttl_s" false (TNumber)]);
    ("TenantPolicyOut", Obj [Field "tenant_id" false (TString);
       Field "require_encrypted" false (TBool);
       Field "dnssec_validation" false (TString);
       Field "min_ttl_s" false (TNumber);
       Field "max_ttl_s" false (TNumber);
       Field "negative_ttl_s" false (TNumber)]);
    ("TimeseriesPoint", Obj [Field "bucket" false (TString);
       Field "total" false (TNumber);
       Field "blocked" false (TNumber);
       Field "allowed" false (TNumber)]);
    ("TopClient", Obj [Field "client_ip" false (TString);
       Field "hostname" false (TUnion [TString; TNull]);
       Field "owner" false (TUnion [TString; TNull]);
       Field "group_name" false (TUnion [TString; TNull]);
       Field "total" false (TNumber);
       Field "blocked" false (TNumber);
       Field "block_ratio" false (TNumber)]);
    ("TopDomain", Obj [Field "qname" false (TString);
       Field "decision" false (TString);
       Field "count" false (TNumber)]);
    ("UserCreate", Obj [Field "email" false (TString);
       Field "password" false (TString);
       Field "role" false (TString);
       Field "tenant_id" true (TUnion [TString; TNull])]);
    ("UserOut", Obj [Field "id" false (TString);
       Field "email" false (TString);
       Field "role" false (TString);
       Field "tenant_id" true (TUnion [TString; TNull])]);
    ("UserUpdate", Obj [Field "role" false (TString);
       Field "tenant_id" true (TUnion [TString; TNull])]);
    ("ValidationError", Obj [Field "loc" false (TArr (TUnion [TString; TNumber]));
       Field "msg" false (TString);
       Field "type" false (TString);
       Field "input" true (TAny);
       Field "ctx" true (TRecord TNever)]) ].

Definition schemas_16 : list (string * schema) :=
  [ ("ZoneCreate", Obj [Field "tenant_id" false (TString);
       Field "name" false (TString);
       Field "zone_type" false (TString);
       Field "description" false (TString);
       Field "enabled" false (TBool);
       Field "ttl_default" false (TNumber);
       Field "forwarder" true (TUnion [TString; TNull])]);
    ("ZoneOut", Obj [Field "id" false (TString);
       Field "tenant_id" false (TUnion [TString; TNull]);
       Field "name" false (TString);
       Field "zone_type" false (TString);
       Field "description" false (TString);
       Field "enabled" false (TBool);
       Field "ttl_default" false (TNumber);
       Field "forwarder" false (TUnion [TString; TNull]);
       Field "record_count" false (TNumber);
       Field "created_at" false (TString);
       Field "updated_at" false (TString)]);
    ("ZoneUpdate", Obj [Field "name" true (TUnion [TString; TNull]);
       Field "zone_type" true (TUnion [TString; TNull]);
       Field "description" true (TUnion [TString; TNull]);
       Field "enabled" true (TUnion [TBool; TNull]);
       Field "ttl_default" true (TUnion [TNumber; TNull]);
       Field "forwarder" true (TUnion [TString; TNull])]) ].

Definition schemas : list (string * schema) :=
  schemas_1 ++ schemas_2 ++ schemas_3 ++ schemas_4 ++ schemas_5 ++ schemas_6 ++ schemas_7 ++ schemas_8 ++ schemas_9 ++ schemas_10 ++ schemas_11 ++ schemas_12 ++ schemas_13 ++ schemas_14 ++ schemas_15 ++ schemas_16.

Definition operations_1 : list operation :=
  [ Operation "list_categories_api_v1_categories_get"
      []
      [] [] (None)
      [(200%Z, Some (TArr (TRef "CategoryOut")))];
    Operation "list_tenants_api_v1_tenants_get"
      []
      [] [] (None)
      [(200%Z, Some (TArr (TRef "TenantOut")))];
    Operation "create_tenant_api_v1_tenants_post"
      []
      [] [] (Some (TRef "TenantCreate"))
      [(201%Z, Some (TRef "TenantOut")); (422%Z, Some (TRef "HTTPValidationError"))];
    Operation "get_tenant_api_v1_tenants__tenant_id__get"
      ["tenant_id"]
      [] [] (None)
      [(200%Z, Some (TRef "TenantOut")); (422%Z, Some (TRef "HTTPValidationError"))];
    Operation "delete_tenant_api_v1_tenants__tenant_id__delete"
      ["tenant_id"]
      [] [] (None)
      [(204%Z, None); (422%Z, Some (TRef "HTTPValidationError"))] ].

Definition operations_2 : list operation :=
  [ Operation "list_groups_api_v1_tenants__tenant_id__groups_get"
      ["tenant_id"]
      [] [] (None)
      [(200%Z, Some (TArr (TRef "GroupOut"))); (422%Z, Some (TRef "HTTPValidationError"))];
    Operation "create_group_api_v1_tenants__tenant_id__groups_post"
      ["tenant_id"]
      [] [] (Some (TRef "GroupCreate"))
      [(201%Z, Some (TRef "GroupOut")); (422%Z, Some (TRef "HTTPValidationError"))];
    Operation "set_group_subnet_api_v1_groups__group_id__subnet_put"
      ["group_id"]
      [] [] (Some (TRef "GroupSubnetUpdate"))
      [(200%Z, Some (TRef "GroupOut")); (422%Z, Some (TRef "HTTPValidationError"))];
    Operation "rename_group_api_v1_groups__group_id__put"
      ["group_id"]
      [] [] (Some (TRef "GroupUpdate"))
      [(200%Z, Some (TRef "GroupOut")); (422%Z, Some (TRef "HTTPValidationError"))] ].

Definition operations_3 : list operation :=
  [ Operation "delete_group_api_v1_groups__group_id__delete"
      ["group_id"]
      [] [] (None)
      [(204%Z, None); (422%Z, Some (TRef "HTTPValidationError"))];
    Operation "get_routing_table_api_v1_routing_table_get"
      []
      [] [Field "authorization" true (TUnion [TString; TNull]); Field "X-Mantis-Node" true (TUnion [TString; TNull])] (None)
      [(200%Z, Some (TArr (TRef "RoutingTableEntry"))); (422%Z, Some (TRef "HTTPValidationError"))];
    Operation "get_local_zone_records_api_v1_local_zones_get"
      []
      [Field "group_id" false (TString)] [Field "authorization" true (TUnion [TString; TNull]); Field "X-Mantis-Node" true (TUnion [TString; TNull])] (None)
      [(200%Z, Some (TArr (TRef "LocalZoneRecord"))); (422%Z, Some (TRef "HTTPValidationError"))];
    Operation "get_policy_api_v1_groups__group_id__policy_get"
      ["group_id"]
      [] [] (None)
      [(200%Z, Some (TRef "PolicyOut")); (422%Z, Some (TRef "HTTPValidationError"))] ].

Definition operations_4 : list operation :=
  [ Operation "upsert_policy_api_v1_groups__group_id__policy_put"
      ["group_id"]
      [] [] (Some (TRef "PolicyUpsert"))
      [(200%Z, Some (TRef "PolicyOut")); (422%Z, Some (TRef "HTTPValidationError"))];
    Operation "get_public_key_api_v1_public_key_get"
      []
      [] [Field "authorization" true (TUnion [TString; TNull]); Field "X-Mantis-Node" true (TUnion [TString; TNull])] (None)
      [(200%Z, Some (TAny)); (422%Z, Some (TRef "HTTPValidationError"))];
    Operation "get_latest_bundle_api_v1_groups__group_id__bundle_get"
      ["group_id"]
      [] [Field "authorization" true (TUnion [TString; TNull]); Field "X-Mantis-Node" true (TUnion [TString; TNull])] (None)
      [(200%Z, Some (TAny)); (422%Z, Some (TRef "HTTPValidationError"))];
    Operation "compile_bundle_api_v1_groups__group_id__bundle_post"
      ["group_id"]
      [] [] (None)
      [(201%Z, Some (TRecord TNumber)); (422%Z, Some (TRef "HTTPValidationError"))] ].

Definition operations_5 : list operation :=
  [ Operation "test_domain_api_v1_groups__group_id__policy_test_post"
      ["group_id"]
      [] [] (Some (TRef "PolicyTestRequest"))
      [(200%Z, Some (TRef "PolicyTestResult")); (422%Z, Some (TRef "HTTPValidationError"))];
    Operation "get_group_block_template_api_v1_groups__group_id__block_page_template_get"
      ["group_id"]
      [] [] (None)
      [(200%Z, Some (TRef "BlockPageTemplateOut")); (422%Z, Some (TRef "HTTPValidationError"))];
    Operation "upsert_group_block_template_api_v1_groups__group_id__block_page_template_put"
      ["group_id"]
      [] [] (Some (TRef "BlockPageTemplateUpsert"))
      [(200%Z, Some (TRef "BlockPageTemplateOut")); (422%Z, Some (TRef "HTTPValidationError"))];
    Operation "upsert_tenant_block_template_api_v1_tenants__tenant_id__block_page_template_put"
      ["tenant_id"]
      [] [] (Some (TRef "BlockPageTemplateUpsert"))
      [(200%Z, Some (TRef "BlockPageTemplateOut")); (422%Z, Some (TRef "HTTPValidationError"))] ].

Definition operations_6 : list operation :=
  [ Operation "get_effective_block_template_api_v1_groups__group_id__block_template_get"
      ["group_id"]
      [] [Field "authorization" true (TUnion [TString; TNull]); Field "X-Mantis-Node" true (TUnion [TString; TNull])] (None)
      [(200%Z, Some (TRef "BlockPageTemplateOut")); (422%Z, Some (TRef "HTTPValidationError"))];
    Operation "list_feeds_api_v1_feeds_get"
      []
      [] [] (None)
      [(200%Z, Some (TArr (TRef "FeedOut")))];
    Operation "create_feed_api_v1_feeds_post"
      []
      [] [] (Some (TRef "FeedCreate"))
      [(201%Z, Some (TRef "FeedOut")); (422%Z, Some (TRef "HTTPValidationError"))];
    Operation "delete_feed_api_v1_feeds__feed_id__delete"
      ["feed_id"]
      [] [] (None)
      [(204%Z, None); (422%Z, Some (TRef "HTTPValidationError"))] ].

Definition operations_7 : list operation :=
  [ Operation "update_feed_api_v1_feeds__feed_id__patch"
      ["feed_id"]
      [] [] (Some (TRef "FeedUpdate"))
      [(200%Z, Some (TRef "FeedOut")); (422%Z, Some (TRef "HTTPValidationError"))];
    Operation "ingest_feed_api_v1_feeds__feed_id__ingest_post"
      ["feed_id"]
      [] [] (None)
      [(200%Z, Some (TRef "IngestOut")); (422%Z, Some (TRef "HTTPValidationError"))];
    Operation "query_log_api_v1_query_log_get"
      []
      [Field "limit" true (TNumber); Field "offset" true (TNumber); Field "decision" true (TUnion [TUnion [TLit "allow"; TLit "block"]; TNull]); Field "group_id" true (TUnion [TString; TNull]); Field "qname" true (TUnion [TString; TNull]); Field "client_ip" true (TUnion [TString; TNull]); Field "qtype" true (TUnion [TString; TNull]); Field "matched_category" true (TUnion [TString; TNull]); Field "hours" true (TUnion [TNumber; TNull])] [] (None)
      [(200%Z, Some (TArr (TRef "QueryLogEntry"))); (422%Z, Some (TRef "HTTPValidationError"))];
    Operation "ingest_query_events_api_v1_query_events_post"
      []
      [] [Field "authorization" true (TUnion [TString; TNull]); Field "X-Mantis-Node" true (TUnion [TString; TNull])] (Some (TRef "QueryEventBatch"))
      [(202%Z, Some (TRecord TNumber)); (422%Z, Some (TRef "HTTPValidationError"))] ].

Definition operations_8 : list operation :=
  [ Operation "top_domains_api_v1_groups__group_id__top_domains_get"
      ["group_id"]
      [Field "limit" true (TNumber)] [] (None)
      [(200%Z, Some (TArr (TRef "TopDomain"))); (422%Z, Some (TRef "HTTPValidationError"))];
    Operation "analytics_summary_api_v1_analytics_summary_get"
      []
      [Field "hours" true (TUnion [TNumber; TNull]); Field "offset_hours" true (TNumber); Field "group_id" true (TUnion [TString; TNull])] [] (None)
      [(200%Z, Some (TRef "AnalyticsSummary")); (422%Z, Some (TRef "HTTPValidationError"))];
    Operation "analytics_timeseries_api_v1_analytics_timeseries_get"
      []
      [Field "hours" true (TNumber); Field "group_id" true (TUnion [TString; TNull])] [] (None)
      [(200%Z, Some (TArr (TRef "TimeseriesPoint"))); (422%Z, Some (TRef "HTTPValidationError"))];
    Operation "analytics_by_group_api_v1_analytics_by_group_get"
      []
      [Field "hours" true (TUnion [TNumber; TNull])] [] (None)
      [(200%Z, Some (TArr (TRef "GroupBreakdown"))); (422%Z, Some (TRef "HTTPValidationError"))] ].

Definition operations_9 : list operation :=
  [ Operation "top_clients_analytics_api_v1_analytics_top_clients_get"
      []
      [Field "hours" true (TNumber); Field "limit" true (TNumber); Field "group_id" true (TUnion [TString; TNull])] [] (None)
      [(200%Z, Some (TArr (TRef "TopClient"))); (422%Z, Some (TRef "HTTPValidationError"))];
    Operation "top_categories_analytics_api_v1_analytics_top_categories_get"
      []
      [Field "hours" true (TNumber); Field "limit" true (TNumber); Field "group_id" true (TUnion [TString; TNull])] [] (None)
      [(200%Z, Some (TArr (TRef "CategoryBreakdown"))); (422%Z, Some (TRef "HTTPValidationError"))];
    Operation "latency_analytics_api_v1_analytics_latency_get"
      []
      [Field "hours" true (TNumber); Field "group_id" true (TUnion [TString; TNull])] [] (None)
      [(200%Z, Some (TRef "LatencyStats")); (422%Z, Some (TRef "HTTPValidationError"))];
    Operation "query_mix_analytics_api_v1_analytics_query_mix_get"
      []
      [Field "hours" true (TNumber); Field "group_id" true (TUnion [TString; TNull])] [] (None)
      [(200%Z, Some (TRef "QueryMix")); (422%Z, Some (TRef "HTTPValidationError"))] ].

Definition operations_10 : list operation :=
  [ Operation "recent_events_analytics_api_v1_analytics_recent_events_get"
      []
      [Field "limit" true (TNumber); Field "decision" true (TUnion [TUnion [TLit "allow"; TLit "block"]; TNull]); Field "hours" true (TUnion [TNumber; TNull]); Field "group_id" true (TUnion [TString; TNull])] [] (None)
      [(200%Z, Some (TArr (TRef "RecentEvent"))); (422%Z, Some (TRef "HTTPValidationError"))];
    Operation "list_audit_log_api_v1_audit_log_get"
      []
      [Field "limit" true (TNumber); Field "offset" true (TNumber); Field "resource_type" true (TUnion [TString; TNull])] [] (None)
      [(200%Z, Some (TArr (TRef "AuditLogEntry"))); (422%Z, Some (TRef "HTTPValidationError"))];
    Operation "login_api_v1_auth_login_post"
      []
      [] [] (Some (TRef "LoginRequest"))
      [(200%Z, Some (TRef "LoginResponse")); (422%Z, Some (TRef "HTTPValidationError"))];
    Operation "logout_api_v1_auth_logout_post"
      []
      [] [] (None)
      [(204%Z, None)];
    Operation "me_api_v1_auth_me_get"
      []
      [] [] (None)
      [(200%Z, Some (TRef "UserOut"))] ].

Definition operations_11 : list operation :=
  [ Operation "change_password_api_v1_auth_change_password_post"
      []
      [] [] (Some (TRef "ChangePasswordRequest"))
      [(200%Z, Some (TRef "LoginResponse")); (422%Z, Some (TRef "HTTPValidationError"))];
    Operation "list_users_api_v1_users_get"
      []
      [] [] (None)
      [(200%Z, Some (TArr (TRef "UserOut")))];
    Operation "create_user_api_v1_users_post"
      []
      [] [] (Some (TRef "UserCreate"))
      [(201%Z, Some (TRef "UserOut")); (422%Z, Some (TRef "HTTPValidationError"))];
    Operation "delete_user_api_v1_users__user_id__delete"
      ["user_id"]
      [] [] (None)
      [(204%Z, None); (422%Z, Some (TRef "HTTPValidationError"))];
    Operation "update_user_api_v1_users__user_id__patch"
      ["user_id"]
      [] [] (Some (TRef "UserUpdate"))
      [(200%Z, Some (TRef "UserOut")); (422%Z, Some (TRef "HTTPValidationError"))] ].

Definition operations_12 : list operation :=
  [ Operation "list_siem_events_api_v1_siem_events_get"
      []
      [Field "after_id" true (TUnion [TString; TNull]); Field "limit" true (TNumber); Field "tenant_id" true (TUnion [TString; TNull]); Field "group_id" true (TUnion [TString; TNull]); Field "decision" true (TUnion [TUnion [TLit "allow"; TLit "block"]; TNull]); Field "since" true (TUnion [TString; TNull]); Field "until" true (TUnion [TString; TNull]); Field "format" true (TUnion [TLit "json"; TLit "cef"])] [] (None)
      [(200%Z, Some (TAny)); (422%Z, Some (TRef "HTTPValidationError"))];
    Operation "list_syslog_api_v1_siem_syslog_get"
      []
      [] [] (None)
      [(200%Z, Some (TArr (TRef "SiemSyslogOut")))];
    Operation "create_syslog_api_v1_siem_syslog_post"
      []
      [] [] (Some (TRef "SiemSyslogCreate"))
      [(201%Z, Some (TRef "SiemSyslogOut")); (422%Z, Some (TRef "HTTPValidationError"))];
    Operation "delete_syslog_api_v1_siem_syslog__syslog_id__delete"
      ["syslog_id"]
      [] [] (None)
      [(204%Z, None); (422%Z, Some (TRef "HTTPValidationError"))] ].

Definition operations_13 : list operation :=
  [ Operation "update_syslog_api_v1_siem_syslog__syslog_id__patch"
      ["syslog_id"]
      [] [] (Some (TRef "SiemSyslogUpdate"))
      [(200%Z, Some (TRef "SiemSyslogOut")); (422%Z, Some (TRef "HTTPValidationError"))];
    Operation "test_syslog_api_v1_siem_syslog__syslog_id__test_post"
      ["syslog_id"]
      [] [] (None)
      [(200%Z, Some (TRef "SyslogTestResult")); (422%Z, Some (TRef "HTTPValidationError"))];
    Operation "list_clients_api_v1_tenants__tenant_id__clients_get"
      ["tenant_id"]
      [Field "unregistered_only" true (TBool)] [] (None)
      [(200%Z, Some (TArr (TRef "ClientOut"))); (422%Z, Some (TRef "HTTPValidationError"))];
    Operation "register_client_api_v1_tenants__tenant_id__clients__ip__put"
      ["tenant_id"; "ip"]
      [] [] (Some (TRef "ClientUpsert"))
      [(200%Z, Some (TRef "ClientOut")); (422%Z, Some (TRef "HTTPValidationError"))] ].

Definition operations_14 : list operation :=
  [ Operation "delete_client_api_v1_tenants__tenant_id__clients__ip__delete"
      ["tenant_id"; "ip"]
      [] [] (None)
      [(204%Z, None); (422%Z, Some (TRef "HTTPValidationError"))];
    Operation "list_zones_api_v1_dns_zones_get"
      []
      [] [] (None)
      [(200%Z, Some (TArr (TRef "ZoneOut")))];
    Operation "create_zone_api_v1_dns_zones_post"
      []
      [] [] (Some (TRef "ZoneCreate"))
      [(201%Z, Some (TRef "ZoneOut")); (422%Z, Some (TRef "HTTPValidationError"))];
    Operation "get_zone_api_v1_dns_zones__zone_id__get"
      ["zone_id"]
      [] [] (None)
      [(200%Z, Some (TRef "ZoneOut")); (422%Z, Some (TRef "HTTPValidationError"))];
    Operation "delete_zone_api_v1_dns_zones__zone_id__delete"
      ["zone_id"]
      [] [] (None)
      [(204%Z, None); (422%Z, Some (TRef "HTTPValidationError"))] ].

Definition operations_15 : list operation :=
  [ Operation "update_zone_api_v1_dns_zones__zone_id__patch"
      ["zone_id"]
      [] [] (Some (TRef "ZoneUpdate"))
      [(200%Z, Some (TRef "ZoneOut")); (422%Z, Some (TRef "HTTPValidationError"))];
    Operation "export_zone_api_v1_dns_zones__zone_id__export_get"
      ["zone_id"]
      [] [] (None)
      [(200%Z, Some (TAny)); (422%Z, Some (TRef "HTTPValidationError"))];
    Operation "list_records_api_v1_dns_zones__zone_id__records_get"
      ["zone_id"]
      [] [] (None)
      [(200%Z, Some (TArr (TRef "RecordOut"))); (422%Z, Some (TRef "HTTPValidationError"))];
    Operation "create_record_api_v1_dns_zones__zone_id__records_post"
      ["zone_id"]
      [] [] (Some (TRef "RecordIn"))
      [(201%Z, Some (TRef "RecordOut")); (422%Z, Some (TRef "HTTPValidationError"))] ].

Definition operations_16 : list operation :=
  [ Operation "delete_record_api_v1_dns_zones__zone_id__records__record_id__delete"
      ["zone_id"; "record_id"]
      [] [] (None)
      [(204%Z, None); (422%Z, Some (TRef "HTTPValidationError"))];
    Operation "update_record_api_v1_dns_zones__zone_id__records__record_id__patch"
      ["zone_id"; "record_id"]
      [] [] (Some (TRef "RecordUpdate"))
      [(200%Z, Some (TRef "RecordOut")); (422%Z, Some (TRef "HTTPValidationError"))];
    Operation "list_resolvers_api_v1_upstream_resolvers_get"
      []
      [] [] (None)
      [(200%Z, Some (TArr (TRef "ResolverOut")))];
    Operation "create_resolver_api_v1_upstream_resolvers_post"
      []
      [] [] (Some (TRef "ResolverCreate"))
      [(201%Z, Some (TRef "ResolverOut")); (422%Z, Some (TRef "HTTPValidationError"))];
    Operation "delete_resolver_api_v1_upstream_resolvers__resolver_id__delete"
      ["resolver_id"]
      [] [] (None)
      [(204%Z, None); (422%Z, Some (TRef "HTTPValidationError"))] ].

Definition operations_17 : list operation :=
  [ Operation "update_resolver_api_v1_upstream_resolvers__resolver_id__patch"
      ["resolver_id"]
      [] [] (Some (TRef "ResolverUpdate"))
      [(200%Z, Some (TRef "ResolverOut")); (422%Z, Some (TRef "HTTPValidationError"))];
    Operation "probe_resolver_api_v1_upstream_resolvers__resolver_id__probe_post"
      ["resolver_id"]
      [] [] (None)
      [(200%Z, Some (TRef "ProbeResult")); (422%Z, Some (TRef "HTTPValidationError"))];
    Operation "list_pools_api_v1_upstream_pools_get"
      []
      [] [] (None)
      [(200%Z, Some (TArr (TRef "PoolOut")))];
    Operation "create_pool_api_v1_upstream_pools_post"
      []
      [] [] (Some (TRef "PoolCreate"))
      [(201%Z, Some (TRef "PoolOut")); (422%Z, Some (TRef "HTTPValidationError"))];
    Operation "delete_pool_api_v1_upstream_pools__pool_id__delete"
      ["pool_id"]
      [] [] (None)
      [(204%Z, None); (422%Z, Some (TRef "HTTPValidationError"))] ].

Definition operations_18 : list operation :=
  [ Operation "update_pool_api_v1_upstream_pools__pool_id__patch"
      ["pool_id"]
      [] [] (Some (TRef "PoolUpdate"))
      [(200%Z, Some (TRef "PoolOut")); (422%Z, Some (TRef "HTTPValidationError"))];
    Operation "upsert_pool_member_api_v1_upstream_pools__pool_id__members__resolver_id__put"
      ["pool_id"; "resolver_id"]
      [] [] (Some (TRef "PoolMemberIn"))
      [(200%Z, Some (TRef "PoolMemberOut")); (422%Z, Some (TRef "HTTPValidationError"))];
    Operation "remove_pool_member_api_v1_upstream_pools__pool_id__members__resolver_id__delete"
      ["pool_id"; "resolver_id"]
      [] [] (None)
      [(204%Z, None); (422%Z, Some (TRef "HTTPValidationError"))];
    Operation "list_routes_api_v1_tenants__tenant_id__upstream_routes_get"
      ["tenant_id"]
      [] [] (None)
      [(200%Z, Some (TArr (TRef "RouteOut"))); (422%Z, Some (TRef "HTTPValidationError"))] ].

Definition operations_19 : list operation :=
  [ Operation "create_route_api_v1_tenants__tenant_id__upstream_routes_post"
      ["tenant_id"]
      [] [] (Some (TRef "RouteCreate"))
      [(201%Z, Some (TRef "RouteOut")); (422%Z, Some (TRef "HTTPValidationError"))];
    Operation "delete_route_api_v1_tenants__tenant_id__upstream_routes__route_id__delete"
      ["tenant_id"; "route_id"]
      [] [] (None)
      [(204%Z, None); (422%Z, Some (TRef "HTTPValidationError"))];
    Operation "update_route_api_v1_tenants__tenant_id__upstream_routes__route_id__patch"
      ["tenant_id"; "route_id"]
      [] [] (Some (TRef "RouteUpdate"))
      [(200%Z, Some (TRef "RouteOut")); (422%Z, Some (TRef "HTTPValidationError"))];
    Operation "get_tenant_policy_api_v1_tenants__tenant_id__upstream_policy_get"
      ["tenant_id"]
      [] [] (None)
      [(200%Z, Some (TRef "TenantPolicyOut")); (422%Z, Some (TRef "HTTPValidationError"))] ].

Definition operations_20 : list operation :=
  [ Operation "upsert_tenant_policy_api_v1_tenants__tenant_id__upstream_policy_put"
      ["tenant_id"]
      [] [] (Some (TRef "TenantPolicyIn"))
      [(200%Z, Some (TRef "TenantPolicyOut")); (422%Z, Some (TRef "HTTPValidationError"))];
    Operation "get_upstream_bundle_api_v1_upstream_bundle__tenant_id__get"
      ["tenant_id"]
      [] [Field "authorization" true (TUnion [TString; TNull]); Field "X-Mantis-Node" true (TUnion [TString; TNull])] (None)
      [(200%Z, Some (TAny)); (422%Z, Some (TRef "HTTPValidationError"))];
    Operation "list_scopes_api_v1_dhcp_scopes_get"
      []
      [Field "tenant_id" true (TUnion [TString; TNull])] [] (None)
      [(200%Z, Some (TArr (TRef "ScopeOut"))); (422%Z, Some (TRef "HTTPValidationError"))];
    Operation "create_scope_api_v1_dhcp_scopes_post"
      []
      [] [] (Some (TRef "ScopeCreate"))
      [(201%Z, Some (TRef "ScopeOut")); (422%Z, Some (TRef "HTTPValidationError"))] ].

Definition operations_21 : list operation :=
  [ Operation "get_scope_api_v1_dhcp_scopes__scope_id__get"
      ["scope_id"]
      [] [] (None)
      [(200%Z, Some (TRef "ScopeOut")); (422%Z, Some (TRef "HTTPValidationError"))];
    Operation "delete_scope_api_v1_dhcp_scopes__scope_id__delete"
      ["scope_id"]
      [] [] (None)
      [(204%Z, None); (422%Z, Some (TRef "HTTPValidationError"))];
    Operation "update_scope_api_v1_dhcp_scopes__scope_id__patch"
      ["scope_id"]
      [] [] (Some (TRef "ScopeUpdate"))
      [(200%Z, Some (TRef "ScopeOut")); (422%Z, Some (TRef "HTTPValidationError"))];
    Operation "list_reservations_api_v1_dhcp_scopes__scope_id__reservations_get"
      ["scope_id"]
      [] [] (None)
      [(200%Z, Some (TArr (TRef "ReservationOut"))); (422%Z, Some (TRef "HTTPValidationError"))] ].

Definition operations_22 : list operation :=
  [ Operation "create_reservation_api_v1_dhcp_scopes__scope_id__reservations_post"
      ["scope_id"]
      [] [] (Some (TRef "ReservationCreate"))
      [(201%Z, Some (TRef "ReservationOut")); (422%Z, Some (TRef "HTTPValidationError"))];
    Operation "delete_reservation_api_v1_dhcp_scopes__scope_id__reservations__reservation_id__delete"
      ["scope_id"; "reservation_id"]
      [] [] (None)
      [(204%Z, None); (422%Z, Some (TRef "HTTPValidationError"))];
    Operation "update_reservation_api_v1_dhcp_scopes__scope_id__reservations__reservation_id__patch"
      ["scope_id"; "reservation_id"]
      [] [] (Some (TRef "ReservationUpdate"))
      [(200%Z, Some (TRef "ReservationOut")); (422%Z, Some (TRef "HTTPValidationError"))];
    Operation "list_options_api_v1_dhcp_scopes__scope_id__options_get"
      ["scope_id"]
      [] [] (None)
      [(200%Z, Some (TArr (TRef "OptionOut"))); (422%Z, Some (TRef "HTTPValidationError"))] ].

Definition operations_23 : list operation :=
  [ Operation "create_option_api_v1_dhcp_scopes__scope_id__options_post"
      ["scope_id"]
      [] [] (Some (TRef "OptionCreate"))
      [(201%Z, Some (TRef "OptionOut")); (422%Z, Some (TRef "HTTPValidationError"))];
    Operation "delete_option_api_v1_dhcp_scopes__scope_id__options__option_id__delete"
      ["scope_id"; "option_id"]
      [] [] (None)
      [(204%Z, None); (422%Z, Some (TRef "HTTPValidationError"))];
    Operation "list_relays_api_v1_dhcp_scopes__scope_id__relays_get"
      ["scope_id"]
      [] [] (None)
      [(200%Z, Some (TArr (TRef "RelayOut"))); (422%Z, Some (TRef "HTTPValidationError"))];
    Operation "create_relay_api_v1_dhcp_scopes__scope_id__relays_post"
      ["scope_id"]
      [] [] (Some (TRef "RelayCreate"))
      [(201%Z, Some (TRef "RelayOut")); (422%Z, Some (TRef "HTTPValidationError"))] ].

Definition operations_24 : list operation :=
  [ Operation "delete_relay_api_v1_dhcp_scopes__scope_id__relays__relay_id__delete"
      ["scope_id"; "relay_id"]
      [] [] (None)
      [(204%Z, None); (422%Z, Some (TRef "HTTPValidationError"))];
    Operation "list_leases_api_v1_dhcp_leases_get"
      []
      [Field "scope_id" true (TUnion [TString; TNull]); Field "tenant_id" true (TUnion [TString; TNull]); Field "state" true (TNumber)] [] (None)
      [(200%Z, Some (TArr (TRef "LeaseOut"))); (422%Z, Some (TRef "HTTPValidationError"))];
    Operation "dhcp_stats_api_v1_dhcp_stats_get"
      []
      [] [] (None)
      [(200%Z, Some (TArr (TRef "SubnetStatOut")))];
    Operation "list_interfaces_api_v1_dhcp_interfaces_get"
      []
      [] [] (None)
      [(200%Z, Some (TArr (TString)))];
    Operation "dhcp_health_api_v1_dhcp_health_get"
      []
      [] [] (None)
      [(200%Z, Some (TArr (TRef "DaemonHeartbeatOut")))] ].

Definition operations_25 : list operation :=
  [ Operation "dhcp_event_api_v1_internal_dhcp_event_post"
      []
      [] [Field "x-internal-token" true (TUnion [TString; TNull])] (Some (TRef "DhcpEvent"))
      [(204%Z, None); (422%Z, Some (TRef "HTTPValidationError"))];
    Operation "list_scopes6_api_v1_dhcp6_scopes_get"
      []
      [Field "tenant_id" true (TUnion [TString; TNull])] [] (None)
      [(200%Z, Some (TArr (TRef "Scope6Out"))); (422%Z, Some (TRef "HTTPValidationError"))];
    Operation "create_scope6_api_v1_dhcp6_scopes_post"
      []
      [] [] (Some (TRef "Scope6Create"))
      [(201%Z, Some (TRef "Scope6Out")); (422%Z, Some (TRef "HTTPValidationError"))];
    Operation "get_scope6_api_v1_dhcp6_scopes__scope_id__get"
      ["scope_id"]
      [] [] (None)
      [(200%Z, Some (TRef "Scope6Out")); (422%Z, Some (TRef "HTTPValidationError"))] ].

Definition operations_26 : list operation :=
  [ Operation "delete_scope6_api_v1_dhcp6_scopes__scope_id__delete"
      ["scope_id"]
      [] [] (None)
      [(204%Z, None); (422%Z, Some (TRef "HTTPValidationError"))];
    Operation "update_scope6_api_v1_dhcp6_scopes__scope_id__patch"
      ["scope_id"]
      [] [] (Some (TRef "Scope6Update"))
      [(200%Z, Some (TRef "Scope6Out")); (422%Z, Some (TRef "HTTPValidationError"))];
    Operation "list_reservations6_api_v1_dhcp6_scopes__scope_id__reservations_get"
      ["scope_id"]
      [] [] (None)
      [(200%Z, Some (TArr (TRef "Reservation6Out"))); (422%Z, Some (TRef "HTTPValidationError"))];
    Operation "create_reservation6_api_v1_dhcp6_scopes__scope_id__reservations_post"
      ["scope_id"]
      [] [] (Some (TRef "Reservation6Create"))
      [(201%Z, Some (TRef "Reservation6Out")); (422%Z, Some (TRef "HTTPValidationError"))] ].

Definition operations_27 : list operation :=
  [ Operation "delete_reservation6_api_v1_dhcp6_scopes__scope_id__reservations__reservation_id__delete"
      ["scope_id"; "reservation_id"]
      [] [] (None)
      [(204%Z, None); (422%Z, Some (TRef "HTTPValidationError"))];
    Operation "update_reservation6_api_v1_dhcp6_scopes__scope_id__reservations__reservation_id__patch"
      ["scope_id"; "reservation_id"]
      [] [] (Some (TRef "Reservation6Update"))
      [(200%Z, Some (TRef "Reservation6Out")); (422%Z, Some (TRef "HTTPValidationError"))];
    Operation "list_leases6_api_v1_dhcp6_leases_get"
      []
      [Field "scope_id" true (TUnion [TString; TNull]); Field "tenant_id" true (TUnion [TString; TNull]); Field "state" true (TNumber)] [] (None)
      [(200%Z, Some (TArr (TRef "Lease6Out"))); (422%Z, Some (TRef "HTTPValidationError"))];
    Operation "list_node_credentials_api_v1_nodes_credentials_get"
      []
      [] [] (None)
      [(200%Z, Some (TArr (TRef "NodeCredentialOut")))] ].

Definition operations_28 : list operation :=
  [ Operation "create_node_credential_api_v1_nodes_credentials_post"
      []
      [] [] (Some (TRef "NodeCredentialCreate"))
      [(201%Z, Some (TRef "NodeCredentialIssued")); (422%Z, Some (TRef "HTTPValidationError"))];
    Operation "rotate_node_credential_api_v1_nodes_credentials__node_name__rotate_post"
      ["node_name"]
      [] [] (None)
      [(200%Z, Some (TRef "NodeCredentialIssued")); (422%Z, Some (TRef "HTTPValidationError"))];
    Operation "revoke_node_credential_api_v1_nodes_credentials__node_name__revoke_post"
      ["node_name"]
      [] [] (None)
      [(200%Z, Some (TRef "NodeCredentialOut")); (422%Z, Some (TRef "HTTPValidationError"))];
    Operation "health_health_get"
      []
      [] [] (None)
      [(200%Z, Some (TRecord TString))] ].

Definition operations : list operation :=
  operations_1 ++ operations_2 ++ operations_3 ++ operations_4 ++ operations_5 ++ operations_6 ++ operations_7 ++ operations_8 ++ operations_9 ++ operations_10 ++ operations_11 ++ operations_12 ++ operations_13 ++ operations_14 ++ operations_15 ++ operations_16 ++ operations_17 ++ operations_18 ++ operations_19 ++ operations_20 ++ operations_21 ++ operations_22 ++ operations_23 ++ operations_24 ++ operations_25 ++ operations_26 ++ operations_27 ++ operations_28.

(** ** Conformance *)

Definition lookup_schema (name : string) : option schema :=
  snd <$> List.find (λ s, bool_decide (s.1 = name)) schemas.

(** An object has the fields [fs]: every declared field that is not optional is
    there, every field there is declared, and each has its type. *)
Definition fields_ok (conf : ty → json → bool) (fs : list field) (o : list (string * json)) : bool :=
  forallb (λ f, match obj_get (f_name f) o with
                | Some v => conf (f_ty f) v
                | None => f_optional f
                end) fs &&
  forallb (λ kv, existsb (λ f, bool_decide (f_name f = kv.1)) fs) o.

(** [conforms_at n t j]: [j] has the type [t], where at most [n] nested
    references are followed. *)
Fixpoint conforms_at (n : nat) : ty → json → bool :=
  fix go (t : ty) (j : json) {struct t} : bool :=
    match t, j with
    | TAny, _ => true
    | TString, JStr _ => true
    | TNumber, JNum _ _ => true
    | TBool, JBool _ => true
    | TNull, JNull => true
    | TLit s, JStr s' => bool_decide (s = s')
    | TArr t, JArr l => forallb (go t) l
    | TRecord t, JObj o => forallb (λ kv, go t kv.2) o
    | TUnion ts, j => existsb (λ t, go t j) ts
    | TRef name, j =>
        match n with
        | O => false
        | S m =>
            match lookup_schema name, j with
            | Some (Obj fs), JObj o => fields_ok (conforms_at m) fs o
            | Some (Alias t), j => conforms_at m t j
            | _, _ => false
            end
        end
    | _, _ => false
    end.

(** The schemas refer to each other at most two deep ([refs_depth]). *)
Definition conforms : ty → json → bool := conforms_at 2.

(** ** Well-formedness of the tables *)

(** The names between braces of a path template. *)
Fixpoint until_brace (s : string) : string :=
  match s with
  | "" => ""
  | String c r => if Ascii.eqb c "}" then "" else String c (until_brace r)
  end.

Fixpoint template_holes (s : string) : list string :=
  match s with
  | "" => []
  | String c r => if Ascii.eqb c "{" then until_brace r :: template_holes r else template_holes r
  end.

(** The references of a type. *)
Fixpoint refs (t : ty) : list string :=
  match t with
  | TArr t | TRecord t => refs t
  | TUnion ts => concat (refs <$> ts)
  | TRef s => [s]
  | _ => []
  end.

Definition schema_refs (s : schema) : list string :=
  match s with Obj fs => concat ((refs ∘ f_ty) <$> fs) | Alias t => refs t end.

Definition operation_refs (o : operation) : list string :=
  concat ((refs ∘ f_ty) <$> o_query o ++ o_header o) ++
  match o_body o with Some t => refs t | None => [] end ++
  concat ((λ r : Z * option ty, match r.2 with Some t => refs t | None => [] end) <$> o_responses o).

(** The number of references that can be followed one after another from a
    schema, counted up to [n]. *)
Fixpoint ref_depth (n : nat) (name : string) : nat :=
  match n with
  | O => O
  | S m => match lookup_schema name with
           | Some s => S (foldr Nat.max 0 (ref_depth m <$> schema_refs s))
           | None => O
           end
  end.

Definition find_op (id : string) : option operation :=
  List.find (λ o, bool_decide (o_id o = id)) operations.

(** The operation of a method on a path template. *)
Definition op_at (m : method) (path : string) : option operation :=
  p ← List.find (λ p, bool_decide (p_path p = path)) paths;
  mo ← List.find (λ mo, bool_decide (mo.1 = m)) (p_ops p);
  find_op mo.2.

Definition op_ids : list string := concat ((λ p, snd <$> p_ops p) <$> paths).

Definition path_item_ok (p : path_item) : bool :=
  forallb (λ mo, match find_op mo.2 with
                 | Some o => bool_decide (o_path o = template_holes (p_path p)) &&
                             (negb (bool_decide (mo.1 = GET)) || bool_decide (o_body o = None))
                 | None => false
                 end) (p_ops p).

(** A string is one of the literals of a union. *)
Lemma conforms_lits n (ls : list string) s :
  s ∈ ls → conforms_at n (TUnion (TLit <$> ls)) (JStr s) = true.
Proof.
  intros Hs. destruct n; cbn; rewrite existsb_exists; exists (TLit s);
    (split; [apply list_elem_of_In, list_elem_of_fmap; eauto | by apply bool_decide_eq_true]).
Qed.

Lemma conforms_ref n name fs o :
  lookup_schema name = Some (Obj fs) →
  conforms_at (S n) (TRef name) (JObj o) = fields_ok (conforms_at n) fs o.
Proof. intros H. cbn [conforms_at]. by rewrite H. Qed.

Lemma conforms_arr {A} n t (f : A → json) l :
  conforms_at n (TArr t) (JArr (f <$> l)) = true ↔ Forall (λ x, conforms_at n t (f x) = true) l.
Proof.
  transitivity (forallb (conforms_at n t) (f <$> l) = true); [by destruct n|].
  induction l as [|x l IH]; [by split; [constructor|]|].
  rewrite fmap_cons, Forall_cons, <- IH. cbn [forallb]. apply andb_true_iff.
Qed.

(** References of every schema and operation lead to schemas, and following
    them ends after two steps. *)
Lemma refs_depth :
  forallb (λ s : string * schema, Nat.leb (ref_depth 10 s.1) 2) schemas = true.
Proof. vm_compute. reflexivity. Qed.

(** The API description is closed and consistent.  Path templates and
    operation ids are unique; the ids the paths name are exactly the operations
    described; each operation's path parameters are the holes of its path
    template, in order; a GET has no request body; and every schema reference
    is to a schema of the file. *)
Theorem schema_consistent :
  NoDup (p_path <$> paths) ∧ NoDup (o_id <$> operations) ∧
  op_ids ≡ₚ (o_id <$> operations) ∧
  Forall (λ p, path_item_ok p = true) paths ∧
  Forall (λ r, is_Some (lookup_schema r))
    (concat (schema_refs ∘ snd <$> schemas) ++ concat (operation_refs <$> operations)).
Proof.
  split_and!; apply (bool_decide_eq_true_1 _); vm_compute; reflexivity.
Qed.
