(* ===== verification/GenApi.v ===== *)
(** * The generator of the API schema

    [apps/ui/scripts/gen-api.mjs] regenerates [src/api/schema.ts] from the OpenAPI
    description that [services/control/scripts/dump_openapi.py] prints, or, with
    [--check], exits with 1 when the committed file is not what it would write.  The
    file it writes is the API description the client is typed against ([Schema.v]).

    The script is a process: it reads its arguments, starts another process, reads or
    writes one file, prints, and ends with an exit code.  [openapi-typescript] is a
    parameter, and so are the process that is started and the platform. *)

From S2P Require Import Prelude JsText Json JsonRoundtrip Web Client.

(** ** Paths *)

(** A path as its segments, from the root. *)
Definition path : Type := list string.

(** [dirname(p)] and [join(p, ...segments)], which resolves [..]. *)
Definition dirname (p : path) : path := removelast p.
Definition join_step (p : path) (s : string) : path := if decide (s = "..") then dirname p else p ++ [s].
Definition join_path (p : path) (segments : list string) : path := foldl join_step p segments.

Definition uiRoot (script : path) : path := join_path (dirname script) [".."].
Definition controlDir (script : path) : path := join_path (uiRoot script) [".."; ".."; "services"; "control"].
Definition schemaPath (script : path) : path := join_path (uiRoot script) ["src"; "api"; "schema.ts"].

(** ** The process *)

(** What [spawnSync] returns: no status when the process was killed or did not start. *)
Record dump_result := DumpResult {
  d_status : option Z;
  d_stdout : string;
  d_stderr : string;
  d_error : option string;
}.

(** The command, its arguments, the directory it runs in and the output it may print. *)
Record spawn := Spawn {
  sp_command : string;
  sp_args : list string;
  sp_cwd : path;
  sp_maxBuffer : Z;
}.

(** What is printed: lines on the two streams, and the exception nothing caught. *)
Inductive printed := Out (s : string) | Err (s : string) | Uncaught (e : string).

(** How the process ends: its exit code, what it printed, and the files after it. *)
Record ended := Ended {
  exit_code : Z;
  prints : list printed;
  files : path → option string;
}.

Definition write_file (p : path) (text : string) (fs : path → option string) : path → option string :=
  λ q, if decide (q = p) then Some text else fs q.

Definition LICENSE_HEADER : string := "/*
 * Copyright (C) 2026 Blue Networks srl <support+github@bluenetworks.it>
 *
 * This program is free software: you can redistribute it and/or modify
 * it under the terms of the GNU Affero General Public License as published by
 * the Free Software Foundation, either version 3 of the License, or
 * (at your option) any later version.
 *
 * This program is distributed in the hope that it will be useful,
 * but WITHOUT ANY WARRANTY; without even the implied warranty of
 * MERCHANTABILITY or FITNESS FOR A PARTICULAR PURPOSE.  See the
 * GNU Affero General Public License for more details.
 *
 * You should have received a copy of the GNU Affero General Public License
 * along with this program.  If not, see <https://www.gnu.org/licenses/>.
 */

/**
 * This file was auto-generated by openapi-typescript.
 * Do not make direct changes to the file.
 */

".

Definition newline : string := String "010" "".

Definition DUMP_FAILED : string :=
  newline +:+ "Failed to dump the OpenAPI schema from the control plane. Is " +:+
  "mantis_control installed in an active venv (`pip install -e '.[dev]'` " +:+ "in services/control)?".

Definition OUT_OF_DATE : string :=
  "src/api/schema.ts is out of date with the control plane's OpenAPI schema." +:+ newline +:+
  "Run `npm run gen:api` (with the control-plane venv active) and commit the result.".

Section script.
(** The modules: [openapiTS], which may reject, [astToString], and the process that
    [spawnSync] runs; then [process.platform] and where the script is. *)
Context {ast : Type}.
Variables (openapiTS : json → exc ast) (astToString : ast → string).
Variables (spawnSync : spawn → dump_result) (platform : string) (script : path).

Definition python : string := if decide (platform = "win32") then "python" else "python3".

Definition dump : dump_result :=
  spawnSync (Spawn python ["scripts/dump_openapi.py"] (controlDir script) (16 * 1024 * 1024)).

(** [if (dump.status !== 0)]: what the process printed on its error stream, the error of
    starting it, and the hint. *)
Definition dump_errors (d : dump_result) : list printed :=
  (if truthy (d_stderr d) then [Err (d_stderr d)] else []) ++
  from_option (λ m, [Err m]) [] (d_error d) ++ [Err DUMP_FAILED].

(** [JSON.parse], [await openapiTS(schema)] and the header in front; an exception ends
    the process. *)
Definition generated (d : dump_result) : exc string :=
  match json_parse (d_stdout d) with
  | None => Throw "SyntaxError"
  | Some schema =>
      match openapiTS schema with
      | Ok a => Ok (LICENSE_HEADER +:+ astToString a)
      | Throw e => Throw e
      end
  end.

(** The [if (checkMode) ... else ...] at the end. *)
Definition check_schema (text : string) (fs : path → option string) : ended :=
  match fs (schemaPath script) with
  | None => Ended 1 [Uncaught "ENOENT"] fs
  | Some current =>
      if decide (current ≠ text) then Ended 1 [Err OUT_OF_DATE] fs
      else Ended 0 [Out "src/api/schema.ts is up to date."] fs
  end.

Definition write_schema (text : string) (fs : path → option string) : ended :=
  Ended 0 [Out "Wrote src/api/schema.ts"] (write_file (schemaPath script) text fs).

(** The whole script, run with the arguments [argv] on the files [fs]. *)
Definition gen_api (argv : list string) (fs : path → option string) : ended :=
  let checkMode := bool_decide ("--check" ∈ argv) in
  if decide (d_status dump ≠ Some 0%Z) then Ended 1 (dump_errors dump) fs
  else match generated dump with
  | Throw e => Ended 1 [Uncaught e] fs
  | Ok text => if checkMode then check_schema text fs else write_schema text fs
  end.

(** ** What the script promises *)

(** The text the description of the control plane stands for. *)
Definition fresh (text : string) : Prop := d_status dump = Some 0%Z ∧ generated dump = Ok text.

Definition up_to_date (fs : path → option string) : Prop :=
  ∃ text, fresh text ∧ fs (schemaPath script) = Some text.

Lemma write_same p text fs : write_file p text fs p = Some text.
Proof. unfold write_file. by rewrite decide_True. Qed.

Lemma write_other p q text fs : q ≠ p → write_file p text fs q = fs q.
Proof. intros. unfold write_file. by rewrite decide_False. Qed.

(** The three ways a run goes. *)
Lemma gen_api_cases argv fs :
  (∃ text, fresh text ∧
     gen_api argv fs =
       if bool_decide ("--check" ∈ argv) then check_schema text fs else write_schema text fs) ∨
  ((∀ text, ¬ fresh text) ∧ ∃ l, gen_api argv fs = Ended 1 l fs ∧ ∃ x, x ∈ l).
Proof.
  unfold gen_api, fresh. case_decide as Hs.
  - right. split; [tauto|]. eexists. split; [done|]. exists (Err DUMP_FAILED). unfold dump_errors.
    rewrite !elem_of_app. right. right. by left.
  - destruct (generated dump) as [text|e]; [by left; eauto|].
    right. split; [naive_solver|]. eexists. split; [done|]. eexists. by left.
Qed.

Lemma fresh_unique text text' : fresh text → fresh text' → text = text'.
Proof. intros [_ H] [_ H']. congruence. Qed.

Lemma check_exits text fs :
  exit_code (check_schema text fs) = (if decide (fs (schemaPath script) = Some text) then 0 else 1)%Z ∧
  files (check_schema text fs) = fs.
Proof.
  unfold check_schema. destruct (fs (schemaPath script)) as [c|]; [|by rewrite decide_False].
  case_decide as Hc; case_decide; naive_solver.
Qed.

(** A check. *)
Lemma check_run argv fs :
  "--check" ∈ argv →
  files (gen_api argv fs) = fs ∧
  (∀ text, fresh text → exit_code (gen_api argv fs) = (if decide (fs (schemaPath script) = Some text) then 0 else 1)%Z) ∧
  ((∀ text, ¬ fresh text) → exit_code (gen_api argv fs) = 1%Z).
Proof.
  intros Hc. destruct (gen_api_cases argv fs) as [(text & Ht & ->)|(Hn & l & -> & _)].
  - rewrite bool_decide_eq_true_2 by done. destruct (check_exits text fs) as [-> ->].
    split_and!; [done| |intros Hn; by destruct (Hn text)]. intros text' Ht'. by rewrite (fresh_unique _ _ Ht Ht').
  - split_and!; [done| |done]. intros text Ht. by destruct (Hn text).
Qed.

(** A generation. *)
Lemma write_run argv fs text :
  "--check" ∉ argv → fresh text → gen_api argv fs = write_schema text fs.
Proof.
  intros Hc Ht. destruct (gen_api_cases argv fs) as [(text' & Ht' & ->)|(Hn & _)]; [|by destruct (Hn text)].
  rewrite bool_decide_eq_false_2 by done. by rewrite (fresh_unique _ _ Ht Ht').
Qed.

Lemma check_prints argv fs text :
  "--check" ∈ argv → fresh text → fs (schemaPath script) = Some text →
  prints (gen_api argv fs) = [Out "src/api/schema.ts is up to date."].
Proof.
  intros Hc Ht Hfs. destruct (gen_api_cases argv fs) as [(text' & Ht' & ->)|(Hn & _)]; [|by destruct (Hn text)].
  rewrite bool_decide_eq_true_2 by done. rewrite <- (fresh_unique _ _ Ht Ht'). unfold check_schema. rewrite Hfs.
  by rewrite decide_False by naive_solver.
Qed.
End script.

Lemma removelast_snoc {A} (l : list A) x : removelast (l ++ [x]) = l.
Proof. apply removelast_last. Qed.

Lemma join_up p s : join_step (p ++ [s]) ".." = p.
Proof. apply removelast_last. Qed.

Lemma join_down p s : s ≠ ".." → join_step p s = p ++ [s].
Proof. intros. unfold join_step. by rewrite decide_False. Qed.

(** Where the script finds the file and the control plane. *)
Lemma script_paths (root : path) :
  let script := root ++ ["apps"; "ui"; "scripts"; "gen-api.mjs"] in
  controlDir script = root ++ ["services"; "control"] ∧
  schemaPath script = root ++ ["apps"; "ui"; "src"; "api"; "schema.ts"].
Proof.
  intros script.
  assert (script = (((root ++ ["apps"]) ++ ["ui"]) ++ ["scripts"]) ++ ["gen-api.mjs"]) as ->
    by (by rewrite <- !(assoc (++))).
  unfold controlDir, schemaPath, uiRoot, join_path. cbn [foldl]. unfold dirname. rewrite !removelast_snoc.
  rewrite !join_up, !join_down by done. by rewrite <- !(assoc (++)).
Qed.

(** C39: the check in CI accepts exactly what the generator writes.  Checking writes no
    file and exits with 0 exactly when the schema file is, to the letter, what the
    description of the control plane generates, and with 1 otherwise, also when the
    description cannot be had.  Generating writes the schema file and no other one; a
    check after it succeeds, and one of a description that generates another text
    fails.  When the description cannot be had nothing is written, whatever the mode,
    and the exit code is 1 with something printed.  The file is [src/api/schema.ts] of
    the package the script is in, the process runs in [services/control]. *)
Theorem check_accepts_generated {ast : Type} (openapiTS openapiTS' : json → exc ast) (astToString : ast → string)
    (spawnSync spawnSync' : spawn → dump_result) (platform : string) (root : path) (argv : list string)
    (fs : path → option string) :
  let script := root ++ ["apps"; "ui"; "scripts"; "gen-api.mjs"] in
  let file := root ++ ["apps"; "ui"; "src"; "api"; "schema.ts"] in
  let run := gen_api openapiTS astToString spawnSync platform script in
  let text_of ts sp text := fresh ts astToString sp platform script text in
  let check := "--check" :: argv in
  controlDir script = root ++ ["services"; "control"] ∧
  files (run check fs) = fs ∧
  (exit_code (run check fs) = 0%Z ↔ ∃ text, text_of openapiTS spawnSync text ∧ fs file = Some text) ∧
  (exit_code (run check fs) = 0%Z ∨ exit_code (run check fs) = 1%Z) ∧
  ("--check" ∉ argv →
   (∀ text, text_of openapiTS spawnSync text →
      let fs' := files (run argv fs) in
      exit_code (run argv fs) = 0%Z ∧ fs' file = Some text ∧ (∀ p, p ≠ file → fs' p = fs p) ∧
      exit_code (run check fs') = 0%Z ∧ prints (run check fs') = [Out "src/api/schema.ts is up to date."] ∧
      ∀ text', text_of openapiTS' spawnSync' text' → text' ≠ text →
        exit_code (gen_api openapiTS' astToString spawnSync' platform script check fs') = 1%Z)) ∧
  ((∀ text, ¬ text_of openapiTS spawnSync text) →
   exit_code (run argv fs) = 1%Z ∧ files (run argv fs) = fs ∧ ∃ x, x ∈ prints (run argv fs)).
Proof.
  intros script file run text_of check. destruct (script_paths root) as [Hc Hf]. fold script file in Hc, Hf.
  assert ("--check" ∈ check) as Hck by (by left).
  destruct (check_run openapiTS astToString spawnSync platform script check fs Hck) as (Hw & Hok & Hko).
  rewrite Hf in Hok. fold run in Hw, Hok, Hko. fold (text_of openapiTS spawnSync) in Hok, Hko.
  assert ((∃ text, text_of openapiTS spawnSync text) ∨ ∀ text, ¬ text_of openapiTS spawnSync text) as Hcase.
  { destruct (gen_api_cases openapiTS astToString spawnSync platform script check fs)
      as [(t & Ht & _)|[Hn _]]; [left; by exists t|by right]. }
  split_and!.
  - done.
  - done.
  - destruct Hcase as [[t Ht]|Hn]; [rewrite (Hok t Ht)|rewrite Hko by done; split; [done|]].
    + case_decide; split; try done; [by eauto|]. intros (t' & Ht' & ?).
      by rewrite (fresh_unique _ _ _ _ _ _ _ Ht Ht') in *.
    + intros (t & Ht & _). by destruct (Hn t).
  - destruct Hcase as [[t Ht]|Hn]; [rewrite (Hok t Ht); case_decide; auto|right; auto].
  - intros Ha t Ht fs'. unfold fs', run. rewrite (write_run _ _ _ _ _ argv fs t Ha Ht). cbn [exit_code files write_schema].
    rewrite Hf. set (fs1 := write_file file t fs).
    assert (fs1 file = Some t) as Hs by apply write_same.
    split_and!; [done|done|intros q Hq; by apply write_other| | |].
    + destruct (check_run openapiTS astToString spawnSync platform script check fs1 Hck) as (_ & Hc1 & _).
      rewrite (Hc1 t Ht), Hf. by rewrite decide_True.
    + apply (check_prints _ _ _ _ _ check fs1 t); [done..|by rewrite Hf].
    + intros t' Ht' Hne.
      destruct (check_run openapiTS' astToString spawnSync' platform script check fs1 Hck) as (_ & Hc1 & _).
      rewrite (Hc1 t' Ht'), Hf, decide_False; [done|congruence].
  - intros Hn. destruct (gen_api_cases openapiTS astToString spawnSync platform script argv fs)
      as [(t & Ht & _)|(_ & l & Hl & Hx)]; [by destruct (Hn t)|]. unfold run. by rewrite Hl.
Qed.

(** A control plane without routes. *)
Definition dump0 (_ : spawn) : dump_result := DumpResult (Some 0%Z) "{}" "" None.

Lemma check_accepts_generated_witness :
  let run := gen_api (@Ok json) stringify dump0 "linux" ["apps"; "ui"; "scripts"; "gen-api.mjs"] in
  exit_code (run ["--check"] (λ _, None)) = 1%Z ∧
  exit_code (run ["--check"] (files (run [] (λ _, None)))) = 0%Z.
Proof.
  intros run. split; [vm_compute; reflexivity|].
  destruct (check_accepts_generated (@Ok json) (@Ok json) stringify dump0 dump0 "linux" [] [] (λ _, None))
    as (_ & _ & _ & _ & H & _).
  destruct (H ltac:(apply not_elem_of_nil) (LICENSE_HEADER +:+ "{}") ltac:(split; vm_compute; reflexivity))
    as (_ & _ & _ & Hc & _).
  exact Hc.
Defined.
