(* ===== verification/Queries.v ===== *)
(** * The query and mutation hooks

    [api/hooks.ts] and the queries [DashboardPage] declares itself.  A query
    hook gives react-query a key, a call and options; a mutation hook gives it a
    call and what to do with the query cache once the call has succeeded.
    react-query and openapi-fetch are outside the program: how a filter key
    selects cached queries is the class [QueryFilter], and the typed client a
    function from the call to its result. *)

From S2P Require Import Prelude JsText Json Web Client Schema.

(** ** Keys, calls, queries and mutations *)

Inductive kelem :=
| KStr (s : string) | KNum (n : Z) | KBool (b : bool) | KUndef | KNull.

#[export] Instance kelem_eq_dec : EqDecision kelem.
Proof. solve_decision. Defined.

Notation key := (list kelem).

(** A value of type [string | undefined] in a key. *)
Definition kopt (o : option string) : kelem := from_option KStr KUndef o.
(** A value of type [string | null] in a key. *)
Definition knul (o : option string) : kelem := from_option KStr KNull o.
Definition knum (o : option Z) : kelem := from_option KNum KUndef o.

(** A template literal: its texts and substitutions. *)
Inductive piece := Lit (s : string) | Sub (s : option string).

#[export] Instance piece_eq_dec : EqDecision piece.
Proof. solve_decision. Defined.

Definition render_piece (p : piece) : string :=
  match p with Lit s => s | Sub (Some s) => s | Sub None => "undefined" end.

Definition render (ps : list piece) : string := String.concat "" (render_piece <$> ps).

(** A query parameter, absent when [undefined]. *)
Notation params := (list (string * option json)).

(** [Typed] is [apiClient.METHOD(path, { params, body })] and what is done with
    its result; the others are the calls of the untyped client. *)
Inductive call :=
| Typed (m : method) (path : string) (pathParams : list (string * option string))
    (query : params) (body : option json) (post : api_result → exc (option json))
| RawGet (path : list piece) (query : params)
| RawPost (path : list piece) (body : json)
| RawPatch (path : list piece) (body : json)
| RawPut (path : list piece) (body : json)
| RawDelete (path : list piece).

(** [staleTime]: milliseconds or [Infinity]. *)
Inductive stale := Ms (n : Z) | Infinity.

Record query := MkQuery {
  queryKey : key;
  queryFn : call;
  enabled : bool;
  refetchInterval : option Z;
  staleTime : stale;
}.

(** [defaultOptions.queries.staleTime] of the query client. *)
Definition DEFAULT_STALE : stale := Ms 10000.

(** A query with the default options, and the options the hooks set. *)
Definition Query (k : key) (c : call) (e : bool) : query := MkQuery k c e None DEFAULT_STALE.
Definition every (ms : Z) (q : query) : query :=
  MkQuery (queryKey q) (queryFn q) (enabled q) (Some ms) (staleTime q).
Definition stale_after (s : stale) (q : query) : query :=
  MkQuery (queryKey q) (queryFn q) (enabled q) (refetchInterval q) s.

(** What [onSuccess] does with the query client. *)
Inductive effect := Invalidate (k : key) | Remove (k : key).

Record mutation (A : Type) := Mutation {
  mutationFn : A → call;
  onSuccess : A → list effect;
}.
Arguments Mutation {A}.
Arguments mutationFn {A}.
Arguments onSuccess {A}.

(** ** Users *)

Definition useUsers : query :=
  Query [KStr "users"] (Typed GET "/api/v1/users" [] [] None unwrap) true.

Definition useCreateUser : mutation json := Mutation
  (λ body, Typed POST "/api/v1/users" [] [] (Some body) unwrap)
  (λ _, [Invalidate [KStr "users"]]).

Definition useUpdateUser : mutation (string * json) := Mutation
  (λ '(userId, body), Typed PATCH "/api/v1/users/{user_id}" [("user_id", Some userId)] [] (Some body) unwrap)
  (λ _, [Invalidate [KStr "users"]]).

Definition useDeleteUser : mutation string := Mutation
  (λ userId, Typed DELETE "/api/v1/users/{user_id}" [("user_id", Some userId)] [] None unwrap)
  (λ _, [Invalidate [KStr "users"]]).

Definition useChangePassword : mutation json := Mutation
  (λ body, Typed POST "/api/v1/auth/change-password" [] [] (Some body) unwrap)
  (λ _, []).

(** ** Tenants *)

Definition useTenants : query :=
  Query [KStr "tenants"] (Typed GET "/api/v1/tenants" [] [] None unwrap) true.

Definition useCreateTenant : mutation json := Mutation
  (λ body, Typed POST "/api/v1/tenants" [] [] (Some body) unwrap)
  (λ _, [Invalidate [KStr "tenants"]]).

Definition useDeleteTenant : mutation string := Mutation
  (λ tenantId, Typed DELETE "/api/v1/tenants/{tenant_id}" [("tenant_id", Some tenantId)] [] None unwrap)
  (λ _, [Invalidate [KStr "tenants"]]).

(** ** Groups *)

Definition useGroups (tenantId : option string) : query :=
  Query [KStr "groups"; kopt tenantId]
    (Typed GET "/api/v1/tenants/{tenant_id}/groups" [("tenant_id", tenantId)] [] None unwrap)
    (truthy_opt tenantId).

Definition useCreateGroup (tenantId : option string) : mutation json := Mutation
  (λ body, Typed POST "/api/v1/tenants/{tenant_id}/groups" [("tenant_id", tenantId)] [] (Some body) unwrap)
  (λ _, [Invalidate [KStr "groups"; kopt tenantId]]).

Definition useSetGroupSubnet (tenantId : option string) : mutation (string * json) := Mutation
  (λ '(groupId, body), Typed PUT "/api/v1/groups/{group_id}/subnet" [("group_id", Some groupId)] [] (Some body) unwrap)
  (λ _, [Invalidate [KStr "groups"; kopt tenantId]]).

Definition useRenameGroup (tenantId : option string) : mutation (string * json) := Mutation
  (λ '(groupId, body), Typed PUT "/api/v1/groups/{group_id}" [("group_id", Some groupId)] [] (Some body) unwrap)
  (λ _, [Invalidate [KStr "groups"; kopt tenantId]]).

Definition useDeleteGroup (tenantId : option string) : mutation string := Mutation
  (λ groupId, Typed DELETE "/api/v1/groups/{group_id}" [("group_id", Some groupId)] [] None unwrap)
  (λ _, [Invalidate [KStr "groups"; kopt tenantId]]).

(** ** Policies and block pages *)

(** [if (res.response.status === 404) return null; return unwrap(res);] *)
Definition unwrap_or_null (res : api_result) : exc (option json) :=
  if (status (resp res) =? 404)%Z then Ok (Some JNull) else unwrap res.

Definition usePolicy (groupId : option string) : query :=
  Query [KStr "policy"; kopt groupId]
    (Typed GET "/api/v1/groups/{group_id}/policy" [("group_id", groupId)] [] None unwrap_or_null)
    (truthy_opt groupId).

Definition useUpsertPolicy (groupId : option string) : mutation json := Mutation
  (λ body, Typed PUT "/api/v1/groups/{group_id}/policy" [("group_id", groupId)] [] (Some body) unwrap)
  (λ _, [Invalidate [KStr "policy"; kopt groupId]]).

Definition useCompileBundle : mutation string := Mutation
  (λ groupId, Typed POST "/api/v1/groups/{group_id}/bundle" [("group_id", Some groupId)] [] None unwrap)
  (λ _, []).

Definition useBlockPageTemplate (groupId : option string) : query :=
  Query [KStr "block-page-template"; kopt groupId]
    (Typed GET "/api/v1/groups/{group_id}/block-page-template" [("group_id", groupId)] [] None unwrap_or_null)
    (truthy_opt groupId).

Definition useUpsertBlockPageTemplate (groupId : option string) : mutation json := Mutation
  (λ body, Typed PUT "/api/v1/groups/{group_id}/block-page-template" [("group_id", groupId)] [] (Some body) unwrap)
  (λ _, [Invalidate [KStr "block-page-template"; kopt groupId]]).

Definition useTopDomains (groupId : option string) : query :=
  Query [KStr "top-domains"; kopt groupId]
    (Typed GET "/api/v1/groups/{group_id}/top-domains" [("group_id", groupId)] [] None unwrap)
    (truthy_opt groupId).

Definition useTestPolicy (groupId : option string) : mutation string := Mutation
  (λ domain, RawPost [Lit "/api/v1/groups/"; Sub groupId; Lit "/policy/test"]
               (JObj [("domain", JStr domain)]))
  (λ _, []).

(** ** Categories and feeds *)

Definition useCategories : query :=
  stale_after Infinity (Query [KStr "categories"] (RawGet [Lit "/api/v1/categories"] []) true).

Definition useFeeds : query :=
  Query [KStr "feeds"] (Typed GET "/api/v1/feeds" [] [] None unwrap) true.

Definition useCreateFeed : mutation json := Mutation
  (λ body, Typed POST "/api/v1/feeds" [] [] (Some body) unwrap)
  (λ _, [Invalidate [KStr "feeds"]]).

Definition useUpdateFeed : mutation (string * json) := Mutation
  (λ '(feedId, body), Typed PATCH "/api/v1/feeds/{feed_id}" [("feed_id", Some feedId)] [] (Some body) unwrap)
  (λ _, [Invalidate [KStr "feeds"]]).

Definition useDeleteFeed : mutation string := Mutation
  (λ feedId, Typed DELETE "/api/v1/feeds/{feed_id}" [("feed_id", Some feedId)] [] None unwrap)
  (λ _, [Invalidate [KStr "feeds"]]).

Definition useIngestFeedNow : mutation string := Mutation
  (λ feedId, Typed POST "/api/v1/feeds/{feed_id}/ingest" [("feed_id", Some feedId)] [] None unwrap)
  (λ _, [Invalidate [KStr "feeds"]]).

(** ** Analytics, audit log and query log *)

Definition useAnalyticsSummary (hours : Z) : query :=
  every 15000 (Query [KStr "analytics-summary"; KNum hours]
    (Typed GET "/api/v1/analytics/summary" [] [("hours", Some (JInt hours))] None unwrap) true).

Definition useAnalyticsTimeseries (hours : Z) : query :=
  every 15000 (Query [KStr "analytics-timeseries"; KNum hours]
    (Typed GET "/api/v1/analytics/timeseries" [] [("hours", Some (JInt hours))] None unwrap) true).

Definition useAnalyticsByGroup (hours : Z) : query :=
  every 15000 (Query [KStr "analytics-by-group"; KNum hours]
    (Typed GET "/api/v1/analytics/by-group" [] [("hours", Some (JInt hours))] None unwrap) true).

Definition AUDIT_PAGE_SIZE : Z := 50.

(** [...(s ? { name: s } : {})], or [s ? { name: s } : undefined]. *)
Definition opt_param (name : string) (o : option string) : params :=
  match o with
  | Some s => if truthy s then [(name, Some (JStr s))] else []
  | None => []
  end.

Definition useAuditLog (resourceType : option string) (offset : Z) : query :=
  every 15000 (Query [KStr "audit-log"; kopt resourceType; KNum offset]
    (RawGet [Lit "/api/v1/audit-log"]
       ([("limit", Some (JInt AUDIT_PAGE_SIZE)); ("offset", Some (JInt offset))] ++
        opt_param "resource_type" resourceType)) true).

Definition QUERY_LOG_PAGE_SIZE : Z := 50.

Record query_log_params := QueryLogParams {
  ql_offset : Z;
  ql_decision : option string;
  ql_group_id : option string;
  ql_qname : option string;
  ql_client_ip : option string;
  ql_qtype : option string;
  ql_matched_category : option string;
  ql_hours : option Z;
}.

(** [...(hours ? { hours } : {})]: zero is falsy. *)
Definition opt_num_param (name : string) (o : option Z) : params :=
  match o with
  | Some n => if (n =? 0)%Z then [] else [(name, Some (JInt n))]
  | None => []
  end.

Definition useQueryLog (p : query_log_params) : query :=
  every 30000 (Query [KStr "query-log"; KNum (ql_offset p); kopt (ql_decision p); kopt (ql_group_id p);
         kopt (ql_qname p); kopt (ql_client_ip p); kopt (ql_qtype p);
         kopt (ql_matched_category p); knum (ql_hours p)]
    (RawGet [Lit "/api/v1/query-log"]
       ([("limit", Some (JInt QUERY_LOG_PAGE_SIZE)); ("offset", Some (JInt (ql_offset p)))] ++
        opt_param "decision" (ql_decision p) ++ opt_param "group_id" (ql_group_id p) ++
        opt_param "qname" (ql_qname p) ++ opt_param "client_ip" (ql_client_ip p) ++
        opt_param "qtype" (ql_qtype p) ++ opt_param "matched_category" (ql_matched_category p) ++
        opt_num_param "hours" (ql_hours p))) true).

(** ** SIEM sinks *)

Definition useSiemSyslogSinks : query :=
  every 15000 (Query [KStr "siem-syslog"] (Typed GET "/api/v1/siem/syslog" [] [] None unwrap) true).

Definition useCreateSiemSyslogSink : mutation json := Mutation
  (λ body, Typed POST "/api/v1/siem/syslog" [] [] (Some body) unwrap)
  (λ _, [Invalidate [KStr "siem-syslog"]]).

Definition useUpdateSiemSyslogSink : mutation (string * json) := Mutation
  (λ '(syslogId, body), Typed PATCH "/api/v1/siem/syslog/{syslog_id}" [("syslog_id", Some syslogId)] [] (Some body) unwrap)
  (λ _, [Invalidate [KStr "siem-syslog"]]).

Definition useDeleteSiemSyslogSink : mutation string := Mutation
  (λ syslogId, Typed DELETE "/api/v1/siem/syslog/{syslog_id}" [("syslog_id", Some syslogId)] [] None unwrap)
  (λ _, [Invalidate [KStr "siem-syslog"]]).

Definition useTestSiemSyslogSink : mutation string := Mutation
  (λ syslogId, Typed POST "/api/v1/siem/syslog/{syslog_id}/test" [("syslog_id", Some syslogId)] [] None unwrap)
  (λ _, []).

(** ** Client registry *)

Definition useClients (tenantId : option string) (unregisteredOnly : bool) : query :=
  every 15000 (Query [KStr "clients"; kopt tenantId; KBool unregisteredOnly]
    (Typed GET "/api/v1/tenants/{tenant_id}/clients" [("tenant_id", tenantId)]
       [("unregistered_only", Some (JBool unregisteredOnly))] None unwrap)
    (truthy_opt tenantId)).

Definition useRegisterClient (tenantId : option string) : mutation (string * json) := Mutation
  (λ '(ip, body), Typed PUT "/api/v1/tenants/{tenant_id}/clients/{ip}"
                    [("tenant_id", tenantId); ("ip", Some ip)] [] (Some body) unwrap)
  (λ _, [Invalidate [KStr "clients"; kopt tenantId]]).

Definition useDeleteClient (tenantId : option string) : mutation string := Mutation
  (λ ip, Typed DELETE "/api/v1/tenants/{tenant_id}/clients/{ip}"
           [("tenant_id", tenantId); ("ip", Some ip)] [] None unwrap)
  (λ _, [Invalidate [KStr "clients"; kopt tenantId]]).

(** ** DNS zones and records *)

Definition useZones : query :=
  Query [KStr "dns-zones"] (Typed GET "/api/v1/dns-zones" [] [] None unwrap) true.

Definition useZone (zoneId : string) : query :=
  Query [KStr "dns-zones"; KStr zoneId]
    (Typed GET "/api/v1/dns-zones/{zone_id}" [("zone_id", Some zoneId)] [] None unwrap)
    (truthy zoneId).

Definition useCreateZone : mutation json := Mutation
  (λ body, Typed POST "/api/v1/dns-zones" [] [] (Some body) unwrap)
  (λ _, [Invalidate [KStr "dns-zones"]]).

Definition useUpdateZone : mutation (string * json) := Mutation
  (λ '(zoneId, body), Typed PATCH "/api/v1/dns-zones/{zone_id}" [("zone_id", Some zoneId)] [] (Some body) unwrap)
  (λ '(zoneId, _), [Invalidate [KStr "dns-zones"]; Invalidate [KStr "dns-zones"; KStr zoneId]]).

Definition useDeleteZone : mutation string := Mutation
  (λ zoneId, Typed DELETE "/api/v1/dns-zones/{zone_id}" [("zone_id", Some zoneId)] [] None unwrap)
  (λ zoneId, [Invalidate [KStr "dns-zones"]; Remove [KStr "dns-records"; KStr zoneId]]).

Definition useRecords (zoneId : string) : query :=
  Query [KStr "dns-records"; KStr zoneId]
    (Typed GET "/api/v1/dns-zones/{zone_id}/records" [("zone_id", Some zoneId)] [] None unwrap)
    (truthy zoneId).

Definition useCreateRecord (zoneId : string) : mutation json := Mutation
  (λ body, Typed POST "/api/v1/dns-zones/{zone_id}/records" [("zone_id", Some zoneId)] [] (Some body) unwrap)
  (λ _, [Invalidate [KStr "dns-records"; KStr zoneId]; Invalidate [KStr "dns-zones"];
         Invalidate [KStr "dns-zones"; KStr zoneId]]).

Definition useUpdateRecord (zoneId : string) : mutation (string * json) := Mutation
  (λ '(recordId, body), Typed PATCH "/api/v1/dns-zones/{zone_id}/records/{record_id}"
                          [("zone_id", Some zoneId); ("record_id", Some recordId)] [] (Some body) unwrap)
  (λ _, [Invalidate [KStr "dns-records"; KStr zoneId]]).

Definition useDeleteRecord (zoneId : string) : mutation string := Mutation
  (λ recordId, Typed DELETE "/api/v1/dns-zones/{zone_id}/records/{record_id}"
                 [("zone_id", Some zoneId); ("record_id", Some recordId)] [] None unwrap)
  (λ _, [Invalidate [KStr "dns-records"; KStr zoneId]; Invalidate [KStr "dns-zones"];
         Invalidate [KStr "dns-zones"; KStr zoneId]]).

(** ** Upstream resolvers, pools, routes and policies *)

Definition useUpstreamResolvers : query :=
  Query [KStr "upstream-resolvers"] (RawGet [Lit "/api/v1/upstream/resolvers"] []) true.

Definition useCreateUpstreamResolver : mutation json := Mutation
  (λ body, RawPost [Lit "/api/v1/upstream/resolvers"] body)
  (λ _, [Invalidate [KStr "upstream-resolvers"]]).

Definition useUpdateUpstreamResolver : mutation (string * json) := Mutation
  (λ '(id, body), RawPatch [Lit "/api/v1/upstream/resolvers/"; Sub (Some id)] body)
  (λ _, [Invalidate [KStr "upstream-resolvers"]]).

Definition useDeleteUpstreamResolver : mutation string := Mutation
  (λ id, RawDelete [Lit "/api/v1/upstream/resolvers/"; Sub (Some id)])
  (λ _, [Invalidate [KStr "upstream-resolvers"]]).

Definition useProbeUpstreamResolver : mutation string := Mutation
  (λ id, RawPost [Lit "/api/v1/upstream/resolvers/"; Sub (Some id); Lit "/probe"] (JObj []))
  (λ _, []).

Definition useUpstreamPools : query :=
  Query [KStr "upstream-pools"] (RawGet [Lit "/api/v1/upstream/pools"] []) true.

Definition useCreateUpstreamPool : mutation json := Mutation
  (λ body, RawPost [Lit "/api/v1/upstream/pools"] body)
  (λ _, [Invalidate [KStr "upstream-pools"]]).

Definition useUpdateUpstreamPool : mutation (string * json) := Mutation
  (λ '(id, body), RawPatch [Lit "/api/v1/upstream/pools/"; Sub (Some id)] body)
  (λ _, [Invalidate [KStr "upstream-pools"]]).

Definition useDeleteUpstreamPool : mutation string := Mutation
  (λ id, RawDelete [Lit "/api/v1/upstream/pools/"; Sub (Some id)])
  (λ _, [Invalidate [KStr "upstream-pools"]]).

Definition useUpsertPoolMember : mutation (string * string * Z * Z) := Mutation
  (λ '(poolId, resolverId, weight, priority),
     RawPut [Lit "/api/v1/upstream/pools/"; Sub (Some poolId); Lit "/members/"; Sub (Some resolverId)]
       (JObj [("resolver_id", JStr resolverId); ("weight", JInt weight); ("priority", JInt priority)]))
  (λ _, [Invalidate [KStr "upstream-pools"]]).

Definition useRemovePoolMember : mutation (string * string) := Mutation
  (λ '(poolId, resolverId),
     RawDelete [Lit "/api/v1/upstream/pools/"; Sub (Some poolId); Lit "/members/"; Sub (Some resolverId)])
  (λ _, [Invalidate [KStr "upstream-pools"]]).

Definition useUpstreamRoutes (tenantId : option string) : query :=
  Query [KStr "upstream-routes"; kopt tenantId]
    (RawGet [Lit "/api/v1/tenants/"; Sub tenantId; Lit "/upstream/routes"] []) (truthy_opt tenantId).

Definition useCreateUpstreamRoute (tenantId : option string) : mutation json := Mutation
  (λ body, RawPost [Lit "/api/v1/tenants/"; Sub tenantId; Lit "/upstream/routes"] body)
  (λ _, [Invalidate [KStr "upstream-routes"; kopt tenantId]]).

Definition useUpdateUpstreamRoute (tenantId : option string) : mutation (string * json) := Mutation
  (λ '(id, body), RawPatch [Lit "/api/v1/tenants/"; Sub tenantId; Lit "/upstream/routes/"; Sub (Some id)] body)
  (λ _, [Invalidate [KStr "upstream-routes"; kopt tenantId]]).

Definition useDeleteUpstreamRoute (tenantId : option string) : mutation string := Mutation
  (λ id, RawDelete [Lit "/api/v1/tenants/"; Sub tenantId; Lit "/upstream/routes/"; Sub (Some id)])
  (λ _, [Invalidate [KStr "upstream-routes"; kopt tenantId]]).

Definition useUpstreamTenantPolicy (tenantId : option string) : query :=
  Query [KStr "upstream-policy"; kopt tenantId]
    (RawGet [Lit "/api/v1/tenants/"; Sub tenantId; Lit "/upstream/policy"] []) (truthy_opt tenantId).

Definition useUpsertUpstreamTenantPolicy (tenantId : option string) : mutation json := Mutation
  (λ body, RawPut [Lit "/api/v1/tenants/"; Sub tenantId; Lit "/upstream/policy"] body)
  (λ _, [Invalidate [KStr "upstream-policy"; kopt tenantId]]).

(** ** DHCP *)

Definition useDhcpScopes (tenantId : option string) : query :=
  Query [KStr "dhcp-scopes"; kopt tenantId]
    (RawGet [Lit "/api/v1/dhcp/scopes"] (opt_param "tenant_id" tenantId)) true.

Definition useCreateDhcpScope : mutation json := Mutation
  (λ body, RawPost [Lit "/api/v1/dhcp/scopes"] body)
  (λ _, [Invalidate [KStr "dhcp-scopes"]]).

Definition useUpdateDhcpScope : mutation (string * json) := Mutation
  (λ '(id, body), RawPatch [Lit "/api/v1/dhcp/scopes/"; Sub (Some id)] body)
  (λ _, [Invalidate [KStr "dhcp-scopes"]]).

Definition useDeleteDhcpScope : mutation string := Mutation
  (λ id, RawDelete [Lit "/api/v1/dhcp/scopes/"; Sub (Some id)])
  (λ _, [Invalidate [KStr "dhcp-scopes"]]).

Definition useDhcpReservations (scopeId : option string) : query :=
  Query [KStr "dhcp-reservations"; kopt scopeId]
    (RawGet [Lit "/api/v1/dhcp/scopes/"; Sub scopeId; Lit "/reservations"] []) (truthy_opt scopeId).

Definition useCreateDhcpReservation (scopeId : option string) : mutation json := Mutation
  (λ body, RawPost [Lit "/api/v1/dhcp/scopes/"; Sub scopeId; Lit "/reservations"] body)
  (λ _, [Invalidate [KStr "dhcp-reservations"; kopt scopeId]]).

Definition useUpdateDhcpReservation (scopeId : option string) : mutation (string * json) := Mutation
  (λ '(id, body), RawPatch [Lit "/api/v1/dhcp/scopes/"; Sub scopeId; Lit "/reservations/"; Sub (Some id)] body)
  (λ _, [Invalidate [KStr "dhcp-reservations"; kopt scopeId]]).

Definition useDeleteDhcpReservation (scopeId : option string) : mutation string := Mutation
  (λ id, RawDelete [Lit "/api/v1/dhcp/scopes/"; Sub scopeId; Lit "/reservations/"; Sub (Some id)])
  (λ _, [Invalidate [KStr "dhcp-reservations"; kopt scopeId]]).

Definition useDhcpLeases (scopeId : option string) : query :=
  every 30000 (Query [KStr "dhcp-leases"; kopt scopeId]
    (RawGet [Lit "/api/v1/dhcp/leases"] (opt_param "scope_id" scopeId)) true).

Definition useDhcpStats : query :=
  every 60000 (Query [KStr "dhcp-stats"] (RawGet [Lit "/api/v1/dhcp/stats"] []) true).

Definition useDhcpInterfaces : query :=
  stale_after (Ms 60000) (Query [KStr "dhcp-interfaces"] (RawGet [Lit "/api/v1/dhcp/interfaces"] []) true).

Definition useDhcpHealth : query :=
  every 15000 (Query [KStr "dhcp-health"] (RawGet [Lit "/api/v1/dhcp/health"] []) true).

Definition useDhcpScopes6 (tenantId : option string) : query :=
  Query [KStr "dhcp6-scopes"; kopt tenantId]
    (RawGet [Lit "/api/v1/dhcp6/scopes"] (opt_param "tenant_id" tenantId)) true.

Definition useCreateDhcpScope6 : mutation json := Mutation
  (λ body, RawPost [Lit "/api/v1/dhcp6/scopes"] body)
  (λ _, [Invalidate [KStr "dhcp6-scopes"]]).

Definition useUpdateDhcpScope6 : mutation (string * json) := Mutation
  (λ '(id, body), RawPatch [Lit "/api/v1/dhcp6/scopes/"; Sub (Some id)] body)
  (λ _, [Invalidate [KStr "dhcp6-scopes"]]).

Definition useDeleteDhcpScope6 : mutation string := Mutation
  (λ id, RawDelete [Lit "/api/v1/dhcp6/scopes/"; Sub (Some id)])
  (λ _, [Invalidate [KStr "dhcp6-scopes"]]).

Definition useDhcpReservations6 (scopeId : option string) : query :=
  Query [KStr "dhcp6-reservations"; kopt scopeId]
    (RawGet [Lit "/api/v1/dhcp6/scopes/"; Sub scopeId; Lit "/reservations"] []) (truthy_opt scopeId).

Definition useCreateDhcpReservation6 (scopeId : option string) : mutation json := Mutation
  (λ body, RawPost [Lit "/api/v1/dhcp6/scopes/"; Sub scopeId; Lit "/reservations"] body)
  (λ _, [Invalidate [KStr "dhcp6-reservations"; kopt scopeId]]).

Definition useUpdateDhcpReservation6 (scopeId : option string) : mutation (string * json) := Mutation
  (λ '(id, body), RawPatch [Lit "/api/v1/dhcp6/scopes/"; Sub scopeId; Lit "/reservations/"; Sub (Some id)] body)
  (λ _, [Invalidate [KStr "dhcp6-reservations"; kopt scopeId]]).

Definition useDeleteDhcpReservation6 (scopeId : option string) : mutation string := Mutation
  (λ id, RawDelete [Lit "/api/v1/dhcp6/scopes/"; Sub scopeId; Lit "/reservations/"; Sub (Some id)])
  (λ _, [Invalidate [KStr "dhcp6-reservations"; kopt scopeId]]).

Definition useDhcpLeases6 (scopeId : option string) : query :=
  every 30000 (Query [KStr "dhcp6-leases"; kopt scopeId]
    (RawGet [Lit "/api/v1/dhcp6/leases"] (opt_param "scope_id" scopeId)) true).

(** ** What a page reads of a query *)

(** [{ data, isLoading, error }] of a query; the error as it is shown. *)
Record result (A : Type) := Result { q_data : option A; q_loading : bool; q_error : option string }.
Arguments Result {A}.
Arguments q_data {A}.
Arguments q_loading {A}.
Arguments q_error {A}.

(** Before the first answer. *)
Definition pending {A} : result A := Result None true None.

(** ** The dashboard's queries *)

(** [group_id: groupScope ?? undefined] *)
Definition group_param (groupScope : option string) : string * option json :=
  ("group_id", JStr <$> groupScope).

(** The queries of [DashboardPage] for a time window and a group scope, in the
    order the component declares them. *)
Definition dashboard_queries (hours : Z) (groupScope : option string) : list query :=
  let h := ("hours", Some (JInt hours)) in
  let g := group_param groupScope in
  [ every 30000 (Query [KStr "dashboard-summary"; KNum hours; knul groupScope]
      (RawGet [Lit "/api/v1/analytics/summary"] [h; g]) true);
    every 30000 (Query [KStr "dashboard-timeseries"; KNum hours; knul groupScope]
      (RawGet [Lit "/api/v1/analytics/timeseries"] [h; g]) true);
    every 30000 (Query [KStr "dashboard-by-group"; KNum hours]
      (RawGet [Lit "/api/v1/analytics/by-group"] [h]) true);
    every 30000 (Query [KStr "dashboard-top-clients"; KNum hours; knul groupScope]
      (RawGet [Lit "/api/v1/analytics/top-clients"] [h; ("limit", Some (JInt 10)); g]) true);
    every 30000 (Query [KStr "dashboard-categories"; KNum hours; knul groupScope]
      (RawGet [Lit "/api/v1/analytics/top-categories"] [h; g]) true);
    every 10000 (Query [KStr "dashboard-recent-blocks"; KNum hours; knul groupScope]
      (RawGet [Lit "/api/v1/analytics/recent-events"]
         [("decision", Some (JStr "block")); ("limit", Some (JInt 25)); h; g]) true);
    every 30000 (Query [KStr "dashboard-latency"; KNum hours; knul groupScope]
      (RawGet [Lit "/api/v1/analytics/latency"] [h; g]) true);
    every 30000 (Query [KStr "dashboard-query-mix"; KNum hours; knul groupScope]
      (RawGet [Lit "/api/v1/analytics/query-mix"] [h; g]) true);
    every 30000 (Query [KStr "dashboard-summary-prev"; KNum hours; knul groupScope]
      (RawGet [Lit "/api/v1/analytics/summary"] [h; ("offset_hours", Some (JInt hours)); g]) true) ].
