(* ===== verification/Cache.v ===== *)
(** * The hooks and the query cache

    How the hooks of [api/hooks.ts] run: a call goes through the typed client or
    through [rawRequest], and a mutation that succeeded marks cached queries as
    invalid or removes them.  The theorems are about all hooks at once: every
    request they make is one the API describes, a key stands for one request,
    a disabled query is never sent with a missing id, and a mutation refreshes
    what it wrote and nothing of another tenant. *)

From S2P Require Import Prelude JsText Json Web Client Schema Queries.

(** ** Running a call *)

Section run.
(** The typed client: openapi-fetch with [authMiddleware] in place. *)
Variable send : method → string → list (string * option string) → params →
                option json → exc api_result.
Variable newURL : string → string → string.
Variable withQuery : string → list (string * string) → string.
Variable b : browser.
Variable vite_api_url : option string.
Variable fetch : request → exc response.

End run.

(** ** The query cache *)

(** react-query's query filters: a filter key selects the cached queries whose
    key starts with it.  The documentation says nothing of filters that hold
    [undefined], so the law leaves them open. *)
Definition defined (k : key) : bool := forallb (λ e, bool_decide (e ≠ KUndef)) k.

Class QueryFilter := {
  matches : key → key → bool;
  matches_prefix f k : defined f = true → matches f k = true ↔ f `prefix_of` k;
}.

(** The prefix test itself. *)
Lemma prefix_test (f k : key) :
  defined f = true → bool_decide (f `prefix_of` k) = true ↔ f `prefix_of` k.
Proof. intros _. apply bool_decide_eq_true. Qed.

#[export] Instance prefix_filter : QueryFilter := {|
  matches f k := bool_decide (f `prefix_of` k);
  matches_prefix := prefix_test;
|}.

Record entry := Entry { e_key : key; e_data : option json; e_invalid : bool }.

Section cache.
Context {F : QueryFilter}.

Definition apply_effect (c : list entry) (e : effect) : list entry :=
  match e with
  | Invalidate f =>
      (λ x, Entry (e_key x) (e_data x) (e_invalid x || matches f (e_key x))) <$> c
  | Remove f => filter (λ x, matches f (e_key x) = false) c
  end.

(** A mutation with the effects [es] has run with the given outcome:
    [onSuccess] runs when it did not throw. *)
Definition settle (es : list effect) (outcome : exc (option json)) (c : list entry) : list entry :=
  match outcome with
  | Ok _ => foldl apply_effect c es
  | Throw _ => c
  end.

Lemma apply_effect_invalid e c x :
  x ∈ apply_effect c e → e_invalid x = false →
  (∃ y, y ∈ c ∧ e_key y = e_key x ∧ e_invalid y = false) ∧
  ∀ f, e = Invalidate f → matches f (e_key x) = false.
Proof.
  destruct e as [f|f]; cbn.
  - intros (y & -> & Hy)%list_elem_of_fmap Hi. cbn in *. bools. eauto 7 with congruence.
  - intros [? Hx]%list_elem_of_filter Hi. split; [by eauto|done].
Qed.

(** An entry that is still valid after the effects matches none of the
    invalidated filters. *)
Lemma foldl_effect_invalid es c x :
  x ∈ foldl apply_effect c es → e_invalid x = false →
  ∀ f, Invalidate f ∈ es → matches f (e_key x) = false.
Proof.
  revert c x. induction es as [|e es IH] using rev_ind; intros c x Hx Hi f Hf;
    [by apply not_elem_of_nil in Hf|].
  rewrite foldl_app in Hx. cbn in Hx.
  destruct (apply_effect_invalid _ _ _ Hx Hi) as [(y & Hy & Hk & Hyi) Hm].
  apply elem_of_app in Hf as [Hf|Hf%list_elem_of_singleton]; [|by eauto].
  rewrite <- Hk. by eapply IH.
Qed.
End cache.

(** ** All hooks *)

(** Arguments for the query hooks. *)
Record args := Args {
  tenant : option string;
  group : option string;
  zone : string;
  scope : option string;
  hours : Z;
  offset : Z;
  resource : option string;
  unregistered : bool;
  qlog : query_log_params;
  dash_scope : option string;
}.

Definition all_queries (a : args) : list query :=
  [ useUsers; useTenants; useGroups (tenant a); usePolicy (group a);
    useBlockPageTemplate (group a); useTopDomains (group a); useCategories; useFeeds;
    useAnalyticsSummary (hours a); useAnalyticsTimeseries (hours a);
    useAnalyticsByGroup (hours a); useAuditLog (resource a) (offset a); useQueryLog (qlog a);
    useSiemSyslogSinks; useClients (tenant a) (unregistered a); useZones; useZone (zone a);
    useRecords (zone a); useUpstreamResolvers; useUpstreamPools;
    useUpstreamRoutes (tenant a); useUpstreamTenantPolicy (tenant a);
    useDhcpScopes (tenant a); useDhcpReservations (scope a); useDhcpLeases (scope a);
    useDhcpStats; useDhcpInterfaces; useDhcpHealth;
    useDhcpScopes6 (tenant a); useDhcpReservations6 (scope a); useDhcpLeases6 (scope a) ] ++
  dashboard_queries (hours a) (dash_scope a).

(** A mutation hook applied: its call and what it does to the cache. *)
Definition inst {A} (m : mutation A) (x : A) : call * list effect := (mutationFn m x, onSuccess m x).

(** All mutation hooks, for the ids, numbers and body they are given. *)
Definition all_mutations (a : args) (id id' : string) (body : json) (w p : Z) :
    list (call * list effect) :=
  [ inst useCreateUser body; inst useUpdateUser (id, body); inst useDeleteUser id;
    inst useChangePassword body; inst useCreateTenant body; inst useDeleteTenant id;
    inst (useCreateGroup (tenant a)) body; inst (useSetGroupSubnet (tenant a)) (id, body);
    inst (useRenameGroup (tenant a)) (id, body); inst (useDeleteGroup (tenant a)) id;
    inst (useUpsertPolicy (group a)) body; inst useCompileBundle id;
    inst (useUpsertBlockPageTemplate (group a)) body; inst (useTestPolicy (group a)) id;
    inst useCreateFeed body; inst useUpdateFeed (id, body); inst useDeleteFeed id;
    inst useIngestFeedNow id; inst useCreateSiemSyslogSink body;
    inst useUpdateSiemSyslogSink (id, body); inst useDeleteSiemSyslogSink id;
    inst useTestSiemSyslogSink id; inst (useRegisterClient (tenant a)) (id, body);
    inst (useDeleteClient (tenant a)) id; inst useCreateZone body;
    inst useUpdateZone (id, body); inst useDeleteZone id;
    inst (useCreateRecord (zone a)) body; inst (useUpdateRecord (zone a)) (id, body);
    inst (useDeleteRecord (zone a)) id;
    inst useCreateUpstreamResolver body; inst useUpdateUpstreamResolver (id, body);
    inst useDeleteUpstreamResolver id; inst useProbeUpstreamResolver id;
    inst useCreateUpstreamPool body; inst useUpdateUpstreamPool (id, body);
    inst useDeleteUpstreamPool id; inst useUpsertPoolMember (id, id', w, p);
    inst useRemovePoolMember (id, id'); inst (useCreateUpstreamRoute (tenant a)) body;
    inst (useUpdateUpstreamRoute (tenant a)) (id, body);
    inst (useDeleteUpstreamRoute (tenant a)) id;
    inst (useUpsertUpstreamTenantPolicy (tenant a)) body;
    inst useCreateDhcpScope body; inst useUpdateDhcpScope (id, body); inst useDeleteDhcpScope id;
    inst (useCreateDhcpReservation (scope a)) body;
    inst (useUpdateDhcpReservation (scope a)) (id, body);
    inst (useDeleteDhcpReservation (scope a)) id;
    inst useCreateDhcpScope6 body; inst useUpdateDhcpScope6 (id, body); inst useDeleteDhcpScope6 id;
    inst (useCreateDhcpReservation6 (scope a)) body;
    inst (useUpdateDhcpReservation6 (scope a)) (id, body);
    inst (useDeleteDhcpReservation6 (scope a)) id ].

(** ** Calls and the schema *)

Definition c_method (c : call) : method :=
  match c with
  | Typed m _ _ _ _ _ => m
  | RawGet _ _ => GET | RawPost _ _ => POST | RawPatch _ _ => PATCH
  | RawPut _ _ => PUT | RawDelete _ => DELETE
  end.

Definition c_query (c : call) : params :=
  match c with Typed _ _ _ q _ _ => q | RawGet _ q => q | _ => [] end.

Definition c_body (c : call) : option json :=
  match c with
  | Typed _ _ _ _ b _ => b
  | RawPost _ b | RawPatch _ b | RawPut _ b => Some b
  | _ => None
  end.

(** A path template with its holes filled in: [lit] is the text read since the
    last hole. *)
Fixpoint fill (pp : list (string * option string)) (lit : string) (hole : option string)
    (s : string) : list piece :=
  match s with
  | "" => if decide (lit = "") then [] else [Lit lit]
  | String c r =>
      match hole with
      | None => if Ascii.eqb c "{" then Lit lit :: fill pp "" (Some "") r
                else fill pp (lit +:+ String c "") None r
      | Some n => if Ascii.eqb c "}"
                  then Sub (mjoin (snd <$> List.find (λ kv, bool_decide (kv.1 = n)) pp)) :: fill pp "" None r
                  else fill pp lit (Some (n +:+ String c "")) r
      end
  end.

(** The path of a call, as texts and substituted values. *)
Definition c_path (c : call) : list piece :=
  match c with
  | Typed _ path pp _ _ _ => fill pp "" None path
  | RawGet ps _ | RawPost ps _ | RawPatch ps _ | RawPut ps _ | RawDelete ps => ps
  end.

(** Every substituted value is there and not empty. *)
Definition path_defined (ps : list piece) : bool :=
  forallb (λ p, match p with Lit _ => true | Sub o => truthy_opt o end) ps.

(** The shape of a path: its texts, with a mark for each value. *)
Definition shape (ps : list piece) : list (option string) :=
  (λ p, match p with Lit s => Some s | Sub _ => None end) <$> ps.

(** The operation a request with this method and path shape reaches. *)
Definition routed (m : method) (sh : list (option string)) : option operation :=
  p ← List.find (λ p, bool_decide (shape (fill [] "" None (p_path p)) = sh)) paths;
  mo ← List.find (λ mo, bool_decide (mo.1 = m)) (p_ops p);
  find_op mo.2.

(** The query parameters named are declared. *)
Definition declared (fs : list field) (q : params) : bool :=
  forallb (λ kv, existsb (λ f, bool_decide (f_name f = kv.1)) fs) q.

(** The call is one the API describes: an operation of this method and path; the
    typed client is given exactly the path parameters the operation declares;
    its query parameters are declared and no required one is missing; and it has
    a body when the operation takes one. *)
Definition call_described (c : call) : Prop :=
  ∃ o, routed (c_method c) (shape (c_path c)) = Some o ∧
    match c with
    | Typed m path pp _ _ _ => op_at m path = Some o ∧ pp.*1 = o_path o
    | _ => True
    end ∧
    declared (o_query o) (c_query c) = true ∧
    Forall (λ f, f_optional f = false → f_name f ∈ (c_query c).*1) (o_query o) ∧
    (is_Some (o_body o) → is_Some (c_body c)).

Lemma declared_app fs q q' : declared fs (q ++ q') = declared fs q && declared fs q'.
Proof. apply forallb_app. Qed.

Lemma declared_opt fs n o :
  existsb (λ f, bool_decide (f_name f = n)) fs = true → declared fs (opt_param n o) = true.
Proof. intros H. unfold opt_param. repeat case_match; cbn; by rewrite ?H. Qed.

Lemma declared_opt_num fs n o :
  existsb (λ f, bool_decide (f_name f = n)) fs = true → declared fs (opt_num_param n o) = true.
Proof. intros H. unfold opt_num_param. repeat case_match; cbn; by rewrite ?H. Qed.

(** Optional parameters are never required. *)
Lemma all_optional (fs : list field) (names : list string) :
  forallb f_optional fs = true →
  Forall (λ f, f_optional f = false → f_name f ∈ names) fs.
Proof.
  induction fs as [|f fs IH]; cbn; intros; constructor; bools; [congruence|auto].
Qed.

Ltac described :=
  eexists; split_and!;
  [ vm_compute; reflexivity
  | try (split; vm_compute; reflexivity); try exact I
  | cbn -[opt_param opt_num_param declared app]; rewrite ?declared_app;
    rewrite ?declared_opt, ?declared_opt_num by reflexivity; reflexivity
  | apply all_optional; reflexivity
  | cbn; intros Hb; (done || by inversion Hb) ].

(** C40: every request the hooks make, for any arguments, is one the API
    describes, and so are those of the dashboard; in particular every endpoint
    reached through the untyped client is part of the schema. *)
Theorem calls_described (a : args) (id id' : string) (body : json) (w p : Z) :
  Forall call_described ((queryFn <$> all_queries a) ++ ((all_mutations a id id' body w p).*1)).
Proof.
  apply Forall_app. split; repeat (apply Forall_cons; split); try apply Forall_nil.
  all: first [exact I | described].
Qed.

(** ** Keys *)

#[export] Instance kopt_inj : Inj (=) (=) kopt.
Proof. intros []; intros []; cbn; congruence. Qed.
#[export] Instance knul_inj : Inj (=) (=) knul.
Proof. intros []; intros []; cbn; congruence. Qed.
#[export] Instance knum_inj : Inj (=) (=) knum.
Proof. intros []; intros []; cbn; congruence. Qed.

(** The name and length of a key. *)
Definition key_kind (q : query) : option kelem * nat := (head (queryKey q), length (queryKey q)).

(** No two hooks have keys of one kind, and the kind of a hook's key does not
    depend on its arguments. *)
Lemma key_kinds_const a a' : key_kind <$> all_queries a = key_kind <$> all_queries a'.
Proof. reflexivity. Qed.

Lemma key_kinds_NoDup a : NoDup (key_kind <$> all_queries a).
Proof. apply (bool_decide_eq_true_1 _). vm_compute. reflexivity. Qed.

Lemma same_key_same_hook a a' q q' :
  q ∈ all_queries a → q' ∈ all_queries a' → queryKey q = queryKey q' →
  ∃ i, all_queries a !! i = Some q ∧ all_queries a' !! i = Some q'.
Proof.
  intros [i Hi]%list_elem_of_lookup [j Hj]%list_elem_of_lookup Hk.
  assert (i = j) as <-; [|by eauto].
  apply (NoDup_lookup (key_kind <$> all_queries a) i j (key_kind q)).
  - apply key_kinds_NoDup.
  - by rewrite list_lookup_fmap, Hi.
  - rewrite (key_kinds_const a a'), list_lookup_fmap, Hj. cbn. unfold key_kind. by rewrite Hk.
Qed.

(** The arguments in equal keys are equal. *)
Ltac key_args :=
  repeat match goal with
  | H : _ :: _ = _ :: _ |- _ => injection H as ?
  | H : kopt _ = kopt _ |- _ => apply (inj kopt) in H
  | H : knul _ = knul _ |- _ => apply (inj knul) in H
  | H : knum _ = knum _ |- _ => apply (inj knum) in H
  | H : KNum _ = KNum _ |- _ => injection H as H
  | H : KBool _ = KBool _ |- _ => injection H as H
  | H : KStr _ = KStr _ |- _ => injection H as H
  end.

(** C5: a query key stands for one request.  Whatever two queries the hooks or
    the dashboard declare, with whatever arguments, equal keys mean equal calls:
    no component can be given cached data that answers another request. *)
Theorem key_determines_call (a a' : args) (q q' : query) :
  q ∈ all_queries a → q' ∈ all_queries a' → queryKey q = queryKey q' →
  queryFn q = queryFn q'.
Proof.
  intros Hq Hq' Hk. destruct (same_key_same_hook _ _ _ _ Hq Hq' Hk) as (i & Hi & Hj).
  clear Hq Hq'.
  do 40 (destruct i as [|i];
    [injection Hi as <-; injection Hj as <-; cbn in Hk; key_args; cbn; congruence|]).
  discriminate.
Qed.

(** Arguments for examples. *)
Definition args0 : args :=
  Args (Some "t1") (Some "g1") "z1" (Some "s1") 24 0 None false
    (QueryLogParams 0 (Some "block") None (Some "ads.example") None None None (Some 24%Z)) None.

Lemma key_determines_call_witness :
  queryFn (useGroups (Some "t1")) = queryFn (useGroups (tenant args0)).
Proof.
  apply (key_determines_call args0 args0); [| |reflexivity];
    apply list_elem_of_lookup; by exists 2.
Defined.

(** ** Enabled queries *)

(** C23: react-query sends an enabled query only, and then no id in its path is
    missing or empty: no request goes to [/tenants/undefined/...] or
    [/dns-zones//records], whatever the arguments of the hooks. *)
Theorem enabled_path_defined (a : args) (q : query) :
  q ∈ all_queries a → enabled q = true → path_defined (c_path (queryFn q)) = true.
Proof.
  intros [i Hi]%list_elem_of_lookup He.
  do 40 (destruct i as [|i];
    [injection Hi as <-; first [reflexivity | lazy -[truthy andb] in He |- *; by rewrite He]|]).
  discriminate.
Qed.

Lemma enabled_path_defined_witness :
  path_defined (c_path (queryFn (useRecords (zone args0)))) = true.
Proof.
  apply (enabled_path_defined args0); [|reflexivity].
  apply list_elem_of_lookup; by exists 17.
Defined.

(** ** What a mutation refreshes *)

(** The collection a path of the form [collection/id] is in. *)
Definition parent (ps : list piece) : option (list piece) :=
  match rev ps with
  | Sub _ :: Lit s :: r => Some (rev r ++ [Lit (drop_last 1 s)])
  | _ => None
  end.

(** A write to [m] changes what [q] reads: the same resource, or the collection
    the resource is in. *)
Definition affects (m q : call) : bool :=
  bool_decide (c_path q = c_path m) || bool_decide (Some (c_path q) = parent (c_path m)).

(** Mutations that change a collection their path does not lie in: a group
    belongs to the list of its tenant, a feed's ingest and a pool's members to
    the feed and pool lists, a record to the count its zone shows. *)
Definition related (a : args) (id id' : string) (body : json) (w p : Z) :
    list (list effect * query) :=
  [ ((inst (useSetGroupSubnet (tenant a)) (id, body)).2, useGroups (tenant a));
    ((inst (useRenameGroup (tenant a)) (id, body)).2, useGroups (tenant a));
    ((inst (useDeleteGroup (tenant a)) id).2, useGroups (tenant a));
    ((inst useIngestFeedNow id).2, useFeeds);
    ((inst useUpsertPoolMember (id, id', w, p)).2, useUpstreamPools);
    ((inst useRemovePoolMember (id, id')).2, useUpstreamPools);
    ((inst (useCreateRecord (zone a)) body).2, useZones);
    ((inst (useCreateRecord (zone a)) body).2, useZone (zone a));
    ((inst (useDeleteRecord (zone a)) id).2, useZones);
    ((inst (useDeleteRecord (zone a)) id).2, useZone (zone a)) ].

(** Some effect invalidates the query by a filter without [undefined]. *)
Definition refreshes (es : list effect) (q : query) : bool :=
  existsb (λ e, match e with
                | Invalidate f => defined f && bool_decide (f `prefix_of` queryKey q)
                | Remove _ => false
                end) es.

Lemma refreshes_invalid `{QueryFilter} es q c x :
  refreshes es q = true → x ∈ foldl apply_effect c es → e_key x = queryKey q → e_invalid x = true.
Proof.
  intros Hr Hx Hk. destruct (e_invalid x) eqn:Hi; [done|]. exfalso.
  apply existsb_exists in Hr as ([f|f] & Hf%list_elem_of_In & Hm); [|done]. bools.
  pose proof (foldl_effect_invalid _ _ _ Hx Hi f Hf) as Hn.
  rewrite Hk in Hn. apply matches_prefix in H1; [congruence|done].
Qed.

Lemma refreshes_intro es q f :
  Invalidate f ∈ es → defined f = true → f `prefix_of` queryKey q → refreshes es q = true.
Proof.
  intros Hf Hd Hp. apply existsb_exists. exists (Invalidate f).
  split; [by apply list_elem_of_In|]. rewrite Hd. by apply bool_decide_eq_true.
Qed.

(** [affects] on path shapes, which do not depend on the arguments. *)
Definition shape_affects (m q : call) : bool :=
  bool_decide (shape (c_path q) = shape (c_path m)) ||
  bool_decide (Some (shape (c_path q)) = shape <$> parent (c_path m)).

Lemma affects_spec m q :
  affects m q = true → c_path q = c_path m ∨ Some (c_path q) = parent (c_path m).
Proof. unfold affects. rewrite orb_true_iff, !bool_decide_eq_true. auto. Qed.

Lemma affects_shape m q : affects m q = true → shape_affects m q = true.
Proof.
  unfold shape_affects. rewrite orb_true_iff, !bool_decide_eq_true.
  intros [->|<-]%affects_spec; auto.
Qed.

(** The positions in the two lists of a mutation and a query it may affect. *)
Definition hits (ms : list (call * list effect)) (qs : list query) : list (nat * nat) :=
  concat (imap (λ i m, concat (imap (λ j q,
    if shape_affects m.1 (queryFn q) then [(i, j)] else []) qs)) ms).

Lemma elem_of_concat_imap {A B} (f : nat → A → list B) l i x y :
  l !! i = Some x → y ∈ f i x → y ∈ concat (imap f l).
Proof.
  intros Hi Hy. apply list_elem_of_In, in_concat. exists (f i x). split; [|by apply list_elem_of_In]. apply list_elem_of_In.
  apply elem_of_lookup_imap. by eauto.
Qed.

Lemma hits_complete ms qs i j m q :
  ms !! i = Some m → qs !! j = Some q → affects m.1 (queryFn q) = true → (i, j) ∈ hits ms qs.
Proof.
  intros Hi Hj Ha%affects_shape. eapply elem_of_concat_imap; [done|].
  eapply elem_of_concat_imap; [done|]. cbn. rewrite Ha. by left.
Qed.

(** The positions do not depend on the arguments. *)
Lemma hits_const a a' id id' body w p :
  hits (all_mutations a id id' body w p) (all_queries a') =
  [ (0, 0); (1, 0); (2, 0); (4, 1); (5, 1); (6, 2); (10, 3); (12, 4); (14, 7); (15, 7);
    (16, 7); (18, 13); (19, 13); (20, 13); (22, 14); (23, 14); (24, 15); (25, 15); (25, 16);
    (26, 15); (26, 16); (27, 17); (28, 17); (29, 17); (30, 18); (31, 18); (32, 18); (34, 19);
    (35, 19); (36, 19); (39, 20); (40, 20); (41, 20); (42, 21); (43, 22); (44, 22); (45, 22);
    (46, 23); (47, 23); (48, 23); (49, 28); (50, 28); (51, 28); (52, 29); (53, 29); (54, 29) ].
Proof. vm_compute. reflexivity. Qed.

(** The first effect of a mutation refreshes a query of the scope [o]. *)
Ltac scoped o Hd :=
  destruct o as [?|]; [|discriminate Hd];
  eapply refreshes_intro; [left|reflexivity|eexists; reflexivity].

Lemma mutations_refresh_key a a' id id' body w p m q :
  m ∈ all_mutations a id id' body w p → path_defined (c_path m.1) = true →
  q ∈ all_queries a' → affects m.1 (queryFn q) = true → refreshes m.2 q = true.
Proof.
  destruct a as [ten grp zon sco ? ? ? ? ? ?], a' as [ten' grp' zon' sco' ? ? ? ? ? ?].
  intros [i Hi]%list_elem_of_lookup Hd [j Hj]%list_elem_of_lookup Ha.
  pose proof (hits_complete _ _ _ _ _ _ Hi Hj Ha) as Hij. rewrite hits_const in Hij.
  repeat (apply elem_of_cons in Hij as [[= -> ->]|Hij];
    [injection Hi as <-; injection Hj as <-; try reflexivity|]).
  all: try (by apply not_elem_of_nil in Hij).
  all: apply affects_spec in Ha as [Ha|Ha].
  all: vm_compute in Ha; try discriminate Ha; injection Ha as ?; subst.
  all: first [ scoped ten Hd | scoped grp Hd | scoped sco Hd
             | eapply refreshes_intro; [left|reflexivity|eexists; reflexivity] ].
Qed.

(** C6: a mutation refreshes what it wrote.  When a mutation hook succeeds with
    all its ids present, every cached query that reads the resource it wrote, or
    the collection the resource is in, is invalid afterwards or gone from the
    cache, under any query filter that selects by key prefix; so are the lists
    related to it in another way.  When it fails the cache is as it was. *)
Theorem mutations_refresh `{QueryFilter} (a a' : args) (id id' : string) (body : json) (w p : Z)
    (m : call * list effect) (q : query) (cache : list entry) (x : entry) :
  m ∈ all_mutations a id id' body w p →
  (∀ msg, settle m.2 (Throw msg) cache = cache) ∧
  (path_defined (c_path m.1) = true → q ∈ all_queries a' → affects m.1 (queryFn q) = true →
   ∀ r, x ∈ settle m.2 (Ok r) cache → e_key x = queryKey q → e_invalid x = true) ∧
  (∀ es rq r, (es, rq) ∈ related a id id' body w p → is_Some (tenant a) →
   x ∈ settle es (Ok r) cache → e_key x = queryKey rq → e_invalid x = true).
Proof.
  intros Hm. split_and!; [done|..].
  - intros Hd Hq Ha r Hx Hk. eapply refreshes_invalid; [|done..].
    by eapply mutations_refresh_key.
  - intros es rq r Hr [t Ht] Hx Hk. eapply refreshes_invalid; [|done..].
    unfold related in Hr. rewrite Ht in Hr.
    repeat (apply elem_of_cons in Hr as [[= -> ->]|Hr];
      [first [reflexivity | eapply refreshes_intro; [left|reflexivity|by eexists]]|]).
    by apply not_elem_of_nil in Hr.
Qed.

Lemma mutations_refresh_witness :
  let cache := [Entry [KStr "dns-records"; KStr "z1"] None false] in
  settle (inst (useDeleteRecord "z1") "r1").2 (Ok None) cache =
    [Entry [KStr "dns-records"; KStr "z1"] None true] ∧
  e_invalid (Entry [KStr "dns-records"; KStr "z1"] None true) = true.
Proof.
  split; [reflexivity|].
  refine (proj1 (proj2 (mutations_refresh args0 args0 "r1" "" JNull 0 0
    (inst (useDeleteRecord "z1") "r1") (useRecords "z1")
    [Entry [KStr "dns-records"; KStr "z1"] None false] _ _)) _ _ _ None _ _).
  - apply list_elem_of_lookup. by exists 29.
  - reflexivity.
  - apply list_elem_of_lookup. by exists 17.
  - vm_compute. reflexivity.
  - left.
  - reflexivity.
Defined.

(** ** Isolation of tenants *)

Definition tenant_mutations (t : string) (id : string) (body : json) : list (call * list effect) :=
  [ inst (useCreateGroup (Some t)) body; inst (useSetGroupSubnet (Some t)) (id, body);
    inst (useRenameGroup (Some t)) (id, body); inst (useDeleteGroup (Some t)) id;
    inst (useRegisterClient (Some t)) (id, body); inst (useDeleteClient (Some t)) id;
    inst (useCreateUpstreamRoute (Some t)) body; inst (useUpdateUpstreamRoute (Some t)) (id, body);
    inst (useDeleteUpstreamRoute (Some t)) id; inst (useUpsertUpstreamTenantPolicy (Some t)) body ].

(** The keys under which tenants' data is cached. *)
Definition tenant_keys : list string := ["groups"; "clients"; "upstream-routes"; "upstream-policy"].

Lemma tenant_key_scoped a q n t k :
  q ∈ all_queries a → n ∈ tenant_keys → queryKey q = KStr n :: KStr t :: k → tenant a = Some t.
Proof.
  intros [i Hi]%list_elem_of_lookup Hn Hk.
  do 40 (destruct i as [|i]; [injection Hi as <-; cbn in Hk;
    first [ by injection Hk as <- Hk; destruct (tenant a); cbn in *; congruence
          | injection Hk; intros; subst; set_solver ]|]).
  discriminate.
Qed.

Lemma tenant_mutation_effect t id body m :
  m ∈ tenant_mutations t id body →
  ∃ n, n ∈ tenant_keys ∧ m.2 = [Invalidate [KStr n; KStr t]].
Proof.
  intros Hm. unfold tenant_mutations in Hm.
  repeat (apply elem_of_cons in Hm as [->|Hm];
    [eexists; split; [|reflexivity]; unfold tenant_keys; set_solver|]).
  by apply not_elem_of_nil in Hm.
Qed.

(** C22: the mutations of one tenant's groups, clients, routes and upstream
    policy leave every cached query of another tenant as it was: its data is
    neither dropped nor fetched again. *)
Theorem tenants_isolated `{QueryFilter} (t id : string) (body : json) (a : args)
    (m : call * list effect) (q : query) (x : entry) (cache : list entry) (r : option json) :
  m ∈ tenant_mutations t id body → q ∈ all_queries a → tenant a ≠ Some t →
  e_key x = queryKey q → x ∈ cache → x ∈ settle m.2 (Ok r) cache.
Proof.
  intros Hm Hq Ht Hk Hx.
  destruct (tenant_mutation_effect _ _ _ _ Hm) as (n & Hn & ->). cbn.
  apply list_elem_of_fmap. exists x. split; [|done]. destruct x as [k d i]. cbn in *.
  assert (matches [KStr n; KStr t] k = false) as ->; [|by rewrite orb_false_r].
  apply not_true_iff_false. intros [k' Hp]%matches_prefix; [|done].
  apply Ht. eapply tenant_key_scoped; [done..|]. by rewrite <- Hk, Hp.
Qed.

Lemma tenants_isolated_witness :
  let x := Entry [KStr "groups"; KStr "t1"] None false in
  x ∈ settle (inst (useDeleteGroup (Some "t2")) "g").2 (Ok None) [x].
Proof.
  intros x. apply (tenants_isolated "t2" "g" JNull args0 _ (useGroups (Some "t1")));
    [..|discriminate|reflexivity|left].
  - apply list_elem_of_lookup. by exists 3.
  - apply list_elem_of_lookup. by exists 2.
Defined.

(** ** Failing queries *)





