(* ===== verification/Interfaces.v ===== *)
(** * The response types of the untyped client

    [rawGet<T>], [rawPost<T>], ... take the type of the response on trust.  The
    interfaces given for [T] in [api/hooks.ts] and [pages/dashboard/types.ts]
    are the tables below; the theorem compares them with what the API describes
    for the operation each call reaches. *)

From S2P Require Import Prelude JsText Json Web Client Schema Queries Cache.

(** ** The interfaces *)

Definition Category : list field :=
  [ Field "id" false (TString);
    Field "label" false (TString);
    Field "description" false (TString);
    Field "group" false (TUnion [TLit "security"; TLit "content"; TLit "distraction"; TLit "privacy"; TLit "network"]);
    Field "color" false (TString);
    Field "icon" false (TString);
    Field "default_action" false (TUnion [TLit "ACTION_BLOCK"; TLit "ACTION_LOG_ONLY"]);
    Field "has_bundled_feed" false (TBool) ].

Definition AuditLogEntry : list field :=
  [ Field "id" false (TString);
    Field "occurred_at" false (TString);
    Field "actor" false (TString);
    Field "action" false (TString);
    Field "resource_type" false (TString);
    Field "resource_id" false (TString);
    Field "detail" false (TString);
    Field "tenant_id" false (TUnion [TString; TNull]) ].

Definition QueryLogEntry : list field :=
  [ Field "id" false (TString);
    Field "occurred_at" false (TString);
    Field "group_id" false (TString);
    Field "group_name" false (TUnion [TString; TNull]);
    Field "tenant_id" false (TUnion [TString; TNull]);
    Field "client_ip" false (TUnion [TString; TNull]);
    Field "client_name" false (TUnion [TString; TNull]);
    Field "qname" false (TString);
    Field "qtype" false (TUnion [TString; TNull]);
    Field "decision" false (TString);
    Field "matched_rule" false (TUnion [TString; TNull]);
    Field "matched_category" false (TUnion [TString; TNull]);
    Field "matched_feed_id" false (TUnion [TString; TNull]);
    Field "response_code" false (TUnion [TString; TNull]);
    Field "cache_hit" false (TUnion [TBool; TNull]);
    Field "latency_us" false (TUnion [TNumber; TNull]) ].

Definition PolicyTestResult : list field :=
  [ Field "domain" false (TString);
    Field "decision" false (TUnion [TLit "allow"; TLit "block"]);
    Field "matched" false (TUnion [TLit "override_allow"; TLit "override_deny"; TLit "category"; TLit "default"]);
    Field "matched_category" false (TUnion [TString; TNull]);
    Field "matched_feed_id" false (TUnion [TString; TNull]) ].

Definition UpstreamResolver : list field :=
  [ Field "id" false (TString);
    Field "name" false (TString);
    Field "protocol" false (TUnion [TLit "dot"; TLit "doh"; TLit "do53"]);
    Field "address" false (TString);
    Field "port" false (TNumber);
    Field "tls_hostname" false (TUnion [TString; TNull]);
    Field "tls_pin_sha256" false (TArr (TString));
    Field "doh_path" false (TString);
    Field "dnssec_validation" false (TString);
    Field "timeout_ms" false (TNumber);
    Field "max_retries" false (TNumber);
    Field "tags" false (TArr (TString));
    Field "enabled" false (TBool);
    Field "created_at" false (TString);
    Field "updated_at" false (TString) ].

Definition UpstreamPoolMember : list field :=
  [ Field "id" false (TString);
    Field "pool_id" false (TString);
    Field "resolver_id" false (TString);
    Field "weight" false (TNumber);
    Field "priority" false (TNumber) ].

Definition UpstreamPool : list field :=
  [ Field "id" false (TString);
    Field "name" false (TString);
    Field "strategy" false (TString);
    Field "health_check_interval_s" false (TNumber);
    Field "health_check_timeout_ms" false (TNumber);
    Field "health_check_query" false (TString);
    Field "health_check_type" false (TString);
    Field "unhealthy_threshold" false (TNumber);
    Field "healthy_threshold" false (TNumber);
    Field "min_healthy_members" false (TNumber);
    Field "fallback_pool_id" false (TUnion [TString; TNull]);
    Field "members" false (TArr (TRef "UpstreamPoolMember"));
    Field "created_at" false (TString);
    Field "updated_at" false (TString) ].

Definition UpstreamRoute : list field :=
  [ Field "id" false (TString);
    Field "name" false (TString);
    Field "tenant_id" false (TUnion [TString; TNull]);
    Field "group_id" false (TUnion [TString; TNull]);
    Field "match_type" false (TString);
    Field "match_value" false (TUnion [TString; TNull]);
    Field "pool_id" false (TString);
    Field "nxdomain_ttl_override" false (TUnion [TNumber; TNull]);
    Field "require_dnssec" false (TUnion [TBool; TNull]);
    Field "priority" false (TNumber);
    Field "enabled" false (TBool);
    Field "created_at" false (TString);
    Field "updated_at" false (TString) ].

Definition UpstreamTenantPolicy : list field :=
  [ Field "tenant_id" false (TString);
    Field "require_encrypted" false (TBool);
    Field "dnssec_validation" false (TString);
    Field "min_ttl_s" false (TNumber);
    Field "max_ttl_s" false (TNumber);
    Field "negative_ttl_s" false (TNumber) ].

Definition ProbeResult : list field :=
  [ Field "ok" false (TBool);
    Field "latency_ms" false (TUnion [TNumber; TNull]);
    Field "response_code" false (TUnion [TString; TNull]);
    Field "dnssec_ad" false (TBool);
    Field "tls_subject" false (TUnion [TString; TNull]);
    Field "error" false (TUnion [TString; TNull]) ].

Definition DhcpScope : list field :=
  [ Field "id" false (TString);
    Field "tenant_id" false (TString);
    Field "name" false (TString);
    Field "description" false (TUnion [TString; TNull]);
    Field "subnet" false (TString);
    Field "range_start" false (TString);
    Field "range_end" false (TString);
    Field "router_ip" false (TUnion [TString; TNull]);
    Field "dns_servers" false (TArr (TString));
    Field "ntp_server" false (TUnion [TString; TNull]);
    Field "domain_name" false (TUnion [TString; TNull]);
    Field "interface" false (TUnion [TString; TNull]);
    Field "vlan_id" false (TUnion [TNumber; TNull]);
    Field "lease_time_s" false (TNumber);
    Field "max_lease_time_s" false (TNumber);
    Field "renew_time_s" false (TUnion [TNumber; TNull]);
    Field "rebind_time_s" false (TUnion [TNumber; TNull]);
    Field "ddns_enabled" false (TBool);
    Field "ddns_zone_id" false (TUnion [TString; TNull]);
    Field "ddns_ttl_s" false (TNumber);
    Field "pxe_next_server" false (TUnion [TString; TNull]);
    Field "pxe_boot_filename" false (TUnion [TString; TNull]);
    Field "pxe_uefi_boot_filename" false (TUnion [TString; TNull]);
    Field "enabled" false (TBool);
    Field "created_at" false (TString);
    Field "updated_at" false (TString) ].

Definition DhcpReservation : list field :=
  [ Field "id" false (TString);
    Field "scope_id" false (TString);
    Field "tenant_id" false (TString);
    Field "mac_address" false (TString);
    Field "ip_address" false (TString);
    Field "hostname" false (TUnion [TString; TNull]);
    Field "description" false (TUnion [TString; TNull]);
    Field "client_id" false (TUnion [TString; TNull]);
    Field "next_server" false (TUnion [TString; TNull]);
    Field "boot_filename" false (TUnion [TString; TNull]);
    Field "uefi_boot_filename" false (TUnion [TString; TNull]);
    Field "enabled" false (TBool);
    Field "created_at" false (TString);
    Field "updated_at" false (TString) ].

Definition DhcpLease : list field :=
  [ Field "ip_address" false (TString);
    Field "mac_address" false (TString);
    Field "hostname" false (TUnion [TString; TNull]);
    Field "scope_id" false (TString);
    Field "expires_at" false (TString);
    Field "state" false (TNumber) ].

Definition DhcpSubnetStat : list field :=
  [ Field "scope_id" false (TString);
    Field "scope_name" false (TString);
    Field "subnet" false (TString);
    Field "total_addresses" false (TNumber);
    Field "assigned_addresses" false (TNumber);
    Field "declined_addresses" false (TNumber) ].

Definition DaemonHeartbeat : list field :=
  [ Field "instance_id" false (TString);
    Field "family" false (TString);
    Field "hostname" false (TUnion [TString; TNull]);
    Field "started_at" false (TString);
    Field "last_seen_at" false (TString);
    Field "stale" false (TBool) ].

Definition DhcpScope6 : list field :=
  [ Field "id" false (TString);
    Field "tenant_id" false (TString);
    Field "name" false (TString);
    Field "description" false (TUnion [TString; TNull]);
    Field "subnet" false (TString);
    Field "pool_start" false (TString);
    Field "pool_end" false (TString);
    Field "pd_prefix" false (TUnion [TString; TNull]);
    Field "pd_prefix_len" false (TUnion [TNumber; TNull]);
    Field "dns_servers" false (TArr (TString));
    Field "domain_name" false (TUnion [TString; TNull]);
    Field "interface" false (TUnion [TString; TNull]);
    Field "preferred_lifetime_s" false (TNumber);
    Field "valid_lifetime_s" false (TNumber);
    Field "renew_time_s" false (TUnion [TNumber; TNull]);
    Field "rebind_time_s" false (TUnion [TNumber; TNull]);
    Field "ddns_enabled" false (TBool);
    Field "ddns_zone_id" false (TUnion [TString; TNull]);
    Field "ddns_ttl_s" false (TNumber);
    Field "enabled" false (TBool);
    Field "created_at" false (TString);
    Field "updated_at" false (TString) ].

Definition DhcpReservation6 : list field :=
  [ Field "id" false (TString);
    Field "scope_id" false (TString);
    Field "tenant_id" false (TString);
    Field "duid" false (TString);
    Field "ip_address" false (TString);
    Field "hostname" false (TUnion [TString; TNull]);
    Field "description" false (TUnion [TString; TNull]);
    Field "enabled" false (TBool);
    Field "created_at" false (TString);
    Field "updated_at" false (TString) ].

Definition DhcpLease6 : list field :=
  [ Field "ip_address" false (TString);
    Field "duid" false (TString);
    Field "hostname" false (TUnion [TString; TNull]);
    Field "scope_id" false (TString);
    Field "expires_at" false (TString);
    Field "state" false (TNumber);
    Field "lease_type" false (TNumber) ].

Definition DashboardSummary : list field :=
  [ Field "total_queries" false (TNumber);
    Field "blocked_queries" false (TNumber);
    Field "allowed_queries" false (TNumber);
    Field "block_ratio" false (TNumber);
    Field "cache_hit_ratio" false (TNumber);
    Field "unique_clients" false (TNumber);
    Field "tenant_count" false (TNumber);
    Field "group_count" false (TNumber);
    Field "feed_count" false (TNumber);
    Field "top_blocked_domains" false (TArr (TRef "DashboardSummary.top_blocked_domains")) ].

Definition TimeseriesPoint : list field :=
  [ Field "bucket" false (TString);
    Field "total" false (TNumber);
    Field "blocked" false (TNumber);
    Field "allowed" false (TNumber) ].

Definition GroupBreakdown : list field :=
  [ Field "group_id" false (TString);
    Field "group_name" false (TString);
    Field "tenant_name" false (TString);
    Field "total" false (TNumber);
    Field "blocked" false (TNumber);
    Field "block_ratio" false (TNumber) ].

Definition TopClient : list field :=
  [ Field "client_ip" false (TString);
    Field "hostname" false (TUnion [TString; TNull]);
    Field "owner" false (TUnion [TString; TNull]);
    Field "group_name" false (TUnion [TString; TNull]);
    Field "total" false (TNumber);
    Field "blocked" false (TNumber);
    Field "block_ratio" false (TNumber) ].

Definition CategoryBreakdown : list field :=
  [ Field "category" false (TString);
    Field "count" false (TNumber);
    Field "pct" false (TNumber) ].

Definition RecentEvent : list field :=
  [ Field "id" false (TString);
    Field "occurred_at" false (TString);
    Field "client_ip" false (TUnion [TString; TNull]);
    Field "client_name" false (TUnion [TString; TNull]);
    Field "qname" false (TString);
    Field "decision" false (TString);
    Field "matched_category" false (TUnion [TString; TNull]);
    Field "matched_feed_id" false (TUnion [TString; TNull]);
    Field "group_name" false (TUnion [TString; TNull]);
    Field "latency_us" false (TUnion [TNumber; TNull]) ].

Definition LatencyStats : list field :=
  [ Field "p50_us" false (TUnion [TNumber; TNull]);
    Field "p95_us" false (TUnion [TNumber; TNull]);
    Field "p99_us" false (TUnion [TNumber; TNull]);
    Field "sample_count" false (TNumber) ].

Definition QueryMix : list field :=
  [ Field "qtype" false (TArr (TRef "MixSlice"));
    Field "response_code" false (TArr (TRef "MixSlice"));
    Field "matched_rule" false (TArr (TRef "MixSlice")) ].

Definition MixSlice : list field :=
  [ Field "label" false TString; Field "count" false TNumber; Field "pct" false TNumber ].

(** The element type of [DashboardSummary.top_blocked_domains]. *)
Definition top_blocked_domain : list field :=
  [ Field "qname" false TString; Field "decision" false TString; Field "count" false TNumber ].

Definition interfaces : list (string * list field) :=
  [ ("Category", Category);
    ("AuditLogEntry", AuditLogEntry);
    ("QueryLogEntry", QueryLogEntry);
    ("PolicyTestResult", PolicyTestResult);
    ("UpstreamResolver", UpstreamResolver);
    ("UpstreamPoolMember", UpstreamPoolMember);
    ("UpstreamPool", UpstreamPool);
    ("UpstreamRoute", UpstreamRoute);
    ("UpstreamTenantPolicy", UpstreamTenantPolicy);
    ("ProbeResult", ProbeResult);
    ("DhcpScope", DhcpScope);
    ("DhcpReservation", DhcpReservation);
    ("DhcpLease", DhcpLease);
    ("DhcpSubnetStat", DhcpSubnetStat);
    ("DaemonHeartbeat", DaemonHeartbeat);
    ("DhcpScope6", DhcpScope6);
    ("DhcpReservation6", DhcpReservation6);
    ("DhcpLease6", DhcpLease6);
    ("DashboardSummary", DashboardSummary);
    ("TimeseriesPoint", TimeseriesPoint);
    ("GroupBreakdown", GroupBreakdown);
    ("TopClient", TopClient);
    ("CategoryBreakdown", CategoryBreakdown);
    ("RecentEvent", RecentEvent);
    ("LatencyStats", LatencyStats);
    ("QueryMix", QueryMix);
    ("MixSlice", MixSlice);
    ("DashboardSummary.top_blocked_domains", top_blocked_domain) ].

Definition lookup_interface (name : string) : option (list field) :=
  snd <$> List.find (λ s, bool_decide (s.1 = name)) interfaces.

(** ** The type each untyped call is given *)

Definition arr (name : string) : ty := TArr (TRef name).

Definition raw_types (a : args) (id id' : string) (body : json) (w p : Z) : list (call * ty) :=
  [ (queryFn useCategories, arr "Category");
    (queryFn (useAuditLog (resource a) (offset a)), arr "AuditLogEntry");
    (queryFn (useQueryLog (qlog a)), arr "QueryLogEntry");
    (mutationFn (useTestPolicy (group a)) id, TRef "PolicyTestResult");
    (queryFn useUpstreamResolvers, arr "UpstreamResolver");
    (mutationFn useCreateUpstreamResolver body, TRef "UpstreamResolver");
    (mutationFn useUpdateUpstreamResolver (id, body), TRef "UpstreamResolver");
    (mutationFn useProbeUpstreamResolver id, TRef "ProbeResult");
    (queryFn useUpstreamPools, arr "UpstreamPool");
    (mutationFn useCreateUpstreamPool body, TRef "UpstreamPool");
    (mutationFn useUpdateUpstreamPool (id, body), TRef "UpstreamPool");
    (mutationFn useUpsertPoolMember (id, id', w, p), TRef "UpstreamPoolMember");
    (queryFn (useUpstreamRoutes (tenant a)), arr "UpstreamRoute");
    (mutationFn (useCreateUpstreamRoute (tenant a)) body, TRef "UpstreamRoute");
    (mutationFn (useUpdateUpstreamRoute (tenant a)) (id, body), TRef "UpstreamRoute");
    (queryFn (useUpstreamTenantPolicy (tenant a)), TRef "UpstreamTenantPolicy");
    (mutationFn (useUpsertUpstreamTenantPolicy (tenant a)) body, TRef "UpstreamTenantPolicy");
    (queryFn (useDhcpScopes (tenant a)), arr "DhcpScope");
    (mutationFn useCreateDhcpScope body, TRef "DhcpScope");
    (mutationFn useUpdateDhcpScope (id, body), TRef "DhcpScope");
    (queryFn (useDhcpReservations (scope a)), arr "DhcpReservation");
    (mutationFn (useCreateDhcpReservation (scope a)) body, TRef "DhcpReservation");
    (mutationFn (useUpdateDhcpReservation (scope a)) (id, body), TRef "DhcpReservation");
    (queryFn (useDhcpLeases (scope a)), arr "DhcpLease");
    (queryFn useDhcpStats, arr "DhcpSubnetStat");
    (queryFn useDhcpInterfaces, TArr TString);
    (queryFn useDhcpHealth, arr "DaemonHeartbeat");
    (queryFn (useDhcpScopes6 (tenant a)), arr "DhcpScope6");
    (mutationFn useCreateDhcpScope6 body, TRef "DhcpScope6");
    (mutationFn useUpdateDhcpScope6 (id, body), TRef "DhcpScope6");
    (queryFn (useDhcpReservations6 (scope a)), arr "DhcpReservation6");
    (mutationFn (useCreateDhcpReservation6 (scope a)) body, TRef "DhcpReservation6");
    (mutationFn (useUpdateDhcpReservation6 (scope a)) (id, body), TRef "DhcpReservation6");
    (queryFn (useDhcpLeases6 (scope a)), arr "DhcpLease6") ] ++
  zip (queryFn <$> dashboard_queries (hours a) (dash_scope a))
    [ TRef "DashboardSummary"; arr "TimeseriesPoint"; arr "GroupBreakdown"; arr "TopClient";
      arr "CategoryBreakdown"; arr "RecentEvent"; TRef "LatencyStats"; TRef "QueryMix";
      TRef "DashboardSummary" ].

(** ** Agreement *)

Definition is_lit (t : ty) : bool := match t with TLit _ => true | _ => false end.

(** A field of an interface and the field of the schema: one name, types that
    agree, and not optional in the interface unless in the schema. *)
Definition field_agrees (agr : ty → ty → bool) (f g : field) : bool :=
  bool_decide (f_name f = f_name g) && agr (f_ty f) (f_ty g) && implb (f_optional f) (f_optional g).

(** The type [t] of an interface agrees with the type [s] of the schema: it is
    the same type, where literals may stand for [string], and an interface for
    the component schema with the same fields in the same order. *)
Fixpoint agrees (n : nat) : ty → ty → bool :=
  fix go (t s : ty) {struct t} : bool :=
    match t, s with
    | TString, TString | TNumber, TNumber | TBool, TBool | TNull, TNull => true
    | TArr t, TArr s => go t s
    | TUnion ts, TString => forallb is_lit ts
    | TUnion ts, TUnion ss =>
        (fix all ts ss := match ts, ss with
                          | [], [] => true
                          | t :: ts, s :: ss => go t s && all ts ss
                          | _, _ => false
                          end) ts ss
    | TRef i, TRef c =>
        match n, lookup_interface i, lookup_schema c with
        | S m, Some fs, Some (Obj gs) =>
            Nat.eqb (length fs) (length gs) &&
            forallb (λ fg, field_agrees (agrees m) fg.1 fg.2) (zip fs gs)
        | _, _, _ => false
        end
    | _, _ => false
    end.

(** The type of a successful response. *)
Definition success (o : operation) : option ty :=
  r ← List.find (λ r, (200 <=? r.1)%Z && (r.1 <=? 299)%Z) (o_responses o); r.2.

(** The types the program gives to the responses of untyped calls are those
    the API describes: for every [rawGet], [rawPost], [rawPatch] and [rawPut] of
    the hooks and the dashboard, the operation reached answers with a type that
    has the fields of the interface, with the same types, up to an optional
    field of the schema that the interface requires and literals the interface
    lists where the schema says [string]. *)
Theorem interfaces_agree (a : args) (id id' : string) (body : json) (w p : Z) :
  Forall (λ ct, ∃ o s, routed (c_method ct.1) (shape (c_path ct.1)) = Some o ∧
                       success o = Some s ∧ agrees 2 ct.2 s = true)
    (raw_types a id id' body w p).
Proof.
  repeat (apply Forall_cons; split); try apply Forall_nil; try exact I.
  all: do 2 eexists; split_and!; [vm_compute; reflexivity|vm_compute; reflexivity|..].
  all: vm_compute; reflexivity.
Qed.
