(* ===== verification/Locale.v ===== *)
(** * Locale-aware sorting

    [Array.prototype.sort] with [localeCompare] on a text of the elements, as the
    policy editor and the tables of the pages use it.  The comparison depends on
    the locale: it is a variable, with the laws of [LocaleOrder]. *)

From Stdlib Require Import Sorted.
From stdpp Require Import sorting.
From S2P Require Import Prelude JsText.

Section locale.
(** [a.localeCompare(b)] *)
Variable localeCompare : string → string → Z.

(** [l.sort((a, b) => key(a).localeCompare(key(b)))], which is stable. *)
Fixpoint sort_insert {A} (key : A → string) (x : A) (l : list A) : list A :=
  match l with
  | [] => [x]
  | y :: r => if (localeCompare (key x) (key y) <=? 0)%Z then x :: l
              else y :: sort_insert key x r
  end.
Definition sort {A} (key : A → string) (l : list A) : list A := foldr (sort_insert key) [] l.

(** Comparing texts in a locale is a total preorder, and no two different texts
    of visible ASCII characters, such as category ids and domains, tie. *)
Class LocaleOrder : Prop := {
  lc_total a b : (localeCompare a b <= 0)%Z ∨ (localeCompare b a <= 0)%Z;
  lc_trans a b c : (localeCompare a b <= 0)%Z → (localeCompare b c <= 0)%Z →
                   (localeCompare a c <= 0)%Z;
  lc_strict a b : sforall visible a = true → sforall visible b = true →
                  (localeCompare a b <= 0)%Z → (localeCompare b a <= 0)%Z → a = b;
}.

Context `{LO : LocaleOrder}.

Definition before {A} (key : A → string) (x y : A) : Prop :=
  (localeCompare (key x) (key y) <= 0)%Z.

Lemma sort_insert_perm {A} (key : A → string) x l : sort_insert key x l ≡ₚ x :: l.
Proof.
  induction l as [|y l IH]; [done|]. cbn. case_match; [done|]. rewrite IH. apply Permutation_swap.
Qed.

Lemma sort_perm {A} (key : A → string) l : sort key l ≡ₚ l.
Proof. induction l as [|x l IH]; [done|]. cbn. by rewrite sort_insert_perm, IH. Qed.

Lemma sort_insert_sorted {A} (key : A → string) x l :
  StronglySorted (before key) l → StronglySorted (before key) (sort_insert key x l).
Proof.
  induction l as [|y l IH]; intros Hl; [by repeat constructor|]. cbn.
  apply StronglySorted_inv in Hl as [Hl Hy]. case_match eqn:E.
  - apply Z.leb_le in E. constructor; [by constructor|]. constructor; [done|].
    eapply Forall_impl; [done|]. intros z Hz. by eapply lc_trans.
  - apply Z.leb_gt in E. constructor; [by apply IH|].
    rewrite sort_insert_perm. constructor; [|done].
    destruct (lc_total (key x) (key y)) as [H|H]; [lia|done].
Qed.

Lemma sort_sorted {A} (key : A → string) l : StronglySorted (before key) (sort key l).
Proof. induction l as [|x l IH]; [constructor|]. by apply sort_insert_sorted. Qed.

(** The keys are visible ASCII, and no two elements have one key. *)
Definition keyed {A} (key : A → string) (l : list A) : Prop :=
  NoDup (key <$> l) ∧ Forall (λ x, sforall visible (key x) = true) l.

Lemma keyed_inj {A} (key : A → string) l x y :
  keyed key l → x ∈ l → y ∈ l → key x = key y → x = y.
Proof.
  intros [Hn _] [i Hi]%list_elem_of_lookup [j Hj]%list_elem_of_lookup Hk.
  assert (i = j) as <-; [|congruence].
  eapply (NoDup_lookup (key <$> l)); [done|rewrite list_lookup_fmap, Hi; done|].
  rewrite list_lookup_fmap, Hj. cbn. by rewrite Hk.
Qed.

(** Sorting forgets the order and nothing else. *)
Lemma sort_eq_perm {A} (key : A → string) l l' :
  keyed key l → sort key l = sort key l' ↔ l ≡ₚ l'.
Proof.
  intros Hn. split.
  - intros E. by rewrite <- (sort_perm key l), E, sort_perm.
  - intros Hp. apply (StronglySorted_unique_strong (before key)); [|apply sort_sorted..|].
    + intros x y Hx Hy Hxy Hyx. rewrite sort_perm in Hx, Hy. rewrite <- Hp in Hy.
      apply (keyed_inj key l); [done..|]. destruct Hn as [_ Hv]. rewrite Forall_forall in Hv.
      by apply lc_strict; auto.
    + by rewrite !sort_perm.
Qed.

End locale.

(** Comparison by code units. *)
Definition code_unit_compare (a b : string) : Z :=
  if decide (String.le a b) then (-1)%Z else 1%Z.

Lemma code_unit_compare_le a b : (code_unit_compare a b <= 0)%Z ↔ String.le a b.
Proof. unfold code_unit_compare. case_decide; split; (done || lia). Qed.

#[export] Instance code_unit_order : LocaleOrder code_unit_compare.
Proof.
  split; intros *; rewrite ?code_unit_compare_le.
  - apply (total String.le).
  - apply transitivity.
  - intros _ _. apply (anti_symm String.le).
Qed.
