(* ===== verification/Forms.v ===== *)
(** * Forms

    What the pages rely on of @mantine/form's [useForm], as the class [UseForm]:
    a form takes its values from [initialValues] when its component mounts,
    ignores the [initialValues] of later renders, and [reset] returns to the
    first ones; [onSubmit] runs the handler on the values when no validator
    reports an error.  Also the value of a Mantine [NumberInput], which is the
    empty text after the input has been cleared. *)

From S2P Require Import Prelude JsText Json Schema.

Class UseForm (V : Type) := {
  form : Type;
  (** A render of the component: no form yet, or the one of the last render. *)
  useForm : option form → V → form;
  form_values : form → V;
  setValues : (V → V) → form → form;
  form_reset : form → form;
  form_initial : form → V;
  values_mount v : form_values (useForm None v) = v;
  initial_mount v : form_initial (useForm None v) = v;
  values_rerender f v : form_values (useForm (Some f) v) = form_values f;
  initial_rerender f v : form_initial (useForm (Some f) v) = form_initial f;
  values_set g f : form_values (setValues g f) = g (form_values f);
  initial_set g f : form_initial (setValues g f) = form_initial f;
  values_reset f : form_values (form_reset f) = form_initial f;
  initial_reset f : form_initial (form_reset f) = form_initial f;
}.

#[export] Hint Rewrite @values_mount @initial_mount @values_rerender @initial_rerender
  @values_set @initial_set @values_reset @initial_reset : mantis.

(** A form that remembers its first values. *)
Definition pair_useForm {V} (f : option (V * V)) (v : V) : V * V :=
  match f with Some f => f | None => (v, v) end.

#[export] Instance pair_form (V : Type) : UseForm V | 10 := {|
  form := V * V;
  useForm := pair_useForm;
  form_values := snd;
  setValues g f := (f.1, g f.2);
  form_reset f := (f.1, f.1);
  form_initial := fst;
  values_mount _ := eq_refl;
  initial_mount _ := eq_refl;
  values_rerender _ _ := eq_refl;
  initial_rerender _ _ := eq_refl;
  values_set _ _ := eq_refl;
  initial_set _ _ := eq_refl;
  values_reset _ := eq_refl;
  initial_reset _ := eq_refl;
|}.

(** [form.onSubmit(handler)]: the handler's result when the validators, in the
    order of the fields, report nothing. *)
Definition onSubmit {V A} (validate : V → list (option string)) (handler : V → A) (v : V) : option A :=
  if decide (Forall (λ e, e = None) (validate v)) then Some (handler v) else None.

Lemma onSubmit_Some {V A} (validate : V → list (option string)) (handler : V → A) v a :
  onSubmit validate handler v = Some a ↔ Forall (λ e, e = None) (validate v) ∧ a = handler v.
Proof. unfold onSubmit. case_decide; split; naive_solver. Qed.

Lemma onSubmit_unchecked {V A} (handler : V → A) v : onSubmit (λ _, []) handler v = Some (handler v).
Proof. apply onSubmit_Some. by split; [constructor|]. Qed.

(** [b ? msg : null], the result of a validator. *)
Definition err (b : bool) (msg : string) : option string := if b then Some msg else None.

(** A number field of a form: [null] as given initially, a number, or the empty
    text of a cleared input. *)
Inductive num_value := NumNull | NumEmpty | Num (n : Z).

Definition num_json (v : num_value) : json :=
  match v with NumNull => JNull | NumEmpty => JStr "" | Num n => JInt n end.

(** [v ?? null]: the empty text is not nullish. *)
Definition num_or_null (v : num_value) : num_value := v.

Definition opt_num (o : option Z) : num_value := from_option Num NumNull o.

Definition str_json (o : option string) : json := from_option JStr JNull o.

(** [s || null] *)
Definition null_json (s : string) : json := str_json (or_null s).

(** ** Bodies and the schema *)

(** A number field has the type [number | null] unless it was cleared. *)
Definition not_cleared (v : num_value) : bool := match v with NumEmpty => false | _ => true end.

Lemma not_cleared_true v : not_cleared v = true ↔ v ≠ NumEmpty.
Proof. by destruct v. Qed.

Lemma num_json_nullable n v :
  conforms_at n (TUnion [TNumber; TNull]) (num_json v) = not_cleared v.
Proof.
  destruct v as [| |k]; [by destruct n..|]. cbn [num_json]. unfold JInt, jnum.
  destruct (normalize k 0). by destruct n.
Qed.

Lemma num_json_number n k : conforms_at n TNumber (num_json (Num k)) = true.
Proof. cbn [num_json]. unfold JInt, jnum. destruct (normalize k 0). by destruct n. Qed.

Definition is_num (v : num_value) : bool := match v with Num _ => true | _ => false end.

Lemma num_json_is_num n v : conforms_at n TNumber (num_json v) = is_num v.
Proof. destruct v as [| |k]; [by destruct n..|]. apply num_json_number. Qed.

Lemma null_json_nullable n s : conforms_at n (TUnion [TString; TNull]) (null_json s) = true.
Proof. unfold null_json, or_null. case_decide; by destruct n. Qed.

Lemma null_json_default o : o ≠ Some "" → null_json (default "" o) = str_json o.
Proof. intros Ho. destruct o as [s|]; [|done]. unfold null_json, or_null. cbn. case_decide; [congruence|done]. Qed.

Lemma str_json_nullable n o : conforms_at n (TUnion [TString; TNull]) (str_json o) = true.
Proof. destruct o; by destruct n. Qed.

Lemma str_json_string n o : conforms_at n TString (str_json o) = bool_decide (is_Some o).
Proof. destruct o; by destruct n. Qed.

(** A select conforms to its literals when it has one of them. *)
Definition chosen (o : option string) (l : list string) : bool :=
  match o with Some s => bool_decide (s ∈ l) | None => false end.

Lemma literals_conform n o l :
  conforms_at n (TUnion (TLit <$> l)) (str_json o) = chosen o l.
Proof.
  assert (∀ ts j, conforms_at n (TUnion ts) j = existsb (λ t, conforms_at n t j) ts) as Hu by (by destruct n).
  assert (∀ s s', conforms_at n (TLit s) (JStr s') = bool_decide (s = s')) as Hs by (by destruct n).
  assert (∀ s, conforms_at n (TLit s) JNull = false) as Hn by (by destruct n).
  rewrite Hu. clear Hu. destruct o as [s|]; cbn [chosen str_json from_option].
  - induction l as [|x l IH]; [done|]. rewrite fmap_cons. cbn [existsb]. rewrite IH, Hs.
    repeat case_bool_decide; set_solver.
  - induction l as [|x l IH]; [done|]. rewrite fmap_cons. cbn [existsb]. by rewrite IH, Hn.
Qed.

(** Likewise where the type also has [null]. *)
Definition chosen_or_null (o : option string) (l : list string) : bool :=
  match o with Some s => bool_decide (s ∈ l) | None => true end.

Lemma nullable_literals_conform n o l :
  conforms_at n (TUnion [TUnion (TLit <$> l); TNull]) (str_json o) = chosen_or_null o l.
Proof.
  assert (∀ t j, conforms_at n (TUnion [t; TNull]) j = conforms_at n t j || conforms_at n TNull j) as ->
    by (intros; destruct n; cbn; by rewrite orb_false_r).
  rewrite literals_conform. destruct o as [s|]; cbn [chosen chosen_or_null str_json from_option].
  - assert (conforms_at n TNull (JStr s) = false) as -> by (by destruct n). apply orb_false_r.
  - by destruct n.
Qed.

Lemma chosen_true o l : chosen o l = true ↔ ∃ s, o = Some s ∧ s ∈ l.
Proof. destruct o as [s|]; cbn; rewrite ?bool_decide_eq_true; naive_solver. Qed.

(** A select that is null or has one of its options. *)
Definition from_options (o : option string) (l : list string) : Prop := o ∈ None :: (Some <$> l).

#[export] Instance from_options_dec o l : Decision (from_options o l).
Proof. unfold from_options. apply _. Defined.

Lemma from_options_None l : from_options None l.
Proof. by left. Qed.

Lemma from_options_Some s l : from_options (Some s) l ↔ s ∈ l.
Proof.
  unfold from_options. rewrite elem_of_cons, list_elem_of_fmap. naive_solver.
Qed.

Lemma from_options_chosen o l l' :
  from_options o l → l ⊆ l' → chosen o l' = bool_decide (is_Some o) ∧ chosen_or_null o l' = true.
Proof.
  intros Ho Hl. destruct o as [s|]; cbn; [|done]. apply from_options_Some in Ho.
  by rewrite !bool_decide_eq_true_2 by (try apply Hl; done).
Qed.

(** Field by field: the lookups of the fields are computed, and so are the types
    of texts, booleans and [null]. *)
Ltac by_fields lk :=
  rewrite (conforms_ref _ _ _ _ lk); lazy -[conforms_at andb num_json null_json];
  repeat match goal with
  | |- context [conforms_at ?n ?t (JStr ?s)] => change (conforms_at n t (JStr s)) with true
  | |- context [conforms_at ?n ?t (JBool ?s)] => change (conforms_at n t (JBool s)) with true
  | |- context [conforms_at ?n ?t JNull] => change (conforms_at n t JNull) with true
  end; cbn [andb]; rewrite ?andb_true_r.
