(* ===== verification/Controls.v ===== *)
(** * The controls of a form

    The inputs a form shows, as data: each is known by its label, and writes the
    field of the form that [form.getInputProps] or its own [onChange] binds it to.
    A form is filled in by operating its controls one after the other; which
    controls there are may depend on the values so far.  [fill] runs such a script
    of the user, so that what a form can come to hold is what some script fills in.

    Of the inputs of @mantine/core this relies on: a text input takes any text, or
    any of at most [maxLength] code units; a number input takes any integer while it
    is edited (decimals are not modelled), clamps it to its bounds when it is left, and holds the empty text when
    it is cleared; a select takes one of its options, or [null] when its option is
    chosen again or cleared; a multi-select takes some of its options or keeps what
    it has; a tags input takes any texts; a disabled input takes nothing. *)

From coqutil Require Export Datatypes.RecordSetters.
From S2P Require Import Prelude JsText Json Schema Forms.
Export TriangleBracketNotations.

(** ** Controls *)

Inductive control (V : Type) :=
| TextInput (label : string) (write : string → V → V)
| LimitedInput (label : string) (maxLength : nat) (write : string → V → V)
| NumberInput (label : string) (least greatest : option Z) (write : num_value → V → V)
| Select (label : string) (data : list string) (write : option string → V → V)
| MultiSelect (label : string) (data : list string) (read : V → list string) (write : list string → V → V)
| TagsInput (label : string) (write : list string → V → V)
| Switch (label : string) (write : bool → V → V)
| Disabled (label : string).
Arguments TextInput {V}.
Arguments LimitedInput {V}.
Arguments NumberInput {V}.
Arguments Select {V}.
Arguments MultiSelect {V}.
Arguments TagsInput {V}.
Arguments Switch {V}.
Arguments Disabled {V}.

Definition label_of {V} (c : control V) : string :=
  match c with
  | TextInput l _ | LimitedInput l _ _ | NumberInput l _ _ _ | Select l _ _ | MultiSelect l _ _ _
  | TagsInput l _ | Switch l _ | Disabled l => l
  end.

(** [disabled={b}] on a control. *)
Definition disabled_if {V} (b : bool) (c : control V) : control V := if b then Disabled (label_of c) else c.

(** What the user does with one control.  [Keyed] leaves the number input focused,
    [Entered] leaves it. *)
Inductive input :=
| Typed (s : string)
| Keyed (n : Z)
| Entered (n : Z)
| Cleared
| Chosen (s : string)
| Deselected
| ChosenAll (l : list string)
| Switched (b : bool).

(** The number a number input holds after it was left. *)
Definition clamp (least greatest : option Z) (n : Z) : Z :=
  let m := from_option (Z.max n) n least in from_option (Z.min m) m greatest.

Definition operate {V} (c : control V) (i : input) (v : V) : option V :=
  match c, i with
  | TextInput _ w, Typed s => Some (w s v)
  | LimitedInput _ n w, Typed s => if decide (js_length s ≤ n) then Some (w s v) else None
  | NumberInput _ _ _ w, Keyed n => Some (w (Num n) v)
  | NumberInput _ lo hi w, Entered n => Some (w (Num (clamp lo hi n)) v)
  | NumberInput _ _ _ w, Cleared => Some (w NumEmpty v)
  | Select _ data w, Chosen s => if decide (s ∈ data) then Some (w (Some s) v) else None
  | Select _ _ w, Deselected => Some (w None v)
  | MultiSelect _ data r w, ChosenAll l =>
      if decide (Forall (λ x, x ∈ r v ++ data) l) then Some (w l v) else None
  | TagsInput _ w, ChosenAll l => Some (w l v)
  | Switch _ w, Switched b => Some (w b v)
  | _, _ => None
  end.

(** ** Filling in *)

Section fill.
Context {V : Type}.

(** The controls shown for the values. *)
Variable view : V → list (control V).

Definition find_control (label : string) (v : V) : option (control V) :=
  List.find (λ c, bool_decide (label_of c = label)) (view v).

Definition fill_one (v : V) (a : string * input) : option V :=
  c ← find_control a.1 v; operate c a.2 v.

Fixpoint fill (l : list (string * input)) (v : V) : option V :=
  match l with
  | [] => Some v
  | a :: l => v' ← fill_one v a; fill l v'
  end.

(** The values [w] can be reached from [v]. *)
Definition fillable (v w : V) : Prop := ∃ l, fill l v = Some w.

(** A control keeps a property of the values when it is used in the ways [P]. *)
Definition keeps (P : input → Prop) (I : V → Prop) (v : V) (c : control V) : Prop :=
  ∀ i v', P i → operate c i v = Some v' → I v'.

Lemma fill_app l k v : fill (l ++ k) v = fill l v ≫= fill k.
Proof. revert v. induction l as [|a l IH]; intros v; [done|]. cbn. destruct (fill_one v a); [apply IH|done]. Qed.

Lemma fillable_refl v : fillable v v.
Proof. by exists []. Qed.

Lemma fillable_trans v w u : fillable v w → fillable w u → fillable v u.
Proof. intros [l Hl] [k Hk]. exists (l ++ k). by rewrite fill_app, Hl. Qed.

(** What every control keeps holds of everything that can be filled in. *)
Lemma fill_keeps (P : input → Prop) (I : V → Prop) l v w :
  (∀ u, I u → Forall (keeps P I u) (view u)) → Forall (λ a, P a.2) l → I v → fill l v = Some w → I w.
Proof.
  intros Hk Hl. revert v. induction Hl as [|a l Ha _ IH]; intros v Hv; cbn; [by intros [= <-]|].
  unfold fill_one, find_control. destruct (List.find _ (view v)) as [c|] eqn:Hc; [|done]. cbn.
  destruct (operate c a.2 v) as [v'|] eqn:Ho; [|done]. cbn. intros Hf. apply (IH v'); [|done].
  apply find_some in Hc as [Hin _]. apply list_elem_of_In in Hin.
  pose proof (Hk v Hv) as Hall. rewrite Forall_forall in Hall. by eapply Hall.
Qed.
End fill.

(** Any use; and any use that leaves the number inputs it edits. *)
Definition any_input (i : input) : Prop := True.
Definition left_input (i : input) : Prop := match i with Keyed _ => False | _ => True end.

Lemma fillable_keeps {V} (view : V → list (control V)) (I : V → Prop) v w :
  (∀ u, I u → Forall (keeps any_input I u) (view u)) → I v → fillable view v w → I w.
Proof. intros Hk Hv [l Hl]. apply (fill_keeps view any_input I l v); [done| |done..]. by apply Forall_true. Qed.

(** The value of a number input lies within its bounds, or is none. *)
Definition in_bounds (lo hi : option Z) (x : num_value) : Prop :=
  match x with
  | Num n => from_option (λ m, (m ≤ n)%Z) True lo ∧ from_option (λ m, (n ≤ m)%Z) True hi
  | _ => True
  end.

Lemma clamp_bounds lo hi n :
  (∀ a b, lo = Some a → hi = Some b → (a ≤ b)%Z) → in_bounds lo hi (Num (clamp lo hi n)).
Proof.
  intros H. unfold clamp. destruct lo as [a|], hi as [b|]; cbn; try lia.
  specialize (H a b eq_refl eq_refl). lia.
Qed.

Lemma clamp_id lo hi n : in_bounds lo hi (Num n) → clamp lo hi n = n.
Proof. unfold clamp. destruct lo, hi; cbn; lia. Qed.

(** ** What the controls keep *)

Section keeps.
Context {V : Type} (P : input → Prop) (I : V → Prop) (v : V).

Lemma keeps_text l w : (∀ s, I (w s v)) → keeps P I v (TextInput l w).
Proof. intros H [] v' _; cbn; try done. intros [= <-]. apply H. Qed.

Lemma keeps_limited l n w : (∀ s, js_length s ≤ n → I (w s v)) → keeps P I v (LimitedInput l n w).
Proof. intros H [] v' _; cbn; try done. case_decide; [|done]. intros [= <-]. by apply H. Qed.

Lemma keeps_tags l w : (∀ k, I (w k v)) → keeps P I v (TagsInput l w).
Proof. intros H [] v' _; cbn; try done. intros [= <-]. apply H. Qed.

Lemma keeps_switch l w : (∀ b, I (w b v)) → keeps P I v (Switch l w).
Proof. intros H [] v' _; cbn; try done. intros [= <-]. apply H. Qed.

Lemma keeps_number l lo hi w : (∀ x, x ≠ NumNull → I (w x v)) → keeps P I v (NumberInput l lo hi w).
Proof. intros H [] v' _; cbn; try done; intros [= <-]; by apply H. Qed.

Lemma keeps_select l data w :
  (∀ o, o ∈ None :: (Some <$> data) → I (w o v)) → keeps P I v (Select l data w).
Proof.
  intros H [] v' _; cbn; try done; [case_decide; [|done]|]; intros [= <-]; apply H; [|by left].
  right. by apply list_elem_of_fmap_2.
Qed.

Lemma keeps_multi l data r w :
  (∀ k, Forall (λ x, x ∈ r v ++ data) k → I (w k v)) → keeps P I v (MultiSelect l data r w).
Proof. intros H [] v' _; cbn; try done. case_decide; [|done]. intros [= <-]. by apply H. Qed.

Lemma keeps_disabled l : keeps P I v (Disabled l).
Proof. intros [] v' _; done. Qed.

Lemma keeps_disabled_if b c : keeps P I v c → keeps P I v (disabled_if b c).
Proof. destruct b; [|done]. intros _. apply keeps_disabled. Qed.
End keeps.

Lemma keeps_bounded {V} (I : V → Prop) v l lo hi w :
  (∀ a b, lo = Some a → hi = Some b → (a ≤ b)%Z) → (∀ x, in_bounds lo hi x → I (w x v)) →
  keeps left_input I v (NumberInput l lo hi w).
Proof.
  intros Hb H [] v' Hi; cbn; try done; intros [= <-]; apply H; [|done]. by apply clamp_bounds.
Qed.

(** Splits [Forall (keeps P I v) controls] into what is to be shown of each
    control. *)
Ltac each_control :=
  repeat match goal with
  | |- Forall _ [] => apply Forall_nil_2
  | |- Forall _ (_ :: _) => apply Forall_cons_2
  | |- Forall _ (_ ++ _) => apply Forall_app_2
  | |- Forall _ (if ?b then _ else _) => destruct b eqn:?
  | |- keeps _ _ _ (Disabled _) => apply keeps_disabled
  | |- keeps _ _ _ (disabled_if _ _) => apply keeps_disabled_if
  | |- keeps _ _ _ (TextInput _ _) => apply keeps_text; intros ?
  | |- keeps _ _ _ (LimitedInput _ _ _) => apply keeps_limited; intros ? ?
  | |- keeps _ _ _ (TagsInput _ _) => apply keeps_tags; intros ?
  | |- keeps _ _ _ (Switch _ _) => apply keeps_switch; intros ?
  | |- keeps left_input _ _ (NumberInput _ _ _ _) =>
      apply keeps_bounded; [cbn; intros ?? [= <-] [= <-]; lia || (intros; discriminate)|intros ? ?]
  | |- keeps _ _ _ (NumberInput _ _ _ _) => apply keeps_number; intros ? ?
  | |- keeps _ _ _ (Select _ _ _) => apply keeps_select; intros ? ?
  | |- keeps _ _ _ (MultiSelect _ _ _ _) => apply keeps_multi; intros ? ?
  end.

(** ** Running a script *)

Section script.
Context {V : Type} (view : V → list (control V)).

Lemma fill_step label i l v c v' w :
  find_control view label v = Some c → operate c i v = Some v' → fill view l v' = w →
  fill view ((label, i) :: l) v = w.
Proof. intros Hf Ho Hw. cbn. unfold fill_one. cbn [fst snd]. rewrite Hf. cbn. by rewrite Ho. Qed.

Lemma operate_entered l lo hi w n v :
  in_bounds lo hi (Num n) → operate (V := V) (NumberInput l lo hi w) (Entered n) v = Some (w (Num n) v).
Proof. intros Hn. cbn. by rewrite clamp_id. Qed.

Lemma operate_chosen l data w s v :
  s ∈ data → operate (V := V) (Select l data w) (Chosen s) v = Some (w (Some s) v).
Proof. intros Hs. cbn. by rewrite decide_True. Qed.

Lemma operate_limited l n w s v :
  js_length s ≤ n → operate (V := V) (LimitedInput l n w) (Typed s) v = Some (w s v).
Proof. intros Hs. cbn. by rewrite decide_True. Qed.

Lemma operate_all l data r w k v :
  Forall (λ x, x ∈ data) k → operate (V := V) (MultiSelect l data r w) (ChosenAll k) v = Some (w k v).
Proof.
  intros Hk. cbn. rewrite decide_True; [done|]. eapply Forall_impl; [exact Hk|].
  intros x Hx. apply elem_of_app. by right.
Qed.
End script.

(** A select that is left alone for a missing value. *)
Definition choose_some (label : string) (o : option string) : list (string * input) :=
  from_option (λ s, [(label, Chosen s)]) [] o.

(** Runs a script on a form whose controls do not depend on anything unknown; the
    bounds and options are assumptions. *)
Ltac fill_in :=
  repeat match goal with
  | |- fill _ (_ :: _) _ = _ =>
      eapply fill_step;
      [ reflexivity
      | first [ apply operate_entered; cbn; lia
              | apply operate_chosen; first [assumption | options_member]
              | apply operate_all; assumption
              | apply operate_limited; assumption
              | reflexivity ]
      | ]
  end; try reflexivity
with options_member := apply (bool_decide_eq_true_1 _); vm_compute; reflexivity.
