(* ===== verification/Policy.v ===== *)
(** * The policy editor

    [pages/PolicyPage.tsx] and [pages/DuplicatePolicyModal.tsx]: the editor's
    state (category actions, overrides, failure policy), the order-independent
    snapshot that decides whether there are unsaved changes, loading, saving and
    duplicating a policy, and the domain test.  [String.prototype.localeCompare]
    depends on the locale: it is a variable of the section that uses it. *)

From S2P Require Import Prelude JsText Json JsonRoundtrip Schema Locale Forms.

(** ** Data *)

Record CategoryToggle := Toggle { category_id : string; action : string }.
(** The kind is [null] when the select of the form was cleared by a second click on
    its option. *)
Record Override := MkOverride { domain : string; kind : option string }.

(** [PolicyOut], the saved policy of a group. *)
Record PolicyOut := MkPolicy {
  p_id : string;
  p_on_load_failure : string;
  p_category_toggles : list CategoryToggle;
  p_overrides : list Override;
}.

(** [CATEGORY_ACTION_OPTIONS], by value. *)
Definition CATEGORY_ACTION_OPTIONS : list string :=
  ["off"; "ACTION_BLOCK"; "ACTION_LOG_ONLY"; "ACTION_ALLOW"].

Definition GROUP_ORDER : list string := ["security"; "content"; "distraction"; "privacy"; "network"].

Definition toggle_json (t : CategoryToggle) : json :=
  JObj [("category_id", JStr (category_id t)); ("action", JStr (action t))].
Definition override_json (o : Override) : json :=
  JObj [("domain", JStr (domain o)); ("kind", str_json (kind o))].

(** ** Domains *)

Definition is_alnum (c : ascii) : bool := is_digit c || is_lower c || is_upper c.
Definition is_label_char (c : ascii) : bool := is_alnum c || Ascii.eqb c "-".

(** One label of [DOMAIN_RE]: [[a-z0-9]([a-z0-9-]{0,61}[a-z0-9])?], ignoring
    case. *)
Definition label_ok (s : string) : bool :=
  (1 <=? String.length s)%nat && (String.length s <=? 63)%nat && sforall is_label_char s &&
  match s with String c _ => is_alnum c | "" => false end &&
  match String.rev s with String c _ => is_alnum c | "" => false end.

(** [DOMAIN_RE.test(s)]: at least two labels, separated by dots. *)
Definition DOMAIN_RE (s : string) : bool :=
  (2 <=? length (split_on "." s))%nat && forallb label_ok (split_on "." s).

(** [AddOverrideForm]: the form's validation, and the override it adds. *)
Definition validate_domain (v : string) : option string :=
  if DOMAIN_RE (trim v) then None else Some "Enter a valid domain, e.g. ads.example.com".

Definition submit_override (v : string) (k : option string) : option Override :=
  match validate_domain v with
  | None => Some (MkOverride (toLowerCase (trim v)) k)
  | Some _ => None
  end.

(** The domain a test is run for, if any:
    [testDomain.trim().toLowerCase().replace(/\.$/, '')]. *)
Definition test_domain (v : string) : option string :=
  let d := toLowerCase (trim v) in
  or_null (if endsWith d "." then drop_last 1 d else d).

(** ** Categories by group *)

Record Category := MkCategory {
  cat_id : string;
  cat_group : string;
  cat_label : string;
  cat_description : string;
  cat_color : string;
  cat_icon : string;
  cat_has_bundled_feed : bool;
}.

(** The map of [categoriesByGroup], as an association list in insertion order. *)
Definition group_add (groups : list (string * list Category)) (cat : Category) :
    list (string * list Category) :=
  match List.find (λ g, bool_decide (g.1 = cat_group cat)) groups with
  | Some _ =>
      (λ g, if decide (g.1 = cat_group cat) then (g.1, g.2 ++ [cat]) else g) <$> groups
  | None => groups ++ [(cat_group cat, [cat])]
  end.

Definition categoriesByGroup (categories : option (list Category)) : list (string * list Category) :=
  foldl group_add [] (default [] categories).

Definition group_get (g : string) (groups : list (string * list Category)) : option (list Category) :=
  snd <$> List.find (λ x, bool_decide (x.1 = g)) groups.

(** The rows shown: the groups of [GROUP_ORDER] that have categories, in that
    order. *)
Definition category_rows (categories : option (list Category)) : list (string * list Category) :=
  omap (λ g, (λ l, (g, l)) <$> group_get g (categoriesByGroup categories)) GROUP_ORDER.

(** ** The editor *)

Section editor.
(** [a.localeCompare(b)] *)
Variable localeCompare : string → string → Z.

Definition normalizePolicyState (toggles : list CategoryToggle) (overrides : list Override)
    (failure : string) : string :=
  stringify (JObj
    [ ("toggles", JArr (toggle_json <$> sort localeCompare category_id toggles));
      ("overrides", JArr (override_json <$> sort localeCompare domain overrides));
      ("failure", JStr failure) ]).

(** The state of the page: the edited policy, [baselineRef.current], and the
    [policy?.id] the loading effect last ran for ([None] before the first). *)
Record editor := Editor {
  categoryToggles : list CategoryToggle;
  overrides : list Override;
  onLoadFailure : string;
  baseline : string;
  effect_id : option (option string);
}.

Definition editor_init : editor := Editor [] [] "FAIL_OPEN" "" None.

Definition isDirty (e : editor) : bool :=
  bool_decide (normalizePolicyState (categoryToggles e) (overrides e) (onLoadFailure e) ≠ baseline e).

(** The effect on [policy?.id]. *)
Definition load (policy : option PolicyOut) (e : editor) : editor :=
  let toggles := from_option p_category_toggles [] policy in
  let overs := from_option p_overrides [] policy in
  let failure := from_option p_on_load_failure "FAIL_OPEN" policy in
  Editor toggles overs failure (normalizePolicyState toggles overs failure) (Some (p_id <$> policy)).

(** A render with the query's current policy: the effect runs on the first one
    and when the id has changed. *)
Definition render_policy (policy : option PolicyOut) (e : editor) : editor :=
  if decide (effect_id e = Some (p_id <$> policy)) then e else load policy e.

Definition setCategoryAction (categoryId act : string) (e : editor) : editor :=
  let rest := filter (λ c, category_id c ≠ categoryId) (categoryToggles e) in
  Editor (if decide (act = "off") then rest else rest ++ [Toggle categoryId act])
    (overrides e) (onLoadFailure e) (baseline e) (effect_id e).

(** The action a category row shows. *)
Definition row_action (e : editor) (id : string) : string :=
  from_option action "off" (List.find (λ c, bool_decide (category_id c = id)) (categoryToggles e)).

Definition setOverrides (l : list Override) (e : editor) : editor :=
  Editor (categoryToggles e) l (onLoadFailure e) (baseline e) (effect_id e).

Definition addOverride (o : Override) (e : editor) : editor :=
  setOverrides (filter (λ x, domain x ≠ domain o) (overrides e) ++ [o]) e.

Definition removeOverride (d : string) (e : editor) : editor :=
  setOverrides (filter (λ x, domain x ≠ d) (overrides e)) e.

Definition setOnLoadFailure (f : string) (e : editor) : editor :=
  Editor (categoryToggles e) (overrides e) f (baseline e) (effect_id e).

Definition applyDuplicatedPolicy (source : PolicyOut) (e : editor) : editor :=
  Editor (p_category_toggles source) (p_overrides source) (p_on_load_failure source)
    (baseline e) (effect_id e).

(** [save()]: the body that is sent. *)
Definition save_body (e : editor) : json :=
  JObj [ ("on_load_failure", JStr (onLoadFailure e));
         ("category_toggles", JArr (toggle_json <$> categoryToggles e));
         ("overrides", JArr (override_json <$> overrides e)) ].

(** [onSuccess] of a save that was started in the state [saved]. *)
Definition save_succeeded (saved e : editor) : editor :=
  Editor (categoryToggles e) (overrides e) (onLoadFailure e)
    (normalizePolicyState (categoryToggles saved) (overrides saved) (onLoadFailure saved))
    (effect_id e).

(** The two buttons. *)
Definition save_enabled (e : editor) : bool := isDirty e.
Definition compile_enabled (e : editor) : bool := negb (isDirty e).

Inductive edit :=
| SetAction (id act : string)
| AddOverride (v : string) (k : option string)
| RemoveOverride (d : string)
| SetFailure (f : string)
| Duplicate (source : PolicyOut).

Definition apply_edit (e : editor) (x : edit) : editor :=
  match x with
  | SetAction id act => setCategoryAction id act e
  | AddOverride v k => match submit_override v k with Some o => addOverride o e | None => e end
  | RemoveOverride d => removeOverride d e
  | SetFailure f => setOnLoadFailure f e
  | Duplicate source => applyDuplicatedPolicy source e
  end.

(** ** What the snapshot sees *)

Context `{LO : !LocaleOrder localeCompare}.

#[local] Instance toggle_json_inj : Inj (=) (=) toggle_json.
Proof. intros [] [] [=]. congruence. Qed.
#[local] Instance override_json_inj : Inj (=) (=) override_json.
Proof. intros [d [k|]] [d' [k'|]] [=]; congruence. Qed.

Lemma json_ok_map {A} (f : A → json) l : (∀ x, json_ok (f x)) → json_ok (JArr (f <$> l)).
Proof. intros H. cbn. rewrite <- list_fmap_compose. apply Forall_fmap, Forall_true. intros x. apply H. Qed.

Lemma json_ok_pair k1 s1 k2 v2 : k1 ≠ k2 → json_ok v2 → json_ok (JObj [(k1, JStr s1); (k2, v2)]).
Proof. intros H Hv. cbn. split; [|by repeat constructor]. apply NoDup_cons. split; [set_solver|]. apply NoDup_singleton. Qed.

(** Two snapshots are one text exactly when they are one policy, whatever the
    order of the toggles and of the overrides. *)
Lemma normalizePolicyState_eq t o f t' o' f' :
  keyed category_id t → keyed domain o →
  normalizePolicyState t o f = normalizePolicyState t' o' f' ↔ t ≡ₚ t' ∧ o ≡ₚ o' ∧ f = f'.
Proof.
  intros Ht Ho. unfold normalizePolicyState.
  assert (∀ t o f, json_ok (JObj [("toggles", JArr (toggle_json <$> sort localeCompare category_id t));
    ("overrides", JArr (override_json <$> sort localeCompare domain o)); ("failure", JStr f)])) as Hok.
  { intros ???. split; [apply (bool_decide_eq_true_1 _); vm_compute; reflexivity|].
    repeat constructor; apply json_ok_map; intros [? k]; apply json_ok_pair; try done; by destruct k. }
  split.
  - intros E%stringify_inj; [|apply Hok..]. injection E as E1%(inj _) E2%(inj _) ->.
    by rewrite <- (sort_eq_perm localeCompare category_id), <- (sort_eq_perm localeCompare domain).
  - intros (E1%(sort_eq_perm localeCompare category_id) & E2%(sort_eq_perm localeCompare domain) & ->); [|done..].
    by rewrite E1, E2.
Qed.

(** The editor holds a policy whose ids and domains are keys. *)
Definition editor_ok (e : editor) : Prop :=
  keyed category_id (categoryToggles e) ∧ keyed domain (overrides e).

(** The edited policy of [e] is the one of [e'], up to order. *)
Definition same_policy (e e' : editor) : Prop :=
  categoryToggles e ≡ₚ categoryToggles e' ∧ overrides e ≡ₚ overrides e' ∧
  onLoadFailure e = onLoadFailure e'.

Lemma isDirty_false e e' :
  editor_ok e → baseline e = normalizePolicyState (categoryToggles e') (overrides e') (onLoadFailure e') →
  isDirty e = false ↔ same_policy e e'.
Proof.
  intros [Ht Ho] Hb. unfold isDirty, same_policy. rewrite bool_decide_eq_false, Hb.
  rewrite <- normalizePolicyState_eq by done.
  split; [|auto]. intros H. apply dec_stable. done.
Qed.

(** Unsaved changes are recognised exactly.  When a save that was started in
    the state [s] succeeds after any edits, the page shows unsaved changes, and
    keeps Compile disabled, exactly when the policy in the editor is not the one
    that was saved, where the order of toggles and overrides does not count; a
    policy that was just loaded has no unsaved changes. *)
Theorem dirty_iff_changed (s : editor) (edits : list edit) (policy : option PolicyOut) :
  let e := foldl apply_edit s edits in
  editor_ok e →
  (isDirty (save_succeeded s e) = false ↔ same_policy e s) ∧
  (compile_enabled (save_succeeded s e) = true ↔ same_policy e s) ∧
  isDirty (load policy s) = false.
Proof.
  intros e He.
  assert (isDirty (save_succeeded s e) = false ↔ same_policy e s) as H.
  { apply (isDirty_false (save_succeeded s e) s); done. }
  split_and!; [done| |by apply bool_decide_eq_false; auto].
  unfold compile_enabled. by rewrite negb_true_iff.
Qed.

(** *** Toggles *)

Lemma keyed_filter {A} (key : A → string) (P : A → Prop) `{∀ x, Decision (P x)} l :
  keyed key l → keyed key (filter P l).
Proof.
  intros [Hn Hv]. split.
  { induction l as [|x l IH]; [done|]. cbn in Hn. apply NoDup_cons in Hn as [Hx Hn].
    apply Forall_cons in Hv as [_ Hv]. rewrite filter_cons. case_decide; [|auto].
    cbn. apply NoDup_cons. split; [|auto].
    intros (y & Hy & [_ Hin]%list_elem_of_filter)%list_elem_of_fmap. apply Hx.
    rewrite Hy. by apply list_elem_of_fmap_2. }
  rewrite Forall_forall in *. intros x [_ Hx]%list_elem_of_filter. auto.
Qed.

(** Replacing the element of a key. *)
Lemma keyed_replace {A} (key : A → string) (x : A) l :
  keyed key l → sforall visible (key x) = true →
  keyed key (filter (λ y, key y ≠ key x) l ++ [x]).
Proof.
  intros Hl Hx. destruct (keyed_filter key (λ y, key y ≠ key x) l Hl) as [Hn Hv]. split.
  - rewrite fmap_app. apply NoDup_app. split_and!; [done| |apply NoDup_singleton].
    intros k (y & -> & [Hy _]%list_elem_of_filter)%list_elem_of_fmap Hin.
    apply list_elem_of_singleton in Hin. done.
  - apply Forall_app. by repeat constructor.
Qed.

Lemma find_key_filter {A} (key : A → string) (k k' : string) l :
  List.find (λ x, bool_decide (key x = k')) (filter (λ x, key x ≠ k) l) =
  if decide (k' = k) then None else List.find (λ x, bool_decide (key x = k')) l.
Proof.
  induction l as [|x l IH]; [by case_decide|]. rewrite filter_cons. cbn.
  destruct (decide (key x ≠ k)) as [Hx|Hx%dec_stable]; cbn; case_bool_decide; subst; rewrite ?IH;
    repeat case_decide; congruence.
Qed.

Lemma filter_key_absent {A} (key : A → string) (k : string) l :
  List.find (λ x, bool_decide (key x = k)) l = None → filter (λ x, key x ≠ k) l = l.
Proof.
  induction l as [|x l IH]; [done|]. rewrite filter_cons. cbn.
  case_bool_decide; [done|]. intros Hf. rewrite decide_True by done. by rewrite IH.
Qed.

(** Taking the element of a key out and putting it back at the end. *)
Lemma filter_key_present {A} (key : A → string) (k : string) l x :
  keyed key l → List.find (λ x, bool_decide (key x = k)) l = Some x →
  filter (λ x, key x ≠ k) l ++ [x] ≡ₚ l.
Proof.
  intros [Hn _]. induction l as [|y l IH]; [done|].
  rewrite fmap_cons in Hn. apply NoDup_cons in Hn as [Hy Hn].
  rewrite filter_cons. cbn [List.find]. case_bool_decide as Hk; [intros [= ->]|intros Hf].
  - rewrite decide_False by auto. rewrite filter_key_absent; [by rewrite Permutation_app_comm|].
    subst k. clear IH Hn. induction l as [|z l IH]; [done|]. rewrite fmap_cons in Hy. cbn [List.find].
    apply not_elem_of_cons in Hy as [Hz Hy]. rewrite bool_decide_eq_false_2 by auto. auto.
  - rewrite decide_True by done. cbn. by rewrite IH.
Qed.

Lemma setCategoryAction_twice id a1 a2 e :
  setCategoryAction id a2 (setCategoryAction id a1 e) = setCategoryAction id a2 e.
Proof.
  unfold setCategoryAction. cbn. f_equal.
  assert (filter (λ c, category_id c ≠ id)
    (if decide (a1 = "off") then filter (λ c, category_id c ≠ id) (categoryToggles e)
     else filter (λ c, category_id c ≠ id) (categoryToggles e) ++ [Toggle id a1]) =
    filter (λ c, category_id c ≠ id) (categoryToggles e)) as ->; [|done].
  case_decide; rewrite ?filter_app; rewrite list_filter_filter_l by auto; [done|].
  rewrite filter_cons, decide_False by (cbn; auto). cbn. by rewrite app_nil_r.
Qed.

(** The values the controls give, and the schema allows but for a missing kind. *)
Definition policy_typed (e : editor) : Prop :=
  Forall (λ t, action t ∈ tail CATEGORY_ACTION_OPTIONS) (categoryToggles e) ∧
  Forall (λ o, kind o ∈ [None; Some "allow"; Some "deny"]) (overrides e) ∧
  onLoadFailure e ∈ ["FAIL_OPEN"; "FAIL_CLOSED"].

(** The editor with the action of a category set to what it already is. *)
Lemma setCategoryAction_same id e :
  editor_ok e → policy_typed e → same_policy (setCategoryAction id (row_action e id) e) e.
Proof.
  intros [Ht _] [Ha _]. split; [|done]. unfold setCategoryAction, row_action. cbn [categoryToggles].
  destruct (List.find _ _) as [c|] eqn:Hf; cbn [from_option].
  - pose proof (find_some _ _ Hf) as [Hin%list_elem_of_In Hc%bool_decide_eq_true].
    rewrite Forall_forall in Ha. specialize (Ha _ Hin). rewrite decide_False.
    + destruct c as [i a]. cbn in *. subst i. by apply filter_key_present.
    + intros E. rewrite E in Ha. by vm_compute in Ha; apply elem_of_cons in Ha; set_solver.
  - rewrite decide_True by done. by rewrite filter_key_absent.
Qed.

Lemma row_action_set id act e id' :
  row_action (setCategoryAction id act e) id' = if decide (id' = id) then act else row_action e id'.
Proof.
  unfold row_action, setCategoryAction. cbn [categoryToggles].
  destruct (decide (act = "off")) as [->|Ho].
  - rewrite find_key_filter. by repeat case_decide.
  - rewrite find_app, find_key_filter. cbn. case_decide as Hi.
    + subst. by rewrite bool_decide_eq_true_2.
    + rewrite (bool_decide_eq_false_2 (id = id')) by auto. by destruct (List.find _ _).
Qed.

Lemma setCategoryAction_ok id act e :
  editor_ok e → sforall visible id = true → editor_ok (setCategoryAction id act e).
Proof.
  intros [Ht Ho] Hid. split; [|done]. cbn. case_decide; [by apply keyed_filter|].
  by apply (keyed_replace category_id (Toggle id act)).
Qed.

Lemma isDirty_same e e' :
  editor_ok e → same_policy e e' → baseline e = baseline e' → isDirty e = isDirty e'.
Proof.
  intros [Ht Ho] Hs Hb. unfold isDirty. rewrite Hb.
  by rewrite (proj2 (normalizePolicyState_eq _ _ _ (categoryToggles e') (overrides e') (onLoadFailure e') Ht Ho)).
Qed.

(** Choosing an action for a category changes that row to it and no other
    row, keeps one entry per category, and can be taken back: setting the row to
    what it was leaves the page as dirty as it was, although the entry has moved
    to the end of the list. *)
Theorem setCategoryAction_spec (e : editor) (id act : string) :
  editor_ok e → policy_typed e → sforall visible id = true →
  (∀ id', row_action (setCategoryAction id act e) id' =
     if decide (id' = id) then act else row_action e id') ∧
  editor_ok (setCategoryAction id act e) ∧
  isDirty (setCategoryAction id (row_action e id) (setCategoryAction id act e)) = isDirty e.
Proof.
  intros Hok Hty Hid. split_and!.
  - intros id'. apply row_action_set.
  - by apply setCategoryAction_ok.
  - rewrite setCategoryAction_twice. apply isDirty_same; [by apply setCategoryAction_ok|..|done].
    by apply setCategoryAction_same.
Qed.

(** *** Domains and overrides *)

(** What lowering a character keeps. *)
Definition lower_keeps (c : ascii) : bool :=
  Bool.eqb (is_label_char (lower_char c)) (is_label_char c) && Bool.eqb (is_alnum (lower_char c)) (is_alnum c) &&
  Bool.eqb (Ascii.eqb (lower_char c) ".") (Ascii.eqb c ".") &&
  implb (is_label_char c || Ascii.eqb c ".") (visible c).

Lemma lower_keeps_all c : lower_keeps c = true.
Proof. revert c. apply ascii_cases. vm_compute. reflexivity. Qed.

Lemma lower_char_facts c :
  is_label_char (lower_char c) = is_label_char c ∧ is_alnum (lower_char c) = is_alnum c ∧
  Ascii.eqb (lower_char c) "." = Ascii.eqb c "." ∧
  (is_label_char c || Ascii.eqb c "." = true → visible c = true).
Proof.
  pose proof (lower_keeps_all c) as H. unfold lower_keeps in H. bools.
  repeat match goal with H : Bool.eqb _ _ = true |- _ => apply Bool.eqb_prop in H end.
  split_and!; auto. intros Hc. by rewrite Hc in H0.
Qed.

Lemma sforall_lower (p : ascii → bool) s :
  (∀ c, p (lower_char c) = p c) → sforall p (toLowerCase s) = sforall p s.
Proof. intros Hp. induction s as [|c s IH]; [done|]. cbn. by rewrite Hp, IH. Qed.

Lemma slength_lower s : String.length (toLowerCase s) = String.length s.
Proof. induction s as [|c s IH]; [done|]. cbn. by rewrite IH. Qed.

Lemma srev_lower s : String.rev (toLowerCase s) = toLowerCase (String.rev s).
Proof.
  induction s as [|c s IH]; [done|]. cbn [toLowerCase]. by rewrite !srev_cons, toLowerCase_app, IH.
Qed.

Lemma label_ok_lower s : label_ok (toLowerCase s) = label_ok s.
Proof.
  unfold label_ok. rewrite slength_lower, srev_lower, sforall_lower by (intros; apply lower_char_facts).
  f_equal; [f_equal|].
  - destruct s as [|c s]; [done|]. apply lower_char_facts.
  - destruct (String.rev s) as [|c r]; [done|]. apply lower_char_facts.
Qed.

Lemma split_lower s : split_on "." (toLowerCase s) = toLowerCase <$> split_on "." s.
Proof.
  induction s as [|c s IH]; [done|]. cbn [toLowerCase split_on].
  destruct (lower_char_facts c) as (_ & _ & -> & _). rewrite IH.
  destruct (Ascii.eqb c "."); [done|]. by destruct (split_on "." s).
Qed.

Lemma DOMAIN_RE_lower s : DOMAIN_RE (toLowerCase s) = DOMAIN_RE s.
Proof.
  unfold DOMAIN_RE. rewrite split_lower, length_fmap. f_equal.
  induction (split_on "." s) as [|l ls IH]; [done|]. cbn. by rewrite label_ok_lower, IH.
Qed.

Lemma split_chars (p : ascii → bool) c s :
  forallb (sforall p) (split_on c s) = true → sforall (λ x, p x || Ascii.eqb x c) s = true.
Proof.
  induction s as [|a s IH]; [done|]. cbn [split_on sforall].
  destruct (Ascii.eqb a c) eqn:E; [rewrite orb_true_r; cbn; auto|].
  destruct (split_on c s) as [|w ws]; cbn in *; intros ?; bools.
  - rewrite H. auto.
  - rewrite H. cbn. apply IH. by rewrite H1, H0.
Qed.

(** A domain is visible ASCII: trimming leaves it alone. *)
Lemma DOMAIN_RE_visible s : DOMAIN_RE s = true → sforall visible s = true.
Proof.
  unfold DOMAIN_RE. intros ?; bools.
  eapply sforall_impl; [|apply (split_chars is_label_char ".")].
  - intros c Hc. by apply lower_char_facts.
  - clear H. induction (split_on "." s) as [|l ls IH]; [done|]. cbn in *. bools.
    rewrite IH by done. unfold label_ok in H. bools. by rewrite H3.
Qed.

Lemma submit_override_Some v k o :
  submit_override v k = Some o →
  DOMAIN_RE (domain o) = true ∧ toLowerCase (domain o) = domain o ∧ trim (domain o) = domain o ∧
  sforall visible (domain o) = true ∧ kind o = k.
Proof.
  unfold submit_override, validate_domain. destruct (DOMAIN_RE (trim v)) eqn:E; [|done].
  intros [= <-]. cbn. rewrite DOMAIN_RE_lower, toLowerCase_idemp.
  assert (sforall visible (toLowerCase (trim v)) = true) as Hv.
  { apply DOMAIN_RE_visible. by rewrite DOMAIN_RE_lower. }
  split_and!; auto. by apply trim_visible.
Qed.

Lemma addOverride_ok o e :
  editor_ok e → sforall visible (domain o) = true → editor_ok (addOverride o e).
Proof. intros [Ht Ho] Hv. split; [done|]. by apply (keyed_replace domain). Qed.

Definition find_override (d : string) (e : editor) : option Override :=
  List.find (λ o, bool_decide (domain o = d)) (overrides e).

(** An override that the form accepts has a well-formed domain in lower case
    without surrounding space, and submitting that domain again gives the same
    override; it replaces the override of its domain, touches no other, and
    keeps one override per domain; removing it leaves none for its domain, and
    the policy as it was when the domain was new.  Text that is no domain adds
    nothing. *)
Theorem override_spec (e : editor) (v : string) (k : option string) (o : Override) :
  editor_ok e →
  (DOMAIN_RE (trim v) = false → apply_edit e (AddOverride v k) = e) ∧
  (submit_override v k = Some o →
   DOMAIN_RE (domain o) = true ∧ toLowerCase (domain o) = domain o ∧
   submit_override (domain o) k = Some o ∧
   let e' := apply_edit e (AddOverride v k) in
   editor_ok e' ∧
   (∀ d, find_override d e' = if decide (d = domain o) then Some o else find_override d e) ∧
   find_override (domain o) (removeOverride (domain o) e') = None ∧
   (find_override (domain o) e = None → removeOverride (domain o) e' = e)).
Proof.
  intros Hok. split.
  { intros Hd. cbn. unfold submit_override, validate_domain. by rewrite Hd. }
  intros Hs. pose proof (submit_override_Some _ _ _ Hs) as (Hd & Hl & Ht & Hv & Hk).
  cbn. rewrite Hs. split_and!; try done.
  - unfold submit_override, validate_domain. rewrite Ht, Hd, Hl. by destruct o; cbn in *; subst.
  - by apply addOverride_ok.
  - intros d. unfold find_override. cbn. rewrite find_app, find_key_filter. cbn.
    case_decide; [subst; by rewrite bool_decide_eq_true_2|].
    rewrite (bool_decide_eq_false_2 (domain o = d)) by auto. by destruct (List.find _ _).
  - unfold find_override. cbn. rewrite find_key_filter. by rewrite decide_True.
  - intros Hf. unfold removeOverride, addOverride, setOverrides. cbn.
    rewrite filter_app, filter_cons, decide_False by auto.
    rewrite list_filter_filter_l by auto. rewrite filter_key_absent by done.
    cbn. rewrite app_nil_r. by destruct e.
Qed.

(** *** Saving *)

(** The values the controls of the page can produce. *)
Definition edit_typed (x : edit) : Prop :=
  match x with
  | SetAction _ act => act ∈ CATEGORY_ACTION_OPTIONS
  | AddOverride _ k => k ∈ [None; Some "allow"; Some "deny"]
  | RemoveOverride _ => True
  | SetFailure f => f ∈ ["FAIL_OPEN"; "FAIL_CLOSED"]
  | Duplicate source => policy_typed (load (Some source) editor_init)
  end.

(** Every override has a kind; the edits that keep it so. *)
Definition kinds_set (l : list Override) : Prop := Forall (λ o, is_Some (kind o)) l.

Definition edit_keeps (x : edit) : Prop :=
  match x with
  | AddOverride _ k => is_Some k
  | Duplicate source => kinds_set (p_overrides source)
  | _ => True
  end.

Lemma Forall_list_filter {A} (P Q : A → Prop) `{∀ x, Decision (Q x)} l :
  Forall P l → Forall P (filter Q l).
Proof. rewrite !Forall_forall. intros Hl x [_ Hx]%list_elem_of_filter. auto. Qed.

Lemma apply_edit_typed e x : policy_typed e → edit_typed x → policy_typed (apply_edit e x).
Proof.
  intros (Ha & Hk & Hf) Hx. destruct x as [id act|v k|d|f|source]; cbn in *.
  - split; [|done]. cbn. case_decide; [by apply Forall_list_filter|].
    apply Forall_app. split; [by apply Forall_list_filter|]. apply Forall_singleton.
    unfold CATEGORY_ACTION_OPTIONS in *. cbn. set_solver.
  - destruct (submit_override v k) as [o|] eqn:E; [|done].
    apply submit_override_Some in E as (_ & _ & _ & _ & Ek).
    split_and!; try done. apply Forall_app. split; [by apply Forall_list_filter|].
    apply Forall_singleton. by rewrite Ek.
  - split_and!; try done. by apply Forall_list_filter.
  - by split_and!.
  - done.
Qed.

Lemma apply_edit_keeps e x : kinds_set (overrides e) → edit_keeps x → kinds_set (overrides (apply_edit e x)).
Proof.
  unfold kinds_set. intros He Hx. destruct x as [id act|v k|d|f|source]; try done; cbn in *.
  - destruct (submit_override v k) as [o|] eqn:E; [|done].
    apply submit_override_Some in E as (_ & _ & _ & _ & Ek). apply Forall_app.
    split; [by apply Forall_list_filter|]. apply Forall_singleton. by rewrite Ek.
  - by apply Forall_list_filter.
Qed.

Lemma lookup_PolicyUpsert :
  lookup_schema "PolicyUpsert" = Some (Obj
    [ Field "on_load_failure" false (TUnion [TLit "FAIL_OPEN"; TLit "FAIL_CLOSED"]);
      Field "category_toggles" false (TArr (TRef "CategoryToggleIn"));
      Field "overrides" false (TArr (TRef "OverrideIn")) ]).
Proof. vm_compute. reflexivity. Qed.

Lemma lookup_CategoryToggleIn :
  lookup_schema "CategoryToggleIn" = Some (Obj
    [ Field "category_id" false TString;
      Field "action" false (TUnion [TLit "ACTION_BLOCK"; TLit "ACTION_LOG_ONLY"; TLit "ACTION_ALLOW"]) ]).
Proof. vm_compute. reflexivity. Qed.

Lemma lookup_OverrideIn :
  lookup_schema "OverrideIn" = Some (Obj
    [ Field "domain" false TString; Field "kind" false (TUnion [TLit "allow"; TLit "deny"]) ]).
Proof. vm_compute. reflexivity. Qed.

Lemma override_conforms o :
  kind o ∈ [None; Some "allow"; Some "deny"] →
  conforms_at 1 (TRef "OverrideIn") (override_json o) = bool_decide (is_Some (kind o)).
Proof.
  intros Hk. unfold override_json. rewrite (conforms_ref _ _ _ _ lookup_OverrideIn).
  unfold fields_ok. destruct o as [d k]. cbn [kind] in *.
  rewrite !elem_of_cons in Hk. destruct Hk as [-> | [-> | [-> | Hk%not_elem_of_nil]]]; [reflexivity..|done].
Qed.

Lemma save_body_conforms e :
  policy_typed e → conforms (TRef "PolicyUpsert") (save_body e) = true ↔ kinds_set (overrides e).
Proof.
  intros (Ha & Hk & Hf). unfold conforms, save_body. rewrite (conforms_ref _ _ _ _ lookup_PolicyUpsert).
  unfold fields_ok. rewrite andb_true_iff. transitivity (
    conforms_at 1 (TArr (TRef "OverrideIn")) (JArr (override_json <$> overrides e)) = true).
  - cbn [forallb f_name f_ty]. rewrite !andb_true_iff. split; [intros ((_ & _ & Ho & _) & _); exact Ho|].
    intros Ho. split_and!; try done.
    + by apply (conforms_lits 1 ["FAIL_OPEN"; "FAIL_CLOSED"]).
    + apply conforms_arr. eapply Forall_impl; [exact Ha|]. intros t Ht.
      unfold toggle_json. rewrite (conforms_ref _ _ _ _ lookup_CategoryToggleIn).
      apply andb_true_iff. split; [|reflexivity]. cbn [forallb f_name f_ty]. rewrite andb_true_r.
      by apply (conforms_lits 0 (tail CATEGORY_ACTION_OPTIONS)).
  - rewrite conforms_arr. unfold kinds_set. rewrite !Forall_forall in *. split; intros H o Ho.
    + pose proof (H o Ho) as Hc. rewrite override_conforms in Hc by (by apply Hk).
      by apply bool_decide_eq_true in Hc.
    + rewrite override_conforms by (by apply Hk). apply bool_decide_eq_true. auto.
Qed.

(** C28: whatever edits the page's controls make to a policy that was loaded, the
    body of Save is a [PolicyUpsert] of the API exactly when every override has a
    kind: every action and failure policy is one the schema lists, and no field is
    missing or unknown.  An override lacks its kind only when it was added while
    the select of its form was cleared. *)
Theorem save_conforms (e : editor) (edits : list edit) :
  policy_typed e → Forall edit_typed edits →
  let e' := foldl apply_edit e edits in
  (∃ o, op_at PUT "/api/v1/groups/{group_id}/policy" = Some o ∧ o_body o = Some (TRef "PolicyUpsert")) ∧
  (conforms (TRef "PolicyUpsert") (save_body e') = true ↔ kinds_set (overrides e')) ∧
  (kinds_set (overrides e) → Forall edit_keeps edits → kinds_set (overrides e')).
Proof.
  intros He Hx. cbn zeta. split_and!; [eexists; split; vm_compute; reflexivity|..].
  - apply save_body_conforms. revert e He. induction Hx as [|x xs Hx Hxs IH]; intros e He; [done|].
    apply IH. by apply apply_edit_typed.
  - clear He Hx. revert e. induction edits as [|x xs IH]; intros e Hk Hx; [done|].
    apply Forall_cons in Hx as [Hx Hxs]. apply IH; [by apply apply_edit_keeps|done].
Qed.

(** What a render with fresh query data does to the edits.  While the policy
    keeps its id (a refetch, or the save of an existing policy) the editor is
    left as it is, unsaved edits included.  When the id changes, and so after the
    first save of a group that had no policy, the editor is replaced by the
    loaded policy and counts as clean: edits made since the save are gone. *)
Theorem refetch_and_edits (policy : option PolicyOut) (first : PolicyOut) (edits : list edit)
    (e : editor) :
  let e1 := foldl apply_edit (render_policy policy e) edits in
  (∀ policy', p_id <$> policy' = p_id <$> policy → render_policy policy' e1 = e1) ∧
  (policy = None →
   let e2 := render_policy (Some first) (save_succeeded (render_policy policy e) e1) in
   categoryToggles e2 = p_category_toggles first ∧ overrides e2 = p_overrides first ∧
   isDirty e2 = false).
Proof.
  assert (∀ e, effect_id (foldl apply_edit e edits) = effect_id e) as Hid.
  { induction edits as [|x xs IH]; intros e'; [done|]. cbn. rewrite IH.
    destruct x; try done. cbn. by case_match. }
  assert (effect_id (render_policy policy e) = Some (p_id <$> policy)) as He.
  { unfold render_policy. by case_decide. }
  intros e1. split.
  - intros policy' Hp. unfold render_policy at 1. rewrite decide_True; [done|].
    unfold e1. by rewrite Hid, He, Hp.
  - intros -> e2. assert (e2 = load (Some first) e1) as ->.
    { unfold e2, render_policy at 1. rewrite decide_False; [done|].
      cbn. unfold e1. rewrite Hid, He. cbn. congruence. }
    split_and!; try done. by apply bool_decide_eq_false; auto.
Qed.
End editor.

(** ** Categories by group *)

Lemma group_get_add g gs c :
  group_get g (group_add gs c) =
  if decide (g = cat_group c) then Some (default [] (group_get g gs) ++ [c]) else group_get g gs.
Proof.
  unfold group_add, group_get.
  destruct (List.find (λ x, bool_decide (x.1 = cat_group c)) gs) as [y|] eqn:Hf.
  - assert (List.find (λ x : string * list Category, bool_decide (x.1 = g))
      ((λ x, if decide (x.1 = cat_group c) then (x.1, x.2 ++ [c]) else x) <$> gs) =
      (λ x : string * list Category, if decide (x.1 = cat_group c) then (x.1, x.2 ++ [c]) else x) <$>
        List.find (λ x, bool_decide (x.1 = g)) gs) as ->.
    { clear Hf. induction gs as [|x gs IH]; [done|]. cbn. rewrite IH.
      destruct (decide (x.1 = cat_group c)) eqn:E; cbn; case_bool_decide; cbn; by rewrite ?E. }
    case_decide; subst.
    + rewrite Hf. apply find_some in Hf as [_ Hy%bool_decide_eq_true].
      cbn [fmap option_fmap option_map]. by rewrite decide_True.
    + destruct (List.find (λ x, bool_decide (x.1 = g)) gs) as [z|] eqn:Hz; [|done].
      apply find_some in Hz as [_ Hz%bool_decide_eq_true].
      cbn [fmap option_fmap option_map]. rewrite decide_False; [done|congruence].
  - rewrite find_app. case_decide; subst.
    + rewrite Hf. cbn. by rewrite bool_decide_eq_true_2.
    + cbn [List.find fst]. rewrite bool_decide_eq_false_2 by congruence.
      by destruct (List.find (λ x, bool_decide (x.1 = g)) gs).
Qed.

(** The categories of a group, in the order of the list. *)
Lemma group_get_spec g cats :
  group_get g (categoriesByGroup (Some cats)) =
  let l := filter (λ c, cat_group c = g) cats in
  match l with [] => None | _ => Some l end.
Proof.
  change (categoriesByGroup (Some cats)) with (foldl group_add [] cats).
  induction cats as [|c cats IH] using rev_ind; [done|].
  rewrite foldl_app. cbn [foldl]. rewrite group_get_add, IH, filter_app, filter_cons. cbn zeta.
  destruct (decide (cat_group c = g)) as [<-|Hg].
  - rewrite decide_True by done. by destruct (filter _ cats).
  - rewrite decide_False by auto. by rewrite filter_nil, app_nil_r.
Qed.

Lemma rows_spec cats :
  concat (snd <$> category_rows (Some cats)) =
  concat ((λ g, filter (λ c, cat_group c = g) cats) <$> GROUP_ORDER).
Proof.
  unfold category_rows. induction GROUP_ORDER as [|g gs IH]; [done|].
  cbn [omap list_omap]. rewrite group_get_spec. cbn zeta.
  rewrite fmap_cons. cbn [concat]. rewrite <- IH.
  by destruct (filter (λ c, cat_group c = g) cats).
Qed.

(** The category list of the page shows every category exactly once, under
    its group and in the order given, when each belongs to one of the known
    groups; a group without categories has no heading. *)
Theorem categories_all_shown (cats : list Category) :
  Forall (λ c, cat_group c ∈ GROUP_ORDER) cats →
  concat (snd <$> category_rows (Some cats)) ≡ₚ cats ∧
  (∀ g l, (g, l) ∈ category_rows (Some cats) → l = filter (λ c, cat_group c = g) cats ∧ l ≠ []).
Proof.
  intros Hc. split.
  - rewrite rows_spec. apply (partition_perm cat_group); [|done].
    apply (bool_decide_eq_true_1 _). vm_compute. reflexivity.
  - intros g l (g' & _ & Hg)%list_elem_of_omap. rewrite group_get_spec in Hg. cbn zeta in Hg.
    by destruct (filter (λ c, cat_group c = g') cats) eqn:E; [|injection Hg as <- <-].
Qed.

(** ** Examples *)

Definition ads0 : Category := MkCategory "ads" "privacy" "Ads" "Advertising networks" "orange" "Ad2" true.
Definition malware0 : Category := MkCategory "malware" "security" "Malware" "Malicious software" "red" "Virus" true.

Definition policy0 : PolicyOut :=
  MkPolicy "p1" "FAIL_OPEN" [Toggle "ads" "ACTION_BLOCK"; Toggle "malware" "ACTION_BLOCK"]
    [MkOverride "ok.example" (Some "allow")].
Definition editor0 : editor := load code_unit_compare (Some policy0) editor_init.

Lemma editor0_ok : editor_ok editor0.
Proof.
  split; (split; [apply (bool_decide_eq_true_1 _); vm_compute; reflexivity|]);
    repeat constructor.
Defined.

Lemma editor0_typed : policy_typed editor0.
Proof. split_and!; apply (bool_decide_eq_true_1 _); vm_compute; reflexivity. Defined.

Lemma dirty_iff_changed_witness :
  compile_enabled code_unit_compare
    (save_succeeded code_unit_compare editor0
       (setCategoryAction "ads" "ACTION_BLOCK" (setCategoryAction "ads" "off" editor0))) = true.
Proof.
  apply (dirty_iff_changed code_unit_compare editor0
    [SetAction "ads" "off"; SetAction "ads" "ACTION_BLOCK"] None).
  - apply setCategoryAction_ok; [|reflexivity]. apply setCategoryAction_ok; [|reflexivity].
    apply editor0_ok.
  - split_and!; try reflexivity. cbn. apply Permutation_swap.
Defined.

Lemma setCategoryAction_spec_witness :
  isDirty code_unit_compare
    (setCategoryAction "ads" (row_action editor0 "ads")
       (setCategoryAction "ads" "ACTION_ALLOW" editor0)) = isDirty code_unit_compare editor0.
Proof.
  exact (proj2 (proj2 (setCategoryAction_spec code_unit_compare editor0 "ads" "ACTION_ALLOW"
    editor0_ok editor0_typed eq_refl))).
Defined.

Lemma override_spec_witness :
  DOMAIN_RE "ads.example.com" = true ∧
  submit_override "  Ads.Example.COM " (Some "deny") = Some (MkOverride "ads.example.com" (Some "deny")).
Proof.
  split; [|vm_compute; reflexivity].
  exact (proj1 (proj2 (override_spec editor0 "  Ads.Example.COM " (Some "deny")
    (MkOverride "ads.example.com" (Some "deny")) editor0_ok) ltac:(vm_compute; reflexivity))).
Defined.

Lemma save_conforms_witness :
  conforms (TRef "PolicyUpsert")
    (save_body (setOnLoadFailure "FAIL_CLOSED" editor0)) = true.
Proof.
  refine (proj2 (proj1 (proj2 (save_conforms code_unit_compare editor0 [SetFailure "FAIL_CLOSED"]
    editor0_typed _))) _); repeat constructor; eauto.
Defined.

Lemma refetch_and_edits_witness :
  render_policy code_unit_compare (Some policy0)
    (setCategoryAction "ads" "off" (render_policy code_unit_compare (Some policy0) editor_init)) =
  setCategoryAction "ads" "off" (render_policy code_unit_compare (Some policy0) editor_init).
Proof.
  exact (proj1 (refetch_and_edits code_unit_compare (Some policy0) policy0 [SetAction "ads" "off"]
    editor_init) (Some policy0) eq_refl).
Defined.

Lemma categories_all_shown_witness :
  concat (snd <$> category_rows (Some [ads0; malware0])) ≡ₚ [ads0; malware0].
Proof.
  apply categories_all_shown. apply (bool_decide_eq_true_1 _). vm_compute. reflexivity.
Defined.
