(* ===== verification/Zones.v ===== *)
(** * DNS zones and records

    [pages/ZonesPage.tsx] and [pages/ZoneDetailPage.tsx]: the zone list with its
    filters and counts, the forms that create and edit a zone, the settings tab,
    and the form that adds and edits a record.  The forms are the class [UseForm]
    of [Forms.v]; request bodies are checked against the types of [Schema.v]. *)

From Stdlib Require Import Sorted.
From S2P Require Import Prelude JsText Json Schema Locale Forms.

(** ** Data *)

(** [ZoneOut], with the fields the pages read. *)
Record zone := Zone {
  z_id : string;
  z_name : string;
  z_zone_type : string;
  z_description : string;
  z_enabled : bool;
  z_ttl_default : Z;
  z_forwarder : option string;
  z_record_count : Z;
}.

(** [RecordOut], likewise. *)
Record dns_record := DnsRecord {
  r_id : string;
  r_name : string;
  r_record_type : string;
  r_data : string;
  r_ttl : option Z;
  r_priority : option Z;
  r_enabled : bool;
}.

(** ** The zone list *)

Record zone_filters := ZoneFilters { f_search : string; f_type : string; f_status : string }.

(** The predicate of [visible]. *)
Definition zone_matches (f : zone_filters) (z : zone) : bool :=
  let search := f_search f in
  if truthy search && negb (includes (toLowerCase (z_name z)) (toLowerCase search)) &&
     negb (includes (toLowerCase (z_description z)) (toLowerCase search)) then false
  else if truthy (f_type f) && bool_decide (z_zone_type z ≠ f_type f) then false
  else if bool_decide (f_status f = "active") && negb (z_enabled z) then false
  else if bool_decide (f_status f = "disabled") && z_enabled z then false
  else true.

Section list.
Variable localeCompare : string → string → Z.

Definition sorted_zones (zones : list zone) : list zone := sort localeCompare z_name zones.

Definition visible_zones (f : zone_filters) (zones : list zone) : list zone :=
  List.filter (zone_matches f) (sorted_zones zones).
End list.

Definition totalRecords (zones : list zone) : Z :=
  foldl (λ s z, s + z_record_count z)%Z 0%Z zones.

Definition byType (t : string) (zones : list zone) : nat :=
  length (List.filter (λ z, bool_decide (z_zone_type z = t)) zones).

(** ** Creating a zone *)

(** A [Select] that is cleared holds [null]. *)
Record add_zone_form := AddZoneForm {
  az_tenant_id : option string;
  az_name : string;
  az_zone_type : option string;
  az_description : string;
  az_enabled : bool;
  az_ttl_default : num_value;
  az_forwarder : string;
}.

Definition add_zone_initial : add_zone_form :=
  AddZoneForm (Some "") "" (Some "local") "" true (Num 300) "".

(** The length of a string counts only as far as it is zero or not. *)
Definition blank (s : string) : bool := bool_decide (trim s = "").

Definition add_zone_validate (v : add_zone_form) : list (option string) :=
  [ err (negb (truthy_opt (az_tenant_id v))) "Tenant is required";
    err (blank (az_name v)) "Zone name is required";
    err (negb (truthy_opt (az_zone_type v))) "Zone type is required";
    err (bool_decide (az_zone_type v = Some "forward") && negb (truthy (trim (az_forwarder v))))
      "Forwarder IP is required for forward zones" ].

Definition add_zone_body (v : add_zone_form) : json :=
  JObj [ ("tenant_id", str_json (az_tenant_id v)); ("name", JStr (az_name v));
         ("zone_type", str_json (az_zone_type v)); ("description", JStr (az_description v));
         ("enabled", JBool (az_enabled v)); ("ttl_default", num_json (az_ttl_default v));
         ("forwarder", if decide (az_zone_type v = Some "forward") then JStr (az_forwarder v) else JNull) ].

Definition add_zone_submit : add_zone_form → option json := onSubmit add_zone_validate add_zone_body.

(** ** Editing a zone: [EditZoneModal] of the list, [SettingsTab] of the page *)

(** The type is [null] after its option was clicked again. *)
Record zone_form := ZoneForm {
  zf_zone_type : option string;
  zf_description : string;
  zf_enabled : bool;
  zf_ttl_default : num_value;
  zf_forwarder : string;
}.

(** [initialValues] of [EditZoneModal]. *)
Definition edit_zone_initial (z : option zone) : zone_form :=
  ZoneForm (Some (from_option z_zone_type "local" z)) (from_option z_description "" z)
    (from_option z_enabled true z) (Num (from_option z_ttl_default 300%Z z))
    (default "" (z ≫= z_forwarder)).

(** [initialValues] of [SettingsTab]. *)
Definition settings_initial (z : zone) : zone_form :=
  ZoneForm (Some (z_zone_type z)) (z_description z) (z_enabled z) (Num (z_ttl_default z))
    (default "" (z_forwarder z)).

(** The body both send. *)
Definition zone_update_body (v : zone_form) : json :=
  JObj [ ("zone_type", str_json (zf_zone_type v)); ("description", JStr (zf_description v));
         ("enabled", JBool (zf_enabled v)); ("ttl_default", num_json (zf_ttl_default v));
         ("forwarder", if decide (zf_zone_type v = Some "forward") then null_json (zf_forwarder v)
                       else JNull) ].

Section edit_modal.
Context `{UseForm zone_form}.

(** The form of [EditZoneModal] in the list page: the modal is mounted with the
    page, while no zone is being edited, and rendered again with each zone that
    is chosen. *)
Definition list_page_mount : form := useForm None (edit_zone_initial None).
Definition edit_clicked (f : form) (z : zone) : form := useForm (Some f) (edit_zone_initial (Some z)).
(** [handleClose], also run after a successful save: reset, then a render
    without a zone. *)
Definition edit_closed (f : form) : form := useForm (Some (form_reset f)) (edit_zone_initial None).

(** The zones edited and left one after the other, without a change in the form. *)
Definition edit_session (zs : list zone) : form :=
  foldl (λ f z, edit_closed (edit_clicked f z)) list_page_mount zs.

(** The form of [SettingsTab]: mounted with the zone, rendered again with what
    later fetches return. *)
Definition settings_mount (z : zone) : form := useForm None (settings_initial z).
Definition settings_rerender (f : form) (z : zone) : form := useForm (Some f) (settings_initial z).
End edit_modal.

(** ** The record form *)

Definition RECORD_TYPE_OPTIONS : list string :=
  ["A"; "AAAA"; "CNAME"; "MX"; "TXT"; "NS"; "PTR"; "SRV"; "CAA"].

Definition hasPriority (type : string) : bool := bool_decide (type = "MX") || bool_decide (type = "SRV").

(** The type may be [null], as above. *)
Record record_form := RecordForm {
  rf_name : string;
  rf_record_type : option string;
  rf_data : string;
  rf_ttl : num_value;
  rf_priority : num_value;
  rf_enabled : bool;
}.

Definition record_initial (r : option dns_record) : record_form :=
  RecordForm (from_option r_name "@" r) (Some (from_option r_record_type "A" r)) (from_option r_data "" r)
    (opt_num (r ≫= r_ttl)) (opt_num (r ≫= r_priority)) (from_option r_enabled true r).

Definition record_validate (v : record_form) : list (option string) :=
  [ err (blank (rf_name v)) "Name is required"; err (blank (rf_data v)) "Data is required" ].

(** [showPriority] *)
Definition showPriority (v : record_form) : bool := from_option hasPriority false (rf_record_type v).

Definition record_body (v : record_form) : json :=
  JObj [ ("name", JStr (rf_name v)); ("record_type", str_json (rf_record_type v));
         ("data", JStr (rf_data v)); ("ttl", num_json (num_or_null (rf_ttl v)));
         ("priority", num_json (if showPriority v then num_or_null (rf_priority v) else NumNull));
         ("enabled", JBool (rf_enabled v)) ].

Definition record_submit : record_form → option json := onSubmit record_validate record_body.

(** The header of the records tab. *)
Definition active_records (rs : list dns_record) : nat := length (List.filter r_enabled rs).

(** ** Lemmas *)

Lemma lookup_ZoneCreate :
  lookup_schema "ZoneCreate" = Some (Obj
    [ Field "tenant_id" false TString; Field "name" false TString; Field "zone_type" false TString;
      Field "description" false TString; Field "enabled" false TBool;
      Field "ttl_default" false TNumber; Field "forwarder" true (TUnion [TString; TNull]) ]).
Proof. vm_compute. reflexivity. Qed.

Lemma lookup_ZoneUpdate :
  lookup_schema "ZoneUpdate" = Some (Obj
    [ Field "name" true (TUnion [TString; TNull]); Field "zone_type" true (TUnion [TString; TNull]);
      Field "description" true (TUnion [TString; TNull]); Field "enabled" true (TUnion [TBool; TNull]);
      Field "ttl_default" true (TUnion [TNumber; TNull]);
      Field "forwarder" true (TUnion [TString; TNull]) ]).
Proof. vm_compute. reflexivity. Qed.

Lemma lookup_RecordIn :
  lookup_schema "RecordIn" = Some (Obj
    [ Field "name" false TString; Field "record_type" false TString; Field "data" false TString;
      Field "ttl" true (TUnion [TNumber; TNull]); Field "priority" true (TUnion [TNumber; TNull]);
      Field "enabled" false TBool ]).
Proof. vm_compute. reflexivity. Qed.

Lemma lookup_RecordUpdate :
  lookup_schema "RecordUpdate" = Some (Obj
    [ Field "name" true (TUnion [TString; TNull]); Field "record_type" true (TUnion [TString; TNull]);
      Field "data" true (TUnion [TString; TNull]); Field "ttl" true (TUnion [TNumber; TNull]);
      Field "priority" true (TUnion [TNumber; TNull]); Field "enabled" true (TUnion [TBool; TNull]) ]).
Proof. vm_compute. reflexivity. Qed.

(** The [forwarder] a zone form sends. *)
Lemma forwarder_nullable v :
  conforms_at 1 (TUnion [TString; TNull])
    (if decide (zf_zone_type v = Some "forward") then null_json (zf_forwarder v) else JNull) = true.
Proof. case_decide; [apply null_json_nullable|done]. Qed.

Lemma zone_update_conforms v :
  conforms (TRef "ZoneUpdate") (zone_update_body v) = not_cleared (zf_ttl_default v).
Proof.
  unfold conforms, zone_update_body. rewrite <- (num_json_nullable 1).
  pose proof (forwarder_nullable v) as Hf. revert Hf.
  pose proof (str_json_nullable 1 (zf_zone_type v)) as Ht. revert Ht.
  generalize (num_json (zf_ttl_default v)) as n, (str_json (zf_zone_type v)) as ty,
    (if decide (zf_zone_type v = Some "forward") then null_json (zf_forwarder v) else JNull) as fw.
  intros n ty fw Ht Hf. by_fields lookup_ZoneUpdate. by rewrite Hf, Ht, andb_true_r.
Qed.

(** A new zone that the form accepts has a tenant, a name, a type and, to forward,
    an address; its body is a [ZoneCreate] when the TTL is a number. *)
Lemma add_zone_accepted v body :
  add_zone_submit v = Some body →
  body = add_zone_body v ∧
  truthy_opt (az_tenant_id v) = true ∧ trim (az_name v) ≠ "" ∧ truthy_opt (az_zone_type v) = true ∧
  (az_zone_type v = Some "forward" → trim (az_forwarder v) ≠ "") ∧
  conforms (TRef "ZoneCreate") body = is_num (az_ttl_default v).
Proof.
  intros [Hv ->]%onSubmit_Some. unfold add_zone_validate, err, blank, truthy in Hv.
  rewrite !Forall_cons in Hv. destruct Hv as (Ht & Hn & Hz & Hf & _). split; [done|].
  destruct (truthy_opt (az_tenant_id v)) eqn:Et; [|done]. destruct (truthy_opt (az_zone_type v)) eqn:Ez; [|done].
  assert (conforms (TRef "ZoneCreate") (add_zone_body v) = is_num (az_ttl_default v)) as Hc.
  { clear -Et Ez. unfold conforms, add_zone_body. rewrite <- (num_json_is_num 1).
    assert (conforms_at 1 (TUnion [TString; TNull])
      (if decide (az_zone_type v = Some "forward") then JStr (az_forwarder v) else JNull) = true) as Hw
      by (by case_decide).
    revert Hw. generalize (if decide (az_zone_type v = Some "forward") then JStr (az_forwarder v) else JNull).
    intros fw Hw. destruct v as [[t|] ? [ty|] ????]; try done. cbn [str_json from_option az_tenant_id az_zone_type].
    by_fields lookup_ZoneCreate. by rewrite Hw, andb_true_r. }
  repeat case_bool_decide; cbn in *; try discriminate; split_and!; naive_solver.
Qed.

Lemma showPriority_true v :
  showPriority v = true ↔ rf_record_type v = Some "MX" ∨ rf_record_type v = Some "SRV".
Proof.
  unfold showPriority, hasPriority. destruct (rf_record_type v) as [ty|]; cbn; [|naive_solver].
  rewrite orb_true_iff, !bool_decide_eq_true. naive_solver.
Qed.

Lemma record_conforms v :
  let numbers := not_cleared (rf_ttl v) && not_cleared (if showPriority v then rf_priority v else NumNull) in
  conforms (TRef "RecordIn") (record_body v) = bool_decide (is_Some (rf_record_type v)) && numbers ∧
  conforms (TRef "RecordUpdate") (record_body v) = numbers.
Proof.
  unfold conforms, record_body, num_or_null. cbn zeta.
  rewrite <- (str_json_string 1), <- !(num_json_nullable 1).
  pose proof (str_json_nullable 1 (rf_record_type v)) as Ht. revert Ht.
  generalize (num_json (rf_ttl v)) as n, (str_json (rf_record_type v)) as ty,
    (num_json (if showPriority v then rf_priority v else NumNull)) as k.
  intros n ty k Ht. split; [by_fields lookup_RecordIn|by_fields lookup_RecordUpdate; by rewrite Ht]. done.
Qed.

(** Editing a zone from the list does not start from the zone.  The modal's
    form took its values when the page was mounted with no zone chosen, so
    whichever zone is opened, and after any zones opened before it, the form
    holds a local zone without description and forwarder, and saving it
    unchanged sends exactly that for the chosen zone. *)
Theorem edit_from_list_overwrites `{UseForm zone_form} (before : list zone) (z : zone) :
  let f := edit_clicked (edit_session before) z in
  form_values f = ZoneForm (Some "local") "" true (Num 300) "" ∧
  zone_update_body (form_values f) =
    JObj [ ("zone_type", JStr "local"); ("description", JStr ""); ("enabled", JBool true);
           ("ttl_default", JInt 300); ("forwarder", JNull) ].
Proof.
  assert (form_initial (edit_session before) = edit_zone_initial None ∧
          form_values (edit_session before) = edit_zone_initial None) as [_ Hv].
  { unfold edit_session. induction before as [|y ys IH] using rev_ind;
      [cbn [foldl]; unfold list_page_mount; by autorewrite with mantis|].
    rewrite foldl_app. cbn. destruct IH as [Hi _]. unfold edit_closed, edit_clicked.
    by autorewrite with mantis. }
  intros f. assert (form_values f = ZoneForm (Some "local") "" true (Num 300) "") as ->.
  { unfold f, edit_clicked. autorewrite with mantis. by rewrite Hv. }
  split; reflexivity.
Qed.

(** The settings tab starts from the zone and keeps what was entered while
    the zone is fetched again; saved unchanged it sends the zone's own type,
    description, state and TTL, and its forwarder when it is a forward zone; the
    body is a [ZoneUpdate] of the API exactly when the TTL was not cleared. *)
Theorem settings_tab_saves_zone `{UseForm zone_form} (z z' : zone) (g : zone_form → zone_form) :
  form_values (settings_rerender (setValues g (settings_mount z)) z') = g (settings_initial z) ∧
  zone_update_body (form_values (settings_mount z)) =
    JObj [ ("zone_type", JStr (z_zone_type z)); ("description", JStr (z_description z));
           ("enabled", JBool (z_enabled z)); ("ttl_default", JInt (z_ttl_default z));
           ("forwarder", if decide (z_zone_type z = "forward" ∧ z_forwarder z ≠ Some "")
                         then str_json (z_forwarder z) else JNull) ] ∧
  (∀ v, conforms (TRef "ZoneUpdate") (zone_update_body v) = true ↔ zf_ttl_default v ≠ NumEmpty).
Proof.
  unfold settings_rerender, settings_mount. autorewrite with mantis. split_and!; [done|..].
  - unfold zone_update_body, settings_initial. cbn. do 7 f_equal.
    destruct (z_forwarder z) as [s|]; cbn; unfold null_json, or_null; repeat case_decide;
      simplify_eq; try done; exfalso; intuition congruence.
  - intros v. rewrite zone_update_conforms. by destruct (zf_ttl_default v).
Qed.

(** The record form.  It submits only with a name and data that are not
    blank; the priority is sent for MX and SRV records alone; and the body is a
    [RecordUpdate] of the API exactly when no number it sends is the empty text of
    an input that was cleared, so clearing the TTL of a record to inherit the
    zone's sends a body the API does not accept; a [RecordIn] also needs a type,
    and none is sent when the type was deselected. *)
Theorem record_form_body (v : record_form) (body : json) :
  record_submit v = Some body →
  body = record_body v ∧ trim (rf_name v) ≠ "" ∧ trim (rf_data v) ≠ "" ∧
  (showPriority v = false → ∃ l, body = JObj l ∧ obj_get "priority" l = Some JNull) ∧
  (conforms (TRef "RecordUpdate") body = true ↔
     rf_ttl v ≠ NumEmpty ∧
     (rf_record_type v = Some "MX" ∨ rf_record_type v = Some "SRV" → rf_priority v ≠ NumEmpty)) ∧
  (conforms (TRef "RecordIn") body = true ↔
     conforms (TRef "RecordUpdate") body = true ∧ is_Some (rf_record_type v)).
Proof.
  intros [Hv ->]%onSubmit_Some. unfold record_validate, err, blank in Hv.
  rewrite !Forall_cons in Hv. destruct Hv as (Hn & Hd & _). repeat case_bool_decide; try done.
  destruct (record_conforms v) as [Hi Hu]. split_and!; try done.
  - intros Hp. eexists. split; [reflexivity|]. rewrite Hp. reflexivity.
  - rewrite Hu, andb_true_iff, !not_cleared_true, <- showPriority_true.
    destruct (showPriority v); [tauto|]. split; intros [H1 _]; by split.
  - rewrite Hi, Hu, andb_true_iff, bool_decide_eq_true. tauto.
Qed.

(** ** The list *)

Lemma StronglySorted_filter {A} (R : A → A → Prop) (p : A → bool) l :
  StronglySorted R l → StronglySorted R (List.filter p l).
Proof.
  induction 1 as [|x l Hl IH Hx]; [constructor|]. cbn. destruct (p x); [|done].
  constructor; [done|]. rewrite Forall_forall in *. intros y [Hy _]%list_elem_of_In%filter_In.
  by apply Hx, list_elem_of_In.
Qed.

Lemma zone_matches_spec f z :
  zone_matches f z = true ↔
  (f_search f = "" ∨ includes (toLowerCase (z_name z)) (toLowerCase (f_search f)) = true ∨
   includes (toLowerCase (z_description z)) (toLowerCase (f_search f)) = true) ∧
  (f_type f = "" ∨ z_zone_type z = f_type f) ∧
  (f_status f = "active" → z_enabled z = true) ∧ (f_status f = "disabled" → z_enabled z = false).
Proof.
  unfold zone_matches, truthy.
  destruct (includes (toLowerCase (z_name z)) _), (includes (toLowerCase (z_description z)) _),
    (z_enabled z); repeat case_bool_decide; cbn; naive_solver.
Qed.

(** The list shows exactly the zones the filters select, each as often as
    the control plane returned it, sorted by name: an empty search, type or
    status filters nothing, a search looks at name and description without
    regard to case, and the two statuses split the zones. *)
Theorem visible_zones_spec (lc : string → string → Z) `{!LocaleOrder lc}
    (f : zone_filters) (zones : list zone) :
  visible_zones lc f zones ≡ₚ List.filter (zone_matches f) zones ∧
  StronglySorted (before lc z_name) (visible_zones lc f zones) ∧
  (∀ z, z ∈ visible_zones lc f zones ↔ z ∈ zones ∧
     (f_search f = "" ∨ includes (toLowerCase (z_name z)) (toLowerCase (f_search f)) = true ∨
      includes (toLowerCase (z_description z)) (toLowerCase (f_search f)) = true) ∧
     (f_type f = "" ∨ z_zone_type z = f_type f) ∧
     (f_status f = "active" → z_enabled z = true) ∧ (f_status f = "disabled" → z_enabled z = false)).
Proof.
  assert (visible_zones lc f zones ≡ₚ List.filter (zone_matches f) zones) as Hp.
  { unfold visible_zones, sorted_zones. generalize (sort_perm lc z_name zones).
    induction 1; cbn; repeat case_match; try done; try (by constructor); by etrans. }
  split; [done|]. split; [by apply StronglySorted_filter, sort_sorted|].
  intros z. rewrite Hp, list_elem_of_In, filter_In, <- list_elem_of_In, zone_matches_spec. done.
Qed.

(** ** Examples *)

Definition zone0 : zone := Zone "z1" "corp.local" "forward" "Office" false 60 (Some "10.0.0.53") 4.

Lemma visible_zones_spec_witness :
  zone0 ∈ visible_zones code_unit_compare (ZoneFilters "CORP" "" "disabled") [zone0].
Proof.
  apply (visible_zones_spec code_unit_compare (ZoneFilters "CORP" "" "disabled") [zone0]).
  split_and!; [left|right; left; vm_compute; reflexivity|left; reflexivity|discriminate|reflexivity].
Defined.

Lemma edit_from_list_overwrites_witness :
  form_values (edit_clicked (H := pair_form zone_form) (edit_session [zone0]) zone0) =
    ZoneForm (Some "local") "" true (Num 300) "" ∧
  edit_zone_initial (Some zone0) = ZoneForm (Some "forward") "Office" false (Num 60) "10.0.0.53".
Proof.
  split; [|reflexivity].
  exact (proj1 (edit_from_list_overwrites (H := pair_form zone_form) [zone0] zone0)).
Defined.

Lemma settings_tab_saves_zone_witness :
  form_values (settings_rerender (H := pair_form zone_form)
    (setValues (λ v, v) (settings_mount zone0)) zone0) = settings_initial zone0.
Proof.
  exact (proj1 (settings_tab_saves_zone (H := pair_form zone_form) zone0 zone0 (λ v, v))).
Defined.

Lemma record_form_body_witness :
  record_submit (RecordForm "www" (Some "A") "10.0.0.1" NumEmpty NumNull true) =
    Some (record_body (RecordForm "www" (Some "A") "10.0.0.1" NumEmpty NumNull true)) ∧
  conforms (TRef "RecordUpdate") (record_body (RecordForm "www" (Some "A") "10.0.0.1" NumEmpty NumNull true)) ≠ true ∧
  conforms (TRef "RecordUpdate") (record_body (RecordForm "www" (Some "A") "10.0.0.1" NumNull NumNull true)) = true.
Proof.
  split; [vm_compute; reflexivity|]. split.
  - destruct (record_form_body (RecordForm "www" (Some "A") "10.0.0.1" NumEmpty NumNull true) _ eq_refl)
      as (_ & _ & _ & _ & [Hc _] & _). intros [Ht _]%Hc. by apply Ht.
  - destruct (record_form_body (RecordForm "www" (Some "A") "10.0.0.1" NumNull NumNull true) _ eq_refl)
      as (_ & _ & _ & _ & [_ Hc] & _). apply Hc. split; [discriminate|]. intros [Hm|Hm]; discriminate Hm.
Defined.
