(* ===== verification/Dhcp.v ===== *)
(** * DHCP scopes and reservations

    [pages/dhcp/ScopesTab.tsx] and [pages/dhcp/ReservationsTab.tsx]: the scope form
    and the body it sends, and the reservation form.  The forms are mounted each
    time their modal opens, so a form starts from its [initialValues]. *)

From S2P Require Import Prelude JsText Json JsonRoundtrip Schema Queries Format Forms.

(** ** Scopes *)

(** [DhcpScope], with the fields the form edits. *)
Record scope_values := Scope {
  s_tenant_id : string;
  s_name : string;
  s_description : option string;
  s_subnet : string;
  s_range_start : string;
  s_range_end : string;
  s_router_ip : option string;
  s_dns_servers : list string;
  s_ntp_server : option string;
  s_domain_name : option string;
  s_interface : option string;
  s_lease_time_s : Z;
  s_max_lease_time_s : Z;
  s_ddns_enabled : bool;
  s_ddns_zone_id : option string;
  s_ddns_ttl_s : Z;
  s_pxe_next_server : option string;
  s_pxe_boot_filename : option string;
  s_pxe_uefi_boot_filename : option string;
  s_enabled : bool;
}.

(** A select is [null] once its option was chosen again or cleared. *)
Record scope_form := ScopeForm {
  sf_tenant_id : option string;
  sf_name : string;
  sf_description : string;
  sf_subnet : string;
  sf_range_start : string;
  sf_range_end : string;
  sf_router_ip : string;
  sf_dns_servers : string;
  sf_ntp_server : string;
  sf_domain_name : string;
  sf_interface : string;
  sf_lease_time_s : num_value;
  sf_max_lease_time_s : num_value;
  sf_ddns_enabled : bool;
  sf_ddns_zone_id : option string;
  sf_ddns_ttl_s : num_value;
  sf_pxe_next_server : string;
  sf_pxe_boot_filename : string;
  sf_pxe_uefi_boot_filename : string;
  sf_enabled : bool;
}.

(** [initialValues] of the scope form. *)
Definition scope_initial (i : option scope_values) : scope_form :=
  let str (get : scope_values → string) := from_option get "" i in
  let opt (get : scope_values → option string) := default "" (i ≫= get) in
  let num (get : scope_values → Z) (d : Z) := Num (from_option get d i) in
  ScopeForm (Some (str s_tenant_id)) (str s_name) (opt s_description) (str s_subnet)
    (str s_range_start) (str s_range_end) (opt s_router_ip)
    (join ", " (from_option s_dns_servers [] i))
    (opt s_ntp_server) (opt s_domain_name) (opt s_interface)
    (num s_lease_time_s 86400%Z) (num s_max_lease_time_s 604800%Z)
    (from_option s_ddns_enabled false i) (Some (opt s_ddns_zone_id)) (num s_ddns_ttl_s 300%Z)
    (opt s_pxe_next_server) (opt s_pxe_boot_filename) (opt s_pxe_uefi_boot_filename)
    (from_option s_enabled true i).

(** [/^\d+\.\d+\.\d+\.\d+\/\d+$/.test(s)] *)
Definition all_digits (s : string) : bool := truthy s && sforall is_digit s.

Definition is_cidr (s : string) : bool :=
  match split_on "/" s with
  | [a; l] => bool_decide (length (split_on "." a) = 4) && forallb all_digits (split_on "." a) && all_digits l
  | _ => false
  end.

(** [editing] tells a scope that has an id from a new one. *)
Definition scope_validate (editing : bool) (v : scope_form) : list (option string) :=
  let required s := err (negb (truthy (trim s))) "Required" in
  [ err (negb editing && negb (truthy_opt (sf_tenant_id v))) "Required";
    required (sf_name v);
    (if truthy (trim (sf_subnet v))
     then err (negb (is_cidr (trim (sf_subnet v)))) "Must be CIDR (e.g. 10.0.1.0/24)"
     else Some "Required");
    required (sf_range_start v);
    required (sf_range_end v) ].

(** [v.dns_servers.split(',').map((s) => s.trim()).filter(Boolean)] *)
Definition parse_servers (s : string) : list string :=
  List.filter truthy (trim <$> split_on "," s).

(** The payload.  [payload.tenant_id = v.tenant_id], for a new scope, writes the
    value that [...v] has already put there. *)
Definition scope_payload (v : scope_form) : json :=
  JObj [ ("tenant_id", str_json (sf_tenant_id v)); ("name", JStr (sf_name v));
         ("description", null_json (sf_description v)); ("subnet", JStr (sf_subnet v));
         ("range_start", JStr (sf_range_start v)); ("range_end", JStr (sf_range_end v));
         ("router_ip", null_json (sf_router_ip v));
         ("dns_servers", JArr (JStr <$> parse_servers (sf_dns_servers v)));
         ("ntp_server", null_json (sf_ntp_server v)); ("domain_name", null_json (sf_domain_name v));
         ("interface", null_json (sf_interface v));
         ("lease_time_s", num_json (sf_lease_time_s v));
         ("max_lease_time_s", num_json (sf_max_lease_time_s v));
         ("ddns_enabled", JBool (sf_ddns_enabled v)); ("ddns_zone_id", str_json (sf_ddns_zone_id v ≫= or_null));
         ("ddns_ttl_s", num_json (sf_ddns_ttl_s v));
         ("pxe_next_server", null_json (sf_pxe_next_server v));
         ("pxe_boot_filename", null_json (sf_pxe_boot_filename v));
         ("pxe_uefi_boot_filename", null_json (sf_pxe_uefi_boot_filename v));
         ("enabled", JBool (sf_enabled v)) ].

(** [submit] and [save] of the scopes tab: the request for an accepted form, an
    update of the scope with the id given or a new scope. *)
Definition scope_save (editing : option string) (v : scope_form) : option call :=
  onSubmit (scope_validate (bool_decide (is_Some editing)))
    (λ v, match editing with
          | Some id => mutationFn useUpdateDhcpScope (id, scope_payload v)
          | None => mutationFn useCreateDhcpScope (scope_payload v)
          end) v.

(** The switch of a row: [update({ id, body: { enabled: !s.enabled } })]. *)
Definition scope_toggle (id : string) (enabled : bool) : call :=
  mutationFn useUpdateDhcpScope (id, JObj [("enabled", JBool (negb enabled))]).

(** [interfaceOptions]: the fetched interfaces and the scope's own, once each. *)
Definition interfaceOptions (interfaces : option (list string)) (current : option string) : list string :=
  foldl (λ acc x, if decide (x ∈ acc) then acc else acc ++ [x]) []
    (default [] interfaces ++
     match current with Some c => if truthy c then [c] else [] | None => [] end).

(** ** Reservations *)

Record reservation := Reservation {
  rv_id : option string;
  rv_mac_address : string;
  rv_ip_address : string;
  rv_hostname : option string;
  rv_description : option string;
  rv_client_id : option string;
  rv_next_server : option string;
  rv_boot_filename : option string;
  rv_uefi_boot_filename : option string;
  rv_enabled : option bool;
}.

Record reservation_form := ReservationForm {
  vf_mac_address : string;
  vf_ip_address : string;
  vf_hostname : string;
  vf_description : string;
  vf_client_id : string;
  vf_next_server : string;
  vf_boot_filename : string;
  vf_uefi_boot_filename : string;
  vf_enabled : bool;
}.

Definition reservation_initial (i : option reservation) : reservation_form :=
  let opt (get : reservation → option string) := default "" (i ≫= get) in
  ReservationForm (from_option rv_mac_address "" i) (from_option rv_ip_address "" i)
    (opt rv_hostname) (opt rv_description) (opt rv_client_id) (opt rv_next_server)
    (opt rv_boot_filename) (opt rv_uefi_boot_filename) (default true (i ≫= rv_enabled)).

Definition reservation_validate (v : reservation_form) : list (option string) :=
  [ err (bool_decide (normalizeMac (vf_mac_address v) = None)) "Format: aa:bb:cc:dd:ee:ff";
    err (negb (truthy (trim (vf_ip_address v)))) "Required" ].

Definition reservation_payload (v : reservation_form) : json :=
  JObj [ ("mac_address", JStr (default (vf_mac_address v) (normalizeMac (vf_mac_address v))));
         ("ip_address", JStr (vf_ip_address v)); ("hostname", null_json (vf_hostname v));
         ("description", null_json (vf_description v)); ("client_id", null_json (vf_client_id v));
         ("next_server", null_json (vf_next_server v));
         ("boot_filename", null_json (vf_boot_filename v));
         ("uefi_boot_filename", null_json (vf_uefi_boot_filename v));
         ("enabled", JBool (vf_enabled v)) ].

(** The search box of the tab. *)
Definition reservation_matches (q : string) (r : reservation) : bool :=
  includes (toLowerCase (rv_mac_address r)) q || includes (toLowerCase (rv_ip_address r)) q ||
  includes (toLowerCase (default "" (rv_hostname r))) q.

Definition filtered (search : string) (rs : list reservation) : list reservation :=
  let q := toLowerCase (trim search) in
  if truthy q then List.filter (reservation_matches q) rs else rs.

(** What a lease hands over to the reservations tab. *)
Record prefill := Prefill { pf_ip : string; pf_mac : option string }.

(** [{ mac_address: prefill.mac_address ?? "", ip_address: prefill.ip_address }] *)
Definition prefilled (f : prefill) : reservation :=
  Reservation None (default "" (pf_mac f)) (pf_ip f) None None None None None None None.

(** ** Lemmas *)

(** The servers after the first, each behind a comma and a space. *)
Lemma parse_servers_tail s l :
  item_ok s = true → forallb item_ok l = true →
  parse_servers (String " " (join ", " (s :: l))) = s :: l.
Proof.
  revert s. induction l as [|s' l IH]; intros s Hs Hl; unfold parse_servers.
  - cbn [join]. rewrite split_on_none by (cbn; by apply item_ok_no_comma).
    cbn -[trim]. rewrite trim_space_item by done.
    by rewrite item_ok_truthy.
  - cbn in Hl. bools. rewrite join_cons.
    change (", " +:+ ?x) with (String "," (String " " x)). rewrite <- sapp_cons.
    rewrite split_on_cons by (cbn; by apply item_ok_no_comma).
    rewrite fmap_cons, trim_space_item by done. cbn [List.filter].
    rewrite item_ok_truthy by done. f_equal. by apply IH.
Qed.

Lemma parse_servers_join l : forallb item_ok l = true → parse_servers (join ", " l) = l.
Proof.
  destruct l as [|s [|s' l]]; [done|..]; cbn [forallb]; intros ?; bools; unfold parse_servers.
  - cbn [join]. rewrite split_on_none by (by apply item_ok_no_comma). cbn -[trim].
    destruct (item_ok_visible _ H) as [_ Hv]. rewrite trim_visible by done.
    by rewrite item_ok_truthy.
  - rewrite join_cons. change (", " +:+ ?x) with (String "," (String " " x)).
    rewrite split_on_cons by (by apply item_ok_no_comma).
    destruct (item_ok_visible _ H) as [_ Hv].
    rewrite fmap_cons, trim_visible by done. cbn [List.filter].
    rewrite item_ok_truthy by done. f_equal. by apply parse_servers_tail.
Qed.

(** What the API holds of a scope, as the body that sets it. *)
Definition scope_json (s : scope_values) : json :=
  JObj [ ("tenant_id", JStr (s_tenant_id s)); ("name", JStr (s_name s));
         ("description", str_json (s_description s)); ("subnet", JStr (s_subnet s));
         ("range_start", JStr (s_range_start s)); ("range_end", JStr (s_range_end s));
         ("router_ip", str_json (s_router_ip s)); ("dns_servers", JArr (JStr <$> s_dns_servers s));
         ("ntp_server", str_json (s_ntp_server s)); ("domain_name", str_json (s_domain_name s));
         ("interface", str_json (s_interface s)); ("lease_time_s", JInt (s_lease_time_s s));
         ("max_lease_time_s", JInt (s_max_lease_time_s s));
         ("ddns_enabled", JBool (s_ddns_enabled s)); ("ddns_zone_id", str_json (s_ddns_zone_id s));
         ("ddns_ttl_s", JInt (s_ddns_ttl_s s)); ("pxe_next_server", str_json (s_pxe_next_server s));
         ("pxe_boot_filename", str_json (s_pxe_boot_filename s));
         ("pxe_uefi_boot_filename", str_json (s_pxe_uefi_boot_filename s));
         ("enabled", JBool (s_enabled s)) ].

(** The optional texts of a scope are absent rather than empty. *)
Definition scope_texts_ok (s : scope_values) : Prop :=
  Forall (λ o, o ≠ Some "")
    [ s_description s; s_router_ip s; s_ntp_server s; s_domain_name s; s_interface s;
      s_ddns_zone_id s; s_pxe_next_server s; s_pxe_boot_filename s; s_pxe_uefi_boot_filename s ].

Lemma scope_unchanged s :
  scope_texts_ok s → forallb item_ok (s_dns_servers s) = true →
  scope_payload (scope_initial (Some s)) = scope_json s.
Proof.
  intros Ht Hd. unfold scope_texts_ok in Ht. rewrite !Forall_cons in Ht.
  unfold scope_payload, scope_initial, scope_json. cbn -[null_json parse_servers join str_json].
  rewrite parse_servers_join by done.
  rewrite !null_json_default by tauto. do 16 f_equal. destruct (s_ddns_zone_id s) as [[]|]; cbn; naive_solver.
Qed.

(** Editing a scope without a change sends the scope as it is: the text of
    the DNS servers reads back to the same list, and an option that is not set
    stays [null]. *)
Theorem scope_form_roundtrip (s : scope_values) :
  scope_texts_ok s → forallb item_ok (s_dns_servers s) = true →
  scope_payload (scope_initial (Some s)) = scope_json s.
Proof. apply scope_unchanged. Qed.

Lemma lookup_ScopeCreate :
  lookup_schema "ScopeCreate" = Some (Obj
    [ Field "tenant_id" false (TString);
      Field "name" false (TString);
      Field "description" true (TUnion [TString; TNull]);
      Field "subnet" false (TString);
      Field "range_start" false (TString);
      Field "range_end" false (TString);
      Field "router_ip" true (TUnion [TString; TNull]);
      Field "dns_servers" false (TArr (TString));
      Field "ntp_server" true (TUnion [TString; TNull]);
      Field "domain_name" true (TUnion [TString; TNull]);
      Field "interface" true (TUnion [TString; TNull]);
      Field "vlan_id" true (TUnion [TNumber; TNull]);
      Field "lease_time_s" false (TNumber);
      Field "max_lease_time_s" false (TNumber);
      Field "renew_time_s" true (TUnion [TNumber; TNull]);
      Field "rebind_time_s" true (TUnion [TNumber; TNull]);
      Field "ddns_enabled" false (TBool);
      Field "ddns_zone_id" true (TUnion [TString; TNull]);
      Field "ddns_ttl_s" false (TNumber);
      Field "pxe_next_server" true (TUnion [TString; TNull]);
      Field "pxe_boot_filename" true (TUnion [TString; TNull]);
      Field "pxe_uefi_boot_filename" true (TUnion [TString; TNull]);
      Field "enabled" false (TBool) ]).
Proof. vm_compute. reflexivity. Qed.

Lemma lookup_ScopeUpdate :
  lookup_schema "ScopeUpdate" = Some (Obj
    [ Field "name" true (TUnion [TString; TNull]);
      Field "description" true (TUnion [TString; TNull]);
      Field "range_start" true (TUnion [TString; TNull]);
      Field "range_end" true (TUnion [TString; TNull]);
      Field "router_ip" true (TUnion [TString; TNull]);
      Field "dns_servers" true (TUnion [TArr (TString); TNull]);
      Field "ntp_server" true (TUnion [TString; TNull]);
      Field "domain_name" true (TUnion [TString; TNull]);
      Field "interface" true (TUnion [TString; TNull]);
      Field "vlan_id" true (TUnion [TNumber; TNull]);
      Field "lease_time_s" true (TUnion [TNumber; TNull]);
      Field "max_lease_time_s" true (TUnion [TNumber; TNull]);
      Field "renew_time_s" true (TUnion [TNumber; TNull]);
      Field "rebind_time_s" true (TUnion [TNumber; TNull]);
      Field "ddns_enabled" true (TUnion [TBool; TNull]);
      Field "ddns_zone_id" true (TUnion [TString; TNull]);
      Field "ddns_ttl_s" true (TUnion [TNumber; TNull]);
      Field "pxe_next_server" true (TUnion [TString; TNull]);
      Field "pxe_boot_filename" true (TUnion [TString; TNull]);
      Field "pxe_uefi_boot_filename" true (TUnion [TString; TNull]);
      Field "enabled" true (TUnion [TBool; TNull]) ]).
Proof. vm_compute. reflexivity. Qed.

Lemma lookup_ReservationCreate :
  lookup_schema "ReservationCreate" = Some (Obj
    [ Field "mac_address" false (TString);
      Field "ip_address" false (TString);
      Field "hostname" true (TUnion [TString; TNull]);
      Field "description" true (TUnion [TString; TNull]);
      Field "client_id" true (TUnion [TString; TNull]);
      Field "next_server" true (TUnion [TString; TNull]);
      Field "boot_filename" true (TUnion [TString; TNull]);
      Field "uefi_boot_filename" true (TUnion [TString; TNull]);
      Field "enabled" false (TBool) ]).
Proof. vm_compute. reflexivity. Qed.

Lemma lookup_ReservationUpdate :
  lookup_schema "ReservationUpdate" = Some (Obj
    [ Field "mac_address" true (TUnion [TString; TNull]);
      Field "ip_address" true (TUnion [TString; TNull]);
      Field "hostname" true (TUnion [TString; TNull]);
      Field "description" true (TUnion [TString; TNull]);
      Field "client_id" true (TUnion [TString; TNull]);
      Field "next_server" true (TUnion [TString; TNull]);
      Field "boot_filename" true (TUnion [TString; TNull]);
      Field "uefi_boot_filename" true (TUnion [TString; TNull]);
      Field "enabled" true (TUnion [TBool; TNull]) ]).
Proof. vm_compute. reflexivity. Qed.

Lemma servers_conform n l : conforms_at n (TArr TString) (JArr (JStr <$> l)) = true.
Proof. apply conforms_arr, Forall_true. intros x. by destruct n. Qed.

Lemma scope_create_conforms v :
  conforms (TRef "ScopeCreate") (scope_payload v) =
  bool_decide (is_Some (sf_tenant_id v)) &&
  (is_num (sf_lease_time_s v) && is_num (sf_max_lease_time_s v) && is_num (sf_ddns_ttl_s v)).
Proof.
  unfold conforms, scope_payload. pose proof (servers_conform 1 (parse_servers (sf_dns_servers v))) as Hl.
  pose proof (str_json_nullable 1 (sf_ddns_zone_id v ≫= or_null)) as Hz.
  rewrite <- !(num_json_is_num 1), <- (str_json_string 1).
  revert Hl Hz. generalize (JArr (JStr <$> parse_servers (sf_dns_servers v))) as l.
  generalize (str_json (sf_ddns_zone_id v ≫= or_null)) (str_json (sf_tenant_id v)). intros z t l Hl Hz.
  destruct v. by_fields lookup_ScopeCreate.
  rewrite !null_json_nullable, Hl, Hz. cbn [andb]. by rewrite ?andb_true_r, <- !andb_assoc.
Qed.

(** The fields of the payload that [ScopeUpdate] does not have. *)
Definition not_updatable : list string := ["tenant_id"; "subnet"].

Definition drop_fields (names : list string) (j : json) : json :=
  match j with
  | JObj l => JObj (List.filter (λ kv, bool_decide (kv.1 ∉ names)) l)
  | _ => j
  end.

Lemma nullable_union n l :
  conforms_at n (TArr TString) (JArr l) = true → conforms_at n (TUnion [TArr TString; TNull]) (JArr l) = true.
Proof. destruct n; cbn; intros ->; done. Qed.

Lemma scope_update_conforms v :
  conforms (TRef "ScopeUpdate") (drop_fields not_updatable (scope_payload v)) =
  not_cleared (sf_lease_time_s v) && not_cleared (sf_max_lease_time_s v) && not_cleared (sf_ddns_ttl_s v).
Proof.
  pose proof (nullable_union 1 _ (servers_conform 1 (parse_servers (sf_dns_servers v)))) as Hl.
  pose proof (str_json_nullable 1 (sf_ddns_zone_id v ≫= or_null)) as Hz.
  unfold conforms, scope_payload. revert Hl Hz.
  generalize (JArr (JStr <$> parse_servers (sf_dns_servers v))) as l.
  generalize (str_json (sf_ddns_zone_id v ≫= or_null)) (str_json (sf_tenant_id v)). intros z t l Hl Hz.
  rewrite <- !(num_json_nullable 1).
  match goal with |- context [drop_fields ?a (JObj ?b)] =>
    let c := eval lazy -[num_json null_json] in (drop_fields a (JObj b)) in
    change (drop_fields a (JObj b)) with c end.
  destruct v. by_fields lookup_ScopeUpdate.
  rewrite !null_json_nullable, Hl, Hz. cbn [andb]. by rewrite andb_true_r, <- andb_assoc.
Qed.

Lemma scope_update_rejects v : conforms (TRef "ScopeUpdate") (scope_payload v) = false.
Proof.
  unfold conforms, scope_payload. generalize (JArr (JStr <$> parse_servers (sf_dns_servers v))) as l.
  intros l. destruct v. rewrite (conforms_ref _ _ _ _ lookup_ScopeUpdate).
  unfold fields_ok. apply andb_false_iff. right. reflexivity.
Qed.

Lemma reservation_conforms lk v :
  lk = "ReservationCreate" ∨ lk = "ReservationUpdate" →
  conforms (TRef lk) (reservation_payload v) = true.
Proof.
  unfold conforms, reservation_payload.
  generalize (default (vf_mac_address v) (normalizeMac (vf_mac_address v))) as mac.
  intros mac [-> | ->]; destruct v; [by_fields lookup_ReservationCreate|by_fields lookup_ReservationUpdate];
    by rewrite !null_json_nullable.
Qed.

(** What the scope form sends.  An accepted form has a subnet in CIDR
    notation.  A new scope has a tenant, and its body is a [ScopeCreate] of the
    API exactly when the three number inputs are filled in.  The body of an edit
    never is a [ScopeUpdate]: it carries the tenant and the subnet, which an
    update does not have, so a change of the subnet is not applied; without these
    two fields the body is one exactly when no number input was cleared. *)
Theorem scope_save_schema (editing : option string) (v : scope_form) (c : call) :
  scope_save editing v = Some c →
  is_cidr (trim (sf_subnet v)) = true ∧
  match editing with
  | None =>
      c = RawPost [Lit "/api/v1/dhcp/scopes"] (scope_payload v) ∧ (∃ t, sf_tenant_id v = Some t ∧ t ≠ "") ∧
      (conforms (TRef "ScopeCreate") (scope_payload v) = true ↔
         is_num (sf_lease_time_s v) ∧ is_num (sf_max_lease_time_s v) ∧ is_num (sf_ddns_ttl_s v))
  | Some id =>
      c = RawPatch [Lit "/api/v1/dhcp/scopes/"; Sub (Some id)] (scope_payload v) ∧
      conforms (TRef "ScopeUpdate") (scope_payload v) = false ∧
      (conforms (TRef "ScopeUpdate") (drop_fields not_updatable (scope_payload v)) = true ↔
         sf_lease_time_s v ≠ NumEmpty ∧ sf_max_lease_time_s v ≠ NumEmpty ∧ sf_ddns_ttl_s v ≠ NumEmpty)
  end.
Proof.
  intros [Hv ->]%onSubmit_Some. unfold scope_validate, err in Hv.
  rewrite !Forall_cons in Hv. destruct Hv as (Ht & _ & Hs & _). split.
  { destruct (truthy (trim (sf_subnet v))); [|done]. by destruct (is_cidr _). }
  destruct editing as [id|]; split_and!; try done.
  - apply scope_update_rejects.
  - rewrite scope_update_conforms.
    destruct (sf_lease_time_s v), (sf_max_lease_time_s v), (sf_ddns_ttl_s v); cbn; naive_solver.
  - destruct (sf_tenant_id v) as [t|]; [|done]. exists t. split; [done|]. by intros ->.
  - rewrite scope_create_conforms, !andb_true_iff, !Is_true_true, bool_decide_eq_true.
    destruct (sf_tenant_id v); [|done]. naive_solver.
Qed.

(** ** Examples *)

Definition scope0 : scope_values :=
  Scope "t1" "LAN" None "10.8.1.0/24" "10.8.1.10" "10.8.1.200" (Some "10.8.1.1") ["10.0.0.1"; "8.8.8.8"]
    None None None 86400 604800 false None 300 None None None true.

Lemma scope_form_roundtrip_witness : scope_payload (scope_initial (Some scope0)) = scope_json scope0.
Proof. apply scope_form_roundtrip; [by repeat constructor|vm_compute; reflexivity]. Defined.

Lemma scope_save_schema_witness :
  conforms (TRef "ScopeUpdate") (scope_payload (scope_initial (Some scope0))) = false.
Proof.
  exact (proj1 (proj2 (proj2 (scope_save_schema (Some "s1") (scope_initial (Some scope0))
    (RawPatch [Lit "/api/v1/dhcp/scopes/"; Sub (Some "s1")] (scope_payload (scope_initial (Some scope0))))
    ltac:(vm_compute; reflexivity))))).
Defined.
