(* ===== verification/Logs.v ===== *)
(** * The query log and the audit log

    [pages/QueryLogPage.tsx] and [pages/AuditPage.tsx]: the filters of the query
    log in the URL with their debounced text inputs, the filter of the audit log,
    and the paging of both.  A page is asked for by limit and offset. *)

From S2P Require Import Prelude JsText Json JsonRoundtrip Web Hooks Queries.

(** ** Paging *)

(** [Math.floor(offset / size) + 1] *)
Definition page_number (size offset : Z) : Z := (math_floor_div offset size + 1)%Z.
Definition hasPrev (offset : Z) : bool := (0 <? offset)%Z.
(** [(data?.length ?? 0) === size] *)
Definition hasNext {A} (size : Z) (data : option (list A)) : bool :=
  (Z.of_nat (from_option length O data) =? size)%Z.
Definition prev_offset (size offset : Z) : Z := Z.max 0 (offset - size).
Definition next_offset (size offset : Z) : Z := (offset + size)%Z.

(** ** The audit log *)

Record audit_page := AuditPage { resourceType : option string; audit_offset : Z }.

Definition audit_init : audit_page := AuditPage None 0.

Definition handleResourceTypeChange (v : option string) (p : audit_page) : audit_page := AuditPage v 0.
Definition audit_prev (p : audit_page) : audit_page :=
  if hasPrev (audit_offset p)
  then AuditPage (resourceType p) (prev_offset AUDIT_PAGE_SIZE (audit_offset p)) else p.
Definition audit_next {A} (data : option (list A)) (p : audit_page) : audit_page :=
  if hasNext AUDIT_PAGE_SIZE data
  then AuditPage (resourceType p) (next_offset AUDIT_PAGE_SIZE (audit_offset p)) else p.

(** The query of the page: [useAuditLog(resourceType ?? undefined, offset)]. *)
Definition audit_query (p : audit_page) : query := useAuditLog (resourceType p) (audit_offset p).

Definition ACTION_COLOR : list (string * string) :=
  [("create", "green"); ("update", "blue"); ("delete", "red"); ("compile", "grape")].

Definition colorFor (action : string) : string :=
  let verb := match split_on "." action with _ :: v :: _ => v | _ => action end in
  default "gray" (snd <$> List.find (λ kv, bool_decide (kv.1 = verb)) ACTION_COLOR).

(** ** The query log *)

Definition defaults : list (string * string) :=
  [ ("decision", ""); ("hours", "24"); ("qname", ""); ("client_ip", ""); ("qtype", "");
    ("category", ""); ("offset", "0") ].

(** The URL, and the two text inputs with their debounced values. *)
Record query_log := QueryLog {
  url : UrlFilters.history;
  qnameInput : string;
  debouncedQname : string;
  clientIpInput : string;
  debouncedClientIp : string;
}.

(** [filters.k] *)
Definition filter_value (k : string) (p : query_log) : string :=
  default "" (UrlFilters.read defaults (UrlFilters.current (url p)) k).

(** [Number(s)] of a decimal integer; [None] for any other text. *)
Definition number_int (s : string) : option Z :=
  match parse_int s with Some (n, "") => Some n | _ => None end.

(** [Number(filters.offset || 0)] *)
Definition log_offset (p : query_log) : option Z :=
  let s := filter_value "offset" p in if truthy s then number_int s else Some 0%Z.

(** [filters.hours ? Number(filters.hours) : undefined] *)
Definition log_hours (p : query_log) : option Z :=
  let s := filter_value "hours" p in if truthy s then number_int s else None.

(** [setFilters(patch)] of the page. *)
Definition set_filters (patch : list (string * option string)) (p : query_log) : query_log :=
  QueryLog (UrlFilters.setFilters defaults patch (url p)) (qnameInput p) (debouncedQname p)
    (clientIpInput p) (debouncedClientIp p).

(** The component mounts with the inputs as the URL has them. *)
Definition log_mount (h : UrlFilters.history) : query_log :=
  let p := QueryLog h "" "" "" "" in
  let q := filter_value "qname" p in
  let c := filter_value "client_ip" p in
  QueryLog h q q c c.

Definition handleDecisionChange (v : string) : query_log → query_log :=
  set_filters [("decision", Some v); ("offset", Some "0")].
Definition handleHoursChange (v : string) : query_log → query_log :=
  set_filters [("hours", Some v); ("offset", Some "0")].
Definition handleQnameChange (v : string) (p : query_log) : query_log :=
  set_filters [("offset", Some "0")]
    (QueryLog (url p) v (debouncedQname p) (clientIpInput p) (debouncedClientIp p)).
Definition handleClientIpChange (v : string) (p : query_log) : query_log :=
  set_filters [("offset", Some "0")]
    (QueryLog (url p) (qnameInput p) (debouncedQname p) v (debouncedClientIp p)).
Definition handleQtypeChange (v : option string) : query_log → query_log :=
  set_filters [("qtype", Some (default "" v)); ("offset", Some "0")].
Definition handleCategoryChange (v : option string) : query_log → query_log :=
  set_filters [("category", Some (default "" v)); ("offset", Some "0")].

(** A text input has settled: the debounced value follows, and its effect puts
    it into the URL. *)
Definition qname_settled (p : query_log) : query_log :=
  set_filters [("qname", Some (qnameInput p))]
    (QueryLog (url p) (qnameInput p) (qnameInput p) (clientIpInput p) (debouncedClientIp p)).
Definition client_ip_settled (p : query_log) : query_log :=
  set_filters [("client_ip", Some (clientIpInput p))]
    (QueryLog (url p) (qnameInput p) (debouncedQname p) (clientIpInput p) (clientIpInput p)).

(** The two buttons, with the rows on screen for Next. *)
Definition log_prev (p : query_log) : query_log :=
  match log_offset p with
  | Some o => if hasPrev o
              then set_filters [("offset", Some (Z_str (prev_offset QUERY_LOG_PAGE_SIZE o)))] p else p
  | None => p
  end.
Definition log_next {A} (data : option (list A)) (p : query_log) : query_log :=
  match log_offset p with
  | Some o => if hasNext QUERY_LOG_PAGE_SIZE data
              then set_filters [("offset", Some (Z_str (next_offset QUERY_LOG_PAGE_SIZE o)))] p else p
  | None => p
  end.

(** The query sent, for an offset that is a number. *)
Definition log_query (p : query_log) : option query :=
  o ← log_offset p;
  Some (useQueryLog (QueryLogParams o (or_null (filter_value "decision" p)) None
    (or_null (debouncedQname p)) (or_null (debouncedClientIp p)) (or_null (filter_value "qtype" p))
    (or_null (filter_value "category" p)) (log_hours p))).

Inductive log_action :=
| SetDecision (v : string) | SetHours (v : string) | TypeQname (v : string) | TypeClientIp (v : string)
| QnameSettled | ClientIpSettled | SetQtype (v : option string) | SetCategory (v : option string)
| PrevPage | NextPage (rows : nat).

Definition log_step (p : query_log) (a : log_action) : query_log :=
  match a with
  | SetDecision v => handleDecisionChange v p
  | SetHours v => handleHoursChange v p
  | TypeQname v => handleQnameChange v p
  | TypeClientIp v => handleClientIpChange v p
  | QnameSettled => qname_settled p
  | ClientIpSettled => client_ip_settled p
  | SetQtype v => handleQtypeChange v p
  | SetCategory v => handleCategoryChange v p
  | PrevPage => log_prev p
  | NextPage n => log_next (Some (replicate n ())) p
  end.

(** Choosing a filter and typing in a search input, as opposed to the pages and to a
    typed text that settles. *)
Definition selects (a : log_action) : bool :=
  match a with PrevPage | NextPage _ | QnameSettled | ClientIpSettled => false | _ => true end.

(** ** Lemmas *)

Lemma number_int_Z_str n : (0 ≤ n)%Z → number_int (Z_str n) = Some n.
Proof.
  intros Hn. unfold number_int. rewrite <- (Z.abs_eq n) at 1 by done.
  rewrite Z_str_abs, <- (sapp_nil_r (pretty _)), parse_int_pretty by done. f_equal. lia.
Qed.

Lemma truthy_Z_str n : truthy (Z_str n) = true.
Proof. destruct (Z_str_head n) as (c & t & -> & _). done. Qed.

Lemma filter_value_same k v patch p d :
  Params.get k defaults = Some d → NoDup patch.*1 → (k, Some v) ∈ patch →
  filter_value k (set_filters patch p) = v.
Proof.
  intros Hd Hn Hin. unfold filter_value. cbn [url set_filters UrlFilters.current UrlFilters.setFilters].
  rewrite UrlFilters.read_spec, Hd, (UrlFilters.get_apply_same _ _ _ _ (Some v)) by done. rewrite Hd.
  cbn. case_decide; [by simplify_eq|done].
Qed.

Lemma filter_value_other k patch p :
  k ∉ patch.*1 → filter_value k (set_filters patch p) = filter_value k p.
Proof.
  intros Hk. unfold filter_value. cbn [url set_filters UrlFilters.current UrlFilters.setFilters].
  by rewrite !UrlFilters.read_spec, UrlFilters.get_apply_other.
Qed.

Lemma log_offset_set n p :
  (0 ≤ n)%Z → log_offset (set_filters [("offset", Some (Z_str n))] p) = Some n.
Proof.
  intros Hn. unfold log_offset. rewrite (filter_value_same _ (Z_str n) _ _ "0");
    [|done|apply NoDup_singleton|by left]. by rewrite truthy_Z_str, number_int_Z_str.
Qed.

Lemma log_offset_zero p : log_offset (set_filters [("offset", Some "0")] p) = Some 0%Z.
Proof.
  unfold log_offset. rewrite (filter_value_same _ "0" _ _ "0"); [done|done|apply NoDup_singleton|by left].
Qed.

Lemma log_offset_reset k v p :
  k ≠ "offset" → log_offset (set_filters [(k, v); ("offset", Some "0")] p) = Some 0%Z.
Proof.
  intros Hk. unfold log_offset. rewrite (filter_value_same _ "0" _ _ "0"); [done|done| |by right; left].
  apply NoDup_cons. split; [|apply NoDup_singleton]. by intros ?%list_elem_of_singleton.
Qed.

Lemma log_offset_keep k v p :
  k ≠ "offset" → log_offset (set_filters [(k, v)] p) = log_offset p.
Proof.
  intros Hk. unfold log_offset. rewrite filter_value_other; [done|]. cbn.
  by intros ?%list_elem_of_singleton.
Qed.

#[local] Opaque log_offset.

(** The offset is that of a page. *)
Definition at_page (p : query_log) : Prop := ∃ k, (0 ≤ k)%Z ∧ log_offset p = Some (k * QUERY_LOG_PAGE_SIZE)%Z.

Lemma log_step_selects p a : selects a = true → log_offset (log_step p a) = Some 0%Z.
Proof.
  destruct a; try discriminate; intros _; cbn [log_step];
    unfold handleDecisionChange, handleHoursChange, handleQnameChange, handleClientIpChange,
      handleQtypeChange, handleCategoryChange;
    first [rewrite log_offset_zero; reflexivity | rewrite log_offset_reset by discriminate; reflexivity].
Qed.

Lemma log_step_settled p :
  log_offset (log_step p QnameSettled) = log_offset p ∧
  log_offset (log_step p ClientIpSettled) = log_offset p.
Proof.
  split; cbn [log_step]; unfold qname_settled, client_ip_settled; rewrite log_offset_keep by discriminate; reflexivity.
Qed.

Lemma hasNext_replicate n : hasNext QUERY_LOG_PAGE_SIZE (Some (replicate n ())) = (Z.of_nat n =? 50)%Z.
Proof. unfold hasNext. cbn [from_option]. by rewrite length_replicate. Qed.

Lemma log_next_offset n p o :
  log_offset p = Some o → (0 ≤ o)%Z →
  log_offset (log_step p (NextPage n)) = Some (if Nat.eqb n 50 then o + 50 else o)%Z.
Proof.
  intros Ho Hp. cbn [log_step]. unfold log_next. rewrite Ho, hasNext_replicate.
  destruct (Nat.eqb_spec n 50) as [->|Hn].
  - change (Z.of_nat 50 =? 50)%Z with true. cbv iota. rewrite log_offset_set; [done|]. unfold next_offset, QUERY_LOG_PAGE_SIZE. lia.
  - replace (Z.of_nat n =? 50)%Z with false by (symmetry; apply Z.eqb_neq; lia). done.
Qed.

Lemma log_prev_offset p o :
  log_offset p = Some o → (0 ≤ o)%Z →
  log_offset (log_step p PrevPage) = Some (Z.max 0 (o - 50)).
Proof.
  intros Ho Hp. cbn [log_step]. unfold log_prev. rewrite Ho. unfold hasPrev.
  destruct (Z.ltb_spec 0 o).
  - rewrite log_offset_set; [done|]. unfold prev_offset. lia.
  - rewrite Ho. f_equal. lia.
Qed.

(** The query of the page's selection at an offset. *)
Definition selected (p : query_log) (o : Z) : query :=
  useQueryLog (QueryLogParams o (or_null (filter_value "decision" p)) None
    (or_null (debouncedQname p)) (or_null (debouncedClientIp p)) (or_null (filter_value "qtype" p))
    (or_null (filter_value "category" p)) (log_hours p)).

Lemma log_query_selected p : log_query p = selected p <$> log_offset p.
Proof. unfold log_query. by destruct (log_offset p). Qed.

(** A change of the offset alone keeps every filter and the search inputs, and so the
    selection. *)
Definition same_filters (p p' : query_log) : Prop :=
  (∀ k, k ≠ "offset" → filter_value k p' = filter_value k p) ∧
  qnameInput p' = qnameInput p ∧ debouncedQname p' = debouncedQname p ∧
  clientIpInput p' = clientIpInput p ∧ debouncedClientIp p' = debouncedClientIp p.

Lemma set_offset_same v p : same_filters p (set_filters [("offset", Some v)] p).
Proof.
  split; [|done]. intros k Hk. apply filter_value_other. cbn. by intros ?%list_elem_of_singleton.
Qed.

Lemma same_filters_selected p p' o : same_filters p p' → selected p' o = selected p o.
Proof.
  intros (Hf & _ & Hq & _ & Hc). unfold selected, log_hours. by rewrite !Hf, Hq, Hc by done.
Qed.

Lemma log_paging_keeps p n : same_filters p (log_step p (NextPage n)) ∧ same_filters p (log_step p PrevPage).
Proof.
  assert (same_filters p p) as Hp by done.
  split; cbn [log_step]; unfold log_next, log_prev; destruct (log_offset p); try done; case_match;
    auto using set_offset_same.
Qed.

(** C37: paging the query log.  From a page's offset, every action leads to a page's
    offset, never below the first.  Choosing a filter or typing in a search input goes
    back to the first page.  Next does nothing on a page that is not full and else asks
    for the same selection one page further; Previous, for the same selection one page
    back; neither touches any filter, in the URL or typed, and Previous undoes Next.
    A typed text enters the URL and the query when it settles, at the offset the page
    has then: a Next clicked in between, on rows of the selection before, leaves the
    new search on its second page. *)
Theorem query_log_paging (p : query_log) (a : log_action) (v : string) :
  at_page p →
  at_page (log_step p a) ∧
  (selects a = true → log_offset (log_step p a) = Some 0%Z) ∧
  (∀ n, n ≠ 50 → log_step p (NextPage n) = p) ∧
  (∀ o, log_offset p = Some o →
     log_query p = Some (selected p o) ∧
     log_query (log_step p (NextPage 50)) = Some (selected p (o + 50)) ∧
     log_query (log_step p PrevPage) = Some (selected p (Z.max 0 (o - 50)))) ∧
  (∀ n, same_filters p (log_step p (NextPage n)) ∧ same_filters p (log_step p PrevPage)) ∧
  log_offset (log_step (log_step p (NextPage 50)) PrevPage) = log_offset p ∧
  log_offset (log_step p QnameSettled) = log_offset p ∧
  log_offset (log_step p ClientIpSettled) = log_offset p ∧
  (let p' := foldl log_step p [TypeQname v; NextPage 50; QnameSettled] in
   debouncedQname p' = v ∧ filter_value "qname" p' = v ∧ log_query p' = Some (selected p' 50)).
Proof.
  intros (k & Hk & Ho). assert (0 ≤ k * QUERY_LOG_PAGE_SIZE)%Z as Hp by (unfold QUERY_LOG_PAGE_SIZE; lia).
  split_and!.
  - unfold at_page. destruct (selects a) eqn:Hs.
    + exists 0%Z. by rewrite log_step_selects.
    + destruct a; try discriminate.
      1, 2: exists k; by rewrite ?(proj1 (log_step_settled p)), ?(proj2 (log_step_settled p)).
      * exists (Z.max 0 (k - 1)). rewrite (log_prev_offset _ _ Ho Hp). unfold QUERY_LOG_PAGE_SIZE in *.
        split; [lia|]. f_equal. lia.
      * rewrite (log_next_offset _ _ _ Ho Hp) by done. unfold QUERY_LOG_PAGE_SIZE in *.
        destruct (Nat.eqb rows 50); [exists (k + 1)%Z|exists k]; (split; [lia|f_equal; lia]).
  - apply log_step_selects.
  - intros n Hn. cbn [log_step]. unfold log_next. rewrite Ho, hasNext_replicate.
    by replace (Z.of_nat n =? 50)%Z with false by (symmetry; apply Z.eqb_neq; lia).
  - intros o Hoo. rewrite Ho in Hoo. simplify_eq.
    rewrite !log_query_selected, Ho, (log_next_offset _ _ _ Ho Hp), (log_prev_offset _ _ Ho Hp). cbn.
    split_and!; [done|..]; f_equal; apply same_filters_selected, (log_paging_keeps p 50).
  - intros n. apply log_paging_keeps.
  - rewrite (log_prev_offset _ (k * 50 + 50)); [rewrite Ho; f_equal; unfold QUERY_LOG_PAGE_SIZE; lia| |lia].
    by rewrite (log_next_offset _ _ _ Ho Hp).
  - apply log_step_settled.
  - apply log_step_settled.
  - cbn [foldl]. set (p1 := log_step p (TypeQname v)). set (p2 := log_step p1 (NextPage 50)).
    assert (qnameInput p2 = v) as Hv by apply (log_paging_keeps p1 50).
    assert (log_offset p2 = Some 50%Z) as H2 by (by apply (log_next_offset 50 p1 0); [apply log_step_selects|]).
    split_and!; [done| |by rewrite log_query_selected, (proj1 (log_step_settled p2)), H2].
    cbn [log_step]. unfold qname_settled. rewrite Hv.
    apply (filter_value_same _ _ _ _ ""); [done|apply NoDup_singleton|by left].
Qed.

Lemma query_log_paging_witness :
  log_offset (log_step (log_step (log_mount (UrlFilters.History [] [("offset", "100")])) (NextPage 50)) PrevPage)
  = Some 100%Z ∧
  let p := foldl log_step (log_mount (UrlFilters.History [] [])) [TypeQname "ads"; NextPage 50; QnameSettled] in
  log_query p = Some (selected p 50).
Proof.
  assert (at_page (log_mount (UrlFilters.History [] [("offset", "100")]))) as Hp.
  { exists 2%Z. split; [lia|vm_compute; reflexivity]. }
  assert (at_page (log_mount (UrlFilters.History [] []))) as Hq.
  { exists 0%Z. split; [lia|vm_compute; reflexivity]. }
  destruct (query_log_paging _ PrevPage "" Hp) as (_ & _ & _ & _ & _ & Hb & _).
  destruct (query_log_paging _ PrevPage "ads" Hq) as (_ & _ & _ & _ & _ & _ & _ & _ & _ & _ & Hs).
  split; [rewrite Hb; vm_compute; reflexivity|exact Hs].
Defined.

(** *** Walking through the audit log *)

Section walk.
Context {A : Type}.
(** The entries of the selected resource type, and the answer to limit and
    offset. *)
Variable entries : list A.
Definition serve (offset : Z) : list A := take (Z.to_nat AUDIT_PAGE_SIZE) (drop (Z.to_nat offset) entries).

(** The page after [n] clicks on Next. *)
Fixpoint walk (p : audit_page) (n : nat) : audit_page :=
  match n with
  | O => p
  | S m => let p' := walk p m in audit_next (Some (serve (audit_offset p'))) p'
  end.

Definition rows_at (p : audit_page) (n : nat) : list A := serve (audit_offset (walk p n)).

(** The first [n] pages were full. *)
Definition all_full (p : audit_page) (n : nat) : Prop :=
  ∀ k, k < n → hasNext AUDIT_PAGE_SIZE (Some (rows_at p k)) = true.

Lemma walk_offset p n :
  audit_offset p = 0%Z → all_full p n →
  audit_offset (walk p n) = (Z.of_nat n * 50)%Z ∧ resourceType (walk p n) = resourceType p.
Proof.
  intros H0 Hf. induction n as [|n IH]; [cbn [walk]; by rewrite H0|].
  destruct IH as [Ho Hr]; [intros k Hk; apply Hf; lia|].
  cbn [walk]. unfold audit_next. pose proof (Hf n ltac:(lia)) as Hn. unfold rows_at in Hn. rewrite Hn.
  cbn [audit_offset resourceType]. rewrite Ho, Hr. unfold next_offset, AUDIT_PAGE_SIZE. split; [lia|done].
Qed.

Lemma pages_take p n :
  audit_offset p = 0%Z → all_full p n →
  concat (rows_at p <$> seq 0 (S n)) = take (S n * 50) entries.
Proof.
  intros H0 Hf. induction n as [|n IH].
  - cbn. unfold rows_at, serve. cbn [walk]. rewrite H0, app_nil_r. done.
  - rewrite seq_S, fmap_app, concat_app, IH by (intros k Hk; apply Hf; lia).
    cbn [fmap list_fmap concat]. rewrite app_nil_r. unfold rows_at, serve.
    destruct (walk_offset p (S n) H0 Hf) as [Ho _]. replace (0 + S n) with (S n) by lia. rewrite Ho.
    replace (Z.to_nat (Z.of_nat (S n) * 50)) with (S n * 50) by lia.
    change (Z.to_nat AUDIT_PAGE_SIZE) with 50. rewrite take_take_drop. f_equal. lia.
Qed.

Lemma hasNext_length p n :
  audit_offset p = 0%Z → all_full p n →
  hasNext AUDIT_PAGE_SIZE (Some (rows_at p n)) = (S n * 50 <=? length entries)%nat.
Proof.
  intros H0 Hf. destruct (walk_offset p n H0 Hf) as [Ho _].
  unfold hasNext, rows_at, serve. cbn [from_option]. rewrite length_take, length_drop, Ho.
  replace (Z.to_nat (Z.of_nat n * 50)) with (n * 50) by lia.
  change (Z.to_nat AUDIT_PAGE_SIZE) with 50. unfold AUDIT_PAGE_SIZE.
  destruct (Nat.leb_spec (S n * 50) (length entries)); [apply Z.eqb_eq; lia|apply Z.eqb_neq; lia].
Qed.
End walk.

(** C38: walking through the audit log with Next, from the first page of any
    resource type, shows every entry exactly once and in order: as long as the
    pages are full, the pages up to [n] are the first entries and page [n] is
    numbered [n + 1]; Next is disabled exactly when the rest has been shown, which
    happens after at most one page per fifty entries. *)
Theorem audit_walk_complete {A} (entries : list A) (rt : option string) (q : audit_page) (n : nat) :
  let p := handleResourceTypeChange rt q in
  all_full entries p n →
  audit_query (walk entries p n) = useAuditLog rt (Z.of_nat n * 50) ∧
  page_number AUDIT_PAGE_SIZE (audit_offset (walk entries p n)) = (Z.of_nat n + 1)%Z ∧
  concat (rows_at entries p <$> seq 0 (S n)) = take (S n * 50) entries ∧
  (hasNext AUDIT_PAGE_SIZE (Some (rows_at entries p n)) = false →
     concat (rows_at entries p <$> seq 0 (S n)) = entries) ∧
  n * 50 ≤ length entries.
Proof.
  intros p Hf. assert (audit_offset p = 0%Z) as H0 by done.
  destruct (walk_offset entries p n H0 Hf) as [Ho Hr].
  rewrite (pages_take entries p n H0 Hf), (hasNext_length entries p n H0 Hf).
  split_and!.
  - unfold audit_query. by rewrite Ho, Hr.
  - rewrite Ho. unfold page_number, math_floor_div, AUDIT_PAGE_SIZE. rewrite Z.div_mul; lia.
  - done.
  - intros Hn%Nat.leb_gt. apply take_ge. lia.
  - destruct n as [|n]; [lia|].
    pose proof (Hf n ltac:(lia)) as Hn. rewrite hasNext_length in Hn by (done || intros k ?; apply Hf; lia).
    by apply Nat.leb_le in Hn.
Qed.

Lemma audit_walk_complete_witness :
  let p := handleResourceTypeChange (Some "feed") audit_init in
  concat (rows_at (seq 0 120) p <$> seq 0 3) = seq 0 120.
Proof.
  intros p. apply (audit_walk_complete (seq 0 120) (Some "feed") audit_init 2).
  - intros k Hk. destruct k as [|[|k]]; [vm_compute; reflexivity|vm_compute; reflexivity|lia].
  - vm_compute. reflexivity.
Defined.
