(* ===== verification/Widgets.v ===== *)
(** * The widgets of the dashboard

    [pages/dashboard/widgets/*.tsx] and the figures of [pages/DashboardPage.tsx]:
    what each widget shows of its data, the change against the period before, and
    where a click leads.  The links lead to the query log with filters in the URL;
    [Analytics.v] composes them with the page that opens.  Ratios are binary64
    numbers. *)

From Stdlib Require Import Sorted.
From S2P Require Import Prelude JsText Json Web Search Hooks Queries Format Logs.

(** ** Numbers *)

(** [m / 2^k], a finite binary64 number that is not negative. *)
Definition double : Type := Z * Z.

Definition double_lt (a b : double) : bool := (a.1 * 2 ^ b.2 <? b.1 * 2 ^ a.2)%Z.
Definition double_of (n : Z) : double := (n, 0%Z).

(** [x * 100], and the quotient of two integers, rounded. *)
Definition times100 (x : double) : double := double_div (100 * x.1) (2 ^ x.2).
Definition quotient (a b : Z) : double := double_div a b.

(** [x.toFixed(0)], [x.toFixed(1)] and [x.toFixed(2)] *)
Definition fixed0 (x : double) : string := Z_str (math_round_double x.1 x.2).
Definition fixed1 (x : double) : string := toFixed1 (tenths x.1 x.2).
Definition fixed2 (x : double) : string :=
  let n := hundredths x.1 x.2 in
  Z_str (n / 100) +:+ "." +:+ (if (n mod 100 <? 10)%Z then "0" else "") +:+ Z_str (n mod 100).

(** [Math.abs(a - b)] of two doubles, and its sign. *)
Definition double_diff (a b : double) : Z * double :=
  let d := (a.1 * 2 ^ b.2 - b.1 * 2 ^ a.2)%Z in
  (Z.sgn d, double_div (Z.abs d) (2 ^ (a.2 + b.2))).

(** [l.sort((a, b) => key(b) - key(a))], which is stable. *)
Fixpoint desc_insert {A} (key : A → Z) (x : A) (l : list A) : list A :=
  match l with
  | [] => [x]
  | y :: r => if (key y <=? key x)%Z then x :: l else y :: desc_insert key x r
  end.
Definition sort_desc {A} (key : A → Z) (l : list A) : list A := foldr (desc_insert key) [] l.

(** ** Links to the query log *)

(** [queryLogHref(hours, params)]; a parameter that is undefined or empty is left
    out. *)
Definition href_params (hours : Z) (params : list (string * option string)) : list (string * string) :=
  foldl (λ s kv, if truthy_opt kv.2 then Params.set kv.1 (default "" kv.2) s else s)
    [("hours", Z_str hours)] params.

Definition queryLogHref (hours : Z) (params : list (string * option string)) : string :=
  "/query-log?" +:+ search_text (href_params hours params).

(** ** Data *)

Record top_domain := TopDomain { td_qname : string; td_decision : string; td_count : Z }.

Record summary := Summary {
  total_queries : Z;
  blocked_queries : Z;
  allowed_queries : Z;
  block_ratio : double;
  cache_hit_ratio : double;
  unique_clients : Z;
  tenant_count : Z;
  group_count : Z;
  top_blocked_domains : list top_domain;
}.

Record group_stat := GroupStat {
  g_group_id : string;
  g_group_name : string;
  g_tenant_name : string;
  g_total : Z;
  g_blocked : Z;
  g_block_ratio : double;
}.

Record top_client := TopClient {
  tc_client_ip : string;
  tc_hostname : option string;
  tc_owner : option string;
  tc_group_name : option string;
  tc_total : Z;
  tc_block_ratio : double;
}.

(** The percentages of [CategoryBreakdown] and [MixSlice] are printed as they are. *)
Record category_stat := CategoryStat { cs_category : string; cs_pct : json }.
Record mix_slice := Slice { ms_label : string; ms_pct : json }.

Record recent_event := RecentEvent {
  re_client_ip : option string;
  re_client_name : option string;
  re_qname : string;
  re_decision : string;
  re_matched_category : option string;
  re_matched_feed_id : option string;
  re_group_name : option string;
}.

Record feed_item := FeedItem {
  fi_id : string;
  fi_provider : string;
  fi_category_id : string;
  fi_enabled : bool;
  fi_last_domain_count : option Z;
}.

Record point := Point { pt_bucket : string; pt_allowed : Z; pt_blocked : Z }.

(** ** The widgets *)

(** What a widget shows: a spinner, a text, or rows with their links. *)
Inductive widget (R : Type) := WLoading | WEmpty (message : string) | WRows (rows : list R).
Arguments WLoading {R}.
Arguments WEmpty {R}.
Arguments WRows {R}.

(** [loading ? <Loader/> : !data || data.length === 0 ? message : rows] *)
Definition listing {A R} (loading : bool) (message : string) (row : A → R) (data : option (list A)) : widget R :=
  if loading then WLoading
  else match data with
  | None | Some [] => WEmpty message
  | Some l => WRows (row <$> l)
  end.

Definition category_link (hours : Z) (c : string) : string :=
  queryLogHref hours [("category", Some c); ("decision", Some "block")].

Definition CategoriesWidget (hours : Z) (loading : bool) (data : option (list category_stat)) :
    widget (list string * string) :=
  listing loading "No categorised blocks in this window."
    (λ c, ([cs_category c; js_String (cs_pct c) +:+ "%"], category_link hours (cs_category c))) data.

(** The donut: its slices, its label, and the two rows under it. *)
Record donut := Donut {
  d_slices : list (string * Z * string);
  d_label : string;
  d_rows : list (string * string * string);
}.

Definition decision_link (hours : Z) (decision : string) : string :=
  queryLogHref hours [("decision", Some decision)].

Section counts.
(** [n.toLocaleString()] *)
Variable toLocaleString : Z → string.

Definition DecisionWidget (hours : Z) (s : option summary) : donut :=
  let total := from_option total_queries 0%Z s in
  let blocked := from_option blocked_queries 0%Z s in
  let allowed := from_option allowed_queries 0%Z s in
  if (0 <? total)%Z
  then Donut [("Allowed", allowed, "blue.5"); ("Blocked", blocked, "red.5")]
         (fixed1 (times100 (quotient allowed total)) +:+ "% allowed")
         [("Allowed", toLocaleString allowed, decision_link hours "allow");
          ("Blocked", toLocaleString blocked, decision_link hours "block")]
  else Donut [("No data", 1%Z, "gray.3")] "" [].

Definition feed_health (f : feed_item) : string * string :=
  if negb (fi_enabled f) then ("gray", "disabled")
  else match fi_last_domain_count f with None => ("yellow", "pending") | Some _ => ("green", "ok") end.

(** The rows, and the line for the feeds that are not listed. *)
Definition FeedHealthWidget (data : option (list feed_item)) :
    widget (string * string * string * option string) * option string :=
  (listing false "No feeds configured."
     (λ f, ((feed_health f).1, if truthy (fi_provider f) then fi_provider f else fi_id f, fi_category_id f,
            (λ n, toLocaleString n +:+ " domains") <$> fi_last_domain_count f))
     (firstn 8 <$> data),
   let n := from_option length 0 data in
   if decide (8 < n) then Some ("+" +:+ Z_str (Z.of_nat (n - 8)) +:+ " more") else None).

(** The rows of the group table, and a click on one: the page's [groupScope]. *)
Definition GroupBreakdownWidget (loading : bool) (scoped : option string) (data : option (list group_stat)) :
    widget (list string * bool) :=
  listing loading "No group telemetry yet."
    (λ g, ([g_tenant_name g; g_group_name g; toLocaleString (g_total g); toLocaleString (g_blocked g);
            fixed0 (times100 (g_block_ratio g)) +:+ "%"], bool_decide (scoped = Some (g_group_id g))))
    (Some (sort_desc g_total (default [] data))).

Definition click_group_row (id : string) (scope : option string) : option string :=
  if decide (scope = Some id) then None else Some id.

Definition client_link (hours : Z) (ip : string) : string := queryLogHref hours [("client_ip", Some ip)].

Definition ratio_color (r : double) : string :=
  if double_lt (quotient 3 10) r then "red" else if double_lt (quotient 1 10) r then "yellow" else "green".

Definition TopClientsWidget (hours : Z) (loading : bool) (data : option (list top_client)) :
    widget (list string * string * string) :=
  listing loading "No client telemetry in this window."
    (λ c, ([tc_client_ip c; default "" (tc_hostname c); default "—" (tc_owner c); default "—" (tc_group_name c);
            toLocaleString (tc_total c); fixed0 (times100 (tc_block_ratio c)) +:+ "%"],
           ratio_color (tc_block_ratio c), client_link hours (tc_client_ip c))) data.

Definition domain_link (hours : Z) (qname decision : string) : string :=
  queryLogHref hours [("qname", Some qname); ("decision", Some decision)].

Definition TopDomainsWidget (hours : Z) (loading : bool) (data : option (list top_domain)) :
    widget (list string * string) :=
  listing loading "No blocked queries in this window."
    (λ '(i, d), ([Z_str (Z.of_nat i + 1); td_qname d; toLocaleString (td_count d)],
                 domain_link hours (td_qname d) (td_decision d)))
    (imap pair <$> data).
End counts.

(** [us] is a number of microseconds, possibly with a fraction. *)
Definition fmtUs (us : option double) : string :=
  match us with
  | None => "—"
  | Some x =>
      if double_lt x (double_of 1000) then Z_str (math_round_double x.1 x.2) +:+ " µs"
      else fixed1 (double_div x.1 (1000 * 2 ^ x.2)) +:+ " ms"
  end.

Record latency_stats := LatencyStats {
  p50_us : option double; p95_us : option double; p99_us : option double; sample_count : Z
}.

Definition LatencyWidget (loading : bool) (data : option latency_stats) : widget (string * string) :=
  if loading then WLoading
  else match data with
  | Some d => if (sample_count d =? 0)%Z then WEmpty "No latency samples in this window."
              else WRows [("p50", fmtUs (p50_us d)); ("p95", fmtUs (p95_us d)); ("p99", fmtUs (p99_us d))]
  | None => WEmpty "No latency samples in this window."
  end.

(** One column of the query mix: at most five slices. *)
Definition MixColumn (slices : list mix_slice) : widget (string * string) :=
  listing false "No data" (λ s, (ms_label s, js_String (ms_pct s) +:+ "%")) (Some (firstn 5 slices)).

(** The points of the chart; the chart is left out when all of them are zero. *)
Definition QueryVolumeWidget (toLocaleTimeString : string → string) (loading : bool) (data : option (list point)) :
    widget (string * Z * Z) :=
  let chartData := (λ p, (toLocaleTimeString (pt_bucket p), pt_allowed p, pt_blocked p)) <$> default [] data in
  if loading then WLoading
  else if forallb (λ p, (p.1.2 =? 0)%Z && (p.2 =? 0)%Z) chartData
  then WEmpty "No query telemetry in this window." else WRows chartData.

Definition event_link (hours : Z) (e : recent_event) : string :=
  queryLogHref hours [("qname", Some (re_qname e)); ("decision", Some (re_decision e))].

Definition RecentEventsWidget (hours : Z) (loading : bool) (data : option (list recent_event)) :
    widget (list string * string) :=
  listing loading "No block events recorded yet."
    (λ e, ([default "—" (re_client_ip e); default "" (re_client_name e); re_qname e;
            if truthy_opt (re_matched_category e) then default "" (re_matched_category e) else "—";
            default "—" (re_matched_feed_id e); default "—" (re_group_name e)],
           event_link hours e)) data.

(** ** The figures above the widgets *)

Definition TIME_SEGMENTS : list (Z * string) := [(1, "1h"); (6, "6h"); (24, "24h"); (168, "7d"); (720, "30d")]%Z.

Definition rangeLabel (hours : Z) : string :=
  default (Z_str hours +:+ "h") (snd <$> List.find (λ s, (s.1 =? hours)%Z) TIME_SEGMENTS).

Definition arrow (sgn : Z) : string := if (0 <? sgn)%Z then "▲" else if (sgn <? 0)%Z then "▼" else "".

Definition relativeDelta (label : string) (cur prev : option Z) : option string :=
  match cur, prev with
  | Some c, Some p =>
      if (p =? 0)%Z then if (0 <? c)%Z then Some ("new vs prior " +:+ label) else None
      else Some (arrow (c - p) +:+ fixed0 (times100 (quotient (Z.abs (c - p)) p)) +:+ "% vs prior " +:+ label)
  | _, _ => None
  end.

Definition pointDelta (label : string) (cur prev : option double) : option string :=
  match cur, prev with
  | Some c, Some p =>
      let '(sgn, d) := double_diff c p in
      Some (arrow sgn +:+ fixed1 (times100 d) +:+ "pts vs prior " +:+ label)
  | _, _ => None
  end.

(** [summaryLoading ? "…" : summaryError ? "—" : value] *)
Definition kpi_value (loading : bool) (error : option string) (value : string) : string :=
  if loading then "…" else match error with Some _ => "—" | None => value end.
Definition kpi_sub (error : option string) (sub : option string) : option string :=
  match error with Some _ => None | None => sub end.

Definition kpi_strip (toLocaleString : Z → string) (hours : Z) (loading : bool) (error : option string)
    (s prev : option summary) : list (string * string * option string) :=
  let n (get : summary → Z) := toLocaleString (from_option get 0%Z s) in
  let pct (get : summary → double) := fixed1 (times100 (from_option get (double_of 0) s)) +:+ "%" in
  let card label value sub := (label, kpi_value loading error value, kpi_sub error sub) in
  [ card "Total queries" (n total_queries)
      (relativeDelta (rangeLabel hours) (total_queries <$> s) (total_queries <$> prev));
    card "Block ratio" (pct block_ratio)
      (pointDelta (rangeLabel hours) (block_ratio <$> s) (block_ratio <$> prev));
    card "Cache hit" (pct cache_hit_ratio)
      (pointDelta (rangeLabel hours) (cache_hit_ratio <$> s) (cache_hit_ratio <$> prev));
    card "Active clients" (n unique_clients)
      (relativeDelta (rangeLabel hours) (unique_clients <$> s) (unique_clients <$> prev));
    card "Tenants" (n tenant_count) (Some (Z_str (from_option group_count 0%Z s) +:+ " groups")) ].

(** [summaryError ?? tsError ?? ...]: the first error, for the banner. *)
Definition dashboardError (errors : list (option string)) : option string :=
  foldr (λ e r, match e with Some _ => e | None => r end) None errors.

(** The options of the group select. *)
Definition groupOptions (data : option (list group_stat)) : list (string * string) :=
  (λ g, (g_group_id g, g_tenant_name g +:+ " / " +:+ g_group_name g)) <$> default [] data.

(** ** Failures *)

(** When the summary failed to load, no figure of the dashboard shows a number
    and no change is shown, whatever was loaded before; the banner shows an error
    exactly when one of the queries failed. *)
Theorem kpi_strip_blank (tls : Z → string) (hours : Z) (loading : bool) (e : string) (s prev : option summary)
    (errors : list (option string)) :
  Forall (λ c, (c.1.2 = "—" ∨ c.1.2 = "…") ∧ c.2 = None) (kpi_strip tls hours loading (Some e) s prev) ∧
  (loading = false → Forall (λ c, c.1.2 = "—") (kpi_strip tls hours loading (Some e) s prev)) ∧
  (is_Some (dashboardError errors) ↔ ∃ e, Some e ∈ errors).
Proof.
  split_and!.
  - unfold kpi_strip, kpi_value, kpi_sub. repeat apply Forall_cons_2; [..|apply Forall_nil_2];
      cbn; destruct loading; auto.
  - intros ->. unfold kpi_strip, kpi_value. repeat apply Forall_cons_2; [..|apply Forall_nil_2]; done.
  - induction errors as [|[x|] errors IH]; cbn.
    + split; [by intros [? ?]|]. by intros (? & ?%not_elem_of_nil).
    + split; [|by eauto]. intros _. exists x. left.
    + rewrite IH. split; intros [y Hy]; exists y; [by right|]. by apply elem_of_cons in Hy as [?|?].
Qed.

Lemma kpi_strip_blank_witness :
  Forall (λ c, c.1.2 = "—") (kpi_strip Z_str 24 false (Some "503: down") None None).
Proof. apply (kpi_strip_blank Z_str 24 false "503: down" None None []). reflexivity. Defined.
