(* ===== verification/Analytics.v ===== *)
(** * Analytics, and the way into the query log

    [pages/AnalyticsPage.tsx]: the time range, the derived figures, the ranking of
    blocked domains and of groups.  A click on a row here or in a widget of the
    dashboard opens the query log; the last part shows that it opens on the rows
    that were clicked. *)

From Stdlib Require Import Sorted.
From S2P Require Import Prelude JsText Json JsonRoundtrip Web Search Hooks Queries Format Logs Widgets.

(** ** The page *)

Definition TIME_RANGES : list (string * Z) := [("1h", 1); ("6h", 6); ("24h", 24); ("7d", 168); ("30d", 720)]%Z.

(** [useState<number>(24)] *)
Definition initial_hours : Z := 24.

Definition range_label (hours : Z) : string :=
  default (Z_str hours +:+ "h") (fst <$> List.find (λ r, (r.2 =? hours)%Z) TIME_RANGES).

(** The queries of the page; [refresh] asks for all three again. *)
Definition analytics_queries (hours : Z) : list query :=
  [useAnalyticsSummary hours; useAnalyticsTimeseries hours; useAnalyticsByGroup hours].

Definition blockPct (s : summary) : double := times100 (block_ratio s).

Definition qpm (hours : Z) (timeseries : option (list point)) (s : summary) : string :=
  match timeseries with
  | Some (_ :: _) => if (0 <? hours)%Z then fixed2 (quotient (total_queries s) (hours * 60)) else "—"
  | _ => "—"
  end.

Definition chartData (toLocaleTimeString : string → string) (timeseries : option (list point)) :
    list (string * Z * Z) :=
  (λ p, (toLocaleTimeString (pt_bucket p), pt_allowed p, pt_blocked p)) <$> default [] timeseries.

Definition hasChart (chart : list (string * Z * Z)) : bool :=
  existsb (λ p, (0 <? p.1.2)%Z || (0 <? p.2)%Z) chart.

Definition donutData (s : summary) : list (string * Z * string) :=
  List.filter (λ d, (0 <? d.1.2)%Z)
    [("Allowed", allowed_queries s, "teal.6"); ("Blocked", blocked_queries s, "red.6")].

Definition topDomains (s : summary) : list top_domain := firstn 10 (sort_desc td_count (top_blocked_domains s)).

Definition sortedGroups (byGroup : option (list group_stat)) : list group_stat :=
  sort_desc g_total (default [] byGroup).

(** [pct > 50 ? "red" : pct > 20 ? "orange" : "teal"] *)
Definition pct_color (pct : double) : string :=
  if double_lt (double_of 50) pct then "red" else if double_lt (double_of 20) pct then "orange" else "teal".

(** The share of a domain among the blocks. *)
Definition share (totalBlocked count : Z) : double :=
  if (0 <? totalBlocked)%Z then times100 (quotient count totalBlocked) else double_of 0.

(** Where the row of a domain leads: the decision is not encoded. *)
Definition analytics_link (hours : Z) (d : top_domain) : string :=
  "/query-log?hours=" +:+ Z_str hours +:+ "&qname=" +:+ encodeURIComponent (td_qname d) +:+
  "&decision=" +:+ td_decision d.

Section view.
Variable toLocaleString : Z → string.

Definition analytics_kpis (hours : Z) (timeseries : option (list point)) (s : summary) :
    list (string * string * string) :=
  let plural (n : Z) (what : string) := Z_str n +:+ " " +:+ what +:+ (if (n =? 1)%Z then "" else "s") in
  [ ("Total queries", toLocaleString (total_queries s),
     plural (tenant_count s) "tenant" +:+ " · " +:+ plural (group_count s) "group");
    ("Blocked", toLocaleString (blocked_queries s), toLocaleString (allowed_queries s) +:+ " allowed");
    ("Block rate", fixed1 (blockPct s) +:+ "%",
     if double_lt (double_of 30) (blockPct s) then "Elevated — review policies" else "Within normal range");
    ("Queries / min", qpm hours timeseries s, "over last " +:+ range_label hours) ].

Definition domain_rows (hours : Z) (s : summary) : list (list string * string) :=
  imap (λ i d, ([Z_str (Z.of_nat i + 1); td_qname d; td_decision d; toLocaleString (td_count d);
                 fixed1 (share (blocked_queries s) (td_count d)) +:+ "%"], analytics_link hours d))
    (topDomains s).

Definition group_rows (byGroup : option (list group_stat)) : list (list string * string) :=
  (λ g, ([g_tenant_name g; g_group_name g; toLocaleString (g_total g); toLocaleString (g_blocked g);
          fixed0 (times100 (g_block_ratio g)) +:+ "%"], pct_color (times100 (g_block_ratio g)))) <$>
  sortedGroups byGroup.
End view.

(** ** The ranking *)

Lemma desc_insert_perm {A} (key : A → Z) x l : desc_insert key x l ≡ₚ x :: l.
Proof. induction l as [|y l IH]; [done|]. cbn. case_match; [done|]. rewrite IH. apply Permutation_swap. Qed.

Lemma sort_desc_perm {A} (key : A → Z) l : sort_desc key l ≡ₚ l.
Proof. induction l as [|x l IH]; [done|]. cbn. by rewrite desc_insert_perm, IH. Qed.

Definition desc {A} (key : A → Z) (x y : A) : Prop := (key y ≤ key x)%Z.

Lemma sort_desc_sorted {A} (key : A → Z) l : StronglySorted (desc key) (sort_desc key l).
Proof.
  induction l as [|x l IH]; [constructor|].
  change (sort_desc key (x :: l)) with (desc_insert key x (sort_desc key l)).
  revert IH. generalize (sort_desc key l). clear l.
  induction l as [|y l IH]; intros Hl; [by repeat constructor|]. cbn.
  apply StronglySorted_inv in Hl as [Hl Hy]. case_match eqn:E.
  - apply Z.leb_le in E. constructor; [by constructor|]. constructor; [done|].
    eapply Forall_impl; [done|]. unfold desc. intros z Hz. lia.
  - apply Z.leb_gt in E. constructor; [by apply IH|]. rewrite desc_insert_perm.
    constructor; [unfold desc; lia|done].
Qed.

Lemma StronglySorted_split {A} (R : A → A → Prop) l k x y :
  StronglySorted R (l ++ k) → x ∈ l → y ∈ k → R x y.
Proof.
  induction l as [|z l IH]; intros H Hx Hy; [by apply not_elem_of_nil in Hx|].
  apply StronglySorted_inv in H as [H Hz]. apply elem_of_cons in Hx as [->|Hx]; [|by apply IH].
  rewrite Forall_forall in Hz. apply Hz, elem_of_app. by right.
Qed.

(** ** From a row to the query log *)

(** The rows that lead to the query log: of the category, decision, domain, client
    and event widgets of the dashboard, and of the analytics page. *)
Inductive drill :=
| OfCategory (c : string)
| OfDecision (blocked : bool)
| OfDomain (d : top_domain)
| OfClient (ip : string)
| OfEvent (e : recent_event)
| OfAnalytics (d : top_domain).

Definition drill_link (hours : Z) (d : drill) : string :=
  match d with
  | OfCategory c => category_link hours c
  | OfDecision b => decision_link hours (if b then "block" else "allow")
  | OfDomain d => domain_link hours (td_qname d) (td_decision d)
  | OfClient ip => client_link hours ip
  | OfEvent e => event_link hours e
  | OfAnalytics d => analytics_link hours d
  end.

(** What the query log is to be asked for. *)
Definition drill_params (hours : Z) (d : drill) : query_log_params :=
  let ask decision qname ip category :=
    QueryLogParams 0 decision None qname ip None category (Some hours) in
  match d with
  | OfCategory c => ask (Some "block") None None (or_null c)
  | OfDecision b => ask (Some (if b then "block" else "allow")) None None None
  | OfDomain d | OfAnalytics d => ask (or_null (td_decision d)) (or_null (td_qname d)) None None
  | OfClient ip => ask None None (or_null ip) None
  | OfEvent e => ask (or_null (re_decision e)) (or_null (re_qname e)) None None
  end.

(** The page that a link opens, from the history [past] behind it. *)
Definition opened_at (past : list (list (string * string))) (to : string) : string * query_log :=
  let '(path, search) := parsePath to in
  (path, log_mount (UrlFilters.History past (parse_search search))).

(** The decision in the link of the analytics page is not encoded, so it has to be
    free of characters that mean something in a URL, as the decisions of the API
    are. *)
Definition plain_decision (d : drill) : bool :=
  match d with OfAnalytics d => sforall form_plain (td_decision d) | _ => true end.

Lemma form_plain_no_separator s : sforall form_plain s = true → sforall (λ x, negb (separator x)) s = true.
Proof. apply sforall_impl, (ascii_impl form_plain (λ c, negb (separator c))). vm_compute. reflexivity. Qed.

Lemma decode_form_plain s : sforall form_plain s = true → form_decode s = s.
Proof.
  induction s as [|c s IH]; [done|]. cbn [sforall]. intros ?; bools.
  change (String c s) with (String c "" +:+ s). rewrite decode_plain_char; [by rewrite IH|].
  apply negb_true_iff. revert H. apply (ascii_impl form_plain (λ c, negb (char_in ["+"; "%"]%char c))).
  vm_compute. reflexivity.
Qed.

Lemma Z_str_form_plain n : (0 ≤ n)%Z → sforall form_plain (Z_str n) = true.
Proof.
  intros Hn. apply Z_str_digits in Hn. revert Hn. apply sforall_impl, (ascii_impl is_digit form_plain).
  vm_compute. reflexivity.
Qed.

(** The text of search parameters has no hash in it. *)
Lemma search_text_no_hash p : sforall (λ x, negb (Ascii.eqb x "#")) (search_text p) = true.
Proof.
  unfold search_text. induction p as [|kv p IH]; [done|]. rewrite fmap_cons.
  assert (sforall (λ x, negb (Ascii.eqb x "#")) (pair_text kv) = true) as Hk.
  { unfold pair_text. rewrite !sforall_app.
    rewrite (no_separator_char "#" (form_encode kv.1)) by (done || apply form_encode_no_separator).
    by rewrite (no_separator_char "#" (form_encode kv.2)) by (done || apply form_encode_no_separator). }
  destruct p as [|kv' p]; [done|]. cbn [fmap list_fmap join] in *.
  rewrite !sforall_app, Hk. cbn [sforall andb]. exact IH.
Qed.

Lemma parsePath_query s :
  sforall (λ x, negb (Ascii.eqb x "#")) s = true → parsePath ("/query-log?" +:+ s) = ("/query-log", s).
Proof.
  intros Hs. unfold parsePath.
  assert (sforall (λ x, negb (Ascii.eqb x "#")) ("/query-log?" +:+ s) = true) as Hn
    by (rewrite sforall_app, Hs; done).
  rewrite (cut_none _ _ Hn). cbn [fst].
  change ("/query-log?" +:+ s) with ("/query-log" +:+ String "?" s). by rewrite cut_some.
Qed.

(** The query that the page sends when it opens on given search parameters. *)
Lemma log_query_opened past p hours :
  (0 ≤ hours)%Z → Params.get "hours" p = Some (Z_str hours) → Params.get "offset" p = None →
  let f k := or_null (default "" (Params.get k p)) in
  log_query (log_mount (UrlFilters.History past p)) =
  Some (useQueryLog (QueryLogParams 0 (f "decision") None (f "qname") (f "client_ip") (f "qtype") (f "category")
    (Some hours))).
Proof.
  intros Hh Hhours Hoff f.
  assert (∀ k q, url q = UrlFilters.History past p →
    filter_value k q = default "" ((λ d, default d (Params.get k p)) <$> Params.get k defaults)) as Hf.
  { intros k q Hq. unfold filter_value. by rewrite Hq, UrlFilters.read_spec. }
  set (q := log_mount (UrlFilters.History past p)).
  assert (filter_value "offset" q = "0") as Eo by (rewrite Hf by done; by rewrite Hoff).
  assert (filter_value "hours" q = Z_str hours) as Eh by (rewrite Hf by done; by rewrite Hhours).
  unfold log_query, log_offset, log_hours. rewrite Eo, Eh, truthy_Z_str, number_int_Z_str by done.
  change (debouncedQname q) with (filter_value "qname" (QueryLog (UrlFilters.History past p) "" "" "" "")).
  change (debouncedClientIp q) with (filter_value "client_ip" (QueryLog (UrlFilters.History past p) "" "" "" "")).
  rewrite !Hf by done. reflexivity.
Qed.

Lemma opened_href past hours params :
  opened_at past (queryLogHref hours params) =
  ("/query-log", log_mount (UrlFilters.History past (href_params hours params))).
Proof.
  unfold opened_at, queryLogHref. rewrite parsePath_query by apply search_text_no_hash.
  by rewrite search_roundtrip.
Qed.

Lemma opened_analytics past hours d :
  (0 ≤ hours)%Z → sforall form_plain (td_decision d) = true →
  opened_at past (analytics_link hours d) =
  ("/query-log", log_mount (UrlFilters.History past
     [("hours", Z_str hours); ("qname", td_qname d); ("decision", td_decision d)])).
Proof.
  intros Hh Hd. pose proof (Z_str_form_plain hours Hh) as Hz.
  pose proof (form_plain_no_separator _ Hz) as Hzs. pose proof (form_plain_no_separator _ Hd) as Hds.
  pose proof (uri_no_separator (td_qname d)) as Hq.
  set (search := ("hours=" +:+ Z_str hours) +:+ String "&" (("qname=" +:+ encodeURIComponent (td_qname d)) +:+
    String "&" ("decision=" +:+ td_decision d))).
  assert (analytics_link hours d = "/query-log?" +:+ search) as ->.
  { unfold analytics_link, search. by rewrite !sapp_assoc. }
  unfold opened_at. rewrite parsePath_query.
  2: { pose (P x := negb (Ascii.eqb x "#")). assert (∀ s t, sforall P s = true →
         sforall (λ x, negb (separator x)) t = true → sforall P (s +:+ t) = true) as Hp.
       { intros s t Hs Ht. rewrite sforall_app, Hs. by apply (no_separator_char "#"). }
       unfold search. fold P. rewrite sforall_app, Hp by done.
       change (sforall P (String "&" ?x)) with (sforall P x). rewrite sforall_app, Hp by done.
       change (sforall P (String "&" ?x)) with (sforall P x). by apply Hp. }
  do 3 f_equal. unfold parse_search, search.
  rewrite split_on_cons by (by apply (pair_text_no_amp "hours")).
  rewrite split_on_cons by (by apply (pair_text_no_amp "qname")).
  rewrite split_on_none by (by apply (pair_text_no_amp "decision")).
  cbn [List.filter truthy]. change (truthy (String _ _ +:+ _)) with true.
  change (truthy (?x +:+ ?y)) with true. cbn [fmap list_fmap].
  change ("hours=" +:+ ?x) with ("hours" +:+ "=" +:+ x).
  change ("qname=" +:+ ?x) with ("qname" +:+ "=" +:+ x).
  change ("decision=" +:+ ?x) with ("decision" +:+ "=" +:+ x).
  rewrite !parse_pair_text by done.
  by rewrite uri_roundtrip, !decode_form_plain.
Qed.

Lemma drill_path hours d past :
  (0 ≤ hours)%Z → plain_decision d = true → (opened_at past (drill_link hours d)).1 = "/query-log".
Proof.
  intros Hh Hd. destruct d; cbn [drill_link]; unfold category_link, decision_link, domain_link, client_link, event_link;
    by rewrite ?opened_href, ?opened_analytics.
Qed.

(** C29: a click on a row of the dashboard or of the analytics page opens the query
    log on what the row counts: the page that opens reads back, from the encoded
    URL, the time window, domain, decision, client and category of the row,
    whatever characters they hold, and asks for the first page of exactly those.
    The group the dashboard is scoped to is not among them: every link asks for
    the rows of all groups. *)
Theorem drill_down (hours : Z) (d : drill) (past : list (list (string * string))) :
  (0 ≤ hours)%Z → plain_decision d = true →
  ∃ page, opened_at past (drill_link hours d) = ("/query-log", page) ∧
    log_query page = Some (useQueryLog (drill_params hours d)) ∧
    ql_group_id (drill_params hours d) = None ∧ ql_hours (drill_params hours d) = Some hours.
Proof.
  intros Hh Hd.
  assert (ql_group_id (drill_params hours d) = None ∧ ql_hours (drill_params hours d) = Some hours) as Hg
    by (by destruct d).
  destruct d as [c|b|[q dec n]|ip|[i nm q dec mc mf gn]|[q dec n]]; cbn [drill_link plain_decision] in *;
    [unfold category_link|unfold decision_link|unfold domain_link|unfold client_link|unfold event_link|];
    rewrite ?opened_href, ?opened_analytics by done;
    (eexists; split; [reflexivity|split; [|exact Hg]]);
    (rewrite (log_query_opened past _ hours Hh); [|unfold href_params; cbn [foldl];
      repeat case_match; reflexivity..]);
    unfold href_params; cbn [foldl fst snd truthy_opt re_qname re_decision td_qname td_decision]; unfold truthy;
    repeat case_bool_decide; try destruct b; simplify_eq; reflexivity.
Qed.

(** The ranking of blocked domains is that of the data: the ten with the
    highest counts, or all of them when there are fewer, each from the data and in
    decreasing order, so that a domain that is left out counts no more than any
    that is shown; the groups are all there, busiest first. *)
Theorem rankings (s : summary) (byGroup : option (list group_stat)) :
  length (topDomains s) = Nat.min 10 (length (top_blocked_domains s)) ∧
  StronglySorted (desc td_count) (topDomains s) ∧
  (∃ rest, topDomains s ++ rest ≡ₚ top_blocked_domains s ∧
     ∀ x y, x ∈ topDomains s → y ∈ rest → (td_count y ≤ td_count x)%Z) ∧
  sortedGroups byGroup ≡ₚ default [] byGroup ∧ StronglySorted (desc g_total) (sortedGroups byGroup).
Proof.
  unfold topDomains, sortedGroups. pose proof (sort_desc_sorted td_count (top_blocked_domains s)) as Hs.
  pose proof (sort_desc_perm td_count (top_blocked_domains s)) as Hp. split_and!.
  - rewrite length_firstn. by rewrite (Permutation_length Hp).
  - rewrite <- (firstn_skipn 10 (sort_desc _ _)) in Hs. revert Hs. generalize (firstn 10 (sort_desc td_count
      (top_blocked_domains s))) (skipn 10 (sort_desc td_count (top_blocked_domains s))). intros l k.
    induction l as [|x l IH]; [constructor|]. cbn. intros [H1 H2]%StronglySorted_inv.
    constructor; [by apply IH|]. by apply Forall_app in H2 as [? _].
  - exists (skipn 10 (sort_desc td_count (top_blocked_domains s))). split; [by rewrite firstn_skipn|].
    intros x y Hx Hy. rewrite <- (firstn_skipn 10 (sort_desc _ _)) in Hs.
    by apply (StronglySorted_split _ _ _ x y Hs).
  - apply sort_desc_perm.
  - apply sort_desc_sorted.
Qed.

(** ** Examples *)

Example query_log_link :
  domain_link 24 "a&b=c.example" "block" = "/query-log?hours=24&qname=a%26b%3Dc.example&decision=block".
Proof. reflexivity. Qed.

Lemma drill_down_witness :
  ∃ page, opened_at [] (analytics_link 168 (TopDomain "x y&z" "block" 3)) = ("/query-log", page) ∧
    log_query page = Some (useQueryLog (QueryLogParams 0 (Some "block") None (Some "x y&z") None None None (Some 168%Z))) ∧
    ql_group_id (drill_params 168 (OfAnalytics (TopDomain "x y&z" "block" 3))) = None ∧
    ql_hours (drill_params 168 (OfAnalytics (TopDomain "x y&z" "block" 3))) = Some 168%Z.
Proof. exact (drill_down 168 (OfAnalytics (TopDomain "x y&z" "block" 3)) [] ltac:(lia) eq_refl). Defined.
