(* ===== verification/DashboardPage.v ===== *)
(** * The dashboard page

    [pages/DashboardPage.tsx] and [pages/dashboard/CustomizeDrawer.tsx]: the time
    window, the group scope and the drawer that arranges the widgets, and what is
    rendered for what was loaded.  The arrangement and its store are those of
    [Dashboard.v], what a widget shows is in [Widgets.v], and the queries are
    [dashboard_queries] of [Queries.v]. *)

From S2P Require Import Prelude JsText Json JsonRoundtrip Dashboard Queries Widgets.

(** ** What was loaded *)

Record query_mix := QueryMix { qm_qtype : list mix_slice; qm_response_code : list mix_slice; qm_matched_rule : list mix_slice }.

Record answers := Answers {
  an_feeds : option (list feed_item);
  an_summary : result summary;
  an_timeseries : result (list point);
  an_byGroup : result (list group_stat);
  an_topClients : result (list top_client);
  an_categories : result (list category_stat);
  an_recentBlocks : result (list recent_event);
  an_latency : result latency_stats;
  an_queryMix : result query_mix;
  an_prevSummary : option summary;
}.

(** Before the first answer. *)
Definition first_render : answers :=
  Answers None pending pending pending pending pending pending pending pending None.

(** ** State *)

Record page := Page {
  hours : Z;
  groupScope : option string;
  customizeOpened : bool;
  board : dashboard;
}.

Definition initial (stored : option string) : page := Page 24 None false (mount stored).

Definition setHours (h : Z) (p : page) : page := Page h (groupScope p) (customizeOpened p) (board p).
Definition setGroupScope (g : option string) (p : page) : page := Page (hours p) g (customizeOpened p) (board p).
Definition setCustomize (o : bool) (p : page) : page := Page (hours p) (groupScope p) o (board p).
Definition on_board (a : action) (p : page) : page :=
  Page (hours p) (groupScope p) (customizeOpened p) (act (board p) a).

(** ** The widgets *)

(** [span] of [WIDGET_DEFS]: the columns of twelve, on narrow and on wide screens. *)
Definition WIDGET_SPANS : list (string * (Z * option Z)) :=
  [ ("query-volume", (12, Some 8)); ("decision", (12, Some 4)); ("top-domains", (12, Some 6));
    ("categories", (12, Some 6)); ("top-clients", (12, None)); ("group-breakdown", (12, None));
    ("feed-health", (12, Some 6)); ("recent-events", (12, None)); ("latency", (12, Some 6));
    ("query-mix", (12, Some 6)) ]%Z.

(** [WIDGET_DEFS.find((d) => d.id === id)!.f]: reading a property of [undefined]
    throws. *)
Definition find_def {A} (defs : list (string * A)) (id : string) : exc A :=
  match List.find (λ d, bool_decide (d.1 = id)) defs with
  | Some d => Ok d.2
  | None => Throw "Cannot read properties of undefined"
  end.

Definition QueryMixWidget (loading : bool) (data : option query_mix) : option (list (string * widget (string * string))) :=
  if loading then None
  else Some [("Query type", MixColumn (from_option qm_qtype [] data));
             ("Response code", MixColumn (from_option qm_response_code [] data));
             ("Matched rule", MixColumn (from_option qm_matched_rule [] data))].

(** One widget of the grid. *)
Inductive rendered :=
| RQueryVolume (w : widget (string * Z * Z))
| RDecision (w : option donut)
| RTopDomains (w : widget (list string * string))
| RCategories (w : widget (list string * string))
| RTopClients (w : widget (list string * string * string))
| RGroupBreakdown (clear : bool) (w : widget (list string * bool))
| RFeedHealth (w : widget (string * string * string * option string) * option string)
| RRecentEvents (w : widget (list string * string))
| RLatency (w : widget (string * string))
| RQueryMix (w : option (list (string * widget (string * string)))).

(** The badge that clears the scope. *)
Definition scoped_badge (scope : option string) : bool := truthy_opt scope.

Section view.
Variables (toLocaleString : Z → string) (toLocaleTimeString : string → string).

(** [renderWidget(id)]; an id without a case renders nothing. *)
Definition renderWidget (an : answers) (p : page) (id : string) : option rendered :=
  let s := an_summary an in
  if decide (id = "query-volume")
  then Some (RQueryVolume (QueryVolumeWidget toLocaleTimeString (q_loading (an_timeseries an)) (q_data (an_timeseries an))))
  else if decide (id = "decision")
  then Some (RDecision (if q_loading s then None else Some (DecisionWidget toLocaleString (hours p) (q_data s))))
  else if decide (id = "top-domains")
  then Some (RTopDomains (TopDomainsWidget toLocaleString (hours p) (q_loading s) (top_blocked_domains <$> q_data s)))
  else if decide (id = "categories")
  then Some (RCategories (CategoriesWidget (hours p) (q_loading (an_categories an)) (q_data (an_categories an))))
  else if decide (id = "top-clients")
  then Some (RTopClients (TopClientsWidget toLocaleString (hours p) (q_loading (an_topClients an)) (q_data (an_topClients an))))
  else if decide (id = "group-breakdown")
  then Some (RGroupBreakdown (scoped_badge (groupScope p))
         (GroupBreakdownWidget toLocaleString (q_loading (an_byGroup an)) (groupScope p) (q_data (an_byGroup an))))
  else if decide (id = "feed-health")
  then Some (RFeedHealth (FeedHealthWidget toLocaleString (an_feeds an)))
  else if decide (id = "recent-events")
  then Some (RRecentEvents (RecentEventsWidget (hours p) (q_loading (an_recentBlocks an)) (q_data (an_recentBlocks an))))
  else if decide (id = "latency")
  then Some (RLatency (LatencyWidget (q_loading (an_latency an)) (q_data (an_latency an))))
  else if decide (id = "query-mix")
  then Some (RQueryMix (QueryMixWidget (q_loading (an_queryMix an)) (q_data (an_queryMix an))))
  else None.

(** The cells of the grid: each visible widget with its span. *)
Definition grid_cells (an : answers) (p : page) : exc (list (string * (Z * option Z) * option rendered)) :=
  foldr (λ id rest, (span <- find_def WIDGET_SPANS id ;; r <- rest ;; Ok ((id, span, renderWidget an p id) :: r))%exc)
    (Ok []) (grid (board p)).

(** ** The drawer *)

Record drawer_row := DrawerRow {
  dr_id : string; dr_label : string; dr_checked : bool; up_disabled : bool; down_disabled : bool
}.

Definition drawer_row_of (n idx : nat) (w : WidgetConfig) : exc drawer_row :=
  (label <- find_def WIDGET_DEFS (wid w) ;;
   Ok (DrawerRow (wid w) label (visible w) (bool_decide (idx = 0)) (bool_decide (S idx = n))))%exc.

Definition drawer_rows (c : list WidgetConfig) : exc (list drawer_row) :=
  foldr (λ '(i, w) rest, (d <- drawer_row_of (length c) i w ;; r <- rest ;; Ok (d :: r))%exc) (Ok []) (imap pair c).

Definition hidden_text (c : list WidgetConfig) : option string :=
  let n := hiddenCount c in
  if decide (0 < n)
  then Some (Z_str (Z.of_nat n) +:+ " widget" +:+ (if decide (1 < n) then "s" else "") +:+ " hidden") else None.

(** ** The page *)

Record page_view := PageView {
  v_groups : list (string * string);
  v_scope : option string;
  v_segment : Z;
  v_alert : option string;
  v_kpis : list (string * string * option string);
  v_cells : list (string * (Z * option Z) * option rendered);
  v_drawer : option (list drawer_row * option string);
}.

Definition errors_of (an : answers) : list (option string) :=
  [ q_error (an_summary an); q_error (an_timeseries an); q_error (an_byGroup an); q_error (an_topClients an);
    q_error (an_categories an); q_error (an_recentBlocks an); q_error (an_latency an); q_error (an_queryMix an) ].

Definition render (an : answers) (p : page) : exc page_view :=
  (cells <- grid_cells an p ;;
   rows <- drawer_rows (widgetConfig (board p)) ;;
   let s := an_summary an in
   Ok (PageView (groupOptions (q_data (an_byGroup an))) (groupScope p) (hours p) (dashboardError (errors_of an))
         (kpi_strip toLocaleString (hours p) (q_loading s) (q_error s) (q_data s) (an_prevSummary an)) cells
         (if customizeOpened p then Some (rows, hidden_text (widgetConfig (board p))) else None)))%exc.
End view.

(** ** What the controls do *)

(** The clicks the drawer offers: the switch of a row, its arrows unless they are
    disabled, and the reset. *)
Definition offered (c : list WidgetConfig) (a : action) : bool :=
  match a with
  | Toggle id => existsb (λ w, bool_decide (wid w = id)) c
  | Move id dir =>
      existsb (λ '(i, w), bool_decide (wid w = id) &&
        negb (match dir with Up => bool_decide (i = 0) | Down => bool_decide (S i = length c) end)) (imap pair c)
  | Reset => true
  end.

Inductive event :=
| PickGroup (g : option string) | PickHours (h : Z) | OpenCustomize | CloseCustomize
| InDrawer (a : action) | ClickGroup (id : string) | ClearScope.

Definition listed (an : answers) (id : string) : bool :=
  bool_decide (id ∈ (g_group_id <$> default [] (q_data (an_byGroup an)))).

(** The rows of the group widget are there when the widget is in the grid and loaded. *)
Definition group_rows_shown (an : answers) (p : page) : bool :=
  bool_decide ("group-breakdown" ∈ grid (board p)) && negb (q_loading (an_byGroup an)).

(** A click on what is shown; nothing happens where there is no such control. *)
Definition step (p : page) (ae : answers * event) : page :=
  let '(an, e) := ae in
  match e with
  | PickGroup None => setGroupScope None p
  | PickGroup (Some g) => if listed an g then setGroupScope (Some g) p else p
  | PickHours h => if bool_decide (h ∈ TIME_SEGMENTS.*1) then setHours h p else p
  | OpenCustomize => setCustomize true p
  | CloseCustomize => setCustomize false p
  | InDrawer a => if customizeOpened p && offered (widgetConfig (board p)) a then on_board a p else p
  | ClickGroup id =>
      if group_rows_shown an p && listed an id then setGroupScope (click_group_row id (groupScope p)) p else p
  | ClearScope =>
      if bool_decide ("group-breakdown" ∈ grid (board p)) && scoped_badge (groupScope p)
      then setGroupScope None p else p
  end.

(** ** Arranging the widgets *)

(** The order and the switches after a click, which do not depend on the store. *)
Definition config_after (c : list WidgetConfig) (a : action) : list WidgetConfig :=
  widgetConfig (act (MkDashboard c None) a).

(** Every click of the script is offered when it is made. *)
Fixpoint all_offered (c : list WidgetConfig) (script : list action) : bool :=
  match script with
  | [] => true
  | a :: r => offered c a && all_offered (config_after c a) r
  end.

Lemma act_config d a : widgetConfig (act d a) = config_after (widgetConfig d) a.
Proof.
  destruct a as [id|id dir|]; [done| |done]. unfold config_after. cbn. unfold moveWidget. cbn.
  destruct (find_index id (widgetConfig d)) as [[|i]|]; destruct dir; try done; by case_decide.
Qed.

Lemma foldl_act_config script d : widgetConfig (foldl act d script) = foldl config_after (widgetConfig d) script.
Proof.
  revert d. induction script as [|a r IH]; intros d; cbn; [done|]. by rewrite IH, act_config.
Qed.

Lemma all_offered_app c s1 s2 :
  all_offered c (s1 ++ s2) = all_offered c s1 && all_offered (foldl config_after c s1) s2.
Proof.
  revert c. induction s1 as [|a r IH]; intros c; cbn; [done|]. by rewrite IH, andb_assoc.
Qed.

Lemma find_index_app p w r :
  NoDup (wid <$> p ++ w :: r) → find_index (wid w) (p ++ w :: r) = Some (length p).
Proof.
  induction p as [|x p IH]; cbn; intros Hnd; [by rewrite decide_True|].
  apply NoDup_cons in Hnd as [Hx Hnd]. rewrite decide_False; [by rewrite IH|].
  intros E. apply Hx. rewrite E, fmap_app. apply elem_of_app. right. by left.
Qed.

Lemma swap_up p x w r : swap (S (length p)) (length p) (p ++ x :: w :: r) = p ++ w :: x :: r.
Proof.
  unfold swap. rewrite lookup_app_r, lookup_app_r by lia.
  replace (S (length p) - length p) with 1 by lia. rewrite Nat.sub_diag. cbn [lookup list_lookup].
  rewrite insert_app_r_alt by lia. replace (S (length p) - length p) with 1 by lia.
  rewrite insert_app_r_alt by lia. by rewrite Nat.sub_diag.
Qed.

Lemma imap_pair_app {A} (p r : list A) w : (length p, w) ∈ imap pair (p ++ w :: r).
Proof.
  apply list_elem_of_lookup. exists (length p). rewrite list_lookup_imap, lookup_app_r by done.
  by rewrite Nat.sub_diag.
Qed.

(** A widget that is not the first has its arrow, which takes it one place up. *)
Lemma move_up p x w r :
  NoDup (wid <$> p ++ x :: w :: r) →
  offered (p ++ x :: w :: r) (Move (wid w) Up) = true ∧
  config_after (p ++ x :: w :: r) (Move (wid w) Up) = p ++ w :: x :: r.
Proof.
  assert (E : p ++ x :: w :: r = (p ++ [x]) ++ w :: r) by (by rewrite <- app_assoc). intros Hnd. split.
  - unfold offered. apply existsb_exists. exists (length (p ++ [x]), w). split.
    + rewrite E. apply list_elem_of_In, imap_pair_app.
    + rewrite bool_decide_true by done. apply negb_true_iff, bool_decide_eq_false. rewrite length_app. cbn. lia.
  - unfold config_after. cbn [act]. unfold moveWidget. cbn [widgetConfig].
    assert (find_index (wid w) (p ++ x :: w :: r) = Some (S (length p))) as ->.
    { rewrite E in *. by rewrite find_index_app, length_app, Nat.add_comm. }
    apply swap_up.
Qed.

(** As many clicks take it to any place above. *)
Lemma bring_up p m w r :
  NoDup (wid <$> p ++ m ++ w :: r) →
  ∃ script, length script = length m ∧ all_offered (p ++ m ++ w :: r) script = true ∧
    foldl config_after (p ++ m ++ w :: r) script = p ++ w :: m ++ r.
Proof.
  revert r. induction m as [|x m IH] using rev_ind; intros r Hnd; [by exists []|].
  rewrite <- app_assoc in *. cbn in *. rewrite (app_assoc p m) in Hnd.
  destruct (move_up _ _ _ _ Hnd) as [Ho Hc]. rewrite <- !app_assoc in *.
  destruct (IH (x :: r)) as (s & Hl & Hs & Hf).
  { eapply (NoDup_Permutation_proper _ (wid <$> p ++ m ++ x :: w :: r)); [|exact Hnd].
    apply fmap_Permutation. do 2 apply Permutation_app_head. constructor. }
  exists (Move (wid w) Up :: s). cbn [length all_offered foldl]. rewrite Ho, Hc. split_and!; [|done|done].
  rewrite length_app, Hl. cbn. lia.
Qed.

(** Selection sort with the arrows: from any order to any other. *)
Lemma reorder (t : list WidgetConfig) : ∀ p r,
  NoDup (wid <$> p ++ r) → wid <$> r ≡ₚ wid <$> t →
  ∃ script r', 2 * length script ≤ length t * (length t - 1) ∧ all_offered (p ++ r) script = true ∧
    foldl config_after (p ++ r) script = p ++ r' ∧ wid <$> r' = wid <$> t ∧ r' ≡ₚ r.
Proof.
  induction t as [|w t IH]; intros p r Hnd Hp.
  { apply Permutation_nil_r, fmap_nil_inv in Hp as ->. by exists [], []. }
  assert (wid w ∈ wid <$> r) as (x & Hx & Hin)%list_elem_of_fmap by (rewrite Hp; left).
  apply list_elem_of_split in Hin as (m & q & ->).
  destruct (bring_up _ _ _ _ Hnd) as (s1 & Hl1 & Ho1 & Hf1).
  assert (Hperm : p ++ m ++ x :: q ≡ₚ (p ++ [x]) ++ m ++ q) by (rewrite <- app_assoc; solve_Permutation).
  destruct (IH (p ++ [x]) (m ++ q)) as (s2 & r' & Hl2 & Ho2 & Hf2 & Hw & Hr).
  { by rewrite <- Hperm. }
  { apply (Permutation_cons_inv (a := wid w)). rewrite <- (fmap_cons wid w t), <- Hp, Hx.
    rewrite !fmap_app. cbn. solve_Permutation. }
  exists (s1 ++ s2), (x :: r'). rewrite <- app_assoc in *. cbn in *. split_and!.
  - assert (length m ≤ length t).
    { apply (f_equal length) in Hw. apply Permutation_length in Hr. rewrite !length_fmap, length_app in *. lia. }
    rewrite length_app, Hl1. destruct (length t); cbn in *; nia.
  - by rewrite all_offered_app, Ho1, Hf1.
  - rewrite foldl_app, Hf1, Hf2. by rewrite <- app_assoc.
  - by rewrite Hw, Hx.
  - rewrite Hr. solve_Permutation.
Qed.

(** The switch of a widget changes that widget alone. *)
Lemma toggle_one p w r :
  NoDup (wid <$> p ++ w :: r) →
  offered (p ++ w :: r) (Toggle (wid w)) = true ∧
  config_after (p ++ w :: r) (Toggle (wid w)) = p ++ MkWidget (wid w) (negb (visible w)) :: r.
Proof.
  rewrite fmap_app. cbn. intros (_ & Hp & [Hw _]%NoDup_cons)%NoDup_app. split.
  - apply existsb_exists. exists w. split; [|by apply bool_decide_eq_true].
    apply list_elem_of_In, elem_of_app. right. by left.
  - assert (Hid : ∀ l : list WidgetConfig, wid w ∉ (wid <$> l) →
      (λ v, if decide (wid v = wid w) then MkWidget (wid v) (negb (visible v)) else v) <$> l = l).
    { intros l Hl. etrans; [|apply list_fmap_id]. apply list_fmap_ext. intros i v Hv. apply decide_False.
      intros E. apply Hl. rewrite <- E. apply list_elem_of_fmap. exists v. split; [done|].
      by eapply list_elem_of_lookup_2. }
    unfold config_after. cbn. rewrite fmap_app. cbn. rewrite decide_True, !Hid; [done|done| |done].
    intros Hin. apply (Hp _ Hin). by left.
Qed.

Lemma set_switches (t : list WidgetConfig) : ∀ p r,
  NoDup (wid <$> p ++ r) → wid <$> r = wid <$> t →
  ∃ script, length script ≤ length t ∧ all_offered (p ++ r) script = true ∧
    foldl config_after (p ++ r) script = p ++ t.
Proof.
  induction t as [|[i v] t IH]; intros p r Hnd Hp; [apply fmap_nil_inv in Hp as ->; by exists []|].
  destruct r as [|[j u] r]; [done|]. cbn in Hp. injection Hp as -> Hp.
  destruct (toggle_one _ _ _ Hnd) as [Ho Hc]. cbn [wid visible] in *.
  destruct (IH (p ++ [MkWidget i v]) r) as (s & Hl & Hs & Hf).
  { rewrite fmap_app, fmap_app in *. cbn in *. by rewrite <- app_assoc. }
  { done. }
  rewrite <- !app_assoc in *. cbn in Hs, Hf.
  destruct (decide (u = v)) as [-> |Hne].
  - exists s. cbn [length]. split_and!; [lia|done|done].
  - assert (negb u = v) as Huv by (by destruct u, v).
    exists (Toggle i :: s). cbn [length all_offered foldl]. rewrite Ho, Hc, Huv. split_and!; [lia|done|done].
Qed.

Lemma config_ok_nodup c : config_ok c → NoDup (wid <$> c).
Proof. unfold config_ok. intros ->. apply NoDup_widget_ids. Qed.

Lemma config_ok_length c : config_ok c → length c = 10.
Proof. intros H%Permutation_length. by rewrite length_fmap in H. Qed.

Lemma arrange (c t : list WidgetConfig) :
  config_ok c → config_ok t →
  ∃ script, length script ≤ 55 ∧ all_offered c script = true ∧ foldl config_after c script = t.
Proof.
  intros Hc Ht. pose proof (config_ok_nodup _ Hc) as Hnd.
  destruct (reorder t [] c) as (s1 & r & Hl1 & Ho1 & Hf1 & Hw & Hr); [done|by unfold config_ok in *; rewrite Hc, Ht|].
  destruct (set_switches t [] r) as (s2 & Hl2 & Ho2 & Hf2); [|done|].
  { cbn. by rewrite Hr. }
  cbn in *. exists (s1 ++ s2). rewrite length_app, all_offered_app, foldl_app, Ho1, Hf1.
  rewrite (config_ok_length _ Ht) in *. split_and!; [lia|done|done].
Qed.

Lemma run_drawer script : ∀ p,
  customizeOpened p = true → all_offered (widgetConfig (board p)) script = true →
  ∀ an, foldl step p ((λ a, (an, InDrawer a)) <$> script)
        = Page (hours p) (groupScope p) true (foldl act (board p) script).
Proof.
  induction script as [|a r IH]; intros [h g o b] Ho Hall an; cbn in *; [by rewrite Ho|].
  apply andb_true_iff in Hall as [Ha Hr]. rewrite Ho, Ha. cbn. apply (IH (Page h g true (act b a))); [done|].
  cbn. by rewrite act_config.
Qed.

(** ** The page keeps its promises *)

Lemma find_def_ok {A} (defs : list (string * A)) id : id ∈ defs.*1 → ∃ a, find_def defs id = Ok a.
Proof.
  intros (d & -> & Hd)%list_elem_of_fmap. unfold find_def.
  destruct (List.find _ defs) as [d'|] eqn:E; [eauto|]. exfalso.
  pose proof (find_none _ _ E d (proj1 (list_elem_of_In _ _) Hd)) as H. by apply bool_decide_eq_false in H.
Qed.

(** Only widgets that exist. *)
Definition known (c : list WidgetConfig) : Prop := Forall (λ w, wid w ∈ widget_ids) c.

Lemma known_ids c : known c ↔ wid <$> c ⊆ widget_ids.
Proof.
  unfold known. rewrite Forall_forall. split.
  - intros H id (w & -> & Hw)%list_elem_of_fmap. by apply H.
  - intros H w Hw. apply H, list_elem_of_fmap. eauto.
Qed.

Lemma covers_known c : covers c → known c.
Proof. intros H. apply known_ids. intros id. apply H. Qed.

Lemma grid_known d id : known (widgetConfig d) → id ∈ grid d → id ∈ widget_ids.
Proof.
  intros Hc (w & -> & [Hw _]%list_elem_of_In%filter_In)%list_elem_of_fmap.
  apply (Forall_forall (λ w, wid w ∈ widget_ids) (widgetConfig d)); [done|by apply list_elem_of_In].
Qed.

Section rendering.
Variables (tls : Z → string) (tlts : string → string) (an : answers).

Lemma renderWidget_known p id : id ∈ widget_ids → is_Some (renderWidget tls tlts an p id).
Proof.
  intros H. unfold widget_ids in H. cbn in H. repeat (apply elem_of_cons in H as [-> |H]; [cbn; eauto|]).
  by apply not_elem_of_nil in H.
Qed.

Lemma grid_cells_ok p :
  known (widgetConfig (board p)) →
  ∃ cells, grid_cells tls tlts an p = Ok cells ∧ cells.*1.*1 = grid (board p) ∧ Forall (λ c, is_Some c.2) cells.
Proof.
  intros Hc. assert (Hg : Forall (λ id, id ∈ widget_ids) (grid (board p))).
  { apply Forall_forall. intros id. by apply grid_known. }
  unfold grid_cells. induction Hg as [|id l Hid _ (cells & E & H1 & H2)]; cbn; [by exists []|].
  destruct (find_def_ok WIDGET_SPANS id Hid) as [s ->]. rewrite E. cbn. eexists. split; [done|].
  cbn. rewrite H1. split; [done|]. constructor; [by apply renderWidget_known|done].
Qed.

Lemma drawer_rows_ok c :
  known c → ∃ rows, drawer_rows c = Ok rows ∧ dr_id <$> rows = wid <$> c ∧
    Forall (λ r, (dr_id r, dr_label r) ∈ WIDGET_DEFS) rows.
Proof.
  intros Hc. unfold drawer_rows. generalize (length c) as n. intros n.
  assert (∀ k, ∃ rows, foldr (λ '(i, w) rest, (d <- drawer_row_of n i w ;; r <- rest ;; Ok (d :: r))%exc) (Ok [])
    (imap (λ i, pair (k + i)) c) = Ok rows ∧ dr_id <$> rows = wid <$> c ∧
    Forall (λ r, (dr_id r, dr_label r) ∈ WIDGET_DEFS) rows) as H; [|apply (H 0)].
  induction Hc as [|w c Hw _ IH]; intros k; cbn; [by exists []|].
  destruct (IH (S k)) as (rows & E & H1 & H2).
  rewrite (imap_ext _ (λ i, pair (S k + i))) by (intros; cbn; f_equal; lia). rewrite E.
  unfold drawer_row_of, find_def. destruct (List.find _ WIDGET_DEFS) as [[i l]|] eqn:F.
  - cbn. apply find_some in F as [Hin F]. cbn in F. apply bool_decide_eq_true in F. subst i.
    eexists. split; [done|]. cbn. rewrite H1. split; [done|]. constructor; [by apply list_elem_of_In|done].
  - exfalso. apply list_elem_of_fmap in Hw as (d & Ed & Hd).
    pose proof (find_none _ _ F d (proj1 (list_elem_of_In _ _) Hd)) as H. by apply bool_decide_eq_false in H.
Qed.
End rendering.

(** Where the scope may come from. *)
Definition scope_listed (script : list (answers * event)) (g : option string) : Prop :=
  match g with None => True | Some id => ∃ ae, ae ∈ script ∧ listed ae.1 id = true end.

(** [ok]: the store named no widget twice. *)
Definition page_inv (ok : Prop) (p : page) : Prop :=
  stored_shown (board p) ∧ hours p ∈ TIME_SEGMENTS.*1 ∧ (ok → dashboard_inv (board p)).

Lemma step_inv ok p ae : page_inv ok p → page_inv ok (step p ae).
Proof.
  intros (Hk & Hh & Hb). destruct ae as [an e]. destruct e as [[g|]|h| | |a|id|]; cbn; try done.
  - by destruct (listed an g).
  - case_bool_decide; [|done]. by split.
  - destruct (_ && _); [|done]. split_and!; [by apply act_shown|done|]. intros H. by apply act_inv, Hb.
  - by destruct (_ && _).
  - by destruct (_ && _).
Qed.

Lemma step_scope script p ae :
  scope_listed script (groupScope p) → scope_listed (script ++ [ae]) (groupScope (step p ae)).
Proof.
  intros H. assert (Hm : scope_listed (script ++ [ae]) (groupScope p)).
  { unfold scope_listed in *. destruct (groupScope p); [|done]. destruct H as (x & Hx & H).
    exists x. split; [apply elem_of_app; by left|done]. }
  assert (Hn : ∀ id, listed ae.1 id = true → scope_listed (script ++ [ae]) (Some id)).
  { intros id Hl. exists ae. split; [apply elem_of_app; right; by left|done]. }
  destruct ae as [an e]. destruct e as [[g|]|h| | |a|id|]; cbn in *; try done.
  - destruct (listed an g) eqn:E; [by apply Hn|done].
  - by case_bool_decide.
  - by destruct (_ && _).
  - destruct (_ && listed an id) eqn:E; [|done]. apply andb_true_iff in E as [_ E]. cbn.
    unfold click_group_row. case_decide; [done|by apply Hn].
  - by destruct (_ && _).
Qed.

Lemma run_inv stored script :
  let p := foldl step (initial stored) script in
  page_inv (config_ok (loadWidgetConfig stored)) p ∧ scope_listed script (groupScope p).
Proof.
  induction script as [|ae script IH] using rev_ind; cbn in *.
  - split; [|done]. split_and!; [split; [apply load_covers|done]|set_solver|done].
  - rewrite foldl_app. cbn. destruct IH as [H1 H2]. split; [by apply step_inv|by apply step_scope].
Qed.

Lemma rangeLabel_known h : h ∈ TIME_SEGMENTS.*1 → (h, rangeLabel h) ∈ TIME_SEGMENTS.
Proof.
  cbn. intros H. repeat (apply elem_of_cons in H as [-> |H]; [by apply (bool_decide_unpack _)|]).
  by apply not_elem_of_nil in H.
Qed.

(** C21: whatever the store holds and whatever is clicked, with whatever was loaded
    at each click, the page renders: each widget of the grid with its span and its
    content, in the order of the arrangement, and each row of the drawer with the
    label of its widget.  Every known widget is in the arrangement, no other one is, and
    a reload finds the arrangement as it is; each widget is there once when the store
    named none twice.  The window is always one of the offered ones and named by its
    label.  A group that scopes the page was listed by what was loaded when it was
    picked, which later answers need not list any more. *)
Theorem dashboard_renders (tls : Z → string) (tlts : string → string) (stored : option string)
    (script : list (answers * event)) (an : answers) :
  let p := foldl step (initial stored) script in
  (∃ v, render tls tlts an p = Ok v ∧
     (v_cells v).*1.*1 = grid (board p) ∧ Forall (λ c, is_Some c.2) (v_cells v) ∧
     (customizeOpened p = true → ∃ rows text, v_drawer v = Some (rows, text) ∧
        dr_id <$> rows = wid <$> widgetConfig (board p) ∧
        Forall (λ r, (dr_id r, dr_label r) ∈ WIDGET_DEFS) rows)) ∧
  (∀ id, id ∈ (wid <$> widgetConfig (board p)) ↔ id ∈ widget_ids) ∧
  loadWidgetConfig (storage (board p)) = widgetConfig (board p) ∧
  (config_ok (loadWidgetConfig stored) → config_ok (widgetConfig (board p))) ∧
  (hours p, rangeLabel (hours p)) ∈ TIME_SEGMENTS ∧
  scope_listed script (groupScope p).
Proof.
  intros p. destruct (run_inv stored script) as [([Hc Hl] & Hh & Hb) Hs]. fold p in Hc, Hl, Hh, Hb, Hs.
  pose proof (covers_known _ Hc) as Hk. split_and!.
  - destruct (grid_cells_ok tls tlts an p Hk) as (cells & E1 & H1 & H2).
    destruct (drawer_rows_ok _ Hk) as (rows & E2 & H3 & H4).
    unfold render. rewrite E1, E2. cbn. eexists. split_and!; [done|done|done|]. cbn. intros ->. eauto.
  - exact Hc.
  - exact Hl.
  - intros H. by apply Hb.
  - by apply rangeLabel_known.
  - done.
Qed.

Lemma dashboard_renders_witness :
  config_ok (widgetConfig (board (foldl step (initial None) []))).
Proof.
  refine (proj1 (proj2 (proj2 (proj2 (dashboard_renders Z_str id None [] first_render)))) _).
  apply Permutation_refl.
Defined.

(** C20: the drawer reaches every arrangement: from any page whose store and screen
    agree, there are at most 55 clicks, on switches and arrows that are enabled when
    they are clicked, after which the widgets stand in the order and with the switches
    asked for, and are found so on reload; the window and the scope are as they were. *)
Theorem every_arrangement (p : page) (target : list WidgetConfig) (an : answers) :
  customizeOpened p = true → dashboard_inv (board p) → config_ok target →
  ∃ script, length script ≤ 55 ∧ all_offered (widgetConfig (board p)) script = true ∧
    let p' := foldl step p ((λ a, (an, InDrawer a)) <$> script) in
    widgetConfig (board p') = target ∧ loadWidgetConfig (storage (board p')) = target ∧
    hours p' = hours p ∧ groupScope p' = groupScope p ∧ customizeOpened p' = true.
Proof.
  intros Ho Hinv Ht. destruct (arrange _ _ (proj1 Hinv) Ht) as (script & Hl & Hall & Hf).
  exists script. rewrite run_drawer by done. cbn. rewrite <- foldl_act_config in Hf.
  assert (Hend : dashboard_inv (foldl act (board p) script)).
  { clear Hf Hall Hl. revert Hinv. generalize (board p). induction script as [|a r IH]; intros d Hd; [done|].
    cbn. by apply IH, act_inv. }
  split_and!; try done. by rewrite (proj2 Hend).
Qed.

Lemma every_arrangement_witness :
  ∃ script, length script ≤ 55 ∧ all_offered DEFAULT_CONFIG script = true ∧
    widgetConfig (board (foldl step (setCustomize true (initial None)) ((λ a, (first_render, InDrawer a)) <$> script)))
    = reverse DEFAULT_CONFIG.
Proof.
  destruct (every_arrangement (setCustomize true (initial None)) (reverse DEFAULT_CONFIG)
    first_render)
    as (s & H1 & H2 & H3 & _).
  - reflexivity.
  - split; [apply Permutation_refl|reflexivity].
  - unfold config_ok. rewrite fmap_reverse, reverse_Permutation. apply Permutation_refl.
  - exists s. exact (conj H1 (conj H2 H3)).
Defined.

(** The scope outlives its option: a group without queries in a shorter window is no
    longer among the options, and the queries stay scoped to it. *)
Lemma scope_outlives_options (stored : option string) (an an' : answers) (id : string) :
  listed an id = true → listed an' id = false →
  let p := foldl step (initial stored) [(an, PickGroup (Some id)); (an, PickHours 1)] in
  dashboard_queries (hours p) (groupScope p) = dashboard_queries 1 (Some id) ∧
  id ∉ (groupOptions (q_data (an_byGroup an'))).*1.
Proof.
  intros H1 H2. cbn. rewrite H1. cbn. split; [done|]. unfold listed in H2. apply bool_decide_eq_false in H2.
  unfold groupOptions. rewrite <- list_fmap_compose. exact H2.
Qed.
