(* ===== verification/AnalyticsPage.v ===== *)
(** * The analytics page

    [pages/AnalyticsPage.tsx] as a whole: the range buttons, the refresh, and the
    cards, for what the three queries returned.  The figures and rankings are those
    of [Analytics.v]. *)

From S2P Require Import Prelude JsText Json Queries Widgets Analytics.

(** ** State *)

(** [hours]; a click on a range button, and the refresh, which asks for the three
    queries again. *)
Inductive event := ClickRange (n : nat) | Refresh.

Definition step (hours : Z) (e : event) : Z * list query :=
  match e with
  | ClickRange n => (from_option snd hours (TIME_RANGES !! n), [])
  | Refresh => (hours, analytics_queries hours)
  end.

(** ** The cards *)

Record analytics_view := AnalyticsView {
  av_ranges : list (string * bool);
  av_kpis : list (string * string * string);
  av_rate : double * string;
  av_volume : string * (list (string * Z * Z) + string);
  av_donut : list (string * Z * string) + string;
  av_legend : list (string * string);
  av_domains : list (list string * string) + string;
  av_groups : list (list string * string) + string;
}.

(** The loader, a red text, or the cards. *)
Inductive page := PLoader | PText (s : string) | PCards (v : analytics_view).

Definition or_text {A} (l : list A) (text : string) : list A + string :=
  match l with [] => inr text | _ => inl l end.

Section view.
Variables (toLocaleString : Z → string) (toLocaleTimeString : string → string).

(** The errors of the time series and of the groups are not looked at. *)
Definition AnalyticsPage (hours : Z) (data : result summary) (timeseries : option (list point))
    (byGroup : option (list group_stat)) : page :=
  if q_loading data then PLoader
  else match q_error data, q_data data with
  | Some e, _ => PText e
  | None, None => PText "No data available"
  | None, Some s =>
      let chart := chartData toLocaleTimeString timeseries in
      PCards (AnalyticsView
        ((λ r, (r.1, bool_decide (hours = r.2))) <$> TIME_RANGES)
        (analytics_kpis toLocaleString hours timeseries s)
        (blockPct s, pct_color (blockPct s))
        ("Query volume — " +:+ range_label hours,
         if hasChart chart then inl chart else inr "No query telemetry in this time window.")
        (or_text (donutData s) "No data yet.")
        ((λ d, (d.1.1, toLocaleString d.1.2)) <$> donutData s)
        (or_text (domain_rows toLocaleString hours s) "No blocked queries recorded yet.")
        (or_text (group_rows toLocaleString byGroup) "No query telemetry recorded for any group yet."))
  end.
End view.

(** ** What is shown *)

Definition run (script : list event) : Z := foldl (λ h e, (step h e).1) initial_hours script.

Lemma run_range script : ∃ l, (l, run script) ∈ TIME_RANGES.
Proof.
  unfold run. induction script as [|e script [l IH]] using rev_ind; cbn.
  { exists "24h". apply (bool_decide_unpack _). vm_compute. exact I. }
  rewrite foldl_app. cbn. destruct e as [n|]; cbn; [|by exists l].
  destruct (TIME_RANGES !! n) as [[l' h]|] eqn:E; cbn; [|by exists l].
  exists l'. by eapply list_elem_of_lookup_2.
Qed.

Lemma one_filled l h :
  (l, h) ∈ TIME_RANGES →
  filter (λ r, r.2 = true) ((λ r : string * Z, (r.1, bool_decide (h = r.2))) <$> TIME_RANGES) = [(l, true)] ∧
  range_label h = l.
Proof.
  unfold TIME_RANGES. intros H. repeat (apply elem_of_cons in H as [[= -> ->]|H]; [by vm_compute|]).
  by apply not_elem_of_nil in H.
Qed.

(** Exactly one range button is filled, whatever was clicked, and it names the window
    of the volume card and of the rate, and of what a refresh asks for; a loader and
    an error are shown in place of the cards.  The groups card says that there is no
    telemetry when the query of the groups failed, too. *)
Theorem analytics_page_shows (tls : Z → string) (tlts : string → string) (script : list event)
    (data : result summary) (timeseries : option (list point)) (byGroup : option (list group_stat)) :
  let h := run script in
  (step h Refresh).2 = [useAnalyticsSummary h; useAnalyticsTimeseries h; useAnalyticsByGroup h] ∧
  match AnalyticsPage tls tlts h data timeseries byGroup with
  | PLoader => q_loading data = true
  | PText e => q_loading data = false ∧ (q_error data = Some e ∨ q_error data = None ∧ q_data data = None)
  | PCards v =>
      q_loading data = false ∧ q_error data = None ∧ (∃ s, q_data data = Some s) ∧
      (∃ l, filter (λ r, r.2 = true) (av_ranges v) = [(l, true)] ∧ (l, h) ∈ TIME_RANGES ∧
         (av_volume v).1 = "Query volume — " +:+ l ∧
         (last (av_kpis v) ≫= λ k, Some k.2) = Some ("over last " +:+ l)) ∧
      (byGroup = None → av_groups v = inr "No query telemetry recorded for any group yet.")
  end.
Proof.
  intros h. split; [done|]. destruct (run_range script) as [l Hl]. fold h in Hl.
  destruct (one_filled l h Hl) as [Hone Hlab]. unfold AnalyticsPage. destruct (q_loading data); [done|].
  destruct (q_error data) as [e|]; [by split; [|left]|]. destruct (q_data data) as [s|]; [|by split; [|right]].
  split_and!; [done|done|by eexists| |by intros ->].
  exists l. cbn [av_ranges av_volume av_kpis fst]. rewrite <- Hlab at 3 4. by split_and!.
Qed.
