(* ===== verification/Effects.v ===== *)
(** * Requests in flight, notifications and tables

    What the handlers of the pages do around a mutation: the request they send,
    the notification shown when it settles, and what then happens to the state of
    the page.  A mutation takes time, so a handler gives a request in flight, and
    the page's state machine says when it settles.  Also [Promise.allSettled],
    and [components/crud/CrudTable.tsx], the table the tabs share. *)

From S2P Require Import Prelude JsText Json Client Errors Queries Cache.

(** ** Notifications *)

(** [notifications.show({ title, message, color })] *)
Record note := Note { n_title : option string; n_message : string; n_color : string }.

Definition green (message : string) : note := Note None message "green".
Definition red (message : string) : note := Note None message "red".
Definition yellow (message : string) : note := Note None message "yellow".
(** [notifications.show({ color: "red", title: "Error", message: e.message })] *)
Definition red_error (message : string) : note := Note (Some "Error") message "red".

(** A text between double quotes in a message. *)
Definition quoted (s : string) : string := String c_quote (s +:+ String c_quote "").

(** ** Answers *)

(** [r.k] of an answer that is an object; [None] is [undefined]. *)
Definition member (k : string) (r : option json) : option json :=
  match r with Some (JObj l) => obj_get k l | _ => None end.

(** [`${r.k}`] *)
Definition member_text (k : string) (r : option json) : string :=
  from_option js_String "undefined" (member k r).

(** [!!v] *)
Definition truthy_json (v : option json) : bool :=
  match v with
  | None | Some JNull | Some (JBool false) => false
  | Some (JStr s) => truthy s
  | Some (JNum m _) => negb (m =? 0)%Z
  | Some _ => true
  end.

(** [v ?? null] is not null. *)
Definition not_nullish (v : option json) : option json :=
  match v with Some JNull => None | _ => v end.

(** ** Requests in flight *)

(** A mutation that was started: its call, what its hook does to the query cache
    on success, and what its caller does with the page's state [S] when it has
    settled. *)
Record inflight (S : Type) := Inflight {
  f_call : call;
  f_cache : list effect;
  f_settled : exc (option json) → S → list note * S;
}.
Arguments Inflight {S}.
Arguments f_call {S}.
Arguments f_cache {S}.
Arguments f_settled {S}.

Section mutate.
Context {A S : Type}.

(** [m.mutate(a, { onSuccess, onError })] *)
Definition mutate (m : mutation A) (a : A) (ok : option json → S → list note * S)
    (fail : string → S → list note * S) : inflight S :=
  Inflight (mutationFn m a) (Queries.onSuccess m a)
    (λ o s, match o with Ok r => ok r s | Throw e => fail e s end).

(** [onError: (e) => notifications.show({ message: formatError(e), color: "red" })] *)
Definition show_error (e : string) (s : S) : list note * S := ([red (formatError e)], s).

(** [onSuccess: () => { notifications.show({ message, color: "green" }); close(); }] *)
Definition show_and (message : string) (close : S → S) (_ : option json) (s : S) : list note * S :=
  ([green message], close s).

(** [.catch((e) => notifications.show({ color: "red", title: "Error", message: e.message }))] *)
Definition show_message (e : string) (s : S) : list note * S := ([red_error e], s).

(** Neither callback is given, or it does nothing. *)
Definition quietly (_ : option json) (s : S) : list note * S := ([], s).
End mutate.

(** The mutations that only report: [onSuccess] shows a message. *)
Definition mutate_report {A S} (m : mutation A) (a : A) (message : string) : inflight S :=
  mutate m a (show_and message id) show_error.

(** A settled request acts on the cache as [Cache.settle] says. *)
Definition settle_cache `{QueryFilter} {S} (f : inflight S) (o : exc (option json))
    (c : list entry) : list entry := settle (f_cache f) o c.

(** ** Hooks *)

(** A request is made through the [useMutation] of a component, here a number, 0 for
    the page itself.  The callbacks given to [mutate] are run for the last call of a
    hook and while its component is mounted. *)
Section hooks.
Context {A : Type}.
Implicit Types fl : list (nat * A).

Definition unheard (h : nat) fl : list (nat * A) := filter (λ x, x.1 ≠ h) fl.
Definition launch (h : nat) (i : A) fl : list (nat * A) := unheard h fl ++ [(h, i)].
Definition of_page fl : list (nat * A) := filter (λ x, x.1 = 0) fl.
(** [isPending] of a hook: its last call has not settled. *)
Definition busy (h : nat) fl : bool := bool_decide (h ∈ fl.*1).

(** The hooks that are busy. *)
Lemma unheard_hooks h fl : (unheard h fl).*1 = filter (λ k, k ≠ h) fl.*1.
Proof.
  unfold unheard. induction fl as [|[k j] fl IH]; [done|].
  rewrite fmap_cons, !filter_cons. cbn [fst]. case_decide; by rewrite ?fmap_cons, IH.
Qed.

Lemma launch_hooks h (i : A) fl : (launch h i fl).*1 = filter (λ k, k ≠ h) fl.*1 ++ [h].
Proof. unfold launch. by rewrite fmap_app, unheard_hooks. Qed.

Lemma launch_nodup h (i : A) fl : NoDup fl.*1 → NoDup (launch h i fl).*1.
Proof.
  intros Hn. rewrite launch_hooks. apply NoDup_app. split_and!; [by apply NoDup_filter| |apply NoDup_singleton].
  intros x [Hx _]%list_elem_of_filter ->%list_elem_of_singleton. done.
Qed.

Lemma elem_launch h k (i : A) fl : k ∈ (launch h i fl).*1 ↔ k = h ∨ k ∈ fl.*1.
Proof.
  rewrite launch_hooks, elem_of_app, list_elem_of_filter, list_elem_of_singleton.
  destruct (decide (k = h)); naive_solver.
Qed.
End hooks.

(** ** Promise.allSettled *)

Section all_settled.
Context {A : Type}.

Definition fulfilled (o : exc A) : bool := match o with Ok _ => true | Throw _ => false end.

(** [results.filter((r) => r.status === "fulfilled").length] and the rest. *)
Definition ok_count (results : list (exc A)) : nat := length (List.filter fulfilled results).
Definition failed_count (results : list (exc A)) : nat := length results - ok_count results.

Lemma ok_le_length results : ok_count results ≤ length results.
Proof. unfold ok_count. induction results as [|r l IH]; cbn; [done|]. destruct (fulfilled r); cbn; lia. Qed.

Lemma ok_failed results : ok_count results + failed_count results = length results.
Proof. unfold failed_count. pose proof (ok_le_length results). lia. Qed.

(** What is not fulfilled failed, one by one. *)
Lemma failed_count_filter results :
  failed_count results = length (List.filter (λ r, negb (fulfilled r)) results).
Proof.
  unfold failed_count, ok_count. induction results as [|r l IH]; cbn; [done|].
  pose proof (ok_le_length l) as Hl. unfold ok_count in Hl.
  destruct (fulfilled r); cbn; lia.
Qed.

Lemma failed_count_zero results : failed_count results = 0 ↔ Forall (λ r, fulfilled r = true) results.
Proof.
  rewrite failed_count_filter. induction results as [|r l IH]; cbn; [by split; [constructor|]|].
  rewrite Forall_cons, <- IH. destruct (fulfilled r); cbn; [tauto|]. split; [lia|by intros [? _]].
Qed.
End all_settled.

(** [n === 1 ? "" : "s"] *)
Definition plural (n : nat) : string := if decide (n = 1) then "" else "s".

(** The message of the bulk actions: [what] follows the number, [why] the number
    of failures. *)
Definition bulk_message (what why : string) (ok failed : nat) : string :=
  Z_str (Z.of_nat ok) +:+ " feed" +:+ plural ok +:+ " " +:+ what +:+
  (if decide (failed = 0) then "" else ", " +:+ Z_str (Z.of_nat failed) +:+ " failed" +:+ why).

Definition bulk_note {A} (what why : string) (results : list (exc A)) : note :=
  let failed := failed_count results in
  Note None (bulk_message what why (ok_count results) failed)
    (if decide (failed = 0) then "green" else "yellow").

(** ** The table of the tabs *)

(** [CrudColumn<T>]: a cell is whatever [render] gives. *)
Record column (T N : Type) := Column { col_key : string; col_header : N; col_render : T → N }.
Arguments Column {T N}.
Arguments col_key {T N}.
Arguments col_header {T N}.
Arguments col_render {T N}.

(** The buttons of a row: [renderRowActions], Edit and Delete. *)
Inductive row_button (N : Type) := Extra (x : N) | EditButton | DeleteButton.
Arguments Extra {N}.
Arguments EditButton {N}.
Arguments DeleteButton {N}.

Inductive table_view (N : Type) :=
| Spinner
| EmptyState (x : N)
| Rows (headers : list N) (actions : bool) (rows : list (string * list N * list (row_button N))).
Arguments Spinner {N}.
Arguments EmptyState {N}.
Arguments Rows {N}.

Definition CrudTable {T N : Type} (data : list T) (isLoading : bool) (getRowKey : T → string)
    (columns : list (column T N)) (emptyState : option N) (onEdit onDelete : bool)
    (renderRowActions : option (T → N)) : table_view N :=
  if isLoading then Spinner
  else match data, emptyState with
  | [], Some x => EmptyState x
  | _, _ =>
      let showActionsColumn := onEdit || onDelete || bool_decide (is_Some renderRowActions) in
      Rows (col_header <$> columns) showActionsColumn
        ((λ row, (getRowKey row, (λ c, col_render c row) <$> columns,
                  if showActionsColumn
                  then from_option (λ f, [Extra (f row)]) [] renderRowActions ++
                       (if onEdit then [EditButton] else []) ++ (if onDelete then [DeleteButton] else [])
                  else [])) <$> data)
  end.

(** Every row of a loaded table is shown once, in order, under its key. *)
Lemma CrudTable_rows {T N} (data : list T) (key : T → string) (cols : list (column T N))
    (empty : option N) (e d : bool) (extra : option (T → N)) :
  data ≠ [] →
  ∃ rows, CrudTable data false key cols empty e d extra =
            Rows (col_header <$> cols) (e || d || bool_decide (is_Some extra)) rows ∧
          (λ r, r.1.1) <$> rows = key <$> data ∧ length rows = length data.
Proof.
  intros Hd. destruct data as [|x l]; [done|]. eexists. split; [reflexivity|].
  rewrite length_fmap. split; [|done]. rewrite <- list_fmap_compose. done.
Qed.
