(* ===== verification/Crud.v ===== *)
(** * Tabs with a table and an add/edit modal

    The upstream tabs and the IPv6 scopes tab are written to one pattern: a table
    of entities, a modal with a form that creates an entity or edits the chosen
    one, a confirmed deletion, and switches or buttons in the rows
    ([components/crud/EntityModal.tsx] and the components that use it).  The
    pattern is the class [Crud], one instance per tab; its state machine and the
    theorem that it does what the screen shows are here, once for all tabs. *)

From S2P Require Import Prelude JsText Json Client Queries Forms Effects.

(** What a tab has of its own: the entity [E] and the values [V] of its form. *)
Class Crud (E V : Type) := {
  c_id : E → string;
  (** [initialValues], [validate] and the body [onSave] gets, from [initial]. *)
  c_initial : option E → V;
  c_validate : option E → V → list (option string);
  c_body : V → json;
  c_create : mutation json;
  c_update : mutation (string * json);
  c_delete : mutation string;
  (** The notifications of the three, for the entity edited or deleted. *)
  c_saved : option E → option json → string;
  c_deleted : E → list note;
  c_failed : string → note;
  (** The controls of a row, which leave the tab as it is, each with its hook: the
      switch is an update, hook 1. *)
  c_rows : E → list (nat * (call * list effect * (exc (option json) → list note)));
  (** The calls are promises that are awaited ([mutateAsync(...).then(...)]), or have
      callbacks ([mutate(..., { onSuccess })]). *)
  c_awaits : bool;
}.

Section tab.
Context {E V : Type} `{C : Crud E V} `{F : UseForm V}.

(** [editTarget], the disclosure of the modal, and the form mounted in it. *)
Record tab := Tab {
  editTarget : option E;
  modalOpen : bool;
  modal_form : option form;
}.

Definition tab_init : tab := Tab None false None.

(** [setEditTarget(e); open();]: the modal mounts the form. *)
Definition open_modal (e : option E) : tab := Tab e true (Some (useForm None (c_initial e))).
Definition openCreate (t : tab) : tab := open_modal None.
Definition openEdit (e : E) (t : tab) : tab := open_modal (Some e).
(** [close()]: the modal unmounts its form; the target stays. *)
Definition close (t : tab) : tab := Tab (editTarget t) false None.

Definition edit_form (g : V → V) (t : tab) : tab :=
  Tab (editTarget t) (modalOpen t) (setValues g <$> modal_form t).

(** [save(values)] *)
Definition save (t : tab) (v : V) : inflight tab :=
  let ok r (s : tab) := ([green (c_saved (editTarget t) r)], close s) in
  let fail e (s : tab) := ([c_failed e], s) in
  match editTarget t with
  | Some e => mutate c_update (c_id e, c_body v) ok fail
  | None => mutate c_create (c_body v) ok fail
  end.

(** The form's submit button. *)
Definition submit (t : tab) : option (inflight tab) :=
  f ← modal_form t; onSubmit (c_validate (editTarget t)) (save t) (form_values f).

(** [confirmDelete(e)], confirmed. *)
Definition delete_confirmed (e : E) : inflight tab :=
  mutate c_delete (c_id e) (λ _ s, (c_deleted e, s)) (λ m s, ([c_failed m], s)).

(** A control of the row of [e]. *)
Definition row_control (r : call * list effect * (exc (option json) → list note)) : inflight tab :=
  Inflight r.1.1 r.1.2 (λ o s, (r.2 o, s)).

(** The hooks: 0 creates, 1 updates, 2 deletes.  Called again, a hook is pending for its
    last call; the call before is still awaited, here as hook 9, or its callbacks are
    not run. *)
Definition supersede {A} (h : nat) (ps : list (nat * A)) : list (nat * A) :=
  if c_awaits then (λ x, (if decide (x.1 = h) then 9 else x.1, x.2)) <$> ps else unheard h ps.
Definition sent {A} (h : nat) (i : A) (ps : list (nat * A)) : list (nat * A) := supersede h ps ++ [(h, i)].

Definition save_hook (target : option E) : nat := match target with Some _ => 1 | None => 0 end.

(** [loading={create.isPending || update.isPending}]: the submit button is off. *)
Definition saving {A} (ps : list (nat * A)) : bool := busy 0 ps || busy 1 ps.

(** What an action lets the outside see. *)
Inductive event := Send (c : call) | Shown (n : note).

(** The tab and its requests in flight.  While the modal is open it covers the
    table and the button above it, so nothing else is opened then. *)
Inductive tab_step : tab * list (nat * inflight tab) → list event → tab * list (nat * inflight tab) → Prop :=
| step_create t ps : modalOpen t = false → tab_step (t, ps) [] (openCreate t, ps)
| step_edit t ps e : modalOpen t = false → tab_step (t, ps) [] (openEdit e t, ps)
| step_change t ps g : modalOpen t = true → tab_step (t, ps) [] (edit_form g t, ps)
| step_cancel t ps : modalOpen t = true → tab_step (t, ps) [] (close t, ps)
| step_submit t ps i :
    saving ps = false → submit t = Some i →
    tab_step (t, ps) [Send (f_call i)] (t, sent (save_hook (editTarget t)) i ps)
| step_delete t ps e :
    tab_step (t, ps) [Send (f_call (delete_confirmed e))] (t, sent 2 (delete_confirmed e) ps)
| step_row t ps e h r :
    (h, r) ∈ c_rows e → tab_step (t, ps) [Send (f_call (row_control r))] (t, sent h (row_control r) ps)
| step_settle t ps qs h i o :
    tab_step (t, ps ++ (h, i) :: qs) (Shown <$> (f_settled i o t).1) ((f_settled i o t).2, ps ++ qs).

Inductive tab_run : tab * list (nat * inflight tab) → list event → tab * list (nat * inflight tab) → Prop :=
| run_nil c : tab_run c [] c
| run_step c c' c'' es es' : tab_run c es c' → tab_step c' es' c'' → tab_run c (es ++ es') c''.

(** ** What the screen promises

    The abstract tab is its screen: no modal, or a modal for a new entity or for
    a given one, with the values typed so far.  Submitting creates what the modal
    for a new entity shows and updates the entity the other modal is for; nothing
    but that, a confirmed deletion and the controls of a row sends a request, and
    nothing is submitted while a save is pending.  A save that succeeds closes the
    modal, unless it was superseded, and nothing else does but Cancel. *)
Inductive screen := Closed | Open (target : option E) (v : V).

(** What a request in flight will do to the screen. *)
Inductive pending := PSave (target : option E) | PReport (f : exc (option json) → list note).

Definition save_call (target : option E) (v : V) : call :=
  match target with
  | Some e => mutationFn c_update (c_id e, c_body v)
  | None => mutationFn c_create (c_body v)
  end.

Definition pending_settled (p : pending) (o : exc (option json)) (s : screen) : list note * screen :=
  match p, o with
  | PSave target, Ok r => ([green (c_saved target r)], Closed)
  | PSave _, Throw e => ([c_failed e], s)
  | PReport f, o => (f o, s)
  end.

Definition delete_report (e : E) (o : exc (option json)) : list note :=
  match o with Ok _ => c_deleted e | Throw m => [c_failed m] end.

Inductive screen_step : screen * list (nat * pending) → list event → screen * list (nat * pending) → Prop :=
| sstep_create ps : screen_step (Closed, ps) [] (Open None (c_initial None), ps)
| sstep_edit ps e : screen_step (Closed, ps) [] (Open (Some e) (c_initial (Some e)), ps)
| sstep_change ps e v g : screen_step (Open e v, ps) [] (Open e (g v), ps)
| sstep_cancel ps e v : screen_step (Open e v, ps) [] (Closed, ps)
| sstep_submit ps e v :
    saving ps = false → Forall (λ x, x = None) (c_validate e v) →
    screen_step (Open e v, ps) [Send (save_call e v)] (Open e v, sent (save_hook e) (PSave e) ps)
| sstep_delete s ps e :
    screen_step (s, ps) [Send (mutationFn c_delete (c_id e))] (s, sent 2 (PReport (delete_report e)) ps)
| sstep_row s ps e h r :
    (h, r) ∈ c_rows e → screen_step (s, ps) [Send r.1.1] (s, sent h (PReport r.2) ps)
| sstep_settle s ps qs h p o :
    screen_step (s, ps ++ (h, p) :: qs) (Shown <$> (pending_settled p o s).1)
      ((pending_settled p o s).2, ps ++ qs).

Inductive screen_run : screen * list (nat * pending) → list event → screen * list (nat * pending) → Prop :=
| srun_nil c : screen_run c [] c
| srun_step c c' c'' es es' :
    screen_run c es c' → screen_step c' es' c'' → screen_run c (es ++ es') c''.

(** ** The tab refines its screen *)

Definition shows (t : tab) : screen :=
  match modal_form t with Some f => Open (editTarget t) (form_values f) | None => Closed end.

(** The form is mounted exactly while the modal is open. *)
Definition tab_ok (t : tab) : Prop := modalOpen t = true ↔ is_Some (modal_form t).

(** A request in flight settles as [p] does, on every tab that is as it should be. *)
Definition settles_as (i : inflight tab) (p : pending) : Prop :=
  ∀ o t, tab_ok t →
    (f_settled i o t).1 = (pending_settled p o (shows t)).1 ∧
    shows (f_settled i o t).2 = (pending_settled p o (shows t)).2 ∧ tab_ok (f_settled i o t).2.

Definition flight_as (x : nat * inflight tab) (y : nat * pending) : Prop := x.1 = y.1 ∧ settles_as x.2 y.2.

Definition related (c : tab * list (nat * inflight tab)) (a : screen * list (nat * pending)) : Prop :=
  tab_ok c.1 ∧ a.1 = shows c.1 ∧ Forall2 flight_as c.2 a.2.

Lemma close_ok t : tab_ok (close t).
Proof. unfold tab_ok, close. cbn. split; [done|]. by intros [? ?]. Qed.

Lemma open_ok e : tab_ok (open_modal e).
Proof. unfold tab_ok, open_modal. cbn. split; [by eauto|done]. Qed.

Lemma shows_closed t : tab_ok t → modalOpen t = false → shows t = Closed.
Proof.
  unfold tab_ok, shows. intros Hok Hm. destruct (modal_form t); [|done].
  destruct Hok as [_ Hok]. rewrite Hok in Hm; [done|by eauto].
Qed.

Lemma shows_open t :
  tab_ok t → modalOpen t = true →
  ∃ f, modal_form t = Some f ∧ shows t = Open (editTarget t) (form_values f).
Proof.
  unfold tab_ok, shows. intros Hok Hm. apply Hok in Hm as [f Hf]. rewrite Hf. eauto.
Qed.

Lemma save_settles t v : settles_as (save t v) (PSave (editTarget t)).
Proof.
  intros o s Hs. unfold save. destruct (editTarget t), o; cbn; split_and!; try done; apply close_ok.
Qed.

Lemma delete_settles e : settles_as (delete_confirmed e) (PReport (delete_report e)).
Proof. intros o s Hs. by destruct o. Qed.

Lemma row_settles r : settles_as (row_control r) (PReport r.2).
Proof. intros o s Hs. done. Qed.

Lemma save_sends t v : f_call (save t v) = save_call (editTarget t) v.
Proof. unfold save, save_call. by destruct (editTarget t). Qed.

Lemma Forall2_snoc {A B} (R : A → B → Prop) l k x y :
  Forall2 R l k → R x y → Forall2 R (l ++ [x]) (k ++ [y]).
Proof. intros. apply Forall2_app; [done|by repeat constructor]. Qed.

Lemma flights_hooks ps qs : Forall2 flight_as ps qs → ps.*1 = qs.*1.
Proof. induction 1 as [|x y ps qs [Hh _] _ IH]; [done|]. cbn. by rewrite Hh, IH. Qed.

Lemma flights_saving ps qs : Forall2 flight_as ps qs → saving ps = saving qs.
Proof. intros H%flights_hooks. unfold saving, busy. by rewrite H. Qed.

(** A new call is seen alike by both. *)
Lemma flights_sent h i p ps qs :
  settles_as i p → Forall2 flight_as ps qs → Forall2 flight_as (sent h i ps) (sent h p qs).
Proof.
  intros Hi H. apply Forall2_snoc; [|by split]. unfold supersede, unheard. destruct c_awaits.
  - apply Forall2_fmap. eapply Forall2_impl; [exact H|]. intros x y [Hh Hs]. split; [cbn; by rewrite Hh|done].
  - induction H as [|x y ps qs [Hh Hs] _ IH]; [constructor|]. rewrite !filter_cons, Hh. case_decide; [by constructor|done].
Qed.

#[local] Hint Resolve close_ok open_ok flights_sent save_settles delete_settles row_settles : mantis.
#[local] Hint Constructors screen_step : mantis.

Lemma step_refines c es c' a :
  related c a → tab_step c es c' → ∃ a', screen_step a es a' ∧ related c' a'.
Proof.
  intros (Hok & Hs & Hp) Hstep. destruct a as [s qs]. cbn in Hs, Hp. subst s.
  destruct Hstep as [t ps Hm|t ps e Hm|t ps g Hm|t ps Hm|t ps i Hb Hi|t ps e|t ps e h r Hr|t ps ps' h i o];
    cbn [fst snd] in *.
  - rewrite (shows_closed t) by done. eexists. split; [apply sstep_create|].
    split_and!; cbn; [apply open_ok|by rewrite values_mount|done].
  - rewrite (shows_closed t) by done. eexists. split; [apply sstep_edit|].
    split_and!; cbn; [apply open_ok|by rewrite values_mount|done].
  - destruct (shows_open t) as (f & Hf & ->); [done..|]. eexists. split; [apply sstep_change|].
    split_and!; cbn; [|unfold shows; cbn; rewrite Hf; cbn; by rewrite values_set|done].
    unfold tab_ok, edit_form in *. cbn. rewrite Hm, Hf. cbn. split; [by eauto|done].
  - destruct (shows_open t) as (f & Hf & ->); [done..|]. eexists. split; [apply sstep_cancel|].
    split_and!; cbn; auto with mantis.
  - unfold submit in Hi. destruct (modal_form t) as [f|] eqn:Hf; [cbn in Hi|done].
    apply onSubmit_Some in Hi as [Hv ->].
    assert (shows t = Open (editTarget t) (form_values f)) as Hsh by (unfold shows; by rewrite Hf).
    rewrite save_sends, Hsh. rewrite (flights_saving _ _ Hp) in Hb.
    eexists. split; [by apply sstep_submit|]. split_and!; cbn; auto with mantis.
  - eexists. split; [apply sstep_delete|]. split_and!; cbn; auto with mantis.
  - eexists. split; [by eapply sstep_row|]. split_and!; cbn; auto with mantis.
  - apply Forall2_app_inv_l in Hp as (k1 & k2 & H1 & H2 & ->).
    apply Forall2_cons_inv_l in H2 as ([h' p] & k3 & [Hh Hip] & H3 & ->). cbn in Hh, Hip. subst h'.
    destruct (Hip o t Hok) as (En & Es & Ho). rewrite En. eexists. split; [apply sstep_settle|].
    split_and!; cbn; [done|done|by apply Forall2_app].
Qed.

Lemma run_refines es c' :
  tab_run (tab_init, []) es c' → ∃ a', screen_run (Closed, []) es a' ∧ related c' a'.
Proof.
  remember (tab_init, []) as c eqn:Hc. intros Hr. induction Hr as [c|c c1 c2 es1 es2 Hr IH Hs].
  - subst. eexists. split; [constructor|]. split_and!; [|done|constructor].
    split; [done|]. by intros [? ?].
  - destruct (IH Hc) as (a1 & Ha & Hrel). destruct (step_refines _ _ _ _ Hrel Hs) as (a2 & ? & ?).
    eexists. split; [by econstructor|done].
Qed.
End tab.

Arguments tab : clear implicits.
Arguments tab E V {F}.
Arguments screen : clear implicits.
Arguments pending : clear implicits.
