(* ===== verification/Modal.v ===== *)
(** * Modals with one form

    The modals of the pages for feeds, users, tenants, groups and clients hold one
    form that sends one request.  Some mount the form with the modal (the modal is
    keyed by its target, or the form is inside it): [modal].  Others keep the form
    in the component and reset it on closing: [kept]. *)

From S2P Require Import Prelude JsText Json Client Queries Forms Effects.

Section modal.
Context {T V : Type}.
Variables (initial : T → V) (validate : V → list (option string)).

(** What the modal is for and the values of its form; [None] while it is closed. *)
Definition modal : Type := option (T * V).

Definition modal_open (t : T) (m : modal) : modal := Some (t, initial t).
Definition modal_edit (g : V → V) (m : modal) : modal := (λ '(t, v), (t, g v)) <$> m.
Definition modal_close (m : modal) : modal := None.

(** The submit button; [send t v] is the handler. *)
Definition modal_submit {A} (send : T → V → A) (m : modal) : option A :=
  '(t, v) ← m; onSubmit validate (send t) v.
End modal.

Section kept.
Context {V : Type}.
Variables (initial : V) (validate : V → list (option string)).

Record kept := Kept { k_opened : bool; k_values : V }.

Definition kept_init : kept := Kept false initial.
Definition kept_open (m : kept) : kept := Kept true (k_values m).
Definition kept_edit (g : V → V) (m : kept) : kept := Kept (k_opened m) (g (k_values m)).
(** [form.reset(); onClose();] *)
Definition kept_close (m : kept) : kept := Kept false initial.

Definition kept_submit {A} (send : V → A) (m : kept) : option A := onSubmit validate send (k_values m).

(** The modal and the requests in flight; the form changes while it is shown. *)
Inductive kept_step (send : V → inflight kept) :
    kept * list (inflight kept) → kept * list (inflight kept) → Prop :=
| ks_open m ps : kept_step send (m, ps) (kept_open m, ps)
| ks_edit m ps g : k_opened m = true → kept_step send (m, ps) (kept_edit g m, ps)
| ks_close m ps : kept_step send (m, ps) (kept_close m, ps)
| ks_submit m ps i : k_opened m = true → kept_submit send m = Some i → kept_step send (m, ps) (m, ps ++ [i])
| ks_settle m l i r o : kept_step send (m, l ++ i :: r) ((f_settled i o m).2, l ++ r).

Inductive kept_run (send : V → inflight kept) : kept * list (inflight kept) → Prop :=
| kr_init : kept_run send (kept_init, [])
| kr_step c c' : kept_run send c → kept_step send c c' → kept_run send c'.

(** Settled, a request closes the modal and resets its form, or leaves both. *)
Definition closes_or_keeps (i : inflight kept) : Prop :=
  ∀ o m, (f_settled i o m).2 = match o with Ok _ => kept_close m | Throw _ => m end.

(** A closed modal has its initial values: what was typed does not come back, not
    even when a request settles after the modal was closed. *)
Lemma kept_closed_initial (send : V → inflight kept) c :
  (∀ v, closes_or_keeps (send v)) → kept_run send c →
  (k_opened c.1 = false → k_values c.1 = initial) ∧ Forall closes_or_keeps c.2.
Proof.
  intros Hs Hr. induction Hr as [|c c' _ [IH Hi] Hstep]; [by split; [|constructor]|].
  destruct Hstep as [m ps|m ps g Ho|m ps|m ps i Ho Hi'|m l i r o]; cbn [fst snd] in *; split; cbn; try done.
  - by rewrite Ho.
  - apply onSubmit_Some in Hi' as [_ ->]. by apply Forall_app_2; [|constructor].
  - rewrite Forall_app, Forall_cons in Hi. destruct Hi as (_ & Hi & _). rewrite Hi. by destruct o.
  - rewrite Forall_app, Forall_cons in Hi. destruct Hi as (? & _ & ?). by apply Forall_app.
Qed.
End kept.

Arguments modal : clear implicits.
Arguments kept : clear implicits.
Arguments Kept {V}.
Arguments k_opened {V}.
Arguments k_values {V}.

(** The usual handler: a green message and the modal closed, or a red message. *)
Definition send_and {A S} (m : mutation A) (a : A) (message : string) (close : S → S) : inflight S :=
  mutate m a (show_and message close) show_error.

Lemma send_and_closes {A V} (initial : V) (m : mutation A) (a : A) message :
  closes_or_keeps initial (send_and m a message (kept_close initial)).
Proof. intros [r|e] s; done. Qed.
