(* ===== verification/Upstream.v ===== *)
(** * Upstream resolvers, pools, routes and tenant policies

    [pages/upstream/*.tsx]: the resolvers, pools and routes tabs, each an instance
    of the tab of [Crud.v], with their forms and the bodies they send; and the
    tenant policy tab, whose form follows the policy that is loaded for the
    selected tenant.  A [Select] can be cleared by choosing its value again, so
    its value may be [null]. *)

From S2P Require Import Prelude JsText Json Client Errors Schema Queries Forms Effects Crud.

(** ** Constants *)

Definition STRATEGY_LABELS : list (string * string) :=
  [ ("round_robin", "Round-robin"); ("weighted_round_robin", "Weighted RR");
    ("failover", "Failover"); ("latency", "Latency") ].

Definition MATCH_TYPE_OPTIONS : list string :=
  ["domain_suffix"; "domain_exact"; "qtype"; "category"; "default"].
Definition DNSSEC_OPTIONS : list string := ["strict"; "opportunistic"; "disabled"].
Definition PROTOCOL_OPTIONS : list string := ["do53"; "dot"; "doh"].

Definition DEFAULT_PORT_BY_PROTOCOL : list (string * Z) := [("do53", 53); ("dot", 853); ("doh", 443)]%Z.

(** [table[k]] *)
Definition get_key {A} (k : string) (table : list (string * A)) : option A :=
  snd <$> List.find (λ kv, bool_decide (kv.1 = k)) table.

(** A number read from a table, [undefined] for a key it does not have, which a
    [NumberInput] shows as empty. *)
Definition port_of (protocol : string) : num_value :=
  from_option Num NumEmpty (get_key protocol DEFAULT_PORT_BY_PROTOCOL).

(** ** Resolvers *)

(** [UpstreamResolver], with the fields the tab reads. *)
Record resolver := Resolver {
  rs_id : string;
  rs_name : string;
  rs_protocol : string;
  rs_address : string;
  rs_port : Z;
  rs_tls_hostname : option string;
  rs_dnssec_validation : string;
  rs_timeout_ms : Z;
  rs_max_retries : Z;
  rs_tags : list string;
  rs_enabled : bool;
}.

Record resolver_form := ResolverForm {
  rf_name : string;
  rf_protocol : string;
  rf_address : string;
  rf_port : num_value;
  rf_tls_hostname : string;
  rf_dnssec_validation : option string;
  rf_timeout_ms : num_value;
  rf_max_retries : num_value;
  rf_tags : list string;
  rf_enabled : bool;
}.

Definition resolver_initial (i : option resolver) : resolver_form :=
  ResolverForm (from_option rs_name "" i) (from_option rs_protocol "do53" i)
    (from_option rs_address "" i)
    (match i with Some r => Num (rs_port r) | None => port_of "do53" end)
    (default "" (i ≫= rs_tls_hostname))
    (Some (from_option rs_dnssec_validation "opportunistic" i))
    (Num (from_option rs_timeout_ms 5000%Z i)) (Num (from_option rs_max_retries 2%Z i))
    (from_option rs_tags [] i) (from_option rs_enabled true i).

(** [v < 1 || v > 65535]: the empty text counts as zero. *)
Definition bad_port (v : num_value) : bool :=
  match v with Num n => (n <? 1)%Z || (65535 <? n)%Z | _ => true end.

Definition resolver_validate (v : resolver_form) : list (option string) :=
  [ err (negb (truthy (trim (rf_name v)))) "Required";
    err (negb (truthy (trim (rf_address v)))) "Required";
    err (bad_port (rf_port v)) "1–65535" ].

(** The protocol's [onChange]: the port follows. *)
Definition set_protocol (value : option string) (v : resolver_form) : resolver_form :=
  match value with
  | Some p =>
      if truthy p
      then ResolverForm (rf_name v) p (rf_address v) (port_of p) (rf_tls_hostname v)
             (rf_dnssec_validation v) (rf_timeout_ms v) (rf_max_retries v) (rf_tags v) (rf_enabled v)
      else v
  | None => v
  end.

Definition needsTls (protocol : string) : bool := bool_decide (protocol ∈ ["dot"; "doh"]).

(** The fields but [tls_hostname], and the body: a field that is [undefined] is
    not in the JSON text. *)
Definition resolver_fields (v : resolver_form) : list (string * json) :=
  [ ("name", JStr (rf_name v)); ("protocol", JStr (rf_protocol v));
    ("address", JStr (rf_address v)); ("port", num_json (rf_port v));
    ("dnssec_validation", str_json (rf_dnssec_validation v));
    ("timeout_ms", num_json (rf_timeout_ms v)); ("max_retries", num_json (rf_max_retries v));
    ("tags", JArr (JStr <$> rf_tags v)); ("enabled", JBool (rf_enabled v)) ].

Definition sent_hostname (v : resolver_form) : option string :=
  if needsTls (rf_protocol v) && truthy (rf_tls_hostname v) then Some (rf_tls_hostname v) else None.

Definition resolver_body (v : resolver_form) : json :=
  JObj (resolver_fields v ++ from_option (λ h, [("tls_hostname", JStr h)]) [] (sent_hostname v)).

(** [n.toFixed(0)] of a number that is not negative, here an exact decimal. *)
Definition toFixed0 (m e : Z) : string :=
  Z_str (if (0 <=? e)%Z then m * 10 ^ e else math_round_div m (10 ^ (- e)))%Z.

Definition latency_text (v : option json) : string :=
  match not_nullish v with Some (JNum m e) => toFixed0 m e | _ => "undefined" end.

(** [onSuccess] of [probe(r)]. *)
Definition probe_note (name : string) (r : option json) : note :=
  if truthy_json (member "ok" r) then
    Note (Some (name +:+ " — OK"))
      (latency_text (member "latency_ms" r) +:+ " ms · " +:+ member_text "response_code" r +:+
       (if truthy_json (member "dnssec_ad" r) then " · AD" else "") +:+
       (if truthy_json (member "tls_subject" r) then " · " +:+ member_text "tls_subject" r else ""))
      "green"
  else
    Note (Some (name +:+ " — Failed"))
      (from_option js_String "Unknown error" (not_nullish (member "error" r))) "red".

Definition probe (r : resolver) : call * list effect * (exc (option json) → list note) :=
  (mutationFn useProbeUpstreamResolver (rs_id r), onSuccess useProbeUpstreamResolver (rs_id r),
   λ o, match o with Ok a => [probe_note (rs_name r) a] | Throw e => [red (formatError e)] end).

(** [probe(r)] with [probingId], whose row shows the button as loading:
    [setProbingId(r.id)], and [setProbingId(null)] when the request settles. *)
Definition probe_clicked (r : resolver) (probingId : option string) :
    option string * inflight (option string) :=
  (Some (rs_id r),
   mutate useProbeUpstreamResolver (rs_id r) (λ a _, ([probe_note (rs_name r) a], None))
     (λ e _, ([red (formatError e)], None))).

(** The switch of a row: an update of [enabled] alone that only reports errors. *)
Definition toggle (m : mutation (string * json)) (id : string) (enabled : bool) :
    call * list effect * (exc (option json) → list note) :=
  let a := (id, JObj [("enabled", JBool (negb enabled))]) in
  (mutationFn m a, onSuccess m a,
   λ o, match o with Ok _ => [] | Throw e => [red (formatError e)] end).

Definition resolvers_tab : Crud resolver resolver_form := {|
  c_id := rs_id;
  c_initial := resolver_initial;
  c_validate := λ _, resolver_validate;
  c_body := resolver_body;
  c_create := useCreateUpstreamResolver;
  c_update := useUpdateUpstreamResolver;
  c_delete := useDeleteUpstreamResolver;
  c_saved := λ e r, match e with
                    | Some _ => "Resolver updated"
                    | None => "Resolver " +:+ quoted (member_text "name" r) +:+ " created"
                    end;
  c_deleted := λ e, [green ("Resolver " +:+ quoted (rs_name e) +:+ " deleted")];
  c_failed := λ e, red (formatError e);
  c_rows := λ e, [(1, toggle useUpdateUpstreamResolver (rs_id e) (rs_enabled e)); (3, probe e)];
  c_awaits := false;
|}.
#[export] Existing Instance resolvers_tab.

(** ** Pools *)

Record member_entry := PoolMember {
  pm_id : string; pm_resolver_id : string; pm_weight : Z; pm_priority : Z
}.

(** [UpstreamPool], likewise. *)
Record pool := Pool {
  pl_id : string;
  pl_name : string;
  pl_strategy : string;
  pl_health_check_interval_s : Z;
  pl_health_check_timeout_ms : Z;
  pl_health_check_query : string;
  pl_health_check_type : string;
  pl_unhealthy_threshold : Z;
  pl_healthy_threshold : Z;
  pl_min_healthy_members : Z;
  pl_members : list member_entry;
}.

Record pool_form := PoolForm {
  pf_name : string;
  pf_strategy : option string;
  pf_health_check_interval_s : num_value;
  pf_health_check_timeout_ms : num_value;
  pf_health_check_query : string;
  pf_health_check_type : option string;
  pf_unhealthy_threshold : num_value;
  pf_healthy_threshold : num_value;
  pf_min_healthy_members : num_value;
}.

Definition pool_initial (i : option pool) : pool_form :=
  PoolForm (from_option pl_name "" i) (Some (from_option pl_strategy "round_robin" i))
    (Num (from_option pl_health_check_interval_s 30%Z i))
    (Num (from_option pl_health_check_timeout_ms 2000%Z i))
    (from_option pl_health_check_query "." i) (Some (from_option pl_health_check_type "soa" i))
    (Num (from_option pl_unhealthy_threshold 3%Z i)) (Num (from_option pl_healthy_threshold 2%Z i))
    (Num (from_option pl_min_healthy_members 1%Z i)).

Definition pool_validate (v : pool_form) : list (option string) :=
  [ err (negb (truthy (trim (pf_name v)))) "Required" ].

Definition pool_body (v : pool_form) : json :=
  JObj [ ("name", JStr (pf_name v)); ("strategy", str_json (pf_strategy v));
         ("health_check_interval_s", num_json (pf_health_check_interval_s v));
         ("health_check_timeout_ms", num_json (pf_health_check_timeout_ms v));
         ("health_check_query", JStr (pf_health_check_query v));
         ("health_check_type", str_json (pf_health_check_type v));
         ("unhealthy_threshold", num_json (pf_unhealthy_threshold v));
         ("healthy_threshold", num_json (pf_healthy_threshold v));
         ("min_healthy_members", num_json (pf_min_healthy_members v)) ].

Definition pools_tab : Crud pool pool_form := {|
  c_id := pl_id;
  c_initial := pool_initial;
  c_validate := λ _, pool_validate;
  c_body := pool_body;
  c_create := useCreateUpstreamPool;
  c_update := useUpdateUpstreamPool;
  c_delete := useDeleteUpstreamPool;
  c_saved := λ e r, match e with
                    | Some _ => "Pool updated"
                    | None => "Pool " +:+ quoted (member_text "name" r) +:+ " created"
                    end;
  c_deleted := λ e, [green ("Pool " +:+ quoted (pl_name e) +:+ " deleted")];
  c_failed := λ e, red (formatError e);
  c_rows := λ _, [];
  c_awaits := false;
|}.
#[export] Existing Instance pools_tab.

(** [resolvers.find((r) => r.id === id)?.name ?? id.slice(0, 8)] *)
Definition resolverName (resolvers : list resolver) (id : string) : string :=
  from_option rs_name (String.substring 0 8 id)
    (List.find (λ r, bool_decide (rs_id r = id)) resolvers).

(** The badge of a member of a pool. *)
Definition member_badge (resolvers : list resolver) (p : pool) (m : member_entry) : string :=
  resolverName resolvers (pm_resolver_id m) +:+
  (if decide (pl_strategy p = "failover") then " (p" +:+ Z_str (pm_priority m) +:+ ")" else "") +:+
  (if decide (pl_strategy p = "weighted_round_robin") then " ×" +:+ Z_str (pm_weight m) else "").

Definition strategy_badge (p : pool) : string :=
  default (pl_strategy p) (get_key (pl_strategy p) STRATEGY_LABELS).

(** ** Routes *)

Record route := Route {
  rt_id : string;
  rt_name : string;
  rt_tenant_id : option string;
  rt_match_type : string;
  rt_match_value : option string;
  rt_pool_id : string;
  rt_priority : Z;
  rt_enabled : bool;
}.

Record route_form := RouteForm {
  tf_name : string;
  tf_match_type : option string;
  tf_match_value : string;
  tf_pool_id : option string;
  tf_priority : num_value;
  tf_enabled : bool;
}.

Definition route_initial (i : option route) : route_form :=
  RouteForm (from_option rt_name "" i) (Some (from_option rt_match_type "default" i))
    (default "" (i ≫= rt_match_value)) (Some (from_option rt_pool_id "" i))
    (Num (from_option rt_priority 100%Z i)) (from_option rt_enabled true i).

Definition route_validate (v : route_form) : list (option string) :=
  [ err (negb (truthy (trim (tf_name v)))) "Required";
    err (negb (truthy_opt (tf_pool_id v))) "Select a pool" ].

(** [form.values.match_type !== "default"] *)
Definition needsValue (v : route_form) : bool := bool_decide (tf_match_type v ≠ Some "default").

Definition route_body (v : route_form) : json :=
  JObj [ ("name", JStr (tf_name v)); ("match_type", str_json (tf_match_type v));
         ("match_value", if needsValue v then JStr (tf_match_value v) else JNull);
         ("pool_id", str_json (tf_pool_id v)); ("priority", num_json (tf_priority v));
         ("enabled", JBool (tf_enabled v)) ].

(** The tab for the tenant that is selected; [tenantId ?? undefined]. *)
Definition routes_tab (tenantId : option string) : Crud route route_form := {|
  c_id := rt_id;
  c_initial := route_initial;
  c_validate := λ _, route_validate;
  c_body := route_body;
  c_create := useCreateUpstreamRoute tenantId;
  c_update := useUpdateUpstreamRoute tenantId;
  c_delete := useDeleteUpstreamRoute tenantId;
  c_saved := λ e _, match e with Some _ => "Route updated" | None => "Route created" end;
  c_deleted := λ _, [];
  c_failed := λ e, red (formatError e);
  c_rows := λ e, [(1, toggle (useUpdateUpstreamRoute tenantId) (rt_id e) (rt_enabled e))];
  c_awaits := false;
|}.

Definition poolName (pools : list pool) (id : string) : string :=
  from_option pl_name (String.substring 0 8 id) (List.find (λ p, bool_decide (pl_id p = id)) pools).

(** The options of the target pool. *)
Definition pool_options (pools : list pool) : list (string * string) :=
  (λ p, (pl_id p, pl_name p +:+ " (" +:+ strategy_badge p +:+ ", " +:+
                  Z_str (Z.of_nat (length (pl_members p))) +:+ " members)")) <$> pools.

(** [setTenantId(v ?? "")]; the table is there for a tenant that is not empty. *)
Definition select_tenant (v : option string) : string := default "" v.
Definition routes_shown (tenantId : option string) : bool := truthy_opt tenantId.

(** ** The tenant policy tab *)

Record tenant_policy := TenantPolicy {
  tp_require_encrypted : bool;
  tp_dnssec_validation : string;
  tp_min_ttl_s : Z;
  tp_max_ttl_s : Z;
  tp_negative_ttl_s : Z;
}.

Record policy_form := PolicyForm {
  yf_require_encrypted : bool;
  yf_dnssec_validation : option string;
  yf_min_ttl_s : num_value;
  yf_max_ttl_s : num_value;
  yf_negative_ttl_s : num_value;
}.

Definition policy_initial : policy_form :=
  PolicyForm false (Some "opportunistic") (Num 0) (Num 86400) (Num 300).

Definition policy_values (p : tenant_policy) : policy_form :=
  PolicyForm (tp_require_encrypted p) (Some (tp_dnssec_validation p)) (Num (tp_min_ttl_s p))
    (Num (tp_max_ttl_s p)) (Num (tp_negative_ttl_s p)).

Definition policy_body (v : policy_form) : json :=
  JObj [ ("require_encrypted", JBool (yf_require_encrypted v));
         ("dnssec_validation", str_json (yf_dnssec_validation v));
         ("min_ttl_s", num_json (yf_min_ttl_s v)); ("max_ttl_s", num_json (yf_max_ttl_s v));
         ("negative_ttl_s", num_json (yf_negative_ttl_s v)) ].

Section policy_tab.
Context `{UseForm policy_form}.

(** [tenantId], [synced], the form, and what the query of the tenant has. *)
Record policy_tab := PolicyTab {
  pt_tenantId : option string;
  pt_synced : option string;
  pt_form : form;
  pt_policy : option tenant_policy;
}.

Definition policy_tab_init : policy_tab :=
  PolicyTab None None (useForm None policy_initial) None.

(** A render: [if (policy && tenantId && synced !== tenantId) ...] *)
Definition policy_render (s : policy_tab) : policy_tab :=
  match pt_policy s with
  | Some p =>
      if truthy_opt (pt_tenantId s) && bool_decide (pt_synced s ≠ pt_tenantId s)
      then PolicyTab (pt_tenantId s) (pt_tenantId s) (setValues (λ _, policy_values p) (pt_form s))
             (pt_policy s)
      else s
  | None => s
  end.

Inductive policy_action :=
| SelectTenant (v : option string) (cached : option tenant_policy)
| Fetched (p : option tenant_policy)
| EditPolicy (g : policy_form → policy_form).

(** A tenant is chosen ([setTenantId(v); setSynced(null)]) and its query has what
    is cached; the query gets an answer, or an error and nothing; the form is
    edited.  Each is followed by a render. *)
Definition policy_step (s : policy_tab) (a : policy_action) : policy_tab :=
  policy_render
    match a with
    | SelectTenant v cached => PolicyTab v None (pt_form s) cached
    | Fetched p => PolicyTab (pt_tenantId s) (pt_synced s) (pt_form s) p
    | EditPolicy g => PolicyTab (pt_tenantId s) (pt_synced s) (setValues g (pt_form s)) (pt_policy s)
    end.

Definition policy_run (s : policy_tab) (l : list policy_action) : policy_tab := foldl policy_step s l.

Definition policy_form_values (s : policy_tab) : policy_form := form_values (pt_form s).

(** The form's submit: no validation. *)
Definition policy_save (s : policy_tab) : inflight policy_tab :=
  mutate (useUpsertUpstreamTenantPolicy (pt_tenantId s)) (policy_body (policy_form_values s))
    (show_and "Upstream policy saved" id) show_error.
End policy_tab.
Arguments policy_tab : clear implicits.
Arguments policy_tab {H}.

(** ** The tabs and their screens *)

Lemma tab_refines {E V} `{C : Crud E V} `{F : UseForm V} es (t : tab E V) ps :
  tab_run (tab_init, []) es (t, ps) → ∃ qs, screen_run (Closed, []) es (shows t, qs).
Proof. intros ([s qs] & Hr & _ & Hs & _)%run_refines. cbn in Hs. subst. eauto. Qed.

(** C3: the resolvers, pools and routes tabs do what their screens show.  Over
    every sequence of opening the modal for a new entity or for a row, typing,
    cancelling, submitting, deleting, using the row's controls, and requests that
    settle in any order or are superseded by the next call of their hook, what the tab sends and shows is what its screen promises
    ([screen_step]): a submit creates what the modal for a new entity holds, or
    updates the entity the modal was opened for, although the tab keeps the last
    entity it edited; nothing is submitted while a save is pending, and no form is
    sent that its validation rejects. *)
Theorem tabs_refine_screens `{UseForm resolver_form} `{UseForm pool_form} `{UseForm route_form}
    (tenantId : option string) :
  (∀ es (t : tab resolver resolver_form) ps,
     tab_run (tab_init, []) es (t, ps) → ∃ qs, screen_run (Closed, []) es (shows t, qs)) ∧
  (∀ es (t : tab pool pool_form) ps,
     tab_run (tab_init, []) es (t, ps) → ∃ qs, screen_run (Closed, []) es (shows t, qs)) ∧
  (∀ es (t : tab route route_form) ps,
     tab_run (C := routes_tab tenantId) (tab_init, []) es (t, ps) →
     ∃ qs, screen_run (C := routes_tab tenantId) (Closed, []) es (shows t, qs)).
Proof. split_and!; intros es t ps; apply tab_refines. Qed.

(** ** The resolver form *)

Lemma lookup_ResolverUpdate :
  lookup_schema "ResolverUpdate" = Some (Obj
    [ Field "name" true (TUnion [TString; TNull]);
      Field "protocol" true (TUnion [TUnion [TLit "dot"; TLit "doh"; TLit "do53"]; TNull]);
      Field "address" true (TUnion [TString; TNull]);
      Field "port" true (TUnion [TNumber; TNull]);
      Field "tls_hostname" true (TUnion [TString; TNull]);
      Field "tls_pin_sha256" true (TUnion [TArr (TString); TNull]);
      Field "doh_path" true (TUnion [TString; TNull]);
      Field "dnssec_validation" true (TUnion [TUnion [TLit "strict"; TLit "opportunistic"; TLit "disabled"]; TNull]);
      Field "timeout_ms" true (TUnion [TNumber; TNull]);
      Field "max_retries" true (TUnion [TNumber; TNull]);
      Field "tags" true (TUnion [TArr (TString); TNull]);
      Field "enabled" true (TUnion [TBool; TNull]) ]).
Proof. vm_compute. reflexivity. Qed.

Lemma texts_conform n l : conforms_at n (TUnion [TArr TString; TNull]) (JArr (JStr <$> l)) = true.
Proof.
  assert (conforms_at n (TArr TString) (JArr (JStr <$> l)) = true) as H.
  { apply conforms_arr, Forall_true. intros x. by destruct n. }
  destruct n; cbn in *; by rewrite H.
Qed.

(** The values the selects offer. *)
Definition offered (v : resolver_form) : Prop :=
  rf_protocol v ∈ PROTOCOL_OPTIONS ∧ ∀ d, rf_dnssec_validation v = Some d → d ∈ DNSSEC_OPTIONS.

Lemma resolver_body_conforms v :
  offered v → not_cleared (rf_port v) = true →
  conforms (TRef "ResolverUpdate") (resolver_body v) =
  not_cleared (rf_timeout_ms v) && not_cleared (rf_max_retries v).
Proof.
  destruct v as [name proto addr port host dnssec tmo retr tags en].
  intros [Hp Hd] Hport. cbn [rf_protocol rf_dnssec_validation rf_port] in Hp, Hd, Hport. pose proof (texts_conform 1 tags) as Htags. rewrite <- !(num_json_nullable 1).
  rewrite <- (num_json_nullable 1) in Hport.
  unfold conforms, resolver_body, resolver_fields, sent_hostname. cbn [rf_name rf_protocol rf_address
    rf_port rf_tls_hostname rf_dnssec_validation rf_timeout_ms rf_max_retries rf_tags rf_enabled].
  revert Htags. generalize (JArr (JStr <$> tags)). intros tj Htags.
  assert (∃ d, str_json dnssec = d ∧ conforms_at 1 (TUnion [TUnion [TLit "strict"; TLit "opportunistic"; TLit "disabled"]; TNull]) d = true) as (dj & -> & Hdj).
  { eexists; split; [done|]. destruct dnssec as [d|]; [|done]. specialize (Hd d eq_refl).
    unfold DNSSEC_OPTIONS in Hd. set_unfold in Hd. destruct Hd as [->|[->|[->|[]]]]; done. }
  assert (conforms_at 1 (TUnion [TUnion [TLit "dot"; TLit "doh"; TLit "do53"]; TNull]) (JStr proto) = true) as Hpj.
  { unfold PROTOCOL_OPTIONS in Hp. set_unfold in Hp. destruct Hp as [->|[->|[->|[]]]]; done. }
  revert Hpj. generalize (JStr proto). intros pj Hpj.
  destruct (needsTls proto && truthy host); cbn [from_option app]; by_fields lookup_ResolverUpdate;
    rewrite Hpj, Hdj, Hport, Htags; cbn [andb]; by rewrite ?andb_true_r.
Qed.

Lemma resolver_accepted v :
  Forall (λ e, e = None) (resolver_validate v) →
  trim (rf_name v) ≠ "" ∧ trim (rf_address v) ≠ "" ∧
  ∃ n, rf_port v = Num n ∧ (1 ≤ n ≤ 65535)%Z.
Proof.
  unfold resolver_validate, err, bad_port, truthy. rewrite !Forall_cons. intros (Hn & Ha & Hp & _).
  split_and!; [intros E; by rewrite E in Hn|intros E; by rewrite E in Ha|].
  destruct (rf_port v) as [| |n]; [done..|]. exists n. split; [done|].
  destruct (n <? 1)%Z eqn:E1; [done|]. destruct (65535 <? n)%Z eqn:E2; [done|]. lia.
Qed.

(** What the body says of the TLS host name. *)
Lemma body_hostname v l :
  resolver_body v = JObj l → obj_get "tls_hostname" l = JStr <$> sent_hostname v.
Proof.
  intros [= <-]. unfold resolver_fields. cbn. by destruct (sent_hostname v).
Qed.

(** The fields of a resolver as the form sends them. *)
Definition resolver_json (r : resolver) : list (string * json) :=
  [ ("name", JStr (rs_name r)); ("protocol", JStr (rs_protocol r)); ("address", JStr (rs_address r));
    ("port", JInt (rs_port r)); ("dnssec_validation", JStr (rs_dnssec_validation r));
    ("timeout_ms", JInt (rs_timeout_ms r)); ("max_retries", JInt (rs_max_retries r));
    ("tags", JArr (JStr <$> rs_tags r)); ("enabled", JBool (rs_enabled r)) ].

(** What the resolver form sends.  Choosing a protocol sets its port and
    nothing else; an accepted form has a name, an address and a port in range,
    and its body is a [ResolverUpdate] of the API exactly when the timeout and
    the retries were not cleared.  Saved unchanged it sends the resolver's own
    fields.  The TLS host name is sent only for an encrypted protocol and when it
    is not blank, never as [null] or the empty text: a stored host name cannot be
    removed with the form, which leaves the field out instead. *)
Theorem resolver_form_sends (v : resolver_form) (r : resolver) (p : string) :
  Forall (λ e, e = None) (resolver_validate v) → offered v → p ∈ PROTOCOL_OPTIONS →
  (let w := set_protocol (Some p) v in
   rf_protocol w = p ∧ bad_port (rf_port w) = false ∧ get_key p DEFAULT_PORT_BY_PROTOCOL ≠ None ∧
   rf_port w = from_option Num NumEmpty (get_key p DEFAULT_PORT_BY_PROTOCOL) ∧
   rf_tls_hostname w = rf_tls_hostname v ∧ rf_address w = rf_address v) ∧
  (∃ n, rf_port v = Num n ∧ (1 ≤ n ≤ 65535)%Z) ∧
  (conforms (TRef "ResolverUpdate") (resolver_body v) = true ↔
     rf_timeout_ms v ≠ NumEmpty ∧ rf_max_retries v ≠ NumEmpty) ∧
  (∃ l, resolver_body (resolver_initial (Some r)) = JObj l ∧ resolver_json r `prefix_of` l) ∧
  (∀ l, resolver_body v = JObj l →
     (obj_get "tls_hostname" l ≠ None ↔ needsTls (rf_protocol v) ∧ rf_tls_hostname v ≠ "") ∧
     obj_get "tls_hostname" l ≠ Some JNull ∧ obj_get "tls_hostname" l ≠ Some (JStr "")).
Proof.
  intros Hv Ho Hp. pose proof (resolver_accepted v Hv) as (_ & _ & n & Hn & Hr). split_and!.
  - unfold PROTOCOL_OPTIONS in Hp. set_unfold in Hp. by destruct Hp as [->|[->|[->|[]]]].
  - eauto.
  - rewrite resolver_body_conforms by (done || by rewrite Hn).
    destruct (rf_timeout_ms v), (rf_max_retries v); cbn; naive_solver.
  - eexists. split; [reflexivity|]. eexists. reflexivity.
  - intros l Hl. rewrite (body_hostname _ _ Hl). unfold sent_hostname, truthy.
    destruct (needsTls (rf_protocol v)); cbn; [|by split_and!; naive_solver].
    case_bool_decide; cbn; split_and!; try naive_solver. 
Qed.

(** ** The tenant policy tab *)

Section policy_proofs.
Context `{UseForm policy_form}.

(** What the edits among some actions do to the values. *)
Definition edits (l : list policy_action) (v : policy_form) : policy_form :=
  foldl (λ v a, match a with EditPolicy g => g v | _ => v end) v l.

Definition selects (a : policy_action) : bool := match a with SelectTenant _ _ => true | _ => false end.
Definition gets_policy (a : policy_action) : bool :=
  match a with Fetched (Some _) | SelectTenant _ (Some _) => true | _ => false end.

Lemma policy_run_cons s a l : policy_run s (a :: l) = policy_run (policy_step s a) l.
Proof. done. Qed.

Lemma edits_cons a l v : edits (a :: l) v = edits l (edits [a] v).
Proof. done. Qed.

Lemma render_synced s : pt_synced s = pt_tenantId s → policy_render s = s.
Proof.
  intros E. unfold policy_render. destruct (pt_policy s); [|done].
  rewrite E, bool_decide_eq_false_2 by (intros D; by apply D). by rewrite andb_false_r.
Qed.

Lemma render_nothing s : pt_policy s = None → policy_render s = s.
Proof. unfold policy_render. by intros ->. Qed.

(** Once the form has the tenant's policy, only edits change it. *)
Lemma synced_run s l :
  pt_synced s = pt_tenantId s → Forall (λ a, selects a = false) l →
  policy_form_values (policy_run s l) = edits l (policy_form_values s) ∧
  pt_tenantId (policy_run s l) = pt_tenantId s.
Proof.
  intros Hs Hl. revert s Hs. induction Hl as [|a l Ha Hl IH]; intros s Hs; [done|].
  rewrite policy_run_cons, edits_cons. destruct a as [|p|g]; [done|..]; unfold policy_step;
    rewrite render_synced by done; (edestruct IH as [E1 E2]; [|rewrite E1, E2; clear E1 E2]; [done|]);
    unfold policy_form_values; cbn; by rewrite ?values_set.
Qed.

(** As long as no policy is there, the form is what it was, and edits. *)
Lemma unsynced_run s l :
  pt_policy s = None → Forall (λ a, selects a = false ∧ gets_policy a = false) l →
  policy_form_values (policy_run s l) = edits l (policy_form_values s) ∧
  pt_tenantId (policy_run s l) = pt_tenantId s ∧ pt_synced (policy_run s l) = pt_synced s.
Proof.
  intros Hs Hl. revert s Hs. induction Hl as [|a l [Ha Hg] Hl IH]; intros s Hs; [done|].
  rewrite policy_run_cons, edits_cons. destruct a as [|[]|g]; try done; unfold policy_step;
    rewrite render_nothing by done;
    (edestruct IH as (E1 & E2 & E3); [|rewrite E1, E2, E3; clear E1 E2 E3]; [done|]);
    unfold policy_form_values; cbn; by rewrite ?values_set.
Qed.

(** A policy that arrives for a tenant not yet synced fills the form. *)
Lemma sync_step s t p :
  pt_tenantId s = Some t → truthy t = true → pt_synced s = None →
  let s' := policy_step s (Fetched (Some p)) in
  policy_form_values s' = policy_values p ∧ pt_synced s' = pt_tenantId s' ∧ pt_tenantId s' = Some t.
Proof.
  intros Ht Htt Hs s'. unfold s', policy_step, policy_render, policy_form_values. cbn.
  rewrite Ht, Hs, bool_decide_eq_true_2 by done. cbn. rewrite Htt. cbn. by rewrite values_set.
Qed.

Lemma policy_save_sends s :
  f_call (policy_save s) =
  RawPut [Lit "/api/v1/tenants/"; Sub (pt_tenantId s); Lit "/upstream/policy"]
    (policy_body (policy_form_values s)).
Proof. done. Qed.
End policy_proofs.

(** C35: the tenant policy tab edits the policy of the tenant that is selected.
    Whatever the form held, after a tenant is chosen the first policy that
    arrives for it fills the form; from then on refetches leave it alone, and it
    holds that policy with the edits made since, in order, which is what Save
    writes to that tenant.  Until a policy arrives the form is not touched: when
    the policy cannot be loaded, Save writes the values left from the tenant
    before, with the edits since, to the tenant now selected. *)
Theorem policy_tab_follows_tenant `{UseForm policy_form} (s : policy_tab) (t : string)
    (before after : list policy_action) (p : tenant_policy) :
  truthy t = true →
  Forall (λ a, selects a = false ∧ gets_policy a = false) before →
  Forall (λ a, selects a = false) after →
  let loaded := policy_run s (SelectTenant (Some t) None :: before ++ Fetched (Some p) :: after) in
  let failed := policy_run s (SelectTenant (Some t) None :: before) in
  f_call (policy_save loaded) =
    RawPut [Lit "/api/v1/tenants/"; Sub (Some t); Lit "/upstream/policy"]
      (policy_body (edits after (policy_values p))) ∧
  f_call (policy_save failed) =
    RawPut [Lit "/api/v1/tenants/"; Sub (Some t); Lit "/upstream/policy"]
      (policy_body (edits before (policy_form_values s))).
Proof.
  intros Ht Hb Ha. cbn zeta. rewrite !policy_run_cons.
  set (s1 := policy_step s (SelectTenant (Some t) None)).
  destruct (unsynced_run s1 before) as (E1 & E2 & E3); [done..|]. split.
  - unfold policy_run in *. rewrite foldl_app. fold (policy_run s1 before) in *.
    change (foldl policy_step ?x (?a :: ?l)) with (policy_run (policy_step x a) l).
    destruct (sync_step (policy_run s1 before) t p) as (F1 & F2 & F3); [by rewrite E2|done|by rewrite E3|].
    destruct (synced_run _ after F2 Ha) as [G1 G2].
    by rewrite policy_save_sends, G1, G2, F1, F3.
  - by rewrite policy_save_sends, E1, E2.
Qed.

(** ** Examples *)

Definition resolver0 : resolver :=
  Resolver "r1" "Cloudflare" "dot" "1.1.1.1" 853 (Some "cloudflare-dns.com") "strict" 5000 2 ["public"] true.

(** Editing a resolver and then adding one: the second save is a new resolver. *)
Lemma tabs_refine_screens_witness :
  ∃ qs, screen_run (Closed, []) [Send (save_call (Some resolver0) (resolver_initial (Some resolver0)));
          Shown (green "Resolver updated")]
          (Open None (resolver_initial None), qs).
Proof.
  set (i := save (open_modal (Some resolver0)) (resolver_initial (Some resolver0))).
  refine (proj1 (tabs_refine_screens None) _ (openCreate (close (open_modal (Some resolver0)))) [] _).
  change [Send (save_call (Some resolver0) (resolver_initial (Some resolver0)));
          Shown (green "Resolver updated")]
    with (((([] ++ []) ++ [Send (f_call i)]) ++ (Shown <$> (f_settled i (Ok None) (open_modal (Some resolver0))).1)) ++ []).
  eapply run_step; [|apply step_create; reflexivity].
  eapply run_step; [|exact (step_settle (open_modal (Some resolver0)) [] [] 1 i (Ok None))].
  eapply run_step; [|exact (step_submit (open_modal (Some resolver0)) [] i eq_refl eq_refl)].
  eapply run_step; [apply run_nil|]. apply step_edit. reflexivity.
Defined.

Lemma resolver_form_sends_witness :
  conforms (TRef "ResolverUpdate") (resolver_body (resolver_initial (Some resolver0))) = true.
Proof.
  apply (proj1 (proj2 (proj2 (resolver_form_sends (resolver_initial (Some resolver0)) resolver0 "doh"
    ltac:(repeat constructor) ltac:(split; [by vm_compute; repeat constructor|]; intros d [= <-]; by repeat constructor)
    ltac:(by repeat constructor))))).
  split; discriminate.
Defined.

Definition policy0 : tenant_policy := TenantPolicy true "strict" 60 3600 300.

Lemma policy_tab_follows_tenant_witness :
  f_call (policy_save (policy_run policy_tab_init
    [SelectTenant (Some "t1") None; Fetched None; Fetched (Some policy0); Fetched (Some policy0)])) =
  RawPut [Lit "/api/v1/tenants/"; Sub (Some "t1"); Lit "/upstream/policy"] (policy_body (policy_values policy0)).
Proof.
  exact (proj1 (policy_tab_follows_tenant policy_tab_init "t1" [Fetched None] [Fetched (Some policy0)] policy0
    eq_refl ltac:(by repeat constructor) ltac:(by repeat constructor))).
Defined.
