(* ===== verification/UpstreamForms.v ===== *)
(** * The forms of the upstream pages

    The controls of [ResolverForm], [PoolForm], [RouteForm] and of the form of the
    tenant policy tab ([pages/upstream/*.tsx]).  For each form: what it sends for
    whatever is filled in, and the script that enters a given entity. *)

From S2P Require Import Prelude JsText Json Client Errors Schema Queries Forms Controls Effects Crud Upstream.

(** ** Controls *)

Definition TAG_OPTIONS : list string := ["public"; "internal"; "threat-intel"; "doh"; "do53"].

Definition resolver_controls (v : resolver_form) : list (control resolver_form) :=
  [ TextInput "Name" (λ x v, v <| rf_name := x |>);
    Select "Protocol" PROTOCOL_OPTIONS set_protocol;
    NumberInput "Port" (Some 1%Z) (Some 65535%Z) (λ x v, v <| rf_port := x |>);
    TextInput "Address" (λ x v, v <| rf_address := x |>) ] ++
  (if needsTls (rf_protocol v)
   then [TextInput "TLS hostname (SNI)" (λ x v, v <| rf_tls_hostname := x |>)] else []) ++
  [ Select "DNSSEC validation" DNSSEC_OPTIONS (λ x v, v <| rf_dnssec_validation := x |>);
    NumberInput "Timeout (ms)" (Some 100%Z) (Some 30000%Z) (λ x v, v <| rf_timeout_ms := x |>);
    NumberInput "Retries" (Some 0%Z) (Some 5%Z) (λ x v, v <| rf_max_retries := x |>);
    MultiSelect "Tags" TAG_OPTIONS rf_tags (λ x v, v <| rf_tags := x |>);
    Switch "Enabled" (λ x v, v <| rf_enabled := x |>) ].

Definition STRATEGIES : list string := ["round_robin"; "weighted_round_robin"; "failover"; "latency"].
Definition QUERY_TYPES : list string := ["soa"; "a"; "txt"].

Definition pool_controls (v : pool_form) : list (control pool_form) :=
  [ TextInput "Pool name" (λ x v, v <| pf_name := x |>);
    Select "Strategy" STRATEGIES (λ x v, v <| pf_strategy := x |>);
    NumberInput "Interval (s)" (Some 5%Z) (Some 3600%Z) (λ x v, v <| pf_health_check_interval_s := x |>);
    NumberInput "Timeout (ms)" (Some 100%Z) (Some 10000%Z) (λ x v, v <| pf_health_check_timeout_ms := x |>);
    Select "Query type" QUERY_TYPES (λ x v, v <| pf_health_check_type := x |>);
    TextInput "Probe domain" (λ x v, v <| pf_health_check_query := x |>);
    NumberInput "Unhealthy threshold" (Some 1%Z) (Some 10%Z) (λ x v, v <| pf_unhealthy_threshold := x |>);
    NumberInput "Healthy threshold" (Some 1%Z) (Some 10%Z) (λ x v, v <| pf_healthy_threshold := x |>);
    NumberInput "Min healthy members" (Some 1%Z) None (λ x v, v <| pf_min_healthy_members := x |>) ].

(** The match value is asked for unless the type is the default. *)
Definition route_controls (pools : list pool) (v : route_form) : list (control route_form) :=
  [ TextInput "Name" (λ x v, v <| tf_name := x |>);
    Select "Match type" MATCH_TYPE_OPTIONS (λ x v, v <| tf_match_type := x |>);
    NumberInput "Priority" (Some 0%Z) (Some 9999%Z) (λ x v, v <| tf_priority := x |>) ] ++
  (if needsValue v then [TextInput "Match value" (λ x v, v <| tf_match_value := x |>)] else []) ++
  [ Select "Target pool" (fst <$> pool_options pools) (λ x v, v <| tf_pool_id := x |>);
    Switch "Enabled" (λ x v, v <| tf_enabled := x |>) ].

Definition policy_controls (v : policy_form) : list (control policy_form) :=
  [ Select "DNSSEC validation" DNSSEC_OPTIONS (λ x v, v <| yf_dnssec_validation := x |>);
    NumberInput "Min TTL (s)" (Some 0%Z) None (λ x v, v <| yf_min_ttl_s := x |>);
    NumberInput "Max TTL (s)" (Some 0%Z) None (λ x v, v <| yf_max_ttl_s := x |>);
    NumberInput "Negative TTL (s)" (Some 0%Z) None (λ x v, v <| yf_negative_ttl_s := x |>);
    Switch "Require encrypted upstream (reject do53 resolvers)" (λ x v, v <| yf_require_encrypted := x |>) ].

(** ** What is sent *)

(** The fields of the schemas for new entities that are documented with a [@default]:
    the generated type asks for them, a request may leave them out. *)
Definition RESOLVER_DEFAULTS : list string :=
  ["port"; "tls_pin_sha256"; "doh_path"; "dnssec_validation"; "timeout_ms"; "max_retries"; "tags"; "enabled"].
Definition POOL_DEFAULTS : list string :=
  [ "strategy"; "health_check_interval_s"; "health_check_timeout_ms"; "health_check_query"; "health_check_type";
    "unhealthy_threshold"; "healthy_threshold"; "min_healthy_members"; "members" ].
Definition ROUTE_DEFAULTS : list string := ["priority"; "enabled"].
Definition POLICY_DEFAULTS : list string :=
  ["require_encrypted"; "dnssec_validation"; "min_ttl_s"; "max_ttl_s"; "negative_ttl_s"].

Definition with_defaults (defaults : list string) (f : field) : field :=
  Field (f_name f) (f_optional f || bool_decide (f_name f ∈ defaults)) (f_ty f).

(** A body is taken for a schema: what is not optional and has no default is there,
    and whatever is there is declared and has its type. *)
Definition takes (name : string) (defaults : list string) (j : json) : bool :=
  match lookup_schema name, j with
  | Some (Obj fs), JObj o => fields_ok (conforms_at 1) (with_defaults defaults <$> fs) o
  | _, _ => false
  end.

Lemma takes_ref name defaults fs o :
  lookup_schema name = Some (Obj fs) →
  takes name defaults (JObj o) = fields_ok (conforms_at 1) (with_defaults defaults <$> fs) o.
Proof. intros H. unfold takes. by rewrite H. Qed.

(** As [by_fields], for a body that may leave out the fields with a default. *)
Ltac by_taken_fields lk :=
  rewrite (takes_ref _ _ _ _ lk); lazy -[conforms_at andb num_json null_json];
  repeat match goal with
  | |- context [conforms_at ?n ?t (JStr ?s)] => change (conforms_at n t (JStr s)) with true
  | |- context [conforms_at ?n ?t (JBool ?s)] => change (conforms_at n t (JBool s)) with true
  | |- context [conforms_at ?n ?t JNull] => change (conforms_at n t JNull) with true
  end; cbn [andb]; rewrite ?andb_true_r.

Lemma lookup_ResolverCreate :
  lookup_schema "ResolverCreate" = Some (Obj
    [ Field "name" false TString; Field "protocol" false (TUnion (TLit <$> ["dot"; "doh"; "do53"]));
      Field "address" false TString; Field "port" false TNumber;
      Field "tls_hostname" true (TUnion [TString; TNull]); Field "tls_pin_sha256" false (TArr TString);
      Field "doh_path" false TString;
      Field "dnssec_validation" false (TUnion (TLit <$> ["strict"; "opportunistic"; "disabled"]));
      Field "timeout_ms" false TNumber; Field "max_retries" false TNumber; Field "tags" false (TArr TString);
      Field "enabled" false TBool ]).
Proof. vm_compute. reflexivity. Qed.

Lemma lookup_PoolCreate :
  lookup_schema "PoolCreate" = Some (Obj
    [ Field "name" false TString; Field "strategy" false (TUnion (TLit <$> STRATEGIES));
      Field "health_check_interval_s" false TNumber; Field "health_check_timeout_ms" false TNumber;
      Field "health_check_query" false TString; Field "health_check_type" false (TUnion (TLit <$> QUERY_TYPES));
      Field "unhealthy_threshold" false TNumber; Field "healthy_threshold" false TNumber;
      Field "min_healthy_members" false TNumber; Field "fallback_pool_id" true (TUnion [TString; TNull]);
      Field "members" false (TArr (TRef "PoolMemberIn")) ]).
Proof. vm_compute. reflexivity. Qed.

Lemma lookup_PoolUpdate :
  lookup_schema "PoolUpdate" = Some (Obj
    [ Field "name" true (TUnion [TString; TNull]);
      Field "strategy" true (TUnion [TUnion (TLit <$> STRATEGIES); TNull]);
      Field "health_check_interval_s" true (TUnion [TNumber; TNull]);
      Field "health_check_timeout_ms" true (TUnion [TNumber; TNull]);
      Field "health_check_query" true (TUnion [TString; TNull]);
      Field "health_check_type" true (TUnion [TUnion (TLit <$> QUERY_TYPES); TNull]);
      Field "unhealthy_threshold" true (TUnion [TNumber; TNull]);
      Field "healthy_threshold" true (TUnion [TNumber; TNull]);
      Field "min_healthy_members" true (TUnion [TNumber; TNull]);
      Field "fallback_pool_id" true (TUnion [TString; TNull]) ]).
Proof. vm_compute. reflexivity. Qed.

Lemma lookup_RouteCreate :
  lookup_schema "RouteCreate" = Some (Obj
    [ Field "name" false TString; Field "group_id" true (TUnion [TString; TNull]);
      Field "match_type" false (TUnion (TLit <$> MATCH_TYPE_OPTIONS));
      Field "match_value" true (TUnion [TString; TNull]); Field "pool_id" false TString;
      Field "nxdomain_ttl_override" true (TUnion [TNumber; TNull]);
      Field "require_dnssec" true (TUnion [TBool; TNull]); Field "priority" false TNumber;
      Field "enabled" false TBool ]).
Proof. vm_compute. reflexivity. Qed.

Lemma lookup_RouteUpdate :
  lookup_schema "RouteUpdate" = Some (Obj
    [ Field "name" true (TUnion [TString; TNull]); Field "group_id" true (TUnion [TString; TNull]);
      Field "match_type" true (TUnion [TUnion (TLit <$> MATCH_TYPE_OPTIONS); TNull]);
      Field "match_value" true (TUnion [TString; TNull]); Field "pool_id" true (TUnion [TString; TNull]);
      Field "nxdomain_ttl_override" true (TUnion [TNumber; TNull]);
      Field "require_dnssec" true (TUnion [TBool; TNull]); Field "priority" true (TUnion [TNumber; TNull]);
      Field "enabled" true (TUnion [TBool; TNull]) ]).
Proof. vm_compute. reflexivity. Qed.

Lemma lookup_TenantPolicyIn :
  lookup_schema "TenantPolicyIn" = Some (Obj
    [ Field "require_encrypted" false TBool;
      Field "dnssec_validation" false (TUnion (TLit <$> DNSSEC_OPTIONS));
      Field "min_ttl_s" false TNumber; Field "max_ttl_s" false TNumber; Field "negative_ttl_s" false TNumber ]).
Proof. vm_compute. reflexivity. Qed.

(** The numbers and selects of a body are opaque to the computation of the fields. *)
Ltac hide_fields :=
  repeat match goal with
  | |- context [num_json ?x] => generalize (num_json x); intros ?
  | |- context [str_json ?x] => generalize (str_json x); intros ?
  end.

Lemma pool_create_taken v :
  takes "PoolCreate" POOL_DEFAULTS (pool_body v) =
  chosen (pf_strategy v) STRATEGIES && is_num (pf_health_check_interval_s v) &&
  is_num (pf_health_check_timeout_ms v) && chosen (pf_health_check_type v) QUERY_TYPES &&
  is_num (pf_unhealthy_threshold v) && is_num (pf_healthy_threshold v) && is_num (pf_min_healthy_members v).
Proof.
  unfold pool_body. rewrite <- !(num_json_is_num 1), <- !(literals_conform 1).
  hide_fields. by_taken_fields lookup_PoolCreate. cbn [fmap list_fmap STRATEGIES QUERY_TYPES].
  by rewrite !andb_assoc.
Qed.

Lemma pool_update_conforms v :
  conforms (TRef "PoolUpdate") (pool_body v) =
  chosen_or_null (pf_strategy v) STRATEGIES && not_cleared (pf_health_check_interval_s v) &&
  not_cleared (pf_health_check_timeout_ms v) && chosen_or_null (pf_health_check_type v) QUERY_TYPES &&
  not_cleared (pf_unhealthy_threshold v) && not_cleared (pf_healthy_threshold v) &&
  not_cleared (pf_min_healthy_members v).
Proof.
  unfold conforms, pool_body. rewrite <- !(num_json_nullable 1), <- !(nullable_literals_conform 1).
  hide_fields. by_fields lookup_PoolUpdate. cbn [fmap list_fmap STRATEGIES QUERY_TYPES].
  by rewrite !andb_assoc.
Qed.

Lemma route_create_taken v :
  takes "RouteCreate" ROUTE_DEFAULTS (route_body v) =
  chosen (tf_match_type v) MATCH_TYPE_OPTIONS && bool_decide (is_Some (tf_pool_id v)) && is_num (tf_priority v).
Proof.
  unfold route_body.
  rewrite <- (num_json_is_num 1), <- (literals_conform 1), <- (str_json_string 1).
  destruct (needsValue v); hide_fields; by_taken_fields lookup_RouteCreate;
    cbn [fmap list_fmap MATCH_TYPE_OPTIONS]; by rewrite !andb_assoc.
Qed.

Lemma route_update_conforms v :
  conforms (TRef "RouteUpdate") (route_body v) =
  chosen_or_null (tf_match_type v) MATCH_TYPE_OPTIONS && not_cleared (tf_priority v).
Proof.
  unfold conforms, route_body.
  rewrite <- (num_json_nullable 1), <- (nullable_literals_conform 1).
  pose proof (str_json_nullable 1 (tf_pool_id v)) as Hp. revert Hp.
  destruct (needsValue v); hide_fields; intros Hp; by_fields lookup_RouteUpdate;
    cbn [fmap list_fmap MATCH_TYPE_OPTIONS]; rewrite Hp; done.
Qed.

Lemma policy_taken v :
  takes "TenantPolicyIn" POLICY_DEFAULTS (policy_body v) =
  chosen (yf_dnssec_validation v) DNSSEC_OPTIONS && is_num (yf_min_ttl_s v) && is_num (yf_max_ttl_s v) &&
  is_num (yf_negative_ttl_s v).
Proof.
  unfold policy_body. rewrite <- !(num_json_is_num 1), <- (literals_conform 1).
  hide_fields. by_taken_fields lookup_TenantPolicyIn. cbn [fmap list_fmap DNSSEC_OPTIONS]. by rewrite !andb_assoc.
Qed.

Lemma resolver_create_taken v :
  takes "ResolverCreate" RESOLVER_DEFAULTS (resolver_body v) =
  chosen (Some (rf_protocol v)) ["dot"; "doh"; "do53"] && is_num (rf_port v) &&
  chosen (rf_dnssec_validation v) DNSSEC_OPTIONS && is_num (rf_timeout_ms v) && is_num (rf_max_retries v).
Proof.
  assert (conforms_at 1 (TArr TString) (JArr (JStr <$> rf_tags v)) = true) as Ht
    by (by apply conforms_arr, Forall_true).
  unfold resolver_body, resolver_fields.
  rewrite <- !(num_json_is_num 1), <- !(literals_conform 1). cbn [str_json from_option]. revert Ht.
  generalize (JArr (JStr <$> rf_tags v)) (JStr (rf_protocol v)). intros tj xj Ht.
  destruct (sent_hostname v); hide_fields; cbn [from_option app]; by_taken_fields lookup_ResolverCreate;
    rewrite Ht; cbn [andb fmap list_fmap DNSSEC_OPTIONS]; by rewrite ?andb_true_r, !andb_assoc.
Qed.

(** ** What the controls keep

    The selects hold an option or nothing, and the numbers, once given, are numbers
    or cleared. *)

Definition entered (x : num_value) : Prop := x ≠ NumNull.

Lemma entered_num x : entered x → is_num x = not_cleared x.
Proof. by destruct x. Qed.

Definition resolver_ok (v : resolver_form) : Prop :=
  rf_protocol v ∈ PROTOCOL_OPTIONS ∧ from_options (rf_dnssec_validation v) DNSSEC_OPTIONS ∧
  entered (rf_port v) ∧ entered (rf_timeout_ms v) ∧ entered (rf_max_retries v).

Definition pool_ok (v : pool_form) : Prop :=
  from_options (pf_strategy v) STRATEGIES ∧ from_options (pf_health_check_type v) QUERY_TYPES ∧
  entered (pf_health_check_interval_s v) ∧ entered (pf_health_check_timeout_ms v) ∧
  entered (pf_unhealthy_threshold v) ∧ entered (pf_healthy_threshold v) ∧ entered (pf_min_healthy_members v).

Definition route_ok (v : route_form) : Prop :=
  from_options (tf_match_type v) MATCH_TYPE_OPTIONS ∧ entered (tf_priority v).

Definition policy_ok (v : policy_form) : Prop :=
  from_options (yf_dnssec_validation v) DNSSEC_OPTIONS ∧ entered (yf_min_ttl_s v) ∧
  entered (yf_max_ttl_s v) ∧ entered (yf_negative_ttl_s v).

Lemma port_of_entered p : entered (port_of p).
Proof. unfold port_of. by destruct (get_key p DEFAULT_PORT_BY_PROTOCOL). Qed.

Lemma resolver_keeps v : resolver_ok v → Forall (keeps any_input resolver_ok v) (resolver_controls v).
Proof.
  unfold resolver_ok. intros (Hp & Hd & H1 & H2 & H3). unfold resolver_controls. each_control; cbn;
    try (split_and!; done).
  destruct o as [p|]; [|done]. cbn. destruct (truthy p); [|done]. cbn.
  split_and!; try done; [by apply from_options_Some|apply port_of_entered].
Qed.

Lemma pool_keeps v : pool_ok v → Forall (keeps any_input pool_ok v) (pool_controls v).
Proof.
  unfold pool_ok. intros (Hs & Ht & H1 & H2 & H3 & H4 & H5). unfold pool_controls.
  each_control; cbn; split_and!; done.
Qed.

Lemma route_keeps pools v : route_ok v → Forall (keeps any_input route_ok v) (route_controls pools v).
Proof. unfold route_ok. intros (Hm & Hp). unfold route_controls. each_control; cbn; split_and!; done. Qed.

Lemma policy_keeps v : policy_ok v → Forall (keeps any_input policy_ok v) (policy_controls v).
Proof.
  unfold policy_ok. intros (Hd & H1 & H2 & H3). unfold policy_controls. each_control; cbn; split_and!; done.
Qed.

(** Entities whose fixed choices are among the options of the forms. *)
Definition resolver_wf (r : resolver) : Prop :=
  rs_protocol r ∈ PROTOCOL_OPTIONS ∧ rs_dnssec_validation r ∈ DNSSEC_OPTIONS.
Definition pool_wf (p : pool) : Prop := pl_strategy p ∈ STRATEGIES ∧ pl_health_check_type p ∈ QUERY_TYPES.
Definition route_wf (t : route) : Prop := rt_match_type t ∈ MATCH_TYPE_OPTIONS.

(** The entity a form starts from, if any. *)
Definition given {E} (wf : E → Prop) (i : option E) : Prop := ∀ e, i = Some e → wf e.

(** No select was deselected and no number cleared. *)
Definition resolver_filled (v : resolver_form) : bool :=
  bool_decide (is_Some (rf_dnssec_validation v)) && not_cleared (rf_timeout_ms v) && not_cleared (rf_max_retries v).
Definition pool_numbers (v : pool_form) : bool :=
  not_cleared (pf_health_check_interval_s v) && not_cleared (pf_health_check_timeout_ms v) &&
  not_cleared (pf_unhealthy_threshold v) && not_cleared (pf_healthy_threshold v) &&
  not_cleared (pf_min_healthy_members v).
Definition pool_filled (v : pool_form) : bool :=
  bool_decide (is_Some (pf_strategy v)) && bool_decide (is_Some (pf_health_check_type v)) && pool_numbers v.
Definition policy_filled (v : policy_form) : bool :=
  bool_decide (is_Some (yf_dnssec_validation v)) && not_cleared (yf_min_ttl_s v) &&
  not_cleared (yf_max_ttl_s v) && not_cleared (yf_negative_ttl_s v).

Ltac options := apply (bool_decide_eq_true_1 _); vm_compute; reflexivity.

Lemma resolver_initial_ok i : given resolver_wf i → resolver_ok (resolver_initial i).
Proof.
  destruct i as [r|]; intros Hi.
  - destruct (Hi r eq_refl) as [Hp Hd]. split_and!; try done. by apply from_options_Some.
  - split_and!; try done; options.
Qed.

Lemma pool_initial_ok i : given pool_wf i → pool_ok (pool_initial i).
Proof.
  destruct i as [p|]; intros Hi.
  - destruct (Hi p eq_refl) as [Hs Ht]. split_and!; try done; by apply from_options_Some.
  - split_and!; try done; options.
Qed.

Lemma route_initial_ok i : given route_wf i → route_ok (route_initial i).
Proof.
  destruct i as [t|]; intros Hi.
  - split; [|done]. apply from_options_Some. exact (Hi t eq_refl).
  - split; [options|done].
Qed.

Lemma policy_values_ok p : tp_dnssec_validation p ∈ DNSSEC_OPTIONS → policy_ok (policy_values p).
Proof. intros H. split_and!; try done. by apply from_options_Some. Qed.

Lemma resolver_ok_sends v :
  resolver_ok v → Forall (λ e, e = None) (resolver_validate v) →
  takes "ResolverCreate" RESOLVER_DEFAULTS (resolver_body v) = resolver_filled v ∧
  conforms (TRef "ResolverUpdate") (resolver_body v) =
    not_cleared (rf_timeout_ms v) && not_cleared (rf_max_retries v).
Proof.
  intros (Hp & Hd & H1 & H2 & H3) (_ & _ & n & Hn & _)%resolver_accepted. split.
  - rewrite resolver_create_taken, Hn, !entered_num by done. unfold resolver_filled.
    destruct (from_options_chosen (rf_dnssec_validation v) DNSSEC_OPTIONS DNSSEC_OPTIONS) as [-> _]; [done..|].
    replace (chosen (Some (rf_protocol v)) ["dot"; "doh"; "do53"]) with true; [done|].
    symmetry. apply chosen_true. eexists. split; [done|]. revert Hp. unfold PROTOCOL_OPTIONS. set_solver.
  - apply resolver_body_conforms; [|by rewrite Hn]. split; [done|].
    intros d Hd'. rewrite Hd' in Hd. by apply from_options_Some.
Qed.

Lemma pool_ok_sends v :
  pool_ok v →
  takes "PoolCreate" POOL_DEFAULTS (pool_body v) = pool_filled v ∧
  conforms (TRef "PoolUpdate") (pool_body v) = pool_numbers v.
Proof.
  intros (Hs & Ht & H1 & H2 & H3 & H4 & H5).
  rewrite pool_create_taken, pool_update_conforms, !entered_num by done.
  unfold pool_filled, pool_numbers.
  destruct (from_options_chosen (pf_strategy v) STRATEGIES STRATEGIES) as [-> ->]; [done..|].
  destruct (from_options_chosen (pf_health_check_type v) QUERY_TYPES QUERY_TYPES) as [-> ->]; [done..|].
  repeat match goal with |- context [not_cleared ?x] => destruct (not_cleared x) end;
    repeat case_bool_decide; done.
Qed.

(** An accepted route has a pool. *)
Lemma route_ok_sends v :
  route_ok v → Forall (λ e, e = None) (route_validate v) →
  takes "RouteCreate" ROUTE_DEFAULTS (route_body v) =
    bool_decide (is_Some (tf_match_type v)) && not_cleared (tf_priority v) ∧
  conforms (TRef "RouteUpdate") (route_body v) = not_cleared (tf_priority v).
Proof.
  intros (Hm & Hp) Hv. unfold route_validate in Hv. rewrite !Forall_cons in Hv. destruct Hv as (_ & Hpool & _).
  rewrite route_create_taken, route_update_conforms, entered_num by done.
  destruct (from_options_chosen (tf_match_type v) MATCH_TYPE_OPTIONS MATCH_TYPE_OPTIONS) as [-> ->]; [done..|].
  destruct (tf_pool_id v); [|done]. cbn. by rewrite andb_true_r.
Qed.

Lemma policy_ok_sends v : policy_ok v → takes "TenantPolicyIn" POLICY_DEFAULTS (policy_body v) = policy_filled v.
Proof.
  intros (Hd & H1 & H2 & H3). rewrite policy_taken, !entered_num by done. unfold policy_filled.
  by destruct (from_options_chosen (yf_dnssec_validation v) DNSSEC_OPTIONS DNSSEC_OPTIONS) as [-> _].
Qed.

(** C30: what the upstream forms send, against the schemas of schema.ts, whatever is
    done with their controls.  From a blank form or from an entity of the API, after any
    script of typing, choosing, deselecting and clearing, the body of a form that is
    accepted is taken for a new resolver, pool or route, where the fields documented
    with a default may be missing, exactly when no select of the form was deselected and
    no number cleared; as an update it has the type exactly when no number was cleared,
    a deselected select being sent as null, which an update may have.  The policy of a
    tenant is taken exactly when neither happened.  The body of a pool, new or not,
    never has members. *)
Theorem upstream_forms_send (ri : option resolver) (rv : resolver_form) (pi : option pool) (pv : pool_form)
    (ti : option route) (tv : route_form) (yp : tenant_policy) (yv : policy_form) (pools : list pool) :
  given resolver_wf ri → given pool_wf pi → given route_wf ti → tp_dnssec_validation yp ∈ DNSSEC_OPTIONS →
  fillable resolver_controls (resolver_initial ri) rv → fillable pool_controls (pool_initial pi) pv →
  fillable (route_controls pools) (route_initial ti) tv → fillable policy_controls (policy_values yp) yv →
  (Forall (λ e, e = None) (resolver_validate rv) →
   takes "ResolverCreate" RESOLVER_DEFAULTS (resolver_body rv) =
     bool_decide (is_Some (rf_dnssec_validation rv)) &&
       not_cleared (rf_timeout_ms rv) && not_cleared (rf_max_retries rv) ∧
   conforms (TRef "ResolverUpdate") (resolver_body rv) =
     not_cleared (rf_timeout_ms rv) && not_cleared (rf_max_retries rv)) ∧
  takes "PoolCreate" POOL_DEFAULTS (pool_body pv) =
    bool_decide (is_Some (pf_strategy pv)) && bool_decide (is_Some (pf_health_check_type pv)) && pool_numbers pv ∧
  conforms (TRef "PoolUpdate") (pool_body pv) = pool_numbers pv ∧
  (∃ o, pool_body pv = JObj o ∧ obj_get "members" o = None) ∧
  (Forall (λ e, e = None) (route_validate tv) →
   takes "RouteCreate" ROUTE_DEFAULTS (route_body tv) =
     bool_decide (is_Some (tf_match_type tv)) && not_cleared (tf_priority tv) ∧
   conforms (TRef "RouteUpdate") (route_body tv) = not_cleared (tf_priority tv)) ∧
  takes "TenantPolicyIn" POLICY_DEFAULTS (policy_body yv) = policy_filled yv.
Proof.
  intros Hr Hp Ht Hy Fr Fp Ft Fy. split_and!.
  - apply resolver_ok_sends. by apply (fillable_keeps _ _ _ _ resolver_keeps (resolver_initial_ok ri Hr)).
  - apply pool_ok_sends. by apply (fillable_keeps _ _ _ _ pool_keeps (pool_initial_ok pi Hp)).
  - apply pool_ok_sends. by apply (fillable_keeps _ _ _ _ pool_keeps (pool_initial_ok pi Hp)).
  - eexists. split; reflexivity.
  - apply route_ok_sends. by apply (fillable_keeps _ _ _ _ (route_keeps pools) (route_initial_ok ti Ht)).
  - apply policy_ok_sends. by apply (fillable_keeps _ _ _ _ policy_keeps (policy_values_ok yp Hy)).
Qed.

(** ** Entering an entity *)

Definition resolver_script (r : resolver) : list (string * input) :=
  [ ("Name", Typed (rs_name r)); ("Protocol", Chosen (rs_protocol r)); ("Port", Entered (rs_port r));
    ("Address", Typed (rs_address r)) ] ++
  (if needsTls (rs_protocol r) then [("TLS hostname (SNI)", Typed (default "" (rs_tls_hostname r)))] else []) ++
  [ ("DNSSEC validation", Chosen (rs_dnssec_validation r)); ("Timeout (ms)", Entered (rs_timeout_ms r));
    ("Retries", Entered (rs_max_retries r)); ("Tags", ChosenAll (rs_tags r)); ("Enabled", Switched (rs_enabled r)) ].

Definition pool_script (p : pool) : list (string * input) :=
  [ ("Pool name", Typed (pl_name p)); ("Strategy", Chosen (pl_strategy p));
    ("Interval (s)", Entered (pl_health_check_interval_s p));
    ("Timeout (ms)", Entered (pl_health_check_timeout_ms p));
    ("Query type", Chosen (pl_health_check_type p)); ("Probe domain", Typed (pl_health_check_query p));
    ("Unhealthy threshold", Entered (pl_unhealthy_threshold p));
    ("Healthy threshold", Entered (pl_healthy_threshold p));
    ("Min healthy members", Entered (pl_min_healthy_members p)) ].

Definition route_script (t : route) : list (string * input) :=
  [ ("Name", Typed (rt_name t)); ("Match type", Chosen (rt_match_type t)); ("Priority", Entered (rt_priority t)) ] ++
  (if decide (rt_match_type t = "default") then [] else [("Match value", Typed (default "" (rt_match_value t)))]) ++
  [ ("Target pool", Chosen (rt_pool_id t)); ("Enabled", Switched (rt_enabled t)) ].

(** The bounds of the number inputs. *)
Definition between (lo hi n : Z) : Prop := (lo ≤ n ≤ hi)%Z.

Definition resolver_enterable (r : resolver) : Prop :=
  resolver_wf r ∧ between 1 65535 (rs_port r) ∧ between 100 30000 (rs_timeout_ms r) ∧
  between 0 5 (rs_max_retries r) ∧ Forall (λ t, t ∈ TAG_OPTIONS) (rs_tags r) ∧
  (needsTls (rs_protocol r) = false → default "" (rs_tls_hostname r) = "").

Definition pool_enterable (p : pool) : Prop :=
  pool_wf p ∧ between 5 3600 (pl_health_check_interval_s p) ∧ between 100 10000 (pl_health_check_timeout_ms p) ∧
  between 1 10 (pl_unhealthy_threshold p) ∧ between 1 10 (pl_healthy_threshold p) ∧
  (1 ≤ pl_min_healthy_members p)%Z.

Definition route_enterable (pools : list pool) (t : route) : Prop :=
  route_wf t ∧ between 0 9999 (rt_priority t) ∧ rt_pool_id t ∈ pl_id <$> pools ∧
  (rt_match_type t = "default" → default "" (rt_match_value t) = "").

Lemma resolver_script_fills r :
  resolver_enterable r →
  fill resolver_controls (resolver_script r) (resolver_initial None) = Some (resolver_initial (Some r)).
Proof.
  destruct r as [id name proto addr port host dnssec tmo retr tags en].
  intros ((Hp & Hd) & Hport & Ht & Hr & Htags & Hh). unfold between in *.
  cbn [rs_protocol rs_dnssec_validation rs_port rs_timeout_ms rs_max_retries rs_tags rs_tls_hostname] in *.
  unfold PROTOCOL_OPTIONS in Hp. set_unfold in Hp.
  destruct Hp as [->|[->|[->|[]]]]; [specialize (Hh eq_refl)|clear Hh..]; unfold resolver_script; cbn [rs_protocol];
    [change (needsTls "do53") with false|change (needsTls "dot") with true|change (needsTls "doh") with true];
    cbn [app]; fill_in.
  unfold resolver_initial. cbn in *. by rewrite Hh.
Qed.

Lemma pool_script_fills p :
  pool_enterable p →
  fill pool_controls (pool_script p) (pool_initial None) = Some (pool_initial (Some p)).
Proof.
  destruct p as [id name strat int tmo query ty unh hea minh members].
  intros ((Hs & Ht) & H1 & H2 & H3 & H4 & H5). unfold between in *.
  cbn [pl_strategy pl_health_check_type pl_health_check_interval_s pl_health_check_timeout_ms
       pl_unhealthy_threshold pl_healthy_threshold pl_min_healthy_members] in *.
  unfold pool_script. fill_in.
Qed.

Lemma pool_ids pools : fst <$> pool_options pools = pl_id <$> pools.
Proof. unfold pool_options. by rewrite <- list_fmap_compose. Qed.

Lemma route_script_fills pools t :
  route_enterable pools t →
  fill (route_controls pools) (route_script t) (route_initial None) = Some (route_initial (Some t)).
Proof.
  destruct t as [id name tenant ty value pool prio en]. intros (Hm & Hp & Hpool & Hv). unfold between in *.
  rewrite <- pool_ids in Hpool. unfold route_wf in Hm.
  cbn [rt_match_type rt_match_value rt_pool_id rt_priority] in *. unfold MATCH_TYPE_OPTIONS in Hm. set_unfold in Hm.
  destruct Hm as [->|[->|[->|[->|[->|[]]]]]]; unfold route_script; cbn [rt_match_type];
    repeat case_decide; try done; cbn [app]; fill_in.
  unfold route_initial. cbn in *. by rewrite Hv.
Qed.

(** The upstream forms can enter every entity.  Whatever resolver, pool or route
    has choices the form offers and numbers within the bounds of its inputs, there
    is a script that fills the blank form with exactly its values: the protocol is
    chosen before the port it resets and the host name it brings up, and the match
    type before the match value.  What is then sent is what an edit of that entity
    would send, so nothing the API stores of it is out of the form's reach; of a
    pool, the members are. *)
Theorem upstream_forms_complete (r : resolver) (p : pool) (pools : list pool) (t : route) :
  resolver_enterable r → pool_enterable p → route_enterable pools t →
  fill resolver_controls (resolver_script r) (resolver_initial None) = Some (resolver_initial (Some r)) ∧
  fill pool_controls (pool_script p) (pool_initial None) = Some (pool_initial (Some p)) ∧
  fill (route_controls pools) (route_script t) (route_initial None) = Some (route_initial (Some t)) ∧
  (∃ l, resolver_body (resolver_initial (Some r)) = JObj l ∧ resolver_json r `prefix_of` l) ∧
  (∀ members, pool_body (pool_initial (Some (Pool (pl_id p) (pl_name p) (pl_strategy p)
     (pl_health_check_interval_s p) (pl_health_check_timeout_ms p) (pl_health_check_query p)
     (pl_health_check_type p) (pl_unhealthy_threshold p) (pl_healthy_threshold p)
     (pl_min_healthy_members p) members))) = pool_body (pool_initial (Some p))).
Proof.
  intros Hr Hp Ht. split_and!; [by apply resolver_script_fills|by apply pool_script_fills|
    by apply route_script_fills| |done].
  eexists. split; [reflexivity|]. eexists. reflexivity.
Qed.

(** ** Bounds *)

Definition bounded_resolver (v : resolver_form) : Prop :=
  in_bounds (Some 1%Z) (Some 65535%Z) (rf_port v) ∧ in_bounds (Some 100%Z) (Some 30000%Z) (rf_timeout_ms v) ∧
  in_bounds (Some 0%Z) (Some 5%Z) (rf_max_retries v).

Lemma port_of_bounds p : in_bounds (Some 1%Z) (Some 65535%Z) (port_of p).
Proof.
  unfold port_of, get_key, DEFAULT_PORT_BY_PROTOCOL. cbn [List.find fst].
  repeat case_bool_decide; cbn; lia.
Qed.

(** A resolver form whose inputs were left before Save holds numbers within the
    bounds of its inputs, the port a protocol brings included. *)
Lemma resolver_bounds l v :
  Forall (λ a, left_input a.2) l → fill resolver_controls l (resolver_initial None) = Some v → bounded_resolver v.
Proof.
  intros Hl. apply (fill_keeps _ left_input bounded_resolver); [|done|by vm_compute].
  intros u (H1 & H2 & H3). unfold bounded_resolver, resolver_controls. each_control; cbn; try done.
  destruct o as [p|]; [|done]. cbn. destruct (truthy p); [|done]. cbn. split_and!; try done. apply port_of_bounds.
Qed.

(** ** Examples *)

Definition pool0 : pool := Pool "p1" "ha" "failover" 30 2000 "." "soa" 3 2 1 [].
Definition route0 : route := Route "u1" "corp" None "domain_suffix" (Some ".corp.local") "p1" 100 true.

Lemma resolver0_wf : resolver_wf resolver0.
Proof. split; options. Defined.
Lemma pool0_wf : pool_wf pool0.
Proof. split; options. Defined.
Lemma route0_wf : route_wf route0.
Proof. options. Defined.

(** A resolver whose DNSSEC select was deselected cannot be created, but updated; a
    pool without members can be created. *)
Lemma upstream_forms_send_witness :
  let v := (resolver_initial (Some resolver0)) <| rf_dnssec_validation := None |> in
  conforms (TRef "ResolverUpdate") (resolver_body v) = true ∧
  takes "ResolverCreate" RESOLVER_DEFAULTS (resolver_body v) = false ∧
  takes "PoolCreate" POOL_DEFAULTS (pool_body (pool_initial (Some pool0))) = true.
Proof.
  intros v.
  destruct (upstream_forms_send (Some resolver0) v (Some pool0) (pool_initial (Some pool0))
    (Some route0) (route_initial (Some route0)) policy0 (policy_values policy0) [pool0]
    ltac:(intros ? [= <-]; exact resolver0_wf) ltac:(intros ? [= <-]; exact pool0_wf)
    ltac:(intros ? [= <-]; exact route0_wf) ltac:(options)
    ltac:(exists [("DNSSEC validation", Deselected)]; reflexivity)
    (fillable_refl _ _) (fillable_refl _ _) (fillable_refl _ _)) as (Hr & Hp & _).
  destruct (Hr ltac:(repeat constructor)) as [Hc Hu].
  split; [rewrite Hu; reflexivity|]. split; [rewrite Hc; reflexivity|exact Hp].
Defined.

Lemma upstream_forms_complete_witness :
  fill resolver_controls (resolver_script resolver0) (resolver_initial None) =
  Some (resolver_initial (Some resolver0)).
Proof.
  refine (proj1 (upstream_forms_complete resolver0 pool0 [pool0] route0 _ _ _)).
  - split_and!; try (by vm_compute); [exact resolver0_wf|]. repeat constructor.
  - split_and!; try (by vm_compute). exact pool0_wf.
  - split_and!; try (by vm_compute); [exact route0_wf|]. options.
Defined.
