(* ===== verification/ReservationTab.v ===== *)
(** * The reservations of a scope

    [pages/dhcp/ReservationsTab.tsx] and [pages/dhcp/dhcpv6/Reservation6sTab.tsx] are
    one component for the two address families, here over the class
    [Reservations].  The page keeps the selected scope and what a lease asked to
    reserve; the tab is mounted while its panel is shown, and keeps the entity in
    its modal, the modal and its form.  Requests take time, and a request that
    settles after its tab was unmounted finds nothing to close. *)

From S2P Require Import Prelude JsText Json Client Queries Forms Effects.

(** The entity [E] ([Partial<...>]: what a prefilled form starts from has no id), the
    values [V] of its form, and what a lease hands over, [F]. *)
Class Reservations (E V F : Type) := {
  e_id : E → option string;
  e_enabled : E → bool;
  e_initial : option E → V;
  e_validate : V → list (option string);
  e_body : V → json;
  (** The mutations of a scope. *)
  e_create : option string → mutation json;
  e_update : option string → mutation (string * json);
  e_delete : option string → mutation string;
  (** The message of a save; was it an update? *)
  e_saved : bool → string;
  e_prefilled : F → E;
  prefilled_new f : e_id (e_prefilled f) = None;
}.

Section tab.
Context {E V F : Type} `{R : Reservations E V F} `{U : UseForm V}.

Record panel := Panel {
  p_editing : option E;
  p_modalOpen : bool;
  p_form : option form;
}.

(** The selected scope, the prefill, the tab while it is mounted, and how often it
    has been mounted. *)
Record half := Half {
  h_scopeId : option string;
  h_prefill : option F;
  h_panel : option panel;
  h_mounts : nat;
}.

Definition half_init : half := Half None None None 0.

Definition on_panel (g : panel → panel) (h : half) : half :=
  Half (h_scopeId h) (h_prefill h) (g <$> h_panel h) (h_mounts h).

(** [setEditing(e); open();]: the modal mounts its form. *)
Definition open_with (e : option E) (_ : panel) : panel := Panel e true (Some (useForm None (e_initial e))).
Definition openCreate : half → half := on_panel (open_with None).
Definition openEdit (e : E) : half → half := on_panel (open_with (Some e)).
Definition close : half → half := on_panel (λ p, Panel (p_editing p) false None).
Definition change (g : V → V) : half → half :=
  on_panel (λ p, Panel (p_editing p) (p_modalOpen p) (setValues g <$> p_form p)).

(** The effect on [prefill] and [scopeId]: open the form once, prefilled. *)
Definition prefill_effect (h : half) : half :=
  match h_panel h, h_prefill h with
  | Some p, Some f =>
      if truthy_opt (h_scopeId h)
      then Half (h_scopeId h) None (Some (open_with (Some (e_prefilled f)) p)) (h_mounts h)
      else h
  | _, _ => h
  end.

(** The panel is shown, or another one is. *)
Definition mount (h : half) : half :=
  prefill_effect (Half (h_scopeId h) (h_prefill h) (Some (Panel None false None)) (S (h_mounts h))).
Definition unmount (h : half) : half := Half (h_scopeId h) (h_prefill h) None (h_mounts h).

(** [onScopeChange(v)] *)
Definition select_scope (v : option string) (h : half) : half :=
  prefill_effect (Half v (h_prefill h) (h_panel h) (h_mounts h)).

(** The effect that selects the only scope there is. *)
Definition auto_select (scopes : list string) (h : half) : half :=
  match scopes with
  | [x] => if truthy_opt (h_scopeId h) then h else select_scope (Some x) h
  | _ => h
  end.

(** [editing?.id] *)
Definition editing_id (p : panel) : option string := (p_editing p ≫= e_id) ≫= or_null.

(** [.then(() => { close(); notifications.show(...) })] in a tab mounted as number [n]. *)
Definition saved (n : nat) (message : string) (_ : option json) (h : half) : list note * half :=
  ([green message], if decide (h_mounts h = n) then close h else h).

(** [save(body)] *)
Definition save (h : half) (p : panel) (v : V) : inflight half :=
  match editing_id p with
  | Some id => mutate (e_update (h_scopeId h)) (id, e_body v) (saved (h_mounts h) (e_saved true)) show_message
  | None => mutate (e_create (h_scopeId h)) (e_body v) (saved (h_mounts h) (e_saved false)) show_message
  end.

(** The submit button of the form. *)
Definition submit (h : half) : option (inflight half) :=
  p ← h_panel h; f ← p_form p; onSubmit e_validate (save h p) (form_values f).

(** [confirmDelete(r)], confirmed, and the switch of a row. *)
Definition delete_row (h : half) (id : string) : inflight half :=
  mutate (e_delete (h_scopeId h)) id (show_and "Reservation deleted" Datatypes.id) show_message.

Definition toggle_row (h : half) (id : string) (e : E) : inflight half :=
  mutate (e_update (h_scopeId h)) (id, JObj [("enabled", JBool (negb (e_enabled e)))]) quietly show_message.

(** What the tab shows: the search box, whether Add is disabled, and the table or a
    text in its place. *)
Definition tab_controls (h : half) : bool * bool * bool :=
  (truthy_opt (h_scopeId h), negb (truthy_opt (h_scopeId h)), truthy_opt (h_scopeId h)).

(** ** Runs

    [rows s] are the reservations of the scope [s].  The modal covers the page, so
    while it is open only its own controls are used. *)
Variable rows : string → list E.

Definition modal_open (h : half) : bool := from_option p_modalOpen false (h_panel h).

(** A request with the scope that was selected when it was sent. *)
Inductive sent := Sent (scope : option string) (c : call).

(** The requests in flight, each with the mount of the tab and the hook that sent it: 0
    creates, 1 updates, 2 deletes.  They are awaited; called again, a hook is pending
    for its last call, and the call before is kept as hook 9. *)
Definition flights : Type := list (nat * nat * inflight half).

Definition through (h : half) (k : nat) (i : inflight half) (ps : flights) : flights :=
  ((λ x, (if decide (x.1 = (h_mounts h, k)) then (h_mounts h, 9) else x.1, x.2)) <$> ps) ++ [((h_mounts h, k), i)].

(** [create.isPending || update.isPending] of the tab that is mounted. *)
Definition saving (h : half) (ps : flights) : bool :=
  bool_decide ((h_mounts h, 0) ∈ ps.*1) || bool_decide ((h_mounts h, 1) ∈ ps.*1).

Definition save_hook (h : half) : nat := if decide (h_panel h ≫= editing_id = None) then 0 else 1.

Inductive half_step : half * flights → list sent → half * flights → Prop :=
| hs_mount h ps : h_panel h = None → half_step (h, ps) [] (mount h, ps)
| hs_unmount h ps : modal_open h = false → half_step (h, ps) [] (unmount h, ps)
| hs_select h ps v : modal_open h = false → half_step (h, ps) [] (select_scope v h, ps)
| hs_auto h ps scopes : half_step (h, ps) [] (auto_select scopes h, ps)
| hs_reserve h ps s f :
    h_panel h = None → truthy s = true →
    half_step (h, ps) [] (mount (Half (Some s) (Some f) None (h_mounts h)), ps)
| hs_create h ps :
    modal_open h = false → (tab_controls h).1.2 = false → half_step (h, ps) [] (openCreate h, ps)
| hs_edit h ps s e :
    modal_open h = false → h_scopeId h = Some s → truthy s = true → e ∈ rows s →
    half_step (h, ps) [] (openEdit e h, ps)
| hs_change h ps g : half_step (h, ps) [] (change g h, ps)
| hs_cancel h ps : half_step (h, ps) [] (close h, ps)
| hs_submit h ps i :
    saving h ps = false → submit h = Some i →
    half_step (h, ps) [Sent (h_scopeId h) (f_call i)] (h, through h (save_hook h) i ps)
| hs_delete h ps s e id :
    h_panel h ≠ None → h_scopeId h = Some s → truthy s = true → e ∈ rows s → e_id e = Some id →
    half_step (h, ps) [Sent (h_scopeId h) (f_call (delete_row h id))] (h, through h 2 (delete_row h id) ps)
| hs_toggle h ps s e id :
    h_panel h ≠ None → h_scopeId h = Some s → truthy s = true → e ∈ rows s → e_id e = Some id →
    half_step (h, ps) [Sent (h_scopeId h) (f_call (toggle_row h id e))] (h, through h 1 (toggle_row h id e) ps)
| hs_settle h ps k i qs o :
    half_step (h, ps ++ (k, i) :: qs) [] ((f_settled i o h).2, ps ++ qs).

Inductive half_run : half * flights → list sent → half * flights → Prop :=
| hr_nil c : half_run c [] c
| hr_step c c' c'' es es' : half_run c es c' → half_step c' es' c'' → half_run c (es ++ es') c''.

(** ** Every request stays in the selected scope *)

(** The modal has its form while it is open; it is open for a scope that is
    selected, and on a reservation of that scope or on a new one. *)
Definition panel_ok (scopeId : option string) (p : panel) : Prop :=
  (p_modalOpen p = true ↔ is_Some (p_form p)) ∧
  (p_modalOpen p = true →
   ∃ s, scopeId = Some s ∧ truthy s = true ∧ ∀ e id, p_editing p = Some e → e_id e = Some id → e ∈ rows s).

Definition half_ok (h : half) : Prop := ∀ p, h_panel h = Some p → panel_ok (h_scopeId h) p.

Definition accepted (v : V) : Prop := Forall (λ e, e = None) (e_validate v).

(** A request that creates a reservation in the scope [s], or is about one of it. *)
Inductive within (s : string) : call → Prop :=
| in_create v : accepted v → within s (mutationFn (e_create (Some s)) (e_body v))
| in_update e id v :
    e ∈ rows s → e_id e = Some id → accepted v → within s (mutationFn (e_update (Some s)) (id, e_body v))
| in_toggle e id :
    e ∈ rows s → e_id e = Some id →
    within s (mutationFn (e_update (Some s)) (id, JObj [("enabled", JBool (negb (e_enabled e)))]))
| in_delete e id : e ∈ rows s → e_id e = Some id → within s (mutationFn (e_delete (Some s)) id).

Definition in_scope (x : sent) : Prop :=
  match x with Sent sc c => ∃ s, sc = Some s ∧ truthy s = true ∧ within s c end.

Lemma closed_ok sc e : panel_ok sc (Panel e false None).
Proof. split; [|done]. cbn. split; [done|]. by intros [? ?]. Qed.

Lemma half_close_ok h : half_ok h → half_ok (close h).
Proof.
  intros _ p. unfold close, on_panel. cbn. destruct (h_panel h) as [q|]; [|done].
  intros [= <-]. apply closed_ok.
Qed.

(** Opening the modal for a selected scope. *)
Lemma half_open_ok s e p :
  truthy s = true → (∀ x id, e = Some x → e_id x = Some id → x ∈ rows s) → panel_ok (Some s) (open_with e p).
Proof.
  intros Hs He. unfold panel_ok, open_with. cbn. split; [by split; eauto|]. intros _. eauto.
Qed.

Lemma prefill_ok h : half_ok h → half_ok (prefill_effect h).
Proof.
  intros Hh q. unfold prefill_effect. destruct (h_panel h) as [p|] eqn:Hp; [|apply Hh].
  destruct (h_prefill h) as [f|]; [|apply Hh].
  destruct (truthy_opt (h_scopeId h)) eqn:Ht; [|apply Hh]. cbn. intros [= <-].
  destruct (h_scopeId h) as [s|]; [|done]. apply half_open_ok; [done|]. intros x id [= <-]. by rewrite prefilled_new.
Qed.

Lemma change_ok g h : half_ok h → half_ok (change g h).
Proof.
  intros Hh p. unfold change, on_panel. cbn. destruct (h_panel h) as [q|] eqn:Hq; [|done].
  intros [= <-]. destruct (Hh q Hq) as [H1 H2]. split; [|done]. cbn. by rewrite fmap_is_Some.
Qed.

Lemma fresh_ok sc f n : half_ok (Half sc f (Some (Panel None false None)) n).
Proof. intros p [= <-]. apply closed_ok. Qed.

Lemma closed_panel h p : modal_open h = false → h_panel h = Some p → p_modalOpen p = false.
Proof. unfold modal_open. intros H Hp. by rewrite Hp in H. Qed.

(** A scope is selected while the modal is closed. *)
Lemma select_ok v h : half_ok h → modal_open h = false → half_ok (select_scope v h).
Proof.
  intros Hh Hm. apply prefill_ok. intros p Hp. cbn in *. destruct (Hh p Hp) as [H1 _]. split; [done|].
  by rewrite (closed_panel h p).
Qed.

(** Without a selected scope the modal is closed. *)
Lemma no_scope_closed h : half_ok h → truthy_opt (h_scopeId h) = false → modal_open h = false.
Proof.
  unfold modal_open. intros Hh Hs. destruct (h_panel h) as [p|] eqn:Hp; [|done]. cbn.
  destruct (p_modalOpen p) eqn:Ho; [|done]. destruct (Hh p Hp) as [_ Hx].
  destruct (Hx Ho) as (s & E1 & E2 & _). rewrite E1 in Hs. cbn in Hs. congruence.
Qed.

Lemma auto_ok scopes h : half_ok h → half_ok (auto_select scopes h).
Proof.
  intros Hh. unfold auto_select. destruct scopes as [|x [|? ?]]; [done| |done].
  destruct (truthy_opt (h_scopeId h)) eqn:Ht; [done|]. apply select_ok; [done|]. by apply no_scope_closed.
Qed.

(** What settling does to the state. *)
Definition settles (i : inflight half) : Prop := ∀ o h, half_ok h → half_ok (f_settled i o h).2.

Lemma saved_ok n m r h : half_ok h → half_ok (saved n m r h).2.
Proof. intros Hh. cbn. case_decide; [by apply half_close_ok|done]. Qed.

Lemma half_save_settles h p v : settles (save h p v).
Proof. intros o h' Hh. unfold save. destruct (editing_id p), o; cbn -[saved]; try done; by apply saved_ok. Qed.

Lemma half_delete_settles h id : settles (delete_row h id).
Proof. intros [] h' Hh; done. Qed.

Lemma toggle_settles h id e : settles (toggle_row h id e).
Proof. intros [] h' Hh; done. Qed.

#[local] Hint Resolve half_close_ok prefill_ok change_ok select_ok auto_ok fresh_ok half_save_settles half_delete_settles
  toggle_settles : mantis.

(** A submit is within the selected scope. *)
Lemma submit_in_scope h i : half_ok h → submit h = Some i → in_scope (Sent (h_scopeId h) (f_call i)) ∧ settles i.
Proof.
  intros Hh Hi. unfold submit in Hi. destruct (h_panel h) as [p|] eqn:Hp; [cbn in Hi|done].
  destruct (p_form p) as [f|] eqn:Hf; [cbn in Hi|done]. apply onSubmit_Some in Hi as [Hv ->].
  split; [|apply half_save_settles]. destruct (Hh p Hp) as [Ho Hs].
  destruct Hs as (s & Es & Ht & He); [apply Ho; by rewrite Hf|]. exists s. split_and!; [done..|].
  unfold save, editing_id. rewrite Es. destruct (p_editing p) as [e|] eqn:Ee; cbn; [|by constructor].
  destruct (e_id e) as [id|] eqn:Eid; cbn; [|by constructor].
  unfold or_null. case_decide; cbn; [by constructor|]. econstructor; eauto.
Qed.

Lemma through_settles h k i ps : Forall settles ps.*2 → settles i → Forall settles (through h k i ps).*2.
Proof.
  intros Hp Hi. unfold through. rewrite fmap_app, <- list_fmap_compose. cbn.
  apply Forall_app_2; [|by apply Forall_singleton]. by rewrite (list_fmap_ext _ snd) by done.
Qed.
#[local] Hint Resolve through_settles : mantis.

Lemma half_step_ok c es c' :
  half_step c es c' → half_ok c.1 → Forall settles c.2.*2 →
  half_ok c'.1 ∧ Forall settles c'.2.*2 ∧ Forall in_scope es.
Proof.
  intros Hs Hh Hp. destruct Hs as [h ps Hn|h ps Hm|h ps v Hm|h ps sc|h ps s f Hn Ht|h ps Hm Hc|h ps s e Hm Es Ht He
    |h ps g|h ps|h ps i Hb Hi|h ps s e id Hn Es Ht He Hid|h ps s e id Hn Es Ht He Hid|h ps k i qs o]; cbn [fst snd] in *.
  - split_and!; [|done..]. apply prefill_ok, fresh_ok.
  - by split_and!.
  - split_and!; [by apply select_ok|done..].
  - split_and!; [by apply auto_ok|done..].
  - split_and!; [|done..]. apply prefill_ok, fresh_ok.
  - split_and!; [|done..]. intros p. cbn. destruct (h_panel h) as [q|]; [|done]. intros [= <-]. cbn in Hc.
    destruct (h_scopeId h) as [s|]; [|done]. apply half_open_ok; [by apply negb_false_iff in Hc|done].
  - split_and!; [|done..]. intros p. cbn. destruct (h_panel h) as [q|]; [|done]. intros [= <-]. rewrite Es.
    apply half_open_ok; [done|]. by intros x id [= <-].
  - split_and!; auto with mantis.
  - split_and!; auto with mantis.
  - destruct (submit_in_scope h i Hh Hi) as [Hin Hse].
    split_and!; [done|by apply through_settles|by apply Forall_singleton].
  - split_and!; [done|auto with mantis|].
    apply Forall_singleton. exists s. split_and!; [done..|]. cbn. rewrite Es. by econstructor.
  - split_and!; [done|auto with mantis|].
    apply Forall_singleton. exists s. split_and!; [done..|]. cbn. rewrite Es. by econstructor.
  - rewrite fmap_app in Hp. apply Forall_app in Hp as [H1 H2]. apply Forall_cons in H2 as [Hi H2].
    split_and!; [by apply Hi|rewrite fmap_app; by apply Forall_app|done].
Qed.

Lemma half_run_ok es c' :
  half_run (half_init, []) es c' → half_ok c'.1 ∧ Forall settles c'.2.*2 ∧ Forall in_scope es.
Proof.
  remember (half_init, []) as c eqn:Hc. intros Hr. induction Hr as [c|c c1 c2 es1 es2 Hr IH Hs]; subst.
  - split_and!; [by intros p|constructor..].
  - destruct (IH eq_refl) as (H1 & H2 & H3). destruct (half_step_ok _ _ _ Hs H1 H2) as (H4 & H5 & H6).
    split_and!; [done..|]. by apply Forall_app.
Qed.

(** Reserve on a lease of the scope [s]. *)
Lemma reserve_opens h s f :
  truthy s = true →
  let h' := mount (Half (Some s) (Some f) None (h_mounts h)) in
  h_scopeId h' = Some s ∧ modal_open h' = true ∧ prefill_effect h' = h' ∧
  (accepted (e_initial (Some (e_prefilled f))) →
   f_call <$> submit h' = Some (mutationFn (e_create (Some s)) (e_body (e_initial (Some (e_prefilled f)))))).
Proof.
  intros Ht. cbn zeta. unfold mount, prefill_effect. cbn. rewrite Ht. split_and!; [done..|]. intros Ha.
  unfold submit. cbn. rewrite values_mount. unfold onSubmit. rewrite decide_True by done. cbn.
  unfold save, editing_id. cbn. by rewrite prefilled_new.
Qed.
End tab.

Arguments panel : clear implicits.
Arguments panel E V {U}.
Arguments half : clear implicits.
Arguments half E V F {U}.
