(* ===== verification/Dhcp6.v ===== *)
(** * DHCPv6, leases and status

    [pages/dhcp/dhcpv6/*.tsx]: the IPv6 scopes tab, an instance of the tab of
    [Crud.v], the forms of IPv6 reservations, and the leases tabs of
    both families; [pages/dhcp/StatusTab.tsx], whose utilisation is computed in
    binary64 as the program does. *)

From S2P Require Import Prelude JsText Json Client Schema Queries Format Forms Effects Crud Dhcp Upstream.

(** ** Searching a table *)

(** [q ? rows.filter((r) => texts(r).some((t) => t.toLowerCase().includes(q))) : rows]
    for the trimmed, lower-cased search text [q]. *)
Definition search_rows {A} (texts : A → list string) (search : string) (rows : list A) : list A :=
  let q := toLowerCase (trim search) in
  if truthy q then List.filter (λ r, existsb (λ t, includes (toLowerCase t) q) (texts r)) rows
  else rows.

Lemma search_rows_spec {A} (texts : A → list string) search rows r :
  r ∈ search_rows texts search rows ↔
  r ∈ rows ∧ (toLowerCase (trim search) = "" ∨
              ∃ t, t ∈ texts r ∧ includes (toLowerCase t) (toLowerCase (trim search)) = true).
Proof.
  unfold search_rows. cbn zeta. generalize (toLowerCase (trim search)) as q. intros q.
  unfold truthy. case_bool_decide as Hq.
  - rewrite list_elem_of_In, filter_In, <- list_elem_of_In, existsb_exists.
    setoid_rewrite <- list_elem_of_In. naive_solver.
  - tauto.
Qed.

(** ** IPv6 scopes *)

(** [DhcpScope6], with the fields the tab reads. *)
Record scope6 := Scope6 {
  s6_id : string;
  s6_tenant_id : string;
  s6_name : string;
  s6_description : option string;
  s6_subnet : string;
  s6_pool_start : string;
  s6_pool_end : string;
  s6_pd_prefix : option string;
  s6_pd_prefix_len : option Z;
  s6_dns_servers : list string;
  s6_domain_name : option string;
  s6_interface : option string;
  s6_preferred_lifetime_s : Z;
  s6_valid_lifetime_s : Z;
  s6_ddns_enabled : bool;
  s6_enabled : bool;
}.

Record scope6_form := Scope6Form {
  sf6_tenant_id : option string;
  sf6_name : string;
  sf6_description : string;
  sf6_subnet : string;
  sf6_pool_start : string;
  sf6_pool_end : string;
  sf6_pd_prefix : string;
  sf6_pd_prefix_len : num_value;
  sf6_dns_servers : string;
  sf6_domain_name : string;
  sf6_interface : string;
  sf6_preferred_lifetime_s : num_value;
  sf6_valid_lifetime_s : num_value;
  sf6_ddns_enabled : bool;
  sf6_enabled : bool;
}.

Definition scope6_initial (i : option scope6) : scope6_form :=
  let str (get : scope6 → string) := from_option get "" i in
  let opt (get : scope6 → option string) := default "" (i ≫= get) in
  Scope6Form (Some (str s6_tenant_id)) (str s6_name) (opt s6_description) (str s6_subnet)
    (str s6_pool_start) (str s6_pool_end) (opt s6_pd_prefix) (opt_num (i ≫= s6_pd_prefix_len))
    (join ", " (from_option s6_dns_servers [] i)) (opt s6_domain_name) (opt s6_interface)
    (Num (from_option s6_preferred_lifetime_s 3000%Z i)) (Num (from_option s6_valid_lifetime_s 4000%Z i))
    (from_option s6_ddns_enabled false i) (from_option s6_enabled true i).

Definition scope6_validate (i : option scope6) (v : scope6_form) : list (option string) :=
  let required s := err (negb (truthy (trim s))) "Required" in
  [ err (negb (truthy_opt (s6_id <$> i)) && negb (truthy_opt (sf6_tenant_id v))) "Required";
    required (sf6_name v); required (sf6_subnet v); required (sf6_pool_start v);
    required (sf6_pool_end v) ].

Definition scope6_body (v : scope6_form) : json :=
  JObj [ ("tenant_id", str_json (sf6_tenant_id v)); ("name", JStr (sf6_name v));
         ("description", null_json (sf6_description v)); ("subnet", JStr (sf6_subnet v));
         ("pool_start", JStr (sf6_pool_start v)); ("pool_end", JStr (sf6_pool_end v));
         ("pd_prefix", null_json (sf6_pd_prefix v)); ("pd_prefix_len", num_json (sf6_pd_prefix_len v));
         ("dns_servers", JArr (JStr <$> parse_servers (sf6_dns_servers v)));
         ("domain_name", null_json (sf6_domain_name v)); ("interface", null_json (sf6_interface v));
         ("preferred_lifetime_s", num_json (sf6_preferred_lifetime_s v));
         ("valid_lifetime_s", num_json (sf6_valid_lifetime_s v));
         ("ddns_enabled", JBool (sf6_ddns_enabled v)); ("enabled", JBool (sf6_enabled v)) ].

(** The [onChange] of the interface select. *)
Definition set_interface6 (value : option string) (v : scope6_form) : scope6_form :=
  Scope6Form (sf6_tenant_id v) (sf6_name v) (sf6_description v) (sf6_subnet v) (sf6_pool_start v)
    (sf6_pool_end v) (sf6_pd_prefix v) (sf6_pd_prefix_len v) (sf6_dns_servers v) (sf6_domain_name v)
    (default "" value) (sf6_preferred_lifetime_s v) (sf6_valid_lifetime_s v) (sf6_ddns_enabled v)
    (sf6_enabled v).

(** The switch of a row; the error is shown as it is. *)
Definition toggle6 (m : mutation (string * json)) (id : string) (enabled : bool) :
    call * list effect * (exc (option json) → list note) :=
  let a := (id, JObj [("enabled", JBool (negb enabled))]) in
  (mutationFn m a, onSuccess m a, λ o, match o with Ok _ => [] | Throw e => [red_error e] end).

Definition scopes6_tab : Crud scope6 scope6_form := {|
  c_id := s6_id;
  c_initial := scope6_initial;
  c_validate := scope6_validate;
  c_body := scope6_body;
  c_create := useCreateDhcpScope6;
  c_update := useUpdateDhcpScope6;
  c_delete := useDeleteDhcpScope6;
  c_saved := λ e _, match e with Some _ => "Scope updated" | None => "Scope created" end;
  c_deleted := λ _, [green "Scope deleted"];
  c_failed := red_error;
  c_rows := λ e, [(1, toggle6 useUpdateDhcpScope6 (s6_id e) (s6_enabled e))];
  c_awaits := true;
|}.
#[export] Existing Instance scopes6_tab.

(** ** IPv6 reservations *)

(** [Partial<DhcpReservation6>]: what a prefilled form starts from has no id. *)
Record reservation6 := Reservation6 {
  rv6_id : option string;
  rv6_duid : string;
  rv6_ip_address : string;
  rv6_hostname : option string;
  rv6_description : option string;
  rv6_enabled : option bool;
}.

Record reservation6_form := Reservation6Form {
  vf6_duid : string;
  vf6_ip_address : string;
  vf6_hostname : string;
  vf6_description : string;
  vf6_enabled : bool;
}.

Definition reservation6_initial (i : option reservation6) : reservation6_form :=
  Reservation6Form (from_option rv6_duid "" i) (from_option rv6_ip_address "" i)
    (default "" (i ≫= rv6_hostname)) (default "" (i ≫= rv6_description))
    (default true (i ≫= rv6_enabled)).

Definition reservation6_validate (v : reservation6_form) : list (option string) :=
  [ err (negb (truthy (trim (vf6_duid v)))) "Required";
    err (negb (truthy (trim (vf6_ip_address v)))) "Required" ].

Definition reservation6_body (v : reservation6_form) : json :=
  JObj [ ("duid", JStr (vf6_duid v)); ("ip_address", JStr (vf6_ip_address v));
         ("hostname", null_json (vf6_hostname v)); ("description", null_json (vf6_description v));
         ("enabled", JBool (vf6_enabled v)) ].

Record prefill6 := Prefill6 { pf6_ip : string; pf6_duid : option string }.

Definition prefilled6 (f : prefill6) : reservation6 :=
  Reservation6 None (default "" (pf6_duid f)) (pf6_ip f) None None None.

(** [filtered] of the tab. *)
Definition filtered_reservations6 : string → list reservation6 → list reservation6 :=
  search_rows (λ r, [rv6_duid r; rv6_ip_address r; default "" (rv6_hostname r)]).

(** ** Leases *)

Record lease := Lease {
  l_scope_id : string;
  l_ip_address : string;
  l_mac_address : string;
  l_hostname : option string;
  l_state : Z;
  l_expires_at : string;
}.

Record lease6 := Lease6 {
  l6_scope_id : string;
  l6_ip_address : string;
  l6_duid : string;
  l6_hostname : option string;
  l6_lease_type : Z;
  l6_expires_at : string;
}.

Definition filtered_leases : string → list lease → list lease :=
  search_rows (λ l, [l_ip_address l; l_mac_address l; default "" (l_hostname l)]).
Definition filtered_leases6 : string → list lease6 → list lease6 :=
  search_rows (λ l, [l6_ip_address l; l6_duid l; default "" (l6_hostname l)]).

(** [m.get(id) ?? id] for the map of the scope options, the later of two. *)
Definition scopeName (options : list (string * string)) (id : string) : string :=
  default id (snd <$> List.find (λ o, bool_decide (o.1 = id)) (rev options)).

Definition lease_state_badge (l : lease) : string * string :=
  default ("State " +:+ Z_str (l_state l), "gray") (LEASE_STATE (l_state l)).
Definition lease6_type_badge (l : lease6) : string * string :=
  if (l6_lease_type l =? 2)%Z then ("IA_PD", "grape") else ("IA_NA", "blue").

(** ** Status *)

(** [Math.round((assigned / total) * 100)]: a quotient and a product, each rounded
    to binary64. *)
Definition utilisation (assigned total : Z) : Z :=
  if (0 <? total)%Z then
    let '(m, k) := double_div assigned total in
    let '(m', k') := double_div (100 * m) (2 ^ k) in
    math_round_double m' k'
  else 0%Z.

Definition utilisation_color (pct : Z) : string :=
  if (85 <? pct)%Z then "red" else if (60 <? pct)%Z then "orange" else "blue".

(** [health.some((h) => h.stale)] *)
Definition anyStale (health : list bool) : bool := existsb id health.

(** ** Lemmas *)

Lemma lookup_Scope6Update :
  lookup_schema "Scope6Update" = Some (Obj
    [ Field "name" true (TUnion [TString; TNull]);
      Field "description" true (TUnion [TString; TNull]);
      Field "pool_start" true (TUnion [TString; TNull]);
      Field "pool_end" true (TUnion [TString; TNull]);
      Field "pd_prefix" true (TUnion [TString; TNull]);
      Field "pd_prefix_len" true (TUnion [TNumber; TNull]);
      Field "dns_servers" true (TUnion [TArr (TString); TNull]);
      Field "domain_name" true (TUnion [TString; TNull]);
      Field "interface" true (TUnion [TString; TNull]);
      Field "preferred_lifetime_s" true (TUnion [TNumber; TNull]);
      Field "valid_lifetime_s" true (TUnion [TNumber; TNull]);
      Field "renew_time_s" true (TUnion [TNumber; TNull]);
      Field "rebind_time_s" true (TUnion [TNumber; TNull]);
      Field "ddns_enabled" true (TUnion [TBool; TNull]);
      Field "ddns_zone_id" true (TUnion [TString; TNull]);
      Field "ddns_ttl_s" true (TUnion [TNumber; TNull]);
      Field "enabled" true (TUnion [TBool; TNull]) ]).
Proof. vm_compute. reflexivity. Qed.

(** The three number fields of a form were not cleared. *)
Definition filled6 (v : scope6_form) : bool :=
  not_cleared (sf6_pd_prefix_len v) && not_cleared (sf6_preferred_lifetime_s v) &&
  not_cleared (sf6_valid_lifetime_s v).

Lemma scope6_body_conforms v :
  conforms (TRef "Scope6Update") (drop_fields not_updatable (scope6_body v)) = filled6 v.
Proof.
  pose proof (texts_conform 1 (parse_servers (sf6_dns_servers v))) as Hl.
  unfold conforms, scope6_body, filled6. revert Hl.
  generalize (JArr (JStr <$> parse_servers (sf6_dns_servers v))) as l. intros l Hl.
  rewrite <- !(num_json_nullable 1).
  match goal with |- context [drop_fields ?a (JObj ?b)] =>
    let c := eval lazy -[num_json null_json str_json] in (drop_fields a (JObj b)) in
    change (drop_fields a (JObj b)) with c end.
  destruct v. by_fields lookup_Scope6Update.
  rewrite !null_json_nullable, Hl. cbn [andb]. by rewrite ?andb_true_r, <- ?andb_assoc.
Qed.

Lemma scope6_body_rejected v : conforms (TRef "Scope6Update") (scope6_body v) = false.
Proof.
  unfold conforms, scope6_body. generalize (JArr (JStr <$> parse_servers (sf6_dns_servers v))) as l.
  intros l. destruct v. rewrite (conforms_ref _ _ _ _ lookup_Scope6Update).
  unfold fields_ok. apply andb_false_iff. right. reflexivity.
Qed.

(** What the API holds of a scope, as the body that sets it. *)
Definition scope6_json (s : scope6) : json :=
  JObj [ ("tenant_id", JStr (s6_tenant_id s)); ("name", JStr (s6_name s));
         ("description", str_json (s6_description s)); ("subnet", JStr (s6_subnet s));
         ("pool_start", JStr (s6_pool_start s)); ("pool_end", JStr (s6_pool_end s));
         ("pd_prefix", str_json (s6_pd_prefix s)); ("pd_prefix_len", from_option JInt JNull (s6_pd_prefix_len s));
         ("dns_servers", JArr (JStr <$> s6_dns_servers s));
         ("domain_name", str_json (s6_domain_name s)); ("interface", str_json (s6_interface s));
         ("preferred_lifetime_s", JInt (s6_preferred_lifetime_s s));
         ("valid_lifetime_s", JInt (s6_valid_lifetime_s s));
         ("ddns_enabled", JBool (s6_ddns_enabled s)); ("enabled", JBool (s6_enabled s)) ].

Definition scope6_texts_ok (s : scope6) : Prop :=
  Forall (λ o, o ≠ Some "") [s6_description s; s6_pd_prefix s; s6_domain_name s; s6_interface s].

Lemma scope6_unchanged s :
  scope6_texts_ok s → forallb item_ok (s6_dns_servers s) = true →
  scope6_body (scope6_initial (Some s)) = scope6_json s.
Proof.
  unfold scope6_texts_ok. rewrite !Forall_cons. intros (H1 & H2 & H3 & H4 & _) Hs.
  unfold scope6_body, scope6_json. cbn -[parse_servers].
  rewrite parse_servers_join by done. rewrite !null_json_default by done.
  by destruct (s6_pd_prefix_len s).
Qed.

(** The IPv6 scopes tab does what its screen shows, as the upstream tabs do.
    A scope saved unchanged is sent as it is, DNS servers included; an accepted
    form for a new scope has a tenant.  As with IPv4, the body of an edit is never
    a [Scope6Update] of the API, for it carries the tenant and the subnet, which
    an update does not have; without these it is one exactly when no number was
    cleared. *)
Theorem scopes6_tab_saves `{UseForm scope6_form} (s : scope6) (v : scope6_form) :
  scope6_texts_ok s → forallb item_ok (s6_dns_servers s) = true →
  (∀ es (t : Crud.tab scope6 scope6_form) ps,
     tab_run (tab_init, []) es (t, ps) → ∃ qs, screen_run (Closed, []) es (shows t, qs)) ∧
  scope6_body (scope6_initial (Some s)) = scope6_json s ∧
  (Forall (λ e, e = None) (scope6_validate None v) → ∃ t, sf6_tenant_id v = Some t ∧ t ≠ "") ∧
  conforms (TRef "Scope6Update") (scope6_body v) = false ∧
  (conforms (TRef "Scope6Update") (drop_fields not_updatable (scope6_body v)) = true ↔
     sf6_pd_prefix_len v ≠ NumEmpty ∧ sf6_preferred_lifetime_s v ≠ NumEmpty ∧
     sf6_valid_lifetime_s v ≠ NumEmpty).
Proof.
  intros Hs Hd. split_and!.
  - intros es t ps. apply tab_refines.
  - by apply scope6_unchanged.
  - unfold scope6_validate. rewrite !Forall_cons. intros (Ht & _). cbn in Ht.
    destruct (sf6_tenant_id v) as [t|]; [|done]. exists t. split; [done|]. intros ->. done.
  - apply scope6_body_rejected.
  - rewrite scope6_body_conforms. unfold filled6.
    destruct (sf6_pd_prefix_len v), (sf6_preferred_lifetime_s v), (sf6_valid_lifetime_s v); cbn; naive_solver.
Qed.

(** *** Utilisation *)

Local Open Scope Z_scope.

Lemma math_round_double_bound m k : 0 ≤ k → 2 * Z.abs (math_round_double m k * 2 ^ k - m) ≤ 2 ^ k.
Proof.
  intros Hk. unfold math_round_double. rewrite Z.pow_add_r by lia. change (2 ^ 1) with 2.
  assert (0 < 2 ^ k) by (by apply Z.pow_pos_nonneg).
  pose proof (Z.div_mod (2 * m + 2 ^ k) (2 ^ k * 2) ltac:(lia)).
  pose proof (Z.mod_pos_bound (2 * m + 2 ^ k) (2 ^ k * 2) ltac:(lia)). nia.
Qed.

Lemma double_div_error a b : 0 < b → 2 * Z.abs ((double_div a b).1 * b - a * 2 ^ (double_div a b).2) ≤ b.
Proof. intros Hb. unfold double_div. apply round_half_even_bound. lia. Qed.

(** The exponent of a quotient, from the sizes of its parts. *)
Lemma double_div_exp a b : 52 + Z.log2 b - Z.log2 a ≤ (double_div a b).2.
Proof. unfold double_div. cbn [snd]. case_match; lia. Qed.

(** The mantissa of a quotient of at most one. *)
Lemma double_div_mantissa a b :
  0 < b → 0 ≤ a ≤ b → 0 ≤ (double_div a b).1 ≤ 2 ^ (double_div a b).2.
Proof.
  intros Hb Ha. pose proof (double_div_error a b Hb) as He.
  pose proof (double_div_exp a b) as Hk.
  assert (Z.log2 a ≤ Z.log2 b) by (apply Z.log2_le_mono; lia).
  destruct (double_div a b) as [m k]. cbn in *.
  assert (0 < 2 ^ k) by (apply Z.pow_pos_nonneg; lia). nia.
Qed.

Lemma scale_abs e n c : 2 * Z.abs e ≤ n → 0 ≤ c → 2 * Z.abs (e * c) ≤ n * c.
Proof. intros He Hc. rewrite Z.abs_mul, (Z.abs_eq c) by done. nia. Qed.

(** The two rounding errors are too small to matter for at most 2^40 addresses. *)
Lemma percent_nearest a t m k m' k' pct :
  0 ≤ a ≤ t → 0 < t < 2 ^ 40 →
  2 * Z.abs (m * t - a * 2 ^ k) ≤ t → 2 * Z.abs (m' * 2 ^ k - 100 * m * 2 ^ k') ≤ 2 ^ k →
  2 * Z.abs (pct * 2 ^ k' - m') ≤ 2 ^ k' → 52 ≤ k → 45 ≤ k' →
  2 * Z.abs (pct * t - 100 * a) ≤ t.
Proof.
  intros Ha Ht H1 H2 H3 Hk Hk'.
  assert (2 ^ 52 ≤ 2 ^ k) as Kp by (apply Z.pow_le_mono_r; lia).
  assert (2 ^ 45 ≤ 2 ^ k') as Kq by (apply Z.pow_le_mono_r; lia).
  revert H1 H2 H3 Kp Kq. generalize (2 ^ k) (2 ^ k'). intros P Q H1 H2 H3 Kp Kq.
  change (2 ^ 52) with 4503599627370496 in Kp. change (2 ^ 45) with 35184372088832 in Kq.
  change (2 ^ 40) with 1099511627776 in Ht.
  set (e1 := m * t - a * P) in *. set (e2 := m' * P - 100 * m * Q) in *. set (e3 := pct * Q - m') in *.
  assert ((pct * t - 100 * a) * (P * Q) = e3 * (P * t) + e2 * t + e1 * (100 * Q)) as E
    by (unfold e1, e2, e3; ring).
  pose proof (scale_abs e1 t (100 * Q) H1 ltac:(lia)) as S1.
  pose proof (scale_abs e2 P t H2 ltac:(lia)) as S2.
  pose proof (scale_abs e3 Q (P * t) H3 ltac:(nia)) as S3.
  assert (32 * t * P ≤ Q * P) as B1 by (apply Z.mul_le_mono_nonneg_r; lia).
  assert (4096 * t * Q ≤ P * Q) as B2 by (apply Z.mul_le_mono_nonneg_r; lia).
  assert (0 < P * Q) as B3 by nia.
  apply Z.lt_succ_r, (Z.mul_lt_mono_pos_r (P * Q)); [done|].
  rewrite <- (Z.abs_eq (P * Q)) at 1 by lia. rewrite <- Z.mul_assoc, <- Z.abs_mul, E.
  generalize dependent (e1 * (100 * Q)). generalize dependent (e2 * t). generalize dependent (e3 * (P * t)).
  intros. lia.
Qed.

(** The exponents of the two operations. *)
Lemma percent_exponents a t :
  0 < t < 2 ^ 40 → 0 ≤ a ≤ t →
  52 ≤ (double_div a t).2 ∧
  45 ≤ (double_div (100 * (double_div a t).1) (2 ^ (double_div a t).2)).2.
Proof.
  intros Ht Ha. pose proof (double_div_exp a t) as Hk.
  assert (Z.log2 a ≤ Z.log2 t) by (apply Z.log2_le_mono; lia).
  pose proof (double_div_mantissa a t ltac:(lia) Ha) as Hm.
  destruct (double_div a t) as [m k]. cbn [fst snd] in *. split; [lia|].
  pose proof (double_div_exp (100 * m) (2 ^ k)) as Hk'.
  rewrite Z.log2_pow2 in Hk' by lia.
  assert (Z.log2 (100 * m) ≤ k + 7); [|lia].
  rewrite <- (Z.log2_pow2 (k + 7)) by lia. apply Z.log2_le_mono.
  rewrite Z.pow_add_r by lia. change (2 ^ 7) with 128. lia.
Qed.

(** The utilisation of a subnet.  Although it is computed with a quotient and
    a product that are each rounded to binary64, the percentage shown is a nearest
    integer to the exact one for every subnet of fewer than 2^40 addresses; so it
    is between 0 and 100, and it is 100 only when less than half a percent of the
    addresses is free.  An empty subnet has utilisation 0. *)
Theorem utilisation_nearest (assigned total : Z) :
  0 < total < 2 ^ 40 → 0 ≤ assigned ≤ total →
  2 * Z.abs (utilisation assigned total * total - 100 * assigned) ≤ total ∧
  0 ≤ utilisation assigned total ≤ 100 ∧
  (utilisation assigned total = 100 → 200 * (total - assigned) ≤ total) ∧
  utilisation assigned 0 = 0.
Proof.
  intros Ht Ha.
  assert (2 * Z.abs (utilisation assigned total * total - 100 * assigned) ≤ total) as H;
    [|by revert H; generalize (utilisation assigned total); intros pct H; split_and!; [done|nia..|nia|]].
  destruct (percent_exponents assigned total) as [Hk Hk']; [done..|].
  pose proof (double_div_error assigned total ltac:(lia)) as H1.
  unfold utilisation. replace (0 <? total) with true by (symmetry; apply Z.ltb_lt; lia).
  destruct (double_div assigned total) as [m k] eqn:E1. cbn [fst snd] in *.
  pose proof (double_div_error (100 * m) (2 ^ k) ltac:(apply Z.pow_pos_nonneg; lia)) as H2.
  destruct (double_div (100 * m) (2 ^ k)) as [m' k'] eqn:E2. cbn [fst snd] in *.
  apply (percent_nearest assigned total m k m' k'); try done.
  apply math_round_double_bound. lia.
Qed.

(** ** Examples *)

Lemma utilisation_nearest_witness : 2 * Z.abs (utilisation 57 200 * 200 - 100 * 57) ≤ 200.
Proof. exact (proj1 (utilisation_nearest 57 200 ltac:(lia) ltac:(lia))). Defined.

Definition scope6_0 : scope6 :=
  Scope6 "s1" "t1" "LAN6" None "2001:db8::/48" "2001:db8::1000" "2001:db8::2000" None (Some 56)
    ["2001:4860:4860::8888"; "2001:4860:4860::8844"] None (Some "eth0") 3000 4000 false true.

Lemma scopes6_tab_saves_witness : scope6_body (scope6_initial (Some scope6_0)) = scope6_json scope6_0.
Proof.
  exact (proj1 (proj2 (scopes6_tab_saves scope6_0 (scope6_initial None)
    ltac:(by repeat constructor) ltac:(vm_compute; reflexivity)))).
Defined.
