(* ===== verification/DhcpPage.v ===== *)
(** * The DHCP page

    [pages/DhcpPage.tsx] with its tabs: the address family and the tab are in the
    URL, the selected scope and what a lease asked to reserve are kept by the page
    for each family, and only the panel that is shown is mounted.  The IPv4 scopes
    tab is an instance of the tab of [Crud.v], the two reservations tabs are
    instances of [ReservationTab.v]. *)

From S2P Require Import Prelude JsText Json Web Client Schema Queries Format Forms Effects Crud Dhcp Upstream ReservationTab Dhcp6.

(** ** The tabs *)

(** [DhcpScope]: its id and what the form edits. *)
Record scope := MkScope { sc_id : string; sc_values : scope_values }.

Definition scopes_tab : Crud scope scope_form := {|
  c_id := sc_id;
  c_initial := λ e, scope_initial (sc_values <$> e);
  c_validate := λ e, scope_validate (truthy_opt (sc_id <$> e));
  c_body := scope_payload;
  c_create := useCreateDhcpScope;
  c_update := useUpdateDhcpScope;
  c_delete := useDeleteDhcpScope;
  c_saved := λ e _, match e with Some _ => "Scope updated" | None => "Scope created" end;
  c_deleted := λ _, [green "Scope deleted"];
  c_failed := red_error;
  c_rows := λ e, [(1, toggle6 useUpdateDhcpScope (sc_id e) (s_enabled (sc_values e)))];
  c_awaits := true;
|}.
#[export] Existing Instance scopes_tab.

Definition reservations_tab : Reservations reservation reservation_form prefill := {|
  e_id := rv_id;
  e_enabled := λ r, default false (rv_enabled r);
  e_initial := reservation_initial;
  e_validate := reservation_validate;
  e_body := reservation_payload;
  e_create := useCreateDhcpReservation;
  e_update := useUpdateDhcpReservation;
  e_delete := useDeleteDhcpReservation;
  e_saved := λ updated, if updated then "Reservation updated" else "Reservation created";
  e_prefilled := prefilled;
  prefilled_new _ := eq_refl;
|}.
#[export] Existing Instance reservations_tab.

Definition reservations6_tab : Reservations reservation6 reservation6_form prefill6 := {|
  e_id := rv6_id;
  e_enabled := λ r, default false (rv6_enabled r);
  e_initial := reservation6_initial;
  e_validate := reservation6_validate;
  e_body := reservation6_body;
  e_create := useCreateDhcpReservation6;
  e_update := useUpdateDhcpReservation6;
  e_delete := useDeleteDhcpReservation6;
  e_saved := λ _, "Reservation saved";
  e_prefilled := prefilled6;
  prefilled_new _ := eq_refl;
|}.
#[export] Existing Instance reservations6_tab.

(** ** The URL *)

Definition params : Type := list (string * string).

Definition family (url : params) : string := if decide (Params.get "family" url = Some "6") then "6" else "4".
Definition tab (url : params) : string := default "scopes" (Params.get "tab" url).

Definition setFamily (f : string) (url : params) : params := Params.set "family" f url.
Definition setTab (t : string) (url : params) : params := Params.set "tab" t url.

(** [onChange={(v) => setTab(v ?? "scopes")}] *)
Definition tab_changed (v : option string) : params → params := setTab (default "scopes" v).

(** The two updates of [reserveFromLease] in one handler.  A functional update of the
    search parameters is not queued: it is given the parameters of the last render,
    which the first update may have changed in place or not ([shared]). *)
Definition reserve_url (shared : bool) (f : string) (url : params) : params :=
  setTab "reservations" (if shared then setFamily f url else url).

(** ** The options of the selects *)

(** The zones a scope may push names to: [zone_type === "local"]. *)
Definition zone_options (zones : list (string * string * string)) : list (string * string) :=
  omap (λ '(id, name, ty), if decide (ty = "local") then Some (id, name) else None) zones.

(** [{ value: s.id, label: `${s.name} (${s.subnet})` }] *)
Definition scope_label (name subnet : string) : string := name +:+ " (" +:+ subnet +:+ ")".
Definition scopeOptions (scopes : list scope) : list (string * string) :=
  (λ s, (sc_id s, scope_label (s_name (sc_values s)) (s_subnet (sc_values s)))) <$> scopes.
Definition scope6Options (scopes : list scope6) : list (string * string) :=
  (λ s, (s6_id s, scope_label (s6_name s) (s6_subnet s))) <$> scopes.

(** ** The page *)

Section page.
Context `{UseForm reservation_form} `{UseForm reservation6_form}.

Record page := Page {
  pg_url : params;
  pg_4 : half reservation reservation_form prefill;
  pg_6 : half reservation6 reservation6_form prefill6;
}.

(** Which reservations panel the URL shows. *)
Definition shows_reservations (f : string) (url : params) : bool :=
  bool_decide (family url = f ∧ tab url = "reservations").

(** A panel is mounted exactly while it is shown. *)
Definition sync_half {E V F} `{Reservations E V F} `{UseForm V} (show : bool) (h : half E V F) : half E V F :=
  match show, h_panel h with
  | true, None => mount h
  | false, Some _ => unmount h
  | _, _ => h
  end.

Definition sync (p : page) : page :=
  Page (pg_url p) (sync_half (shows_reservations "4" (pg_url p)) (pg_4 p))
    (sync_half (shows_reservations "6" (pg_url p)) (pg_6 p)).

(** [setFamily], [setTab] and the badge of a daemon that is not responding. *)
Definition navigate (g : params → params) (p : page) : page := sync (Page (g (pg_url p)) (pg_4 p) (pg_6 p)).
Definition click_stale : page → page := navigate (setTab "status").

(** [reserveFromLease("4", l.scope_id, ...)] and [reserveFromLease("6", ...)]. *)
Definition reserveFromLease (shared : bool) (l : lease) (p : page) : page :=
  sync (Page (reserve_url shared "4" (pg_url p))
    (Half (Some (l_scope_id l)) (Some (Prefill (l_ip_address l) (Some (l_mac_address l)))) (h_panel (pg_4 p))
       (h_mounts (pg_4 p)))
    (pg_6 p)).

Definition reserveFromLease6 (shared : bool) (l : lease6) (p : page) : page :=
  sync (Page (reserve_url shared "6" (pg_url p)) (pg_4 p)
    (Half (Some (l6_scope_id l)) (Some (Prefill6 (l6_ip_address l) (Some (l6_duid l)))) (h_panel (pg_6 p))
       (h_mounts (pg_6 p)))).

Definition page_init (url : params) : page := sync (Page url half_init half_init).
End page.
Arguments page : clear implicits.
Arguments page {_ _}.

(** ** Properties *)

Section page_proofs.
Context `{UF4 : UseForm reservation_form} `{UF6 : UseForm reservation6_form}.

Lemma family_values url : family url = "4" ∨ family url = "6".
Proof. unfold family. case_decide; auto. Qed.

(** Neither way of updating the URL loses the family, for the button is on the
    leases of that family. *)
Lemma reserve_url_shows shared f url :
  family url = f → f = "4" ∨ f = "6" →
  family (reserve_url shared f url) = f ∧ tab (reserve_url shared f url) = "reservations".
Proof.
  intros Hf Hv. unfold reserve_url, setTab, tab. rewrite Params.get_set_same. split; [|done].
  unfold family in *. rewrite Params.get_set_other by done.
  destruct shared; [|done]. unfold setFamily. rewrite Params.get_set_same.
  destruct Hv as [-> | ->]; [by rewrite decide_False|by rewrite decide_True].
Qed.

Lemma shows_reservations_at url f g :
  family url = f → tab url = "reservations" → shows_reservations g url = bool_decide (f = g).
Proof. intros <- Ht. unfold shows_reservations. apply bool_decide_ext. naive_solver. Qed.

Lemma sync_half_mounted {E V F} `{Reservations E V F} `{UseForm V} show (h : half E V F) :
  h_panel (sync_half show h) ≠ None ↔ show = true.
Proof.
  unfold sync_half, mount, prefill_effect. destruct show, (h_panel h) eqn:E1; cbn; try (by rewrite E1 || done);
    repeat case_match; naive_solver congruence.
Qed.

(** On another tab neither reservations panel is there. *)
Lemma not_shown p :
  sync p = p → tab (pg_url p) ≠ "reservations" → h_panel (pg_4 p) = None ∧ h_panel (pg_6 p) = None.
Proof.
  intros Hs Ht.
  assert (∀ f, shows_reservations f (pg_url p) = false) as Hf.
  { intros g. unfold shows_reservations. apply bool_decide_eq_false. naive_solver. }
  pose proof (sync_half_mounted (shows_reservations "4" (pg_url p)) (pg_4 p)) as H4.
  pose proof (sync_half_mounted (shows_reservations "6" (pg_url p)) (pg_6 p)) as H6.
  rewrite Hf in H4, H6. rewrite <- Hs. cbn. rewrite !Hf. split.
  - destruct (h_panel (sync_half false (pg_4 p))); [|done]. destruct H4 as [H4 _]. by discriminate H4.
  - destruct (h_panel (sync_half false (pg_6 p))); [|done]. destruct H6 as [H6 _]. by discriminate H6.
Qed.

(** C16: a reservation stays in its scope.  Over every run of either reservations tab
    (selecting scopes, the automatic selection, switching tabs, reserving leases,
    opening, typing, cancelling, submitting, deleting, switching on and off, and
    requests settling in any order, also after the tab is gone), every request is
    for the scope selected when it was sent, which is not empty: it creates a
    reservation there from a form the validation accepts, or is about a reservation
    listed for that scope; and while the modal is open its reservation is a new one
    or one of the selected scope. *)
Theorem reservations_stay_in_scope (rows : string → list reservation) (rows6 : string → list reservation6)
    es es6 h ps h6 ps6 :
  half_run (R := reservations_tab) rows (half_init, []) es (h, ps) →
  half_run (R := reservations6_tab) rows6 (half_init, []) es6 (h6, ps6) →
  Forall (in_scope rows) es ∧ half_ok rows h ∧ Forall (in_scope rows6) es6 ∧ half_ok rows6 h6 ∧
  (∀ s c, within rows s c →
     (∃ b, c = RawPost [Lit "/api/v1/dhcp/scopes/"; Sub (Some s); Lit "/reservations"] b) ∨
     ∃ r id, r ∈ rows s ∧ rv_id r = Some id ∧
       ((∃ b, c = RawPatch [Lit "/api/v1/dhcp/scopes/"; Sub (Some s); Lit "/reservations/"; Sub (Some id)] b) ∨
        c = RawDelete [Lit "/api/v1/dhcp/scopes/"; Sub (Some s); Lit "/reservations/"; Sub (Some id)])).
Proof.
  intros (H1 & _ & H2)%half_run_ok (H3 & _ & H4)%half_run_ok. split_and!; [done..|].
  intros s c [v Hv|e id v He Hid Hv|e id He Hid|e id He Hid]; [left; by eexists|right..];
    exists e, id; (split_and!; [done..|]); [left; by eexists|left; by eexists|by right].
Qed.

(** C36: Reserve on a lease leads to the prefilled form.  On the leases of a family,
    however the router applies the two updates of the URL, the page then shows the
    reservations of that family in the lease's scope with the modal open, which
    happens once; the other family is as it was.  The form as it stands creates, in
    that scope, a reservation of the lease's address for its client, with the MAC
    in its canonical form; what the IPv4 form sends is a [ReservationCreate] of the
    API. *)
Theorem reserve_lease (shared : bool) (p : page) (l : lease) (l6 : lease6) (mac : string) :
  sync p = p → tab (pg_url p) = "leases" →
  truthy (l_scope_id l) = true → truthy (l6_scope_id l6) = true →
  normalizeMac (l_mac_address l) = Some mac → trim (l_ip_address l) ≠ "" →
  trim (l6_ip_address l6) ≠ "" → trim (l6_duid l6) ≠ "" →
  (family (pg_url p) = "4" →
   let p' := reserveFromLease shared l p in
   family (pg_url p') = "4" ∧ tab (pg_url p') = "reservations" ∧ pg_6 p' = pg_6 p ∧
   h_scopeId (pg_4 p') = Some (l_scope_id l) ∧ modal_open (pg_4 p') = true ∧
   prefill_effect (pg_4 p') = pg_4 p' ∧
   ∃ body, f_call <$> submit (pg_4 p') =
       Some (RawPost [Lit "/api/v1/dhcp/scopes/"; Sub (Some (l_scope_id l)); Lit "/reservations"] (JObj body)) ∧
     obj_get "mac_address" body = Some (JStr mac) ∧ obj_get "ip_address" body = Some (JStr (l_ip_address l)) ∧
     conforms (TRef "ReservationCreate") (JObj body) = true) ∧
  (family (pg_url p) = "6" →
   let p' := reserveFromLease6 shared l6 p in
   family (pg_url p') = "6" ∧ tab (pg_url p') = "reservations" ∧ pg_4 p' = pg_4 p ∧
   h_scopeId (pg_6 p') = Some (l6_scope_id l6) ∧ modal_open (pg_6 p') = true ∧
   prefill_effect (pg_6 p') = pg_6 p' ∧
   f_call <$> submit (pg_6 p') =
     Some (RawPost [Lit "/api/v1/dhcp6/scopes/"; Sub (Some (l6_scope_id l6)); Lit "/reservations"]
             (reservation6_body (Reservation6Form (l6_duid l6) (l6_ip_address l6) "" "" true)))).
Proof.
  intros Hs Ht Hsc Hsc6 Hm Hip Hip6 Hd6. destruct (not_shown p Hs) as [N4 N6]; [by rewrite Ht|]. split; intros Hf p'.
  - destruct (reserve_url_shows shared "4" (pg_url p) Hf) as [U1 U2]; [by left|].
    destruct (reserve_opens (pg_4 p) (l_scope_id l) (Prefill (l_ip_address l) (Some (l_mac_address l))) Hsc)
      as (R1 & R2 & R3 & R4).
    unfold p', reserveFromLease, sync. cbn [pg_url pg_4 pg_6]. rewrite !(shows_reservations_at _ _ _ U1 U2), N4.
    change (bool_decide ("4" = "4")) with true. change (bool_decide ("4" = "6")) with false.
    unfold sync_half. cbn [h_panel]. rewrite N6. split_and!; [done..|].
    eexists. rewrite R4; [split_and!; [reflexivity|cbn -[normalizeMac]; by rewrite Hm|done|]|].
    + apply (reservation_conforms "ReservationCreate"). by left.
    + unfold accepted. cbn -[normalizeMac trim]. unfold reservation_validate. cbn -[normalizeMac trim]. rewrite Hm.
      repeat constructor. unfold err, truthy. by rewrite bool_decide_eq_true_2.
  - destruct (reserve_url_shows shared "6" (pg_url p) Hf) as [U1 U2]; [by right|].
    destruct (reserve_opens (pg_6 p) (l6_scope_id l6) (Prefill6 (l6_ip_address l6) (Some (l6_duid l6))) Hsc6)
      as (R1 & R2 & R3 & R4).
    unfold p', reserveFromLease6, sync. cbn [pg_url pg_4 pg_6]. rewrite !(shows_reservations_at _ _ _ U1 U2), N6.
    change (bool_decide ("6" = "4")) with false. change (bool_decide ("6" = "6")) with true.
    unfold sync_half. cbn [h_panel]. rewrite N4. split_and!; [done..|].
    rewrite R4; [done|]. unfold accepted. cbn -[trim]. unfold reservation6_validate, err, truthy. cbn -[trim].
    rewrite !bool_decide_eq_true_2 by done. by repeat constructor.
Qed.
End page_proofs.

(** The scopes tabs of both families do what their screens show. *)
Theorem scopes_tabs_refine `{UseForm scope_form} `{UseForm scope6_form} :
  (∀ es (t : Crud.tab scope scope_form) ps,
     tab_run (tab_init, []) es (t, ps) → ∃ qs, screen_run (Closed, []) es (shows t, qs)) ∧
  (∀ es (t : Crud.tab scope6 scope6_form) ps,
     tab_run (tab_init, []) es (t, ps) → ∃ qs, screen_run (Closed, []) es (shows t, qs)).
Proof. split; intros es t ps; apply tab_refines. Qed.

(** The options of the scope selects: every scope once, under its id. *)
Lemma scope_option_ids scopes scopes6 :
  fst <$> scopeOptions scopes = sc_id <$> scopes ∧ fst <$> scope6Options scopes6 = s6_id <$> scopes6.
Proof. unfold scopeOptions, scope6Options. by rewrite <- !list_fmap_compose. Qed.

(** ** Examples *)

Definition lease0 : lease := Lease "s1" "10.8.1.50" "AA-BB-CC-00-11-22" None 0 "2026-01-01T00:00:00Z".
Definition lease6_0 : lease6 := Lease6 "s6" "2001:db8::50" "00:01" None 1 "2026-01-01T00:00:00Z".
Definition rows0 (s : string) : list reservation :=
  [Reservation (Some "r1") "aa:bb:cc:00:11:22" "10.8.1.50" None None None None None None (Some true)].

Definition half0 : half reservation reservation_form prefill :=
  mount (Half (Some "s1") (Some (Prefill "10.8.1.50" (Some "AA-BB-CC-00-11-22"))) None 0).

(** Reserving a lease and submitting the form. *)
Lemma reservations_stay_in_scope_witness :
  ∃ i, submit half0 = Some i ∧ in_scope rows0 (Sent (Some "s1") (f_call i)).
Proof.
  destruct (submit half0) as [i|] eqn:Hi; [|vm_compute in Hi; discriminate].
  exists i. split; [reflexivity|].
  refine (Forall_inv (proj1 (reservations_stay_in_scope rows0 (λ _, []) [Sent (Some "s1") (f_call i)] []
    half0 (through half0 0 i []) half_init [] _ (hr_nil _ _)))).
  change [Sent (Some "s1") (f_call i)] with (([] ++ []) ++ [Sent (h_scopeId half0) (f_call i)]).
  eapply (hr_step _ _ (half0, [])); [|exact (hs_submit rows0 half0 [] i eq_refl Hi)].
  eapply hr_step; [apply hr_nil|]. by apply (hs_reserve rows0 half_init []).
Defined.

Lemma reserve_lease_witness :
  let p' := reserveFromLease false lease0 (page_init [("tab", "leases")]) in
  tab (pg_url p') = "reservations" ∧ modal_open (pg_4 p') = true.
Proof.
  destruct (reserve_lease false (page_init [("tab", "leases")]) lease0 lease6_0 "aa:bb:cc:00:11:22"
    ltac:(reflexivity) ltac:(reflexivity) ltac:(reflexivity) ltac:(reflexivity) ltac:(vm_compute; reflexivity)
    ltac:(vm_compute; discriminate) ltac:(vm_compute; discriminate) ltac:(vm_compute; discriminate))
    as [H4 _].
  destruct (H4 ltac:(reflexivity)) as (_ & Ht & _ & _ & Hm & _). split; [exact Ht|exact Hm].
Defined.
