(* ===== verification/DhcpForms.v ===== *)
(** * The forms of the DHCP pages

    The controls of the scope and reservation forms of both address families
    ([pages/dhcp/ScopesTab.tsx], [pages/dhcp/ReservationsTab.tsx] and
    [pages/dhcp/dhcpv6]), what they send for whatever is filled in, and the scripts
    that enter a given scope or reservation. *)

From S2P Require Import Prelude JsText Json Schema Format Forms Controls Dhcp Dhcp6.

(** ** Controls *)

(** The tenant is asked for a new scope only; zone and TTL while DDNS is on. *)
Definition scope_controls (tenants zones interfaces : list string) (editing : bool) (v : scope_form) :
    list (control scope_form) :=
  (if editing then [] else [Select "Tenant" tenants (λ x v, v <| sf_tenant_id := x |>)]) ++
  [ TextInput "Name" (λ x v, v <| sf_name := x |>);
    TextInput "Description" (λ x v, v <| sf_description := x |>);
    TextInput "Subnet (CIDR)" (λ x v, v <| sf_subnet := x |>);
    TextInput "Pool start" (λ x v, v <| sf_range_start := x |>);
    TextInput "Pool end" (λ x v, v <| sf_range_end := x |>);
    TextInput "Router (option 3)" (λ x v, v <| sf_router_ip := x |>);
    TextInput "DNS servers (option 6)" (λ x v, v <| sf_dns_servers := x |>);
    TextInput "NTP server (option 42)" (λ x v, v <| sf_ntp_server := x |>);
    TextInput "Domain name (option 15)" (λ x v, v <| sf_domain_name := x |>);
    NumberInput "Lease time (s)" (Some 60%Z) None (λ x v, v <| sf_lease_time_s := x |>);
    NumberInput "Max lease time (s)" (Some 60%Z) None (λ x v, v <| sf_max_lease_time_s := x |>);
    Switch "DDNS — push A records to DNS zone" (λ x v, v <| sf_ddns_enabled := x |>) ] ++
  (if sf_ddns_enabled v
   then [ Select "DDNS zone" zones (λ x v, v <| sf_ddns_zone_id := x |>);
          NumberInput "DDNS TTL (s)" (Some 30%Z) None (λ x v, v <| sf_ddns_ttl_s := x |>) ]
   else []) ++
  [ TextInput "PXE next-server (siaddr)" (λ x v, v <| sf_pxe_next_server := x |>);
    TextInput "PXE boot filename (BIOS)" (λ x v, v <| sf_pxe_boot_filename := x |>);
    TextInput "PXE boot filename (UEFI)" (λ x v, v <| sf_pxe_uefi_boot_filename := x |>);
    Select "Interface (optional)" interfaces (λ x v, v <| sf_interface := default "" x |>);
    Switch "Enabled" (λ x v, v <| sf_enabled := x |>) ].

Definition scope6_controls (tenants interfaces : list string) (editing : bool) (v : scope6_form) :
    list (control scope6_form) :=
  (if editing then [] else [Select "Tenant" tenants (λ x v, v <| sf6_tenant_id := x |>)]) ++
  [ TextInput "Name" (λ x v, v <| sf6_name := x |>);
    TextInput "Description" (λ x v, v <| sf6_description := x |>);
    TextInput "Subnet (CIDR)" (λ x v, v <| sf6_subnet := x |>);
    TextInput "Pool start" (λ x v, v <| sf6_pool_start := x |>);
    TextInput "Pool end" (λ x v, v <| sf6_pool_end := x |>);
    TextInput "PD prefix (optional)" (λ x v, v <| sf6_pd_prefix := x |>);
    NumberInput "Delegated prefix len" (Some 1%Z) (Some 128%Z) (λ x v, v <| sf6_pd_prefix_len := x |>);
    TextInput "DNS servers" (λ x v, v <| sf6_dns_servers := x |>);
    TextInput "Domain name" (λ x v, v <| sf6_domain_name := x |>);
    NumberInput "Preferred lifetime (s)" (Some 60%Z) None (λ x v, v <| sf6_preferred_lifetime_s := x |>);
    NumberInput "Valid lifetime (s)" (Some 60%Z) None (λ x v, v <| sf6_valid_lifetime_s := x |>);
    Switch "DDNS" (λ x v, v <| sf6_ddns_enabled := x |>);
    Select "Interface (optional)" interfaces set_interface6;
    Switch "Enabled" (λ x v, v <| sf6_enabled := x |>) ].

Definition reservation_controls (v : reservation_form) : list (control reservation_form) :=
  [ TextInput "MAC address" (λ x v, v <| vf_mac_address := x |>);
    TextInput "IP address" (λ x v, v <| vf_ip_address := x |>);
    TextInput "Hostname" (λ x v, v <| vf_hostname := x |>);
    TextInput "Description" (λ x v, v <| vf_description := x |>);
    TextInput "Client ID (hex)" (λ x v, v <| vf_client_id := x |>);
    TextInput "PXE next-server" (λ x v, v <| vf_next_server := x |>);
    TextInput "PXE boot file (BIOS)" (λ x v, v <| vf_boot_filename := x |>);
    TextInput "PXE boot file (UEFI)" (λ x v, v <| vf_uefi_boot_filename := x |>);
    Switch "Enabled" (λ x v, v <| vf_enabled := x |>) ].

Definition reservation6_controls (v : reservation6_form) : list (control reservation6_form) :=
  [ TextInput "DUID (hex)" (λ x v, v <| vf6_duid := x |>);
    TextInput "IPv6 address" (λ x v, v <| vf6_ip_address := x |>);
    TextInput "Hostname" (λ x v, v <| vf6_hostname := x |>);
    TextInput "Description" (λ x v, v <| vf6_description := x |>);
    Switch "Enabled" (λ x v, v <| vf6_enabled := x |>) ].

(** ** Entering a scope or a reservation *)

(** DDNS is switched on first, so that its zone and TTL can be set. *)
Definition scope_script (s : scope_values) : list (string * input) :=
  [ ("Tenant", Chosen (s_tenant_id s)); ("Name", Typed (s_name s));
    ("Description", Typed (default "" (s_description s))); ("Subnet (CIDR)", Typed (s_subnet s));
    ("Pool start", Typed (s_range_start s)); ("Pool end", Typed (s_range_end s));
    ("Router (option 3)", Typed (default "" (s_router_ip s)));
    ("DNS servers (option 6)", Typed (join ", " (s_dns_servers s)));
    ("NTP server (option 42)", Typed (default "" (s_ntp_server s)));
    ("Domain name (option 15)", Typed (default "" (s_domain_name s)));
    ("Lease time (s)", Entered (s_lease_time_s s)); ("Max lease time (s)", Entered (s_max_lease_time_s s));
    ("DDNS — push A records to DNS zone", Switched true) ] ++
  choose_some "DDNS zone" (s_ddns_zone_id s) ++
  [ ("DDNS TTL (s)", Entered (s_ddns_ttl_s s));
    ("PXE next-server (siaddr)", Typed (default "" (s_pxe_next_server s)));
    ("PXE boot filename (BIOS)", Typed (default "" (s_pxe_boot_filename s)));
    ("PXE boot filename (UEFI)", Typed (default "" (s_pxe_uefi_boot_filename s))) ] ++
  choose_some "Interface (optional)" (s_interface s) ++
  [ ("Enabled", Switched (s_enabled s)); ("DDNS — push A records to DNS zone", Switched (s_ddns_enabled s)) ].

Definition scope6_script (s : scope6) : list (string * input) :=
  [ ("Tenant", Chosen (s6_tenant_id s)); ("Name", Typed (s6_name s));
    ("Description", Typed (default "" (s6_description s))); ("Subnet (CIDR)", Typed (s6_subnet s));
    ("Pool start", Typed (s6_pool_start s)); ("Pool end", Typed (s6_pool_end s));
    ("PD prefix (optional)", Typed (default "" (s6_pd_prefix s))) ] ++
  from_option (λ n, [("Delegated prefix len", Entered n)]) [] (s6_pd_prefix_len s) ++
  [ ("DNS servers", Typed (join ", " (s6_dns_servers s))); ("Domain name", Typed (default "" (s6_domain_name s)));
    ("Preferred lifetime (s)", Entered (s6_preferred_lifetime_s s));
    ("Valid lifetime (s)", Entered (s6_valid_lifetime_s s)); ("DDNS", Switched (s6_ddns_enabled s)) ] ++
  choose_some "Interface (optional)" (s6_interface s) ++ [("Enabled", Switched (s6_enabled s))].

Definition reservation_script (r : reservation) : list (string * input) :=
  [ ("MAC address", Typed (rv_mac_address r)); ("IP address", Typed (rv_ip_address r));
    ("Hostname", Typed (default "" (rv_hostname r))); ("Description", Typed (default "" (rv_description r)));
    ("Client ID (hex)", Typed (default "" (rv_client_id r)));
    ("PXE next-server", Typed (default "" (rv_next_server r)));
    ("PXE boot file (BIOS)", Typed (default "" (rv_boot_filename r)));
    ("PXE boot file (UEFI)", Typed (default "" (rv_uefi_boot_filename r)));
    ("Enabled", Switched (default true (rv_enabled r))) ].

Definition reservation6_script (r : reservation6) : list (string * input) :=
  [ ("DUID (hex)", Typed (rv6_duid r)); ("IPv6 address", Typed (rv6_ip_address r));
    ("Hostname", Typed (default "" (rv6_hostname r))); ("Description", Typed (default "" (rv6_description r)));
    ("Enabled", Switched (default true (rv6_enabled r))) ].

(** Scopes whose choices are among the options, with numbers within the bounds. *)
Definition one_of (o : option string) (l : list string) : Prop := ∀ s, o = Some s → s ∈ l.

Definition scope_enterable (tenants zones interfaces : list string) (s : scope_values) : Prop :=
  s_tenant_id s ∈ tenants ∧ one_of (s_ddns_zone_id s) zones ∧ one_of (s_interface s) interfaces ∧
  (60 ≤ s_lease_time_s s)%Z ∧ (60 ≤ s_max_lease_time_s s)%Z ∧ (30 ≤ s_ddns_ttl_s s)%Z.

Definition scope6_enterable (tenants interfaces : list string) (s : scope6) : Prop :=
  s6_tenant_id s ∈ tenants ∧ one_of (s6_interface s) interfaces ∧
  (∀ n, s6_pd_prefix_len s = Some n → 1 ≤ n ≤ 128)%Z ∧
  (60 ≤ s6_preferred_lifetime_s s)%Z ∧ (60 ≤ s6_valid_lifetime_s s)%Z.

Lemma scope_script_fills tenants zones interfaces s :
  scope_enterable tenants zones interfaces s →
  fill (scope_controls tenants zones interfaces false) (scope_script s) (scope_initial None) =
    Some (scope_initial (Some s)).
Proof.
  destruct s as [t name descr sub st en rt dns ntp dom iface lt mlt ddns zone ttl pn pb pu enb].
  intros (H1 & H2 & H3 & H4 & H5 & H6).
  cbn [s_tenant_id s_ddns_zone_id s_interface s_lease_time_s s_max_lease_time_s s_ddns_ttl_s] in *.
  unfold scope_script. cbn [s_ddns_zone_id s_interface].
  destruct zone as [z|]; [specialize (H2 z eq_refl)|clear H2]; (destruct iface as [i|]; [specialize (H3 i eq_refl)|clear H3]);
    cbn [choose_some from_option app]; fill_in.
Qed.

Lemma scope6_script_fills tenants interfaces s :
  scope6_enterable tenants interfaces s →
  fill (scope6_controls tenants interfaces false) (scope6_script s) (scope6_initial None) =
    Some (scope6_initial (Some s)).
Proof.
  destruct s as [id t name descr sub st en pd pl dns dom iface pt vt ddns enb].
  intros (H1 & H2 & H3 & H4 & H5).
  cbn [s6_tenant_id s6_interface s6_pd_prefix_len s6_preferred_lifetime_s s6_valid_lifetime_s] in *.
  unfold scope6_script. cbn [s6_interface s6_pd_prefix_len].
  destruct iface as [i|]; [specialize (H2 i eq_refl)|clear H2]; (destruct pl as [n|]; [specialize (H3 n eq_refl)|clear H3]);
    cbn [choose_some from_option app]; fill_in.
Qed.

Lemma reservation_script_fills r :
  fill reservation_controls (reservation_script r) (reservation_initial None) = Some (reservation_initial (Some r)).
Proof. unfold reservation_script. fill_in. Qed.

Lemma reservation6_script_fills r :
  fill reservation6_controls (reservation6_script r) (reservation6_initial None) = Some (reservation6_initial (Some r)).
Proof. unfold reservation6_script. fill_in. Qed.

(** What the API holds of a reservation. *)
Definition reservation_json (r : reservation) : json :=
  JObj [ ("mac_address", JStr (rv_mac_address r)); ("ip_address", JStr (rv_ip_address r));
         ("hostname", str_json (rv_hostname r)); ("description", str_json (rv_description r));
         ("client_id", str_json (rv_client_id r)); ("next_server", str_json (rv_next_server r));
         ("boot_filename", str_json (rv_boot_filename r));
         ("uefi_boot_filename", str_json (rv_uefi_boot_filename r));
         ("enabled", JBool (default true (rv_enabled r))) ].

Definition reservation_texts_ok (r : reservation) : Prop :=
  normalizeMac (rv_mac_address r) = Some (rv_mac_address r) ∧
  Forall (λ o, o ≠ Some "")
    [ rv_hostname r; rv_description r; rv_client_id r; rv_next_server r; rv_boot_filename r; rv_uefi_boot_filename r ].

Lemma reservation_unchanged r :
  reservation_texts_ok r → reservation_payload (reservation_initial (Some r)) = reservation_json r.
Proof.
  intros [Hm Ht]. rewrite !Forall_cons in Ht. unfold reservation_payload, reservation_initial, reservation_json.
  cbn -[null_json normalizeMac str_json]. rewrite Hm. by rewrite !null_json_default by tauto.
Qed.

(** Every scope and reservation can be entered.  For each scope of either family
    whose tenant, zone and interface are offered and whose times are within the
    bounds of the inputs there is a script that fills the blank form so that what is
    sent describes exactly that scope; and the same for each reservation with its
    MAC in the canonical form.  The DDNS zone and TTL of a scope with DDNS off can be
    set too, by switching it on for a while. *)
Theorem dhcp_forms_complete (tenants zones interfaces : list string) (s : scope_values) (s6 : scope6)
    (r : reservation) (r6 : reservation6) :
  scope_enterable tenants zones interfaces s → scope_texts_ok s → forallb item_ok (s_dns_servers s) = true →
  scope6_enterable tenants interfaces s6 → scope6_texts_ok s6 → forallb item_ok (s6_dns_servers s6) = true →
  reservation_texts_ok r →
  scope_payload <$> fill (scope_controls tenants zones interfaces false) (scope_script s) (scope_initial None) =
    Some (scope_json s) ∧
  scope6_body <$> fill (scope6_controls tenants interfaces false) (scope6_script s6) (scope6_initial None) =
    Some (scope6_json s6) ∧
  reservation_payload <$> fill reservation_controls (reservation_script r) (reservation_initial None) =
    Some (reservation_json r) ∧
  fill reservation6_controls (reservation6_script r6) (reservation6_initial None) = Some (reservation6_initial (Some r6)).
Proof.
  intros H1 H2 H3 H4 H5 H6 H7.
  rewrite scope_script_fills, scope6_script_fills, reservation_script_fills, reservation6_script_fills by done.
  cbn [fmap option_fmap option_map]. by rewrite scope_unchanged, scope6_unchanged, reservation_unchanged.
Qed.

(** ** What is sent *)

Definition scope_entered (tenants : list string) (v : scope_form) : Prop :=
  from_options (sf_tenant_id v) ("" :: tenants) ∧
  sf_lease_time_s v ≠ NumNull ∧ sf_max_lease_time_s v ≠ NumNull ∧ sf_ddns_ttl_s v ≠ NumNull.

Lemma scope_keeps tenants zones interfaces editing v :
  scope_entered tenants v →
  Forall (keeps any_input (scope_entered tenants) v) (scope_controls tenants zones interfaces editing v).
Proof.
  unfold scope_entered. intros (Ht & H1 & H2 & H3). unfold scope_controls. each_control; cbn; try (split_and!; done).
  split_and!; try done. destruct o as [t|]; [|by apply from_options_None].
  apply from_options_Some. right. by apply from_options_Some.
Qed.

(** Whatever is filled in for a new scope, an accepted form names a tenant that was
    offered, and sends a [ScopeCreate] exactly when no number was cleared. *)
Theorem scope_form_sends (tenants zones interfaces : list string) (v : scope_form) :
  fillable (scope_controls tenants zones interfaces false) (scope_initial None) v →
  Forall (λ e, e = None) (scope_validate false v) →
  (∃ t, sf_tenant_id v = Some t ∧ t ∈ tenants) ∧
  conforms (TRef "ScopeCreate") (scope_payload v) =
    not_cleared (sf_lease_time_s v) && not_cleared (sf_max_lease_time_s v) && not_cleared (sf_ddns_ttl_s v).
Proof.
  intros Hf Hv.
  assert (scope_entered tenants v) as (Ht & H1 & H2 & H3).
  { apply (fillable_keeps _ _ _ _ (scope_keeps tenants zones interfaces false)) in Hf; [done|].
    split_and!; try done. apply from_options_Some. by left. }
  unfold scope_validate in Hv. rewrite !Forall_cons in Hv. destruct Hv as (Hten & _).
  assert (∃ t, sf_tenant_id v = Some t ∧ t ∈ tenants) as (t & Et & Hin).
  { destruct (sf_tenant_id v) as [t|]; [|done]. exists t. split; [done|].
    apply from_options_Some in Ht. apply elem_of_cons in Ht as [-> |]; done. }
  split; [eauto|]. rewrite scope_create_conforms, Et. cbn [andb is_Some].
  rewrite bool_decide_eq_true_2 by eauto. by destruct (sf_lease_time_s v), (sf_max_lease_time_s v), (sf_ddns_ttl_s v).
Qed.

(** ** Examples *)

Definition reservation0 : reservation :=
  Reservation (Some "r1") "aa:bb:cc:00:11:22" "10.8.1.50" (Some "printer") None None None None None (Some true).

Lemma dhcp_forms_complete_witness :
  scope_payload <$> fill (scope_controls ["t1"] [] ["eth0"] false) (scope_script scope0) (scope_initial None) =
  Some (scope_json scope0).
Proof.
  refine (proj1 (dhcp_forms_complete ["t1"] [] ["eth0"] scope0 scope6_0 reservation0
    (Reservation6 None "00:01" "2001:db8::1" None None None) _ _ eq_refl _ _ eq_refl _)).
  - split_and!; try (by vm_compute); by left.
  - by repeat constructor.
  - split_and!; try (by vm_compute); try (by left); [intros s [= <-]; by left|by intros n [= <-]].
  - by repeat constructor.
  - split; [vm_compute; reflexivity|by repeat constructor].
Defined.

Lemma scope_form_sends_witness :
  conforms (TRef "ScopeCreate") (scope_payload (scope_initial (Some scope0))) = true.
Proof.
  refine (proj2 (scope_form_sends ["t1"] [] ["eth0"] (scope_initial (Some scope0)) _ _)).
  - exists (scope_script scope0). vm_compute. reflexivity.
  - apply (bool_decide_eq_true_1 _). vm_compute. reflexivity.
Defined.
