(* ===== verification/Tables.v ===== *)
(** * The tables of the upstream and DHCP pages

    The columns and cells that the tabs give to [CrudTable], the tables of the DHCP
    status tab, and what can be read off a row. *)

From S2P Require Import Prelude JsText Json JsonRoundtrip Format Logs Dhcp Effects Upstream Dhcp6 DhcpPage.

(** ** Cells *)

(** What a cell shows, without sizes and fonts. *)
#[local] Unset Elimination Schemes.
Inductive cell :=
| Txt (s : string)
| Dim (s : string)
| Code (s : string)
| Badge (label color : string)
| Toggle (checked : bool)
| Action (label : string) (loading : bool)
| Cells (l : list cell).
#[local] Set Elimination Schemes.

(** [cond && <cell>] *)
Definition shown_if (b : bool) (c : cell) : list cell := if b then [c] else [].

(** [s ?? dash] and [s || dash] with a dimmed dash. *)
Definition or_dash (o : option string) : cell := from_option Txt (Dim "—") o.

(** ** Upstream *)

Definition protocol_color (p : string) : string :=
  if decide (p = "dot") then "blue" else if decide (p = "doh") then "violet" else "gray".

Definition resolver_columns : list (column resolver cell) :=
  [ Column "name" (Txt "Name") (λ r,
      Cells (Txt (rs_name r) ::
             shown_if (bool_decide (rs_tags r ≠ [])) (Cells ((λ t, Badge t "gray") <$> rs_tags r))));
    Column "protocol" (Txt "Protocol") (λ r, Badge (toUpperCase (rs_protocol r)) (protocol_color (rs_protocol r)));
    Column "address" (Txt "Address") (λ r,
      Cells (Code (rs_address r +:+ ":" +:+ Z_str (rs_port r)) ::
             shown_if (truthy_opt (rs_tls_hostname r) && bool_decide (rs_tls_hostname r ≠ Some (rs_address r)))
               (Dim (default "" (rs_tls_hostname r)))));
    Column "dnssec" (Txt "DNSSEC") (λ r, Txt (rs_dnssec_validation r));
    Column "enabled" (Txt "On") (λ r, Toggle (rs_enabled r)) ].

Definition resolvers_table (isLoading : bool) (probingId : option string) (resolvers : list resolver) :
    table_view cell :=
  CrudTable resolvers isLoading rs_id resolver_columns
    (Some (Txt "No resolvers configured. Add one to get started.")) true true
    (Some (λ r, Action "Test" (bool_decide (probingId = Some (rs_id r))))).

Definition pool_columns (resolvers : list resolver) : list (column pool cell) :=
  [ Column "name" (Txt "Pool") (λ p, Txt (pl_name p));
    Column "strategy" (Txt "Strategy") (λ p, Badge (strategy_badge p) "");
    Column "members" (Txt "Members") (λ p,
      Cells (((λ m, Badge (member_badge resolvers p m) "") <$> pl_members p) ++
             shown_if (bool_decide (pl_members p = [])) (Dim "No members")));
    Column "health_check" (Txt "Health check") (λ p,
      Txt (Z_str (pl_health_check_interval_s p) +:+ "s / " +:+ Z_str (pl_health_check_timeout_ms p) +:+ "ms")) ].

Definition pools_table (isLoading : bool) (resolvers : list resolver) (pools : list pool) : table_view cell :=
  CrudTable pools isLoading pl_id (pool_columns resolvers)
    (Some (Txt "No pools. Create resolvers first, then group them into pools.")) true true None.

Definition route_columns (pools : list pool) : list (column route cell) :=
  [ Column "priority" (Txt "Priority") (λ t, Badge (Z_str (rt_priority t)) "");
    Column "name" (Txt "Name") (λ t,
      Cells (Txt (rt_name t) :: shown_if (bool_decide (rt_tenant_id t = None)) (Badge "global" "orange")));
    Column "match_type" (Txt "Match") (λ t, Badge (rt_match_type t) "");
    Column "match_value" (Txt "Value") (λ t, Code (default "—" (rt_match_value t)));
    Column "pool" (Txt "Pool") (λ t, Txt (poolName pools (rt_pool_id t)));
    Column "enabled" (Txt "On") (λ t, Toggle (rt_enabled t)) ].

(** Nothing is shown before a tenant is selected. *)
Definition routes_table (tenantId : option string) (isLoading : bool) (pools : list pool) (routes : list route) :
    option (table_view cell) :=
  if routes_shown tenantId
  then Some (CrudTable routes isLoading rt_id (route_columns pools)
               (Some (Txt "No routes for this tenant. Add one to override the default forwarding.")) true true None)
  else None.

(** The title of a modal: [editTarget ? "Edit ..." : "Add ..."]. *)
Definition modal_title {E} (editTarget : option E) (what : string) : string :=
  match editTarget with Some _ => "Edit " +:+ what | None => "Add " +:+ what end.

(** ** DHCP *)

Definition scope_columns : list (column scope cell) :=
  [ Column "name" (Txt "Name") (λ s, Txt (s_name (sc_values s)));
    Column "subnet" (Txt "Subnet") (λ s, Code (s_subnet (sc_values s)));
    Column "pool" (Txt "Pool") (λ s, Dim (s_range_start (sc_values s) +:+ " – " +:+ s_range_end (sc_values s)));
    Column "lease" (Txt "Lease") (λ s, Txt (fmtDuration (s_lease_time_s (sc_values s))));
    Column "ddns" (Txt "DDNS") (λ s, if s_ddns_enabled (sc_values s) then Badge "DDNS" "blue" else Dim "—");
    Column "enabled" (Txt "Enabled") (λ s, Toggle (s_enabled (sc_values s))) ].

Definition scopes_table (isLoading : bool) (scopes : list scope) : table_view cell :=
  CrudTable scopes isLoading sc_id scope_columns
    (Some (Dim "No scopes configured. Add one to start serving DHCP.")) true true None.

(** The range is broken after the dash. *)
Definition scope6_columns : list (column scope6 cell) :=
  [ Column "name" (Txt "Name") (λ s, Txt (s6_name s));
    Column "subnet" (Txt "Subnet") (λ s, Code (s6_subnet s));
    Column "pool" (Txt "Pool") (λ s, Cells [Dim (s6_pool_start s +:+ " –"); Dim (s6_pool_end s)]);
    Column "lifetime" (Txt "Lifetime") (λ s, Txt (fmtDuration (s6_valid_lifetime_s s)));
    Column "enabled" (Txt "Enabled") (λ s, Toggle (s6_enabled s)) ].

Definition scopes6_table (isLoading : bool) (scopes : list scope6) : table_view cell :=
  CrudTable scopes isLoading s6_id scope6_columns (Some (Dim "No IPv6 scopes configured.")) true true None.

Definition reservation_columns : list (column reservation cell) :=
  [ Column "mac" (Txt "MAC") (λ r, Code (rv_mac_address r));
    Column "ip" (Txt "IP") (λ r, Code (rv_ip_address r));
    Column "hostname" (Txt "Hostname") (λ r, or_dash (rv_hostname r));
    Column "description" (Txt "Description") (λ r, Dim (default "—" (rv_description r)));
    Column "pxe" (Txt "PXE") (λ r, if truthy_opt (rv_boot_filename r) then Badge "PXE" "grape" else Dim "—");
    Column "enabled" (Txt "Enabled") (λ r, Toggle (default false (rv_enabled r))) ].

(** The rows of a scope the control plane lists have an id. *)
Definition reservations_table (scopeId : option string) (isLoading : bool) (search : string)
    (rs : list reservation) : cell + table_view cell :=
  if truthy_opt scopeId
  then inr (CrudTable (filtered search rs) isLoading (λ r, default "" (rv_id r)) reservation_columns
              (Some (Dim "No reservations in this scope.")) true true None)
  else inl (Dim "Select a scope to view reservations.").

Definition reservation6_columns : list (column reservation6 cell) :=
  [ Column "duid" (Txt "DUID") (λ r, Code (rv6_duid r));
    Column "ip" (Txt "IP address") (λ r, Code (rv6_ip_address r));
    Column "hostname" (Txt "Hostname") (λ r, or_dash (rv6_hostname r));
    Column "enabled" (Txt "Enabled") (λ r, Toggle (default false (rv6_enabled r))) ].

Definition reservations6_table (scopeId : option string) (isLoading : bool) (search : string)
    (rs : list reservation6) : cell + table_view cell :=
  if truthy_opt scopeId
  then inr (CrudTable (filtered_reservations6 search rs) isLoading (λ r, default "" (rv6_id r)) reservation6_columns
              (Some (Dim "No reservations.")) true true None)
  else inl (Dim "Select a scope.").

(** *** Leases and status *)

(** The daemon's heartbeat and the figures of a subnet. *)
Record heartbeat := Heartbeat {
  hb_instance_id : string;
  hb_family : string;
  hb_hostname : option string;
  hb_started_at : string;
  hb_last_seen_at : string;
  hb_stale : bool;
}.

Record subnet_stat := SubnetStat {
  st_scope_id : string;
  st_scope_name : string;
  st_subnet : string;
  st_total : Z;
  st_assigned : Z;
  st_declined : Z;
}.

Section times.
(** The offset of the browser's zone, and [Date.now()]. *)
Variables (local : Z → Z) (now : Z).

(** The scope is a column while none is selected. *)
Definition lease_columns (scopeId : option string) (options : list (string * string)) : list (column lease cell) :=
  (if truthy_opt scopeId then []
   else [Column "scope" (Txt "Scope") (λ l, Dim (scopeName options (l_scope_id l)))]) ++
  [ Column "ip" (Txt "IP") (λ l, Code (l_ip_address l));
    Column "mac" (Txt "MAC") (λ l, Code (l_mac_address l));
    Column "hostname" (Txt "Hostname") (λ l, or_dash (l_hostname l ≫= or_null));
    Column "expires" (Txt "Expires in") (λ l, Txt (fmtExpire local now (Some (l_expires_at l))));
    Column "state" (Txt "State") (λ l, Badge (lease_state_badge l).1 (lease_state_badge l).2) ].

Definition lease6_columns (scopeId : option string) (options : list (string * string)) : list (column lease6 cell) :=
  (if truthy_opt scopeId then []
   else [Column "scope" (Txt "Scope") (λ l, Dim (scopeName options (l6_scope_id l)))]) ++
  [ Column "ip" (Txt "IP address") (λ l, Code (l6_ip_address l));
    Column "duid" (Txt "DUID") (λ l, Code (l6_duid l));
    Column "hostname" (Txt "Hostname") (λ l, or_dash (l6_hostname l ≫= or_null));
    Column "type" (Txt "Type") (λ l, Badge (lease6_type_badge l).1 (lease6_type_badge l).2);
    Column "expires" (Txt "Expires in") (λ l, Txt (fmtExpire local now (Some (l6_expires_at l)))) ].

(** [`${l.scope_id}-${l.ip_address}`] *)
Definition lease_key (scope ip : string) : string := scope +:+ "-" +:+ ip.

Definition leases_table (scopeId : option string) (options : list (string * string)) (isLoading : bool)
    (search : string) (leases : list lease) : table_view cell :=
  CrudTable (filtered_leases search leases) isLoading (λ l, lease_key (l_scope_id l) (l_ip_address l))
    (lease_columns scopeId options) (Some (Dim "No active leases. Auto-refreshes every 30 s.")) false false
    (Some (λ _, Action "Reserve" false)).

Definition leases6_table (scopeId : option string) (options : list (string * string)) (isLoading : bool)
    (search : string) (leases : list lease6) : table_view cell :=
  CrudTable (filtered_leases6 search leases) isLoading (λ l, lease_key (l6_scope_id l) (l6_ip_address l))
    (lease6_columns scopeId options) (Some (Dim "No active leases.")) false false
    (Some (λ _, Action "Reserve" false)).

(** A row of the health card and one of the utilisation card. *)
Definition heartbeat_row (i : heartbeat) : list cell :=
  [ Txt ("DHCPv" +:+ hb_family i); from_option Txt (Dim "unknown") (hb_hostname i);
    Txt (formatRelativeTime local now (Some (hb_started_at i)));
    Txt (formatRelativeTime local now (Some (hb_last_seen_at i)));
    if hb_stale i then Badge "Not responding" "red" else Badge "Online" "green" ].

Definition stat_row (s : subnet_stat) : list cell :=
  let pct := utilisation (st_assigned s) (st_total s) in
  [ Txt (st_scope_name s); Code (st_subnet s);
    Txt (Z_str (st_assigned s) +:+ " / " +:+ Z_str (st_total s));
    Badge (Z_str pct +:+ "%") (utilisation_color pct);
    if (0 <? st_declined s)%Z then Badge (Z_str (st_declined s)) "red" else Dim "0" ].

(** The two cards: a loader, a text, or the rows under their keys. *)
Inductive card_view := CardLoading | CardText (s : string) | CardRows (rows : list (string * list cell)).

Definition card {A} (isLoading : bool) (none : string) (key : A → string) (row : A → list cell) (data : list A) :
    card_view :=
  if isLoading then CardLoading
  else match data with [] => CardText none | _ => CardRows ((λ x, (key x, row x)) <$> data) end.

Definition StatusTab (statsLoading healthLoading : bool) (stats : list subnet_stat) (instances : list heartbeat) :
    card_view * card_view :=
  (card healthLoading
     "No mantis-dhcp/mantis-dhcp6 instance has reported in — either none is running, or none has been up long enough for its first heartbeat yet."
     hb_instance_id heartbeat_row instances,
   card statsLoading "No scopes, or no leases allocated yet." st_scope_id stat_row stats).
End times.

(** ** Reading a row *)

(** The cells of a row. *)
Definition row_of {T} (columns : list (column T cell)) (x : T) : list cell := (λ c, col_render c x) <$> columns.

(** A text ends at the last separator that the rest does not contain. *)
Definition free_of (c : ascii) (s : string) : bool := sforall (λ d, negb (Ascii.eqb d c)) s.

Lemma free_of_cons c d s : free_of c (String d s) = true ↔ d ≠ c ∧ free_of c s = true.
Proof.
  unfold free_of. cbn. rewrite andb_true_iff, negb_true_iff. split; intros [H1 H2]; split; try done.
  - intros ->. by rewrite Ascii.eqb_refl in H1.
  - by apply Ascii.eqb_neq.
Qed.

Lemma free_of_app c s t : free_of c (s +:+ String c t) = false.
Proof.
  unfold free_of. rewrite sforall_app. cbn [sforall]. rewrite Ascii.eqb_refl. apply andb_false_r.
Qed.

Lemma split_last c a b u v :
  free_of c u = true → free_of c v = true → a +:+ String c u = b +:+ String c v → a = b ∧ u = v.
Proof.
  intros Hu Hv. revert b. induction a as [|d a IH]; intros [|e b] E; cbn in E; injection E.
  - by intros ->.
  - intros -> _. by rewrite free_of_app in Hu.
  - intros <- _. by rewrite free_of_app in Hv.
  - intros E' ->. by destruct (IH b E') as [-> ->].
Qed.

Lemma split_first c a b u v :
  free_of c a = true → free_of c b = true → a +:+ String c u = b +:+ String c v → a = b ∧ u = v.
Proof.
  revert b. induction a as [|d a IH]; intros [|e b] Ha Hb E; cbn in E; injection E.
  - by intros ->.
  - intros _ <-. by apply free_of_cons in Hb as [? _].
  - intros _ ->. by apply free_of_cons in Ha as [? _].
  - apply free_of_cons in Ha as [_ Ha]. apply free_of_cons in Hb as [_ Hb]. intros E' ->.
    by destruct (IH b Ha Hb E') as [-> ->].
Qed.

Lemma Z_str_inj n k : (0 ≤ n)%Z → (0 ≤ k)%Z → Z_str n = Z_str k → n = k.
Proof. intros Hn Hk E. apply (f_equal number_int) in E. rewrite !number_int_Z_str in E by done. by injection E. Qed.

Lemma Z_str_free c n : is_digit c = false → (0 ≤ n)%Z → free_of c (Z_str n) = true.
Proof.
  intros Hc Hn. generalize (Z_str_digits n Hn). generalize (Z_str n). intros s.
  induction s as [|d s IH]; [done|]. intros [Hd Hs]%andb_prop. apply free_of_cons. split; [|by apply IH].
  intros ->. by rewrite Hd in Hc.
Qed.

Lemma shown_if_inj (P Q : Prop) `{!Decision P, !Decision Q} x y :
  shown_if (bool_decide P) x = shown_if (bool_decide Q) y → (P ↔ Q) ∧ (P → x = y).
Proof. repeat case_bool_decide; cbn; try done. by intros [= ->]. Qed.

Lemma badges_inj (l k : list string) : (λ t, Badge t "gray") <$> l = (λ t, Badge t "gray") <$> k → l = k.
Proof. apply list_fmap_eq_inj. intros ?? [= ->]. done. Qed.

(** The server name a resolver is checked against: its TLS hostname, by default its
    address. *)
Definition server_name (r : resolver) : string :=
  if truthy_opt (rs_tls_hostname r) then default "" (rs_tls_hostname r) else rs_address r.

Lemma protocol_badge_inj p q :
  p ∈ PROTOCOL_OPTIONS → q ∈ PROTOCOL_OPTIONS → toUpperCase p = toUpperCase q → p = q.
Proof.
  unfold PROTOCOL_OPTIONS. rewrite !elem_of_cons, !elem_of_nil.
  intros [-> |[-> |[-> |[]]]] [-> |[-> |[-> |[]]]]; vm_compute; congruence.
Qed.

(** The second line of an address is shown exactly when the server name differs. *)
Lemma server_line r :
  shown_if (truthy_opt (rs_tls_hostname r) && bool_decide (rs_tls_hostname r ≠ Some (rs_address r)))
    (Dim (default "" (rs_tls_hostname r))) =
  shown_if (bool_decide (server_name r ≠ rs_address r)) (Dim (server_name r)).
Proof.
  unfold server_name. destruct (rs_tls_hostname r) as [h|]; cbn.
  - destruct (truthy h); cbn; [|by rewrite bool_decide_eq_false_2 by naive_solver].
    repeat case_bool_decide; naive_solver.
  - by rewrite bool_decide_eq_false_2 by naive_solver.
Qed.

Lemma resolver_row_reads r q :
  rs_protocol r ∈ PROTOCOL_OPTIONS → rs_protocol q ∈ PROTOCOL_OPTIONS → (0 ≤ rs_port r)%Z → (0 ≤ rs_port q)%Z →
  row_of resolver_columns r = row_of resolver_columns q →
  rs_name r = rs_name q ∧ rs_tags r = rs_tags q ∧ rs_protocol r = rs_protocol q ∧ rs_address r = rs_address q ∧
  rs_port r = rs_port q ∧ server_name r = server_name q ∧
  rs_dnssec_validation r = rs_dnssec_validation q ∧ rs_enabled r = rs_enabled q.
Proof.
  intros Hr Hq Pr Pq. unfold row_of, resolver_columns. rewrite !fmap_cons. cbn [col_render].
  rewrite !server_line. intros E. injection E as En Et Ep _ Ea Es Ed Ee.
  apply shown_if_inj in Et as [Eb Et]. apply shown_if_inj in Es as [Esb Es].
  assert (rs_tags r = rs_tags q) as Etags.
  { destruct (decide (rs_tags r = [])) as [H|H].
    - rewrite H. destruct (decide (rs_tags q = [])) as [H'|H']; [done|]. by apply Eb in H'.
    - specialize (Et H). injection Et as Et. by apply badges_inj. }
  apply (protocol_badge_inj _ _ Hr Hq) in Ep.
  destruct (split_last ":" _ _ (Z_str (rs_port r)) (Z_str (rs_port q))
    (Z_str_free ":" _ eq_refl Pr) (Z_str_free ":" _ eq_refl Pq) Ea) as [Eaddr Eport].
  apply Z_str_inj in Eport; [|done..].
  split_and!; try done. destruct (decide (server_name r = rs_address r)) as [H|H].
  - destruct (decide (server_name q = rs_address q)) as [H'|H']; [congruence|]. by apply Esb in H'.
  - specialize (Es H). by injection Es.
Qed.

Lemma route_row_reads pools t u :
  (0 ≤ rt_priority t)%Z → (0 ≤ rt_priority u)%Z → rt_match_value t ≠ Some "—" → rt_match_value u ≠ Some "—" →
  row_of (route_columns pools) t = row_of (route_columns pools) u →
  rt_name t = rt_name u ∧ rt_priority t = rt_priority u ∧ (rt_tenant_id t = None ↔ rt_tenant_id u = None) ∧
  rt_match_type t = rt_match_type u ∧ rt_match_value t = rt_match_value u ∧
  poolName pools (rt_pool_id t) = poolName pools (rt_pool_id u) ∧ rt_enabled t = rt_enabled u.
Proof.
  intros Pt Pu Vt Vu. unfold row_of, route_columns. rewrite !fmap_cons. cbn [col_render]. intros E.
  injection E as Ep En Eg Em Ev Ef Ee. apply Z_str_inj in Ep; [|done..]. apply shown_if_inj in Eg as [Eg _].
  split_and!; try done; [apply Eg..|].
  destruct (rt_match_value t) as [x|], (rt_match_value u) as [y|]; cbn in Ev; congruence.
Qed.

Lemma scope_row_reads s t :
  free_of " " (s_range_start (sc_values s)) = true → free_of " " (s_range_start (sc_values t)) = true →
  row_of scope_columns s = row_of scope_columns t →
  s_name (sc_values s) = s_name (sc_values t) ∧ s_subnet (sc_values s) = s_subnet (sc_values t) ∧
  s_range_start (sc_values s) = s_range_start (sc_values t) ∧ s_range_end (sc_values s) = s_range_end (sc_values t) ∧
  s_ddns_enabled (sc_values s) = s_ddns_enabled (sc_values t) ∧ s_enabled (sc_values s) = s_enabled (sc_values t).
Proof.
  intros Hs Ht. unfold row_of, scope_columns. rewrite !fmap_cons. cbn [col_render]. intros E.
  injection E as En Esub Er _ Ed Ee.
  destruct (split_first " " _ _ _ _ Hs Ht Er) as [Est Een]. injection Een as Een.
  split_and!; try done. by destruct (s_ddns_enabled (sc_values s)), (s_ddns_enabled (sc_values t)).
Qed.

Lemma lease_key_inj s s' ip ip' :
  free_of "-" ip = true → free_of "-" ip' = true → lease_key s ip = lease_key s' ip' → s = s' ∧ ip = ip'.
Proof. intros H1 H2. by apply split_last. Qed.

(** A search keeps the order of the rows. *)
Lemma filter_sublist {A} (p : A → bool) (l : list A) : List.filter p l `sublist_of` l.
Proof. induction l as [|x l IH]; cbn; [constructor|]. destruct (p x); by constructor. Qed.

Lemma search_sublist {A} (texts : A → list string) search (l : list A) : search_rows texts search l `sublist_of` l.
Proof. unfold search_rows. destruct (truthy _); [apply filter_sublist|done]. Qed.

Lemma Forall_sublist {A} (P : A → Prop) l k : l `sublist_of` k → Forall P k → Forall P l.
Proof. induction 1; rewrite ?Forall_cons; naive_solver. Qed.

Lemma lease_keys_distinct (l : list (string * string)) :
  Forall (λ p, free_of "-" p.2 = true) l → NoDup l → NoDup ((λ p, lease_key p.1 p.2) <$> l).
Proof.
  intros Hf. rewrite Forall_forall in Hf. apply NoDup_fmap_2_strong.
  intros [s ip] [s' ip'] H1 H2 E. destruct (lease_key_inj s s' ip ip' (Hf _ H1) (Hf _ H2) E) as [-> ->]. done.
Qed.

(** ** Properties *)

(** The tables can be read back.  Two resolvers whose rows look the same have the
    same name, tags, protocol, address, port, state and DNSSEC mode, and the same
    server name although a TLS hostname that is the address is not shown; likewise
    two routes, up to the pool, of which the name is shown, and two scopes, up to the
    lease time, which is rounded.  The rows of the two lease tables have different
    keys when no scope leases an address twice, whatever the search. *)
Theorem rows_readable (pools : list pool) (r q : resolver) (t u : route) (s s' : scope) (search : string)
    (leases : list lease) (leases6 : list lease6) :
  rs_protocol r ∈ PROTOCOL_OPTIONS → rs_protocol q ∈ PROTOCOL_OPTIONS → (0 ≤ rs_port r)%Z → (0 ≤ rs_port q)%Z →
  (0 ≤ rt_priority t)%Z → (0 ≤ rt_priority u)%Z → rt_match_value t ≠ Some "—" → rt_match_value u ≠ Some "—" →
  free_of " " (s_range_start (sc_values s)) = true → free_of " " (s_range_start (sc_values s')) = true →
  Forall (λ l, free_of "-" (l_ip_address l) = true) leases →
  Forall (λ l, free_of "-" (l6_ip_address l) = true) leases6 →
  NoDup ((λ l, (l_scope_id l, l_ip_address l)) <$> leases) →
  NoDup ((λ l, (l6_scope_id l, l6_ip_address l)) <$> leases6) →
  (row_of resolver_columns r = row_of resolver_columns q →
   rs_name r = rs_name q ∧ rs_tags r = rs_tags q ∧ rs_protocol r = rs_protocol q ∧ rs_address r = rs_address q ∧
   rs_port r = rs_port q ∧ server_name r = server_name q ∧
   rs_dnssec_validation r = rs_dnssec_validation q ∧ rs_enabled r = rs_enabled q) ∧
  (row_of (route_columns pools) t = row_of (route_columns pools) u →
   rt_name t = rt_name u ∧ rt_priority t = rt_priority u ∧ (rt_tenant_id t = None ↔ rt_tenant_id u = None) ∧
   rt_match_type t = rt_match_type u ∧ rt_match_value t = rt_match_value u ∧
   poolName pools (rt_pool_id t) = poolName pools (rt_pool_id u) ∧ rt_enabled t = rt_enabled u) ∧
  (row_of scope_columns s = row_of scope_columns s' →
   s_name (sc_values s) = s_name (sc_values s') ∧ s_subnet (sc_values s) = s_subnet (sc_values s') ∧
   s_range_start (sc_values s) = s_range_start (sc_values s') ∧ s_range_end (sc_values s) = s_range_end (sc_values s') ∧
   s_ddns_enabled (sc_values s) = s_ddns_enabled (sc_values s') ∧ s_enabled (sc_values s) = s_enabled (sc_values s')) ∧
  NoDup ((λ l, lease_key (l_scope_id l) (l_ip_address l)) <$> filtered_leases search leases) ∧
  NoDup ((λ l, lease_key (l6_scope_id l) (l6_ip_address l)) <$> filtered_leases6 search leases6).
Proof.
  intros H1 H2 H3 H4 H5 H6 H7 H8 H9 H10 L L6 N N6.
  split_and!; [by apply resolver_row_reads|by apply route_row_reads|by apply scope_row_reads|..].
  - pose proof (lease_keys_distinct ((λ l, (l_scope_id l, l_ip_address l)) <$> filtered_leases search leases)) as H.
    rewrite <- list_fmap_compose in H. apply H.
    + apply Forall_fmap. eapply Forall_sublist; [|exact L]. apply search_sublist.
    + eapply sublist_NoDup; [exact N|]. apply fmap_sublist, search_sublist.
  - pose proof (lease_keys_distinct ((λ l, (l6_scope_id l, l6_ip_address l)) <$> filtered_leases6 search leases6)) as H.
    rewrite <- list_fmap_compose in H. apply H.
    + apply Forall_fmap. eapply Forall_sublist; [|exact L6]. apply search_sublist.
    + eapply sublist_NoDup; [exact N6|]. apply fmap_sublist, search_sublist.
Qed.

(** The keys of the rows a table shows. *)
Definition row_keys {N} (v : table_view N) : list string :=
  match v with Rows _ _ rows => (λ r, r.1.1) <$> rows | _ => [] end.

Lemma row_keys_CrudTable {T N} (data : list T) (key : T → string) (cols : list (column T N)) empty e d extra :
  row_keys (CrudTable data false key cols empty e d extra) = key <$> data.
Proof.
  destruct data as [|x l]; [by destruct empty|].
  destruct (CrudTable_rows (x :: l) key cols empty e d extra) as (rows & -> & Hk & _); [done|]. exact Hk.
Qed.

(** Once loaded, each table lists what the control plane returned, in its order; the
    tables with a search box what the search selects; the routes and reservations
    nothing before a tenant or a scope is selected.  While the data is loading no
    table shows a row. *)
Theorem tables_list_all (local : Z → Z) (now : Z) (probing tenant scope : option string)
    (options : list (string * string)) (search : string) (rs : list resolver) (ps : list pool) (ts : list route)
    (ss : list DhcpPage.scope) (ss6 : list scope6) (vs : list reservation) (ls : list lease) :
  row_keys (resolvers_table false probing rs) = rs_id <$> rs ∧
  row_keys (pools_table false rs ps) = pl_id <$> ps ∧
  (row_keys <$> routes_table tenant false ps ts) =
    (if truthy_opt tenant then Some (rt_id <$> ts) else None) ∧
  row_keys (scopes_table false ss) = sc_id <$> ss ∧ row_keys (scopes6_table false ss6) = s6_id <$> ss6 ∧
  match reservations_table scope false search vs with
  | inr v => truthy_opt scope = true ∧ row_keys v = (λ r, default "" (rv_id r)) <$> filtered search vs
  | inl _ => truthy_opt scope = false
  end ∧
  row_keys (leases_table local now scope options false search ls) =
    (λ l, lease_key (l_scope_id l) (l_ip_address l)) <$> filtered_leases search ls ∧
  row_keys (resolvers_table true probing rs) = [] ∧ row_keys (scopes_table true ss) = [].
Proof.
  unfold resolvers_table, pools_table, routes_table, scopes_table, scopes6_table, reservations_table, leases_table,
    routes_shown.
  rewrite !row_keys_CrudTable. split_and!; try done.
  - destruct (truthy_opt tenant); [|done]. cbn [fmap option_fmap option_map]. by rewrite row_keys_CrudTable.
  - destruct (truthy_opt scope); [|done]. by rewrite row_keys_CrudTable.
Qed.

(** ** Examples *)

Definition resolver_dot : resolver :=
  Resolver "r1" "Quad9" "dot" "9.9.9.9" 853 (Some "9.9.9.9") "strict" 2000 2 ["public"] true.
Definition resolver_dot' : resolver :=
  Resolver "r2" "Quad9" "dot" "9.9.9.9" 853 None "strict" 2000 2 ["public"] true.
Definition route1 : route := Route "t1" "default" None "default" None "p1" 100 true.
Definition scope1 : scope := MkScope "s1" scope0.

Lemma rows_readable_witness :
  row_of resolver_columns resolver_dot = row_of resolver_columns resolver_dot' ∧
  server_name resolver_dot = server_name resolver_dot'.
Proof.
  destruct (rows_readable [] resolver_dot resolver_dot' route1 route1 scope1 scope1 "" [lease0] [lease6_0])
    as (H & _);
    [first [by vm_compute | discriminate | by apply NoDup_singleton | by repeat constructor
           | apply (bool_decide_eq_true_1 _); by vm_compute]..|].
  split; [reflexivity|]. by apply H.
Defined.
