(* ===== verification/RowPage.v ===== *)
(** * Pages with a table

    The shape that the pages for tenants, groups, clients, users and zones share: a
    loader in place of the page, a table, modals with a form over it, and the
    confirmation before a deletion.  A page is a [row_page]; what it promises of its
    own forms is the class [PageForms], and what follows for every script of clicks,
    typing and answers is proved here once. *)

From S2P Require Import Prelude JsText Json Client Errors Queries Auth Forms Effects Modal Tables.

(** ** The page *)

(** A request of one part of the state, as a request of the whole. *)
Definition inflight_on {S P} (get : P → S) (set : S → P → P) (i : inflight S) : inflight P :=
  Inflight (f_call i) (f_cache i) (λ o p, let '(notes, s) := f_settled i o (get p) in (notes, set s p)).

(** What an event of a form does besides: a call through a hook, or the form with the
    hook is unmounted. *)
Inductive effect (S : Type) := Call (h : nat) (i : inflight S) | Unmounts (h : nat) | Nothing.
Arguments Call {S}.
Arguments Unmounts {S}.
Arguments Nothing {S}.

(** [S] is the state of the page, [T] a row, [E] what is clicked besides the rows. *)
Record row_page (S T E : Type) := RowPage {
  row_key : T → string;
  headings : list string;
  row_cells : T → list cell;
  header_buttons : option AuthUser → list string;
  row_buttons : option AuthUser → list string;
  none_text : S → string;
  (** Where a click on the row leads. *)
  row_link : T → option string;
  (** The question of a deletion, and its request; offered when the role allows. *)
  can_delete : option AuthUser → T → bool;
  delete_text : T → string;
  delete_row : T → inflight S;
  (** The forms; the rows on screen are given. *)
  own : option AuthUser → list T → S → E → S * effect S;
  (** The page is replaced by the loader or by the error: its forms are unmounted. *)
  unmount : S → S;
}.
Arguments RowPage {S T E}.
Arguments row_key {S T E}.
Arguments headings {S T E}.
Arguments row_cells {S T E}.
Arguments header_buttons {S T E}.
Arguments row_buttons {S T E}.
Arguments none_text {S T E}.
Arguments row_link {S T E}.
Arguments can_delete {S T E}.
Arguments delete_text {S T E}.
Arguments delete_row {S T E}.
Arguments own {S T E}.
Arguments unmount {S T E}.

Inductive body := NoBody | NoRows (text : string) | Rows (headings : list string) (rows : list (string * list cell * list string)).
Inductive shown := ShowLoader | ShowError (message : string) | ShowPage (buttons : list string) (b : body).

Inductive event (E : Type) :=
| Render | ClickRow (n : nat) | ClickDelete (n : nat) | Confirm | Cancel | Settled (n : nat) (o : exc (option json))
| Own (e : E).
Arguments Render {E}.
Arguments ClickRow {E}.
Arguments ClickDelete {E}.
Arguments Confirm {E}.
Arguments Cancel {E}.
Arguments Settled {E}.
Arguments Own {E}.

(** What a step does besides changing the page. *)
Inductive out := Went (to : string) | Sent (c : call) | Told (n : note).

(** The page, the row of the open confirmation, and the requests in flight. *)
Record conf (S T : Type) := Conf { st : S; asked : option T; flying : list (nat * inflight S) }.
Arguments Conf {S T}.
Arguments st {S T}.
Arguments asked {S T}.
Arguments flying {S T}.

Section page.
Context {S T E : Type}.
Variable pg : row_page S T E.

(** [if (isLoading) return ...; if (error) return ...;] *)
Definition replaced (ld : result (list T)) : option shown :=
  if q_loading ld then Some ShowLoader else ShowError <$> q_error ld.

Definition view (u : option AuthUser) (ld : result (list T)) (s : S) : shown :=
  match replaced ld with
  | Some r => r
  | None =>
      ShowPage (header_buttons pg u)
        match q_data ld with
        | None => NoBody
        | Some [] => NoRows (none_text pg s)
        | Some l => Rows (headings pg) ((λ t, (row_key pg t, row_cells pg t, row_buttons pg u)) <$> l)
        end
  end.

(** The rows that can be clicked. *)
Definition on_screen (ld : result (list T)) : list T :=
  match replaced ld with Some _ => [] | None => default [] (q_data ld) end.

Definition mounted (ld : result (list T)) (s : S) : S :=
  match replaced ld with Some _ => unmount pg s | None => s end.

Definition heard (ld : result (list T)) (fl : list (nat * inflight S)) : list (nat * inflight S) :=
  match replaced ld with Some _ => of_page fl | None => fl end.

Variable u : option AuthUser.

Definition step (c : conf S T) (le : result (list T) * event E) : conf S T * list out :=
  let '(ld, e) := le in
  let s := mounted ld (st c) in
  let fl := heard ld (flying c) in
  let idle := (Conf s (asked c) fl, []) in
  match e with
  | Render => idle
  | ClickRow n =>
      match on_screen ld !! n ≫= row_link pg with Some to => (idle.1, [Went to]) | None => idle end
  | ClickDelete n =>
      match on_screen ld !! n with
      | Some t => if can_delete pg u t then (Conf s (Some t) fl, []) else idle
      | None => idle
      end
  | Confirm =>
      match asked c with
      | Some t => (Conf s None (launch 0 (delete_row pg t) fl), [Sent (f_call (delete_row pg t))])
      | None => idle
      end
  | Cancel => (Conf s None fl, [])
  | Settled n o =>
      match fl !! n with
      | Some (_, i) =>
          let '(notes, s') := f_settled i o s in
          (Conf s' (asked c) (delete n fl), Told <$> notes)
      | None => idle
      end
  | Own e =>
      match replaced ld, own pg u (on_screen ld) s e with
      | Some _, _ => idle
      | None, (s', Call h i) =>
          (* [<Button type="submit" loading={isPending}>]: a loading button is disabled *)
          if busy h fl then idle else (Conf s' (asked c) (launch h i fl), [Sent (f_call i)])
      | None, (s', Unmounts h) => (Conf s' (asked c) (unheard h fl), [])
      | None, (s', Nothing) => (Conf s' (asked c) fl, [])
      end
  end.

Fixpoint run (c : conf S T) (script : list (result (list T) * event E)) : conf S T * list out :=
  match script with
  | [] => (c, [])
  | le :: r => let '(c1, o1) := step c le in let '(c2, o2) := run c1 r in (c2, o1 ++ o2)
  end.
End page.

(** ** Forms in modals *)

Inductive form_event (V : Type) := Change (g : V → V) | Submit | Close.
Arguments Change {V}.
Arguments Submit {V}.
Arguments Close {V}.

(** The events of a form in a modal, with its hook; closed, the form is unmounted. *)
Definition on_form {T V} (h : nat) (submit : modal T V → option (inflight (modal T V))) (m : modal T V)
    (e : form_event V) : modal T V * effect (modal T V) :=
  match e with
  | Change g => (modal_edit g m, Nothing)
  | Submit => (m, from_option (Call h) Nothing (submit m))
  | Close => (modal_close m, Unmounts h)
  end.

Definition effect_on {S P} (get : P → S) (set : S → P → P) (x : effect S) : effect P :=
  match x with Call h i => Call h (inflight_on get set i) | Unmounts h => Unmounts h | Nothing => Nothing end.

(** The same for a form that is kept while its modal is closed: the hook stays. *)
Definition on_kept {V} (h : nat) (initial : V) (submit : kept V → option (inflight (kept V))) (m : kept V)
    (e : form_event V) : kept V * effect (kept V) :=
  if k_opened m then
    match e with
    | Change g => (kept_edit g m, Nothing)
    | Submit => (m, from_option (Call h) Nothing (submit m))
    | Close => (kept_close initial m, Nothing)
    end
  else (m, Nothing).

(** Mounted again, the form has its initial values; whether it is open is kept by the page. *)
Definition remount_kept {V} (initial : V) (m : kept V) : kept V := Kept (k_opened m) initial.

(** The modal is rendered again later, with a new form. *)
Definition remount {T V} (initial : T → V) (m : modal T V) : modal T V := (λ '(t, _), (t, initial t)) <$> m.

(** ** What every script of clicks keeps *)

(** What a page promises of its forms, for a user and rows of which each is [listed]:
    an invariant of its state that its own events, its requests and a remount keep,
    and what it sends. *)
Class PageForms {S T E} (pg : row_page S T E) (u : option AuthUser) (listed : T → Prop) := {
  forms_inv : S → Prop;
  sends : call → Prop;
  own_inv rows s e : Forall listed rows → forms_inv s → forms_inv (own pg u rows s e).1;
  own_sends rows s e h i :
    Forall listed rows → forms_inv s → (own pg u rows s e).2 = Call h i →
    sends (f_call i) ∧ ∀ o s', forms_inv s' → forms_inv (f_settled i o s').2;
  unmount_inv s : forms_inv s → forms_inv (unmount pg s);
  delete_inv t o s : forms_inv s → forms_inv (f_settled (delete_row pg t) o s).2;
}.

Section keeps.
Context {S T E : Type} (pg : row_page S T E) (u : option AuthUser) (full : list (result (list T) * event E)).

(** The row was on screen. *)
Definition was_listed (t : T) : Prop := ∃ ld e, (ld, e) ∈ full ∧ t ∈ on_screen ld.

Context `{!PageForms pg u was_listed}.

Lemma rows_listed ld e : (ld, e) ∈ full → Forall was_listed (on_screen ld).
Proof. intros Hin. apply Forall_forall. intros t Ht. by exists ld, e. Qed.

(** The row was on screen when its button was clicked. *)
Definition was_shown (click : nat → event E) (t : T) : Prop :=
  ∃ ld n, (ld, click n) ∈ full ∧ on_screen ld !! n = Some t.

Definition settles_ok (x : nat * inflight S) : Prop :=
  ∀ o s, forms_inv s → forms_inv (f_settled x.2 o s).2.

Definition conf_inv (c : conf S T) : Prop :=
  forms_inv (st c) ∧ (∀ t, asked c = Some t → can_delete pg u t = true ∧ was_shown ClickDelete t) ∧
  Forall settles_ok (flying c).

Definition out_ok (o : out) : Prop :=
  match o with
  | Sent c => sends c ∨ ∃ t, can_delete pg u t = true ∧ was_shown ClickDelete t ∧ c = f_call (delete_row pg t)
  | Went to => ∃ t, was_shown ClickRow t ∧ row_link pg t = Some to
  | Told _ => True
  end.

Lemma mounted_inv ld s : forms_inv s → forms_inv (mounted pg ld s).
Proof. unfold mounted. destruct (replaced ld); [apply unmount_inv|done]. Qed.

Lemma Forall_kept (Q : nat * inflight S → Prop) {HQ : ∀ x, Decision (Q x)} fl :
  Forall settles_ok fl → Forall settles_ok (filter Q fl).
Proof. rewrite !Forall_forall. intros Hall x [_ Hx]%list_elem_of_filter. by apply Hall. Qed.

Lemma Forall_unheard h fl : Forall settles_ok fl → Forall settles_ok (unheard h fl).
Proof. intros H. by apply Forall_kept. Qed.

Lemma Forall_launch h i fl : settles_ok (h, i) → Forall settles_ok fl → Forall settles_ok (launch h i fl).
Proof. intros Hi H. apply Forall_app_2; [by apply Forall_unheard|by constructor]. Qed.

Lemma Forall_heard ld fl : Forall settles_ok fl → Forall settles_ok (heard (T := T) ld fl).
Proof. intros H. unfold heard. destruct (replaced ld); [by apply Forall_kept|done]. Qed.

Lemma step_ok c le : le ∈ full → conf_inv c → conf_inv (step pg u c le).1 ∧ Forall out_ok (step pg u c le).2.
Proof.
  destruct le as [ld e]. intros Hin (Hs & Ha & Hf). pose proof (mounted_inv ld _ Hs) as Hm.
  apply (Forall_heard ld) in Hf. unfold step. set (fl := heard ld (flying c)) in *.
  assert (Hidle : conf_inv (Conf (mounted pg ld (st c)) (asked c) fl)) by (by split_and!).
  destruct e as [|n|n| | |n o|e].
  - by split; [|constructor].
  - destruct (on_screen ld !! n) as [t|] eqn:Ht; cbn; [|by split; [|constructor]].
    destruct (row_link pg t) as [to|] eqn:El; (split; [done|]); [|constructor].
    constructor; [|constructor]. exists t. split; [|done]. by exists ld, n.
  - destruct (on_screen ld !! n) as [t|] eqn:Ht; [|by split; [|constructor]].
    destruct (can_delete pg u t) eqn:Ec; [|by split; [|constructor]]. split; [|constructor].
    split_and!; [done| |done]. cbn. intros ? [= <-]. split; [done|by exists ld, n].
  - destruct (asked c) as [t|] eqn:Et; [|by split; [|constructor]]. destruct (Ha t eq_refl) as [Hc Hw]. split.
    + split_and!; [done|done|]. cbn. apply Forall_launch; [|done]. unfold settles_ok. apply delete_inv.
    + constructor; [|constructor]. right. by exists t.
  - split; [|constructor]. by split_and!.
  - destruct (fl !! n) as [[h i]|] eqn:Ei; [|by split; [|constructor]].
    destruct (f_settled i o (mounted pg ld (st c))) as [notes s'] eqn:Es. split.
    + assert (Hi := proj1 (Forall_lookup _ _) Hf n _ Ei o _ Hm). cbn in Hi. rewrite Es in Hi. cbn in Hi.
      split_and!; [done|done|]. cbn. apply Forall_forall. intros j Hj.
      apply (proj1 (Forall_forall _ _) Hf). eapply sublist_subseteq; [|exact Hj]. apply sublist_delete.
    + cbn. apply Forall_fmap, Forall_true. by intros ?.
  - destruct (replaced ld); [by split; [|constructor]|].
    pose proof (rows_listed _ _ Hin) as Hl.
    pose proof (own_inv (on_screen ld) (mounted pg ld (st c)) e Hl Hm) as Hi.
    pose proof (λ h i, own_sends (on_screen ld) (mounted pg ld (st c)) e h i Hl) as Hsend.
    destruct (own pg u (on_screen ld) (mounted pg ld (st c)) e) as [s' [h i|h|]]; cbn in *.
    + destruct (busy h fl); [by split; [|constructor]|].
      destruct (Hsend h i Hm eq_refl) as [H1 H2]. split; [|constructor; [by left|constructor]].
      split_and!; [done|done|]. cbn. by apply Forall_launch.
    + split; [|constructor]. split_and!; [done|done|]. by apply Forall_unheard.
    + split; [|constructor]. by split_and!.
Qed.

Lemma run_ok script c : script ⊆ full → conf_inv c → Forall out_ok (run pg u c script).2.
Proof.
  revert c. induction script as [|le r IH]; intros c Hsub Hc; cbn; [constructor|].
  destruct (step_ok c le) as [H1 H2]; [set_solver|done|].
  destruct (step pg u c le) as [c1 o1]. cbn in *.
  specialize (IH c1 ltac:(set_solver) H1). destruct (run pg u c1 r) as [c2 o2]. cbn in *. by apply Forall_app_2.
Qed.
End keeps.

(** From a page with no modal open: every request is one its forms send or the
    deletion of a row that was on screen, for a user who may delete. *)
Lemma page_outs {S T E} (pg : row_page S T E) (u : option AuthUser) s script `{!PageForms pg u (was_listed script)} :
  forms_inv s → Forall (out_ok pg u script) (run pg u (Conf s None []) script).2.
Proof. intros Hs. apply run_ok; [done|]. split_and!; [done|done|constructor]. Qed.

Lemma outs_elem {S T E} (pg : row_page S T E) u s script `{!PageForms pg u (was_listed script)} o :
  forms_inv s → o ∈ (run pg u (Conf s None []) script).2 → out_ok pg u script o.
Proof. intros Hs. apply Forall_forall. by apply page_outs. Qed.

(** ** Lemmas for the promises of a page *)

(** A button that is there for operators. *)
Ltac by_role := match goal with |- context [if hasRole ?u ?r then _ else _] => destruct (hasRole u r) eqn:? end; cbn in *; done.

Lemma modal_submit_open {T V} (validate : V → list (option string)) {A} (send : T → V → A) m a :
  modal_submit validate send m = Some a → ∃ t v, m = Some (t, v) ∧ Forall (λ e, e = None) (validate v) ∧ a = send t v.
Proof.
  unfold modal_submit. destruct m as [[t v]|]; [|done]. cbn. intros [H ->]%onSubmit_Some. by exists t, v.
Qed.

(** A modal with a property of its target. *)
Definition opened_for {T V} (P : T → Prop) (m : modal T V) : Prop := match m with Some (t, _) => P t | None => True end.

Lemma opened_edit {T V} (P : T → Prop) (g : V → V) m : opened_for P m → opened_for P (modal_edit g m).
Proof. by destruct m as [[t v]|]. Qed.

Lemma opened_remount {T V} (P : T → Prop) (initial : T → V) m : opened_for P m → opened_for P (remount initial m).
Proof. by destruct m as [[t v]|]. Qed.

Lemma on_form_opened {T V} (P : T → Prop) h submit (m : modal T V) e :
  opened_for P m → opened_for P (on_form h submit m e).1.
Proof. destruct e; cbn; [apply opened_edit|done|done]. Qed.

Lemma on_form_sends {T V} h submit (m : modal T V) e h' i :
  (on_form h submit m e).2 = Call h' i → submit m = Some i.
Proof. destruct e; cbn; try done. destruct (submit m); cbn; [by intros [= _ ->]|done]. Qed.

Lemma on_kept_opened {V} h (initial : V) submit m e :
  k_opened (on_kept h initial submit m e).1 = true → k_opened m = true.
Proof. unfold on_kept. by destruct (k_opened m) eqn:E, e; cbn; rewrite ?E. Qed.

Lemma on_kept_sends {V} h (initial : V) submit m e h' i :
  (on_kept h initial submit m e).2 = Call h' i → k_opened m = true ∧ submit m = Some i.
Proof.
  unfold on_kept. destruct (k_opened m), e; cbn; try done. destruct (submit m); cbn; [by intros [= _ ->]|done].
Qed.

Lemma on_form_hook {T V} h submit (m : modal T V) e h' i : (on_form h submit m e).2 = Call h' i → h' = h.
Proof. destruct e; cbn; try done. destruct (submit m); cbn; [by intros [= -> _]|done]. Qed.

Lemma on_kept_hook {V} h (initial : V) submit m e h' i : (on_kept h initial submit m e).2 = Call h' i → h' = h.
Proof. unfold on_kept. destruct (k_opened m), e; cbn; try done. destruct (submit m); cbn; [by intros [= -> _]|done]. Qed.

(** ** No request is sent twice *)

Section once.
Context {S T E : Type} (pg : row_page S T E) (u : option AuthUser).

(** The hook through which a form sends in a step. *)
Definition sends_through (c : conf S T) (le : result (list T) * event E) : option nat :=
  match le with
  | (ld, Own e) =>
      match replaced ld, (own pg u (on_screen ld) (mounted pg ld (st c)) e).2 with
      | None, Call h _ => if busy h (heard ld (flying c)) then None else Some h
      | _, _ => None
      end
  | _ => None
  end.

(** The step frees a hook: its request settles, or the form with the hook goes. *)
Definition frees (h : nat) (c : conf S T) (le : result (list T) * event E) : bool :=
  bool_decide (replaced le.1 ≠ None) ||
  match le with
  | (ld, Settled n _) => bool_decide (fst <$> heard ld (flying c) !! n = Some h)
  | (ld, Own e) =>
      match (own pg u (on_screen ld) (mounted pg ld (st c)) e).2 with Unmounts h' => bool_decide (h' = h) | _ => false end
  | _ => false
  end.

Definition conf_after (c : conf S T) (script : list (result (list T) * event E)) : conf S T := (run pg u c script).1.

Lemma conf_after_cons c le r : conf_after c (le :: r) = conf_after (step pg u c le).1 r.
Proof.
  unfold conf_after. cbn. destruct (step pg u c le) as [c1 o1]. cbn. by destruct (run pg u c1 r).
Qed.

Lemma elem_settled {A} h n (fl : list (nat * inflight A)) :
  h ∈ fl.*1 → fst <$> fl !! n ≠ Some h → h ∈ (delete n fl).*1.
Proof.
  intros Hh Hn. rewrite list_fmap_delete. rewrite <- list_lookup_fmap in Hn. revert Hh Hn. generalize fl.*1.
  intros l. revert n. induction l as [|x l IH]; intros n Hh Hn; [by apply not_elem_of_nil in Hh|].
  destruct n as [|n]; cbn in *.
  - apply elem_of_cons in Hh as [->|Hh]; congruence.
  - apply elem_of_cons in Hh as [->|Hh]; [left|right; by apply IH].
Qed.

(** A hook stays busy until a step frees it. *)
Lemma busy_step h c le : h ∈ (flying c).*1 → frees h c le = false → h ∈ (flying (step pg u c le).1).*1.
Proof.
  destruct le as [ld e]. unfold frees. cbn [fst]. intros Hh [Hr Hf]%orb_false_iff. bools.
  assert (replaced ld = None) as Er by (destruct (replaced ld); [by destruct Hr|done]).
  assert (heard ld (flying c) = flying c) as Eh by (unfold heard; by rewrite Er).
  unfold step. rewrite Eh in *. rewrite Er.
  destruct e as [|n|n| | |n o|e]; cbn [fst flying]; try done.
  - destruct (_ ≫= _); done.
  - destruct (on_screen ld !! n); [|done]. by destruct (can_delete _ _ _).
  - destruct (asked c); [|done]. cbn. apply elem_launch. by right.
  - destruct (flying c !! n) as [[k i]|] eqn:E1; [|done]. destruct (f_settled i o _) as [notes s']. cbn.
    apply elem_settled; [done|]. rewrite E1 in *. cbn in *. by apply bool_decide_eq_false in Hf.
  - destruct (own pg u (on_screen ld) (mounted pg ld (st c)) e) as [s' [k i|k|]]; cbn in *.
    + destruct (busy k (flying c)); [done|]. cbn. apply elem_launch. by right.
    + rewrite unheard_hooks, list_elem_of_filter. split; [|done]. apply bool_decide_eq_false in Hf. congruence.
    + done.
Qed.

Lemma sends_busy h c le : sends_through c le = Some h → h ∈ (flying (step pg u c le).1).*1.
Proof.
  destruct le as [ld [|n|n| | |n o|e]]; cbn; try done. destruct (replaced ld); [done|].
  destruct (own pg u (on_screen ld) (mounted pg ld (st c)) e) as [s' [k i|k|]]; cbn; try done.
  destruct (busy k _); [done|]. intros [= ->]. cbn. apply elem_launch. by left.
Qed.

Lemma busy_not_sends h c le : h ∈ (flying c).*1 → frees h c le = false → sends_through c le ≠ Some h.
Proof.
  destruct le as [ld [|n|n| | |n o|e]]; cbn; try done. unfold frees. cbn [fst]. intros Hh [Hr _]%orb_false_iff. bools.
  unfold heard. destruct (replaced ld); [by destruct Hr|].
  destruct (own pg u (on_screen ld) (mounted pg ld (st c)) e) as [s' [k i|k|]]; cbn; try done.
  unfold busy. case_bool_decide; [done|]. congruence.
Qed.

Lemma busy_until h c script :
  h ∈ (flying c).*1 →
  (∃ pre le post, script = pre ++ le :: post ∧ frees h (conf_after c pre) le = true) ∨ h ∈ (flying (conf_after c script)).*1.
Proof.
  revert c. induction script as [|le r IH]; intros c Hh; [by right|].
  destruct (frees h c le) eqn:Ef; [left; by exists [], le, r|].
  rewrite conf_after_cons. destruct (IH _ (busy_step _ _ _ Hh Ef)) as [(pre & x & post & -> & Hx)|Hb]; [left|by right].
  exists (le :: pre), x, post. by rewrite conf_after_cons.
Qed.

(** A form sends again through the same hook only after its last request settled or
    the form was closed: a double click sends once. *)
Lemma no_double_submit c le1 mid le2 h :
  sends_through c le1 = Some h →
  sends_through (conf_after (step pg u c le1).1 mid) le2 = Some h →
  ∃ pre le post, mid ++ [le2] = pre ++ le :: post ∧ frees h (conf_after (step pg u c le1).1 pre) le = true.
Proof.
  intros H1%sends_busy H2. destruct (busy_until _ _ mid H1) as [(pre & le & post & -> & Hf)|Hb].
  - exists pre, le, (post ++ [le2]). by rewrite <- app_assoc.
  - exists mid, le2, []. split; [done|]. destruct (frees _ _ _) eqn:Ef; [done|]. by apply busy_not_sends in H2.
Qed.
End once.
