(* ===== verification/Translations.v ===== *)
(** * Translations

    The texts of [locales/en/translation.json] that [i18n.ts] gives to i18next, and
    what the application relies on of its function [t], as the class [I18n]: a key
    whose parts, separated by dots, lead to a text gives that text, with each
    [{{name}}] replaced by the value given for the name. *)

From S2P Require Import Prelude JsText.

Inductive texts := Text (s : string) | Texts (l : list (string * texts)).

(** The text under a path of names. *)
Fixpoint find_text (path : list string) (x : texts) : option string :=
  match path, x with
  | [], Text s => Some s
  | k :: path, Texts l =>
      (snd <$> List.find (λ kv, bool_decide (kv.1 = k)) l) ≫= find_text path
  | _, _ => None
  end.

Definition lookup_key (key : string) (x : texts) : option string := find_text (split_on "." key) x.

(** Every occurrence of [pat] replaced by [rep]; [skip] characters of one are left. *)
Fixpoint replace_pat (pat rep : string) (skip : nat) (s : string) : string :=
  match s, skip with
  | "", _ => ""
  | String _ r, S n => replace_pat pat rep n r
  | String c r, O =>
      if startsWith s pat then rep +:+ replace_pat pat rep (String.length pat - 1) r
      else String c (replace_pat pat rep 0 r)
  end.

Definition interpolate (vars : list (string * string)) (s : string) : string :=
  foldl (λ s kv, replace_pat ("{{" +:+ kv.1 +:+ "}}") kv.2 0 s) s vars.

Class I18n (resources : texts) := {
  t : string → list (string * string) → string;
  t_found key vars s : lookup_key key resources = Some s → t key vars = interpolate vars s;
}.

(** [resources: { en: { translation: en } }] *)
Definition en : texts :=
  Texts
    [ ("nav", Texts
      [ ("dashboard", Text "Dashboard");
        ("tenants", Text "Tenants & policies");
        ("feeds", Text "Feeds");
        ("dnsZones", Text "DNS Zones");
        ("analytics", Text "Analytics");
        ("queryLog", Text "Query log");
        ("auditLog", Text "Audit log");
        ("users", Text "Users");
        ("dnsUpstream", Text "DNS Upstream");
        ("dhcp", Text "DHCP");
        ("settings", Text "Settings") ]);
      ("auditLog", Texts
      [ ("title", Text "Audit log");
        ("filterPlaceholder", Text "All resource types");
        ("emptyTitle", Text "No audit entries yet. Every create/update/delete on tenants, groups, policies, and feeds gets logged here.");
        ("noMoreEntries", Text "No more entries.");
        ("columns", Texts
        [ ("time", Text "Time");
          ("actor", Text "Actor");
          ("action", Text "Action");
          ("resource", Text "Resource");
          ("detail", Text "Detail") ]);
        ("pagination", Texts
        [ ("previous", Text "Previous");
          ("next", Text "Next");
          ("page", Text "Page {{page}}") ]) ]);
      ("queryLog", Texts
      [ ("title", Text "Query log");
        ("searchPlaceholder", Text "Search domain…");
        ("searchLabel", Text "Search domain");
        ("empty", Text "No DNS events match the current filters.");
        ("decision", Texts
        [ ("all", Text "All");
          ("allowed", Text "Allowed");
          ("blocked", Text "Blocked") ]);
        ("hours", Texts
        [ ("1h", Text "1h");
          ("6h", Text "6h");
          ("24h", Text "24h");
          ("7d", Text "7d");
          ("all", Text "All") ]);
        ("columns", Texts
        [ ("time", Text "Time");
          ("client", Text "Client");
          ("group", Text "Group");
          ("domain", Text "Domain");
          ("type", Text "Type");
          ("decision", Text "Decision");
          ("category", Text "Category");
          ("latency", Text "Latency") ]);
        ("pagination", Texts
        [ ("previous", Text "Previous");
          ("next", Text "Next");
          ("page", Text "Page {{page}}") ]);
        ("filters", Texts
        [ ("clientIpPlaceholder", Text "Filter by client IP…");
          ("clientIpLabel", Text "Filter by client IP");
          ("qtypeLabel", Text "Query type");
          ("qtypeAll", Text "All types");
          ("categoryLabel", Text "Category");
          ("categoryAll", Text "All categories") ]) ]);
      ("common", Texts
      [ ("loading", Text "Loading…");
        ("toggleColorScheme", Text "Toggle color scheme");
        ("signOut", Text "Sign out") ]) ].

(** A key without a text stands for itself. *)
Definition default_t (key : string) (vars : list (string * string)) : string :=
  from_option (interpolate vars) key (lookup_key key en).

#[export] Instance default_i18n : I18n en | 10.
Proof. refine {| t := default_t |}. intros key vars s Hs. unfold default_t. by rewrite Hs. Defined.

(** The texts of keys of the table, by computation. *)
Ltac translate :=
  repeat match goal with
  | |- context [t ?k ?vars] =>
      let r := eval vm_compute in (lookup_key k en) in
      match r with Some ?s => rewrite (t_found (resources := en) k vars s eq_refl) end
  end.
