(* ===== verification/LogTables.v ===== *)
(** * What the query log and the audit log show

    The controls, the table and the paging of [pages/QueryLogPage.tsx] and
    [pages/AuditPage.tsx], with the texts of [Translations.v].  The queries and
    offsets are those of [Logs.v], the cells those of [Tables.v]. *)

From S2P Require Import Prelude JsText Json Web Format Hooks Queries Logs Effects Translations Tables.

(** ** Data *)

Record log_entry := LogEntry {
  le_id : string;
  le_occurred_at : string;
  le_client_ip : option string;
  le_client_name : option string;
  le_group_name : option string;
  le_group_id : string;
  le_qname : string;
  le_qtype : option string;
  le_decision : string;
  le_matched_category : option string;
  le_latency_us : option Z;
}.

Record audit_entry := AuditEntry {
  ae_id : string;
  ae_occurred_at : string;
  ae_actor : string;
  ae_action : string;
  ae_resource_type : string;
  ae_resource_id : string;
  ae_detail : string;
}.

Definition QTYPE_OPTIONS : list string := ["A"; "AAAA"; "CNAME"; "MX"; "TXT"; "NS"; "SRV"; "PTR"; "SOA"; "ANY"].
Definition DECISION_COLOR : list (string * string) := [("block", "red"); ("allow", "green")].
(** Label and value. *)
Definition HOURS_OPTIONS : list (string * string) :=
  [("1h", "1"); ("6h", "6"); ("24h", "24"); ("7d", "168"); ("All", "")].
Definition RESOURCE_TYPES : list string :=
  ["tenant"; "group"; "policy"; "feed"; "dns_zone"; "dns_record"; "user"].

(** ** Rows *)

Section rows.
(** [new Date(iso).toLocaleString()] *)
Variable toLocaleString : string → string.

(** The name of the client has its address as a tooltip. *)
Definition log_row (e : log_entry) : list cell :=
  [ Txt (toLocaleString (le_occurred_at e));
    Cells (Txt (default (default "—" (le_client_ip e)) (le_client_name e)) ::
           shown_if (truthy_opt (le_client_name e)) (Dim (default "—" (le_client_ip e))));
    Txt (default (String.substring 0 8 (le_group_id e)) (le_group_name e));
    Code (le_qname e);
    Dim (default "A" (le_qtype e));
    Badge (le_decision e) (default "gray" (Upstream.get_key (le_decision e) DECISION_COLOR));
    Dim (default "—" (le_matched_category e));
    Dim (formatLatency (le_latency_us e)) ].

Definition audit_row (e : audit_entry) : list cell :=
  [ Txt (toLocaleString (ae_occurred_at e)); Txt (ae_actor e); Badge (ae_action e) (colorFor (ae_action e));
    Txt (ae_resource_type e +:+ ":" +:+ String.substring 0 8 (ae_resource_id e)); Dim (ae_detail e) ].

(** ** Pages *)

(** What is on a page: the loader, an error, a card instead of a table, the table
    with its headings and its rows under their keys, and the line below: Previous,
    the page, Next, with whether the buttons are disabled. *)
Record log_view := LogView {
  lv_title : string;
  lv_loader : option string;
  lv_error : option string;
  lv_card : option string;
  lv_table : option (list string * list (string * list cell));
  lv_prev : string * bool;
  lv_page : string;
  lv_next : string * bool;
}.

Context `{!I18n en}.

(** [cond && x] *)
Definition when {A} (b : bool) (x : A) : option A := if b then Some x else None.

Definition query_log_view (isLoading : bool) (error : option string) (data : option (list log_entry))
    (offset : Z) : log_view :=
  LogView (t "queryLog.title" [])
    (when isLoading (t "common.loading" []))
    error
    (match data with Some [] => when (negb isLoading) (t "queryLog.empty" []) | _ => None end)
    (match data with
     | Some ((_ :: _) as l) =>
         Some ([ t "queryLog.columns.time" []; t "queryLog.columns.client" []; t "queryLog.columns.group" [];
                 t "queryLog.columns.domain" []; t "queryLog.columns.type" []; t "queryLog.columns.decision" [];
                 t "queryLog.columns.category" []; t "queryLog.columns.latency" [] ],
               (λ e, (le_id e, log_row e)) <$> l)
     | _ => None
     end)
    (t "queryLog.pagination.previous" [], negb (hasPrev offset) || isLoading)
    (t "queryLog.pagination.page" [("page", Z_str (page_number QUERY_LOG_PAGE_SIZE offset))])
    (t "queryLog.pagination.next" [], negb (hasNext QUERY_LOG_PAGE_SIZE data) || isLoading).

Definition audit_view (isLoading : bool) (error : option string) (data : option (list audit_entry))
    (p : audit_page) : log_view :=
  LogView (t "auditLog.title" [])
    (when isLoading (t "common.loading" []))
    error
    (match data with
     | Some [] =>
         if (audit_offset p =? 0)%Z then Some (t "auditLog.emptyTitle" [])
         else when (0 <? audit_offset p)%Z (t "auditLog.noMoreEntries" [])
     | _ => None
     end)
    (match data with
     | Some ((_ :: _) as l) =>
         Some ([ t "auditLog.columns.time" []; t "auditLog.columns.actor" []; t "auditLog.columns.action" [];
                 t "auditLog.columns.resource" []; t "auditLog.columns.detail" [] ],
               (λ e, (ae_id e, audit_row e)) <$> l)
     | _ => None
     end)
    (t "auditLog.pagination.previous" [], negb (hasPrev (audit_offset p)) || isLoading)
    (t "auditLog.pagination.page" [("page", Z_str (page_number AUDIT_PAGE_SIZE (audit_offset p)))])
    (t "auditLog.pagination.next" [], negb (hasNext AUDIT_PAGE_SIZE data) || isLoading).

(** The two segmented controls of the query log, label and value; the labels of its
    inputs; and the options of its selects with their values. *)
Definition decision_options : list (string * string) :=
  [ (t "queryLog.decision.all" [], ""); (t "queryLog.decision.allowed" [], "allow");
    (t "queryLog.decision.blocked" [], "block") ].

Definition log_labels : list (string * string) :=
  [ (t "queryLog.searchPlaceholder" [], t "queryLog.searchLabel" []);
    (t "queryLog.filters.clientIpPlaceholder" [], t "queryLog.filters.clientIpLabel" []);
    (t "queryLog.filters.qtypeAll" [], t "queryLog.filters.qtypeLabel" []);
    (t "queryLog.filters.categoryAll" [], t "queryLog.filters.categoryLabel" []) ].

(** [(categories ?? []).map(...)] and [filters.x || null] *)
Definition category_options (categories : option (list (string * string))) : list (string * string) :=
  default [] categories.
Definition select_value (k : string) (p : query_log) : option string := or_null (filter_value k p).
End rows.

(** ** Properties *)

(** What a reader makes of the label of a period: hours, days, or no limit. *)
Definition label_hours (label : string) : option Z :=
  let '(digits, unit) := take_digits label in
  match unit with
  | "h" => number_int digits
  | "d" => Z.mul 24 <$> number_int digits
  | _ => None
  end.

Lemma no_offset k : k ≠ "offset" → NoDup [k; "offset"].
Proof. intros Hk. apply NoDup_cons. split; [|apply NoDup_singleton]. by intros ?%list_elem_of_singleton. Qed.

(** A change of one of the controls, as its handler makes it. *)
Lemma control_sets k v d p :
  k ≠ "offset" → Params.get k defaults = Some d →
  filter_value k (set_filters [(k, Some v); ("offset", Some "0")] p) = v.
Proof. intros Hk Hd. apply (filter_value_same _ _ _ _ d); [done|by apply no_offset|by left]. Qed.

(** The controls of the query log ask for what they say: after a period was chosen
    the query asks for the hours its label names, or for all; after a decision, a
    type or a category was chosen, or a select cleared, the control shows that
    choice and the query asks for it, on the first page. *)
Theorem log_controls_ask (p : query_log) (label v : string) (o : option string) :
  o ≠ Some "" →
  ((label, v) ∈ HOURS_OPTIONS →
   log_hours (handleHoursChange v p) = label_hours label ∧ filter_value "hours" (handleHoursChange v p) = v) ∧
  filter_value "decision" (handleDecisionChange v p) = v ∧
  select_value "qtype" (handleQtypeChange o p) = o ∧ select_value "category" (handleCategoryChange o p) = o ∧
  (∀ a, a ∈ [SetDecision v; SetHours v; SetQtype o; SetCategory o] → log_offset (log_step p a) = Some 0%Z).
Proof.
  intros Ho. split_and!.
  - intros Hin. unfold log_hours, handleHoursChange.
    rewrite (control_sets "hours" v "24") by done. split; [|done]. revert Hin.
    unfold HOURS_OPTIONS. rewrite !elem_of_cons, elem_of_nil.
    intros [[= -> ->]|[[= -> ->]|[[= -> ->]|[[= -> ->]|[[= -> ->]|[]]]]]]; vm_compute; reflexivity.
  - by apply (control_sets "decision" v "").
  - unfold select_value, handleQtypeChange. rewrite (control_sets "qtype" _ "") by done.
    destruct o as [s|]; [|done]. unfold or_null. cbn. rewrite decide_False; congruence.
  - unfold select_value, handleCategoryChange. rewrite (control_sets "category" _ "") by done.
    destruct o as [s|]; [|done]. unfold or_null. cbn. rewrite decide_False; congruence.
  - intros a Ha. apply log_step_selects. rewrite !elem_of_cons, elem_of_nil in Ha. naive_solver.
Qed.

Section properties.
Variable toLocaleString : string → string.
Context `{!I18n en}.

Lemma page_text key n :
  lookup_key key en = Some "Page {{page}}" → t key [("page", n)] = "Page " +:+ n.
Proof. intros Hk. rewrite (t_found _ _ _ Hk). cbn. by rewrite sapp_nil_r. Qed.

(** What the logs show.  A page of the query log shows every entry the control
    plane returned, once, in its order, under the headings of the language file, or a
    card and no table when there is none; Previous and Next can be clicked exactly
    when there is a page before, or the page is full, and nothing is loading, and
    then they move by one page; the page number is that of the offset.  The audit
    log likewise, with a text of its own behind the last page. *)
Theorem log_pages_show (isLoading : bool) (error : option string) (data : option (list log_entry))
    (adata : option (list audit_entry)) (p : query_log) (o : Z) (a : audit_page) :
  log_offset p = Some o → (0 ≤ o)%Z → (0 ≤ audit_offset a)%Z →
  let v := query_log_view toLocaleString isLoading error data o in
  let w := audit_view toLocaleString isLoading error adata a in
  match data with
  | Some ((_ :: _) as l) =>
      lv_card v = None ∧
      ∃ rows, lv_table v =
          Some (["Time"; "Client"; "Group"; "Domain"; "Type"; "Decision"; "Category"; "Latency"], rows) ∧
        rows.*1 = le_id <$> l
  | Some [] => lv_table v = None ∧ (isLoading = false → lv_card v = Some "No DNS events match the current filters.")
  | None => lv_table v = None ∧ lv_card v = None
  end ∧
  match adata with
  | Some ((_ :: _) as l) =>
      lv_card w = None ∧
      ∃ rows, lv_table w = Some (["Time"; "Actor"; "Action"; "Resource"; "Detail"], rows) ∧ rows.*1 = ae_id <$> l
  | Some [] => lv_table w = None ∧ is_Some (lv_card w)
  | None => lv_table w = None ∧ lv_card w = None
  end ∧
  lv_page v = "Page " +:+ Z_str (o / 50 + 1) ∧ lv_page w = "Page " +:+ Z_str (audit_offset a / 50 + 1) ∧
  (lv_prev v).2 = bool_decide (o = 0%Z ∨ isLoading = true) ∧
  (lv_next v).2 = bool_decide (from_option length 0 data ≠ 50 ∨ isLoading = true) ∧
  ((lv_prev v).2 = false → log_offset (log_prev p) = Some (Z.max 0 (o - 50))) ∧
  ((lv_next v).2 = false → log_offset (log_next data p) = Some (o + 50)%Z) ∧
  ((lv_next w).2 = false → audit_next adata a = AuditPage (resourceType a) (audit_offset a + 50)%Z).
Proof.
  intros Ho Hp Ha v w. unfold v, w, query_log_view, audit_view.
  cbn [lv_card lv_table lv_page lv_prev lv_next lv_title fst snd].
  assert (∀ A (d : option (list A)), negb (hasNext 50 d) || isLoading =
    bool_decide (from_option length 0 d ≠ 50 ∨ isLoading = true)) as Hnext.
  { intros A d. unfold hasNext. destruct isLoading; [by rewrite orb_true_r, bool_decide_eq_true_2 by auto|].
    rewrite orb_false_r. destruct (Z.eqb_spec (Z.of_nat (from_option length 0 d)) 50);
      [rewrite bool_decide_eq_false_2|rewrite bool_decide_eq_true_2]; try done; [intros [?|?]; [lia|done]|left; lia]. }
  assert (∀ n, negb (hasPrev n) || isLoading = false → (0 < n)%Z) as Hprev.
  { intros n [H1 _]%orb_false_iff. unfold hasPrev in H1. lia. }
  split_and!.
  - destruct data as [[|e l]|]; [split; [done|]..|done].
    + intros ->. unfold when. cbn [negb]. translate. done.
    + translate. eexists. split; [reflexivity|]. by rewrite <- list_fmap_compose.
  - destruct adata as [[|e l]|]; [split; [done|]..|done].
    + destruct (Z.eqb_spec (audit_offset a) 0); [done|]. unfold when. by destruct (Z.ltb_spec 0 (audit_offset a)); [|lia].
    + translate. eexists. split; [reflexivity|]. by rewrite <- list_fmap_compose.
  - by rewrite page_text.
  - by rewrite page_text.
  - unfold hasPrev. destruct isLoading; [by rewrite orb_true_r, bool_decide_eq_true_2 by auto|].
    destruct (Z.ltb_spec 0 o); [rewrite bool_decide_eq_false_2|rewrite bool_decide_eq_true_2]; try done;
      [intros [?|?]; [lia|done]|left; lia].
  - apply Hnext.
  - intros Hd%Hprev. exact (log_prev_offset p o Ho Hp).
  - intros [Hn _]%orb_false_iff. unfold log_next. rewrite Ho. apply negb_false_iff in Hn.
    rewrite Hn, log_offset_set; [done|].
    unfold next_offset, QUERY_LOG_PAGE_SIZE. lia.
  - intros [Hn _]%orb_false_iff. unfold audit_next. apply negb_false_iff in Hn.
    by rewrite Hn.
Qed.
End properties.

(** ** Examples *)

Definition entry0 : log_entry :=
  LogEntry "e1" "2026-01-01T00:00:00Z" (Some "10.8.1.7") None None "0123456789ab" "ads.example.com" None "block"
    (Some "advertising") (Some 420%Z).

Lemma log_pages_show_witness :
  lv_page (query_log_view (λ s, s) false None (Some [entry0]) 100) = "Page 3" ∧
  (lv_next (query_log_view (λ s, s) false None (Some [entry0]) 100)).2 = true.
Proof.
  pose (p := QueryLog (UrlFilters.History [] [("offset", "100")]) "" "" "" "").
  destruct (log_pages_show (λ s, s) false None (Some [entry0]) None p 100 audit_init) as (_ & _ & H & _ & _ & Hn & _);
    [vm_compute; reflexivity|lia|cbn; lia|].
  split; [exact H|]. rewrite Hn. vm_compute. reflexivity.
Defined.

Lemma log_controls_ask_witness :
  log_hours (handleHoursChange "168" (log_mount (UrlFilters.History [] []))) = Some 168%Z.
Proof.
  destruct (log_controls_ask (log_mount (UrlFilters.History [] [])) "7d" "168" None) as ([H _] & _);
    [discriminate|by right; right; right; left|exact H].
Defined.
