(* ===== verification/Html.v ===== *)
(** * HTML text

    The escaping of [pages/BlockPageCard.tsx], and what a browser reads in the
    text it produces: a tokenizer for tags with quoted attributes and for text,
    after the tokenization rules of the HTML standard, with the character
    references that escaping introduces.  The tokenizer is the reference against
    which the generated page is judged. *)

From S2P Require Import Prelude JsText Json.

(** ** Escaping *)

(** [s.replace(/c/g, r)] for a one-character pattern. *)
Fixpoint replace_char (c : ascii) (r s : string) : string :=
  match s with
  | "" => ""
  | String a s' => (if Ascii.eqb a c then r else String a "") +:+ replace_char c r s'
  end.

Definition escapeHtml (s : string) : string :=
  replace_char "'" "&#39;"
    (replace_char c_quote "&quot;"
      (replace_char ">" "&gt;"
        (replace_char "<" "&lt;"
          (replace_char "&" "&amp;" s)))).

(** The escaping of one character. *)
Definition char_ref (c : ascii) : string :=
  if Ascii.eqb c "&" then "&amp;"
  else if Ascii.eqb c "<" then "&lt;"
  else if Ascii.eqb c ">" then "&gt;"
  else if Ascii.eqb c c_quote then "&quot;"
  else if Ascii.eqb c "'" then "&#39;"
  else String c "".

(** Escaping in one pass, the reference for the five replacements. *)
Fixpoint escape_once (s : string) : string :=
  match s with "" => "" | String c s' => char_ref c +:+ escape_once s' end.

Lemma replace_char_app c r s t : replace_char c r (s +:+ t) = replace_char c r s +:+ replace_char c r t.
Proof.
  induction s as [|a s IH]; [done|]. rewrite sapp_cons. cbn. by rewrite IH, sapp_assoc.
Qed.

Lemma escapeHtml_app s t : escapeHtml (s +:+ t) = escapeHtml s +:+ escapeHtml t.
Proof. unfold escapeHtml. by rewrite !replace_char_app. Qed.

Lemma escapeHtml_char c : escapeHtml (String c "") = char_ref c.
Proof.
  assert (∀ c, String.eqb (escapeHtml (String c "")) (char_ref c) = true) as H.
  { apply ascii_cases. vm_compute. reflexivity. }
  by apply String.eqb_eq.
Qed.

Lemma escapeHtml_once s : escapeHtml s = escape_once s.
Proof.
  induction s as [|c s IH]; [done|]. change (String c s) with (String c "" +:+ s) at 1.
  by rewrite escapeHtml_app, escapeHtml_char, IH.
Qed.

(** Escaped text has none of the characters that end a text or a quoted value. *)
Definition plain (c : ascii) : bool :=
  negb (Ascii.eqb c "<" || Ascii.eqb c ">" || Ascii.eqb c c_quote || Ascii.eqb c "'").

Lemma escape_plain s : sforall plain (escapeHtml s) = true.
Proof.
  rewrite escapeHtml_once. induction s as [|c s IH]; [done|]. cbn. rewrite sforall_app, IH, andb_true_r.
  revert c. apply ascii_cases. vm_compute. reflexivity.
Qed.

(** ** Character references *)

Definition references : list (string * ascii) :=
  [ ("amp;", "&"%char); ("lt;", "<"%char); ("gt;", ">"%char); ("quot;", c_quote); ("#39;", "'"%char) ].

(** The character of a reference at the head of the text, and the rest. *)
Fixpoint read_ref (table : list (string * ascii)) (s : string) : option (ascii * string) :=
  match table with
  | [] => None
  | (n, c) :: table' => match strip_prefix n s with
                        | Some r => Some (c, r)
                        | None => read_ref table' s
                        end
  end.

Fixpoint decode_refs (fuel : nat) (s : string) : string :=
  match fuel, s with
  | S n, String a r =>
      if Ascii.eqb a "&" then
        match read_ref references r with
        | Some (c, r') => String c (decode_refs n r')
        | None => String a (decode_refs n r)
        end
      else String a (decode_refs n r)
  | _, _ => ""
  end.

(** The text a browser shows for [s]; each step consumes a byte. *)
Definition decode (s : string) : string := decode_refs (String.length s) s.

Lemma decode_char_ref n c t :
  decode_refs (S n) (char_ref c +:+ t) = String c (decode_refs n t).
Proof.
  unfold char_ref.
  repeat match goal with |- context [if Ascii.eqb c ?d then _ else _] =>
    let E := fresh in destruct (Ascii.eqb_spec c d) as [E|E]; [subst c; reflexivity|] end.
  change (String c "" +:+ t) with (String c t). cbn [decode_refs].
  rewrite (proj2 (Ascii.eqb_neq c "&")) by done. done.
Qed.

(** A browser shows the text that was escaped. *)
Lemma decode_escape s : decode (escapeHtml s) = s.
Proof.
  rewrite escapeHtml_once. unfold decode.
  assert (∀ n, String.length s ≤ n → decode_refs n (escape_once s) = s) as H.
  { induction s as [|c s IH]; intros n Hn; [by destruct n|].
    destruct n as [|n]; [cbn in Hn; lia|]. cbn [escape_once]. rewrite decode_char_ref, IH; [done|].
    cbn in Hn. lia. }
  apply H. clear H. induction s as [|c s IH]; [done|]. cbn [escape_once String.length].
  rewrite slength_app. assert (0 < String.length (char_ref c)); [|lia].
  clear. unfold char_ref. repeat case_match; cbn; lia.
Qed.

(** ** Tokens *)

(** A tag, opening or closing, with its attributes, or text. *)
Inductive token := Tag (name : string) (attrs : list (string * string)) | TextOf (s : string).

Inductive mode :=
| Data (text : string)
| TagName (name : string)
| AttrName (name : string) (attrs : list (string * string)) (attr : string)
| BeforeValue (name : string) (attrs : list (string * string)) (attr : string)
| Value (q : ascii) (name : string) (attrs : list (string * string)) (attr v : string)
| Unquoted (name : string) (attrs : list (string * string)) (attr v : string).

Definition snoc (s : string) (c : ascii) : string := s +:+ String c "".

(** An attribute without a value has the empty one. *)
Definition add_attr (attrs : list (string * string)) (attr : string) : list (string * string) :=
  if truthy attr then attrs ++ [(attr, "")] else attrs.

(** The text before a tag, if any; tokens are kept in reverse. *)
Definition flush (text : string) (ts : list token) : list token :=
  if truthy text then TextOf (decode text) :: ts else ts.

Definition html_step (st : list token * mode) (c : ascii) : list token * mode :=
  let '(ts, m) := st in
  match m with
  | Data t => if Ascii.eqb c "<" then (flush t ts, TagName "") else (ts, Data (snoc t c))
  | TagName n =>
      if Ascii.eqb c " " then (ts, AttrName n [] "")
      else if Ascii.eqb c ">" then (Tag n [] :: ts, Data "")
      else (ts, TagName (snoc n c))
  | AttrName n l a =>
      if Ascii.eqb c "=" then (ts, BeforeValue n l a)
      else if Ascii.eqb c " " then (ts, AttrName n (add_attr l a) "")
      else if Ascii.eqb c ">" then (Tag n (add_attr l a) :: ts, Data "")
      else (ts, AttrName n l (snoc a c))
  | BeforeValue n l a =>
      if Ascii.eqb c c_quote || Ascii.eqb c "'" then (ts, Value c n l a "")
      else (ts, Unquoted n l a (String c ""))
  | Value q n l a v =>
      if Ascii.eqb c q then (ts, AttrName n (l ++ [(a, decode v)]) "")
      else (ts, Value q n l a (snoc v c))
  | Unquoted n l a v =>
      if Ascii.eqb c " " then (ts, AttrName n (l ++ [(a, decode v)]) "")
      else if Ascii.eqb c ">" then (Tag n (l ++ [(a, decode v)]) :: ts, Data "")
      else (ts, Unquoted n l a (snoc v c))
  end.

Fixpoint html_run (s : string) (st : list token * mode) : list token * mode :=
  match s with "" => st | String c s' => html_run s' (html_step st c) end.

(** The tokens of a text that ends outside of a tag. *)
Definition tokens (s : string) : option (list token) :=
  match html_run s ([], Data "") with
  | (ts, Data t) => Some (rev (flush t ts))
  | _ => None
  end.

Lemma html_run_app s t st : html_run (s +:+ t) st = html_run t (html_run s st).
Proof. revert st. induction s as [|c s IH]; intros st; [done|]. rewrite sapp_cons. cbn. apply IH. Qed.

(** Text without a tag stays text, and a value without its quote a value. *)
Lemma run_text s ts acc :
  sforall plain s = true → html_run s (ts, Data acc) = (ts, Data (acc +:+ s)).
Proof.
  revert acc. induction s as [|c s IH]; intros acc Hs; [by rewrite sapp_nil_r|].
  cbn in Hs. bools. cbn [html_run html_step].
  unfold plain in H. bools. rewrite H, IH by done. unfold snoc. by rewrite sapp_assoc.
Qed.

Lemma run_value s ts n l a v :
  sforall plain s = true →
  html_run s (ts, Value c_quote n l a v) = (ts, Value c_quote n l a (v +:+ s)).
Proof.
  revert v. induction s as [|c s IH]; intros v Hs; [by rewrite sapp_nil_r|].
  cbn in Hs. bools. cbn [html_run html_step].
  unfold plain in H. bools. replace (Ascii.eqb c c_quote) with false by done.
  rewrite IH by done. unfold snoc. by rewrite sapp_assoc.
Qed.

(** A fragment that starts and ends outside of tags is read as its tokens. *)
Definition reads (s : string) (l : list token) : Prop :=
  ∀ ts, html_run s (ts, Data "") = (rev l ++ ts, Data "").

Lemma reads_app s t l k : reads s l → reads t k → reads (s +:+ t) (l ++ k).
Proof.
  intros Hs Ht ts. rewrite html_run_app, Hs, Ht. rewrite rev_app_distr. by rewrite <- app_assoc.
Qed.

Lemma reads_nil : reads "" [].
Proof. done. Qed.

Lemma reads_tokens s l : reads s l → tokens s = Some l.
Proof.
  intros H. unfold tokens. rewrite H, app_nil_r. change (flush "" ?x) with x.
  by rewrite rev_involutive.
Qed.

(** An escaped text that is not empty, up to the next tag. *)
Lemma flush_escaped s ts : s ≠ "" → flush (escapeHtml s) ts = TextOf s :: ts.
Proof.
  intros Hs. unfold flush. rewrite decode_escape. unfold truthy. rewrite bool_decide_eq_true_2; [done|].
  intros E. apply Hs. by rewrite <- (decode_escape s), E.
Qed.
