(* ===== verification/BlockPage.v ===== *)
(** * The block page editor

    [pages/BlockPageCard.tsx]: the settings a group answers blocked names with,
    the HTML preview of its block page, the upload of a logo, and saving, which
    writes the template and then publishes the group's bundle. *)

From S2P Require Import Prelude JsText Json Client Errors Schema Queries Forms Effects Html.

(** ** Data *)

(** [BlockPageTemplateUpsert]; [undefined] and [null] are not told apart. *)
Record upsert := Upsert {
  block_mode : string;
  redirect_ipv4 : option string;
  redirect_ipv6 : option string;
  ttl_seconds : Z;
  title : option string;
  message : option string;
  logo_url : option string;
  brand_color : option string;
  contact_url : option string;
  show_domain : bool;
  show_category : bool;
}.

Definition MODE_OPTIONS : list string :=
  ["BLOCK_MODE_NXDOMAIN"; "BLOCK_MODE_ZERO_IP"; "BLOCK_MODE_REDIRECT"].

Definition DEFAULTS : upsert :=
  Upsert "BLOCK_MODE_NXDOMAIN" None None 30 None None None None None true true.

Definition upsert_body (f : upsert) : json :=
  JObj [ ("block_mode", JStr (block_mode f)); ("redirect_ipv4", str_json (redirect_ipv4 f));
         ("redirect_ipv6", str_json (redirect_ipv6 f)); ("ttl_seconds", JInt (ttl_seconds f));
         ("title", str_json (title f)); ("message", str_json (message f));
         ("logo_url", str_json (logo_url f)); ("brand_color", str_json (brand_color f));
         ("contact_url", str_json (contact_url f)); ("show_domain", JBool (show_domain f));
         ("show_category", JBool (show_category f)) ].

(** ** URLs and colors *)

Definition sanitizeHostedUrl (url : option string) : option string :=
  let trimmed := trim <$> url in
  match trimmed with
  | Some t => if truthy t then
                let lower := toLowerCase t in
                if startsWith lower "http://" || startsWith lower "https://" then Some t else None
              else None
  | None => None
  end.

(** [[A-Za-z0-9+/]] *)
Definition is_base64 (c : ascii) : bool :=
  is_lower c || is_upper c || is_digit c || Ascii.eqb c "+" || Ascii.eqb c "/".

(** [[A-Za-z0-9+/]*=*$] *)
Fixpoint base64_rest (s : string) : bool :=
  match s with
  | "" => true
  | String c r => if is_base64 c then base64_rest r else sforall (Ascii.eqb "=") s
  end.

(** [[A-Za-z0-9+/]+=*$] *)
Definition base64_text (s : string) : bool :=
  match s with "" => false | String c r => is_base64 c && base64_rest r end.

Definition image_types : list string := ["png"; "jpeg"; "gif"; "webp"; "svg+xml"].

(** [/^data:image\/(?:png|jpeg|gif|webp|svg\+xml);base64,[A-Za-z0-9+/]+=*$/i] *)
Definition isImageDataUri (url : string) : bool :=
  existsb (λ t, match strip_prefix ("data:image/" +:+ t +:+ ";base64,") (toLowerCase url) with
                | Some body => base64_text body
                | None => false
                end) image_types.

Definition sanitizeLogoUrl (url : option string) : option string :=
  match trim <$> url with
  | Some t => if truthy t then if isImageDataUri t then Some t else sanitizeHostedUrl (Some t) else None
  | None => None
  end.

(** [/^#(?:[0-9a-fA-F]{3}|[0-9a-fA-F]{6})$/] *)
Definition is_hex_color (s : string) : bool :=
  match s with
  | String c r => Ascii.eqb c "#" && sforall is_hex r &&
                  (bool_decide (String.length r = 3) || bool_decide (String.length r = 6))
  | "" => false
  end.

(** ** The preview *)

Definition preview_color (t : upsert) : string :=
  if is_hex_color (default "" (brand_color t)) then default "" (brand_color t) else "#c0392b".

(** [t.title || "Access blocked"], [t.message || ...] *)
Definition or_text (o : option string) (d : string) : string :=
  match o with Some s => if truthy s then s else d | None => d end.

Definition preview_title (t : upsert) : string := or_text (title t) "Access blocked".
Definition preview_message (t : upsert) : string :=
  or_text (message t) "This site has been blocked by your network's content policy.".

(** [name="v"] *)
Definition attribute (name v : string) : string := name +:+ "=" +:+ quoted v.

Definition logo_html (u : string) : string :=
  "<img " +:+ attribute "class" "logo" +:+ " " +:+ attribute "src" (escapeHtml u) +:+ " " +:+
  attribute "alt" "" +:+ ">".

Definition contact_html (u : string) : string :=
  "<p " +:+ attribute "class" "contact" +:+ "><a " +:+ attribute "href" (escapeHtml u) +:+
  ">Request access or contact your administrator</a></p>".

Definition body_html (t : upsert) : string :=
  from_option logo_html "" (sanitizeLogoUrl (logo_url t)) +:+
  "<h1>" +:+ escapeHtml (preview_title t) +:+ "</h1><p " +:+ attribute "class" "msg" +:+ ">" +:+
  escapeHtml (preview_message t) +:+ "</p>" +:+
  (if show_domain t
   then "<p " +:+ attribute "class" "domain" +:+ ">Requested site: <strong>ads.example.com</strong></p>"
   else "") +:+
  (if show_category t
   then "<p " +:+ attribute "class" "reason" +:+ ">Category: <strong>advertising</strong></p>"
   else "") +:+
  from_option contact_html "" (sanitizeHostedUrl (contact_url t)).

Definition style_1 : string := "
:root{color-scheme:light dark}
body{margin:0;min-height:100vh;display:flex;align-items:center;justify-content:center;
font-family:system-ui,-apple-system,Segoe UI,Roboto,sans-serif;background:#f4f4f5;color:#18181b}
.card{max-width:32rem;margin:1rem;padding:2.5rem;background:#fff;border-radius:12px;
box-shadow:0 10px 30px rgba(0,0,0,.08);border-top:6px solid ".
Definition style_2 : string := ";text-align:center}
.logo{max-height:56px;margin-bottom:1rem}
h1{margin:.25rem 0 1rem;font-size:1.5rem;color:".
Definition style_3 : string := "}
.msg{font-size:1.05rem;line-height:1.5}
.domain,.reason{margin:.5rem 0;color:#52525b;font-size:.95rem}
.contact{margin-top:1.5rem}.contact a{color:".
Definition style_4 : string := "}
".

Definition style_text (color : string) : string :=
  style_1 +:+ color +:+ style_2 +:+ color +:+ style_3 +:+ color +:+ style_4.

Definition previewHtml (t : upsert) : string :=
  "<!doctype html><html><head><meta " +:+ attribute "charset" "utf-8" +:+ "><style>" +:+
  style_text (preview_color t) +:+ "</style></head><body><main " +:+ attribute "class" "card" +:+ ">" +:+
  body_html t +:+ "</main></body></html>".

(** ** The card *)

Record card := Card {
  form : upsert;
  logoUploading : bool;
  (** The group whose bundle is to be published after a save. *)
  publishing : option string;
}.

Definition card_init : card := Card DEFAULTS false None.

(** The effect on [template]: the template of the group, once it has one. *)
Definition template_effect (template : option upsert) (s : card) : card :=
  Card (default DEFAULTS template) (logoUploading s) (publishing s).

Definition isRedirect (f : upsert) : bool := bool_decide (block_mode f = "BLOCK_MODE_REDIRECT").
Definition missingRedirectIp (f : upsert) : bool :=
  isRedirect f && negb (truthy_opt (redirect_ipv4 f)) && negb (truthy_opt (redirect_ipv6 f)).

(** The inputs.  The select gives one of its options, a cleared number input is
    no number. *)
Inductive edit :=
| SetMode (v : option string)
| SetIpv4 (v : string) | SetIpv6 (v : string) | SetTtl (v : num_value)
| SetTitle (v : string) | SetMessage (v : string) | SetLogoUrl (v : string) | RemoveLogo
| SetColor (v : string) | SetContact (v : string) | SetShowDomain (b : bool) | SetShowCategory (b : bool).

Definition set (e : edit) (f : upsert) : upsert :=
  let '(Upsert md i4 i6 ttl ti me lo co ct sd sc) := f in
  match e with
  | SetMode v => Upsert (match v with Some m => if truthy m then m else md | None => md end) i4 i6 ttl ti me lo co ct sd sc
  | SetIpv4 v => Upsert md (or_null v) i6 ttl ti me lo co ct sd sc
  | SetIpv6 v => Upsert md i4 (or_null v) ttl ti me lo co ct sd sc
  | SetTtl v => Upsert md i4 i6 (match v with Num n => n | _ => 30%Z end) ti me lo co ct sd sc
  | SetTitle v => Upsert md i4 i6 ttl (or_null v) me lo co ct sd sc
  | SetMessage v => Upsert md i4 i6 ttl ti (or_null v) lo co ct sd sc
  | SetLogoUrl v => Upsert md i4 i6 ttl ti me (or_null v) co ct sd sc
  | RemoveLogo => Upsert md i4 i6 ttl ti me None co ct sd sc
  | SetColor v => Upsert md i4 i6 ttl ti me lo (or_null v) ct sd sc
  | SetContact v => Upsert md i4 i6 ttl ti me lo co (or_null v) sd sc
  | SetShowDomain b => Upsert md i4 i6 ttl ti me lo co ct b sc
  | SetShowCategory b => Upsert md i4 i6 ttl ti me lo co ct sd b
  end.

Definition set_form (e : edit) (s : card) : card := Card (set e (form s)) (logoUploading s) (publishing s).

(** *** The logo *)

(** A chosen file: its MIME type and its bytes. *)
Record file := File { f_type : string; f_bytes : string }.
Definition f_size (f : file) : Z := Z.of_nat (String.length (f_bytes f)).

Definition LOGO_MAX_BYTES : Z := 200 * 1024.
(** [/^image\/(png|jpeg|gif|webp|svg\+xml)$/] *)
Definition LOGO_MIME_RE (t : string) : bool :=
  existsb (λ x, bool_decide (t = "image/" +:+ x)) image_types.

(** [uploadLogo(file)] up to the reading of the file, which is the last result. *)
Definition uploadLogo (f : option file) (s : card) : list note * card * option file :=
  match f with
  | None => ([], s, None)
  | Some f =>
      if negb (LOGO_MIME_RE (f_type f)) then
        ([red "Logo must be a PNG, JPEG, GIF, WEBP or SVG image"], s, None)
      else if (LOGO_MAX_BYTES <? f_size f)%Z then
        ([red ("Logo must be under " +:+ Z_str (math_round_div LOGO_MAX_BYTES 1024) +:+ "KB (got " +:+
               Z_str (math_round_div (f_size f) 1024) +:+ "KB)")], s, None)
      else ([], Card (form s) true (publishing s), Some f)
  end.

(** [set("logo_url", url)] *)
Definition with_logo (url : string) (f : upsert) : upsert :=
  let '(Upsert md i4 i6 ttl ti me _ co ct sd sc) := f in
  Upsert md i4 i6 ttl ti me (Some url) co ct sd sc.

(** The rest, when the file has been read or could not be: the logo is set in the
    form as it is by then. *)
Definition logo_read (r : exc string) (s : card) : list note * card :=
  match r with
  | Ok url => ([], Card (with_logo url (form s)) false (publishing s))
  | Throw e => ([red (formatError e)], Card (form s) false (publishing s))
  end.

(** Base64, as [readAsDataURL] encodes a file. *)
Definition base64_char (n : N) : ascii :=
  ascii_of_N (if n <? 26 then n + 65 else if n <? 52 then n + 71 else if n <? 62 then n - 4
              else if n =? 62 then 43 else 47)%N.

Fixpoint base64 (s : string) : string :=
  match s with
  | "" => ""
  | String a "" =>
      str_of_codes (code <$> [base64_char (code a / 4); base64_char (code a mod 4 * 16); "="%char; "="%char])
  | String a (String b "") =>
      str_of_codes (code <$> [base64_char (code a / 4); base64_char (code a mod 4 * 16 + code b / 16);
                              base64_char (code b mod 16 * 4); "="%char])
  | String a (String b (String c r)) =>
      str_of_codes (code <$> [base64_char (code a / 4); base64_char (code a mod 4 * 16 + code b / 16);
                              base64_char (code b mod 16 * 4 + code c / 64); base64_char (code c mod 64)])
      +:+ base64 r
  end%N.

(** [readFileAsDataUrl(file)] of a file that can be read. *)
Definition readFileAsDataUrl (f : file) : string :=
  "data:" +:+ f_type f +:+ ";base64," +:+ base64 (f_bytes f).

(** *** Saving *)

(** The button is there for an editor, and disabled while a redirect has no
    address. *)
Definition save_enabled (canEdit : bool) (s : card) : bool := canEdit && negb (missingRedirectIp (form s)).

(** [save()]: [if (!groupId) return;], then the upsert; its [onSuccess] publishes. *)
Definition save (groupId : option string) (s : card) : option (inflight card) :=
  match groupId with
  | Some g =>
      if truthy g
      then Some (mutate (useUpsertBlockPageTemplate groupId) (upsert_body (form s))
             (λ _ s, ([], Card (form s) (logoUploading s) (Some g))) show_error)
      else None
  | None => None
  end.

(** [compileBundle.mutate(groupId, ...)] *)
Definition publish (s : card) : option (inflight card) :=
  (λ g, mutate useCompileBundle g
          (λ _ s, ([green "Block page saved and published"], Card (form s) (logoUploading s) None))
          (λ e s, ([red ("Block page saved, but publishing the bundle failed: " +:+ formatError e)],
                   Card (form s) (logoUploading s) None))) <$> publishing s.

(** A click on Save with the two answers: the calls made and what is shown. *)
Definition save_run (groupId : option string) (canEdit : bool) (s : card) (saved published : exc (option json)) :
    list call * list note :=
  if save_enabled canEdit s then
    match save groupId s with
    | None => ([], [])
    | Some i =>
        let '(n1, s1) := f_settled i saved s in
        match publish s1 with
        | None => ([f_call i], n1)
        | Some j => ([f_call i; f_call j], n1 ++ (f_settled j published s1).1)
        end
    end
  else ([], []).

(** ** What the preview shows *)

(** The preview as a document: its tags are fixed, and the texts the administrator
    typed are text, or the value of [src] and [href]. *)
Definition document (t : upsert) : list token :=
  [ Tag "!doctype" [("html", "")]; Tag "html" []; Tag "head" []; Tag "meta" [("charset", "utf-8")];
    Tag "style" []; TextOf (style_text (preview_color t)); Tag "/style" []; Tag "/head" [];
    Tag "body" []; Tag "main" [("class", "card")] ] ++
  from_option (λ u, [Tag "img" [("class", "logo"); ("src", u); ("alt", "")]]) []
    (sanitizeLogoUrl (logo_url t)) ++
  [ Tag "h1" []; TextOf (preview_title t); Tag "/h1" []; Tag "p" [("class", "msg")];
    TextOf (preview_message t); Tag "/p" [] ] ++
  (if show_domain t
   then [ Tag "p" [("class", "domain")]; TextOf "Requested site: "; Tag "strong" [];
          TextOf "ads.example.com"; Tag "/strong" []; Tag "/p" [] ] else []) ++
  (if show_category t
   then [ Tag "p" [("class", "reason")]; TextOf "Category: "; Tag "strong" []; TextOf "advertising";
          Tag "/strong" []; Tag "/p" [] ] else []) ++
  from_option (λ u, [ Tag "p" [("class", "contact")]; Tag "a" [("href", u)];
                      TextOf "Request access or contact your administrator"; Tag "/a" []; Tag "/p" [] ]) []
    (sanitizeHostedUrl (contact_url t)) ++
  [ Tag "/main" []; Tag "/body" []; Tag "/html" [] ].

Lemma or_text_ne o d : d ≠ "" → or_text o d ≠ "".
Proof.
  intros Hd. unfold or_text, truthy. destruct o as [s|]; [|done]. by case_bool_decide.
Qed.

(** A fragment with an escaped value between two fixed texts, and one with an
    escaped text. *)
Lemma reads_value pre post u n l a before after :
  (∀ ts, html_run pre (ts, Data "") = (rev before ++ ts, Value c_quote n l a "")) →
  (∀ ts v, html_run post (ts, Value c_quote n l a v) = (rev (after (decode v)) ++ ts, Data "")) →
  reads (pre +:+ escapeHtml u +:+ post) (before ++ after u).
Proof.
  intros Hp Hq ts. rewrite !html_run_app, Hp, run_value by apply escape_plain.
  rewrite sapp_nil_l, Hq, decode_escape, rev_app_distr. by rewrite <- app_assoc.
Qed.

Lemma reads_text pre post r s before after :
  (∀ ts, html_run pre (ts, Data "") = (rev before ++ ts, Data "")) →
  (∀ ts x, html_run post (ts, Data x) = (rev after ++ flush x ts, Data "")) →
  sforall plain r = true → (∀ ts, flush r ts = TextOf s :: ts) →
  reads (pre +:+ r +:+ post) (before ++ TextOf s :: after).
Proof.
  intros Hp Hq Hr Hs ts. rewrite !html_run_app, Hp, run_text, sapp_nil_l, Hq, Hs by done.
  rewrite rev_app_distr. cbn [rev]. by rewrite <- !app_assoc.
Qed.

Lemma reads_escaped pre post s before after :
  (∀ ts, html_run pre (ts, Data "") = (rev before ++ ts, Data "")) →
  (∀ ts x, html_run post (ts, Data x) = (rev after ++ flush x ts, Data "")) →
  s ≠ "" → reads (pre +:+ escapeHtml s +:+ post) (before ++ TextOf s :: after).
Proof. intros. apply reads_text; auto using escape_plain, flush_escaped. Qed.

Lemma reads_logo u : reads (logo_html u) [Tag "img" [("class", "logo"); ("src", u); ("alt", "")]].
Proof.
  replace (logo_html u) with
    (("<img " +:+ attribute "class" "logo" +:+ " src=" +:+ String c_quote "") +:+ escapeHtml u +:+
     (String c_quote " " +:+ attribute "alt" "" +:+ ">"))
    by (unfold logo_html, attribute, quoted; autorewrite with mantis; reflexivity).
  apply (reads_value _ _ u "img" [("class", "logo")] "src" []
    (λ v, [Tag "img" [("class", "logo"); ("src", v); ("alt", "")]])); reflexivity.
Qed.

Lemma reads_contact u :
  reads (contact_html u)
    [ Tag "p" [("class", "contact")]; Tag "a" [("href", u)];
      TextOf "Request access or contact your administrator"; Tag "/a" []; Tag "/p" [] ].
Proof.
  replace (contact_html u) with
    (("<p " +:+ attribute "class" "contact" +:+ "><a href=" +:+ String c_quote "") +:+ escapeHtml u +:+
     (String c_quote ">Request access or contact your administrator</a></p>"))
    by (unfold contact_html, attribute, quoted; autorewrite with mantis; reflexivity).
  apply (reads_value _ _ u "a" [] "href" [Tag "p" [("class", "contact")]]
    (λ v, [Tag "a" [("href", v)]; TextOf "Request access or contact your administrator"; Tag "/a" []; Tag "/p" []]));
    reflexivity.
Qed.

Lemma reads_heading t :
  reads ("<h1>" +:+ escapeHtml (preview_title t) +:+ "</h1>")
    [Tag "h1" []; TextOf (preview_title t); Tag "/h1" []].
Proof.
  apply (reads_escaped _ _ _ [Tag "h1" []] [Tag "/h1" []]); [reflexivity..|]. by apply or_text_ne.
Qed.

Lemma reads_message t :
  reads (("<p " +:+ attribute "class" "msg" +:+ ">") +:+ escapeHtml (preview_message t) +:+ "</p>")
    [Tag "p" [("class", "msg")]; TextOf (preview_message t); Tag "/p" []].
Proof.
  apply (reads_escaped _ _ _ [Tag "p" [("class", "msg")]] [Tag "/p" []]); [reflexivity..|]. by apply or_text_ne.
Qed.

(** *** The style sheet *)

Lemma preview_color_hex t : is_hex_color (preview_color t) = true.
Proof. unfold preview_color. by destruct (is_hex_color (default "" (brand_color t))) eqn:E. Qed.

(** Neither a tag, a quote nor a character reference. *)
Definition inert (c : ascii) : bool := plain c && negb (Ascii.eqb c "&").

Lemma is_hex_inert c : is_hex c = true → inert c = true.
Proof.
  intros H. assert (implb (is_hex c) (inert c) = true) as Hi; [|by rewrite H in Hi].
  clear H. revert c. apply ascii_cases. vm_compute. reflexivity.
Qed.

Lemma color_inert t : sforall inert (preview_color t) = true.
Proof.
  pose proof (preview_color_hex t) as H. destruct (preview_color t) as [|c s]; [done|].
  cbn in H. bools. apply Ascii.eqb_eq in H as ->. cbn. by apply (sforall_impl is_hex inert), H1; apply is_hex_inert.
Qed.

Lemma style_inert t : sforall inert (style_text (preview_color t)) = true.
Proof.
  unfold style_text. rewrite !sforall_app, !color_inert. vm_compute. reflexivity.
Qed.

Lemma decode_inert s : sforall inert s = true → decode s = s.
Proof.
  unfold decode. induction s as [|c s IH]; [done|]. cbn. intros ?; bools. unfold inert in H. bools.
  rewrite H1. by rewrite IH.
Qed.

Lemma reads_style t :
  reads (("<!doctype html><html><head><meta " +:+ attribute "charset" "utf-8" +:+ "><style>") +:+
         style_text (preview_color t) +:+ "</style></head><body><main " +:+ attribute "class" "card" +:+ ">")
    [ Tag "!doctype" [("html", "")]; Tag "html" []; Tag "head" []; Tag "meta" [("charset", "utf-8")];
      Tag "style" []; TextOf (style_text (preview_color t)); Tag "/style" []; Tag "/head" [];
      Tag "body" []; Tag "main" [("class", "card")] ].
Proof.
  apply (reads_text _ _ _ _ [ Tag "!doctype" [("html", "")]; Tag "html" []; Tag "head" [];
    Tag "meta" [("charset", "utf-8")]; Tag "style" [] ]
    [ Tag "/style" []; Tag "/head" []; Tag "body" []; Tag "main" [("class", "card")] ]); [reflexivity..| |].
  - eapply sforall_impl; [|apply style_inert]. unfold inert. by intros c [? _]%andb_true_iff.
  - intros ts. unfold flush. by rewrite decode_inert by apply style_inert.
Qed.

(** *** The whole page *)

Lemma reads_option {A} (html : A → string) (toks : A → list token) (o : option A) :
  (∀ x, reads (html x) (toks x)) → reads (from_option html "" o) (from_option toks [] o).
Proof. intros H. destruct o; [apply H|apply reads_nil]. Qed.

Lemma reads_if (b : bool) s l : reads s l → reads (if b then s else "") (if b then l else []).
Proof. destruct b; [done|]. intros _. apply reads_nil. Qed.

Lemma preview_parts t :
  previewHtml t =
  (("<!doctype html><html><head><meta " +:+ attribute "charset" "utf-8" +:+ "><style>") +:+
   style_text (preview_color t) +:+ "</style></head><body><main " +:+ attribute "class" "card" +:+ ">") +:+
  from_option logo_html "" (sanitizeLogoUrl (logo_url t)) +:+
  (("<h1>" +:+ escapeHtml (preview_title t) +:+ "</h1>") +:+
   (("<p " +:+ attribute "class" "msg" +:+ ">") +:+ escapeHtml (preview_message t) +:+ "</p>")) +:+
  (if show_domain t
   then "<p " +:+ attribute "class" "domain" +:+ ">Requested site: <strong>ads.example.com</strong></p>"
   else "") +:+
  (if show_category t
   then "<p " +:+ attribute "class" "reason" +:+ ">Category: <strong>advertising</strong></p>"
   else "") +:+
  from_option contact_html "" (sanitizeHostedUrl (contact_url t)) +:+
  "</main></body></html>".
Proof.
  unfold previewHtml, body_html.
  generalize (style_text (preview_color t)) (from_option logo_html "" (sanitizeLogoUrl (logo_url t)))
    (escapeHtml (preview_title t)) (escapeHtml (preview_message t))
    (from_option contact_html "" (sanitizeHostedUrl (contact_url t))).
  intros st lo ti me co. destruct (show_domain t), (show_category t);
    unfold attribute, quoted; autorewrite with mantis; reflexivity.
Qed.

Lemma reads_preview t : reads (previewHtml t) (document t).
Proof.
  rewrite preview_parts. unfold document.
  apply reads_app; [apply reads_style|].
  apply reads_app; [apply reads_option, reads_logo|].
  apply reads_app; [exact (reads_app _ _ _ _ (reads_heading t) (reads_message t))|].
  apply reads_app; [apply reads_if; intros ts; reflexivity|].
  apply reads_app; [apply reads_if; intros ts; reflexivity|].
  apply reads_app; [apply reads_option, reads_contact|]. intros ts; reflexivity.
Qed.

(** A URL a browser follows over HTTP. *)
Definition http_url (u : string) : Prop :=
  (∃ r, toLowerCase u = "http://" +:+ r) ∨ (∃ r, toLowerCase u = "https://" +:+ r).

Lemma sanitizeHostedUrl_http o u : sanitizeHostedUrl o = Some u → http_url u.
Proof.
  unfold sanitizeHostedUrl. destruct o as [s|]; [cbn|done]. case_match; [|done].
  destruct (startsWith _ "http://") eqn:E1; cbn [orb].
  - intros [= <-]. left. by apply startsWith_true.
  - destruct (startsWith _ "https://") eqn:E2; [|done]. intros [= <-]. right. by apply startsWith_true.
Qed.

Lemma sanitizeLogoUrl_ok o u :
  sanitizeLogoUrl o = Some u → isImageDataUri u = true ∨ http_url u.
Proof.
  unfold sanitizeLogoUrl. destruct o as [s|]; [|done]. cbn [fmap option_fmap option_map].
  destruct (truthy (trim s)); [|done]. destruct (isImageDataUri (trim s)) eqn:E.
  - intros [= <-]. by left.
  - intros H. right. by eapply sanitizeHostedUrl_http.
Qed.

(** The tags of the page, and what the values of its attributes may be. *)
Definition page_tags : list string :=
  [ "!doctype"; "html"; "head"; "meta"; "style"; "/style"; "/head"; "body"; "main"; "img"; "h1"; "/h1";
    "p"; "/p"; "strong"; "/strong"; "a"; "/a"; "/main"; "/body"; "/html" ].

Definition attr_ok (kv : string * string) : Prop :=
  (kv.1 = "src" ∧ (isImageDataUri kv.2 = true ∨ http_url kv.2)) ∨ (kv.1 = "href" ∧ http_url kv.2) ∨
  kv ∈ [ ("html", ""); ("charset", "utf-8"); ("class", "card"); ("class", "logo"); ("alt", "");
         ("class", "msg"); ("class", "domain"); ("class", "reason"); ("class", "contact") ].

Definition token_ok (x : token) : Prop :=
  match x with Tag n l => n ∈ page_tags ∧ Forall attr_ok l | TextOf _ => True end.

Lemma fixed_tag n l : bool_decide (n ∈ page_tags) = true →
  forallb (λ kv, bool_decide (kv ∈ [ ("html", ""); ("charset", "utf-8"); ("class", "card"); ("class", "logo");
    ("alt", ""); ("class", "msg"); ("class", "domain"); ("class", "reason"); ("class", "contact") ])) l = true →
  token_ok (Tag n l).
Proof.
  intros ?%bool_decide_eq_true Hl. split; [done|]. apply Forall_forall. intros kv Hkv.
  right. right. apply list_elem_of_In in Hkv. apply (proj1 (List.forallb_forall _ _) Hl) in Hkv.
  by apply bool_decide_eq_true in Hkv.
Qed.

Ltac fixed_tokens :=
  repeat (apply Forall_cons; split; [first [exact I | by apply fixed_tag]|]); try apply Forall_nil_2.

Lemma document_ok t : Forall token_ok (document t).
Proof.
  unfold document. rewrite !Forall_app. split_and!; [fixed_tokens| |fixed_tokens|..|fixed_tokens].
  - destruct (sanitizeLogoUrl (logo_url t)) as [u|] eqn:E; cbn [from_option]; [|fixed_tokens].
    apply sanitizeLogoUrl_ok in E. apply Forall_cons. split; [|fixed_tokens].
    split; [apply (bool_decide_eq_true_1 _); reflexivity|]. rewrite !Forall_cons.
    split_and!; [|by left| |done]; (right; right; apply (bool_decide_eq_true_1 _); reflexivity).
  - destruct (show_domain t); fixed_tokens.
  - destruct (show_category t); fixed_tokens.
  - destruct (sanitizeHostedUrl (contact_url t)) as [u|] eqn:E; cbn [from_option]; [|fixed_tokens].
    apply sanitizeHostedUrl_http in E. apply Forall_cons. split; [by apply fixed_tag|].
    apply Forall_cons. split; [|fixed_tokens].
    split; [apply (bool_decide_eq_true_1 _); reflexivity|]. rewrite Forall_singleton. right. by left.
Qed.

(** C4: the preview is the document the settings describe, whatever the
    administrator typed.  A browser that reads the generated HTML finds exactly
    the tags of [document]: the title and the message come out as the texts that
    were typed, and no text, logo or contact URL adds a tag, ends an attribute or
    reaches the style sheet, whose color is a hexadecimal one.  Links lead to HTTP
    URLs and the logo is such a URL or an inline image. *)
Theorem preview_is_document (t : upsert) :
  tokens (previewHtml t) = Some (document t) ∧
  Forall token_ok (document t) ∧
  is_hex_color (preview_color t) = true ∧
  TextOf (preview_title t) ∈ document t ∧ TextOf (preview_message t) ∈ document t.
Proof.
  split_and!; [apply reads_tokens, reads_preview|apply document_ok|apply preview_color_hex|..];
    unfold document; rewrite !elem_of_app, !elem_of_cons; tauto.
Qed.

(** ** The logo *)

Lemma base64_char_ok n :
  (n < 64)%N →
  is_base64 (lower_char (base64_char n)) = true ∧ visible (base64_char n) = true.
Proof.
  intros Hn.
  assert (forallb (λ n, is_base64 (lower_char (base64_char (N.of_nat n))) && visible (base64_char (N.of_nat n)))
    (seq 0 64) = true) as H by (vm_compute; reflexivity).
  rewrite List.forallb_forall in H. specialize (H (N.to_nat n) ltac:(apply in_seq; lia)).
  rewrite N2Nat.id in H. by apply andb_true_iff in H.
Qed.

Lemma str_of_chars l : str_of_codes (code <$> l) = foldr String "" l.
Proof.
  induction l as [|c l IH]; [done|]. rewrite fmap_cons. unfold str_of_codes in *. cbn [foldr].
  rewrite IH. unfold code. by rewrite ascii_N_embedding.
Qed.

(** The six-bit groups of three bytes. *)
Lemma sextets a b c :
  (code a / 4 < 64 ∧ code a mod 4 * 16 < 64 ∧ code a mod 4 * 16 + code b / 16 < 64 ∧
   code b mod 16 * 4 < 64 ∧ code b mod 16 * 4 + code c / 64 < 64 ∧ code c mod 64 < 64)%N.
Proof.
  unfold code. pose proof (N_ascii_bounded a). pose proof (N_ascii_bounded b). pose proof (N_ascii_bounded c).
  split_and!; zify; Z.to_euclidean_division_equations; lia.
Qed.

Lemma string_ind3 (P : string → Prop) :
  P "" → (∀ a, P (String a "")) → (∀ a b, P (String a (String b ""))) →
  (∀ a b c r, P r → P (String a (String b (String c r)))) → ∀ s, P s.
Proof. intros H0 H1 H2 H3. fix IH 1. intros [|a [|b [|c r]]]; [exact H0|apply H1|apply H2|apply H3, IH]. Qed.

Lemma base64_spec s :
  base64_rest (toLowerCase (base64 s)) = true ∧ sforall visible (base64 s) = true ∧
  Z.of_nat (String.length (base64 s)) = (4 * ((Z.of_nat (String.length s) + 2) / 3))%Z ∧
  (s ≠ "" → ∃ n r, base64 s = String (base64_char n) r ∧ (n < 64)%N).
Proof.
  induction s as [|a|a b|a b c r IH] using string_ind3; [done|..]; cbn [base64]; rewrite str_of_chars;
    cbn [foldr]; rewrite ?sapp_cons, ?sapp_nil_l.
  - destruct (sextets a a a) as (H1 & H2 & _).
    destruct (base64_char_ok _ H1) as [L1 V1], (base64_char_ok _ H2) as [L2 V2].
    split_and!; [cbn [toLowerCase base64_rest]; by rewrite L1, L2|cbn [sforall]; by rewrite V1, V2|done|eauto].
  - destruct (sextets a b b) as (H1 & _ & H2 & H3 & _).
    destruct (base64_char_ok _ H1) as [L1 V1], (base64_char_ok _ H2) as [L2 V2], (base64_char_ok _ H3) as [L3 V3].
    split_and!; [cbn [toLowerCase base64_rest]; by rewrite L1, L2, L3|cbn [sforall]; by rewrite V1, V2, V3|done|eauto].
  - destruct (sextets a b c) as (H1 & _ & H2 & _ & H3 & H4).
    destruct (base64_char_ok _ H1) as [L1 V1], (base64_char_ok _ H2) as [L2 V2],
      (base64_char_ok _ H3) as [L3 V3], (base64_char_ok _ H4) as [L4 V4].
    destruct IH as (R1 & R2 & R3 & _).
    split_and!; [cbn [toLowerCase base64_rest]; by rewrite L1, L2, L3, L4|cbn [sforall]; by rewrite V1, V2, V3, V4| |eauto].
    cbn [String.length]. rewrite !Nat2Z.inj_succ, R3. clear. generalize (Z.of_nat (String.length r)). intros z.
    replace (Z.succ (Z.succ (Z.succ z)) + 2)%Z with (z + 2 + 1 * 3)%Z by lia.
    rewrite Z.div_add by lia. lia.
Qed.

Lemma image_type_cases t :
  LOGO_MIME_RE t = true → ∃ x, x ∈ image_types ∧ t = "image/" +:+ x.
Proof.
  unfold LOGO_MIME_RE. rewrite existsb_exists. intros (x & Hx & ->%bool_decide_eq_true).
  exists x. split; [by apply list_elem_of_In|done].
Qed.

Lemma strip_prefix_app p s : strip_prefix p (p +:+ s) = Some s.
Proof. by apply strip_prefix_Some. Qed.

(** A read file, as a data URI of one of the image types. *)
Lemma data_url_shape f :
  LOGO_MIME_RE (f_type f) = true →
  ∃ p, readFileAsDataUrl f = p +:+ base64 (f_bytes f) ∧ sforall visible p = true ∧
    toLowerCase p = p ∧ p ≠ "" ∧ String.length p ≤ 26 ∧
    ∃ x, x ∈ image_types ∧ p = "data:image/" +:+ x +:+ ";base64,".
Proof.
  intros (x & Hx & E)%image_type_cases. exists ("data:image/" +:+ x +:+ ";base64,").
  split; [unfold readFileAsDataUrl; rewrite E; by rewrite !sapp_assoc|].
  assert (x ∈ image_types) as Hx' by done. unfold image_types in Hx. set_unfold in Hx.
  destruct Hx as [->|[->|[->|[->|[->|[]]]]]]; split_and!; try done; try (cbn; lia); eauto.
Qed.

Lemma data_url_shown f :
  LOGO_MIME_RE (f_type f) = true →
  sanitizeLogoUrl (Some (readFileAsDataUrl f)) =
  (if decide (f_bytes f = "") then None else Some (readFileAsDataUrl f)).
Proof.
  intros Ht. destruct (data_url_shape f Ht) as (p & E & Hv & Hl & Hne & _ & x & Hx & Hp).
  destruct (base64_spec (f_bytes f)) as (B1 & B2 & _ & B4).
  unfold sanitizeLogoUrl. rewrite E. cbn [fmap option_fmap option_map].
  rewrite trim_visible by (rewrite sforall_app, Hv; done).
  assert (truthy (p +:+ base64 (f_bytes f)) = true) as ->.
  { apply bool_decide_eq_true_2. intros [? _]%sapp_eq_nil. done. }
  case_decide as Hb.
  - rewrite Hb. cbn [base64]. rewrite sapp_nil_r. clear -Hx Hp. unfold image_types in Hx. set_unfold in Hx.
    destruct Hx as [->|[->|[->|[->|[->|[]]]]]]; subst p; vm_compute; reflexivity.
  - assert (isImageDataUri (p +:+ base64 (f_bytes f)) = true) as ->; [|done].
    unfold isImageDataUri. apply existsb_exists. exists x. split; [by apply list_elem_of_In|].
    rewrite toLowerCase_app, Hl, Hp at 1. rewrite <- Hp, strip_prefix_app.
    destruct (B4 Hb) as (n & r & Er & Hn). rewrite Er in B1 |- *. cbn in B1 |- *.
    destruct (base64_char_ok n Hn) as [L _]. rewrite L in B1 |- *. done.
Qed.

Lemma data_url_length f :
  LOGO_MIME_RE (f_type f) = true → (f_size f ≤ LOGO_MAX_BYTES)%Z →
  (Z.of_nat (String.length (readFileAsDataUrl f)) ≤ 273094)%Z.
Proof.
  intros Ht Hs. destruct (data_url_shape f Ht) as (p & -> & _ & _ & _ & Hp & _).
  destruct (base64_spec (f_bytes f)) as (_ & _ & Hl & _).
  rewrite slength_app, Nat2Z.inj_add, Hl. unfold f_size, LOGO_MAX_BYTES in Hs.
  assert ((Z.of_nat (String.length (f_bytes f)) + 2) / 3 < 68268)%Z; [|lia].
  apply Z.div_lt_upper_bound; lia.
Qed.

Definition edit_all (es : list edit) (f : upsert) : upsert := foldl (λ f e, set e f) f es.

Lemma form_edits es s : form (foldl (λ s e, set_form e s) s es) = edit_all es (form s).
Proof. revert s. induction es as [|e es IH]; intros s; [done|]. cbn. by rewrite IH. Qed.

(** C33: uploading a logo.  A file of an accepted type and size is read, and what
    is put into the form when that is done is shown by the preview as it is: the
    data URI passes the sanitizing unchanged and has at most 273094 characters,
    below the 300000 the control plane stores; only an empty file gives a logo
    that is not shown.  Whatever is edited while the file is read is kept.  Any
    other file is refused with a message and leaves the form alone. *)
Theorem logo_upload (f : file) (s : card) (es : list edit) :
  (LOGO_MIME_RE (f_type f) = true → (f_size f ≤ LOGO_MAX_BYTES)%Z →
   let url := readFileAsDataUrl f in
   uploadLogo (Some f) s = ([], Card (form s) true (publishing s), Some f) ∧
   let s' := foldl (λ s e, set_form e s) (uploadLogo (Some f) s).1.2 es in
   logo_read (Ok url) s' = ([], Card (with_logo url (edit_all es (form s))) false (publishing s')) ∧
   sanitizeLogoUrl (logo_url (with_logo url (edit_all es (form s)))) =
     (if decide (f_bytes f = "") then None else Some url) ∧
   (Z.of_nat (String.length url) ≤ 273094)%Z) ∧
  (LOGO_MIME_RE (f_type f) = false ∨ (LOGO_MAX_BYTES < f_size f)%Z →
   ∃ m, uploadLogo (Some f) s = ([red m], s, None)).
Proof.
  split.
  - intros Ht Hs url. unfold uploadLogo. rewrite Ht. cbn [negb].
    replace (LOGO_MAX_BYTES <? f_size f)%Z with false by (symmetry; apply Z.ltb_ge; lia).
    split; [done|]. cbn zeta. cbn [fst snd]. split_and!.
    + unfold logo_read. by rewrite form_edits.
    + rewrite <- data_url_shown by done. unfold with_logo. by destruct (edit_all es (form s)).
    + by apply data_url_length.
  - unfold uploadLogo. intros [->|Hs]; [eexists; reflexivity|].
    destruct (LOGO_MIME_RE (f_type f)); cbn [negb]; [|eexists; reflexivity].
    apply Z.ltb_lt in Hs. rewrite Hs. eexists; reflexivity.
Qed.

(** ** Saving *)

Lemma lookup_BlockPageTemplateUpsert :
  lookup_schema "BlockPageTemplateUpsert" = Some (Obj
    [ Field "block_mode" false (TUnion [TLit "BLOCK_MODE_NXDOMAIN"; TLit "BLOCK_MODE_ZERO_IP"; TLit "BLOCK_MODE_REDIRECT"]);
      Field "redirect_ipv4" true (TUnion [TString; TNull]);
      Field "redirect_ipv6" true (TUnion [TString; TNull]);
      Field "ttl_seconds" false (TNumber);
      Field "title" true (TUnion [TString; TNull]);
      Field "message" true (TUnion [TString; TNull]);
      Field "logo_url" true (TUnion [TString; TNull]);
      Field "brand_color" true (TUnion [TString; TNull]);
      Field "contact_url" true (TUnion [TString; TNull]);
      Field "show_domain" false (TBool);
      Field "show_category" false (TBool) ]).
Proof. vm_compute. reflexivity. Qed.

Lemma upsert_conforms f :
  block_mode f ∈ MODE_OPTIONS → conforms (TRef "BlockPageTemplateUpsert") (upsert_body f) = true.
Proof.
  intros Hm. destruct f as [md i4 i6 ttl ti me lo co ct sd sc]. cbn [block_mode] in Hm.
  pose proof (conforms_lits 1 MODE_OPTIONS md Hm) as Hmd. unfold MODE_OPTIONS in Hmd.
  cbn [fmap list_fmap] in Hmd. revert Hmd.
  unfold conforms, upsert_body. cbn [block_mode]. generalize (JStr md). intros mj Hmd.
  pose proof (num_json_number 1 ttl) as Hn. cbn [num_json] in Hn. revert Hn. cbn [ttl_seconds].
  generalize (JInt ttl). intros nj Hn.
  rewrite (conforms_ref _ _ _ _ lookup_BlockPageTemplateUpsert). lazy -[conforms_at andb str_json].
  rewrite Hmd, Hn, !str_json_nullable. reflexivity.
Qed.

(** The mode is chosen among the options. *)
Definition edit_ok (e : edit) : Prop := match e with SetMode (Some m) => m ∈ MODE_OPTIONS | _ => True end.

Lemma edit_mode e f : edit_ok e → block_mode f ∈ MODE_OPTIONS → block_mode (set e f) ∈ MODE_OPTIONS.
Proof.
  destruct f, e as [[m|]| | | | | | | | | | |]; cbn; try done. by destruct (truthy m).
Qed.

Lemma edits_mode es f :
  Forall edit_ok es → block_mode f ∈ MODE_OPTIONS → block_mode (edit_all es f) ∈ MODE_OPTIONS.
Proof.
  intros He. revert f. induction He as [|e es Hx He IH]; intros f Hf; [done|]. cbn.
  by apply IH, edit_mode.
Qed.

(** The request that stores the form. *)
Definition put_template (g : string) (f : upsert) : call :=
  Typed PUT "/api/v1/groups/{group_id}/block-page-template" [("group_id", Some g)] [] (Some (upsert_body f)) unwrap.
Definition post_bundle (g : string) : call :=
  Typed POST "/api/v1/groups/{group_id}/bundle" [("group_id", Some g)] [] None unwrap.

(** C34: saving a block page.  The form starts as the group's template, or as the
    defaults when it has none; whatever is edited, what Save sends is a
    [BlockPageTemplateUpsert] of the API.  Save writes the template and, only when
    that succeeded, publishes the bundle of the same group; it says that both were
    done, that the template was saved but not published, or why it was not saved.
    A redirect without an address, a viewer or a missing group sends nothing. *)
Theorem save_then_publish (template : option upsert) (g : string) (canEdit : bool) (s0 : card)
    (es : list edit) (saved published : exc (option json)) :
  truthy g = true → Forall edit_ok es → publishing s0 = None →
  (∀ t, template = Some t → block_mode t ∈ MODE_OPTIONS) →
  let f := edit_all es (default DEFAULTS template) in
  let s := foldl (λ s e, set_form e s) (template_effect template s0) es in
  conforms (TRef "BlockPageTemplateUpsert") (upsert_body f) = true ∧
  save_run (Some g) canEdit s saved published =
    (if canEdit && negb (missingRedirectIp f) then
       match saved, published with
       | Throw e, _ => ([put_template g f], [red (formatError e)])
       | Ok _, Ok _ => ([put_template g f; post_bundle g], [green "Block page saved and published"])
       | Ok _, Throw e =>
           ([put_template g f; post_bundle g],
            [red ("Block page saved, but publishing the bundle failed: " +:+ formatError e)])
       end
     else ([], [])) ∧
  save_run None canEdit s saved published = ([], []).
Proof.
  intros Hg He Hp Ht f s.
  assert (form s = f) as Hf by (unfold s; by rewrite form_edits).
  assert (publishing s = None) as Hps.
  { unfold s. clear -Hp. assert (publishing (template_effect template s0) = None) as H by done.
    revert H. generalize (template_effect template s0). induction es as [|e es IH]; intros c Hc; [done|].
    cbn. by apply IH. }
  split_and!.
  - apply upsert_conforms, edits_mode; [done|]. destruct template as [t|]; [by apply Ht|].
    unfold MODE_OPTIONS. cbn. left.
  - unfold save_run, save_enabled. rewrite Hf. case_match; [|done]. unfold save. rewrite Hg, Hf. cbn [f_settled mutate f_call].
    destruct saved as [r|e]; cbn; [by destruct published|]. unfold publish. by rewrite Hps.
  - unfold save_run. by case_match.
Qed.

(** ** Examples *)

Definition template0 : upsert :=
  Upsert "BLOCK_MODE_REDIRECT" (Some "10.0.0.53") None 30 (Some "<script>evil()</script>") None None None
    (Some "javascript:alert(1)") true true.

Lemma logo_upload_witness :
  sanitizeLogoUrl (Some (readFileAsDataUrl (File "image/png" "abc"))) = Some "data:image/png;base64,YWJj".
Proof.
  exact (proj1 (proj2 (proj2 (proj1 (logo_upload (File "image/png" "abc") card_init []) eq_refl
    ltac:(vm_compute; discriminate))))).
Defined.

Lemma save_then_publish_witness :
  save_run (Some "g1") true (template_effect (Some template0) card_init) (Ok None) (Throw "503: down") =
  ([put_template "g1" template0; post_bundle "g1"],
   [red ("Block page saved, but publishing the bundle failed: " +:+ formatError "503: down")]).
Proof.
  exact (proj1 (proj2 (save_then_publish (Some template0) "g1" true card_init [] (Ok None) (Throw "503: down")
    eq_refl (Forall_nil_2 _) eq_refl
    ltac:(intros t [= <-]; apply (bool_decide_eq_true_1 _); vm_compute; reflexivity)))).
Defined.
