(* ===== verification/Feeds.v ===== *)
(** * Threat intelligence feeds

    [pages/FeedsPage.tsx]: the status and the figures of the feeds, the filters,
    the table grouped by category, the forms that add and edit feeds, the bulk
    form, and the actions on one feed and on the selected ones.  [Promise.allSettled]
    and the notifications are those of [Effects.v]. *)

From Stdlib Require Import Sorted.
From S2P Require Import Prelude JsText Json Client Errors Schema Queries Auth Format Locale Forms Effects Modal.

(** ** Data *)

(** [FeedOut] *)
Record feed := Feed {
  f_id : string;
  f_category_id : string;
  f_url : string;
  f_format : string;
  f_interval_seconds : Z;
  f_license : string;
  f_provider : string;
  f_from_catalog : bool;
  f_enabled : bool;
  f_last_domain_count : option Z;
  f_last_fetched_at : option string;
}.

(** [Category], with the fields the page reads. *)
Record category := Category { c_id : string; c_label : string; c_color : string }.

(** [new Map(registry.map((c) => [c.id, c])).get(id)]: the last of two. *)
Definition categoryById (registry : list category) (id : string) : option category :=
  List.find (λ c, bool_decide (c_id c = id)) (rev registry).

Definition categoryLabel (id : string) (registry : list category) : string :=
  match categoryById registry id with Some c => c_label c | None => capitalize id end.
Definition categoryColor (id : string) (registry : list category) : string :=
  match categoryById registry id with Some c => c_color c | None => "gray" end.

(** ** Status *)

(** [Date.now()] is [now]; [new Date(iso)] reads a timestamp without a zone in the
    zone of the browser ([Format.date_parse]).  Both sides of the comparison of
    ages are one real number each, rounded once, so they compare as these do. *)
Definition feedStatus (local : Z → Z) (now : Z) (f : feed) : string * string :=
  if negb (f_enabled f) then ("Disabled", "gray")
  else match f_last_domain_count f with
  | None => ("Pending", "yellow")
  | Some n =>
      if (n =? 0)%Z then ("Empty", "orange")
      else
        let stale :=
          match f_last_fetched_at f with
          | Some iso =>
              if truthy iso then
                match date_parse local iso with
                | Some t => (2 * 1000 * f_interval_seconds f <? now - t)%Z
                | None => false
                end
              else false
          | None => false
          end in
        if stale then ("Stale", "orange") else ("Active", "green")
  end.

(** ** Figures *)

Definition domain_count (f : feed) : Z := default 0%Z (f_last_domain_count f).

Definition totalDomains (feeds : list feed) : Z := foldl (λ s f, s + domain_count f)%Z 0%Z feeds.
Definition activeFeeds (feeds : list feed) : list feed :=
  List.filter (λ f, f_enabled f && (0 <? domain_count f)%Z) feeds.
Definition catalogFeeds (feeds : list feed) : list feed := List.filter f_from_catalog feeds.

(** A [Set] is the list of its elements in the order of their insertion:
    [s.add(x)], [s.delete(x)], [new Set(l)]. *)
Definition set_add (x : string) (s : list string) : list string := if decide (x ∈ s) then s else s ++ [x].
Definition set_delete (x : string) (s : list string) : list string := filter (λ y, y ≠ x) s.
Definition js_set (l : list string) : list string := foldl (λ s x, set_add x s) [] l.

(** [Array.prototype.sort] without a comparison goes by code units. *)
Definition sort_ids : list string → list string := sort code_unit_compare id.

Definition categories (feeds : list feed) : list string := sort_ids (js_set (f_category_id <$> feeds)).

(** The ids of [present] in the order of the registry, the others after them. *)
Definition orderedIds (registry : list category) (present : list string) : list string :=
  let registryIds := c_id <$> registry in
  filter (λ x, x ∈ present) registryIds ++ sort_ids (filter (λ x, x ∉ registryIds) present).

(** The feeds of a category. *)
Definition of_category (id : string) (feeds : list feed) : list feed :=
  filter (λ f, f_category_id f = id) feeds.

Definition categoryChips (registry : list category) (feeds : list feed) : list (string * nat) :=
  (λ id, (id, length (of_category id feeds))) <$>
    orderedIds registry (js_set (f_category_id <$> feeds)).

(** ** The table *)

Record feed_filters := FeedFilters { ff_search : string; ff_category : string; ff_status : string }.

(** The predicate of [visible].  The id is not lower-cased, the search text is. *)
Definition feed_matches (v : feed_filters) (f : feed) : bool :=
  let q := toLowerCase (ff_search v) in
  if truthy (ff_search v) && negb (includes (f_id f) q) &&
     negb (includes (toLowerCase (f_provider f)) q) && negb (includes (toLowerCase (f_url f)) q)
  then false
  else if truthy (ff_category v) && bool_decide (f_category_id f ≠ ff_category v) then false
  else if bool_decide (ff_status v = "active") && negb (f_enabled f) then false
  else if bool_decide (ff_status v = "disabled") && f_enabled f then false
  else true.

Section table.
Variable localeCompare : string → string → Z.

Definition visible_feeds (v : feed_filters) (feeds : list feed) : list feed :=
  List.filter (feed_matches v) (sort localeCompare f_id feeds).
End table.

(** [byCategory], a map in the order in which its keys were set: a feed is pushed
    to the list of its category, or starts one. *)
Fixpoint push_feed (f : feed) (m : list (string * list feed)) : list (string * list feed) :=
  match m with
  | [] => [(f_category_id f, [f])]
  | (k, l) :: m' => if decide (k = f_category_id f) then (k, l ++ [f]) :: m' else (k, l) :: push_feed f m'
  end.

Definition byCategory (visible : list feed) : list (string * list feed) :=
  foldl (λ m f, push_feed f m) [] visible.

Definition map_get {A} (k : string) (m : list (string * A)) : option A :=
  snd <$> List.find (λ kv, bool_decide (kv.1 = k)) m.

Definition groupedRows (registry : list category) (visible : list feed) : list (string * list feed) :=
  let m := byCategory visible in
  (λ id, (id, default [] (map_get id m))) <$> orderedIds registry m.*1.

(** ** Adding feeds *)

Definition FORMAT_OPTIONS : list string := ["hostfile"; "domain-list"].

Record add_form := AddForm {
  af_id : string;
  af_category_id : string;
  af_url : string;
  af_format : option string;
  af_interval_seconds : num_value;
  af_provider : string;
  af_license : string;
}.

Definition add_initial : add_form := AddForm "" "" "" (Some "domain-list") (Num 86400) "" "".

Section add.
(** Whether [new URL(v)] does not throw. *)
Variable validURL : string → bool.

Definition add_validate (v : add_form) : list (option string) :=
  [ err (bool_decide (js_length (trim (af_id v)) < 2)) "Required — must be unique";
    err (bool_decide (js_length (trim (af_category_id v)) < 2)) "Required";
    err (negb (validURL (af_url v))) "Must be a valid URL" ].
End add.

(** The body of a new feed; the fields of the two forms that add feeds. *)
Definition feed_body (id category url : string) (format : option string) (interval : num_value)
    (provider license : string) : json :=
  JObj [ ("id", JStr id); ("category_id", JStr category); ("url", JStr url); ("format", str_json format);
         ("interval_seconds", num_json interval); ("provider", JStr provider); ("license", JStr license);
         ("enabled", JBool true) ].

Definition add_body (v : add_form) : json :=
  feed_body (af_id v) (af_category_id v) (af_url v) (af_format v) (af_interval_seconds v)
    (af_provider v) (af_license v).

(** The modal keeps its form mounted; [handleClose] resets it. *)
Definition add_handleClose : kept add_form → kept add_form := kept_close add_initial.

Definition add_send (v : add_form) : inflight (kept add_form) :=
  send_and useCreateFeed (add_body v) ("Feed " +:+ quoted (af_id v) +:+ " added") add_handleClose.

Definition add_submit (validURL : string → bool) : kept add_form → option (inflight (kept add_form)) :=
  kept_submit (add_validate validURL) add_send.

(** *** Several at once *)

Record entry := FeedEntry { e_id : string; e_url : string }.

(** One line: [const [id, url] = line.split(",").map((s) => s.trim())]. *)
Definition parse_line (line : string) : entry :=
  match trim <$> split_on "," line with
  | id :: url :: _ => FeedEntry id url
  | [id] => FeedEntry id ""
  | [] => FeedEntry "" ""
  end.

(** The line separator. *)
Definition c_newline : ascii := "010".

Definition parseBulkLines (text : string) : list entry :=
  parse_line <$> List.filter truthy (trim <$> split_on c_newline text).

Record bulk_form := BulkForm {
  bf_category_id : string;
  bf_format : option string;
  bf_interval_seconds : num_value;
  bf_provider : string;
  bf_license : string;
  bf_lines : string;
}.

Definition bulk_initial : bulk_form := BulkForm "" (Some "domain-list") (Num 86400) "" "" "".

Definition incomplete (e : entry) : bool := negb (truthy (e_id e)) || negb (truthy (e_url e)).

Definition validate_lines (text : string) : option string :=
  let entries := parseBulkLines text in
  if decide (entries = []) then Some "Enter at least one feed"
  else let invalid := List.filter incomplete entries in
  if decide (invalid = []) then None
  else Some (Z_str (Z.of_nat (length invalid)) +:+ " line(s) missing " +:+ quoted "id,url" +:+
             " — one feed per line").

Definition bulk_validate (v : bulk_form) : list (option string) :=
  [ err (bool_decide (js_length (trim (bf_category_id v)) < 2)) "Required"; validate_lines (bf_lines v) ].

(** Requests sent together, and what is done when all have settled. *)
Record bulk (S : Type) := Bulk {
  b_calls : list call;
  b_settled : list (exc (option json)) → S → list note * S;
}.
Arguments Bulk {S}.
Arguments b_calls {S}.
Arguments b_settled {S}.

(** The state of the modal: whether it is open, and whether it is submitting. *)
Record bulk_modal := BulkModal { bm_opened : bool; bm_submitting : bool; bm_values : bulk_form }.

Definition bulk_close (m : bulk_modal) : bulk_modal := BulkModal false (bm_submitting m) bulk_initial.

(** [handleSubmit(values)] *)
Definition bulk_handleSubmit (v : bulk_form) : bulk bulk_modal :=
  Bulk
    ((λ e, mutationFn useCreateFeed
             (feed_body (e_id e) (bf_category_id v) (e_url e) (bf_format v) (bf_interval_seconds v)
                (bf_provider v) (bf_license v))) <$> parseBulkLines (bf_lines v))
    (λ results m,
       let m := BulkModal (bm_opened m) false (bm_values m) in
       ([bulk_note "added" " (duplicate ID or bad URL?)" results],
        if decide (failed_count results = 0) then bulk_close m else m)).

Definition bulk_submit : bulk_form → option (bulk bulk_modal) := onSubmit bulk_validate bulk_handleSubmit.

(** ** Editing a feed *)

Record edit_form := EditForm {
  ef_url : string;
  ef_category_id : string;
  ef_format : option string;
  ef_interval_seconds : num_value;
  ef_provider : string;
  ef_license : string;
}.

Definition edit_initial (f : option feed) : edit_form :=
  EditForm (from_option f_url "" f) (from_option f_category_id "" f)
    (Some (from_option f_format "domain-list" f)) (Num (from_option f_interval_seconds 86400%Z f))
    (from_option f_provider "" f) (from_option f_license "" f).

Definition edit_body (v : edit_form) : json :=
  JObj [ ("url", JStr (ef_url v)); ("category_id", JStr (ef_category_id v)); ("format", str_json (ef_format v));
         ("interval_seconds", num_json (ef_interval_seconds v)); ("provider", JStr (ef_provider v));
         ("license", JStr (ef_license v)) ].

(** [editFeed] and the form of its modal.  The modal is keyed by the feed, so the
    form mounts when a feed is chosen; [handleClose] sets [editFeed] to null. *)
Definition edit_modal : Type := modal feed edit_form.

Definition setEditFeed : feed → edit_modal → edit_modal := modal_open (λ f, edit_initial (Some f)).
Definition edit_handleClose : edit_modal → edit_modal := modal_close.

Definition edit_send (f : feed) (v : edit_form) : inflight edit_modal :=
  send_and useUpdateFeed (f_id f, edit_body v) ("Feed " +:+ quoted (f_id f) +:+ " updated") edit_handleClose.

Definition edit_submit : edit_modal → option (inflight edit_modal) := modal_submit (λ _, []) edit_send.

(** The inputs that a catalog feed disables: the URL and the format. *)
Definition edit_disabled (f : feed) : bool := f_from_catalog f.

(** ** The page *)

(** The selection, the feed being synced alone and those synced together. *)
Record feeds_page := FeedsPage {
  selected : list string;
  syncingId : option string;
  syncingIds : list string;
}.

Definition page_init : feeds_page := FeedsPage [] None [].

Definition with_selected (s : list string) (p : feeds_page) : feeds_page :=
  FeedsPage s (syncingId p) (syncingIds p).

Definition toggleSelected (x : string) (p : feeds_page) : feeds_page :=
  with_selected (if decide (x ∈ selected p) then set_delete x (selected p) else set_add x (selected p)) p.

Definition setGroupSelected (ids : list string) (select : bool) (p : feeds_page) : feeds_page :=
  with_selected (foldl (λ s x, if select then set_add x s else set_delete x s) (selected p) ids) p.

Definition clear_selection (p : feeds_page) : feeds_page := with_selected [] p.

(** The checkbox of a group of rows: checked, indeterminate, and a click on it. *)
Definition all_selected (ids : list string) (p : feeds_page) : bool :=
  negb (bool_decide (ids = [])) && forallb (λ x, bool_decide (x ∈ selected p)) ids.
Definition some_selected (ids : list string) (p : feeds_page) : bool :=
  existsb (λ x, bool_decide (x ∈ selected p)) ids.
Definition indeterminate (ids : list string) (p : feeds_page) : bool :=
  some_selected ids p && negb (all_selected ids p).
Definition click_group (ids : list string) (p : feeds_page) : feeds_page :=
  setGroupSelected ids (negb (all_selected ids p)) p.

(** [toggleEnabled(feed)] *)
Definition toggleEnabled (f : feed) : inflight feeds_page :=
  mutate useUpdateFeed (f_id f, JObj [("enabled", JBool (negb (f_enabled f)))]) quietly show_error.

Section actions.
(** [n.toLocaleString()] *)
Variable toLocaleString : Z → string.

Definition fmtDomains (n : option Z) : string := from_option toLocaleString "—" n.

(** The number of an answer, for [fmtDomains(r.domain_count)]. *)
Definition answer_count (r : option json) : option Z :=
  match member "domain_count" r with Some (JNum m e) => Some (m * 10 ^ e)%Z | _ => None end.

Definition ingest_note (f : feed) (r : option json) : note :=
  let status := member_text "status" r in
  Note None (f_id f +:+ ": " +:+ status +:+ " · " +:+ fmtDomains (answer_count r) +:+ " domains" +:+
             (if truthy_json (member "reason" r) then " — " +:+ member_text "reason" r else ""))
    (if decide (status = "rejected" ∨ status = "error") then "yellow" else "green").

(** [ingest(feed)]: the page while the request runs, and the request. *)
Definition ingest (f : feed) (p : feeds_page) : feeds_page * inflight feeds_page :=
  let settled (p : feeds_page) := FeedsPage (selected p) None (syncingIds p) in
  (FeedsPage (selected p) (Some (f_id f)) (syncingIds p),
   mutate useIngestFeedNow (f_id f) (λ r p, ([ingest_note f r], settled p))
     (λ e p, ([red (formatError e)], settled p))).
End actions.

(** [confirmDelete(feed)], confirmed. *)
Definition delete_feed (f : feed) : inflight feeds_page :=
  mutate_report useDeleteFeed (f_id f) ("Feed " +:+ quoted (f_id f) +:+ " deleted").

(** [bulkSetEnabled(enabled)] *)
Definition bulkSetEnabled (enabled : bool) (p : feeds_page) : bulk feeds_page :=
  Bulk ((λ x, mutationFn useUpdateFeed (x, JObj [("enabled", JBool enabled)])) <$> selected p)
    (λ results p, ([bulk_note (if enabled then "enabled" else "disabled") "" results], clear_selection p)).

(** The selected feeds that [bulkSync] asks for. *)
Definition to_sync (feeds : list feed) (p : feeds_page) : list string :=
  List.filter (λ x, from_option f_enabled false (List.find (λ f, bool_decide (f_id f = x)) feeds)) (selected p).

(** [bulkSync()]: what it shows at once, the page meanwhile, and the requests. *)
Definition bulkSync (feeds : list feed) (p : feeds_page) : list note * feeds_page * option (bulk feeds_page) :=
  let ids := to_sync feeds p in
  if decide (ids = []) then ([yellow "No enabled feeds selected"], p, None)
  else ([], FeedsPage (selected p) (syncingId p) ids,
        Some (Bulk ((λ x, mutationFn useIngestFeedNow x) <$> ids)
          (λ results p, ([bulk_note "synced" "" results], FeedsPage (selected p) (syncingId p) [])))).

(** [bulkDelete()], confirmed. *)
Definition bulkDelete (p : feeds_page) : bulk feeds_page :=
  Bulk ((λ x, mutationFn useDeleteFeed x) <$> selected p)
    (λ results p, ([bulk_note "deleted" "" results], clear_selection p)).

(** ** The table on screen *)

(** [bulkSync] and the others are reached from a bar that is there while feeds are
    selected.  A row: its checkbox, the status, the texts, the switch with whether
    it is disabled, and the buttons (Sync with its two flags, Edit, Delete). *)
Record feed_row := FeedRow {
  fr_id : string;
  fr_checkbox : option bool;
  fr_status : string * string;
  fr_texts : list string;
  fr_domains : string;
  fr_synced : string;
  fr_switch : bool * bool;
  fr_sync : option (bool * bool);
  fr_buttons : list string;
}.

(** A divider: checkbox (checked, indeterminate), label, colour, feeds, domains. *)
Record feed_group := FeedGroup {
  fg_id : string;
  fg_checkbox : option (bool * bool);
  fg_label : string;
  fg_color : string;
  fg_count : string;
  fg_domains : string;
  fg_rows : list feed_row;
}.

Record feeds_view := FeedsView {
  fv_add_buttons : bool;
  fv_bar : option string;
  fv_checkbox : option (bool * bool);
  fv_empty : bool;
  fv_groups : list feed_group;
  fv_footer : option string;
}.

Section view.
Variables (toLocaleString : Z → string) (local : Z → Z) (now : Z).
(** [hasRole("admin")] and the state of the page. *)
Variables (canWrite : bool) (p : feeds_page).

Definition only {A} (a : A) : option A := if canWrite then Some a else None.

Definition row_view (f : feed) : feed_row :=
  FeedRow (f_id f) (only (bool_decide (f_id f ∈ selected p))) (feedStatus local now f)
    ([f_format f] ++ (if f_from_catalog f then ["catalog"] else []) ++
     (if truthy (f_provider f) then [f_provider f] else []) ++ ["· " +:+ formatDuration (f_interval_seconds f)])
    (fmtDomains toLocaleString (f_last_domain_count f))
    (formatRelativeTime local now (f_last_fetched_at f))
    (f_enabled f, negb canWrite)
    (only (bool_decide (syncingId p = Some (f_id f)) || bool_decide (f_id f ∈ syncingIds p),
           negb (f_enabled f)))
    (if canWrite then ["Sync now"; "Edit"; "Delete"] else []).

Definition feeds_count (n : nat) : string := Z_str (Z.of_nat n) +:+ " feed" +:+ plural n.

Definition group_view (registry : list category) (g : string * list feed) : feed_group :=
  let catIds := f_id <$> g.2 in
  FeedGroup g.1 (only (all_selected catIds p, indeterminate catIds p))
    (categoryLabel g.1 registry) (categoryColor g.1 registry) (feeds_count (length g.2))
    (toLocaleString (totalDomains g.2) +:+ " domains") (row_view <$> g.2).

Definition page_view (registry : list category) (feeds visible : list feed) : feeds_view :=
  FeedsView canWrite
    (if canWrite && negb (bool_decide (selected p = []))
     then Some (feeds_count (length (selected p)) +:+ " selected") else None)
    (only (all_selected (f_id <$> visible) p, indeterminate (f_id <$> visible) p))
    (bool_decide (visible = []))
    (group_view registry <$> groupedRows registry visible)
    (if decide (visible = []) then None
     else Some (Z_str (Z.of_nat (length visible)) +:+ " of " +:+ Z_str (Z.of_nat (length feeds)) +:+ " feeds")).
End view.

(** A click on a category chip: filter by it, or clear the filter. *)
Definition click_chip (id : string) (v : feed_filters) : feed_filters :=
  FeedFilters (ff_search v) (if decide (ff_category v = id) then "" else id) (ff_status v).

(** ** Sets and groups *)

Lemma elem_of_set_add x y s : x ∈ set_add y s ↔ x = y ∨ x ∈ s.
Proof. unfold set_add. case_decide; [naive_solver|]. rewrite elem_of_app, list_elem_of_singleton. tauto. Qed.

Lemma elem_of_set_delete x y s : x ∈ set_delete y s ↔ x ≠ y ∧ x ∈ s.
Proof. unfold set_delete. by rewrite list_elem_of_filter. Qed.

Lemma NoDup_set_add x s : NoDup s → NoDup (set_add x s).
Proof.
  unfold set_add. case_decide; [done|]. intros Hs. apply NoDup_app. split_and!; [done| |apply NoDup_singleton].
  intros y Hy ->%list_elem_of_singleton. done.
Qed.

Lemma NoDup_set_delete x s : NoDup s → NoDup (set_delete x s).
Proof. apply NoDup_filter. Qed.

Lemma elem_of_js_set x l : x ∈ js_set l ↔ x ∈ l.
Proof.
  unfold js_set. induction l as [|y l IH] using rev_ind; [done|].
  rewrite foldl_app. cbn. rewrite elem_of_set_add, IH, elem_of_app, list_elem_of_singleton. tauto.
Qed.

Lemma NoDup_js_set l : NoDup (js_set l).
Proof.
  unfold js_set. induction l as [|y l IH] using rev_ind; [constructor|].
  rewrite foldl_app. cbn. by apply NoDup_set_add.
Qed.

Lemma push_feed_keys f m : (push_feed f m).*1 = set_add (f_category_id f) m.*1.
Proof.
  induction m as [|[k l] m IH]; [done|]. cbn. case_decide as Hk; unfold set_add in *; cbn.
  - subst. rewrite decide_True; [done|left].
  - rewrite IH. case_decide; case_decide; set_solver.
Qed.

Lemma map_get_cons {A} k k' (a : A) m :
  map_get k ((k', a) :: m) = if decide (k' = k) then Some a else map_get k m.
Proof. unfold map_get. cbn. case_bool_decide; case_decide; done. Qed.

Lemma push_feed_get id f m :
  map_get id (push_feed f m) =
  if decide (f_category_id f = id) then Some (default [] (map_get id m) ++ [f]) else map_get id m.
Proof.
  induction m as [|[k l] m IH]; cbn [push_feed]; [by rewrite map_get_cons|].
  destruct (decide (k = f_category_id f)) as [->|Hk].
  - rewrite !map_get_cons. by case_decide.
  - rewrite !map_get_cons, IH. repeat case_decide; congruence.
Qed.

Lemma byCategory_keys l : (byCategory l).*1 = js_set (f_category_id <$> l).
Proof.
  unfold byCategory, js_set. induction l as [|f l IH] using rev_ind; [done|].
  rewrite fmap_app, !foldl_app. cbn. by rewrite push_feed_keys, IH.
Qed.

Lemma byCategory_get id l : default [] (map_get id (byCategory l)) = of_category id l.
Proof.
  unfold byCategory, of_category. induction l as [|f l IH] using rev_ind; [done|].
  rewrite foldl_app, filter_app, filter_cons. cbn [foldl]. rewrite push_feed_get, <- IH.
  destruct (decide (f_category_id f = id)); [done|by rewrite app_nil_r].
Qed.

Lemma elem_of_orderedIds registry present x : x ∈ orderedIds registry present ↔ x ∈ present.
Proof.
  unfold orderedIds, sort_ids. rewrite elem_of_app, sort_perm, !list_elem_of_filter.
  destruct (decide (x ∈ c_id <$> registry)); tauto.
Qed.

Lemma NoDup_orderedIds registry present :
  NoDup (c_id <$> registry) → NoDup present → NoDup (orderedIds registry present).
Proof.
  intros Hr Hp. unfold orderedIds, sort_ids. rewrite sort_perm. apply NoDup_app.
  split_and!; [by apply NoDup_filter| |by apply NoDup_filter].
  intros x [_ Hx]%list_elem_of_filter [Hn _]%list_elem_of_filter. done.
Qed.

(** The ids of the registry come first, in its order, the others by code units. *)
Lemma orderedIds_order registry present :
  ∃ known custom, orderedIds registry present = known ++ custom ∧
    known `sublist_of` (c_id <$> registry) ∧ StronglySorted (before code_unit_compare id) custom.
Proof. eexists _, _. split_and!; [done|apply sublist_filter|apply sort_sorted, _]. Qed.

Lemma groupedRows_eq registry visible :
  groupedRows registry visible =
  (λ id, (id, of_category id visible)) <$> orderedIds registry (js_set (f_category_id <$> visible)).
Proof.
  unfold groupedRows. rewrite byCategory_keys. apply list_fmap_ext. intros i id _.
  by rewrite byCategory_get.
Qed.

Lemma of_categories_perm registry feeds :
  NoDup (c_id <$> registry) →
  concat ((λ id, of_category id feeds) <$> orderedIds registry (js_set (f_category_id <$> feeds))) ≡ₚ feeds.
Proof.
  intros Hr. apply (partition_perm f_category_id).
  - apply NoDup_orderedIds; [done|apply NoDup_js_set].
  - apply Forall_forall. intros f Hf. rewrite elem_of_orderedIds, elem_of_js_set.
    by apply list_elem_of_fmap_2.
Qed.

Lemma length_concat_sum {A} (l : list (list A)) : length (concat l) = sum_list (length <$> l).
Proof. induction l as [|x l IH]; [done|]. cbn. by rewrite length_app, IH. Qed.

Lemma StronglySorted_list_filter {A} (R : A → A → Prop) (f : A → bool) l :
  StronglySorted R l → StronglySorted R (List.filter f l).
Proof.
  induction 1 as [|x l Hl IH Hx]; [constructor|]. cbn. destruct (f x); [|done].
  constructor; [done|]. apply Forall_forall. intros y Hy. rewrite Forall_forall in Hx. apply Hx.
  apply list_elem_of_In in Hy. apply filter_In in Hy as [Hy _]. by apply list_elem_of_In.
Qed.

Lemma filter_as_List_filter {A} (P : A → Prop) `{∀ x, Decision (P x)} l :
  filter P l = List.filter (λ x, bool_decide (P x)) l.
Proof.
  induction l as [|x l IH]; [done|]. rewrite filter_cons. cbn.
  rewrite IH. by case_decide; case_bool_decide.
Qed.

Lemma elem_of_visible_feeds lc v feeds f :
  f ∈ visible_feeds lc v feeds ↔ f ∈ feeds ∧ feed_matches v f = true.
Proof.
  unfold visible_feeds. rewrite list_elem_of_In, filter_In, <- list_elem_of_In. by rewrite sort_perm.
Qed.

(** What the filters of the page select. *)
Lemma feed_matches_spec v f :
  feed_matches v f = true ↔
  (ff_search v = "" ∨ includes (f_id f) (toLowerCase (ff_search v)) = true ∨
   includes (toLowerCase (f_provider f)) (toLowerCase (ff_search v)) = true ∨
   includes (toLowerCase (f_url f)) (toLowerCase (ff_search v)) = true) ∧
  (ff_category v = "" ∨ f_category_id f = ff_category v) ∧
  (ff_status v = "active" → f_enabled f = true) ∧ (ff_status v = "disabled" → f_enabled f = false).
Proof.
  unfold feed_matches, truthy. cbv zeta.
  set (a := includes (f_id f) _). set (b := includes (toLowerCase (f_provider f)) _).
  set (c := includes (toLowerCase (f_url f)) _).
  clearbody a b c. generalize (f_enabled f). intros e.
  repeat case_bool_decide; destruct a, b, c, e; cbn; intuition congruence.
Qed.

(** C9: the table groups in one pass over the visible feeds, and what it shows is
    what filtering the feeds once per category gives: the categories of the
    visible feeds, those of the registry first and in its order, each once; under
    each exactly its visible feeds, by id.  No feed is lost or shown twice, no
    category is empty, and the numbers on the chips add up to the number beside
    All. *)
Theorem table_groups_feeds (lc : string → string → Z) `{!LocaleOrder lc} (registry : list category)
    (feeds : list feed) (v : feed_filters) :
  NoDup (c_id <$> registry) →
  let vis := visible_feeds lc v feeds in
  let groups := groupedRows registry vis in
  groups = (λ id, (id, of_category id vis)) <$> orderedIds registry (js_set (f_category_id <$> vis)) ∧
  concat groups.*2 ≡ₚ List.filter (feed_matches v) feeds ∧
  NoDup groups.*1 ∧
  (∀ id l, (id, l) ∈ groups → l ≠ [] ∧ StronglySorted (before lc f_id) l) ∧
  sum_list (categoryChips registry feeds).*2 = length feeds.
Proof.
  intros Hr vis groups. assert (vis ≡ₚ List.filter (feed_matches v) feeds) as Hvis.
  { unfold vis, visible_feeds. generalize (sort_perm lc f_id feeds). generalize (sort lc f_id feeds).
    induction 1; cbn; repeat case_match; try done; [by f_equiv|apply Permutation_swap|by etransitivity]. }
  pose proof (groupedRows_eq registry vis) as Hg. fold groups in Hg.
  split_and!; [done|..].
  - rewrite Hg, <- list_fmap_compose. cbn. etransitivity; [by apply of_categories_perm|done].
  - rewrite Hg, <- list_fmap_compose, list_fmap_id. apply NoDup_orderedIds; [done|apply NoDup_js_set].
  - intros id l. rewrite Hg. intros (id' & [= -> ->] & Hid)%list_elem_of_fmap. split.
    + rewrite elem_of_orderedIds, elem_of_js_set in Hid. apply list_elem_of_fmap in Hid as (f & -> & Hf).
      assert (f ∈ of_category (f_category_id f) vis) as Hin by (by apply list_elem_of_filter).
      intros E. rewrite E in Hin. by apply not_elem_of_nil in Hin.
    + unfold of_category. rewrite filter_as_List_filter. apply StronglySorted_list_filter, StronglySorted_list_filter, sort_sorted. done.
  - unfold categoryChips. rewrite <- list_fmap_compose.
    rewrite <- (Permutation_length (of_categories_perm registry feeds Hr)), length_concat_sum.
    by rewrite <- list_fmap_compose.
Qed.

(** ** Selecting *)

Lemma setGroupSelected_spec ids (b : bool) p x :
  x ∈ selected (setGroupSelected ids b p) ↔ if decide (x ∈ ids) then b = true else x ∈ selected p.
Proof.
  cbn. induction ids as [|y ids IH] using rev_ind; [by rewrite decide_False by apply not_elem_of_nil|].
  rewrite foldl_app. cbn. destruct b; rewrite ?elem_of_set_add, ?elem_of_set_delete, IH;
    repeat case_decide; set_solver.
Qed.

Lemma NoDup_setGroupSelected ids b p :
  NoDup (selected p) → NoDup (selected (setGroupSelected ids b p)).
Proof.
  intros Hp. cbn. induction ids as [|y ids IH] using rev_ind; [done|].
  rewrite foldl_app. cbn. destruct b; [by apply NoDup_set_add|by apply NoDup_set_delete].
Qed.

Lemma NoDup_toggleSelected x p : NoDup (selected p) → NoDup (selected (toggleSelected x p)).
Proof. intros Hp. cbn. case_decide; [by apply NoDup_set_delete|by apply NoDup_set_add]. Qed.

Lemma all_selected_true ids p :
  all_selected ids p = true ↔ ids ≠ [] ∧ ∀ x, x ∈ ids → x ∈ selected p.
Proof.
  unfold all_selected. rewrite andb_true_iff, negb_true_iff, bool_decide_eq_false, forallb_forall.
  f_equiv. split; intros H x Hx.
  - by apply (bool_decide_eq_true_1 _), H, list_elem_of_In.
  - apply bool_decide_eq_true, H. by apply list_elem_of_In.
Qed.

(** A click on the checkbox of a group selects all of its feeds, or none of them
    when all were selected; it leaves the others alone, and the checkbox then
    shows what was done. *)
Lemma click_group_spec ids p :
  ids ≠ [] →
  let p' := click_group ids p in
  all_selected ids p' = negb (all_selected ids p) ∧ indeterminate ids p' = false ∧
  (∀ x, x ∉ ids → x ∈ selected p' ↔ x ∈ selected p).
Proof.
  intros Hne p'. assert (∀ x, x ∈ selected p' ↔ if decide (x ∈ ids) then negb (all_selected ids p) = true
    else x ∈ selected p) as Hs by (intros; apply setGroupSelected_spec).
  assert (all_selected ids p' = negb (all_selected ids p)) as Ha.
  { apply eq_true_iff_eq. rewrite all_selected_true. split.
    - intros [_ H]. destruct ids as [|x ids]; [done|]. specialize (H x ltac:(left)).
      rewrite Hs, decide_True in H by left. done.
    - intros H. split; [done|]. intros x Hx. rewrite Hs. by rewrite decide_True. }
  split_and!; [done| |].
  - unfold indeterminate. rewrite Ha, negb_involutive. destruct (all_selected ids p) eqn:E; [|by rewrite andb_false_r].
    rewrite andb_true_r. apply not_true_is_false. intros H. unfold some_selected in H.
    apply existsb_exists in H as (x & Hx%list_elem_of_In & Hin%bool_decide_eq_true).
    rewrite Hs, decide_True in Hin; done.
  - intros x Hx. rewrite Hs. by rewrite decide_False.
Qed.

(** ** Bulk actions *)

(** The bulk actions in flight: those that sync, with their feeds, and others. *)
Inductive bulk_kind := KSync (ids : list string) | KOther.

(** The bar is there while feeds are selected, and its Sync button while no sync is
    in flight; the list of feeds may be refetched between any two steps. *)
Inductive feeds_step : feeds_page * list (bulk_kind * bulk feeds_page) → list note →
    feeds_page * list (bulk_kind * bulk feeds_page) → Prop :=
| fs_toggle p bs x : feeds_step (p, bs) [] (toggleSelected x p, bs)
| fs_group p bs ids : feeds_step (p, bs) [] (click_group ids p, bs)
| fs_clear p bs : feeds_step (p, bs) [] (clear_selection p, bs)
| fs_enable p bs b : selected p ≠ [] → feeds_step (p, bs) [] (p, bs ++ [(KOther, bulkSetEnabled b p)])
| fs_delete p bs : selected p ≠ [] → feeds_step (p, bs) [] (p, bs ++ [(KOther, bulkDelete p)])
| fs_sync p bs feeds ns p' b :
    selected p ≠ [] → syncingIds p = [] → bulkSync feeds p = (ns, p', Some b) →
    feeds_step (p, bs) ns (p', bs ++ [(KSync (to_sync feeds p), b)])
| fs_no_sync p bs feeds ns p' :
    selected p ≠ [] → syncingIds p = [] → bulkSync feeds p = (ns, p', None) → feeds_step (p, bs) ns (p', bs)
| fs_settle p l k b r results :
    length results = length (b_calls b) →
    feeds_step (p, l ++ (k, b) :: r) (b_settled b results p).1 ((b_settled b results p).2, l ++ r).

Inductive feeds_run : feeds_page * list (bulk_kind * bulk feeds_page) → Prop :=
| frun_init : feeds_run (page_init, [])
| frun_step c ns c' : feeds_run c → feeds_step c ns c' → feeds_run c'.

(** A bulk action in flight sends each of its requests once, and when it settles it
    clears the selection, or, when it syncs, the marks of the feeds it syncs. *)
Definition bulk_ok (kb : bulk_kind * bulk feeds_page) : Prop :=
  NoDup (b_calls kb.2) ∧ b_calls kb.2 ≠ [] ∧
  ∀ results p, selected (b_settled kb.2 results p).2 ⊆ selected p ∧
    (NoDup (selected p) → NoDup (selected (b_settled kb.2 results p).2)) ∧
    syncingIds (b_settled kb.2 results p).2 =
      match kb.1 with KSync _ => [] | KOther => syncingIds p end.

(** What is marked as syncing is what the sync in flight, if any, asked for. *)
Definition marks_ok (p : feeds_page) (bs : list (bulk_kind * bulk feeds_page)) : Prop :=
  (syncingIds p = [] ∧ Forall (λ kb, kb.1 = KOther) bs) ∨
  ∃ l b r, bs = l ++ (KSync (syncingIds p), b) :: r ∧ syncingIds p ≠ [] ∧
    b_calls b = mutationFn useIngestFeedNow <$> syncingIds p ∧
    Forall (λ kb, kb.1 = KOther) (l ++ r).

Lemma NoDup_calls {A} (f : A → call) (l : list A) :
  (∀ x y, f x = f y → x = y) → NoDup l → NoDup (f <$> l).
Proof. intros Hf. apply NoDup_fmap_2. intros x y. apply Hf. Qed.

Lemma other_ok (f : string → call) (l : list string) note :
  (∀ x y, f x = f y → x = y) → NoDup l → l ≠ [] →
  bulk_ok (KOther, Bulk (f <$> l) (λ results p, ([note results], clear_selection p))).
Proof.
  intros Hf Hl Hne. split_and!; cbn; [by apply NoDup_calls|by intros ?%fmap_nil_inv|].
  intros _ p. split_and!; [set_solver|intros _; constructor|done].
Qed.

Lemma bulkSync_Some feeds p ns p' b :
  NoDup (selected p) → bulkSync feeds p = (ns, p', Some b) →
  p' = FeedsPage (selected p) (syncingId p) (to_sync feeds p) ∧ to_sync feeds p ≠ [] ∧
  b_calls b = mutationFn useIngestFeedNow <$> to_sync feeds p ∧ bulk_ok (KSync (to_sync feeds p), b).
Proof.
  intros Hp. unfold bulkSync. case_decide as Hn; [done|]. intros [= <- <- <-].
  split_and!; [done|done|done|]. split_and!; cbn.
  - apply NoDup_calls; [by intros x y [= ->]|]. unfold to_sync. by apply NoDup_ListNoDup, List.NoDup_filter, NoDup_ListNoDup.
  - by intros ?%fmap_nil_inv.
  - intros _ q. by split_and!.
Qed.

Lemma marks_snoc p bs b : marks_ok p bs → marks_ok p (bs ++ [(KOther, b)]).
Proof.
  intros [[Hs Hb]|(l & b' & r & -> & Hne & Hc & Hf)].
  - left. split; [done|]. by apply Forall_app_2; [|constructor].
  - right. exists l, b', (r ++ [(KOther, b)]). split_and!; [by rewrite <- app_assoc|done|done|].
    rewrite app_assoc. by apply Forall_app_2; [|constructor].
Qed.

(** A settled action that is not the sync in flight leaves the marks right. *)
Lemma marks_settle p p' l k b r :
  marks_ok p (l ++ (k, b) :: r) →
  syncingIds p' = match k with KSync _ => [] | KOther => syncingIds p end → marks_ok p' (l ++ r).
Proof.
  intros Hm Hp'. destruct Hm as [[Hs Hf]|(l' & b' & r' & E & Hne & Hc & Hf)].
  - left. rewrite Forall_app, Forall_cons in Hf. destruct Hf as (Hl & Hk & Hr). cbn in Hk. subst k.
    rewrite Hp'. split; [done|]. by apply Forall_app.
  - destruct k as [ids|].
    + left. split; [done|]. assert (l = l' ∧ r = r') as [-> ->]; [|done].
      clear -E Hf. revert l' E Hf. induction l as [|x l IH]; intros [|y l'] E Hf; cbn in *; simplify_eq.
      * done.
      * by apply Forall_cons in Hf as [? _].
      * exfalso. rewrite Forall_app, Forall_cons in Hf. by destruct Hf as (_ & ? & _).
      * rename select (l ++ _ = l' ++ _) into E.
        apply Forall_cons in Hf as [_ Hf]. by destruct (IH l' E Hf) as [-> ->].
    + right. rewrite Hp'. clear Hp'.
      revert l' E Hf. induction l as [|x l IH]; intros [|y l'] E Hf; cbn in *; simplify_eq.
      * exists l', b', r'. by apply Forall_cons in Hf as [_ Hf].
      * exists [], b', (l ++ r). split_and!; try done. rewrite Forall_app, Forall_cons in Hf.
        destruct Hf as (? & _ & ?). cbn. by apply Forall_app.
      * rename select (l ++ _ = l' ++ _) into E. apply Forall_cons in Hf as [Hy Hf]. destruct (IH l' E Hf) as (l1 & b1 & r1 & E1 & Hn1 & Hc1 & Hf1).
        exists (y :: l1), b1, r1. split_and!; try done; [cbn; by rewrite E1|]. by constructor.
Qed.

Lemma feeds_step_ok c ns c' :
  feeds_step c ns c' → NoDup (selected c.1) ∧ Forall bulk_ok c.2 ∧ marks_ok c.1 c.2 →
  NoDup (selected c'.1) ∧ Forall bulk_ok c'.2 ∧ marks_ok c'.1 c'.2.
Proof.
  intros Hs (Hp & Hb & Hm). destruct Hs as [p bs x|p bs ids|p bs|p bs e Hne|p bs Hne|p bs feeds ns p' b Hne Hi Hy
    |p bs feeds ns p' Hne Hi Hy|p l k b r results Hlen]; cbn [fst snd] in *.
  - split_and!; [by apply NoDup_toggleSelected|done|done].
  - split_and!; [by apply NoDup_setGroupSelected|done|done].
  - split_and!; [constructor|done|done].
  - split_and!; [done| |by apply marks_snoc]. apply Forall_app_2; [done|]. constructor; [|constructor].
    apply other_ok; [|done..]. by intros x y [= ->].
  - split_and!; [done| |by apply marks_snoc]. apply Forall_app_2; [done|]. constructor; [|constructor].
    apply other_ok; [|done..]. by intros x y [= ->].
  - apply bulkSync_Some in Hy as (-> & Hy & Hc & Hok); [|done]. cbn. split_and!; [done| |].
    + apply Forall_app_2; [done|]. by constructor.
    + right. exists bs, b, []. cbn. split_and!; [done..|]. rewrite app_nil_r.
      destruct Hm as [[_ ?]|(? & ? & ? & _ & ? & _)]; done.
  - unfold bulkSync in Hy. case_decide; [|done]. by injection Hy as <- <-.
  - rewrite Forall_app, Forall_cons in Hb. destruct Hb as (Hl & (Hd & Hc & Hset) & Hr).
    destruct (Hset results p) as (_ & Hn & Hs). split_and!; [by apply Hn|by apply Forall_app|].
    by eapply marks_settle.
Qed.

Lemma feeds_run_ok c :
  feeds_run c → NoDup (selected c.1) ∧ Forall bulk_ok c.2 ∧ marks_ok c.1 c.2.
Proof.
  induction 1 as [|c ns c' _ IH Hs]; [|by eapply feeds_step_ok].
  split_and!; [constructor|constructor|]. by left; split.
Qed.

(** However the checkboxes are clicked and however the bulk actions and their
    answers interleave, a bulk action sends one request for each selected feed and
    none twice; the message it ends with counts every request as done or failed
    and is green exactly when none failed; feeds are marked as syncing exactly
    while a sync is in flight, and then the feeds it asked for; only enabled feeds
    are synced. *)
Theorem bulk_actions_once (p : feeds_page) (bs : list (bulk_kind * bulk feeds_page)) :
  feeds_run (p, bs) →
  (∀ k b, (k, b) ∈ bs → NoDup (b_calls b)) ∧ marks_ok p bs ∧
  (∀ feeds e, Forall (λ b, length (b_calls b) = length (selected p) ∧ NoDup (b_calls b))
                [bulkSetEnabled e p; bulkDelete p] ∧
     ∀ x, x ∈ to_sync feeds p →
       x ∈ selected p ∧ ∃ f, f ∈ feeds ∧ f_id f = x ∧ f_enabled f = true) ∧
  (∀ (results : list (exc (option json))) what why,
     ok_count results + failed_count results = length results ∧
     (n_color (bulk_note what why results) = "green" ↔ Forall (λ r, fulfilled r = true) results)).
Proof.
  intros (Hp & Hb & Hm)%feeds_run_ok. cbn [fst snd] in *. split_and!; [|done| |].
  - intros k b Hin. rewrite Forall_forall in Hb. by apply Hb in Hin as [? _].
  - intros feeds e. split.
    + repeat apply Forall_cons_2; [..|by apply Forall_nil_2]; cbn; rewrite length_fmap; (split; [done|]);
        apply NoDup_calls; try done; by intros x y [= ->].
    + intros x Hx. unfold to_sync in Hx. rewrite list_elem_of_In, filter_In, <- list_elem_of_In in Hx.
      destruct Hx as [Hx He]. split; [done|].
      destruct (List.find (λ f, bool_decide (f_id f = x)) feeds) as [f|] eqn:E; [|done].
      apply find_some in E as [Hf E%bool_decide_eq_true]. exists f. by rewrite list_elem_of_In.
  - intros results what why. split; [apply ok_failed|]. rewrite <- failed_count_zero. cbn.
    by case_decide.
Qed.

(** ** Adding several feeds *)

(** The line of a feed, as the placeholder of the text area shows it. *)
Definition entry_line (e : entry) : string := e_id e +:+ "," +:+ e_url e.

Definition entry_ok (e : entry) : bool := item_ok (e_id e) && item_ok (e_url e).

Lemma visible_no_newline s :
  sforall visible s = true → sforall (λ x, negb (Ascii.eqb x c_newline)) s = true.
Proof.
  apply sforall_impl. intros c Hc. destruct (Ascii.eqb_spec c c_newline) as [->|]; [|done]. by vm_compute in Hc.
Qed.

Lemma entry_line_visible e : entry_ok e = true → sforall visible (entry_line e) = true.
Proof.
  unfold entry_ok, entry_line. intros ?; bools. destruct (item_ok_visible _ H), (item_ok_visible _ H0).
  rewrite !sforall_app. cbn. by rewrite H2, H4.
Qed.

Lemma parse_entry_line e : entry_ok e = true → parse_line (entry_line e) = e.
Proof.
  unfold entry_ok, entry_line, parse_line. intros ?; bools.
  change ("," +:+ e_url e) with (String "," (e_url e)).
  rewrite split_on_cons, split_on_none by (by apply item_ok_no_comma). cbn -[trim].
  destruct (item_ok_visible _ H), (item_ok_visible _ H0). rewrite !trim_visible by done. by destruct e.
Qed.

(** A second comma ends the URL. *)
Lemma parse_line_cut e rest :
  entry_ok e = true → parse_line (entry_line e +:+ String "," rest) = e.
Proof.
  unfold entry_ok, entry_line, parse_line. intros ?; bools. rewrite sapp_assoc.
  change ("," +:+ e_url e) with (String "," (e_url e)). rewrite sapp_cons.
  rewrite split_on_cons by (by apply item_ok_no_comma).
  rewrite split_on_cons by (by apply item_ok_no_comma). cbn -[trim].
  destruct (item_ok_visible _ H), (item_ok_visible _ H0). rewrite !trim_visible by done. by destruct e.
Qed.

Lemma parse_lines es :
  forallb entry_ok es = true → parseBulkLines (join (String c_newline "") (entry_line <$> es)) = es.
Proof.
  unfold parseBulkLines. induction es as [|e es IH]; [done|]. cbn [forallb]. intros ?; bools.
  assert (truthy (trim (entry_line e)) = true) as Ht.
  { rewrite trim_visible by (by apply entry_line_visible). unfold truthy, entry_line.
    apply bool_decide_eq_true. unfold entry_ok in H. bools. apply item_ok_visible in H as [Hne _].
    by intros [? _]%sapp_eq_nil. }
  specialize (IH H0). pose proof (entry_line_visible e H) as Hv. destruct es as [|e' es].
  - cbn [fmap list_fmap join]. rewrite split_on_none by (by apply visible_no_newline).
    cbn [fmap list_fmap List.filter]. rewrite Ht. cbn [fmap list_fmap].
    by rewrite trim_visible, parse_entry_line.
  - rewrite fmap_cons. change (join ?s (?x :: (entry_line <$> (e' :: es)))) with
      (x +:+ String c_newline (join s (entry_line <$> (e' :: es)))).
    rewrite split_on_cons by (by apply visible_no_newline).
    rewrite fmap_cons. cbn [List.filter]. rewrite Ht, fmap_cons, IH, trim_visible by done.
    by rewrite parse_entry_line.
Qed.

(** The bulk form reads back the feeds that were written one per line as
    [id,url], and once it is submitted it sends one new feed per line that is not
    blank, each with an id and a URL; it stays open, with its text, unless all
    were added.  A second comma on a line ends the URL there. *)
Theorem bulk_add_lines (es : list entry) (v : bulk_form) (rest : string) :
  forallb entry_ok es = true →
  parseBulkLines (join (String c_newline "") (entry_line <$> es)) = es ∧
  (∀ e, e ∈ es → parse_line (entry_line e +:+ String "," rest) = e) ∧
  (∀ b, bulk_submit v = Some b →
     length (b_calls b) = length (List.filter (λ l, truthy (trim l)) (split_on c_newline (bf_lines v))) ∧
     b_calls b ≠ [] ∧ Forall (λ e, incomplete e = false) (parseBulkLines (bf_lines v)) ∧
     (∀ results m, let m' := (b_settled b results m).2 in
        bm_submitting m' = false ∧
        (bm_opened m' = false ∧ bm_values m' = bulk_initial ↔
         Forall (λ r, fulfilled r = true) results ∨ bm_opened m = false ∧ bm_values m = bulk_initial) ∧
        (¬ Forall (λ r, fulfilled r = true) results → bm_values m' = bm_values m))).
Proof.
  intros Hes. split_and!; [by apply parse_lines| |].
  - intros e He. apply parse_line_cut. rewrite forallb_forall in Hes. by apply Hes, list_elem_of_In.
  - intros b [Hv ->]%onSubmit_Some. unfold bulk_validate, validate_lines in Hv.
    apply Forall_cons in Hv as [_ Hv]. apply Forall_cons in Hv as [Hv _]. cbv zeta in Hv.
    destruct (decide (parseBulkLines (bf_lines v) = [])) as [|Hne]; [done|].
    destruct (decide (List.filter incomplete (parseBulkLines (bf_lines v)) = [])) as [Hinc|]; [|done].
    cbn [b_calls b_settled bulk_handleSubmit]. split_and!.
    + rewrite length_fmap. unfold parseBulkLines. rewrite length_fmap.
      induction (split_on c_newline (bf_lines v)) as [|l ls IH]; [done|]. rewrite fmap_cons. cbn [List.filter].
      destruct (truthy (trim l)); cbn [length]; by rewrite IH.
    + by intros ?%fmap_nil_inv.
    + apply Forall_forall. intros e He. destruct (incomplete e) eqn:Ee; [|done].
      assert (e ∈ List.filter incomplete (parseBulkLines (bf_lines v))) as Hin.
      { rewrite list_elem_of_In, filter_In, <- list_elem_of_In. done. }
      rewrite Hinc in Hin. by apply not_elem_of_nil in Hin.
    + intros results m. rewrite <- failed_count_zero.
      case_decide; split_and!; cbn; naive_solver.
Qed.

Lemma hasRole_admin u : hasRole u [Admin] = true ↔ ∃ v, u = Some v ∧ u_role v = Admin.
Proof.
  unfold hasRole. destruct u as [v|]; [|naive_solver]. destruct (u_role v) eqn:E; vm_compute (geq _ _).
  - split; [by eauto|done].
  - split; [done|]. intros (w & [= <-] & Hw). congruence.
  - split; [done|]. intros (w & [= <-] & Hw). congruence.
Qed.

(** The rows of the view, as one list. *)
Lemma view_rows tls local now cw p registry feeds visible :
  concat (fg_rows <$> fv_groups (page_view tls local now cw p registry feeds visible)) =
  row_view tls local now cw p <$> concat (groupedRows registry visible).*2.
Proof.
  cbn. induction (groupedRows registry visible) as [|g gs IH]; [done|]. cbn.
  by rewrite fmap_app, IH.
Qed.

(** Without the admin role the page shows the feeds and offers nothing that
    sends a request: no buttons above the table, no bar, no checkbox, switches
    that cannot be moved and rows without buttons.  With it every visible feed has
    one row, whose Sync button is off exactly for a disabled feed. *)
Theorem feeds_view_controls (tls : Z → string) (local : Z → Z) (now : Z) (u : option AuthUser)
    (p : feeds_page) (registry : list category) (feeds visible : list feed) :
  let view := page_view tls local now (hasRole u [Admin]) p registry feeds visible in
  let rows := concat (fg_rows <$> fv_groups view) in
  ((∀ v, u = Some v → u_role v ≠ Admin) →
   fv_add_buttons view = false ∧ fv_bar view = None ∧ fv_checkbox view = None ∧
   Forall (λ g, fg_checkbox g = None) (fv_groups view) ∧
   Forall (λ r, fr_checkbox r = None ∧ (fr_switch r).2 = true ∧ fr_sync r = None ∧ fr_buttons r = []) rows) ∧
  (NoDup (c_id <$> registry) →
   fr_id <$> rows ≡ₚ f_id <$> visible ∧
   (hasRole u [Admin] = true →
    Forall (λ r, fr_sync r ≠ None ∧ (∀ loading disabled, fr_sync r = Some (loading, disabled) →
              disabled = negb (fr_switch r).1)) rows)).
Proof.
  intros view rows. assert (rows = row_view tls local now (hasRole u [Admin]) p <$>
    concat (groupedRows registry visible).*2) as Hrows by apply view_rows.
  split.
  - intros Hu. assert (hasRole u [Admin] = false) as Hr.
    { apply not_true_is_false. intros (v & Hv & Ha)%hasRole_admin. by apply (Hu v). }
    rewrite Hrows. unfold view. rewrite Hr. cbn. split_and!; try done; apply Forall_fmap, Forall_forall; done.
  - intros Hn. rewrite Hrows. split.
    + rewrite <- list_fmap_compose. change (fr_id ∘ _) with f_id. apply fmap_Permutation.
      rewrite groupedRows_eq, <- list_fmap_compose. by apply of_categories_perm.
    + intros Hr. rewrite Hr. apply Forall_fmap, Forall_forall. intros f _. cbn. split; [done|].
      intros l d [= _ <-]. done.
Qed.

(** ** Examples *)

Definition feed0 : feed :=
  Feed "acme-malware" "malware" "https://feeds.example.com/list.txt" "domain-list" 86400 "MIT" "Acme" false true
    (Some 1200%Z) (Some "2026-01-02T00:00:00Z").
Definition feed1 : feed :=
  Feed "ACME-ads" "ads" "https://ads.example.com/list.txt" "hostfile" 3600 "MIT" "Acme" true false None None.
Definition registry0 : list category := [Category "ads" "Ads" "blue"; Category "malware" "Malware" "red"].

(** The id is searched as it is written, while the search text is lower-cased. *)
Example upper_case_id_not_found :
  feed_matches (FeedFilters "ACME-ads" "" "all") feed1 = false ∧
  feed_matches (FeedFilters "acme-malware" "" "all") feed0 = true.
Proof. split; vm_compute; reflexivity. Qed.

(** The figure that is labelled as that of the enabled feeds counts all of them. *)
Example totalDomains_counts_disabled :
  totalDomains [feed0; Feed "x" "ads" "u" "hostfile" 3600 "" "" false false (Some 5%Z) None] = 1205%Z.
Proof. reflexivity. Qed.

(** A feed fetched a minute ago is shown as stale west of Greenwich, or east as
    fresh for hours too long, when its timestamp comes without a zone. *)
Example naive_timestamp_status :
  let f iso := Feed "x" "ads" "u" "hostfile" 3600 "" "" false true (Some 5%Z) (Some iso) in
  let now := 1767312060000%Z in
  feedStatus (λ t, t - 10800000)%Z now (f "2026-01-02T00:00:00Z") = ("Active", "green") ∧
  feedStatus (λ t, t - 10800000)%Z now (f "2026-01-02T00:00:00") = ("Stale", "orange").
Proof. split; vm_compute; reflexivity. Qed.

Lemma table_groups_feeds_witness :
  concat (groupedRows registry0 (visible_feeds code_unit_compare (FeedFilters "" "" "all") [feed0; feed1])).*2
    ≡ₚ [feed0; feed1].
Proof.
  refine (proj1 (proj2 (table_groups_feeds code_unit_compare registry0 [feed0; feed1]
    (FeedFilters "" "" "all") _))).
  apply (bool_decide_eq_true_1 _). vm_compute. reflexivity.
Defined.

Lemma bulk_actions_once_witness :
  NoDup (b_calls (bulkDelete (toggleSelected "b" (toggleSelected "a" page_init)))).
Proof.
  refine (proj1 (bulk_actions_once (toggleSelected "b" (toggleSelected "a" page_init))
    [(KOther, bulkDelete (toggleSelected "b" (toggleSelected "a" page_init)))] _) KOther _ _); [|left].
  eapply frun_step; [|apply (fs_delete _ []); by vm_compute].
  eapply frun_step; [|apply fs_toggle]. eapply frun_step; [|apply fs_toggle]. apply frun_init.
Defined.

Lemma bulk_add_lines_witness :
  parseBulkLines (join (String c_newline "")
    (entry_line <$> [FeedEntry "a" "https://x/1"; FeedEntry "b" "https://x/2"])) =
  [FeedEntry "a" "https://x/1"; FeedEntry "b" "https://x/2"].
Proof.
  apply (bulk_add_lines [FeedEntry "a" "https://x/1"; FeedEntry "b" "https://x/2"] bulk_initial "").
  vm_compute. reflexivity.
Defined.

Lemma feeds_view_controls_witness :
  fv_bar (page_view Z_str id 0 (hasRole (Some (MkAuthUser "1" "a@x" Operator None)) [Admin])
    (toggleSelected "a" page_init) registry0 [feed0] [feed0]) = None.
Proof.
  apply (feeds_view_controls Z_str id 0 (Some (MkAuthUser "1" "a@x" Operator None))).
  intros v [= <-]. done.
Defined.
