(* ===== verification/Users.v ===== *)
(** * User management

    [pages/UsersPage.tsx]: the modals that add and edit a user, the table and its
    figures, and the deletion of a user. *)

From Stdlib Require Import Sorted.
From S2P Require Import Prelude JsText Json Client Errors Schema Queries Auth Locale Forms Effects Modal.

(** ** Data *)

(** [UserOut] *)
Record User := MkUser {
  us_id : string;
  us_email : string;
  us_role : string;
  us_tenant_id : option string;
}.

Definition ROLE_OPTIONS : list string := ["admin"; "operator"; "viewer"].

Definition ROLE_COLOR : list (string * string) := [("admin", "red"); ("operator", "blue"); ("viewer", "gray")].

(** [ROLE_COLOR[role] ?? "gray"] *)
Definition role_color (role : string) : string :=
  default "gray" (snd <$> List.find (λ kv, bool_decide (kv.1 = role)) ROLE_COLOR).

(** The options of the two tenant selects: value and label. *)
Definition tenantOptions (tenants : list (string * string)) : list (string * string) :=
  ("", "Global (no tenant restriction)") :: tenants.

(** ** Adding a user *)

(** The value of a [Select] is null after its option was clicked again. *)
Record add_user := AddUser {
  au_email : string;
  au_password : string;
  au_role : option string;
  au_tenant_id : option string;
}.

Definition add_user_initial : add_user := AddUser "" "" (Some "viewer") (Some "").

Definition add_user_validate (v : add_user) : list (option string) :=
  [ err (bool_decide (js_length (trim (au_email v)) < 3)) "Email is required";
    err (bool_decide (js_length (au_password v) < 12)) "Minimum 12 characters";
    err (negb (truthy_opt (au_role v))) "Role is required" ].

(** [v || null] of a select. *)
Definition select_or_null (v : option string) : option string := v ≫= or_null.

(** [{ ...values, tenant_id: values.tenant_id || null }] *)
Definition add_user_body (v : add_user) : json :=
  JObj [ ("email", JStr (au_email v)); ("password", JStr (au_password v)); ("role", str_json (au_role v));
         ("tenant_id", str_json (select_or_null (au_tenant_id v))) ].

Definition add_user_send (v : add_user) : inflight (kept add_user) :=
  send_and useCreateUser (add_user_body v) ("User " +:+ quoted (au_email v) +:+ " created")
    (kept_close add_user_initial).

Definition add_user_submit : kept add_user → option (inflight (kept add_user)) :=
  kept_submit add_user_validate add_user_send.

(** ** Editing a user *)

Record edit_user := EditUser { eu_role : option string; eu_tenant_id : option string }.

Definition edit_user_initial (u : User) : edit_user :=
  EditUser (Some (us_role u)) (Some (default "" (us_tenant_id u))).

Definition edit_user_body (v : edit_user) : json :=
  JObj [ ("role", str_json (eu_role v)); ("tenant_id", str_json (select_or_null (eu_tenant_id v))) ].

(** The modal is keyed by the user; it has no validators. *)
Definition setEditUser : User → modal User edit_user → modal User edit_user := modal_open edit_user_initial.

Definition edit_user_send (u : User) (v : edit_user) : inflight (modal User edit_user) :=
  send_and useUpdateUser (us_id u, edit_user_body v) ("User " +:+ us_email u +:+ " updated") modal_close.

Definition edit_user_submit : modal User edit_user → option (inflight (modal User edit_user)) :=
  modal_submit (λ _, []) edit_user_send.

(** ** The page *)

Definition sorted_users (localeCompare : string → string → Z) (users : list User) : list User :=
  sort localeCompare us_email users.

Definition byRole (users : list User) (r : string) : nat := length (filter (λ u, us_role u = r) users).

(** The four figures. *)
Definition user_figures (users : list User) : list (string * nat) :=
  [ ("Total users", length users); ("Admins", byRole users "admin");
    ("Operators", byRole users "operator"); ("Viewers", byRole users "viewer") ].

(** [u.id === currentUser?.id] *)
Definition isSelf (currentUser : option AuthUser) (u : User) : bool :=
  bool_decide (Some (us_id u) = (u_id <$> currentUser)).

(** A row: email, whether it is marked as "you", the badge, the tenant, and
    whether Delete is off. *)
Record user_row := UserRow {
  ur_id : string;
  ur_email : string;
  ur_you : bool;
  ur_role : string * string;
  ur_tenant : string;
  ur_delete_disabled : bool;
}.

Definition user_row_view (currentUser : option AuthUser) (u : User) : user_row :=
  UserRow (us_id u) (us_email u) (isSelf currentUser u) (us_role u, role_color (us_role u))
    (match us_tenant_id u with Some t => if truthy t then t else "Global" | None => "Global" end)
    (isSelf currentUser u).

Definition users_table (lc : string → string → Z) (currentUser : option AuthUser) (users : list User) :
    list user_row :=
  user_row_view currentUser <$> sorted_users lc users.

(** [confirmDelete(u)], confirmed. *)
Definition delete_user {S} (u : User) : inflight S :=
  mutate_report useDeleteUser (us_id u) ("User " +:+ quoted (us_email u) +:+ " deleted").

(** A click on Delete, confirmed: [!isSelf && confirmDelete(u)]. *)
Definition click_delete {S} (currentUser : option AuthUser) (u : User) : option (inflight S) :=
  if isSelf currentUser u then None else Some (delete_user u).

(** ** Properties *)

Lemma lookup_UserCreate :
  lookup_schema "UserCreate" = Some (Obj
    [ Field "email" false TString; Field "password" false TString; Field "role" false TString;
      Field "tenant_id" true (TUnion [TString; TNull]) ]).
Proof. vm_compute. reflexivity. Qed.

Lemma lookup_UserUpdate :
  lookup_schema "UserUpdate" = Some (Obj
    [ Field "role" false TString; Field "tenant_id" true (TUnion [TString; TNull]) ]).
Proof. vm_compute. reflexivity. Qed.

Lemma add_user_conforms v :
  conforms (TRef "UserCreate") (add_user_body v) = bool_decide (is_Some (au_role v)).
Proof.
  unfold conforms, add_user_body. rewrite <- (str_json_string 1).
  pose proof (str_json_nullable 1 (select_or_null (au_tenant_id v))) as Ht.
  revert Ht. generalize (str_json (select_or_null (au_tenant_id v))) (str_json (au_role v)).
  intros t r Ht. by_fields lookup_UserCreate. by rewrite Ht, andb_true_r.
Qed.

Lemma edit_user_conforms v :
  conforms (TRef "UserUpdate") (edit_user_body v) = bool_decide (is_Some (eu_role v)).
Proof.
  unfold conforms, edit_user_body. rewrite <- (str_json_string 1).
  pose proof (str_json_nullable 1 (select_or_null (eu_tenant_id v))) as Ht.
  revert Ht. generalize (str_json (select_or_null (eu_tenant_id v))) (str_json (eu_role v)).
  intros t r Ht. by_fields lookup_UserUpdate. by rewrite Ht, andb_true_r.
Qed.

Lemma truthy_opt_Some o : truthy_opt o = true ↔ ∃ s, o = Some s ∧ s ≠ "".
Proof.
  destruct o as [s|]; cbn; [|naive_solver]. unfold truthy. rewrite bool_decide_eq_true. naive_solver.
Qed.

(** A user is created with an email, a role and a password of at least twelve
    characters, by a [UserCreate] of the API; once the modal is closed nothing of
    what was typed, the password included, is left in it.  The edit modal saved
    unchanged sends the role and the tenant the user has; it sends a [UserUpdate]
    exactly when the role was not deselected, which nothing prevents. *)
Theorem user_forms (v : add_user) (u : User) (w : edit_user) :
  (∀ m i, k_values m = v → add_user_submit m = Some i →
     f_call i = mutationFn useCreateUser (add_user_body v) ∧
     conforms (TRef "UserCreate") (add_user_body v) = true ∧
     12 ≤ js_length (au_password v) ∧ 3 ≤ js_length (trim (au_email v)) ∧ truthy_opt (au_role v) = true) ∧
  (∀ c, kept_run add_user_initial add_user_validate add_user_send c →
     k_opened c.1 = false → k_values c.1 = add_user_initial) ∧
  (us_tenant_id u ≠ Some "" →
   f_call <$> edit_user_submit (setEditUser u None) =
     Some (mutationFn useUpdateUser
             (us_id u, JObj [("role", JStr (us_role u)); ("tenant_id", str_json (us_tenant_id u))]))) ∧
  (∀ i, edit_user_submit (Some (u, w)) = Some i →
     f_call i = mutationFn useUpdateUser (us_id u, edit_user_body w) ∧
     (conforms (TRef "UserUpdate") (edit_user_body w) = true ↔ eu_role w ≠ None)).
Proof.
  split_and!.
  - intros m i <- [Hv ->]%onSubmit_Some. unfold add_user_validate in Hv.
    rewrite !Forall_cons in Hv. destruct Hv as (He & Hp & Hr & _). unfold err in *.
    assert (truthy_opt (au_role (k_values m)) = true) as Ht by (by destruct (truthy_opt _)).
    repeat case_bool_decide; try done. split_and!; [done| |lia|lia|done].
    rewrite add_user_conforms. apply bool_decide_eq_true.
    apply truthy_opt_Some in Ht as (s & -> & _). by eexists.
  - intros c Hc. apply (kept_closed_initial _ _ _ c (λ v, send_and_closes _ _ _ _)) in Hc as [Hc _]. done.
  - intros Ht. unfold edit_user_submit, modal_submit. cbn. rewrite onSubmit_unchecked.
    cbn. unfold edit_user_body, select_or_null. cbn. destruct (us_tenant_id u) as [t|]; cbn; [|done].
    unfold or_null. case_decide; [by subst|done].
  - intros i [_ ->]%onSubmit_Some. split; [done|]. rewrite edit_user_conforms, bool_decide_eq_true.
    by rewrite <- not_eq_None_Some.
Qed.

(** Nobody deletes their own account from this page: Delete of a row sends a
    request exactly when the row is not that of the signed-in user, for the user
    of that row.  Every user is listed once, by email, the signed-in user is the
    one marked, and the figures by role add up. *)
Theorem users_page_rows (lc : string → string → Z) `{!LocaleOrder lc} (me : AuthUser) (users : list User) :
  NoDup (us_id <$> users) →
  ur_id <$> users_table lc (Some me) users ≡ₚ us_id <$> users ∧
  StronglySorted (before lc us_email) (sorted_users lc users) ∧
  (∀ u, u ∈ users →
     (f_call <$> click_delete (S := unit) (Some me) u =
        if decide (us_id u = u_id me) then None else Some (mutationFn useDeleteUser (us_id u))) ∧
     ur_delete_disabled (user_row_view (Some me) u) = ur_you (user_row_view (Some me) u) ∧
     (ur_you (user_row_view (Some me) u) = true → us_id u = u_id me)) ∧
  (Forall (λ u, us_role u ∈ ROLE_OPTIONS) users → sum_list (byRole users <$> ROLE_OPTIONS) = length users).
Proof.
  intros Hn. split_and!.
  - unfold users_table. rewrite <- list_fmap_compose. unfold sorted_users. by rewrite sort_perm.
  - by apply sort_sorted.
  - intros u _. unfold click_delete, user_row_view, isSelf. cbn.
    case_decide as H; case_bool_decide as H'; split_and!; try done; try congruence.
  - intros Hr. rewrite <- (Permutation_length (partition_perm us_role users ROLE_OPTIONS
      ltac:(apply (bool_decide_eq_true_1 _); vm_compute; reflexivity) Hr)).
    cbn. by rewrite !length_app.
Qed.

(** ** Examples *)

Definition user0 : User := MkUser "u1" "ann@corp.local" "operator" (Some "t1").
Definition admin0 : AuthUser := MkAuthUser "u2" "bob@corp.local" Admin None.

Lemma user_forms_witness :
  f_call <$> edit_user_submit (setEditUser user0 None) =
    Some (mutationFn useUpdateUser
            ("u1", JObj [("role", JStr "operator"); ("tenant_id", JStr "t1")])).
Proof. exact (proj1 (proj2 (proj2 (user_forms add_user_initial user0 (edit_user_initial user0)))) ltac:(done)). Defined.

Lemma users_page_rows_witness :
  sum_list (byRole [user0] <$> ROLE_OPTIONS) = 1.
Proof.
  refine (proj2 (proj2 (proj2 (users_page_rows code_unit_compare admin0 [user0] _))) _).
  - apply (bool_decide_eq_true_1 _). vm_compute. reflexivity.
  - apply (bool_decide_eq_true_1 _). vm_compute. reflexivity.
Defined.
