(* ===== verification/Registry.v ===== *)
(** * Tenants, groups and clients

    [pages/TenantsPage.tsx], [pages/GroupsPage.tsx] and [pages/ClientsPage.tsx]:
    the forms, the deletions, what each row offers to which role, and where a
    click on it leads.  The forms are inside their modals, so they mount when the
    modal opens. *)

From S2P Require Import Prelude JsText Json Client Errors Schema Queries Auth Forms Effects Modal.

(** ** Tenants *)

Record Tenant := MkTenant { tn_id : string; tn_name : string; tn_created_at : string }.

(** [name: (v) => v.trim().length < 2 ? "..." : null], in three forms. *)
Definition name_validate (name : string) : option string :=
  err (bool_decide (js_length (trim name) < 2)) "Name must be at least 2 characters".

Definition name_body (name : string) : json := JObj [("name", JStr name)].

(** The form of a new tenant is its name. *)
Definition tenant_send (_ : unit) (name : string) : inflight (modal unit string) :=
  send_and useCreateTenant (name_body name) ("Tenant " +:+ quoted name +:+ " created") modal_close.

Definition tenant_submit : modal unit string → option (inflight (modal unit string)) :=
  modal_submit (λ v, [name_validate v]) tenant_send.

(** [confirmDelete(tenantId, name)], confirmed. *)
Definition delete_tenant {S} (t : Tenant) : inflight S :=
  mutate_report useDeleteTenant (tn_id t) ("Tenant " +:+ quoted (tn_name t) +:+ " deleted").

(** Where the row and its link lead. *)
Definition tenant_link (tenantId : string) : string := "/tenants/" +:+ tenantId.

(** What the page offers: New tenant, and per row Delete. *)
Definition tenants_controls (u : option AuthUser) : list string * list string :=
  (if hasRole u [Operator] then ["New tenant"] else [], if hasRole u [Admin] then ["Delete"] else []).

(** ** Groups *)

Record Group := MkGroup { gr_id : string; gr_name : string; gr_vpn_subnet : option string; gr_created_at : string }.

(** [\d{1,n}] *)
Definition digits_upto (n : nat) (s : string) : bool :=
  truthy s && sforall is_digit s && (String.length s <=? n)%nat.

(** [/^(\d{1,3}\.){3}\d{1,3}\/\d{1,2}$/] *)
Definition CIDR_RE (s : string) : bool :=
  match split_on "/" s with
  | [a; l] =>
      match split_on "." a with
      | [a1; a2; a3; a4] =>
          digits_upto 3 a1 && digits_upto 3 a2 && digits_upto 3 a3 && digits_upto 3 a4 && digits_upto 2 l
      | _ => false
      end
  | _ => false
  end.

Record group_form := GroupForm { gf_name : string; gf_vpn_subnet : string }.

Definition group_initial : group_form := GroupForm "" "".

Definition group_validate (v : group_form) : list (option string) :=
  [ name_validate (gf_name v);
    err (negb (bool_decide (trim (gf_vpn_subnet v) = "") || CIDR_RE (trim (gf_vpn_subnet v))))
      "Must be a CIDR like 10.8.1.0/24" ].

Definition group_body (v : group_form) : json :=
  JObj [("name", JStr (gf_name v)); ("vpn_subnet", null_json (trim (gf_vpn_subnet v)))].

(** The modals of a page are rendered when it has a tenant id. *)
Definition group_send (tenantId : string) (v : group_form) : inflight (modal string group_form) :=
  send_and (useCreateGroup (Some tenantId)) (group_body v)
    ("Group " +:+ quoted (gf_name v) +:+ " created") modal_close.

Definition group_submit : modal string group_form → option (inflight (modal string group_form)) :=
  modal_submit group_validate group_send.

(** [RenameGroupForm]: [editingGroup] holds the id and the name of the group. *)
Definition rename_initial (g : string * string) : string := g.2.

Definition rename_send (tenantId : string) (g : string * string) (name : string) :
    inflight (modal (string * string) string) :=
  send_and (useRenameGroup (Some tenantId)) (g.1, name_body name)
    ("Group renamed to " +:+ quoted name) modal_close.

Definition rename_submit (tenantId : string) :
    modal (string * string) string → option (inflight (modal (string * string) string)) :=
  modal_submit (λ v, [name_validate v]) (rename_send tenantId).

Definition delete_group {S} (tenantId : string) (g : Group) : inflight S :=
  mutate_report (useDeleteGroup (Some tenantId)) (gr_id g) ("Group " +:+ quoted (gr_name g) +:+ " deleted").

Definition group_link (tenantId groupId : string) : string :=
  "/tenants/" +:+ tenantId +:+ "/groups/" +:+ groupId.
Definition clients_link (tenantId : string) : string := "/tenants/" +:+ tenantId +:+ "/clients".

(** The last breadcrumb: [tenant?.name ?? tenantId]. *)
Definition tenant_title (tenants : option (list Tenant)) (tenantId : string) : string :=
  from_option tn_name tenantId (tenants ≫= List.find (λ t, bool_decide (tn_id t = tenantId))).

Definition groups_controls (u : option AuthUser) : list string * list string :=
  ("Clients" :: (if hasRole u [Operator] then ["New group"] else []),
   (if hasRole u [Operator] then ["Rename"] else []) ++ (if hasRole u [Admin] then ["Delete"] else [])).

(** The text of the subnet cell. *)
Definition subnet_cell (g : Group) : string :=
  if truthy_opt (gr_vpn_subnet g) then default "" (gr_vpn_subnet g) else "not set".

(** ** Clients *)

(** [ClientOut], with the fields the page reads. *)
Record ClientEntry := MkClient {
  cl_id : string;
  cl_ip : string;
  cl_hostname : option string;
  cl_owner : option string;
  cl_device_type : option string;
  cl_tags : list string;
  cl_registered_at : option string;
  cl_last_seen : string;
}.

Definition DEVICE_TYPES : list string := ["laptop"; "desktop"; "server"; "mobile"; "iot"].

(** The device type is null once its select was cleared. *)
Record client_form := ClientForm {
  cf_hostname : string;
  cf_owner : string;
  cf_device_type : option string;
  cf_tags : list string;
}.

Definition client_initial (c : ClientEntry) : client_form :=
  ClientForm (default "" (cl_hostname c)) (default "" (cl_owner c)) (Some (default "" (cl_device_type c)))
    (cl_tags c).

(** The body, or the [TypeError] of [null.trim()]. *)
Definition client_body (v : client_form) : exc json :=
  match cf_device_type v with
  | None => Throw "Cannot read properties of null (reading 'trim')"
  | Some d =>
      Ok (JObj [ ("hostname", null_json (trim (cf_hostname v))); ("owner", null_json (trim (cf_owner v)));
                 ("device_type", null_json (trim d)); ("tags", JArr (JStr <$> cf_tags v)) ])
  end.

(** The page: [editing], the modal with the form mounted in it, and the switch. *)
Record clients_page := ClientsPage {
  editing : option ClientEntry;
  edit_opened : option client_form;
  unregisteredOnly : bool;
}.

Definition clients_init : clients_page := ClientsPage None None false.

(** [edit(client)], [closeEdit], and closing by hand. *)
Definition edit (c : ClientEntry) (p : clients_page) : clients_page :=
  ClientsPage (Some c) (Some (client_initial c)) (unregisteredOnly p).
Definition closeEdit (p : clients_page) : clients_page := ClientsPage (editing p) None (unregisteredOnly p).
Definition dismiss (p : clients_page) : clients_page := ClientsPage None None (unregisteredOnly p).
Definition change (g : client_form → client_form) (p : clients_page) : clients_page :=
  ClientsPage (editing p) (g <$> edit_opened p) (unregisteredOnly p).
Definition setUnregisteredOnly (b : bool) (p : clients_page) : clients_page :=
  ClientsPage (editing p) (edit_opened p) b.

(** Save: the handler runs, and may throw before it sends anything. *)
Definition client_submit (tenantId : string) (p : clients_page) : option (exc (inflight clients_page)) :=
  c ← editing p; v ← edit_opened p;
  Some (body <- client_body v ;;
        Ok (send_and (useRegisterClient (Some tenantId)) (cl_ip c, body)
              ("Client " +:+ cl_ip c +:+ " registered") closeEdit))%exc.

Definition delete_client {S} (tenantId : string) (c : ClientEntry) : inflight S :=
  mutate_report (useDeleteClient (Some tenantId)) (cl_ip c) ("Client " +:+ cl_ip c +:+ " deleted").

Definition clients_query (tenantId : option string) (p : clients_page) : query :=
  useClients tenantId (unregisteredOnly p).

Definition empty_message (p : clients_page) : string :=
  if unregisteredOnly p then "No unregistered clients."
  else "No clients seen yet — they appear here after the first DNS query from that IP.".

Definition clients_controls (u : option AuthUser) : list string :=
  if hasRole u [Operator] then ["Edit"; "Delete"] else [].

(** A row: the texts, the tags, and the badge of the status. *)
Definition client_row (c : ClientEntry) : list string * list string * (string * string) :=
  ([cl_ip c; default "—" (cl_hostname c); default "—" (cl_owner c); default "—" (cl_device_type c)],
   cl_tags c,
   if truthy_opt (cl_registered_at c) then ("registered", "green") else ("unregistered", "gray")).

(** ** Properties *)

Lemma digits_upto_spec n s :
  digits_upto n s = true → 1 ≤ String.length s ≤ n ∧ sforall is_digit s = true.
Proof.
  unfold digits_upto, truthy. intros ?; bools. apply Nat.leb_le in H0. destruct s; [done|].
  cbn [String.length] in *. split; [lia|done].
Qed.

(** The shape of a text that the pattern accepts, and its length. *)
Lemma CIDR_RE_shape s :
  CIDR_RE s = true →
  ∃ a b c d l, s = a +:+ "." +:+ b +:+ "." +:+ c +:+ "." +:+ d +:+ "/" +:+ l ∧
    Forall (λ x, digits_upto 3 x = true) [a; b; c; d] ∧ digits_upto 2 l = true ∧
    9 ≤ String.length s ≤ 18.
Proof.
  unfold CIDR_RE. pose proof (join_split_on "/" s) as Es.
  destruct (split_on "/" s) as [|a [|l [|]]]; try done.
  pose proof (join_split_on "." a) as Ea.
  destruct (split_on "." a) as [|a1 [|a2 [|a3 [|a4 [|]]]]]; try done.
  intros ?; bools. exists a1, a2, a3, a4, l. cbn [join] in *.
  assert (s = a1 +:+ "." +:+ a2 +:+ "." +:+ a3 +:+ "." +:+ a4 +:+ "/" +:+ l) as ->
    by (rewrite <- Es, <- Ea, !sapp_assoc; done).
  split_and!; [done|by repeat constructor|done|..];
    repeat match goal with H : digits_upto _ _ = true |- _ => apply digits_upto_spec in H as [? _] end;
    rewrite !slength_app; cbn [String.length]; lia.
Qed.

Lemma lookup_GroupCreate :
  lookup_schema "GroupCreate" = Some (Obj
    [ Field "name" false TString; Field "vpn_subnet" true (TUnion [TString; TNull]) ]).
Proof. vm_compute. reflexivity. Qed.

Lemma lookup_ClientUpsert :
  lookup_schema "ClientUpsert" = Some (Obj
    [ Field "hostname" true (TUnion [TString; TNull]); Field "owner" true (TUnion [TString; TNull]);
      Field "device_type" true (TUnion [TString; TNull]); Field "tags" true (TArr TString) ]).
Proof. vm_compute. reflexivity. Qed.

Lemma name_body_conforms n name :
  n ∈ ["TenantCreate"; "GroupUpdate"] → conforms (TRef n) (name_body name) = true.
Proof. intros [->|[->|[]%not_elem_of_nil]%elem_of_cons]%elem_of_cons; reflexivity. Qed.

Lemma group_body_conforms v : conforms (TRef "GroupCreate") (group_body v) = true.
Proof.
  unfold conforms, group_body. pose proof (null_json_nullable 1 (trim (gf_vpn_subnet v))) as H. revert H.
  generalize (null_json (trim (gf_vpn_subnet v))). intros j Hj. by_fields lookup_GroupCreate. done.
Qed.

Lemma strings_conform n l : conforms_at (S n) (TArr TString) (JArr (JStr <$> l)) = true.
Proof. cbn. induction l as [|x l IH]; [done|]. cbn. by destruct n. Qed.

Lemma client_body_conforms v body : client_body v = Ok body → conforms (TRef "ClientUpsert") body = true.
Proof.
  unfold client_body. destruct (cf_device_type v) as [d|]; [|done]. intros [= <-]. unfold conforms.
  pose proof (null_json_nullable 1 (trim (cf_hostname v))) as H1.
  pose proof (null_json_nullable 1 (trim (cf_owner v))) as H2.
  pose proof (null_json_nullable 1 (trim d)) as H3. pose proof (strings_conform 0 (cf_tags v)) as H4.
  revert H1 H2 H3 H4. generalize (null_json (trim (cf_hostname v))) (null_json (trim (cf_owner v)))
    (null_json (trim d)) (JArr (JStr <$> cf_tags v)).
  intros a b c e H1 H2 H3 H4. by_fields lookup_ClientUpsert. by rewrite H1, H2, H3, H4.
Qed.

Lemma name_validate_None name : name_validate name = None ↔ 2 ≤ js_length (trim name).
Proof. unfold name_validate, err. case_bool_decide; split; (done || lia). Qed.

(** The forms for tenants and groups send a request exactly when the name has
    two characters besides the white space around it, and the subnet, when one is
    given, is four dotted numbers and a length; the request is for the tenant or
    the group the modal is for and is what the API describes.  The name goes out
    as it was typed; the subnet is sent without white space, in at most 18
    characters, or null. *)
Theorem registry_forms (tenantId : string) (g : string * string) (name : string) (v : group_form) :
  (f_call <$> tenant_submit (Some ((), name)) =
     if decide (2 ≤ js_length (trim name)) then Some (mutationFn useCreateTenant (name_body name)) else None) ∧
  (f_call <$> rename_submit tenantId (Some (g, name)) =
     if decide (2 ≤ js_length (trim name))
     then Some (mutationFn (useRenameGroup (Some tenantId)) (g.1, name_body name)) else None) ∧
  conforms (TRef "TenantCreate") (name_body name) = true ∧ conforms (TRef "GroupUpdate") (name_body name) = true ∧
  (∀ i, group_submit (Some (tenantId, v)) = Some i →
     f_call i = mutationFn (useCreateGroup (Some tenantId)) (group_body v) ∧
     conforms (TRef "GroupCreate") (group_body v) = true ∧ 2 ≤ js_length (trim (gf_name v)) ∧
     (null_json (trim (gf_vpn_subnet v)) = JNull ∨
      CIDR_RE (trim (gf_vpn_subnet v)) = true ∧ 9 ≤ String.length (trim (gf_vpn_subnet v)) ≤ 18)).
Proof.
  split_and!; [..|apply (name_body_conforms "TenantCreate"); by repeat constructor
    |apply (name_body_conforms "GroupUpdate"); by repeat constructor|].
  - unfold tenant_submit, modal_submit. cbn [mbind option_bind]. unfold onSubmit.
    case_decide as H; rewrite Forall_cons, name_validate_None in H; case_decide; try done; exfalso; naive_solver.
  - unfold rename_submit, modal_submit. cbn [mbind option_bind]. unfold onSubmit.
    case_decide as H; rewrite Forall_cons, name_validate_None in H; case_decide; try done; exfalso; naive_solver.
  - intros i [Hv ->]%onSubmit_Some. unfold group_validate in Hv.
    rewrite !Forall_cons, name_validate_None in Hv. destruct Hv as (Hn & Hs & _).
    split_and!; [done|apply group_body_conforms|done|]. unfold err in Hs.
    destruct (CIDR_RE (trim (gf_vpn_subnet v))) eqn:E.
    + right. split; [done|]. by apply CIDR_RE_shape in E as (? & ? & ? & ? & ? & _ & _ & _ & ?).
    + left. unfold null_json, or_null. rewrite orb_false_r in Hs.
      case_bool_decide as Ht; [|done]. by rewrite Ht.
Qed.

(** Texts of a client that are stored the way the form sends them. *)
Definition tidy (o : option string) : Prop := ∀ s, o = Some s → trim s = s ∧ s ≠ "".

Lemma tidy_sent o : tidy o → null_json (trim (default "" o)) = str_json o.
Proof.
  intros Ht. destruct o as [s|]; [|by vm_compute]. destruct (Ht s eq_refl) as [E Hne].
  change (default "" (Some s)) with s. unfold null_json, or_null. rewrite E. by rewrite decide_False.
Qed.

(** Save in the client modal sends a [ClientUpsert] for the address of the
    client, and saved unchanged it sends what the client has; but once the device
    type was cleared, Save throws before anything is sent, and so does every later
    one until a type is chosen again.  The modal closes when the request succeeds
    and keeps what was typed when it fails. *)
Theorem client_registration (tenantId : string) (c : ClientEntry) (v : client_form) (p : clients_page) :
  (tidy (cl_hostname c) → tidy (cl_owner c) → tidy (cl_device_type c) →
   ∃ i, client_submit tenantId (edit c p) = Some (Ok i) ∧
     f_call i = mutationFn (useRegisterClient (Some tenantId)) (cl_ip c,
       JObj [ ("hostname", str_json (cl_hostname c)); ("owner", str_json (cl_owner c));
              ("device_type", str_json (cl_device_type c)); ("tags", JArr (JStr <$> cl_tags c)) ])) ∧
  (cf_device_type v = None →
   ∃ e, client_submit tenantId (change (λ _, v) (edit c p)) = Some (Throw e)) ∧
  (cf_device_type v ≠ None →
   ∃ i body, client_submit tenantId (change (λ _, v) (edit c p)) = Some (Ok i) ∧
     f_call i = mutationFn (useRegisterClient (Some tenantId)) (cl_ip c, body) ∧
     conforms (TRef "ClientUpsert") body = true ∧
     ∀ o q, edit_opened (f_settled i o q).2 = match o with Ok _ => None | Throw _ => edit_opened q end).
Proof.
  split_and!.
  - intros H1 H2 H3. eexists. split; [reflexivity|].
    rewrite <- (tidy_sent _ H1), <- (tidy_sent _ H2), <- (tidy_sent _ H3). reflexivity.
  - intros Hd. unfold client_submit. cbn. unfold client_body. rewrite Hd. by eexists.
  - intros Hd. unfold client_submit. cbn. destruct (client_body v) as [body|e] eqn:E.
    + eexists _, body. split_and!; [done|done|by eapply client_body_conforms|]. by intros [r|e] q.
    + unfold client_body in E. by destruct (cf_device_type v).
Qed.

(** ** Examples *)

(** The pattern of the subnet does not bound the numbers. *)
Example CIDR_RE_examples :
  CIDR_RE "10.8.1.0/24" = true ∧ CIDR_RE "999.8.1.0/99" = true ∧ CIDR_RE "10.8.1.0" = false ∧
  CIDR_RE "10.8.1.0000/24" = false.
Proof. vm_compute. done. Qed.

Definition client0 : ClientEntry := MkClient "c5" "10.0.0.5" (Some "host") None (Some "laptop") ["lab"] None "2026-01-02T08:00:00Z".

Lemma registry_forms_witness :
  CIDR_RE (trim " 10.8.1.0/24 ") = true ∧
  conforms (TRef "GroupCreate") (group_body (GroupForm "engineering" " 10.8.1.0/24 ")) = true.
Proof.
  split; [vm_compute; reflexivity|].
  refine (proj1 (proj2 (proj2 (proj2 (proj2 (proj2
    (registry_forms "t1" ("g1", "old") "new" (GroupForm "engineering" " 10.8.1.0/24 "))))) _ _))).
  apply onSubmit_Some. split; [|reflexivity].
  apply (bool_decide_eq_true_1 _). vm_compute. reflexivity.
Defined.

Lemma client_registration_witness :
  ∃ e, client_submit "t1" (change (λ _, ClientForm "host" "" None []) (edit client0 clients_init)) = Some (Throw e).
Proof.
  exact (proj1 (proj2 (client_registration "t1" client0 (ClientForm "host" "" None []) clients_init)) eq_refl).
Defined.
