(* ===== verification/Settings.v ===== *)
(** * Settings

    [pages/SettingsPage.tsx]: the form of a SIEM syslog sink and the actions on the
    sinks, the change of the password, the endpoints, and the table of what each
    role can do, next to what the pages offer to each role. *)

From S2P Require Import Prelude JsText Json Web Client Errors Schema Queries Auth Forms Effects Modal Feeds Users Registry.

(** ** Syslog sinks *)

(** [SiemSyslogOut], with the fields the page reads. *)
Record SiemSyslogSink := MkSink {
  sk_id : string;
  sk_name : string;
  sk_host : string;
  sk_port : Z;
  sk_transport : string;
  sk_format : string;
  sk_filter_decision : string;
  sk_last_error : option string;
  sk_consecutive_failures : Z;
  sk_last_delivered_at : option string;
  sk_enabled : bool;
}.

(** A select is null once its option was clicked again. *)
Record syslog_form := SyslogForm {
  sy_name : string;
  sy_host : string;
  sy_port : num_value;
  sy_transport : option string;
  sy_format : option string;
  sy_facility : num_value;
  sy_app_name : string;
  sy_batch_size : num_value;
  sy_flush_interval_s : num_value;
  sy_filter_decision : option string;
  sy_enabled : bool;
}.

Definition syslog_initial : syslog_form :=
  SyslogForm "" "" (Num 514) (Some "tls") (Some "cef") (Num 16) "mantis-dns" (Num 200) (Num 30) (Some "all") true.

(** The values the selects offer. *)
Definition TRANSPORTS : list string := ["tls"; "tcp"; "udp"].
Definition FORMATS : list string := ["cef"; "json"].
Definition FILTERS : list string := ["all"; "block"; "allow"].

(** [v < 1 || v > 65535]; the empty text and null count as zero. *)
Definition bad_port (v : num_value) : bool :=
  let n := match v with Num n => n | _ => 0%Z end in (n <? 1)%Z || (65535 <? n)%Z.

(** [/^[!-~]+$/.test(v)] *)
Definition app_name_ok (s : string) : bool := truthy s && sforall visible s.

Definition syslog_validate (v : syslog_form) : list (option string) :=
  [ err (bool_decide (js_length (trim (sy_name v)) < 2)) "Required";
    err (bool_decide (js_length (trim (sy_host v)) = 0)) "Required";
    err (bad_port (sy_port v)) "Must be 1–65535";
    err (negb (app_name_ok (sy_app_name v))) "No spaces or control characters" ].

Definition syslog_body (v : syslog_form) : json :=
  JObj [ ("name", JStr (sy_name v)); ("host", JStr (sy_host v)); ("port", num_json (sy_port v));
         ("transport", str_json (sy_transport v)); ("format", str_json (sy_format v));
         ("facility", num_json (sy_facility v)); ("app_name", JStr (sy_app_name v));
         ("batch_size", num_json (sy_batch_size v)); ("flush_interval_s", num_json (sy_flush_interval_s v));
         ("filter_decision", str_json (sy_filter_decision v)); ("enabled", JBool (sy_enabled v)) ].

Definition syslog_send (_ : unit) (v : syslog_form) : inflight (modal unit syslog_form) :=
  send_and useCreateSiemSyslogSink (syslog_body v)
    ("Syslog sink " +:+ quoted (sy_name v) +:+ " created") modal_close.

Definition syslog_submit : modal unit syslog_form → option (inflight (modal unit syslog_form)) :=
  modal_submit syslog_validate syslog_send.

(** *** The actions of a row *)

(** The state of the section besides its modal: [testingId]. *)
Definition testing : Type := option string.

Definition sink_toggle (s : SiemSyslogSink) : inflight testing :=
  mutate useUpdateSiemSyslogSink (sk_id s, JObj [("enabled", JBool (negb (sk_enabled s)))]) quietly show_error.

(** The message of a test.  A datagram that was sent may not have arrived. *)
Definition test_note (s : SiemSyslogSink) (r : option json) : note :=
  if truthy_json (member "success" r)
  then green (sk_name s +:+ (if decide (sk_transport s = "udp") then ": sent (UDP — delivery not confirmed)"
                             else ": sent"))
  else red (sk_name s +:+ ": failed — " +:+ member_text "error" r).

(** [test(s)]: the section while the request runs, and the request. *)
Definition test (s : SiemSyslogSink) (t : testing) : testing * inflight testing :=
  (Some (sk_id s),
   mutate useTestSiemSyslogSink (sk_id s) (λ r _, ([test_note s r], None)) (λ e _, ([red (formatError e)], None))).

Definition delete_sink (s : SiemSyslogSink) : inflight testing :=
  mutate_report useDeleteSiemSyslogSink (sk_id s) ("Syslog sink " +:+ quoted (sk_name s) +:+ " deleted").

(** *** A row *)

Record sink_row := SinkRow {
  sr_destination : string * string;
  sr_transport : string * string;
  sr_format : string;
  sr_filter : string;
  sr_delivery : string * string;
  sr_enabled : bool;
  sr_testing : bool;
}.

Section row.
(** [new Date(s).toLocaleTimeString()] *)
Variable toLocaleTimeString : string → string.

Definition last_delivery (s : SiemSyslogSink) : string * string :=
  if truthy_opt (sk_last_error s) then (Z_str (sk_consecutive_failures s) +:+ " failures", "red")
  else if truthy_opt (sk_last_delivered_at s)
  then (from_option toLocaleTimeString "" (sk_last_delivered_at s), "green")
  else ("no deliveries yet", "gray").

Definition sink_row_view (t : testing) (s : SiemSyslogSink) : sink_row :=
  SinkRow (sk_name s, sk_host s +:+ ":" +:+ Z_str (sk_port s))
    (toUpperCase (sk_transport s), if decide (sk_transport s = "udp") then "orange" else "teal")
    (toUpperCase (sk_format s)) (sk_filter_decision s) (last_delivery s) (sk_enabled s)
    (bool_decide (t = Some (sk_id s))).
End row.

(** ** The password *)

Record password_form := PasswordForm {
  pw_current : string;
  pw_new : string;
  pw_confirm : string;
}.

Definition password_initial : password_form := PasswordForm "" "" "".

Definition password_validate (v : password_form) : list (option string) :=
  [ err (bool_decide (js_length (pw_current v) = 0)) "Required";
    err (bool_decide (js_length (pw_new v) < 12)) "Minimum 12 characters";
    err (bool_decide (pw_confirm v ≠ pw_new v)) "Passwords do not match" ].

Definition password_body (v : password_form) : json :=
  JObj [("current_password", JStr (pw_current v)); ("new_password", JStr (pw_new v))].

(** The form is the state; success resets it. *)
Definition password_submit : password_form → option (inflight password_form) :=
  onSubmit password_validate
    (λ v, mutate useChangePassword (password_body v) (show_and "Password changed" (λ _, password_initial)) show_error).

(** ** Endpoints *)

(** Label and address of the three endpoints. *)
Definition endpoints (newURL : string → string → string) (b : browser) (vite_api_url : option string) :
    list (string * string) :=
  let url := apiUrl newURL b vite_api_url in
  [ ("Control plane API", API_BASE b vite_api_url); ("OpenAPI / Swagger", url "/docs");
    ("ReDoc reference", url "/redoc") ].

(** ** Roles *)

Record capability := Capability { cp_name : string; cp_admin : bool; cp_operator : bool; cp_viewer : bool }.

#[export] Instance capability_eq_dec : EqDecision capability.
Proof. solve_decision. Defined.

Definition CAPABILITIES : list capability :=
  [ Capability "View dashboard & analytics"  true true  true;
    Capability "View tenants, groups, feeds" true true  true;
    Capability "View DNS zones & records"    true true  true;
    Capability "View audit log"              true true  false;
    Capability "Edit tenants & groups"       true true  false;
    Capability "Edit policies & feeds"       true true  false;
    Capability "Manage DNS zones & records"  true true  false;
    Capability "Configure SIEM integrations" true false false;
    Capability "Manage users"                true false false;
    Capability "System settings"             true false false ].

Definition cp_has (c : capability) (r : Role) : bool :=
  match r with Admin => cp_admin c | Operator => cp_operator c | Viewer => cp_viewer c end.

(** What the integrations tab holds: the sinks, for administrators. *)
Definition integrations_shown (u : option AuthUser) : bool := hasRole u [Admin].

(** The panel that [tab] of the URL selects; an unknown name selects none. *)
Definition TABS : list string := ["system"; "security"; "integrations"].
Definition panel (tab : string) : option string := if decide (tab ∈ TABS) then Some tab else None.

(** Who may save a policy, and who may change zones. *)
Definition policy_can_edit (u : option AuthUser) : bool := hasRole u [Operator].
Definition zones_can_write (u : option AuthUser) : bool := hasRole u [Operator].

(** Whether the navigation bar leads to a page. *)
Definition in_nav (u : option AuthUser) (to : string) : bool :=
  existsb (λ i, bool_decide (nav_to i = to)) (visibleNavItems u).

(** What the pages offer of the capabilities that the table names.  Managing users is
    read as the item of the sidebar; the page itself asks for no role ([UsersPage.v]). *)
Definition offered (u : option AuthUser) : list (string * bool) :=
  let feeds := fv_add_buttons (page_view Z_str id 0 (hasRole u [Admin]) page_init [] [] []) in
  [ ("View dashboard & analytics", in_nav u "/dashboard" && in_nav u "/analytics");
    ("View tenants, groups, feeds", in_nav u "/tenants" && in_nav u "/feeds");
    ("View DNS zones & records", in_nav u "/zones");
    ("View audit log", in_nav u "/audit");
    ("Edit tenants & groups", bool_decide ("New tenant" ∈ (tenants_controls u).1 ∧
                                           "New group" ∈ (groups_controls u).1 ∧ "Rename" ∈ (groups_controls u).2));
    ("Edit policies & feeds", policy_can_edit u && feeds);
    ("Manage DNS zones & records", zones_can_write u);
    ("Configure SIEM integrations", integrations_shown u);
    ("Manage users", in_nav u "/users") ].

(** ** Properties *)

Lemma lookup_SiemSyslogCreate :
  lookup_schema "SiemSyslogCreate" = Some (Obj
    [ Field "tenant_id" true (TUnion [TString; TNull]); Field "name" false TString; Field "host" false TString;
      Field "port" false TNumber; Field "transport" false (TUnion [TLit "tcp"; TLit "tls"; TLit "udp"]);
      Field "format" false (TUnion [TLit "json"; TLit "cef"]); Field "facility" false TNumber;
      Field "app_name" false TString; Field "batch_size" false TNumber; Field "flush_interval_s" false TNumber;
      Field "filter_decision" false (TUnion [TLit "all"; TLit "block"; TLit "allow"]);
      Field "ca_cert_pem" true (TUnion [TString; TNull]); Field "enabled" false TBool ]).
Proof. vm_compute. reflexivity. Qed.

Lemma syslog_body_conforms v :
  conforms (TRef "SiemSyslogCreate") (syslog_body v) =
  is_num (sy_port v) && chosen (sy_transport v) ["tcp"; "tls"; "udp"] && chosen (sy_format v) ["json"; "cef"] &&
  is_num (sy_facility v) && is_num (sy_batch_size v) && is_num (sy_flush_interval_s v) &&
  chosen (sy_filter_decision v) ["all"; "block"; "allow"].
Proof.
  unfold conforms, syslog_body. rewrite <- !(num_json_is_num 1), <- !(literals_conform 1).
  generalize (num_json (sy_port v)) (num_json (sy_facility v)) (num_json (sy_batch_size v))
    (num_json (sy_flush_interval_s v)) (str_json (sy_transport v)) (str_json (sy_format v))
    (str_json (sy_filter_decision v)).
  intros p f b i t m d. by_fields lookup_SiemSyslogCreate. cbn [fmap list_fmap].
  by rewrite !andb_assoc.
Qed.

(** A syslog sink is sent only with a port between 1 and 65535, a host, and an
    application name of visible ASCII characters, as the header of RFC 5424 needs;
    what is sent is a [SiemSyslogCreate] exactly when no select was deselected and
    no other number cleared, which the form does not check. *)
Theorem syslog_form_checked (v : syslog_form) (i : inflight (modal unit syslog_form)) :
  syslog_submit (Some ((), v)) = Some i →
  f_call i = mutationFn useCreateSiemSyslogSink (syslog_body v) ∧
  (∃ port, sy_port v = Num port ∧ (1 ≤ port ≤ 65535)%Z) ∧
  2 ≤ js_length (trim (sy_name v)) ∧ trim (sy_host v) ≠ "" ∧
  sy_app_name v ≠ "" ∧ sforall visible (sy_app_name v) = true ∧
  (conforms (TRef "SiemSyslogCreate") (syslog_body v) = true ↔
   chosen (sy_transport v) TRANSPORTS = true ∧ chosen (sy_format v) FORMATS = true ∧
   chosen (sy_filter_decision v) FILTERS = true ∧
   is_num (sy_facility v) = true ∧ is_num (sy_batch_size v) = true ∧ is_num (sy_flush_interval_s v) = true).
Proof.
  intros [Hv ->]%onSubmit_Some. unfold syslog_validate in Hv. rewrite !Forall_cons in Hv.
  destruct Hv as (Hn & Hh & Hp & Ha & _). unfold err, app_name_ok, truthy in *.
  assert (∃ port, sy_port v = Num port ∧ (1 ≤ port ≤ 65535)%Z) as (port & Ep & Hb).
  { unfold bad_port in Hp. destruct (sy_port v) as [| |n]; [done..|]. exists n. split; [done|].
    destruct (n <? 1)%Z eqn:E1, (65535 <? n)%Z eqn:E2; cbn in Hp; try done. lia. }
  repeat case_bool_decide; cbn in Ha; try done.
  destruct (sforall visible (sy_app_name v)) eqn:Evis; [|done].
  split_and!; try done; [by exists port|lia|by intros E; rewrite E in *|].
  rewrite syslog_body_conforms, Ep. cbn [is_num]. unfold chosen, TRANSPORTS, FORMATS, FILTERS.
  rewrite !andb_true_iff.
  assert (∀ s, bool_decide (s ∈ ["tcp"; "tls"; "udp"]) = bool_decide (s ∈ ["tls"; "tcp"; "udp"])) as Ht.
  { intros s. apply bool_decide_ext. set_solver. }
  assert (∀ s, bool_decide (s ∈ ["json"; "cef"]) = bool_decide (s ∈ ["cef"; "json"])) as Hf.
  { intros s. apply bool_decide_ext. set_solver. }
  destruct (sy_transport v), (sy_format v); rewrite ?Ht, ?Hf; tauto.
Qed.

Lemma password_conforms v : conforms (TRef "ChangePasswordRequest") (password_body v) = true.
Proof. destruct v. reflexivity. Qed.

(** The password is changed only with the current one given, a new one of at
    least twelve characters, and the same text typed twice; the request carries
    the two passwords of the API's description and not the confirmation; the three
    fields are emptied when it succeeds, whatever they hold by then, and kept when
    it fails. *)
Theorem password_change (v w : password_form) :
  (password_submit v = None ↔
   js_length (pw_current v) = 0 ∨ js_length (pw_new v) < 12 ∨ pw_confirm v ≠ pw_new v) ∧
  (∀ i, password_submit v = Some i →
     f_call i = mutationFn useChangePassword
       (JObj [("current_password", JStr (pw_current v)); ("new_password", JStr (pw_confirm v))]) ∧
     conforms (TRef "ChangePasswordRequest") (password_body v) = true ∧ f_cache i = [] ∧
     (∀ r, f_settled i (Ok r) w = ([green "Password changed"], password_initial)) ∧
     (∀ e, f_settled i (Throw e) w = ([red (formatError e)], w))).
Proof.
  split.
  - unfold password_submit, onSubmit, password_validate, err. case_decide as H; rewrite !Forall_cons in H.
    + split; [done|]. destruct H as (H1 & H2 & H3 & _). intros Hor. exfalso.
      repeat case_bool_decide; naive_solver.
    + split; [intros _|done]. repeat case_bool_decide; try tauto. exfalso. naive_solver.
  - intros i [Hv ->]%onSubmit_Some. unfold password_validate, err in Hv. rewrite !Forall_cons in Hv.
    destruct Hv as (_ & _ & Hc & _). case_bool_decide as E; [done|].
    split_and!; [cbn; unfold password_body; by rewrite E|apply password_conforms|done|done|done].
Qed.

Definition role_user (r : Role) : option AuthUser := Some (MkAuthUser "1" "a@x" r None).

(** What the pages offer depends on the role alone. *)
Lemma offered_role v : offered (Some v) = offered (role_user (u_role v)).
Proof. done. Qed.

(** The comparison of the table with the pages, computed. *)
Definition table_checked (r : Role) : bool :=
  forallb (λ o, forallb (λ c,
    negb (bool_decide (o.1 = cp_name c)) || Bool.eqb o.2 (cp_has c r) ||
    bool_decide (cp_name c = "Edit policies & feeds" ∧ r = Operator ∧ o.2 = false ∧ cp_has c Operator = true))
    CAPABILITIES) (offered (role_user r)).

Lemma table_checked_all r : table_checked r = true.
Proof. destruct r; vm_compute; reflexivity. Qed.

(** The table of roles gives no role more than a higher one, and says of every
    role what the pages offer it, with one exception: an operator is said to edit
    policies and feeds, and the feeds page offers an operator nothing. *)
Theorem capabilities_agree (v : AuthUser) (c : capability) (b : bool) :
  c ∈ CAPABILITIES →
  (∀ r r', (ROLE_RANK r ≤ ROLE_RANK r')%Z → cp_has c r = true → cp_has c r' = true) ∧
  ((cp_name c, b) ∈ offered (Some v) →
   b = cp_has c (u_role v) ∨
   cp_name c = "Edit policies & feeds" ∧ u_role v = Operator ∧ b = false ∧ cp_has c Operator = true).
Proof.
  intros Hc. split.
  - intros r r' Hr. revert Hc. unfold CAPABILITIES. rewrite !elem_of_cons.
    intros Hc. repeat (destruct Hc as [->|Hc]; [by destruct r, r'|]). by apply not_elem_of_nil in Hc.
  - rewrite offered_role. intros Ho. pose proof (table_checked_all (u_role v)) as H.
    unfold table_checked in H. rewrite forallb_forall in H.
    specialize (H _ (proj1 (list_elem_of_In _ _) Ho)). rewrite forallb_forall in H.
    specialize (H _ (proj1 (list_elem_of_In _ _) Hc)). cbn [fst snd] in H.
    rewrite bool_decide_eq_true_2 in H by done. cbn [negb orb] in H.
    apply orb_true_iff in H as [H%Bool.eqb_prop|H%bool_decide_eq_true]; auto.
Qed.

(** ** Examples *)

Example test_note_udp :
  test_note (MkSink "1" "wazuh" "10.0.0.1" 514 "udp" "cef" "all" None 0 None true)
    (Some (JObj [("success", JBool true)])) = green "wazuh: sent (UDP — delivery not confirmed)".
Proof. reflexivity. Qed.

Definition syslog0 : syslog_form :=
  SyslogForm "wazuh" "10.0.0.1" (Num 6514) (Some "tls") (Some "cef") (Num 16) "mantis-dns" (Num 200) (Num 30)
    (Some "all") true.

Lemma syslog_form_checked_witness :
  conforms (TRef "SiemSyslogCreate") (syslog_body syslog0) = true.
Proof.
  refine (proj2 (proj2 (proj2 (proj2 (proj2 (proj2 (proj2
    (syslog_form_checked syslog0 (syslog_send () syslog0) _)))))))  _).
  - apply onSubmit_Some. split; [|reflexivity]. apply (bool_decide_eq_true_1 _). vm_compute. reflexivity.
  - vm_compute. done.
Defined.

Lemma password_change_witness :
  password_submit (PasswordForm "old password" "new password 1" "new password 2") = None.
Proof.
  apply (password_change (PasswordForm "old password" "new password 1" "new password 2") password_initial).
  right. right. done.
Defined.

Lemma capabilities_agree_witness :
  cp_has (Capability "View audit log" true true false) Viewer = false ∧
  (false = cp_has (Capability "View audit log" true true false) Viewer ∨
   "View audit log" = "Edit policies & feeds" ∧ Viewer = Operator ∧ false = false ∧ true = true).
Proof.
  split; [reflexivity|].
  refine (proj2 (capabilities_agree (MkAuthUser "1" "a@x" Viewer None)
    (Capability "View audit log" true true false) false _) _).
  - apply (bool_decide_eq_true_1 _). vm_compute. reflexivity.
  - apply (bool_decide_eq_true_1 _). vm_compute. reflexivity.
Defined.
