(* ===== verification/AdminForms.v ===== *)
(** * The forms of the feeds, users, settings, tenants, groups and clients pages

    The controls of [AddFeedModal], [BulkAddFeedModal], [EditFeedModal]
    ([pages/FeedsPage.tsx]), [AddUserModal], [EditUserModal] ([pages/UsersPage.tsx]),
    [AddSyslogForm], [ChangePasswordForm] ([pages/SettingsPage.tsx]), and of the
    forms of the tenants, groups and clients pages: what they send for whatever is
    filled in, and the scripts that enter a given entity. *)

From S2P Require Import Prelude JsText Json Schema Queries Forms Controls Effects Modal Feeds Users Registry Settings.

(** ** Feeds *)

Definition add_feed_controls (v : add_form) : list (control add_form) :=
  [ TextInput "Feed ID" (λ x v, v <| af_id := x |>);
    TextInput "Category" (λ x v, v <| af_category_id := x |>);
    TextInput "Source URL" (λ x v, v <| af_url := x |>);
    Select "Format" FORMAT_OPTIONS (λ x v, v <| af_format := x |>);
    NumberInput "Refresh interval (seconds)" (Some 60%Z) None (λ x v, v <| af_interval_seconds := x |>);
    TextInput "Provider" (λ x v, v <| af_provider := x |>);
    TextInput "License" (λ x v, v <| af_license := x |>) ].

(** The text area with the lines has no label. *)
Definition bulk_controls (v : bulk_form) : list (control bulk_form) :=
  [ TextInput "" (λ x v, v <| bf_lines := x |>);
    TextInput "Category" (λ x v, v <| bf_category_id := x |>);
    Select "Format" FORMAT_OPTIONS (λ x v, v <| bf_format := x |>);
    NumberInput "Refresh interval (seconds)" (Some 60%Z) None (λ x v, v <| bf_interval_seconds := x |>);
    TextInput "Provider" (λ x v, v <| bf_provider := x |>);
    TextInput "License" (λ x v, v <| bf_license := x |>) ].

(** The URL and the format of a feed of the catalog are disabled. *)
Definition edit_feed_controls (f : feed) (v : edit_form) : list (control edit_form) :=
  [ disabled_if (edit_disabled f) (TextInput "Source URL" (λ x v, v <| ef_url := x |>));
    TextInput "Category" (λ x v, v <| ef_category_id := x |>);
    disabled_if (edit_disabled f) (Select "Format" FORMAT_OPTIONS (λ x v, v <| ef_format := x |>));
    NumberInput "Refresh interval (seconds)" (Some 60%Z) None (λ x v, v <| ef_interval_seconds := x |>);
    TextInput "Provider" (λ x v, v <| ef_provider := x |>);
    TextInput "License" (λ x v, v <| ef_license := x |>) ].

(** ** Users *)

Definition add_user_controls (tenants : list (string * string)) (v : add_user) : list (control add_user) :=
  [ TextInput "Email" (λ x v, v <| au_email := x |>);
    TextInput "Password" (λ x v, v <| au_password := x |>);
    Select "Role" ROLE_OPTIONS (λ x v, v <| au_role := x |>);
    Select "Tenant scope" (tenantOptions tenants).*1 (λ x v, v <| au_tenant_id := x |>) ].

Definition edit_user_controls (tenants : list (string * string)) (v : edit_user) : list (control edit_user) :=
  [ Disabled "Email";
    Select "Role" ROLE_OPTIONS (λ x v, v <| eu_role := x |>);
    Select "Tenant scope" (tenantOptions tenants).*1 (λ x v, v <| eu_tenant_id := x |>) ].

(** ** Settings *)

Definition syslog_controls (v : syslog_form) : list (control syslog_form) :=
  [ TextInput "Name" (λ x v, v <| sy_name := x |>);
    TextInput "Host" (λ x v, v <| sy_host := x |>);
    NumberInput "Port" (Some 1%Z) (Some 65535%Z) (λ x v, v <| sy_port := x |>);
    Select "Transport" TRANSPORTS (λ x v, v <| sy_transport := x |>);
    Select "Format" FORMATS (λ x v, v <| sy_format := x |>);
    NumberInput "Facility" (Some 0%Z) (Some 23%Z) (λ x v, v <| sy_facility := x |>);
    LimitedInput "APP-NAME" 48 (λ x v, v <| sy_app_name := x |>);
    Select "Event filter" FILTERS (λ x v, v <| sy_filter_decision := x |>);
    NumberInput "Batch size" (Some 1%Z) (Some 10000%Z) (λ x v, v <| sy_batch_size := x |>);
    NumberInput "Flush interval (s)" (Some 10%Z) (Some 86400%Z) (λ x v, v <| sy_flush_interval_s := x |>) ].

Definition password_controls (v : password_form) : list (control password_form) :=
  [ TextInput "Current password" (λ x v, v <| pw_current := x |>);
    TextInput "New password" (λ x v, v <| pw_new := x |>);
    TextInput "Confirm new password" (λ x v, v <| pw_confirm := x |>) ].

(** ** Tenants, groups and clients *)

Definition tenant_controls (v : string) : list (control string) := [TextInput "Tenant name" (λ x _, x)].

Definition group_controls (v : group_form) : list (control group_form) :=
  [ TextInput "Group name" (λ x v, v <| gf_name := x |>);
    TextInput "VPN subnet (CIDR)" (λ x v, v <| gf_vpn_subnet := x |>) ].

Definition rename_controls (v : string) : list (control string) := [TextInput "Group name" (λ x _, x)].

Definition client_controls (v : client_form) : list (control client_form) :=
  [ Disabled "IP";
    TextInput "Hostname" (λ x v, v <| cf_hostname := x |>);
    TextInput "Owner" (λ x v, v <| cf_owner := x |>);
    Select "Device type" DEVICE_TYPES (λ x v, v <| cf_device_type := x |>);
    TagsInput "Tags" (λ x v, v <| cf_tags := x |>) ].

(** ** What is sent *)

Lemma lookup_FeedCreate :
  lookup_schema "FeedCreate" = Some (Obj
    [ Field "id" false TString; Field "category_id" false TString; Field "url" false TString;
      Field "format" false TString; Field "interval_seconds" false TNumber; Field "license" false TString;
      Field "provider" false TString; Field "enabled" false TBool ]).
Proof. vm_compute. reflexivity. Qed.

Lemma lookup_FeedUpdate :
  lookup_schema "FeedUpdate" = Some (Obj
    [ Field "category_id" true (TUnion [TString; TNull]); Field "url" true (TUnion [TString; TNull]);
      Field "format" true (TUnion [TString; TNull]); Field "interval_seconds" true (TUnion [TNumber; TNull]);
      Field "license" true (TUnion [TString; TNull]); Field "provider" true (TUnion [TString; TNull]);
      Field "enabled" true (TUnion [TBool; TNull]) ]).
Proof. vm_compute. reflexivity. Qed.

Lemma feed_body_conforms id cat url fmt n prov lic :
  conforms (TRef "FeedCreate") (feed_body id cat url fmt n prov lic) = bool_decide (is_Some fmt) && is_num n.
Proof.
  unfold conforms, feed_body. rewrite <- (str_json_string 1), <- (num_json_is_num 1).
  generalize (str_json fmt) (num_json n). intros f i. by_fields lookup_FeedCreate. done.
Qed.

Lemma edit_body_conforms v :
  conforms (TRef "FeedUpdate") (edit_body v) = not_cleared (ef_interval_seconds v).
Proof.
  unfold conforms, edit_body. rewrite <- (num_json_nullable 1).
  pose proof (str_json_nullable 1 (ef_format v)) as Hf. revert Hf.
  generalize (str_json (ef_format v)) (num_json (ef_interval_seconds v)). intros f i Hf.
  by_fields lookup_FeedUpdate. by rewrite Hf.
Qed.

(** *** What the forms can hold *)

Definition add_feed_ok (v : add_form) : Prop :=
  from_options (af_format v) FORMAT_OPTIONS ∧ af_interval_seconds v ≠ NumNull.

Lemma add_feed_filled v : fillable add_feed_controls add_initial v → add_feed_ok v.
Proof.
  apply fillable_keeps; [|split; [apply from_options_Some; by right; left|done]]. unfold add_feed_ok.
  intros u [Hf Hn]. unfold add_feed_controls. each_control; done.
Qed.

Definition bulk_ok (v : bulk_form) : Prop :=
  from_options (bf_format v) FORMAT_OPTIONS ∧ bf_interval_seconds v ≠ NumNull.

Lemma bulk_filled v : fillable bulk_controls bulk_initial v → bulk_ok v.
Proof.
  apply fillable_keeps; [|split; [apply from_options_Some; by right; left|done]]. unfold bulk_ok.
  intros u [Hf Hn]. unfold bulk_controls. each_control; done.
Qed.

Lemma from_options_mono o l l' : from_options o l → l ⊆ l' → from_options o l'.
Proof. destruct o as [s|]; [|intros; apply from_options_None]. rewrite !from_options_Some. naive_solver. Qed.

(** The URL and the format of a catalog feed stay. *)
Definition catalog_kept (f : feed) (v : edit_form) : Prop :=
  f_from_catalog f = true → ef_url v = f_url f ∧ ef_format v = Some (f_format f).

Lemma edit_feed_filled f v :
  fillable (edit_feed_controls f) (edit_initial (Some f)) v → catalog_kept f v.
Proof.
  apply fillable_keeps; [|done]. unfold catalog_kept, edit_feed_controls, edit_disabled.
  intros u Hu. destruct (f_from_catalog f); cbn [disabled_if]; each_control; done.
Qed.

(** The format of an edited feed is an offered one, the one it had, or none. *)
Definition edit_format_ok (f : feed) (v : edit_form) : Prop :=
  from_options (ef_format v) (f_format f :: FORMAT_OPTIONS).

Lemma edit_format_filled f v :
  fillable (edit_feed_controls f) (edit_initial (Some f)) v → edit_format_ok f v.
Proof.
  apply fillable_keeps; [|apply from_options_Some; by left]. unfold edit_format_ok, edit_feed_controls.
  intros u Hu. each_control; try done. cbn. apply (from_options_mono _ FORMAT_OPTIONS); [done|set_solver].
Qed.

Definition add_user_ok (tenants : list (string * string)) (v : add_user) : Prop :=
  from_options (au_role v) ROLE_OPTIONS ∧ from_options (au_tenant_id v) ("" :: tenants.*1).

Lemma add_user_filled tenants v : fillable (add_user_controls tenants) add_user_initial v → add_user_ok tenants v.
Proof.
  apply fillable_keeps; [|split; apply from_options_Some; [by right; right; left|by left]]. unfold add_user_ok.
  intros u [Hr Ht]. unfold add_user_controls. each_control; done.
Qed.

Definition edit_user_ok (tenants : list (string * string)) (u : User) (v : edit_user) : Prop :=
  from_options (eu_role v) (us_role u :: ROLE_OPTIONS) ∧
  from_options (select_or_null (eu_tenant_id v)) (option_list (us_tenant_id u) ++ tenants.*1).

Lemma select_or_null_options o l : from_options o ("" :: l) → from_options (select_or_null o) l.
Proof.
  destruct o as [s|]; cbn; [|intros _; apply from_options_None]. unfold or_null.
  case_decide; [intros _; apply from_options_None|]. rewrite !from_options_Some, elem_of_cons. naive_solver.
Qed.

Lemma edit_user_filled tenants u v :
  fillable (edit_user_controls tenants) (edit_user_initial u) v → edit_user_ok tenants u v.
Proof.
  apply fillable_keeps.
  - unfold edit_user_ok. intros w [Hr Ht]. unfold edit_user_controls. each_control; cbn; split; try done.
    + eapply from_options_mono; [done|]. set_solver.
    + apply (from_options_mono _ tenants.*1); [by apply (select_or_null_options o)|set_solver].
  - split; [apply from_options_Some; by left|]. cbn. unfold or_null.
    case_decide; [apply from_options_None|]. apply from_options_Some, elem_of_app. left.
    destruct (us_tenant_id u) as [t|]; [by left|done].
Qed.

Definition syslog_ok (v : syslog_form) : Prop :=
  from_options (sy_transport v) TRANSPORTS ∧ from_options (sy_format v) FORMATS ∧
  from_options (sy_filter_decision v) FILTERS ∧
  sy_port v ≠ NumNull ∧ sy_facility v ≠ NumNull ∧ sy_batch_size v ≠ NumNull ∧ sy_flush_interval_s v ≠ NumNull ∧
  js_length (sy_app_name v) ≤ 48.

Lemma syslog_filled v : fillable syslog_controls syslog_initial v → syslog_ok v.
Proof.
  apply fillable_keeps.
  - unfold syslog_ok. intros u (H1 & H2 & H3 & H4 & H5 & H6 & H7 & H8). unfold syslog_controls.
    each_control; cbn; split_and!; done.
  - split_and!; try done; try (apply from_options_Some; by left). apply (bool_decide_eq_true_1 _). by vm_compute.
Qed.

Definition syslog_bounded (v : syslog_form) : Prop :=
  in_bounds (Some 1%Z) (Some 65535%Z) (sy_port v) ∧ in_bounds (Some 0%Z) (Some 23%Z) (sy_facility v) ∧
  in_bounds (Some 1%Z) (Some 10000%Z) (sy_batch_size v) ∧ in_bounds (Some 10%Z) (Some 86400%Z) (sy_flush_interval_s v).

Lemma syslog_left l v :
  Forall (λ a, left_input a.2) l → fill syslog_controls l syslog_initial = Some v → syslog_bounded v.
Proof.
  intros Hl. apply (fill_keeps _ left_input syslog_bounded); [|done|].
  - unfold syslog_bounded. intros u (H1 & H2 & H3 & H4). unfold syslog_controls. each_control; cbn; split_and!; done.
  - unfold syslog_bounded, syslog_initial. cbn. lia.
Qed.

(** No select was deselected and no number cleared. *)
Definition syslog_filled_in (v : syslog_form) : bool :=
  bool_decide (is_Some (sy_transport v)) && bool_decide (is_Some (sy_format v)) &&
  bool_decide (is_Some (sy_filter_decision v)) && not_cleared (sy_port v) && not_cleared (sy_facility v) &&
  not_cleared (sy_batch_size v) && not_cleared (sy_flush_interval_s v).

Lemma not_null_num x : x ≠ NumNull → is_num x = not_cleared x.
Proof. by destruct x. Qed.

Lemma syslog_sends v :
  syslog_ok v → conforms (TRef "SiemSyslogCreate") (syslog_body v) = syslog_filled_in v.
Proof.
  intros (H1 & H2 & H3 & H4 & H5 & H6 & H7 & _). rewrite syslog_body_conforms, !not_null_num by done.
  destruct (from_options_chosen _ _ ["tcp"; "tls"; "udp"] H1) as [-> _]; [unfold TRANSPORTS; set_solver|].
  destruct (from_options_chosen _ _ ["json"; "cef"] H2) as [-> _]; [unfold FORMATS; set_solver|].
  destruct (from_options_chosen _ _ ["all"; "block"; "allow"] H3) as [-> _]; [done|].
  unfold syslog_filled_in.
  generalize (bool_decide (is_Some (sy_transport v))) (bool_decide (is_Some (sy_format v)))
    (bool_decide (is_Some (sy_filter_decision v))) (not_cleared (sy_port v)) (not_cleared (sy_facility v))
    (not_cleared (sy_batch_size v)) (not_cleared (sy_flush_interval_s v)).
  by intros [] [] [] [] [] [] [].
Qed.

(** The device type of a client that has one is not taken away. *)
Definition typed (v : client_form) : Prop := ∀ d, cf_device_type v = Some d → trim d ≠ "".

Lemma client_filled c v :
  (∃ d, cl_device_type c = Some d ∧ trim d ≠ "") → fillable client_controls (client_initial c) v → typed v.
Proof.
  intros (d & Hd & Ht). apply fillable_keeps.
  - unfold typed. intros u Hu. unfold client_controls. each_control; try done. intros e He. assert (o = Some e) as -> by exact He.
    match goal with H : Some e ∈ _ |- _ => apply (from_options_Some e) in H; revert H end. unfold DEVICE_TYPES.
    rewrite !elem_of_cons, elem_of_nil. intros [-> |[-> |[-> |[-> |[-> |[]]]]]]; by vm_compute.
  - unfold typed, client_initial. cbn [cf_device_type]. rewrite Hd. by intros e [= <-].
Qed.

(** ** Entering an entity *)

Definition feed_fields (f : feed) : list (string * input) :=
  [ ("Category", Typed (f_category_id f)); ("Refresh interval (seconds)", Entered (f_interval_seconds f));
    ("Provider", Typed (f_provider f)); ("License", Typed (f_license f)) ].
Definition feed_source (f : feed) : list (string * input) :=
  [("Source URL", Typed (f_url f)); ("Format", Chosen (f_format f))].

Definition add_feed_script (f : feed) : list (string * input) :=
  ("Feed ID", Typed (f_id f)) :: feed_source f ++ feed_fields f.
Definition edit_feed_script (catalog : bool) (f : feed) : list (string * input) :=
  (if catalog then [] else feed_source f) ++ feed_fields f.

Definition feed_enterable (f : feed) : Prop := f_format f ∈ FORMAT_OPTIONS ∧ (60 ≤ f_interval_seconds f)%Z.

Lemma add_feed_script_fills f :
  feed_enterable f →
  fill add_feed_controls (add_feed_script f) add_initial =
    Some (AddForm (f_id f) (f_category_id f) (f_url f) (Some (f_format f)) (Num (f_interval_seconds f))
            (f_provider f) (f_license f)).
Proof. intros [Hf Hn]. unfold add_feed_script, feed_source, feed_fields. cbn [app]. fill_in. Qed.

(** From one feed to another, with the same source when it is of the catalog. *)
Lemma edit_feed_script_fills f g :
  feed_enterable g → (f_from_catalog f = true → f_url g = f_url f ∧ f_format g = f_format f) →
  fill (edit_feed_controls f) (edit_feed_script (f_from_catalog f) g) (edit_initial (Some f)) =
    Some (edit_initial (Some g)).
Proof.
  intros [Hf Hn] Hc. unfold edit_feed_script, edit_feed_controls, edit_disabled, feed_source, feed_fields.
  destruct (f_from_catalog f); cbn [app disabled_if].
  - destruct (Hc eq_refl) as [Hu Hm]. unfold edit_initial at 2. cbn [from_option]. rewrite Hu, Hm. fill_in.
  - fill_in.
Qed.

Definition user_script (u : User) : list (string * input) :=
  [("Role", Chosen (us_role u)); ("Tenant scope", Chosen (default "" (us_tenant_id u)))].
Definition add_user_script (password : string) (u : User) : list (string * input) :=
  [("Email", Typed (us_email u)); ("Password", Typed password)] ++ user_script u.

Definition user_enterable (tenants : list (string * string)) (u : User) : Prop :=
  us_role u ∈ ROLE_OPTIONS ∧ (∀ t, us_tenant_id u = Some t → t ∈ tenants.*1 ∧ t ≠ "").

Lemma user_scripts_fill tenants password u v :
  user_enterable tenants u →
  fill (add_user_controls tenants) (add_user_script password u) add_user_initial =
    Some (AddUser (us_email u) password (Some (us_role u)) (Some (default "" (us_tenant_id u)))) ∧
  fill (edit_user_controls tenants) (user_script u) v = Some (edit_user_initial u).
Proof.
  intros [Hr Ht]. assert (default "" (us_tenant_id u) ∈ (tenantOptions tenants).*1) as Hin.
  { destruct (us_tenant_id u) as [t|]; [right; by apply Ht|by left]. }
  split; unfold add_user_script, user_script; cbn [app]; fill_in.
Qed.

Lemma user_tenant_sent tenants u :
  user_enterable tenants u → select_or_null (Some (default "" (us_tenant_id u))) = us_tenant_id u.
Proof.
  intros [_ Ht]. cbn. unfold or_null. destruct (us_tenant_id u) as [t|]; cbn; [|done].
  destruct (Ht t eq_refl) as [_ Hne]. by rewrite decide_False.
Qed.

(** Every value of the form of a syslog sink but [enabled], which has no control. *)
Definition syslog_script (s : SiemSyslogSink) (facility : Z) (app : string) (batch flush : Z) : list (string * input) :=
  [ ("Name", Typed (sk_name s)); ("Host", Typed (sk_host s)); ("Port", Entered (sk_port s));
    ("Transport", Chosen (sk_transport s)); ("Format", Chosen (sk_format s)); ("Facility", Entered facility);
    ("APP-NAME", Typed app); ("Event filter", Chosen (sk_filter_decision s)); ("Batch size", Entered batch);
    ("Flush interval (s)", Entered flush) ].

Definition sink_enterable (s : SiemSyslogSink) (facility : Z) (app : string) (batch flush : Z) : Prop :=
  sk_transport s ∈ TRANSPORTS ∧ sk_format s ∈ FORMATS ∧ sk_filter_decision s ∈ FILTERS ∧ js_length app ≤ 48 ∧
  (1 ≤ sk_port s ≤ 65535)%Z ∧ (0 ≤ facility ≤ 23)%Z ∧ (1 ≤ batch ≤ 10000)%Z ∧ (10 ≤ flush ≤ 86400)%Z.

Definition sink_form (s : SiemSyslogSink) (facility : Z) (app : string) (batch flush : Z) : syslog_form :=
  SyslogForm (sk_name s) (sk_host s) (Num (sk_port s)) (Some (sk_transport s)) (Some (sk_format s)) (Num facility)
    app (Num batch) (Num flush) (Some (sk_filter_decision s)) true.

Lemma syslog_script_fills s facility app batch flush :
  sink_enterable s facility app batch flush →
  fill syslog_controls (syslog_script s facility app batch flush) syslog_initial =
    Some (sink_form s facility app batch flush).
Proof.
  intros (H1 & H2 & H3 & H4 & H5 & H6 & H7 & H8). unfold syslog_script. fill_in.
Qed.

Definition client_script (c : ClientEntry) : list (string * input) :=
  [("Hostname", Typed (default "" (cl_hostname c))); ("Owner", Typed (default "" (cl_owner c)))] ++
  choose_some "Device type" (cl_device_type c) ++ [("Tags", ChosenAll (cl_tags c))].

(** From one client to another whose device type is offered, or missing in both. *)
Lemma client_script_fills c c' :
  match cl_device_type c' with Some d => d ∈ DEVICE_TYPES | None => cl_device_type c = None end →
  fill client_controls (client_script c') (client_initial c) = Some (client_initial c').
Proof.
  intros Hd. unfold client_script, client_initial. destruct (cl_device_type c') as [d|];
    cbn [choose_some from_option app default]; [fill_in|]. rewrite Hd. fill_in.
Qed.

(** ** Properties *)

(** The body of a new feed: its format, and whether it is a [FeedCreate]. *)
Definition creates_feed (format : option string) (ok : bool) (body : json) : Prop :=
  conforms (TRef "FeedCreate") body = ok ∧
  ∃ o, body = JObj o ∧ obj_get "format" o = Some (str_json format).

Lemma feed_body_creates id cat url fmt n prov lic :
  n ≠ NumNull →
  creates_feed fmt (bool_decide (is_Some fmt) && not_cleared n) (feed_body id cat url fmt n prov lic).
Proof. intros Hn. split; [by rewrite feed_body_conforms, not_null_num|]. eexists. by split. Qed.

(** C31: what the administration forms send, over everything that can be filled in,
    against the types of schema.ts.
    Each new feed, one or many at once, has an offered format or none, and is a
    [FeedCreate] exactly when a format is selected and the interval not cleared; an
    edited feed has an offered format, the one it had or none, and is a [FeedUpdate]
    exactly when the interval was not cleared; of a catalog feed the URL and format
    stay.  A new user that the form accepts has one of the three roles, is scoped to an
    offered tenant or none, and is a [UserCreate]; an edited one has an offered role, the
    one it had or none, an offered tenant, the one it had or none, and is a [UserUpdate]
    exactly when its role was not deselected.  A syslog sink has an offered transport,
    format and filter or none, and is a [SiemSyslogCreate] exactly when no select is
    deselected and no number cleared; its application name has at most 48 characters,
    and the numbers that were not cleared are within the bounds once their inputs were
    left.  The device type of a client that has one is never removed: Save sends a type,
    or throws. *)
Theorem admin_forms_send :
  (∀ v, fillable add_feed_controls add_initial v →
     from_options (af_format v) FORMAT_OPTIONS ∧
     creates_feed (af_format v) (bool_decide (is_Some (af_format v)) && not_cleared (af_interval_seconds v))
       (add_body v)) ∧
  (∀ v b, fillable bulk_controls bulk_initial v → bulk_submit v = Some b →
     from_options (bf_format v) FORMAT_OPTIONS ∧ b_calls b ≠ [] ∧
     Forall (λ c, ∃ body, c = mutationFn useCreateFeed body ∧
       creates_feed (bf_format v) (bool_decide (is_Some (bf_format v)) && not_cleared (bf_interval_seconds v)) body)
       (b_calls b)) ∧
  (∀ f v, fillable (edit_feed_controls f) (edit_initial (Some f)) v →
     from_options (ef_format v) (f_format f :: FORMAT_OPTIONS) ∧
     conforms (TRef "FeedUpdate") (edit_body v) = not_cleared (ef_interval_seconds v) ∧
     (f_from_catalog f = true → ef_url v = f_url f ∧ ef_format v = Some (f_format f))) ∧
  (∀ tenants v, fillable (add_user_controls tenants) add_user_initial v →
     Forall (λ e, e = None) (add_user_validate v) →
     (∃ r, au_role v = Some r ∧ r ∈ ROLE_OPTIONS) ∧ from_options (select_or_null (au_tenant_id v)) tenants.*1 ∧
     conforms (TRef "UserCreate") (add_user_body v) = true) ∧
  (∀ tenants u v, fillable (edit_user_controls tenants) (edit_user_initial u) v →
     from_options (eu_role v) (us_role u :: ROLE_OPTIONS) ∧
     from_options (select_or_null (eu_tenant_id v)) (option_list (us_tenant_id u) ++ tenants.*1) ∧
     conforms (TRef "UserUpdate") (edit_user_body v) = bool_decide (is_Some (eu_role v))) ∧
  (∀ l v, fill syslog_controls l syslog_initial = Some v →
     from_options (sy_transport v) TRANSPORTS ∧ from_options (sy_format v) FORMATS ∧
     from_options (sy_filter_decision v) FILTERS ∧
     conforms (TRef "SiemSyslogCreate") (syslog_body v) = syslog_filled_in v ∧ js_length (sy_app_name v) ≤ 48 ∧
     (Forall (λ a, left_input a.2) l → syslog_bounded v)) ∧
  (∀ c d v body, cl_device_type c = Some d → trim d ≠ "" → fillable client_controls (client_initial c) v →
     client_body v = Ok body → ∃ o t, body = JObj o ∧ obj_get "device_type" o = Some (JStr t) ∧ t ≠ "").
Proof.
  split_and!.
  - intros v [Hf Hn]%add_feed_filled. split; [done|]. by apply feed_body_creates.
  - intros v b [Hf Hn]%bulk_filled [Hv ->]%onSubmit_Some. unfold bulk_handleSubmit. cbn [b_calls]. split_and!; [done| |].
    + unfold bulk_validate, validate_lines in Hv. rewrite !Forall_cons in Hv. destruct Hv as (_ & Hl & _).
      destruct (parseBulkLines (bf_lines v)); [|done]. rewrite decide_True in Hl; done.
    + apply Forall_fmap, Forall_true. intros e. eexists. split; [done|]. by apply feed_body_creates.
  - intros f v Hf. split_and!; [by apply edit_format_filled|apply edit_body_conforms|by apply edit_feed_filled].
  - intros tenants v [Hr Ht]%add_user_filled Hv.
    unfold add_user_validate in Hv. rewrite !Forall_cons in Hv. destruct Hv as (_ & _ & Hrole & _).
    rewrite add_user_conforms. destruct (au_role v) as [r|]; [|done].
    split_and!; [|by apply select_or_null_options|done]. exists r. split; [done|]. by apply from_options_Some.
  - intros tenants u v Hv. rewrite edit_user_conforms. split_and!; [apply (edit_user_filled tenants u v Hv)..|done].
  - intros l v Hf. assert (syslog_ok v) as Hok by (apply syslog_filled; by exists l).
    split_and!; [apply Hok..|by apply syslog_sends|apply Hok|]. intros Hl. by eapply syslog_left.
  - intros c d v body Hd Ht Hf Hb. assert (typed v) as Hty by (eapply client_filled; eauto).
    unfold client_body in Hb. destruct (cf_device_type v) as [e|] eqn:He; [|done]. injection Hb as <-.
    eexists _, (trim e). split_and!; [done| |by apply Hty].
    transitivity (Some (null_json (trim e))); [reflexivity|]. unfold null_json, or_null.
    by rewrite decide_False by (by apply Hty).
Qed.

(** The body that sets a client. *)
Definition client_json (c : ClientEntry) : json :=
  JObj [ ("hostname", str_json (cl_hostname c)); ("owner", str_json (cl_owner c));
         ("device_type", str_json (cl_device_type c)); ("tags", JArr (JStr <$> cl_tags c)) ].

Lemma client_unchanged c :
  tidy (cl_hostname c) → tidy (cl_owner c) → tidy (cl_device_type c) → client_body (client_initial c) = Ok (client_json c).
Proof.
  intros H1 H2 H3. unfold client_body, client_initial, client_json. cbn -[null_json str_json trim].
  by rewrite !tidy_sent.
Qed.

(** Every feed, user, syslog sink and client can be entered.  For an entity whose
    choices are offered and whose numbers are within the bounds there is a script
    with which the form for a new one, or the form of any other entity, sends
    exactly it; a feed of the catalog keeps its source, and a client with a device
    type keeps some type. *)
Theorem admin_forms_complete (f g : feed) (tenants : list (string * string)) (u : User) (password : string)
    (w : edit_user) (s : SiemSyslogSink) (facility batch flush : Z) (app : string) (c c' : ClientEntry) :
  feed_enterable g → (f_from_catalog f = true → f_url g = f_url f ∧ f_format g = f_format f) →
  user_enterable tenants u → sink_enterable s facility app batch flush →
  match cl_device_type c' with Some d => d ∈ DEVICE_TYPES | None => cl_device_type c = None end →
  tidy (cl_hostname c') → tidy (cl_owner c') →
  add_body <$> fill add_feed_controls (add_feed_script g) add_initial =
    Some (JObj [ ("id", JStr (f_id g)); ("category_id", JStr (f_category_id g)); ("url", JStr (f_url g));
                 ("format", JStr (f_format g)); ("interval_seconds", JInt (f_interval_seconds g));
                 ("provider", JStr (f_provider g)); ("license", JStr (f_license g)); ("enabled", JBool true) ]) ∧
  edit_body <$> fill (edit_feed_controls f) (edit_feed_script (f_from_catalog f) g) (edit_initial (Some f)) =
    Some (JObj [ ("url", JStr (f_url g)); ("category_id", JStr (f_category_id g)); ("format", JStr (f_format g));
                 ("interval_seconds", JInt (f_interval_seconds g)); ("provider", JStr (f_provider g));
                 ("license", JStr (f_license g)) ]) ∧
  add_user_body <$> fill (add_user_controls tenants) (add_user_script password u) add_user_initial =
    Some (JObj [ ("email", JStr (us_email u)); ("password", JStr password); ("role", JStr (us_role u));
                 ("tenant_id", str_json (us_tenant_id u)) ]) ∧
  edit_user_body <$> fill (edit_user_controls tenants) (user_script u) w =
    Some (JObj [("role", JStr (us_role u)); ("tenant_id", str_json (us_tenant_id u))]) ∧
  fill syslog_controls (syslog_script s facility app batch flush) syslog_initial =
    Some (sink_form s facility app batch flush) ∧
  client_body <$> fill client_controls (client_script c') (client_initial c) = Some (Ok (client_json c')).
Proof.
  intros Hg Hc Hu Hs Hd H1 H2. destruct (user_scripts_fill tenants password u w Hu) as [U1 U2].
  rewrite add_feed_script_fills, edit_feed_script_fills, U1, U2, syslog_script_fills, client_script_fills by done.
  cbn [fmap option_fmap option_map]. unfold add_user_body, edit_user_body, edit_user_initial.
  cbn [au_tenant_id eu_tenant_id]. rewrite (user_tenant_sent tenants) by done. split_and!; try done.
  rewrite client_unchanged; try done. intros d Hd'. rewrite Hd' in Hd. revert Hd. unfold DEVICE_TYPES.
  rewrite !elem_of_cons, elem_of_nil. intros [-> |[-> |[-> |[-> |[-> |[]]]]]]; by vm_compute.
Qed.

(** ** Examples *)

Definition catalog_feed : feed :=
  Feed "urlhaus" "malware" "https://urlhaus.abuse.ch/hosts" "hostfile" 3600 "CC0" "abuse.ch" true true None None.
Definition catalog_feed' : feed :=
  Feed "urlhaus" "phishing" "https://urlhaus.abuse.ch/hosts" "hostfile" 7200 "CC0" "abuse.ch" true true None None.
Definition sink1 : SiemSyslogSink := MkSink "k1" "Wazuh" "10.8.1.20" 6514 "tls" "json" "block" None 0 None true.
Definition laptop : ClientEntry := MkClient "c7" "10.8.1.7" (Some "pc7") None (Some "laptop") ["office"] None "2026-01-02T08:00:00Z".

(** The source of a catalog feed stays, and a cleared device type throws. *)
Lemma admin_forms_send_witness :
  (∀ v, fillable (edit_feed_controls catalog_feed) (edit_initial (Some catalog_feed)) v →
     ef_url v = "https://urlhaus.abuse.ch/hosts") ∧
  (∃ v e, fill client_controls [("Device type", Deselected)] (client_initial laptop) = Some v ∧ client_body v = Throw e) ∧
  conforms (TRef "SiemSyslogCreate") (syslog_body (sink_form sink1 16 "mantis" 100 30)) = true.
Proof.
  destruct admin_forms_send as (_ & _ & Hf & _ & _ & Hs & _). split_and!.
  - intros v Hv. exact (proj1 (proj2 (proj2 (Hf catalog_feed v Hv)) eq_refl)).
  - eexists _, _. by split.
  - exact (proj1 (proj2 (proj2 (proj2 (Hs (syslog_script sink1 16 "mantis" 100 30) (sink_form sink1 16 "mantis" 100 30) eq_refl))))).
Defined.

Lemma admin_forms_complete_witness :
  edit_body <$> fill (edit_feed_controls catalog_feed) (edit_feed_script true catalog_feed')
    (edit_initial (Some catalog_feed)) = Some (edit_body (edit_initial (Some catalog_feed'))) ∧
  client_body <$> fill client_controls (client_script laptop) (client_initial (MkClient "c7" "10.8.1.7" None None None [] None "2026-01-02T08:00:00Z")) =
    Some (Ok (client_json laptop)).
Proof.
  destruct (admin_forms_complete catalog_feed catalog_feed' [("t1", "Acme")]
    (MkUser "u1" "ada@corp.local" "operator" (Some "t1")) "correct horse battery" (EditUser None None)
    sink1 16 100 30 "mantis" (MkClient "c7" "10.8.1.7" None None None [] None "2026-01-02T08:00:00Z") laptop) as (_ & H1 & _ & _ & _ & H2);
    [..|by split].
  - split; [by left|by vm_compute].
  - by split.
  - split; [by right; left|]. intros t [= <-]. split; [by left|done].
  - split_and!; try (apply (bool_decide_eq_true_1 _); by vm_compute); cbn; lia.
  - by left.
  - intros x [= <-]. by vm_compute.
  - intros x [=].
Defined.
