(* ===== verification/Routing.v ===== *)
(** * Routes

    The table of routes of [App.tsx], with the guard of [auth/RequireAuth.tsx] and
    the login page of [Auth.v], the links of the pages and of the sidebar of
    [app/Shell.tsx], and the boundary that catches what a page throws
    ([app/ErrorBoundary.tsx]).  What is relied on of react-router is the class
    [Router]: when one pattern of a table fits a path, that route is taken. *)

From S2P Require Import Prelude JsText Json Web Search Client Auth Hooks Queries Logs Widgets Analytics Registry.

(** ** Patterns *)

Inductive seg := Static (s : string) | Param (name : string).

(** Slashes at the end of a path are ignored. *)
Fixpoint drop_empty (l : list string) : list string :=
  match l with "" :: r => drop_empty r | _ => l end.

(** The segments of a path that begins with a slash. *)
Definition path_segments (path : string) : option (list string) :=
  match split_on "/" path with
  | "" :: l => Some (rev (drop_empty (rev l)))
  | _ => None
  end.

(** A parameter is decoded; text that is not an encoding stays as it is. *)
Definition decode_segment (s : string) : string :=
  match decodeURIComponent s with Ok t => t | Throw _ => s end.

(** The parameters, when the pattern fits: static segments without regard to case,
    parameters one segment each and not empty. *)
Fixpoint fits_segments (p : list seg) (l : list string) : option (list (string * string)) :=
  match p, l with
  | [], [] => Some []
  | Static s :: p', x :: l' => if decide (toLowerCase s = toLowerCase x) then fits_segments p' l' else None
  | Param k :: p', x :: l' =>
      if truthy x then (λ ps, (k, decode_segment x) :: ps) <$> fits_segments p' l' else None
  | _, _ => None
  end.

Definition fits (p : list seg) (path : string) : option (list (string * string)) :=
  path_segments path ≫= fits_segments p.

(** What the application relies on of the router. *)
Class Router := {
  match_routes : list (list seg) → string → option (nat * list (string * string));
  match_one pats path i p ps :
    pats !! i = Some p → fits p path = Some ps →
    (∀ j q, pats !! j = Some q → is_Some (fits q path) → j = i) →
    match_routes pats path = Some (i, ps);
  match_none pats path : Forall (λ p, fits p path = None) pats → match_routes pats path = None;
}.

(** ** The table *)

Inductive page_id :=
| PLogin | PDashboard | PTenants | PGroups | PClients | PPolicy | PFeeds | PZones | PZoneDetail
| PUsers | PAnalytics | PQueryLog | PAudit | PUpstream | PDhcp | PSettings.

#[export] Instance page_id_eq_dec : EqDecision page_id.
Proof. solve_decision. Defined.

#[export] Instance nav_item_eq_dec : EqDecision nav_item.
Proof. solve_decision. Defined.

Inductive element := Show (p : page_id) | Navigate (to : string).

(** Every route but the first is inside [RequireAuth]. *)
Record route := Route { r_path : list seg; r_guarded : bool; r_element : element }.

Definition ROUTES : list route :=
  [ Route [Static "login"] false (Show PLogin);
    Route [] true (Navigate "/dashboard");
    Route [Static "dashboard"] true (Show PDashboard);
    Route [Static "tenants"] true (Show PTenants);
    Route [Static "tenants"; Param "tenantId"] true (Show PGroups);
    Route [Static "tenants"; Param "tenantId"; Static "clients"] true (Show PClients);
    Route [Static "tenants"; Param "tenantId"; Static "groups"; Param "groupId"] true (Show PPolicy);
    Route [Static "feeds"] true (Show PFeeds);
    Route [Static "zones"] true (Show PZones);
    Route [Static "zones"; Param "zoneId"] true (Show PZoneDetail);
    Route [Static "users"] true (Show PUsers);
    Route [Static "analytics"] true (Show PAnalytics);
    Route [Static "query-log"] true (Show PQueryLog);
    Route [Static "audit"] true (Show PAudit);
    Route [Static "upstream"] true (Show PUpstream);
    Route [Static "dhcp"] true (Show PDhcp);
    Route [Static "settings"] true (Show PSettings) ].

(** [<Route path="*" ...>] *)
Definition FALLBACK : route := Route [] true (Navigate "/tenants").

(** [/zones/${z.id}] *)
Definition zone_link (zoneId : string) : string := "/zones/" +:+ zoneId.

Section app.
Context `{Router}.

Definition route_of (path : string) : route * list (string * string) :=
  match match_routes (r_path <$> ROUTES) path with
  | Some (i, ps) => (default FALLBACK (ROUTES !! i), ps)
  | None => (FALLBACK, [])
  end.

(** What is on screen at a path, with the [from] of the location's state: a page
    with its parameters, the loader, or a redirect with its own state. *)
Inductive outcome :=
| OPage (p : page_id) (params : list (string * string))
| OLoader
| OGoto (to : string) (from : option string).

Definition app_view (s : auth_state) (path : string) (from : option string) : outcome :=
  let '(r, ps) := route_of path in
  if r_guarded r then
    match RequireAuth s path with
    | ShowLoader => OLoader
    | RedirectLogin p => OGoto "/login" (Some p)
    | _ => match r_element r with Show p => OPage p ps | Navigate to => OGoto to None end
    end
  else
    match LoginPage s from with
    | RedirectTo to => OGoto to None
    | _ => OPage PLogin []
    end.

(** Following redirects, at most [fuel] of them. *)
Fixpoint follow (fuel : nat) (s : auth_state) (path : string) (from : option string) : option outcome :=
  match app_view s path from, fuel with
  | OGoto to from', S n => follow n s (parsePath to).1 from'
  | OGoto _ _, O => None
  | o, _ => Some o
  end.

End app.

(** ** The sidebar and the error boundary *)

(** [location.pathname.startsWith(item.to)] *)
Definition nav_active (path : string) (i : nav_item) : bool := startsWith path (nav_to i).

(** The boundary around the page is keyed by the path. *)
Record boundary := Boundary { b_key : string; b_error : option string; b_details : bool }.

Definition boundary_mount (path : string) : boundary := Boundary path None false.
(** A render at a path: another key mounts a new boundary. *)
Definition boundary_at (path : string) (b : boundary) : boundary :=
  if decide (b_key b = path) then b else boundary_mount path.
(** [getDerivedStateFromError], the link to the details, and Try again. *)
Definition boundary_catch (e : string) (b : boundary) : boundary := Boundary (b_key b) (Some e) false.
Definition toggle_details (b : boundary) : boundary := Boundary (b_key b) (b_error b) (negb (b_details b)).
Definition try_again (b : boundary) : boundary := Boundary (b_key b) None (b_details b).
(** The page, or the message in its place. *)
Definition boundary_render {A} (page : A) (b : boundary) : A + string :=
  match b_error b with Some e => inr e | None => inl page end.

(** ** Matching *)

(** Whether some path fits two patterns. *)
Fixpoint overlap (p q : list seg) : bool :=
  match p, q with
  | [], [] => true
  | Static s :: p', Static t :: q' => bool_decide (toLowerCase s = toLowerCase t) && overlap p' q'
  | _ :: p', _ :: q' => overlap p' q'
  | _, _ => false
  end.

Lemma fits_overlap p q l :
  is_Some (fits_segments p l) → is_Some (fits_segments q l) → overlap p q = true.
Proof.
  revert q l. induction p as [|s p IH]; intros [|t q] [|x l]; cbn;
    try (by intros [? ?]); try (by intros _ [? ?]); try (by destruct s; intros [? ?]); try done.
  - by destruct t; intros _ [? ?].
  - destruct s as [a|a], t as [b|b]; repeat case_match; try (by intros [? ?]); try (by intros _ [? ?]);
      rewrite ?fmap_is_Some; intros H1 H2; rewrite ?(IH q l) by done; try done.
    rewrite bool_decide_eq_true_2; [done|congruence].
Qed.

Definition patterns : list (list seg) := r_path <$> ROUTES.

(** No path fits two patterns of the table. *)
Lemma patterns_apart i j p q path :
  patterns !! i = Some p → patterns !! j = Some q → is_Some (fits p path) → is_Some (fits q path) → i = j.
Proof.
  intros Hi Hj Hp Hq. unfold fits in *. destruct (path_segments path) as [l|]; [|by destruct Hp].
  cbn in Hp, Hq. assert (overlap p q = true) as Ho by (by eapply fits_overlap).
  assert (forallb (λ i, forallb (λ j, Nat.eqb i j || negb (from_option id false
    (p ← patterns !! i; q ← patterns !! j; Some (overlap p q)))) (seq 0 17)) (seq 0 17) = true) as Hall
    by (vm_compute; reflexivity).
  rewrite forallb_forall in Hall. specialize (Hall i). rewrite forallb_forall in Hall.
  assert (i < 17) by (apply lookup_lt_Some in Hi; exact Hi).
  assert (j < 17) by (apply lookup_lt_Some in Hj; exact Hj).
  specialize (Hall ltac:(apply in_seq; lia) j ltac:(apply in_seq; lia)).
  rewrite Hi, Hj in Hall. cbn in Hall. rewrite Ho, orb_false_r in Hall. by apply Nat.eqb_eq.
Qed.

Section matching.
Context `{Router}.

Lemma route_fits i r path ps :
  ROUTES !! i = Some r → fits (r_path r) path = Some ps → route_of path = (r, ps).
Proof.
  intros Hi Hf. unfold route_of. change (r_path <$> ROUTES) with patterns.
  assert (patterns !! i = Some (r_path r)) as Hp by (unfold patterns; by rewrite list_lookup_fmap, Hi).
  rewrite (match_one patterns path i (r_path r) ps Hp Hf); [by rewrite Hi|].
  intros j q Hj Hq. by eapply (patterns_apart j i q (r_path r) path).
Qed.

(** The route of a path is one of the table, or the fallback. *)
Lemma route_of_cases path : (route_of path).1 = FALLBACK ∨ (route_of path).1 ∈ ROUTES.
Proof.
  unfold route_of. destruct (match_routes _ path) as [[i ps]|]; [|by left].
  destruct (ROUTES !! i) as [r|] eqn:E; cbn [fst]; rewrite ?E; [right|by left].
  by eapply list_elem_of_lookup_2.
Qed.
End matching.

(** *** Paths from segments *)

Definition segment_ok (s : string) : bool :=
  truthy s && sforall (λ c, negb (Ascii.eqb c "/")) s && sforall (λ c, negb (Ascii.eqb c "%")) s.

Lemma split_segments l :
  l ≠ [] → forallb segment_ok l = true → split_on "/" (join "/" l) = l.
Proof.
  induction l as [|x [|y l] IH]; [done|..]; intros _; cbn [forallb]; intros ?; bools.
  - cbn [join]. apply split_on_none. unfold segment_ok in H. by bools.
  - change (join "/" (x :: y :: l)) with (x +:+ String "/" (join "/" (y :: l))).
    assert (segment_ok x = true) as Hx by done. unfold segment_ok in Hx. bools.
    rewrite split_on_cons by done. f_equal. apply IH; [done|]. cbn [forallb]. by rewrite H0, H1.
Qed.

Lemma path_segments_join l :
  forallb segment_ok l = true → path_segments (String "/" (join "/" l)) = Some l.
Proof.
  intros Hl. unfold path_segments. destruct (decide (l = [])) as [->|Hne]; [done|].
  change (String "/" (join "/" l)) with ("" +:+ String "/" (join "/" l)).
  rewrite split_on_cons, split_segments by done. f_equal.
  assert (drop_empty (rev l) = rev l) as ->; [|apply rev_involutive].
  destruct (rev l) as [|x r] eqn:E; [done|]. cbn.
  assert (x ∈ l) as Hx. { rewrite list_elem_of_In, in_rev, E. by left. }
  rewrite forallb_forall in Hl. apply list_elem_of_In, Hl in Hx. unfold segment_ok in Hx. bools.
  unfold truthy in *. bools. by destruct x.
Qed.

Lemma segment_truthy s : segment_ok s = true → truthy s = true.
Proof. unfold segment_ok. intros ?; by bools. Qed.

Lemma decode_segment_ok s : segment_ok s = true → decode_segment s = s.
Proof. unfold segment_ok, decode_segment. intros ?; bools. by rewrite decode_plain. Qed.

Section routes.
Context `{Router}.

(** A path made of segments takes the route whose pattern fits them. *)
Lemma route_join i r l ps :
  ROUTES !! i = Some r → forallb segment_ok l = true → fits_segments (r_path r) l = Some ps →
  route_of (String "/" (join "/" l)) = (r, ps).
Proof. intros Hi Hl Hf. apply (route_fits i); [done|]. unfold fits. by rewrite path_segments_join. Qed.

Lemma guarded_cases r :
  r = FALLBACK ∨ r ∈ ROUTES →
  if r_guarded r then r_element r ≠ Show PLogin ∧
       (∀ to, r_element r = Navigate to → to = "/dashboard" ∨ to = "/tenants")
  else r_element r = Show PLogin.
Proof.
  intros Hr. assert (Forall (λ r, if r_guarded r then r_element r ≠ Show PLogin ∧
    (∀ to, r_element r = Navigate to → to = "/dashboard" ∨ to = "/tenants")
    else r_element r = Show PLogin) (FALLBACK :: ROUTES)) as Hall.
  { repeat apply Forall_cons_2; [..|apply Forall_nil_2]; cbn; split_and?; try done;
      intros to [= <-]; auto. }
  rewrite Forall_forall in Hall. apply Hall. destruct Hr as [->|Hr]; [left|by right].
Qed.

Lemma route_dashboard : route_of "/dashboard" = (Route [Static "dashboard"] true (Show PDashboard), []).
Proof. by apply (route_join 2 _ ["dashboard"]). Qed.

Lemma route_tenants : route_of "/tenants" = (Route [Static "tenants"] true (Show PTenants), []).
Proof. by apply (route_join 3 _ ["tenants"]). Qed.

Lemma route_login : route_of "/login" = (Route [Static "login"] false (Show PLogin), []).
Proof. by apply (route_join 0 _ ["login"]). Qed.

(** A path with no state behind it redirects at most once, when someone is signed
    in. *)
Lemma follow_signed_in s u path :
  loading s = false → user s = Some u →
  ∃ p ps, follow 1 s path None = Some (OPage p ps) ∧ p ≠ PLogin.
Proof.
  intros Hl Hu. cbn [follow]. unfold app_view at 1. pose proof (route_of_cases path) as Hc.
  apply guarded_cases in Hc. destruct (route_of path) as [r ps]. cbn [fst] in Hc.
  assert (∀ to, to = "/dashboard" ∨ to = "/tenants" →
    ∃ p ps, follow 0 s (parsePath to).1 None = Some (OPage p ps) ∧ p ≠ PLogin) as Hend.
  { intros to Hto. cbn [follow]. unfold app_view, RequireAuth.
    destruct Hto as [-> | ->]; cbn [fst parsePath cut].
    - change (parsePath "/dashboard").1 with "/dashboard". rewrite route_dashboard. cbn. rewrite Hl, Hu. by eauto.
    - change (parsePath "/tenants").1 with "/tenants". rewrite route_tenants. cbn. rewrite Hl, Hu. by eauto. }
  destruct (r_guarded r).
  - unfold RequireAuth. rewrite Hl, Hu. destruct (r_element r) as [p|to]; [|by apply Hend, Hc].
    destruct Hc as [Hc _]. exists p, ps. split; [done|congruence].
  - unfold LoginPage. rewrite Hl, Hu. cbn [negb]. apply Hend. by right.
Qed.

Lemma follow_ends (s : auth_state) (path : string) (from : option string) :
  ∃ o, follow 2 s path from = Some o ∧
    (loading s = true → o = OLoader ∨ o = OPage PLogin []) ∧
    (loading s = false → user s = None → o = OPage PLogin []) ∧
    (loading s = false → user s ≠ None → ∃ p ps, o = OPage p ps ∧ p ≠ PLogin).
Proof.
  destruct (loading s) eqn:Hl.
  { cbn [follow]. unfold app_view, RequireAuth, LoginPage. destruct (route_of path) as [r ps]. rewrite Hl. cbn.
    destruct (r_guarded r); eexists; (split; [reflexivity|]); split_and!; auto; done. }
  destruct (user s) as [u|] eqn:Hu.
  - assert (∃ p ps, follow 2 s path from = Some (OPage p ps) ∧ p ≠ PLogin) as (p & ps & Hf & Hp).
    { change (follow 2 s path from) with
        (match app_view s path from with OGoto to from' => follow 1 s (parsePath to).1 from' | o => Some o end).
      unfold app_view. pose proof (route_of_cases path) as Hc. apply guarded_cases in Hc.
      destruct (route_of path) as [r ps]. cbn [fst] in Hc. destruct (r_guarded r).
      - unfold RequireAuth. rewrite Hl, Hu. destruct (r_element r) as [p|to]; [|by eapply follow_signed_in].
        destruct Hc as [Hc _]. exists p, ps. split; [done|congruence].
      - unfold LoginPage. rewrite Hl, Hu. cbn [negb]. by eapply follow_signed_in. }
    eexists. split; [done|]. split_and!; [done|done|by eauto].
  - exists (OPage PLogin []). split_and!; [|done|done|done].
    assert (∀ n from, follow n s "/login" from = Some (OPage PLogin [])) as Hlogin.
    { intros n f. destruct n; cbn [follow]; unfold app_view, LoginPage; rewrite route_login; cbn;
        by rewrite Hl, Hu. }
    cbn [follow]. unfold app_view at 1. destruct (route_of path) as [r ps]. destruct (r_guarded r).
    + unfold RequireAuth. rewrite Hl, Hu. change (parsePath "/login").1 with "/login". apply (Hlogin 1).
    + unfold LoginPage. by rewrite Hl, Hu.
Qed.

(** C10: redirects end.  From any path, whatever the state of the location, at most
    two redirects lead to something that stays on screen: the login page when
    nobody is signed in, a page other than the login page when someone is, and
    the loader, or the login page itself, while the session is being checked. *)
Theorem redirects_end (s : auth_state) (path : string) (from : option string) :
  ∃ o, follow 2 s path from = Some o ∧
    (loading s = true → o = OLoader ∨ o = OPage PLogin []) ∧
    (loading s = false → user s = None → o = OPage PLogin []) ∧
    (loading s = false → user s ≠ None → ∃ p ps, o = OPage p ps ∧ p ≠ PLogin).
Proof. apply follow_ends. Qed.

Lemma nav_routes i :
  i ∈ NAV_ITEMS → ∃ r p, r ∈ ROUTES ∧ r_guarded r = true ∧ r_element r = Show p ∧ route_of (nav_to i) = (r, []).
Proof.
  assert (Forall (λ i, ∃ k l, nav_to i = String "/" (join "/" l) ∧ forallb segment_ok l = true ∧
    ∃ r p, ROUTES !! k = Some r ∧ r_guarded r = true ∧ r_element r = Show p ∧
           fits_segments (r_path r) l = Some []) NAV_ITEMS) as Hall.
  { repeat apply Forall_cons_2; [..|apply Forall_nil_2].
    1: exists 2, ["dashboard"]. 2: exists 3, ["tenants"]. 3: exists 7, ["feeds"]. 4: exists 8, ["zones"].
    5: exists 11, ["analytics"]. 6: exists 12, ["query-log"]. 7: exists 13, ["audit"]. 8: exists 10, ["users"].
    9: exists 14, ["upstream"]. 10: exists 15, ["dhcp"]. 11: exists 16, ["settings"].
    all: split_and!; [reflexivity|reflexivity|eexists _, _; split_and!; reflexivity]. }
  rewrite Forall_forall in Hall. intros Hi. destruct (Hall i Hi) as (k & l & -> & Hl & r & p & Hk & Hg & He & Hf).
  exists r, p. split_and!; [by eapply list_elem_of_lookup_2|done|done|by eapply route_join].
Qed.

Lemma prefix_total a b r r' : a +:+ r = b +:+ r' → (∃ x, a = b +:+ x) ∨ (∃ x, b = a +:+ x).
Proof.
  revert b. induction a as [|c a IH]; intros [|c' b] E; [by left; exists ""|by right; eexists|by left; eexists|].
  rewrite !sapp_cons in E. injection E as -> E.
  destruct (IH b E) as [[x ->]|[x ->]]; [left|right]; exists x; by rewrite sapp_cons.
Qed.

Lemma nav_active_unique path i j :
  i ∈ NAV_ITEMS → j ∈ NAV_ITEMS → nav_active path i = true → nav_active path j = true → i = j.
Proof.
  intros Hi Hj [r Hr]%startsWith_true [r' Hr']%startsWith_true.
  assert (forallb (λ i, forallb (λ j, negb (startsWith (nav_to i) (nav_to j)) || bool_decide (i = j)) NAV_ITEMS)
    NAV_ITEMS = true) as Hall by (vm_compute; reflexivity).
  assert (∀ i j, i ∈ NAV_ITEMS → j ∈ NAV_ITEMS → (∃ x, nav_to i = nav_to j +:+ x) → i = j) as H'.
  { clear i j Hi Hj Hr Hr'. intros i j Hi Hj Hx. rewrite forallb_forall in Hall.
    specialize (Hall i (proj1 (list_elem_of_In _ _) Hi)). rewrite forallb_forall in Hall.
    specialize (Hall j (proj1 (list_elem_of_In _ _) Hj)).
    apply startsWith_true in Hx. rewrite Hx in Hall. by apply bool_decide_eq_true in Hall. }
  destruct (prefix_total (nav_to i) (nav_to j) r r') as [Hx|Hx]; [congruence|by apply H'|].
  symmetry. by apply H'.
Qed.

(** The page and the parameters at a path. *)
Definition opens (path : string) : element * list (string * string) :=
  (r_element (route_of path).1, (route_of path).2).

Lemma tenant_route t : segment_ok t = true → opens (tenant_link t) = (Show PGroups, [("tenantId", t)]).
Proof.
  intros Ht. unfold opens. change (tenant_link t) with (String "/" (join "/" ["tenants"; t])).
  rewrite (route_join 4 (Route [Static "tenants"; Param "tenantId"] true (Show PGroups)) ["tenants"; t]
    [("tenantId", t)]); [done|done|cbn; by rewrite Ht|].
  cbn. by rewrite decode_segment_ok, segment_truthy.
Qed.

Lemma clients_route t : segment_ok t = true → opens (clients_link t) = (Show PClients, [("tenantId", t)]).
Proof.
  intros Ht. unfold opens. change (clients_link t) with (String "/" (join "/" ["tenants"; t; "clients"])).
  rewrite (route_join 5 (Route [Static "tenants"; Param "tenantId"; Static "clients"] true (Show PClients))
    ["tenants"; t; "clients"] [("tenantId", t)]); [done|done|cbn; by rewrite Ht|].
  cbn. by rewrite decode_segment_ok, segment_truthy.
Qed.

Lemma group_route t g :
  segment_ok t = true → segment_ok g = true →
  opens (group_link t g) = (Show PPolicy, [("tenantId", t); ("groupId", g)]).
Proof.
  intros Ht Hg. unfold opens. change (group_link t g) with (String "/" (join "/" ["tenants"; t; "groups"; g])).
  rewrite (route_join 6 (Route [Static "tenants"; Param "tenantId"; Static "groups"; Param "groupId"] true
    (Show PPolicy)) ["tenants"; t; "groups"; g] [("tenantId", t); ("groupId", g)]);
    [done|done|cbn; by rewrite Ht, Hg|].
  cbn. by rewrite !decode_segment_ok, !segment_truthy.
Qed.

Lemma zone_route z : segment_ok z = true → opens (zone_link z) = (Show PZoneDetail, [("zoneId", z)]).
Proof.
  intros Hz. unfold opens. change (zone_link z) with (String "/" (join "/" ["zones"; z])).
  rewrite (route_join 9 (Route [Static "zones"; Param "zoneId"] true (Show PZoneDetail)) ["zones"; z]
    [("zoneId", z)]); [done|done|cbn; by rewrite Hz|].
  cbn. by rewrite decode_segment_ok, segment_truthy.
Qed.

(** Every link leads where it says.  No path fits two routes; every item of
    the sidebar leads to a page behind the guard, and at most one item is marked
    active; the links of the pages for tenants, groups, clients and zones open the
    page for the ids they were made from, and the rows of the dashboard open the
    query log. *)
Theorem links_resolve (t g z path : string) (hours : Z) (d : drill) (past : list (list (string * string))) :
  segment_ok t = true → segment_ok g = true → segment_ok z = true → (0 ≤ hours)%Z → plain_decision d = true →
  (∀ i, i ∈ NAV_ITEMS → ∃ p, (route_of (nav_to i)).1 ∈ ROUTES ∧ r_guarded (route_of (nav_to i)).1 = true ∧
     r_element (route_of (nav_to i)).1 = Show p ∧ (route_of (nav_to i)).2 = []) ∧
  (∀ i j, i ∈ NAV_ITEMS → j ∈ NAV_ITEMS → nav_active path i = true → nav_active path j = true → i = j) ∧
  opens (tenant_link t) = (Show PGroups, [("tenantId", t)]) ∧
  opens (clients_link t) = (Show PClients, [("tenantId", t)]) ∧
  opens (group_link t g) =
    (Show PPolicy, [("tenantId", t); ("groupId", g)]) ∧
  opens (zone_link z) = (Show PZoneDetail, [("zoneId", z)]) ∧
  r_element (route_of (opened_at past (drill_link hours d)).1).1 = Show PQueryLog.
Proof.
  intros Ht Hg Hz Hh Hd. split_and!.
  - intros i (r & p & Hr & Hgu & He & ->)%nav_routes. by exists p.
  - intros i j. apply nav_active_unique.
  - by apply tenant_route.
  - by apply clients_route.
  - by apply group_route.
  - by apply zone_route.
  - rewrite drill_path by done. change "/query-log" with (String "/" (join "/" ["query-log"])).
    rewrite (route_join 12 (Route [Static "query-log"] true (Show PQueryLog)) ["query-log"] []); done.
Qed.

(** Signing in returns to the page but not to its filters.  Someone who opens
    a link into the query log without a session is sent to the login page, which
    is told the path alone; after signing in the query log opens on its default
    filters, whatever the link asked for. *)
Theorem sign_in_drops_filters (s : auth_state) (u : AuthUser) (f : login_form) (hours : Z) (d : drill)
    (past : list (list (string * string))) :
  loading s = false → user s = None → (0 ≤ hours)%Z → plain_decision d = true →
  let path := (opened_at past (drill_link hours d)).1 in
  app_view s path None = OGoto "/login" (Some path) ∧
  navigated (handleSubmit (Ok u) (Some path) s f).2 = Some "/query-log" ∧
  log_query (opened_at past "/query-log").2 =
    Some (useQueryLog (QueryLogParams 0 None None None None None None (Some 24%Z))).
Proof.
  intros Hl Hu Hh Hd path. unfold path. rewrite drill_path by done. split_and!; [|done|done].
  unfold app_view. change "/query-log" with (String "/" (join "/" ["query-log"])).
  rewrite (route_join 12 (Route [Static "query-log"] true (Show PQueryLog)) ["query-log"] []) by done.
  cbn [r_guarded]. unfold RequireAuth. by rewrite Hl, Hu.
Qed.
End routes.

(** What a page threw stays on screen at its path, and is gone at any other. *)
Lemma boundary_recovers {A} (page : A) path path' e b :
  boundary_render page (boundary_at path (boundary_catch e (boundary_mount path))) = inr e ∧
  boundary_render page (try_again (boundary_catch e b)) = inl page ∧
  (path' ≠ path →
   boundary_render page (boundary_at path' (boundary_catch e (boundary_mount path))) = inl page).
Proof.
  unfold boundary_at. cbn. split_and!; [by rewrite decide_True|done|]. intros Hne. by rewrite decide_False.
Qed.

(** ** A router *)

(** The first pattern that fits. *)
Fixpoint first_match (n : nat) (pats : list (list seg)) (path : string) : option (nat * list (string * string)) :=
  match pats with
  | [] => None
  | p :: pats' => match fits p path with Some ps => Some (n, ps) | None => first_match (S n) pats' path end
  end.

Lemma first_match_one n pats path i p ps :
  pats !! i = Some p → fits p path = Some ps →
  (∀ j q, pats !! j = Some q → is_Some (fits q path) → j = i) →
  first_match n pats path = Some (n + i, ps).
Proof.
  revert n i. induction pats as [|q pats IH]; intros n i Hi Hf Hu; [done|]. cbn.
  destruct (fits q path) as [ps'|] eqn:Eq.
  - assert (0 = i) as <- by (eapply Hu; [reflexivity|by rewrite Eq]). cbn in Hi. simplify_eq.
    rewrite Nat.add_0_r. congruence.
  - destruct i as [|i]; [cbn in Hi; congruence|]. rewrite (IH (S n) i); [by rewrite Nat.add_succ_r|done|done|].
    intros j q' Hj Hq. assert (S j = S i) by (by eapply Hu). lia.
Qed.

Lemma first_match_none n pats path : Forall (λ p, fits p path = None) pats → first_match n pats path = None.
Proof. intros Hf. revert n. induction Hf as [|p pats Hp _ IH]; intros n; [done|]. cbn. by rewrite Hp. Qed.

#[export] Instance first_router : Router := {|
  match_routes := first_match 0;
  match_one := first_match_one 0;
  match_none := first_match_none 0;
|}.

(** ** Examples *)

Example unknown_path : follow 2 (AuthState (Some (MkAuthUser "1" "a@x" Viewer None)) false) "/nowhere" None =
  Some (OPage PTenants []).
Proof. vm_compute. reflexivity. Qed.

Lemma redirects_end_witness :
  ∃ o, follow 2 (AuthState None false) "/zones/42" None = Some o ∧ o = OPage PLogin [].
Proof.
  destruct (redirects_end (AuthState None false) "/zones/42" None) as (o & Hf & _ & Ho & _).
  exists o. split; [exact Hf|exact (Ho eq_refl eq_refl)].
Defined.

Lemma links_resolve_witness :
  (r_element (route_of (group_link "acme" "eng")).1, (route_of (group_link "acme" "eng")).2) =
    (Show PPolicy, [("tenantId", "acme"); ("groupId", "eng")]).
Proof.
  exact (proj1 (proj2 (proj2 (proj2 (proj2 (links_resolve "acme" "eng" "z1" "/tenants" 24 (OfDecision true) []
    eq_refl eq_refl eq_refl ltac:(lia) eq_refl)))))).
Defined.

Lemma sign_in_drops_filters_witness :
  app_view (AuthState None false) "/query-log" None = OGoto "/login" (Some "/query-log").
Proof.
  exact (proj1 (sign_in_drops_filters (AuthState None false) (MkAuthUser "1" "a@x" Viewer None)
    (LoginForm None false None) 24 (OfClient "10.0.0.1") [] eq_refl eq_refl ltac:(lia) eq_refl)).
Defined.
