(* ===== verification/RegistryPages.v ===== *)
(** * The pages for tenants, groups and clients

    [pages/TenantsPage.tsx], [pages/GroupsPage.tsx] and [pages/ClientsPage.tsx] as a
    user sees and drives them: the loader or the error in place of the page, the
    table, the modals over it, and the confirmation before a deletion.  The three
    are instances of [row_page] of [RowPage.v] and of its class [PageForms]; the forms
    and requests are those of [Registry.v]. *)

From S2P Require Import Prelude JsText Json Client Errors Queries Auth Forms Effects Modal Tables RowPage Registry Routing.

(** ** The three pages *)

Section pages.
(** [new Date(s).toLocaleString()] *)
Variable date : string → string.

Inductive tenants_event := NewTenant | InTenant (e : form_event string).

Definition TenantsPage : row_page (modal unit string) Tenant tenants_event :=
  {| row_key := tn_id;
     headings := ["Name"; "Created"; ""];
     row_cells t := [Txt (tn_name t); Txt (date (tn_created_at t))];
     header_buttons u := (tenants_controls u).1;
     row_buttons u := (tenants_controls u).2;
     none_text _ := "No tenants yet. Create one to start configuring DNS policy.";
     row_link t := Some (tenant_link (tn_id t));
     can_delete u _ := hasRole u [Admin];
     delete_text t := "Delete " +:+ quoted (tn_name t) +:+ "? This removes all its groups and policies.";
     delete_row := delete_tenant;
     own u _ m e :=
       match e with
       | NewTenant => if hasRole u [Operator] then (modal_open (λ _, "") () m, Nothing) else (m, Nothing)
       | InTenant e => on_form 1 tenant_submit m e
       end;
     unmount := remount (λ _, "") |}.

Inductive groups_event :=
| NewGroup | InGroup (e : form_event group_form) | Rename (n : nat) | InRename (e : form_event string).

Definition groups_state : Type := modal string group_form * modal (string * string) string.

Definition GroupsPage (tenantId : string) : row_page groups_state Group groups_event :=
  {| row_key := gr_id;
     headings := ["Name"; "VPN subnet"; "Created"; ""];
     row_cells g :=
       [ Txt (gr_name g);
         if truthy_opt (gr_vpn_subnet g) then Badge (subnet_cell g) "" else Dim (subnet_cell g);
         Txt (date (gr_created_at g)) ];
     header_buttons u := (groups_controls u).1;
     row_buttons u := (groups_controls u).2;
     none_text _ := "No groups yet. A group maps to an OpenVPN AS/CE user-group and carries its own DNS policy.";
     row_link g := Some (group_link tenantId (gr_id g));
     can_delete u _ := hasRole u [Admin];
     delete_text g := "Delete " +:+ quoted (gr_name g) +:+ "? This removes its policy and block-page override.";
     delete_row := delete_group tenantId;
     own u rows s e :=
       match e with
       | NewGroup =>
           if hasRole u [Operator] then ((modal_open (λ _, group_initial) tenantId s.1, s.2), Nothing) else (s, Nothing)
       | InGroup e =>
           let '(m, i) := on_form 1 group_submit s.1 e in ((m, s.2), effect_on fst (λ m s, (m, s.2)) i)
       | Rename n =>
           match rows !! n with
           | Some g =>
               if hasRole u [Operator]
               then ((s.1, modal_open rename_initial (gr_id g, gr_name g) s.2), Nothing) else (s, Nothing)
           | None => (s, Nothing)
           end
       | InRename e =>
           let '(m, i) := on_form 2 (rename_submit tenantId) s.2 e in
           ((s.1, m), effect_on snd (λ m s, (s.1, m)) i)
       end;
     unmount s := (remount (λ _, group_initial) s.1, remount rename_initial s.2) |}.

Inductive clients_event :=
| EditClient (n : nat) | ChangeClient (g : client_form → client_form) | SaveClient | DismissClient | SetUnregistered (b : bool).

(** The row is not clickable; a save that throws sends nothing. *)
Definition ClientsPage (tenantId : string) : row_page clients_page ClientEntry clients_event :=
  {| row_key := cl_id;
     headings := ["IP"; "Hostname"; "Owner"; "Device"; "Tags"; "Last seen"; "Status"; ""];
     row_cells c :=
       [ Code (cl_ip c); or_dash (cl_hostname c); or_dash (cl_owner c); or_dash (cl_device_type c);
         Cells ((λ t, Badge t "") <$> cl_tags c); Txt (date (cl_last_seen c));
         if truthy_opt (cl_registered_at c) then Badge "registered" "green" else Badge "unregistered" "gray" ];
     header_buttons _ := [];
     row_buttons := clients_controls;
     none_text := empty_message;
     row_link _ := None;
     can_delete u _ := hasRole u [Operator];
     delete_text c :=
       "Delete registry entry for " +:+ cl_ip c +:+
       (if truthy_opt (cl_hostname c) then " (" +:+ default "" (cl_hostname c) +:+ ")" else "") +:+
       "? It will reappear as " +:+ quoted "unregistered" +:+ " the next time this IP sends a query.";
     delete_row := delete_client tenantId;
     own u rows p e :=
       match e with
       | EditClient n =>
           match rows !! n with
           | Some c => if hasRole u [Operator] then (edit c p, Nothing) else (p, Nothing)
           | None => (p, Nothing)
           end
       | ChangeClient g => (change g p, Nothing)
       | SaveClient => (p, match client_submit tenantId p with Some (Ok i) => Call 1 i | _ => Nothing end)
       | DismissClient => (dismiss p, Unmounts 1)
       | SetUnregistered b => (setUnregisteredOnly b p, Nothing)
       end;
     unmount p :=
       Registry.ClientsPage (editing p) (c ← editing p; (λ _, client_initial c) <$> edit_opened p) (unregisteredOnly p) |}.

(** [tenant?.name ?? tenantId] and the links before it. *)
Definition groups_breadcrumbs (tenants : option (list Tenant)) (tenantId : string) : list (option string * string) :=
  [(Some "/tenants", "Tenants"); (None, tenant_title tenants tenantId)].
Definition clients_breadcrumbs (tenants : option (list Tenant)) (tenantId : string) : list (option string * string) :=
  [(Some "/tenants", "Tenants"); (Some (tenant_link tenantId), tenant_title tenants tenantId); (None, "Clients")].
End pages.

(** ** The promises of the three pages *)

Section promises.
Variables (date : string → string) (u : option AuthUser) (listed_t : Tenant → Prop) (listed_g : Group → Prop)
  (listed_c : ClientEntry → Prop).

Definition tenant_sends (c : call) : Prop :=
  hasRole u [Operator] = true ∧ ∃ name, 2 ≤ js_length (trim name) ∧ c = mutationFn useCreateTenant (name_body name).

#[export] Program Instance tenants_forms : PageForms (TenantsPage date) u listed_t := {|
  forms_inv := opened_for (λ _, hasRole u [Operator] = true);
  sends := tenant_sends |}.
Next Obligation.
  intros rows m e _ H. destruct e as [|e]; cbn; [|by apply on_form_opened].
  by_role.
Qed.
Next Obligation.
  intros rows m e h i _ H. destruct e as [|e]; cbn; [by_role|].
  intros (t & v & -> & Hv & ->)%on_form_sends%modal_submit_open. split; [|by intros [] ?].
  split; [exact H|]. exists v. split; [|done]. apply Forall_cons in Hv as [Hv _]. by apply name_validate_None.
Qed.
Next Obligation. intros m. apply opened_remount. Qed.
Next Obligation. by intros t [] m. Qed.

Variable tenantId : string.

Definition group_sends (c : call) : Prop :=
  hasRole u [Operator] = true ∧
  ((∃ v, Forall (λ e, e = None) (group_validate v) ∧ c = mutationFn (useCreateGroup (Some tenantId)) (group_body v)) ∨
   (∃ g name, listed_g g ∧ 2 ≤ js_length (trim name) ∧
      c = mutationFn (useRenameGroup (Some tenantId)) (gr_id g, name_body name))).

#[export] Program Instance groups_forms : PageForms (GroupsPage date tenantId) u listed_g := {|
  forms_inv s := opened_for (λ t, t = tenantId ∧ hasRole u [Operator] = true) s.1 ∧
                 opened_for (λ t, (∃ g, listed_g g ∧ t.1 = gr_id g) ∧ hasRole u [Operator] = true) s.2;
  sends := group_sends |}.
Next Obligation.
  intros rows [m1 m2] e Hl [H1 H2]. cbn [fst snd] in *. destruct e as [|e|n|e]; cbn.
  - by_role.
  - destruct (on_form 1 group_submit m1 e) as [m i] eqn:E. cbn. split; [|done].
    change m with (m, i).1. rewrite <- E. by apply on_form_opened.
  - destruct (rows !! n) as [g|] eqn:Eg; [|done]. destruct (hasRole u [Operator]) eqn:Er; [|done]. cbn.
    split_and!; [done| |done]. exists g. split; [|done]. by eapply Forall_lookup_1.
  - destruct (on_form 2 (rename_submit tenantId) m2 e) as [m i] eqn:E. cbn. split; [done|].
    change m with (m, i).1. rewrite <- E. by apply on_form_opened.
Qed.
Next Obligation.
  intros rows [m1 m2] e h i Hl [H1 H2]. cbn [fst snd] in *. destruct e as [|e|n|e]; cbn.
  - by_role.
  - destruct (on_form 1 group_submit m1 e) as [m [h' j|h'|]] eqn:E; try done. cbn. intros [= <- <-].
    assert (group_submit m1 = Some j) as (t & v & -> & Hv & ->)%modal_submit_open
      by (apply (on_form_sends 1 _ _ e h'); by rewrite E).
    destruct H1 as [-> Hr]. split; [|by intros [] [? ?] [? ?]]. split; [done|]. left. by exists v.
  - destruct (rows !! n) as [g|]; [|done]. by_role.
  - destruct (on_form 2 (rename_submit tenantId) m2 e) as [m [h' j|h'|]] eqn:E; try done. cbn. intros [= <- <-].
    assert (rename_submit tenantId m2 = Some j) as (t & v & -> & Hv & ->)%modal_submit_open
      by (apply (on_form_sends 2 _ _ e h'); by rewrite E).
    destruct H2 as [(g & Hg & Et) Hr]. split; [|by intros [] [? ?] [? ?]]. split; [done|]. right. exists g, v.
    rewrite <- Et. split_and!; [done| |done]. apply Forall_cons in Hv as [Hv _]. by apply name_validate_None.
Qed.
Next Obligation. intros [m1 m2] [H1 H2]. split; by apply opened_remount. Qed.
Next Obligation. by intros t [] s. Qed.

Definition client_sends (c : call) : Prop :=
  hasRole u [Operator] = true ∧
  ∃ x v body, listed_c x ∧ client_body v = Ok body ∧ c = mutationFn (useRegisterClient (Some tenantId)) (cl_ip x, body).

#[export] Program Instance clients_forms : PageForms (ClientsPage date tenantId) u listed_c := {|
  forms_inv p := (edit_opened p ≠ None → hasRole u [Operator] = true) ∧ ∀ x, editing p = Some x → listed_c x;
  sends := client_sends |}.
Next Obligation.
  intros rows p e Hl [H Hx]. destruct e as [n|g| | |b]; cbn; try (by split).
  - destruct (rows !! n) as [c|] eqn:Ec; [|by split]. destruct (hasRole u [Operator]) eqn:Er; [|by split]. cbn.
    split; [done|]. intros ? [= <-]. by eapply Forall_lookup_1.
  - split; [|done]. intros Hg. apply H. by destruct (edit_opened p).
Qed.
Next Obligation.
  intros rows p e h i Hl [H Hx]. destruct e as [n|g| | |b]; cbn; try done.
  - destruct (rows !! n); [|done]. by_role.
  - unfold client_submit. destruct (editing p) as [c|] eqn:Ec; [|done]. destruct (edit_opened p) as [v|] eqn:Ev; [|done].
    cbn. destruct (client_body v) as [body|] eqn:Eb; [|done]. cbn. intros [= <- <-].
    split; [|intros [r|m] p' [H1 H2]; split; cbn; naive_solver].
    split; [apply H; congruence|]. exists c, v, body. split_and!; auto.
Qed.
Next Obligation.
  intros p [H Hx]. cbn. split; [|done]. destruct (editing p) as [c|]; [|done]. cbn. intros He. apply H.
  by destruct (edit_opened p).
Qed.
Next Obligation. by intros t [] s. Qed.
End promises.

Lemma admin_operator u : hasRole u [Admin] = true → hasRole u [Operator] = true.
Proof. destruct u as [[id email role tenant]|]; [|done]. by destruct role. Qed.

Section gate.
Context `{Router} (date : string → string) (u : option AuthUser) (tenantId : string).

(** C7: on the pages for tenants, groups and clients, whatever is clicked, typed and
    answered, and whatever the lists hold at each click: below the operator role
    nothing is ever sent; what is sent is a form whose fields are valid, or the
    deletion of a row that was on screen when its button was clicked, and tenants and
    groups are deleted by administrators alone; what a form changes was on screen too; a click on a tenant or a group opens
    the page for it, and the rows of the clients lead nowhere. *)
Theorem registry_gate (s1 : list (result (list Tenant) * event tenants_event))
    (s2 : list (result (list Group) * event groups_event))
    (s3 : list (result (list ClientEntry) * event clients_event)) :
  let o1 := (run (TenantsPage date) u (Conf None None []) s1).2 in
  let o2 := (run (GroupsPage date tenantId) u (Conf (None, None) None []) s2).2 in
  let o3 := (run (ClientsPage date tenantId) u (Conf clients_init None []) s3).2 in
  (hasRole u [Operator] = false → ∀ c, Sent c ∉ o1 ++ o2 ++ o3) ∧
  (∀ c, Sent c ∈ o1 → tenant_sends u c ∨
     hasRole u [Admin] = true ∧ ∃ t, was_shown s1 ClickDelete t ∧ c = mutationFn useDeleteTenant (tn_id t)) ∧
  (∀ c, Sent c ∈ o2 → group_sends u (was_listed s2) tenantId c ∨
     hasRole u [Admin] = true ∧
     ∃ g, was_shown s2 ClickDelete g ∧ c = mutationFn (useDeleteGroup (Some tenantId)) (gr_id g)) ∧
  (∀ c, Sent c ∈ o3 → client_sends u (was_listed s3) tenantId c ∨
     hasRole u [Operator] = true ∧
     ∃ x, was_shown s3 ClickDelete x ∧ c = mutationFn (useDeleteClient (Some tenantId)) (cl_ip x)) ∧
  (∀ to, Went to ∈ o1 → ∃ t, was_shown s1 ClickRow t ∧
     (segment_ok (tn_id t) = true → opens to = (Show PGroups, [("tenantId", tn_id t)]))) ∧
  (∀ to, Went to ∈ o2 → ∃ g, was_shown s2 ClickRow g ∧
     (segment_ok tenantId = true → segment_ok (gr_id g) = true →
      opens to = (Show PPolicy, [("tenantId", tenantId); ("groupId", gr_id g)]))) ∧
  (∀ to, Went to ∉ o3).
Proof.
  assert (H1 : ∀ o, o ∈ (run (TenantsPage date) u (Conf None None []) s1).2 → out_ok (TenantsPage date) u s1 o)
    by (intros o; apply outs_elem; exact I).
  assert (H2 : ∀ o, o ∈ (run (GroupsPage date tenantId) u (Conf (None, None) None []) s2).2 →
    out_ok (GroupsPage date tenantId) u s2 o) by (intros o; apply outs_elem; by split).
  assert (H3 : ∀ o, o ∈ (run (ClientsPage date tenantId) u (Conf clients_init None []) s3).2 →
    out_ok (ClientsPage date tenantId) u s3 o) by (intros o; apply outs_elem; by split; [intros []|]).
  intros o1 o2 o3. fold o1 in H1. fold o2 in H2. fold o3 in H3. clearbody o1 o2 o3. split_and!.
  - intros Hu c. rewrite !elem_of_app. intros [Hc|[Hc|Hc]].
    + apply H1 in Hc as [[Hr _]|(t & Hr%admin_operator & _)]; congruence.
    + apply H2 in Hc as [[Hr _]|(t & Hr%admin_operator & _)]; congruence.
    + apply H3 in Hc as [[Hr _]|(t & Hr & _)]; cbn in *; congruence.
  - intros c [Hs|(t & Hr & Ht & ->)]%H1; [by left|right]. split; [done|]. by exists t.
  - intros c [Hs|(t & Hr & Ht & ->)]%H2; [by left|right]. split; [done|]. by exists t.
  - intros c [Hs|(t & Hr & Ht & ->)]%H3; [by left|right]. split; [done|]. by exists t.
  - intros to (t & Ht & [= <-])%H1. exists t. split; [done|]. apply tenant_route.
  - intros to (g & Hg & [= <-])%H2. exists g. split; [done|]. apply group_route.
  - by intros to (x & Hx & [=])%H3.
Qed.
End gate.

(** An administrator deletes a tenant; an operator cannot. *)
Definition acme : Tenant := MkTenant "acme" "Acme" "2026-01-02T08:00:00Z".
Definition shown_acme : result (list Tenant) := Result (Some [acme]) false None.
Definition signed_in (r : Role) : option AuthUser := Some (MkAuthUser "u1" "ann@corp.local" r None).

Lemma registry_gate_witness :
  (run (TenantsPage id) (signed_in Admin) (Conf None None []) [(shown_acme, ClickDelete 0); (shown_acme, Confirm)]).2
    = [Sent (mutationFn useDeleteTenant "acme")] ∧
  (run (TenantsPage id) (signed_in Viewer) (Conf None None [])
     [(shown_acme, ClickDelete 0); (shown_acme, Confirm); (shown_acme, Own NewTenant)]).2 = [] ∧
  Sent (mutationFn useDeleteTenant "acme") ∉
    (run (TenantsPage id) (signed_in Viewer) (Conf None None [])
       [(shown_acme, ClickDelete 0); (shown_acme, Confirm); (shown_acme, Own NewTenant)]).2.
Proof.
  split; [reflexivity|]. split; [reflexivity|].
  intros Hin. refine (proj1 (@registry_gate _ id (signed_in Viewer) "t1"
    [(shown_acme, ClickDelete 0); (shown_acme, Confirm); (shown_acme, Own NewTenant)] [] []) _ _ _); [reflexivity|].
  apply elem_of_app. left. exact Hin.
Defined.
