(* ===== verification/UsersPage.v ===== *)
(** * The page of users

    [pages/UsersPage.tsx] as it is driven: the loader, the table with its buttons, the
    modal that adds a user, whose form is kept while it is closed, the modal that edits
    one, keyed by the user, and the deletion with its confirmation.  The page is a
    [row_page] of [RowPage.v]; the forms and requests are those of [Users.v]. *)

From S2P Require Import Prelude JsText Json Client Errors Schema Queries Auth Locale Forms Effects Modal Tables RowPage Registry Users.

(** ** The page *)

Definition users_state : Type := kept add_user * modal User edit_user.
Definition users_init : users_state := (kept_init add_user_initial, None).

Inductive users_event :=
| OpenAdd | InAdd (e : form_event add_user) | EditUserOf (n : nat) | InEdit (e : form_event edit_user).

(** The cells of a row: the email with the mark of the signed-in user, the role, and
    the tenant. *)
Definition user_cells (currentUser : option AuthUser) (x : User) : list cell :=
  let r := user_row_view currentUser x in
  [ Cells (Txt (ur_email r) :: if ur_you r then [Badge "you" "blue"] else []);
    Badge (ur_role r).1 (ur_role r).2; Dim (ur_tenant r) ].

(** Only the button above the table asks for a role; Delete is off in the row of the
    signed-in user. *)
Definition UsersPage (currentUser : option AuthUser) : row_page users_state User users_event :=
  {| row_key := us_id;
     headings := ["Email"; "Role"; "Tenant scope"; ""];
     row_cells := user_cells currentUser;
     header_buttons u := if hasRole u [Admin] then ["Add user"] else [];
     row_buttons _ := ["Edit user"; "Delete"];
     none_text _ := "No users found";
     row_link _ := None;
     can_delete u x := negb (isSelf u x);
     delete_text x := "Delete " +:+ us_email x +:+ "? They will immediately lose access.";
     delete_row := delete_user;
     own u rows s e :=
       match e with
       | OpenAdd => if hasRole u [Admin] then ((kept_open s.1, s.2), Nothing) else (s, Nothing)
       | InAdd e =>
           let '(m, x) := on_kept 1 add_user_initial add_user_submit s.1 e in
           ((m, s.2), effect_on fst (λ m s, (m, s.2)) x)
       | EditUserOf n =>
           match rows !! n with Some x => ((s.1, setEditUser x s.2), Nothing) | None => (s, Nothing) end
       | InEdit e =>
           let '(m, x) := on_form 2 edit_user_submit s.2 e in ((s.1, m), effect_on snd (λ m s, (s.1, m)) x)
       end;
     unmount s := (remount_kept add_user_initial s.1, remount edit_user_initial s.2) |}.

(** [const { data: users = [], isLoading } = useUsers()], sorted: an error is not read. *)
Definition users_listed (lc : string → string → Z) (r : result (list User)) : result (list User) :=
  Result (Some (sorted_users lc (default [] (q_data r)))) (q_loading r) None.

(** The line under the table. *)
Definition users_footer (users : list User) : string :=
  Z_str (Z.of_nat (length users)) +:+ " user" +:+ plural (length users).

Record users_screen := UsersScreen {
  uv_figures : list (string * nat);
  uv_page : shown;
  uv_footer : string;
}.

(** The loader in place of the page, or its figures, table and footer. *)
Definition users_view (lc : string → string → Z) (u : option AuthUser) (r : result (list User)) (s : users_state) :
    option users_screen :=
  if q_loading r then None
  else
    let users := default [] (q_data r) in
    Some (UsersScreen (user_figures users) (view (UsersPage u) u (users_listed lc r) s) (users_footer users)).

Section run.
Variables (lc : string → string → Z) (u : option AuthUser).

Definition on_users (script : list (result (list User) * event users_event)) :
    list (result (list User) * event users_event) :=
  (λ '(r, e), (users_listed lc r, e)) <$> script.

Definition users_run (script : list (result (list User) * event users_event)) :
    conf users_state User * list out :=
  run (UsersPage u) u (Conf users_init None []) (on_users script).

(** ** Promises *)

Variable listed : User → Prop.

Definition users_sends (c : call) : Prop :=
  (hasRole u [Admin] = true ∧
   ∃ v, Forall (λ e, e = None) (add_user_validate v) ∧ c = mutationFn useCreateUser (add_user_body v)) ∨
  (∃ x w, listed x ∧ c = mutationFn useUpdateUser (us_id x, edit_user_body w)).

#[export] Program Instance users_forms : PageForms (UsersPage u) u listed := {|
  forms_inv s := (k_opened s.1 = true → hasRole u [Admin] = true) ∧ opened_for listed s.2;
  sends := users_sends |}.
Next Obligation.
  intros rows [k m] e Hl [H1 H2]. cbn [fst snd] in *. destruct e as [|e|n|e]; cbn.
  - destruct (hasRole u [Admin]) eqn:Er; by split.
  - destruct (on_kept 1 add_user_initial add_user_submit k e) as [k' x] eqn:E. split; [|done].
    intros Ho. apply H1, (on_kept_opened 1 add_user_initial add_user_submit k e). by rewrite E.
  - destruct (rows !! n) as [x|] eqn:Ex; [|by split]. split; [done|]. cbn. by apply (Forall_lookup_1 _ _ _ _ Hl Ex).
  - destruct (on_form 2 edit_user_submit m e) as [m' x] eqn:E. split; [done|].
    change m' with (m', x).1. rewrite <- E. by apply on_form_opened.
Qed.
Next Obligation.
  intros rows [k m] e h i Hl [H1 H2]. cbn [fst snd] in *. destruct e as [|e|n|e]; cbn.
  - by destruct (hasRole u [Admin]).
  - destruct (on_kept 1 add_user_initial add_user_submit k e) as [k' [h' j|h'|]] eqn:E; try done. cbn. intros [= <- <-].
    destruct (on_kept_sends 1 add_user_initial add_user_submit k e h' j) as [Ho [Hv ->]%onSubmit_Some]; [by rewrite E|].
    split; [|by intros [] [? ?] [? ?]]. left. split; [auto|]. by exists (k_values k).
  - by destruct (rows !! n).
  - destruct (on_form 2 edit_user_submit m e) as [m' [h' j|h'|]] eqn:E; try done. cbn. intros [= <- <-].
    assert (edit_user_submit m = Some j) as (x & w & -> & _ & ->)%modal_submit_open
      by (apply (on_form_sends 2 _ _ e h'); by rewrite E).
    split; [|by intros [] [? ?] [? ?]]. right. by exists x, w.
Qed.
Next Obligation. intros [k m] [H1 H2]. split; [done|]. by apply opened_remount. Qed.
Next Obligation. by intros t [] s. Qed.
End run.

(** ** Properties *)

Section properties.
Variables (lc : string → string → Z) (u : option AuthUser).

(** The user was in the list when something was done. *)
Definition shown_user (script : list (result (list User) * event users_event)) (x : User) : Prop :=
  ∃ r e, (r, e) ∈ script ∧ q_loading r = false ∧ x ∈ default [] (q_data r).

Lemma users_on_screen r : on_screen (users_listed lc r) = if q_loading r then [] else sorted_users lc (default [] (q_data r)).
Proof. unfold on_screen, replaced, users_listed. cbn. by destruct (q_loading r). Qed.

Lemma listed_shown script x : was_listed (on_users lc script) x → shown_user script x.
Proof.
  intros (ld & e & ([r e'] & [= -> ->] & Hin)%list_elem_of_fmap & Hx). exists r, e'. rewrite users_on_screen in Hx.
  destruct (q_loading r); [by apply not_elem_of_nil in Hx|]. split_and!; [done..|]. unfold sorted_users in Hx.
  by rewrite sort_perm in Hx.
Qed.

Lemma clicked_shown script x : was_shown (on_users lc script) ClickDelete x → shown_user script x.
Proof. intros (ld & n & Hin & Hx). apply listed_shown. exists ld, (ClickDelete n). split; [done|]. by eapply list_elem_of_lookup_2. Qed.

(** C18: on the page of users, over every script of clicks, typing and answers: a user
    is created by an administrator from a valid form; what is edited or deleted is a
    user that was listed; nobody deletes their own account; and the page goes nowhere
    on its own.  Editing and deleting ask for no role: whoever sees the list can do
    both. *)
Theorem users_gate (script : list (result (list User) * event users_event)) :
  let outs := (users_run lc u script).2 in
  (∀ c, Sent c ∈ outs →
     (hasRole u [Admin] = true ∧
      ∃ v, Forall (λ e, e = None) (add_user_validate v) ∧ c = mutationFn useCreateUser (add_user_body v)) ∨
     (∃ x w, shown_user script x ∧ c = mutationFn useUpdateUser (us_id x, edit_user_body w)) ∨
     (∃ x, shown_user script x ∧ isSelf u x = false ∧ c = mutationFn useDeleteUser (us_id x))) ∧
  (∀ me, u = Some me → Sent (mutationFn useDeleteUser (u_id me)) ∉ outs) ∧
  (∀ to, Went to ∉ outs) ∧
  (∀ users n x, sorted_users lc users !! n = Some x →
     let r := Result (Some users) false None in
     (users_run lc u [(r, Own (EditUserOf n)); (r, Own (InEdit Submit))]).2 =
       [Sent (mutationFn useUpdateUser (us_id x, edit_user_body (edit_user_initial x)))] ∧
     (isSelf u x = false →
      (users_run lc u [(r, ClickDelete n); (r, Confirm)]).2 = [Sent (mutationFn useDeleteUser (us_id x))])).
Proof.
  intros outs. assert (∀ o, o ∈ outs → out_ok (UsersPage u) u (on_users lc script) o) as Ho
    by (intros o; apply outs_elem; by split).
  assert (∀ c, Sent c ∈ outs →
     (hasRole u [Admin] = true ∧
      ∃ v, Forall (λ e, e = None) (add_user_validate v) ∧ c = mutationFn useCreateUser (add_user_body v)) ∨
     (∃ x w, shown_user script x ∧ c = mutationFn useUpdateUser (us_id x, edit_user_body w)) ∨
     (∃ x, shown_user script x ∧ isSelf u x = false ∧ c = mutationFn useDeleteUser (us_id x))) as Hsent.
  { intros c [[Hc|(x & w & Hx & ->)]|(x & Hc & Hx & ->)]%Ho; [by left|right; left|right; right].
    - exists x, w. split; [by apply listed_shown|done].
    - exists x. split_and!; [by apply clicked_shown| |done]. by apply negb_true_iff in Hc. }
  split_and!; [done| | |].
  - intros me -> [(_ & v & _ & [=])|[(x & w & _ & [=])|(x & _ & Hs & [= E])]]%Hsent.
    unfold isSelf in Hs. apply bool_decide_eq_false in Hs. cbn in *. congruence.
  - by intros to (x & _ & [=])%Ho.
  - intros users n x Hx r. unfold users_run, on_users. cbn -[sorted_users]. rewrite Hx. cbn -[sorted_users].
    split; [done|]. by intros ->.
Qed.

(** The form of the add modal is kept, and so is its hook: when the modal was closed
    while a user was being created, and opened again for the next one, the answer of
    the first closes it, and what was typed is lost. *)
Lemma late_answer_discards (v : add_user) (g : add_user → add_user) (a : option json) r :
  hasRole u [Admin] = true → Forall (λ e, e = None) (add_user_validate v) → q_loading r = false →
  let typed := [(r, Own OpenAdd); (r, Own (InAdd (Change (λ _, v)))); (r, Own (InAdd Submit)); (r, Own (InAdd Close));
                (r, Own OpenAdd); (r, Own (InAdd (Change g)))] in
  st (users_run lc u typed).1 = (Kept true (g add_user_initial), None) ∧
  st (users_run lc u (typed ++ [(r, Settled 0 (Ok a))])).1 = users_init.
Proof.
  intros Hr Hv Hl. assert (add_user_submit (Kept true v) = Some (add_user_send v)) as Hs by (by apply onSubmit_Some).
  destruct r as [d l e]. cbn in Hl. subst l. unfold users_run, on_users.
  change (Kept true v) with (kept_edit (λ _, v) (kept_open (kept_init add_user_initial))) in Hs.
  repeat (cbn -[add_user_submit sorted_users hasRole]; rewrite ?Hr, ?Hs). by cbn.
Qed.
End properties.
