(* ===== verification/SettingsPage.v ===== *)
(** * The settings page

    [pages/SettingsPage.tsx] as a whole: the tab in the URL, the cards of the three
    panels, the syslog section as a state machine with the requests it has in flight,
    and the password form.  Panels are not kept mounted, so leaving one forgets what
    was typed in it.  The forms, requests and rows are those of [Settings.v]. *)

From S2P Require Import Prelude JsText Json Web Search Client Errors Queries Auth Hooks Forms Effects Modal RowPage Registry RegistryPages Settings.

(** ** The syslog section *)

(** [testingId] and the modal with its form. *)
Definition siem_state : Type := testing * modal unit syslog_form.

(** The section: its state, the sink of the open confirmation, and the requests in
    flight, each with its hook: 0 deletes, 1 creates and belongs to the form in the
    modal, 2 updates, 3 tests. *)
Record siem := Siem {
  si_state : siem_state;
  si_asked : option SiemSyslogSink;
  si_flying : list (nat * inflight siem_state);
}.

Definition siem_mount : siem := Siem (None, None) None [].

Inductive siem_event :=
| OpenAdd | InSyslog (e : form_event syslog_form)
| ToggleSink (n : nat) | TestSink (n : nat) | DeleteSink (n : nat) | ConfirmSink | CancelSink
| SettledSink (n : nat) (o : exc (option json)).

Definition on_testing : inflight testing → inflight siem_state := inflight_on fst (λ t s, (t, s.2)).
Definition on_modal : inflight (modal unit syslog_form) → inflight siem_state := inflight_on snd (λ m s, (s.1, m)).

Definition fly (h : nat) (i : inflight siem_state) (s : siem) : siem * list out :=
  (Siem (si_state s) (si_asked s) (launch h i (si_flying s)), [Sent (f_call i)]).

Definition set_siem (x : siem_state) (s : siem) : siem := Siem x (si_asked s) (si_flying s).

(** A step on the sinks that are listed.  The Test button of a sink is loading while
    the sink is tested, the submit button while its request is pending. *)
Definition siem_step (sinks : list SiemSyslogSink) (s : siem) (e : siem_event) : siem * list out :=
  let '(t, m) := si_state s in
  match e with
  | OpenAdd => (set_siem (t, modal_open (λ _, syslog_initial) () m) s, [])
  | InSyslog e =>
      match on_form 1 syslog_submit m e with
      | (m', Call h i) => if busy h (si_flying s) then (s, []) else fly h (on_modal i) (set_siem (t, m') s)
      | (m', Unmounts h) => (Siem (t, m') (si_asked s) (unheard h (si_flying s)), [])
      | (m', Nothing) => (set_siem (t, m') s, [])
      end
  | ToggleSink n =>
      match sinks !! n with Some k => fly 2 (on_testing (sink_toggle k)) s | None => (s, []) end
  | TestSink n =>
      match sinks !! n with
      | Some k =>
          if decide (t = Some (sk_id k)) then (s, [])
          else let '(t', i) := test k t in fly 3 (on_testing i) (set_siem (t', m) s)
      | None => (s, [])
      end
  | DeleteSink n =>
      match sinks !! n with Some k => (Siem (t, m) (Some k) (si_flying s), []) | None => (s, []) end
  | ConfirmSink =>
      match si_asked s with
      | Some k => fly 0 (on_testing (delete_sink k)) (Siem (t, m) None (si_flying s))
      | None => (s, [])
      end
  | CancelSink => (Siem (t, m) None (si_flying s), [])
  | SettledSink n o =>
      match si_flying s !! n with
      | Some (_, i) =>
          let '(notes, x) := f_settled i o (t, m) in
          (Siem x (si_asked s) (delete n (si_flying s)), Told <$> notes)
      | None => (s, [])
      end
  end.

(** What the section shows: a loader, a text, or the rows. *)
Record siem_view := SiemView { sv_loader : bool; sv_empty : option string; sv_rows : list (string * sink_row) }.

Definition SiemSyslogSection (toLocaleTimeString : string → string) (isLoading : bool)
    (sinks : option (list SiemSyslogSink)) (s : siem) : siem_view :=
  SiemView isLoading
    (if negb isLoading && bool_decide (default [] sinks = [])
     then Some "No syslog sinks configured. Add one to start streaming DNS events." else None)
    ((λ k, (sk_id k, sink_row_view toLocaleTimeString (si_state s).1 k)) <$> default [] sinks).

(** ** The page *)

Record settings := MkSettings {
  st_url : UrlFilters.history;
  st_password : password_form;
  st_changing : list (inflight password_form);
  st_siem : siem;
}.

Definition tab_defaults : list (string * string) := [("tab", "system")].
Definition tab_of (h : UrlFilters.history) : string :=
  default "" (UrlFilters.read tab_defaults (UrlFilters.current h) "tab").

Definition settings_mount (h : UrlFilters.history) : settings := MkSettings h password_initial [] siem_mount.

Inductive settings_event :=
| ChooseTab (v : option string) | TypePassword (g : password_form → password_form) | ChangePassword
| PasswordSettled (n : nat) (o : exc (option json)) | InSiem (e : siem_event).

(** The panel that is mounted. *)
Definition shows (name : string) (p : settings) : bool := bool_decide (panel (tab_of (st_url p)) = Some name).

(** [onChange={(v) => setFilters({ tab: v ?? "system" })}]: another panel is mounted,
    and what the panel that is left has in flight settles unheard. *)
Definition choose_tab (v : option string) (p : settings) : settings :=
  let h := UrlFilters.setFilters tab_defaults [("tab", Some (default "system" v))] (st_url p) in
  if decide (tab_of h = tab_of (st_url p)) then MkSettings h (st_password p) (st_changing p) (st_siem p)
  else settings_mount h.

Section page.
Context (u : option AuthUser).

Definition settings_step (sinks : list SiemSyslogSink) (p : settings) (e : settings_event) : settings * list out :=
  match e with
  | ChooseTab v => (choose_tab v p, [])
  | TypePassword g =>
      (if shows "security" p then MkSettings (st_url p) (g (st_password p)) (st_changing p) (st_siem p) else p, [])
  | ChangePassword =>
      if shows "security" p
      then match password_submit (st_password p), st_changing p with
           | Some i, [] => (MkSettings (st_url p) (st_password p) [i] (st_siem p), [Sent (f_call i)])
           | _, _ => (p, [])
           end
      else (p, [])
  | PasswordSettled n o =>
      match st_changing p !! n with
      | Some i =>
          let '(notes, v) := f_settled i o (st_password p) in
          (MkSettings (st_url p) v (delete n (st_changing p)) (st_siem p), Told <$> notes)
      | None => (p, [])
      end
  | InSiem e =>
      if shows "integrations" p && integrations_shown u
      then let '(s, o) := siem_step sinks (st_siem p) e in (MkSettings (st_url p) (st_password p) (st_changing p) s, o)
      else (p, [])
  end.

Fixpoint settings_run (p : settings) (script : list (list SiemSyslogSink * settings_event)) : settings * list out :=
  match script with
  | [] => (p, [])
  | (sinks, e) :: r =>
      let '(p1, o1) := settings_step sinks p e in let '(p2, o2) := settings_run p1 r in (p2, o1 ++ o2)
  end.
End page.

(** ** The cards *)

Inductive card :=
| Facts (title : string) (facts : list (string * string))
| Endpoints (title : string) (rows : list (string * string))
| PasswordCard (title : string)
| Capabilities (title : string) (rows : list (string * list bool))
| Planned (title badge : string)
| Rules (title : string) (rules : list string)
| Sinks
| Note_ (text : string).

Definition capability_row (c : capability) : string * list bool :=
  (cp_name c, [cp_has c Admin; cp_has c Operator; cp_has c Viewer]).

Definition PLATFORM : list (string * string) :=
  [ ("Product", "Mantis-DNS"); ("Control API", "FastAPI / Python"); ("Filter node", "Rust (mantis-filter)");
    ("UI", "React + Mantine 9"); ("Auth", "JWT (HS256)"); ("Database", "PostgreSQL 17 (psycopg3)") ].

Definition PASSWORD_RULES : list string :=
  [ "Minimum 12 characters"; "No maximum length limit"; "Passwords are bcrypt-hashed (cost 12)";
    "Self-service password change available above; no forced rotation/expiry policy yet" ].

Section cards.
Variables (newURL : string → string → string) (b : browser) (vite_api_url : option string).

Definition api_facts : list (string * string) :=
  [ ("Authentication", "Bearer JWT (Authorization header)"); ("Token expiry", "8 hours");
    ("Docs", apiUrl newURL b vite_api_url "/docs") ].

Definition panel_cards (u : option AuthUser) (tab : string) : list card :=
  if decide (tab = "system")
  then [Facts "Platform" PLATFORM; Endpoints "Infrastructure endpoints" (endpoints newURL b vite_api_url)]
  else if decide (tab = "security")
  then [ PasswordCard "Change password"; Capabilities "Role-based access control" (capability_row <$> CAPABILITIES);
         Planned "Single sign-on (SSO / OIDC)" "Planned — Sprint 8"; Rules "Password policy" PASSWORD_RULES ]
  else if decide (tab = "integrations")
  then [ (if integrations_shown u then Sinks else Note_ "Admin role required to manage integrations.");
         Facts "API access" api_facts ]
  else [].
End cards.

(** ** The spinner of a test *)

(** The answer of the test of a sink is awaited and will be heard: its request is
    the one the test hook has in flight. *)
Definition heard_test (s : siem) (id : string) : Prop :=
  ∃ i, (3, i) ∈ si_flying s ∧ f_call i = mutationFn useTestSiemSyslogSink id.

(** [testingId] is the sink whose answer is awaited; answers to anything else leave
    it, the answer to the test clears it. *)
Definition siem_ok (s : siem) : Prop :=
  NoDup (si_flying s).*1 ∧
  (∀ id, (si_state s).1 = Some id ↔ heard_test s id) ∧
  Forall (λ x, (x.1 = 3 → ∃ id, f_call x.2 = mutationFn useTestSiemSyslogSink id) ∧
               ∀ o st, (f_settled x.2 o st).2.1 = if decide (x.1 = 3) then None else st.1) (si_flying s).

Lemma test_call_inj a b : mutationFn useTestSiemSyslogSink a = mutationFn useTestSiemSyslogSink b → a = b.
Proof. by intros [= ->]. Qed.

Lemma elem_of_launch {S} h k (i j : inflight S) fl :
  (k, j) ∈ launch h i fl ↔ (k ≠ h ∧ (k, j) ∈ fl) ∨ (k = h ∧ j = i).
Proof.
  unfold launch, unheard. rewrite elem_of_app, list_elem_of_filter, list_elem_of_singleton. cbn. naive_solver.
Qed.

Lemma Forall_hook {S} (P : nat * inflight S → Prop) h i fl : P (h, i) → Forall P fl → Forall P (launch h i fl).
Proof.
  intros Hi Hf. apply Forall_app_2; [|by constructor]. rewrite Forall_forall in *.
  intros x [_ Hx]%list_elem_of_filter. by apply Hf.
Qed.

(** A request that is not a test leaves the mark, and so does its answer. *)
Lemma fly_ok h i s :
  h ≠ 3 → (∀ o st, (f_settled i o st).2.1 = st.1) → siem_ok s → siem_ok (fly h i s).1.
Proof.
  intros Hh Hi (Hn & Ht & Hf). split_and!; cbn [fst si_flying si_state fly set_siem].
  - by apply launch_nodup.
  - intros id. rewrite Ht. unfold heard_test. cbn [si_flying]. setoid_rewrite elem_of_launch. naive_solver.
  - apply Forall_hook; [|done]. cbn. split; [done|]. intros o st. by rewrite decide_False.
Qed.

(** A test takes the hook: the mark is that of the new sink, and an answer still
    awaited for another one will not be heard. *)
Lemma test_ok k s :
  siem_ok s → let '(t', i) := test k (si_state s).1 in
  let s' := (fly 3 (on_testing i) (set_siem (t', (si_state s).2) s)).1 in
  siem_ok s' ∧ ∀ id, heard_test s' id ↔ id = sk_id k.
Proof.
  intros (Hn & Ht & Hf). cbn [test].
  set (s' := (fly 3 _ _).1).
  assert (∀ id, heard_test s' id ↔ id = sk_id k) as Hh.
  { intros id. unfold heard_test, s'. cbn [fst si_flying fly set_siem]. setoid_rewrite elem_of_launch. split.
    - intros (i & [[? _]|[_ ->]] & Hc); [done|]. cbn in Hc. by simplify_eq.
    - intros ->. eexists. split; [by right|done]. }
  split; [|done]. split_and!.
  - by apply launch_nodup.
  - intros id. rewrite Hh. cbn. naive_solver.
  - apply Forall_hook; [|done]. split; [by exists (sk_id k)|]. by intros [] [].
Qed.

Lemma siem_step_ok sinks s e : siem_ok s → siem_ok (siem_step sinks s e).1.
Proof.
  intros Hok. pose proof Hok as (Hn & Ht & Hf). unfold siem_step. destruct s as [[t m] k fl]. cbn [si_state si_asked si_flying fst snd] in *.
  destruct e as [|e|n|n|n| | |n o].
  - by split_and!.
  - destruct (on_form 1 syslog_submit m e) as [m' [h i|h|]] eqn:E; [| |by split_and!].
    + assert (h = 1) as -> by (destruct e; cbn in E; [done| |done]; by destruct (syslog_submit m); cbn in E; simplify_eq).
      destruct (busy 1 fl); [done|]. apply fly_ok; [done| |by split_and!]. intros o [a b]. cbn. by destruct (f_settled i o b).
    + assert (h = 1) as -> by (destruct e; cbn in E; [done| |congruence]; by destruct (syslog_submit m)).
      split_and!; cbn [fst si_flying si_state fly set_siem].
      * rewrite unheard_hooks. by apply NoDup_filter.
      * intros id. rewrite Ht. unfold heard_test. cbn. setoid_rewrite list_elem_of_filter. cbn. naive_solver.
      * rewrite Forall_forall in *. intros x [_ Hx]%list_elem_of_filter. by apply Hf.
  - destruct (sinks !! n) as [x|]; [|done]. apply fly_ok; [done| |done]. by intros [] [].
  - destruct (sinks !! n) as [x|]; [|done]. case_decide; [done|]. exact (proj1 (test_ok x _ Hok)).
  - by destruct (sinks !! n).
  - destruct k as [x|]; [|done]. apply (fly_ok 0); [done|by intros [] []|by split_and!].
  - by split_and!.
  - destruct (fl !! n) as [[h i]|] eqn:Ei; [|done].
    pose proof (proj1 (Forall_lookup _ _) Hf n _ Ei) as [_ Hi]. specialize (Hi o (t, m)). cbn in Hi.
    destruct (f_settled i o (t, m)) as [notes [t' m']] eqn:Es.
    assert (t' = if decide (h = 3) then None else t) as Hi'
      by (transitivity (f_settled i o (t, m)).2.1; [by rewrite Es|exact Hi]).
    pose proof (delete_Permutation _ _ _ Ei) as Hp.
    rewrite Hp in Hn, Hf. cbn in Hn. apply NoDup_cons in Hn as [Hh Hn]. apply Forall_cons in Hf as [_ Hf].
    split_and!; cbn; [done| |done]. intros id. subst t'. unfold heard_test in *. cbn in *. case_decide.
    + subst h. split; [done|]. intros (j & Hj & _). destruct Hh. apply list_elem_of_fmap. by exists (3, j).
    + assert (∀ x, x ∈ fl ↔ x = (h, i) ∨ x ∈ delete n fl) as Hx by (intros x; by rewrite Hp at 1; rewrite elem_of_cons).
      rewrite Ht. setoid_rewrite Hx. naive_solver.
Qed.

(** The answer to a test ends the mark. *)
Lemma settled_clears sinks s n i o :
  siem_ok s → si_flying s !! n = Some (3, i) → (si_state (siem_step sinks s (SettledSink n o)).1).1 = None.
Proof.
  intros (_ & _ & Hf) Hi. pose proof (proj1 (Forall_lookup _ _) Hf n _ Hi) as [_ Hn]. cbn in Hn.
  destruct s as [[t m] asked fl]. cbn in *. specialize (Hn o (t, m)).
  destruct (fl !! n) as [[h j]|]; [injection Hi as -> ->|done].
  match goal with |- context [let '(_, _) := ?f in _] => destruct f as [notes x] eqn:E end.
  transitivity (f_settled i o (t, m)).2.1; [exact (f_equal (λ y, y.2.1) (eq_sym E))|exact Hn].
Qed.

(** ** The page *)

Lemma mount_ok : siem_ok siem_mount.
Proof. split_and!; [constructor| |constructor]. intros id. cbn. split; [done|]. by intros (i & ?%not_elem_of_nil & _). Qed.

Lemma choose_tab_ok v p : siem_ok (st_siem p) → siem_ok (st_siem (choose_tab v p)).
Proof. intros Hs. unfold choose_tab. case_decide; [done|apply mount_ok]. Qed.

Lemma settings_step_ok u sinks p e :
  siem_ok (st_siem p) →
  siem_ok (st_siem (settings_step u sinks p e).1) ∧
  ∀ c, Sent c ∈ (settings_step u sinks p e).2 →
    (∃ v i, password_submit v = Some i ∧ c = f_call i) ∨ hasRole u [Admin] = true.
Proof.
  intros Hs. destruct e as [v|g| |n o|e]; cbn [settings_step].
  - split; [by apply choose_tab_ok|]. by intros c ?%not_elem_of_nil.
  - split; [by destruct (shows _ p)|]. by intros c ?%not_elem_of_nil.
  - destruct (shows _ p); [|split; [done|by intros c ?%not_elem_of_nil]].
    destruct (password_submit (st_password p)) as [i|] eqn:E; [|split; [done|by intros c ?%not_elem_of_nil]].
    destruct (st_changing p); (split; [done|]); cbn; intros c Hc.
    + apply list_elem_of_singleton in Hc as [= ->]. left. eauto.
    + by apply not_elem_of_nil in Hc.
  - destruct (st_changing p !! n) as [i|]; [|split; [done|by intros c ?%not_elem_of_nil]].
    destruct (f_settled i o (st_password p)) as [notes v]. split; [done|]. cbn.
    by intros c (x & ? & _)%list_elem_of_fmap.
  - destruct (shows _ p && integrations_shown u) eqn:E; [|split; [done|by intros c ?%not_elem_of_nil]].
    apply andb_true_iff in E as [_ E]. pose proof (siem_step_ok sinks (st_siem p) e Hs) as Hs'.
    destruct (siem_step sinks (st_siem p) e) as [s o]. cbn in *. split; [done|]. intros c _. by right.
Qed.

Lemma settings_run_ok u script : ∀ p,
  siem_ok (st_siem p) →
  siem_ok (st_siem (settings_run u p script).1) ∧
  ∀ c, Sent c ∈ (settings_run u p script).2 →
    (∃ v i, password_submit v = Some i ∧ c = f_call i) ∨ hasRole u [Admin] = true.
Proof.
  induction script as [|[sinks e] r IH]; intros p Hs; cbn; [split; [done|by intros c ?%not_elem_of_nil]|].
  destruct (settings_step_ok u sinks p e Hs) as [H1 H2]. destruct (settings_step u sinks p e) as [p1 o1]. cbn in *.
  destruct (IH p1 H1) as [H3 H4]. destruct (settings_run u p1 r) as [p2 o2]. cbn in *. split; [done|].
  intros c [Hc|Hc]%elem_of_app; auto.
Qed.

Lemma tab_chosen v p : tab_of (st_url (choose_tab v p)) = default "system" v.
Proof.
  assert (tab_of (UrlFilters.setFilters tab_defaults [("tab", Some (default "system" v))] (st_url p)) =
    default "system" v) as E.
  { unfold tab_of, UrlFilters.setFilters. cbn [UrlFilters.current]. rewrite UrlFilters.read_spec.
    rewrite (UrlFilters.get_apply_same _ _ _ _ (Some (default "system" v))); [|cbn; apply NoDup_singleton|by left].
    change (Params.get "tab" tab_defaults) with (Some "system"). cbn. case_decide; cbn; congruence. }
  unfold choose_tab. by case_decide.
Qed.

(** C17: on the settings page, whatever is clicked, typed and answered.  Without the
    admin role the only requests are password changes whose form is valid, from the
    security panel.  The Test button of a sink is loading exactly while the request of
    the test hook that is in flight is the test of that sink, and the answer to it, of
    whatever outcome, ends it: it never hangs.  Testing another sink meanwhile sends its
    test and moves the mark there; the answer still awaited for the first one is not
    heard any more, so that its button stops early and its outcome is never shown.  The
    tab that was chosen is the one in the URL, an unknown one shows nothing; and a panel
    that is left forgets the passwords and the sink that were typed in it. *)
Theorem settings_gate (u : option AuthUser) (h : UrlFilters.history)
    (script : list (list SiemSyslogSink * settings_event)) (v : option string)
    (newURL : string → string → string) (b : browser) (vite : option string) (tab : string)
    (time : string → string) (k : SiemSyslogSink) :
  let '(p, outs) := settings_run u (settings_mount h) script in
  (∀ c, Sent c ∈ outs → (∃ f i, password_submit f = Some i ∧ c = f_call i) ∨ hasRole u [Admin] = true) ∧
  (sr_testing (sink_row_view time (si_state (st_siem p)).1 k) = true ↔ heard_test (st_siem p) (sk_id k)) ∧
  (∀ sinks n i o, si_flying (st_siem p) !! n = Some (3, i) → shows "integrations" p = true → hasRole u [Admin] = true →
     (si_state (st_siem (settings_step u sinks p (InSiem (SettledSink n o))).1)).1 = None) ∧
  (∀ sinks n, sinks !! n = Some k → shows "integrations" p = true → hasRole u [Admin] = true →
     ¬ heard_test (st_siem p) (sk_id k) →
     let '(p', o) := settings_step u sinks p (InSiem (TestSink n)) in
     o = [Sent (mutationFn useTestSiemSyslogSink (sk_id k))] ∧
     ∀ id, heard_test (st_siem p') id ↔ id = sk_id k) ∧
  tab_of (st_url (choose_tab v p)) = default "system" v ∧
  (default "system" v ≠ tab_of (st_url p) →
     st_password (choose_tab v p) = password_initial ∧ st_siem (choose_tab v p) = siem_mount) ∧
  (panel_cards newURL b vite u tab = [] ↔ panel tab = None).
Proof.
  destruct (settings_run_ok u script (settings_mount h) mount_ok) as [H1 H2].
  destruct (settings_run u (settings_mount h) script) as [p outs]. cbn [fst snd] in H1, H2.
  pose proof H1 as (_ & Ht & _). split_and!.
  - exact H2.
  - rewrite <- Ht. cbn. by rewrite bool_decide_eq_true.
  - intros sinks n i o Hi Hs Ha. cbn [settings_step]. rewrite Hs. unfold integrations_shown. rewrite Ha. cbn [andb].
    pose proof (settled_clears sinks (st_siem p) n i o H1 Hi) as Hn. by destruct (siem_step sinks (st_siem p) (SettledSink n o)).
  - intros sinks n Hk Hs Ha Hne. cbn [settings_step]. rewrite Hs. unfold integrations_shown. rewrite Ha. cbn [andb].
    destruct (test_ok k (st_siem p) H1) as [_ Hh]. rewrite <- Ht in Hne. unfold siem_step.
    destruct (st_siem p) as [[t m] asked fl]. cbn [si_state fst] in *. rewrite Hk, decide_False by done. by split.
  - apply tab_chosen.
  - intros Hne. pose proof (tab_chosen v p) as Hv. unfold choose_tab in *. case_decide as Hd; [|done].
    cbn [st_url] in Hv. congruence.
  - unfold panel_cards, panel, TABS. repeat case_decide; subst; try done; set_solver.
Qed.

Definition sink0 : SiemSyslogSink :=
  MkSink "k1" "wazuh" "10.0.0.9" 514 "udp" "cef" "all" None 0 None true.

Definition sink1 : SiemSyslogSink :=
  MkSink "k2" "graylog" "10.0.0.10" 514 "tcp" "cef" "all" None 0 None true.

Lemma settings_gate_witness :
  let script := [([sink0; sink1], ChooseTab (Some "integrations")); ([sink0; sink1], InSiem (TestSink 0))] in
  let p := (settings_run (signed_in Admin) (settings_mount (UrlFilters.History [] [])) script).1 in
  heard_test (st_siem p) "k1" ∧
  ¬ heard_test (st_siem (settings_step (signed_in Admin) [sink0; sink1] p (InSiem (TestSink 1))).1) "k1" ∧
  (settings_run (signed_in Operator) (settings_mount (UrlFilters.History [] [])) script).2 = [].
Proof.
  intros script p. pose proof (settings_gate (signed_in Admin) (UrlFilters.History [] []) script None (λ a _, a)
    (Browser None "" "") None "system" (λ s, s)) as H.
  change (settings_run (signed_in Admin) (settings_mount (UrlFilters.History [] [])) script)
    with (p, (settings_run (signed_in Admin) (settings_mount (UrlFilters.History [] [])) script).2) in H.
  split; [apply (proj1 (proj2 (H sink0))); reflexivity|]. split; [|reflexivity].
  destruct (H sink1) as (_ & Hr & _ & Hs & _). specialize (Hs [sink0; sink1] 1 eq_refl eq_refl eq_refl).
  destruct Hs as [_ Hs]; [by rewrite <- Hr|]. intros Hk. apply Hs in Hk. discriminate Hk.
Defined.
