(* ===== verification/Shell.v ===== *)
(** * The application shell

    [app/Shell.tsx]: the header with the menu of the user, the sidebar, and how the
    page is left: by an item of the sidebar or by signing out, both through
    [confirmNavigation] of [hooks/useUnsavedChangesGuard.ts].  The session is that of
    [Auth.v], the guard that of [Hooks.v], and where a navigation ends is decided by
    the routes of [Routing.v]. *)

From S2P Require Import Prelude JsText Json Web Search Client Auth Hooks Routing Translations.

#[export] Instance AuthUser_eq_dec : EqDecision AuthUser.
Proof. solve_decision. Defined.
#[export] Instance auth_state_eq_dec : EqDecision auth_state.
Proof. solve_decision. Defined.

(** ** What is shown *)

(** [user.role] *)
Definition role_text (r : Role) : string :=
  match r with Viewer => "viewer" | Operator => "operator" | Admin => "admin" end.

Section views.
Context `{!I18n en}.

(** The menu: the letter of the avatar, the email, the role, and its only item. *)
Definition user_menu (u : option AuthUser) : option (string * string * string * string) :=
  (λ u, (toUpperCase (String.substring 0 1 (u_email u)), u_email u, role_text (u_role u), t "common.signOut" [])) <$> u.

(** The items of the sidebar: where to, label, whether marked active. *)
Definition sidebar (u : option AuthUser) (path : string) : list (string * string * bool) :=
  (λ i, (nav_to i, t (labelKey i) [], nav_active path i)) <$> visibleNavItems u.

(** The icon of the button that changes the color scheme, and its label. *)
Definition scheme_button (dark : bool) : string * string :=
  (if dark then "sun" else "moon", t "common.toggleColorScheme" []).
End views.

(** ** State *)

(** What the confirmation runs when it is confirmed. *)
Inductive leave := GoTo (to : string) | SignOut.

(** The session, the location with the [from] of its state, the guard, the open
    confirmation, the sign-out requests in flight, and whether the sidebar is opened
    on a narrow screen. *)
Record shell := Shell {
  sh_auth : auth_state;
  sh_path : string;
  sh_from : option string;
  sh_guard : NavGuard.guard;
  sh_asking : option leave;
  sh_logouts : nat;
  sh_opened : bool;
}.

Section shell.
Context `{Router}.

(** Where redirects lead, at most [fuel] of them. *)
Fixpoint land (fuel : nat) (s : auth_state) (path : string) (from : option string) : string * option string :=
  match app_view s path from, fuel with
  | OGoto to from', S n => land n s (parsePath to).1 from'
  | _, _ => (path, from)
  end.

(** The location is rendered: redirects are followed, and a page that is left
    unmounts, with its guard. *)
Definition arrive (path : string) (from : option string) (h : shell) : shell :=
  let '(path', from') := land 3 (sh_auth h) path from in
  Shell (sh_auth h) path' from'
    (if decide (path' = sh_path h) then sh_guard h else NavGuard.unmount (sh_guard h))
    (sh_asking h) (sh_logouts h) (sh_opened h).

(** The session changed: the location is rendered again. *)
Definition with_auth (s : auth_state) (h : shell) : shell :=
  arrive (sh_path h) (sh_from h)
    (Shell s (sh_path h) (sh_from h) (sh_guard h) (sh_asking h) (sh_logouts h) (sh_opened h)).

Definition set_asking (a : option leave) (h : shell) : shell :=
  Shell (sh_auth h) (sh_path h) (sh_from h) (sh_guard h) a (sh_logouts h) (sh_opened h).

(** [navigate(to)], and [logout(); navigate("/login", { replace: true })]: the
    request is sent and not waited for. *)
Definition proceed (l : leave) (h : shell) : shell :=
  match l with
  | GoTo to => arrive to None h
  | SignOut =>
      arrive "/login" None
        (Shell (sh_auth h) (sh_path h) (sh_from h) (sh_guard h) (sh_asking h) (S (sh_logouts h)) (sh_opened h))
  end.

(** [confirmNavigation(proceed)] *)
Definition confirm_navigation (l : leave) (h : shell) : shell :=
  match NavGuard.confirmNavigation (sh_guard h) with
  | NavGuard.Proceed => proceed l h
  | NavGuard.AskFirst => set_asking (Some l) h
  end.

(** A click on an item of the sidebar: the link's own navigation, or the
    confirmation. *)
Definition click_item (i : nav_item) (h : shell) : shell :=
  match NavGuard.navLink_onClick (sh_guard h) with
  | NavGuard.Proceed => proceed (GoTo (nav_to i)) h
  | NavGuard.AskFirst => set_asking (Some (GoTo (nav_to i))) h
  end.

(** The menu is there while someone is signed in. *)
Definition click_signOut (h : shell) : shell :=
  match user (sh_auth h) with Some _ => confirm_navigation SignOut h | None => h end.

(** Discard changes, and Stay. *)
Definition confirm (h : shell) : shell :=
  match sh_asking h with Some l => proceed l (set_asking None h) | None => h end.
Definition stay (h : shell) : shell := set_asking None h.

(** The burger. *)
Definition toggle (h : shell) : shell :=
  Shell (sh_auth h) (sh_path h) (sh_from h) (sh_guard h) (sh_asking h) (sh_logouts h) (negb (sh_opened h)).

(** The answer to the sign-out request of the earliest click. *)
Definition logout_answered (a : exc Z) (h : shell) : shell :=
  match sh_logouts h with
  | O => h
  | S n =>
      with_auth (logout a (sh_auth h)).1
        (Shell (sh_auth h) (sh_path h) (sh_from h) (sh_guard h) (sh_asking h) n (sh_opened h))
  end.

Inductive event :=
| ClickItem (i : nav_item) | ClickSignOut | Confirm | Stay | Toggle
| PageRenders (dirty : bool) | LogoutAnswered (a : exc Z) | SessionExpired
| MeAnswered (a : me_answer) | SignedIn (u : AuthUser).

(** A page that guards its changes renders: the guard follows its flag. *)
Definition page_renders (dirty : bool) (h : shell) : shell :=
  Shell (sh_auth h) (sh_path h) (sh_from h) (NavGuard.commit dirty (sh_guard h)) (sh_asking h) (sh_logouts h)
    (sh_opened h).

Definition step (h : shell) (e : event) : shell :=
  match e with
  | ClickItem i => click_item i h
  | ClickSignOut => click_signOut h
  | Confirm => confirm h
  | Stay => stay h
  | Toggle => toggle h
  | PageRenders d => page_renders d h
  | LogoutAnswered a => logout_answered a h
  | SessionExpired => with_auth (session_expired (sh_auth h)) h
  | MeAnswered a => with_auth (on_me a (sh_auth h)) h
  | SignedIn u => with_auth (login (Ok u) (sh_auth h)).1 h
  end.

(** The shell at a location, with the session as it is known then. *)
Definition open_at (s : auth_state) (path : string) (from : option string) : shell :=
  arrive path from (Shell s path from NavGuard.init None 0 false).

Definition run (h : shell) (es : list event) : shell := foldl step h es.

(** ** Lemmas *)

(** Nothing on screen redirects any more. *)
Definition stays (s : auth_state) (path : string) (from : option string) : Prop :=
  ∀ to from', app_view s path from ≠ OGoto to from'.

Definition settled (h : shell) : Prop := stays (sh_auth h) (sh_path h) (sh_from h).

Lemma land_stays n s path from : stays s path from → land n s path from = (path, from).
Proof. intros Hs. destruct n; cbn; destruct (app_view s path from) eqn:E; try done; by apply Hs in E. Qed.

Lemma land_follow n s path from :
  is_Some (follow n s path from) →
  stays s (land n s path from).1 (land n s path from).2 ∧ land (S n) s path from = land n s path from.
Proof.
  revert path from. induction n as [|n IH]; intros path from.
  - cbn. destruct (app_view s path from) eqn:E; [..|by intros [? ?]]; intros _; cbn;
      (split; [intros to f; by rewrite E|done]).
  - change (follow (S n) s path from) with
      (match app_view s path from with OGoto to from' => follow n s (parsePath to).1 from' | o => Some o end).
    change (land (S n) s path from) with
      (match app_view s path from with OGoto to from' => land n s (parsePath to).1 from' | _ => (path, from) end).
    change (land (S (S n)) s path from) with
      (match app_view s path from with OGoto to from' => land (S n) s (parsePath to).1 from' | _ => (path, from) end).
    destruct (app_view s path from) eqn:E; [intros _; (split; [intros t' f; cbn; by rewrite E|done])..|].
    apply IH.
Qed.

Lemma land_settles s path from : stays s (land 3 s path from).1 (land 3 s path from).2.
Proof.
  destruct (follow_ends s path from) as (o & Ho & _).
  destruct (land_follow 2 s path from) as [Hs ->]; [by eexists|done].
Qed.

Lemma arrive_settled path from h : settled (arrive path from h).
Proof.
  unfold settled, arrive. pose proof (land_settles (sh_auth h) path from) as Hl.
  destruct (land 3 (sh_auth h) path from) as [p f]. exact Hl.
Qed.

Lemma with_auth_settled s h : settled (with_auth s h).
Proof. apply arrive_settled. Qed.

#[local] Hint Resolve arrive_settled with_auth_settled : core.

Lemma proceed_settled l h : settled (proceed l h).
Proof. destruct l; cbn; auto. Qed.

#[local] Hint Resolve proceed_settled : core.

Lemma step_settled h e : settled h → settled (step h e).
Proof.
  intros Hh. destruct e; cbn; auto.
  - unfold click_item. destruct (NavGuard.navLink_onClick _); auto.
  - unfold click_signOut, confirm_navigation. destruct (user _); [|done]. destruct (NavGuard.confirmNavigation _); auto.
  - unfold confirm. destruct (sh_asking h); auto.
  - unfold logout_answered. destruct (sh_logouts h); auto.
Qed.

Lemma run_settled es h : settled h → settled (run h es).
Proof. revert h. induction es as [|e es IH]; intros h Hh; cbn; [done|]. by apply IH, step_settled. Qed.

(** The same session, the same place. *)
Lemma with_auth_same h s : settled h → s = sh_auth h → sh_path (with_auth s h) = sh_path h.
Proof. intros Hh ->. unfold with_auth, arrive. cbn [sh_auth sh_path sh_from]. by rewrite land_stays. Qed.

Lemma arrive_auth path from h : sh_auth (arrive path from h) = sh_auth h.
Proof. unfold arrive. by destruct (land 3 (sh_auth h) path from). Qed.

(** The flag the page at the location gave to the guard with its last render, from
    the events alone: a page that is left takes its flag with it. *)
Definition flag_after (h : shell) (dirty : bool) (e : event) : bool :=
  match e with
  | PageRenders d => d
  | _ => if decide (sh_path (step h e) = sh_path h) then dirty else false
  end.

Fixpoint dirty_after (h : shell) (dirty : bool) (es : list event) : bool :=
  match es with
  | [] => dirty
  | e :: es' => dirty_after (step h e) (flag_after h dirty e) es'
  end.

(** The guard follows the page: it is kept while the location is, and cleared when
    the page is left. *)
Definition guard_kept (h h' : shell) : Prop :=
  sh_guard h' = if decide (sh_path h' = sh_path h) then sh_guard h else NavGuard.unmount (sh_guard h).

Lemma guard_kept_same h h' : sh_path h' = sh_path h → sh_guard h' = sh_guard h → guard_kept h h'.
Proof. intros Hp Hg. unfold guard_kept. by rewrite decide_True. Qed.

Lemma arrive_kept path from h h0 :
  sh_path h0 = sh_path h → sh_guard h0 = sh_guard h → guard_kept h (arrive path from h0).
Proof.
  intros Hp Hg. unfold guard_kept, arrive. destruct (land 3 (sh_auth h0) path from) as [p f]. cbn. by rewrite Hp, Hg.
Qed.

#[local] Hint Resolve guard_kept_same arrive_kept : core.

Lemma proceed_kept l h h0 : sh_path h0 = sh_path h → sh_guard h0 = sh_guard h → guard_kept h (proceed l h0).
Proof. intros Hp Hg. destruct l; cbn; auto. Qed.

Lemma with_auth_kept s h h0 : sh_path h0 = sh_path h → sh_guard h0 = sh_guard h → guard_kept h (with_auth s h0).
Proof. intros Hp Hg. unfold with_auth. auto. Qed.

#[local] Hint Resolve proceed_kept with_auth_kept : core.

Lemma step_kept h e : (∀ d, e ≠ PageRenders d) → guard_kept h (step h e).
Proof.
  intros He. destruct e; cbn; auto.
  - unfold click_item. destruct (NavGuard.navLink_onClick _); auto.
  - unfold click_signOut, confirm_navigation. destruct (user _); [destruct (NavGuard.confirmNavigation _)|]; auto.
  - unfold confirm. destruct (sh_asking h); auto.
  - by destruct (He dirty).
  - unfold logout_answered. destruct (sh_logouts h); auto.
Qed.

(** The guard holds the flag of the page, in the variable and for the tab. *)
Definition guard_flag (h : shell) (dirty : bool) : Prop :=
  NavGuard.inv (sh_guard h) ∧ NavGuard.isNavigationBlocked (sh_guard h) = dirty.

Lemma step_guards h dirty e : guard_flag h dirty → guard_flag (step h e) (flag_after h dirty e).
Proof.
  intros [Hi Hd]. unfold guard_flag. assert ((∃ d, e = PageRenders d) ∨ ∀ d, e ≠ PageRenders d) as [[d ->]|Hn] by (destruct e; eauto).
  - cbn. split; [exact (NavGuard.inv_step _ (NavGuard.Commit d) Hi)|].
    pose proof (NavGuard.inv_step _ (NavGuard.Commit d) Hi) as Hc. unfold NavGuard.inv in Hc. cbn in Hc.
    unfold NavGuard.isNavigationBlocked. rewrite Hc. unfold NavGuard.commit.
    destruct (NavGuard.mounted (sh_guard h)) as [d'|] eqn:Em; [|done]. case_decide; [by rewrite Em; subst|done].
  - rewrite step_kept by done. replace (flag_after h dirty e) with
      (if decide (sh_path (step h e) = sh_path h) then dirty else false) by (destruct e; try done; by destruct (Hn dirty0)).
    case_decide; [done|]. split; [exact (NavGuard.inv_step _ NavGuard.Unmount Hi)|].
    unfold NavGuard.inv in Hi. unfold NavGuard.unmount, NavGuard.isNavigationBlocked.
    by destruct (NavGuard.mounted (sh_guard h)).
Qed.

Lemma run_guards es h dirty : guard_flag h dirty → guard_flag (run h es) (dirty_after h dirty es).
Proof. revert h dirty. induction es as [|e es IH]; intros h dirty Hg; cbn; [done|]. by apply IH, step_guards. Qed.

Lemma open_guards s path from : guard_flag (open_at s path from) false.
Proof. unfold guard_flag, open_at, arrive. destruct (land 3 _ path from). cbn. by case_decide. Qed.

(** An item of the sidebar leads where it says, with a session. *)
Lemma land_item s u i :
  loading s = false → user s = Some u → i ∈ NAV_ITEMS → land 3 s (nav_to i) None = (nav_to i, None).
Proof.
  intros Hl Hu (r & p & Hr & Hg & He & Hi)%nav_routes. apply land_stays. intros to f. unfold app_view.
  rewrite Hi, Hg. unfold RequireAuth. by rewrite Hl, Hu, He.
Qed.

(** ** Properties *)

(** While the page has unsaved changes the location changes only with Discard or a
    change of the session. *)
Lemma blocked_stays h e :
  settled h → NavGuard.isNavigationBlocked (sh_guard h) = true →
  sh_path (step h e) = sh_path h ∨ e = Confirm ∨ sh_auth (step h e) ≠ sh_auth h.
Proof.
  intros Hs Hb. unfold NavGuard.isNavigationBlocked in Hb.
  assert (∀ s h0, settled h0 → sh_path h0 = sh_path h → sh_auth h0 = sh_auth h →
    sh_path (with_auth s h0) = sh_path h ∨ sh_auth (with_auth s h0) ≠ sh_auth h) as Ha.
  { intros s h0 H0 Hp Hau. destruct (decide (s = sh_auth h0)) as [Heq|Hne];
      [left; by rewrite with_auth_same|right]. unfold with_auth. rewrite arrive_auth. cbn. congruence. }
  destruct e; cbn [step]; try (by left).
  - left. unfold click_item, NavGuard.navLink_onClick, NavGuard.isNavigationBlocked, NavGuard.confirmNavigation. by rewrite Hb.
  - left. unfold click_signOut, confirm_navigation, NavGuard.confirmNavigation. rewrite Hb. by destruct (user (sh_auth h)).
  - right. by left.
  - unfold logout_answered. destruct (sh_logouts h) as [|n]; [by left|].
    destruct (Ha (logout a (sh_auth h)).1 (Shell (sh_auth h) (sh_path h) (sh_from h) (sh_guard h) (sh_asking h) n
      (sh_opened h))) as [Hp|Hne]; auto.
  - destruct (Ha (session_expired (sh_auth h)) h) as [Hp|Hne]; auto.
  - destruct (Ha (on_me a (sh_auth h)) h) as [Hp|Hne]; auto.
  - destruct (Ha (login (Ok u) (sh_auth h)).1 h) as [Hp|Hne]; auto.
Qed.

(** C14: leaving a page asks exactly when it has unsaved changes.  From any opening of
    the application, over every run of clicks, confirmations, renders, answers and
    sign-ins: what is on screen is not about to redirect, and the guard, for the links
    and for closing the tab, holds the flag of the last render of the page that is
    still open.  With unsaved changes a click on an item of the sidebar or on Sign out
    only opens the confirmation, Stay takes it back, and the location changes only with
    Discard or when the session changes.  Without unsaved changes nothing is asked: the
    item leads at once to its page, and Sign out sends its request and leaves at once
    for the login page. *)
Theorem leaving_asks (s : auth_state) (path : string) (from : option string) (es : list event) (e : event)
    (i : nav_item) :
  let h := run (open_at s path from) es in
  let dirty := dirty_after (open_at s path from) false es in
  settled h ∧
  NavGuard.isNavigationBlocked (sh_guard h) = dirty ∧ NavGuard.onBeforeUnload (sh_guard h) = dirty ∧
  (dirty = true →
   (sh_path (step h e) = sh_path h ∨ e = Confirm ∨ sh_auth (step h e) ≠ sh_auth h) ∧
   click_item i h = set_asking (Some (GoTo (nav_to i))) h ∧
   (user (sh_auth h) ≠ None → click_signOut h = set_asking (Some SignOut) h) ∧
   stay (click_item i h) = set_asking None h ∧ stay (click_signOut h) = set_asking None h) ∧
  (dirty = false →
   sh_asking (click_item i h) = sh_asking h ∧ sh_asking (click_signOut h) = sh_asking h ∧
   sh_logouts (click_item i h) = sh_logouts h ∧
   (∀ u, user (sh_auth h) = Some u →
      click_signOut h =
        arrive "/login" None (Shell (sh_auth h) (sh_path h) (sh_from h) (sh_guard h) (sh_asking h)
          (S (sh_logouts h)) (sh_opened h)) ∧
      (loading (sh_auth h) = false → i ∈ NAV_ITEMS → sh_path (click_item i h) = nav_to i))).
Proof.
  intros h dirty. assert (settled h) as Hs by (apply run_settled, arrive_settled).
  assert (guard_flag h dirty) as [Hi Hd] by (apply run_guards, open_guards). clearbody h dirty.
  split; [done|]. split; [done|]. split; [rewrite <- Hd; unfold NavGuard.isNavigationBlocked; by rewrite Hi|].
  unfold NavGuard.isNavigationBlocked in Hd. split; intros ->.
  - split; [by apply blocked_stays|].
    unfold click_item, click_signOut, confirm_navigation, NavGuard.navLink_onClick, NavGuard.confirmNavigation,
      NavGuard.isNavigationBlocked. rewrite Hd. by destruct (user (sh_auth h)).
  - unfold click_item, click_signOut, confirm_navigation, NavGuard.navLink_onClick, NavGuard.confirmNavigation,
      NavGuard.isNavigationBlocked. rewrite Hd. cbn [negb proceed].
    assert (∀ p f h0, sh_asking (arrive p f h0) = sh_asking h0 ∧ sh_logouts (arrive p f h0) = sh_logouts h0) as Hk
      by (intros p f h0; unfold arrive; by destruct (land 3 (sh_auth h0) p f)).
    split_and!; [apply Hk|destruct (user (sh_auth h)); [exact (proj1 (Hk _ _ _))|done]|apply Hk|].
    intros u Hu. rewrite Hu. split; [done|]. intros Hl Hn. unfold arrive. by rewrite (land_item _ u).
Qed.

(** What is at [/login] and at [/tenants]. *)
Lemma land_login_signed_in s u : loading s = false → user s = Some u → land 3 s "/login" None = ("/tenants", None).
Proof.
  intros Hl Hu. change (land 3 s "/login" None) with
    (match app_view s "/login" None with OGoto to from' => land 2 s (parsePath to).1 from' | _ => ("/login", None) end).
  unfold app_view. rewrite route_login. cbn [r_guarded]. unfold LoginPage. rewrite Hl, Hu. cbn [negb].
  change (parsePath (safeFrom None)).1 with "/tenants". apply land_stays. intros to f. unfold app_view.
  rewrite route_tenants. cbn [r_guarded r_element]. unfold RequireAuth. by rewrite Hl, Hu.
Qed.

Lemma land_tenants_signed_out s :
  loading s = false → user s = None → land 3 s "/tenants" None = ("/login", Some "/tenants").
Proof.
  intros Hl Hu. change (land 3 s "/tenants" None) with
    (match app_view s "/tenants" None with OGoto to from' => land 2 s (parsePath to).1 from' | _ => ("/tenants", None) end).
  unfold app_view. rewrite route_tenants. cbn [r_guarded]. unfold RequireAuth. rewrite Hl, Hu.
  change (parsePath "/login").1 with "/login". apply land_stays. intros to f. unfold app_view.
  rewrite route_login. cbn [r_guarded]. unfold LoginPage. by rewrite Hl, Hu.
Qed.

Lemma land_tenants_signed_in s u :
  loading s = false → user s = Some u → land 3 s "/tenants" None = ("/tenants", None).
Proof.
  intros Hl Hu. apply land_stays. intros to f. unfold app_view. rewrite route_tenants.
  cbn [r_guarded r_element]. unfold RequireAuth. by rewrite Hl, Hu.
Qed.

(** Signing out.  The click sends one request and does not wait for it: the login
    page finds the session still there and shows the tenants instead.  When the
    answer arrives, whatever its status, the session is over and the login page is
    shown, to return to the tenants; when the request fails, the user stays signed in
    on the tenants page.  With unsaved changes the request is sent only after Discard,
    with the same outcome, and nothing of the page is kept. *)
Theorem sign_out (h : shell) (u : AuthUser) (n : Z) (m : string) :
  settled h → loading (sh_auth h) = false → user (sh_auth h) = Some u → sh_asking h = None →
  let h1 := if NavGuard.isNavigationBlocked (sh_guard h) then confirm (click_signOut h) else click_signOut h in
  (NavGuard.isNavigationBlocked (sh_guard h) = true → sh_logouts (click_signOut h) = sh_logouts h) ∧
  sh_logouts h1 = S (sh_logouts h) ∧ sh_auth h1 = sh_auth h ∧ sh_path h1 = "/tenants" ∧ sh_asking h1 = None ∧
  (let h2 := logout_answered (Ok n) h1 in
   user (sh_auth h2) = None ∧ sh_path h2 = "/login" ∧ sh_from h2 = Some "/tenants" ∧ sh_logouts h2 = sh_logouts h) ∧
  (let h2 := logout_answered (Throw m) h1 in
   user (sh_auth h2) = Some u ∧ sh_path h2 = "/tenants" ∧ sh_logouts h2 = sh_logouts h).
Proof.
  intros Hs Hl Hu Hask h1.
  assert (h1 = Shell (sh_auth h) "/tenants" None
    (if decide ("/tenants" = sh_path h) then sh_guard h else NavGuard.unmount (sh_guard h)) None (S (sh_logouts h))
    (sh_opened h)) as E.
  { unfold h1, click_signOut, confirm_navigation, NavGuard.confirmNavigation, NavGuard.isNavigationBlocked.
    rewrite Hu. destruct (NavGuard.isBlocked (sh_guard h)); cbn [negb].
    - unfold confirm. cbn [set_asking sh_asking proceed]. unfold arrive. cbn [sh_auth sh_path sh_guard sh_asking sh_logouts sh_opened].
      by rewrite (land_login_signed_in _ u).
    - unfold proceed, arrive. cbn [sh_auth sh_path sh_guard sh_asking sh_logouts sh_opened].
      by rewrite (land_login_signed_in _ u), Hask. }
  clearbody h1. subst h1. split.
  { intros Hb. unfold click_signOut, confirm_navigation, NavGuard.confirmNavigation. rewrite Hu.
    unfold NavGuard.isNavigationBlocked in Hb. by rewrite Hb. }
  do 4 (split; [done|]). unfold logout_answered, with_auth, arrive. cbn [sh_logouts sh_auth sh_path sh_from logout fst].
  by rewrite land_tenants_signed_out, (land_tenants_signed_in _ u).
Qed.
End shell.

(** ** Examples *)

Definition ada : AuthUser := MkAuthUser "u1" "ada@corp.local" Operator None.

Lemma sign_out_witness :
  let h := Shell (AuthState (Some ada) false) "/feeds" None (NavGuard.Guard true (Some true)) None 0 false in
  sh_path (confirm (click_signOut h)) = "/tenants" ∧
  sh_path (logout_answered (Ok 204%Z) (confirm (click_signOut h))) = "/login".
Proof.
  intros h. destruct (sign_out h ada 204 "Failed to fetch") as (_ & _ & _ & H1 & _ & (_ & H2 & _) & _);
    [intros to f; by vm_compute|done..|].
  split; [exact H1|exact H2].
Defined.

Lemma leaving_asks_witness :
  let clean := open_at (AuthState (Some ada) false) "/feeds" None in
  let dirty := run clean [PageRenders true] in
  sh_path (click_signOut dirty) = "/feeds" ∧ sh_asking (click_signOut dirty) = Some SignOut ∧
  sh_path (click_item (NavItem "/zones" "nav.dnsZones" None) clean) = "/zones".
Proof.
  intros clean dirty.
  destruct (leaving_asks (AuthState (Some ada) false) "/feeds" None [PageRenders true] ClickSignOut
    (NavItem "/users" "nav.users" (Some Admin))) as (_ & _ & _ & Hd & _).
  destruct Hd as (_ & _ & Ho & _); [vm_compute; reflexivity|].
  destruct (leaving_asks (AuthState (Some ada) false) "/feeds" None [] ClickSignOut
    (NavItem "/zones" "nav.dnsZones" None)) as (_ & _ & _ & _ & Hc).
  destruct Hc as (_ & _ & _ & Hp); [reflexivity|].
  unfold dirty, clean. rewrite Ho by (vm_compute; discriminate). split; [vm_compute; reflexivity|].
  split; [reflexivity|]. destruct (Hp ada) as [_ Hq]; [vm_compute; reflexivity|].
  apply Hq; [vm_compute; reflexivity|]. rewrite list_elem_of_In. cbn. tauto.
Defined.

(** The sidebar names in the language of the file what each role may open, and marks
    at most one item. *)
Theorem sidebar_names `{!I18n en} (u : AuthUser) (path : string) :
  (λ x, x.1.2) <$> sidebar (Some u) path =
  match u_role u with
  | Viewer => ["Dashboard"; "Tenants & policies"; "Feeds"; "DNS Zones"; "Analytics"; "Settings"]
  | Operator => [ "Dashboard"; "Tenants & policies"; "Feeds"; "DNS Zones"; "Analytics"; "Query log"; "Audit log";
                  "DNS Upstream"; "DHCP"; "Settings" ]
  | Admin => [ "Dashboard"; "Tenants & policies"; "Feeds"; "DNS Zones"; "Analytics"; "Query log"; "Audit log";
               "Users"; "DNS Upstream"; "DHCP"; "Settings" ]
  end.
Proof.
  unfold sidebar. rewrite <- list_fmap_compose.
  destruct u as [id email [] tenant]; unfold visibleNavItems; cbn [List.filter NAV_ITEMS minRole hasRole u_role];
    cbn; translate; reflexivity.
Qed.
