(* ===== verification/ZonePages.v ===== *)
(** * The pages of zones and records

    What [pages/ZonesPage.tsx] and [pages/ZoneDetailPage.tsx] do around the forms of
    [Zones.v]: the rows and what they offer to whom, the modals and the requests
    they send, the deletions, the records tab, and the export of a zone. *)

From S2P Require Import Prelude JsText Json Web Client Errors Schema Queries Auth Locale Forms Effects Modal Zones Registry Routing.

(** ** Zone types *)

(** Colour, label and description. *)
Definition ZONE_TYPE_META : list (string * (string * string * string)) :=
  [ ("local", ("blue", "Local", "Authoritative — answers queries from records defined here"));
    ("forward", ("violet", "Forward", "Forwards queries for this zone to a specific upstream resolver"));
    ("passthrough", ("teal", "Passthrough", "Exempts this zone from policy filtering")) ].

Definition typeMeta (t : string) : string * string * string :=
  default ("gray", t, "") (snd <$> List.find (λ kv, bool_decide (kv.1 = t)) ZONE_TYPE_META).

Definition zoneStatus (z : zone) : string * string :=
  if z_enabled z then ("green", "Active") else ("gray", "Disabled").

(** [new Set(zones.map((z) => z.zone_type))], sorted by code units, with labels. *)
Definition typeOptions (zones : list zone) : list (string * string) :=
  (λ t, (t, (typeMeta t).1.2)) <$> sort code_unit_compare id (remove_dups (z_zone_type <$> zones)).

(** ** The list *)

(** [tenants.find((t) => t.id === id)?.name ?? "—"] *)
Definition tenantName (tenants : list Tenant) (id : option string) : string :=
  from_option tn_name "—" (List.find (λ t, bool_decide (Some (tn_id t) = id)) tenants).

Record zone_row := ZoneRow {
  zr_id : string;
  zr_name : string;
  zr_link : string;
  zr_texts : list string;
  zr_type : string * string * string;
  zr_status : string * string;
  zr_buttons : list string;
}.

(** The row of a zone of a tenant. *)
Definition zone_row_view (canWrite : bool) (tenants : list Tenant) (tenant : option string) (z : zone) : zone_row :=
  ZoneRow (z_id z) (z_name z) (zone_link (z_id z))
    [ tenantName tenants tenant; (if (0 <? z_record_count z)%Z then Z_str (z_record_count z) else "—");
      Z_str (z_ttl_default z) +:+ "s"; default "—" (z_forwarder z) ]
    (typeMeta (z_zone_type z)) (zoneStatus z)
    ("Open zone" :: if canWrite then ["Edit"; "Delete"] else []).

(** The four figures, and the line under the table. *)
Definition zone_figures (toLocaleString : Z → string) (zones : list zone) : list (string * string * string) :=
  [ ("Total zones", Z_str (Z.of_nat (length zones)),
     Z_str (Z.of_nat (length (List.filter z_enabled zones))) +:+ " active");
    ("Local (authoritative)", Z_str (Z.of_nat (byType "local" zones)), "Own records defined here");
    ("Forward", Z_str (Z.of_nat (byType "forward" zones)), "Relay to upstream resolver");
    ("Total records", toLocaleString (totalRecords zones), "Across all local zones") ].

Definition zones_footer (visible zones : list zone) : option string :=
  if decide (visible = []) then None
  else Some (Z_str (Z.of_nat (length visible)) +:+ " of " +:+ Z_str (Z.of_nat (length zones)) +:+ " zones").

(** [AddZoneModal], which keeps its form. *)
Definition add_zone_send (v : add_zone_form) : inflight (kept add_zone_form) :=
  send_and useCreateZone (add_zone_body v) ("Zone " +:+ quoted (az_name v) +:+ " created")
    (kept_close add_zone_initial).

Definition add_zone_clicked : kept add_zone_form → option (inflight (kept add_zone_form)) :=
  kept_submit add_zone_validate add_zone_send.

(** [EditZoneModal]: the zone and the values of its one form; closing resets both. *)
Definition edit_zone_send {S} (z : zone) (v : zone_form) (handleClose : S → S) : inflight S :=
  send_and useUpdateZone (z_id z, zone_update_body v) ("Zone " +:+ quoted (z_name z) +:+ " updated") handleClose.

(** [confirmDelete(z)], confirmed. *)
Definition delete_zone {S} (z : zone) : inflight S :=
  mutate_report useDeleteZone (z_id z) ("Zone " +:+ quoted (z_name z) +:+ " deleted").

(** ** One zone *)

(** What the page shows: the records, a text in their place, or that there is none. *)
Inductive zone_view := ZoneLoading | ZoneMissing | ZoneShown (records : bool).

Definition zone_page (isLoading : bool) (z : option zone) : zone_view :=
  if isLoading then ZoneLoading
  else match z with
  | None => ZoneMissing
  | Some z => ZoneShown (negb (bool_decide (z_zone_type z = "passthrough")))
  end.

(** The label of the records tab. *)
Definition records_tab_label (z : zone) : string :=
  "Records" +:+ (if (0 <? z_record_count z)%Z then " (" +:+ Z_str (z_record_count z) +:+ ")" else "").

(** Deleting the zone of the page; the state is the path, and success leaves it. *)
Definition delete_this_zone (z : zone) : inflight string :=
  mutate useDeleteZone (z_id z) (λ _ _, ([green "Zone deleted"], "/zones")) show_error.

(** [SettingsTab]: the form stays as it is. *)
Definition settings_send (z : zone) (v : zone_form) : inflight zone_form :=
  send_and useUpdateZone (z_id z, zone_update_body v) "Zone settings saved" id.

(** *** Records *)

Definition RECORD_TYPE_COLOR : list (string * string) :=
  [ ("A", "blue"); ("AAAA", "indigo"); ("CNAME", "cyan"); ("MX", "violet"); ("TXT", "gray"); ("NS", "teal");
    ("PTR", "orange"); ("SRV", "pink"); ("CAA", "red") ].

(** The modals of the tab: [showModal] with its form, and [editRecord] with its. *)
Record records_tab := RecordsTab {
  showModal : option record_form;
  editRecord : option (dns_record * record_form);
}.

Definition records_init : records_tab := RecordsTab None None.

Definition show_modal (t : records_tab) : records_tab := RecordsTab (Some (record_initial None)) (editRecord t).
Definition edit_record (r : dns_record) (t : records_tab) : records_tab :=
  RecordsTab (showModal t) (Some (r, record_initial (Some r))).
(** [onClose] of the two. *)
Definition close_new (t : records_tab) : records_tab := RecordsTab None (editRecord t).
Definition close_edit (t : records_tab) : records_tab := RecordsTab (showModal t) None.

(** [handleSubmit(values)] of the modal for a record or for a new one. *)
Definition record_handleSubmit (zoneId : string) (r : option dns_record) (v : record_form) : inflight records_tab :=
  match r with
  | Some r => send_and (useUpdateRecord zoneId) (r_id r, record_body v) "Record updated" close_edit
  | None => send_and (useCreateRecord zoneId) (record_body v) "Record added" close_new
  end.

Definition submit_new (zoneId : string) (t : records_tab) : option (inflight records_tab) :=
  v ← showModal t; onSubmit record_validate (record_handleSubmit zoneId None) v.
Definition submit_edit (zoneId : string) (t : records_tab) : option (inflight records_tab) :=
  '(r, v) ← editRecord t; onSubmit record_validate (record_handleSubmit zoneId (Some r)) v.

Definition delete_record (zoneId : string) (r : dns_record) : inflight records_tab :=
  mutate_report (useDeleteRecord zoneId) (r_id r) "Record deleted".

(** A row, and the line above the table. *)
Definition record_row (canWrite : bool) (r : dns_record) : list string * string * list string :=
  ([ r_name r; r_record_type r; from_option Z_str "default" (r_ttl r); from_option Z_str "—" (r_priority r);
     r_data r; if r_enabled r then "Yes" else "No" ],
   default "gray" (snd <$> List.find (λ kv, bool_decide (kv.1 = r_record_type r)) RECORD_TYPE_COLOR),
   if canWrite then ["Edit"; "Delete"] else []).

Definition records_line (rs : list dns_record) : string :=
  Z_str (Z.of_nat (length rs)) +:+ " record" +:+ plural (length rs) +:+ " · " +:+
  Z_str (Z.of_nat (active_records rs)) +:+ " active".

(** *** Export *)

(** The request of [handleExport()]: a GET outside of the API client. *)
Definition export_request (apiUrl : string → string) (z : zone) : request :=
  Request "GET" (apiUrl ("/api/v1/dns-zones/" +:+ z_id z +:+ "/export")) "include" [] None.

(** What follows the answer: a message, or the download of the body, for which an
    object URL is made, clicked and revoked. *)
Inductive export_effect := ENote (n : note) | ECreateURL | EDownload (name : string) | ERevokeURL.

Definition handleExport (z : zone) (answer : exc response) : list export_effect :=
  match answer with
  | Throw _ => []
  | Ok res =>
      if ok res then [ECreateURL; EDownload (z_name z +:+ ".zone"); ERevokeURL]
      else [ENote (red ("Export failed: " +:+ Z_str (status res)))]
  end.

(** ** Properties *)

(** What the API holds of a record, as the body that sets it. *)
Definition record_json (r : dns_record) : json :=
  let num (o : option Z) := num_json (opt_num o) in
  JObj [ ("name", JStr (r_name r)); ("record_type", JStr (r_record_type r)); ("data", JStr (r_data r));
         ("ttl", num (r_ttl r)); ("priority", num (r_priority r)); ("enabled", JBool (r_enabled r)) ].

Lemma record_unchanged r :
  (hasPriority (r_record_type r) = true ∨ r_priority r = None) →
  record_body (record_initial (Some r)) = record_json r.
Proof.
  intros Hp. unfold record_body, record_initial, record_json, num_or_null. cbn.
  unfold showPriority. cbn. destruct (hasPriority (r_record_type r)); [done|]. by destruct Hp as [? | ->].
Qed.

(** A record opened for editing and saved as it is goes back unchanged, to its
    own id in its own zone, whatever was opened before; a new one is posted to the
    zone.  Each modal closes when its own request succeeds, and leaves the other
    modal and, on failure, its own text alone. *)
Theorem record_modals (zoneId : string) (r : dns_record) (t : records_tab) (v : record_form) :
  ((hasPriority (r_record_type r) = true ∨ r_priority r = None) →
   blank (r_name r) = false → blank (r_data r) = false →
   f_call <$> submit_edit zoneId (edit_record r t) =
     Some (mutationFn (useUpdateRecord zoneId) (r_id r, record_json r))) ∧
  (∀ i, submit_new zoneId (RecordsTab (Some v) (editRecord t)) = Some i →
     f_call i = mutationFn (useCreateRecord zoneId) (record_body v) ∧
     ∀ o t', editRecord (f_settled i o t').2 = editRecord t' ∧
       showModal (f_settled i o t').2 = match o with Ok _ => None | Throw _ => showModal t' end) ∧
  (∀ i, submit_edit zoneId (RecordsTab (showModal t) (Some (r, v))) = Some i →
     f_call i = mutationFn (useUpdateRecord zoneId) (r_id r, record_body v) ∧
     ∀ o t', showModal (f_settled i o t').2 = showModal t' ∧
       editRecord (f_settled i o t').2 = match o with Ok _ => None | Throw _ => editRecord t' end).
Proof.
  split_and!.
  - intros Hp Hn Hd. unfold submit_edit, edit_record. cbn [editRecord mbind option_bind].
    assert (onSubmit record_validate (record_handleSubmit zoneId (Some r)) (record_initial (Some r)) =
      Some (record_handleSubmit zoneId (Some r) (record_initial (Some r)))) as ->.
    { apply onSubmit_Some. split; [|done]. unfold record_validate, record_initial. cbn. rewrite Hn, Hd.
      by repeat constructor. }
    cbn. by rewrite record_unchanged.
  - intros i [_ ->]%onSubmit_Some. split; [done|]. by intros [a|e] t'.
  - intros i [_ ->]%onSubmit_Some. split; [done|]. by intros [a|e] t'.
Qed.

(** The export downloads one file named after the zone, and releases what it
    made for it, exactly when the answer is a success; any other answer downloads
    nothing and shows its status.  The request is a GET, so it carries no CSRF
    token and needs none.  An expired session is shown as a failure and does not
    end the session here, as it does for the requests of the API client. *)
Theorem export_downloads (apiUrl : string → string) (z : zone) (b : browser) (res : response) :
  isMutating (Client.r_method (export_request apiUrl z)) = false ∧
  ((∃ name, EDownload name ∈ handleExport z (Ok res)) ↔ ok res = true) ∧
  (ok res = true → handleExport z (Ok res) = [ECreateURL; EDownload (z_name z +:+ ".zone"); ERevokeURL]) ∧
  (status res = 401%Z → startsWith (pathname b) "/login" = false →
   handleExport z (Ok res) = [ENote (red "Export failed: 401")] ∧ (rawRequest_response b res).1 = true).
Proof.
  split_and!; [done|..]; unfold handleExport.
  - destruct (ok res); cbn; [split; [done|]; intros _; eexists; right; left|].
    split; [|done]. intros [name Hn]. by apply list_elem_of_singleton in Hn.
  - by intros ->.
  - intros Hs Hp. unfold ok. rewrite Hs. cbn. split; [done|].
    unfold rawRequest_response, handleUnauthorized. rewrite Hs. by rewrite Hp.
Qed.

(** ** Examples *)

Definition record0 : dns_record := DnsRecord "r1" "www" "A" "10.0.0.1" (Some 300%Z) None true.
Definition zone0 : zone := Zone "z1" "corp.local" "local" "" true 300 None 1.

Lemma record_modals_witness :
  f_call <$> submit_edit "z1" (edit_record record0 records_init) =
    Some (mutationFn (useUpdateRecord "z1") ("r1", record_json record0)).
Proof.
  refine (proj1 (record_modals "z1" record0 records_init (record_initial None)) _ _ _);
    [right; reflexivity|vm_compute; reflexivity..].
Defined.

Lemma export_downloads_witness :
  handleExport zone0 (Ok (Response 401 "" (Ok "") (Ok JNull))) = [ENote (red "Export failed: 401")].
Proof.
  refine (proj1 (proj2 (proj2 (proj2 (export_downloads id zone0 (Browser None "/zones/z1" "")
    (Response 401 "" (Ok "") (Ok JNull)))))  _ _)); reflexivity.
Defined.
