(* ===== verification/ListPages.v ===== *)
(** * The lists of feeds and zones

    The pages [pages/FeedsPage.tsx] and [pages/ZonesPage.tsx] around their tables:
    the headers and figures, the filters that live in the URL through
    [hooks/useUrlFilters.ts], and the header of [pages/ZoneDetailPage.tsx].  The
    tables are those of [Feeds.v] and [ZonePages.v]. *)

From S2P Require Import Prelude JsText Json Web Search Queries Auth Hooks Locale Registry Routing Zones ZonePages Feeds.

(** ** Filters in the URL *)

(** The filters of a page: their defaults, what the page reads of the URL, the patch
    its handlers give to [setFilters], and what the change means. *)
Class UrlList (V E : Type) := {
  url_defaults : list (string * string);
  url_values : (string → string) → V;
  url_patch : V → E → string * string;
  url_apply : V → E → V;
}.

Section url.
Context {V E : Type} `{UrlList V E}.

Definition filters_of (h : UrlFilters.history) : V :=
  url_values (λ k, default "" (UrlFilters.read url_defaults (UrlFilters.current h) k)).

(** A change of a control. *)
Definition filter_step (h : UrlFilters.history) (e : E) : UrlFilters.history :=
  let '(k, v) := url_patch (filters_of h) e in UrlFilters.setFilters url_defaults [(k, Some v)] h.

(** The URL is copied and opened elsewhere. *)
Definition reopened (h : UrlFilters.history) : UrlFilters.history :=
  UrlFilters.History [] (parse_search (search_text (UrlFilters.current h))).
End url.

(** *** Feeds *)

Inductive feed_filter_event := FSearch (s : string) | FStatus (v : option string) | FAll | FChip (id : string).

Definition feed_defaults : list (string * string) := [("search", ""); ("category", ""); ("status", "all")].

(** The argument of [setFilters] in the handlers. *)
Definition feed_patch (v : feed_filters) (e : feed_filter_event) : string * string :=
  match e with
  | FSearch s => ("search", s)
  | FStatus o => ("status", default "all" o)
  | FAll => ("category", "")
  | FChip id => ("category", if decide (ff_category v = id) then "" else id)
  end.

#[export] Instance feed_list : UrlList feed_filters feed_filter_event := {|
  url_defaults := feed_defaults;
  url_values get := FeedFilters (get "search") (get "category") (get "status");
  url_patch := feed_patch;
  url_apply v e :=
    match e with
    | FSearch s => FeedFilters s (ff_category v) (ff_status v)
    | FStatus o => FeedFilters (ff_search v) (ff_category v) (default "all" o)
    | FAll => FeedFilters (ff_search v) "" (ff_status v)
    | FChip id => click_chip id v
    end |}.

Definition FEED_STATUS_OPTIONS : list (string * string) :=
  [("all", "All statuses"); ("active", "Active only"); ("disabled", "Disabled only")].

(** The chips: label and whether filled; the first one clears the filter. *)
Definition feed_chips (registry : list category) (v : feed_filters) (feeds : list feed) : list (string * string * bool) :=
  ("", "All (" +:+ Z_str (Z.of_nat (length feeds)) +:+ ")", bool_decide (ff_category v = "")) ::
  ((λ '(id, n), (id, categoryLabel id registry +:+ " (" +:+ Z_str (Z.of_nat n) +:+ ")", bool_decide (ff_category v = id)))
     <$> categoryChips registry feeds).

(** *** Zones *)

Inductive zone_filter_event := ZSearch (s : string) | ZType (v : option string) | ZStatus (v : option string).

Definition zone_defaults : list (string * string) := [("search", ""); ("type", ""); ("status", "")].

Definition zone_patch (v : zone_filters) (e : zone_filter_event) : string * string :=
  match e with
  | ZSearch s => ("search", s)
  | ZType o => ("type", default "" o)
  | ZStatus o => ("status", default "" o)
  end.

#[export] Instance zone_list : UrlList zone_filters zone_filter_event := {|
  url_defaults := zone_defaults;
  url_values get := ZoneFilters (get "search") (get "type") (get "status");
  url_patch := zone_patch;
  url_apply v e :=
    match e with
    | ZSearch s => ZoneFilters s (f_type v) (f_status v)
    | ZType o => ZoneFilters (f_search v) (default "" o) (f_status v)
    | ZStatus o => ZoneFilters (f_search v) (f_type v) (default "" o)
    end |}.

Definition ZONE_STATUS_OPTIONS : list (string * string) := [("active", "Active"); ("disabled", "Disabled")].

(** [value={v || null}] of the two selects. *)
Definition zone_selects (zones : list zone) (v : zone_filters) :
    list (list (string * string) * option string) :=
  [(typeOptions zones, or_null (f_type v)); (ZONE_STATUS_OPTIONS, or_null (f_status v))].

(** ** The pages *)

Section pages.
Variables (toLocaleString : Z → string) (localeCompare : string → string → Z).
Variables (local : Z → Z) (now : Z).

(** The four figures above the feeds. *)
Definition feed_figures (feeds : list feed) : list (string * string * string) :=
  let n := Z.of_nat (length feeds) in
  let active := Z.of_nat (length (activeFeeds feeds)) in
  let catalog := Z.of_nat (length (catalogFeeds feeds)) in
  let cats := categories feeds in
  [ ("Total feeds", Z_str n, Z_str catalog +:+ " catalog · " +:+ Z_str (n - catalog) +:+ " custom");
    ("Active", Z_str active, Z_str (n - active) +:+ " inactive");
    ("Total domains", toLocaleString (totalDomains feeds), "across all enabled feeds");
    ("Categories", Z_str (Z.of_nat (length cats)),
     join ", " (firstn 3 cats) +:+ (if decide (3 < length cats) then " …" else "")) ].

Record feeds_screen := FeedsScreen {
  fs_figures : list (string * string * string);
  fs_chips : list (string * string * bool);
  fs_table : feeds_view;
}.

(** The loader, or the page. *)
Definition FeedsPage (u : option AuthUser) (isLoading : bool) (h : UrlFilters.history) (p : feeds_page)
    (registry : list category) (feeds : list feed) : option feeds_screen :=
  if isLoading then None
  else Some (FeedsScreen (feed_figures feeds) (feed_chips registry (filters_of h) feeds)
    (page_view toLocaleString local now (hasRole u [Admin]) p registry feeds
       (visible_feeds localeCompare (filters_of h) feeds))).

Record zones_screen := ZonesScreen {
  zs_add : bool;
  zs_figures : list (string * string * string);
  zs_selects : list (list (string * string) * option string);
  zs_rows : list zone_row + string;
  zs_footer : option string;
}.

Definition ZonesPage (u : option AuthUser) (isLoading : bool) (h : UrlFilters.history) (tenants : list Tenant)
    (tenant_of : zone → option string) (zones : list zone) : option zones_screen :=
  if isLoading then None
  else
    let canWrite := hasRole u [Operator] in
    let visible := visible_zones localeCompare (filters_of h) zones in
    Some (ZonesScreen canWrite (zone_figures toLocaleString zones) (zone_selects zones (filters_of h))
      (if decide (visible = []) then inr "No zones match the current filters"
       else inl ((λ z, zone_row_view canWrite tenants (tenant_of z) z) <$> visible))
      (zones_footer visible zones)).
End pages.

(** The header of a zone: breadcrumbs, the badges, the lines, and the delete button.
    [created] is [new Date(zone.created_at).toLocaleDateString()]. *)
Record zone_header := ZoneHeader {
  zh_crumbs : list (option string * string);
  zh_badges : list (string * string);
  zh_description : option string;
  zh_facts : list string;
  zh_delete : bool;
}.

Definition zone_header_view (u : option AuthUser) (created : string) (z : zone) : zone_header :=
  let tm := typeMeta (z_zone_type z) in
  ZoneHeader [(Some "/zones", "DNS Zones"); (None, z_name z)]
    [(tm.1.2, tm.1.1); (if z_enabled z then ("Active", "green") else ("Disabled", "gray"))]
    (or_null (z_description z))
    (["Default TTL: " +:+ Z_str (z_ttl_default z) +:+ "s"] ++
     (if truthy_opt (z_forwarder z) then ["Forwarder: " +:+ default "" (z_forwarder z)] else []) ++
     ["Created: " +:+ created])
    (hasRole u [Operator]).

(** ** The URL implements the filters *)

(** What makes the handlers of a page right: a patch is for one of the page's filters,
    and writing it into what is read is the change that is meant. *)
Class UrlListOk (V E : Type) `{UrlList V E} := {
  patch_known (v : V) (e : E) : (url_patch v e).1 ∈ url_defaults.*1;
  values_ext (f g : string → string) : (∀ k, k ∈ url_defaults.*1 → f k = g k) → url_values f = url_values g;
  apply_patched (get : string → string) (e : E) :
    let '(k, v) := url_patch (url_values get) e in
    url_apply (url_values get) e = url_values (λ k', if decide (k' = k) then v else get k');
}.

#[export] Instance feed_list_ok : UrlListOk feed_filters feed_filter_event.
Proof.
  split.
  - intros v [s|o| |id]; cbn; set_solver.
  - intros f g Hfg. cbn in *. by rewrite !Hfg by set_solver.
  - by intros get [s|o| |id].
Qed.

#[export] Instance zone_list_ok : UrlListOk zone_filters zone_filter_event.
Proof.
  split.
  - intros v [s|o|o]; cbn; set_solver.
  - intros f g Hfg. cbn in *. by rewrite !Hfg by set_solver.
  - by intros get [s|o|o].
Qed.

Lemma get_known (k : string) (l : list (string * string)) : k ∈ l.*1 → ∃ v, Params.get k l = Some v.
Proof.
  intros (kv & -> & Hin)%list_elem_of_fmap. unfold Params.get.
  destruct (List.find _ l) as [x|] eqn:E; [by exists x.2|]. exfalso.
  pose proof (find_none _ _ E kv (proj1 (list_elem_of_In _ _) Hin)) as H. by apply bool_decide_eq_false in H.
Qed.

Section url_ok.
Context {V E : Type} `{UrlListOk V E}.

(** A filter reads as it was set, the others as before. *)
Lemma read_set (h : UrlFilters.history) (k v k' : string) :
  k ∈ url_defaults.*1 → k' ∈ url_defaults.*1 →
  default "" (UrlFilters.read url_defaults
    (UrlFilters.current (UrlFilters.setFilters url_defaults [(k, Some v)] h)) k') =
  if decide (k' = k) then v else default "" (UrlFilters.read url_defaults (UrlFilters.current h) k').
Proof.
  intros Hk Hk'. destruct (get_known k' url_defaults Hk') as [d Hd]. rewrite !UrlFilters.read_spec, Hd. cbn [fmap option_fmap option_map].
  unfold UrlFilters.setFilters. cbn [UrlFilters.current]. case_decide as Heq.
  - subst k'. rewrite (UrlFilters.get_apply_same _ _ _ _ (Some v)), Hd;
      [|cbn; apply NoDup_singleton|by left]. case_decide; cbn; congruence.
  - rewrite UrlFilters.get_apply_other; [done|]. cbn. set_solver.
Qed.

Lemma filter_step_applies (h : UrlFilters.history) (e : E) : filters_of (filter_step h e) = url_apply (filters_of h) e.
Proof.
  unfold filter_step. pose proof (patch_known (filters_of h) e) as Hk.
  pose proof (apply_patched (λ k, default "" (UrlFilters.read url_defaults (UrlFilters.current h) k)) e) as Ha.
  fold (filters_of h) in Ha. destruct (url_patch (filters_of h) e) as [k v]. rewrite Ha. cbn in Hk.
  unfold filters_of. apply values_ext. intros k' Hk'. by apply read_set.
Qed.

Lemma filters_run (es : list E) (h : UrlFilters.history) :
  filters_of (foldl filter_step h es) = foldl url_apply (filters_of h) es.
Proof.
  revert h. induction es as [|e es IH]; intros h; cbn; [done|]. by rewrite IH, filter_step_applies.
Qed.

Lemma filters_reopened (h : UrlFilters.history) : filters_of (reopened h) = filters_of h.
Proof. unfold filters_of, reopened. cbn. by rewrite search_roundtrip. Qed.

(** Nothing else of the URL or of the history changes. *)
Lemma filters_leave (es : list E) (h : UrlFilters.history) (k : string) :
  k ∉ url_defaults.*1 →
  UrlFilters.past (foldl filter_step h es) = UrlFilters.past h ∧
  Params.get k (UrlFilters.current (foldl filter_step h es)) = Params.get k (UrlFilters.current h).
Proof.
  intros Hk. revert h. induction es as [|e es IH]; intros h; cbn; [done|].
  destruct (IH (filter_step h e)) as [-> ->]. unfold filter_step.
  pose proof (patch_known (filters_of h) e) as Hp. destruct (url_patch (filters_of h) e) as [k' v]. cbn in Hp.
  split; [done|]. apply (UrlFilters.get_patch_other _ _ _ (k', Some v)). cbn. congruence.
Qed.
End url_ok.

(** C13: the filters of the feeds and of the zones behave as plain state although they
    live in the URL.  After any changes of the search, the selects and the chips, from
    any URL, the page filters by exactly what was chosen last in each control; the
    URL opened elsewhere, or reloaded, shows the same screen; and parameters that are
    not filters, and the history behind the page, are as they were. *)
Theorem filters_refine_state (tls : Z → string) (lc : string → string → Z) (local : Z → Z) (now : Z)
    (h : UrlFilters.history) (fes : list feed_filter_event) (zes : list zone_filter_event)
    (u : option AuthUser) (isLoading : bool) (p : feeds_page) (registry : list category) (feeds : list feed)
    (tenants : list Tenant) (tenant_of : zone → option string) (zones : list zone) (k : string) :
  let hf := foldl filter_step h fes in
  let hz := foldl filter_step h zes in
  filters_of hf = foldl url_apply (filters_of h) fes ∧
  filters_of hz = foldl url_apply (filters_of h) zes ∧
  FeedsPage tls lc local now u isLoading (reopened hf) p registry feeds =
    FeedsPage tls lc local now u isLoading hf p registry feeds ∧
  ZonesPage tls lc u isLoading (reopened hz) tenants tenant_of zones =
    ZonesPage tls lc u isLoading hz tenants tenant_of zones ∧
  UrlFilters.past hf = UrlFilters.past h ∧ UrlFilters.past hz = UrlFilters.past h ∧
  (k ∉ ["search"; "category"; "type"; "status"] →
   Params.get k (UrlFilters.current hf) = Params.get k (UrlFilters.current h) ∧
   Params.get k (UrlFilters.current hz) = Params.get k (UrlFilters.current h)).
Proof.
  intros hf hz. unfold hf, hz. split_and!.
  - apply filters_run.
  - apply filters_run.
  - unfold FeedsPage. by rewrite filters_reopened.
  - unfold ZonesPage. by rewrite filters_reopened.
  - apply (filters_leave fes h "*"). cbn. set_solver.
  - apply (filters_leave zes h "*"). cbn. set_solver.
  - intros Hk. split; [apply (filters_leave fes)|apply (filters_leave zes)]; cbn; set_solver.
Qed.

Lemma filters_refine_state_witness :
  let h := UrlFilters.History [] [("status", "disabled"); ("ref", "mail")] in
  filters_of (foldl filter_step h [FSearch "ads"; FChip "malware"; FStatus None]) = FeedFilters "ads" "malware" "all" ∧
  Params.get "ref" (UrlFilters.current (foldl filter_step h [FSearch "ads"; FChip "malware"; FStatus None])) = Some "mail".
Proof.
  intros h. destruct (filters_refine_state Z_str (λ _ _, 0%Z) (λ _, 0%Z) 0 h [FSearch "ads"; FChip "malware"; FStatus None] []
    None false page_init [] [] [] (λ _, None) [] "ref") as (H1 & _ & _ & _ & _ & _ & H7).
  split; [rewrite H1; reflexivity|]. apply H7. set_solver.
Defined.

(** ** Failures *)

(** [const { data: zones = [], isLoading } = useZones()]: the error of the query is
    not read. *)
Definition rows_of {A} (r : result (list A)) : list A := default [] (q_data r).

(** A list that could not be loaded looks like an empty one. *)
Lemma failed_list_looks_empty (tls : Z → string) (lc : string → string → Z) (local : Z → Z) (now : Z)
    (u : option AuthUser) (h : UrlFilters.history) (e : string) (p : feeds_page) (registry : list category)
    (tenants : list Tenant) (tenant_of : zone → option string) :
  let failed {A} : result (list A) := Result None false (Some e) in
  let empty {A} : result (list A) := Result (Some []) false None in
  FeedsPage tls lc local now u (q_loading (A := list feed) failed) h p registry (rows_of failed) =
    FeedsPage tls lc local now u (q_loading (A := list feed) empty) h p registry (rows_of empty) ∧
  (zs_rows <$> ZonesPage tls lc u (q_loading (A := list zone) failed) h tenants tenant_of (rows_of failed)) =
    Some (inr "No zones match the current filters").
Proof. done. Qed.
