(* ===== verification/TabViews.v ===== *)
(** * The upstream and DHCP pages on screen

    What [pages/UpstreamPage.tsx] and [pages/DhcpPage.tsx] show: the tabs, which are in
    the URL, and the panel of the one that is chosen, with its heading, the controls
    above its table, the table and the modal.  The panels are the components of
    [pages/upstream] and [pages/dhcp], whose states are those of [Crud.v],
    [Upstream.v] and [ReservationTab.v], and whose tables are those of [Tables.v]. *)

From S2P Require Import Prelude JsText Json Web Search Client Queries Hooks Forms Effects Upstream Dhcp Dhcp6.
From S2P Require Import Crud ReservationTab.
From S2P Require Import DhcpPage Tables ListPages.

(** ** Screens *)

(** The controls above a table: a search box, a select with what is offered and what is
    chosen, a button that may be disabled with the tooltip it then has, and a refresh
    icon that turns while the query is fetched. *)
Inductive head_control :=
| HSearch (placeholder value : string)
| HSelect (placeholder : string) (data : list (string * string)) (value : option string)
| HButton (label : string) (disabled : bool) (tooltip : option string)
| HRefresh (isFetching : bool).

Inductive body_view :=
| BText (c : cell)
| BTable (t : table_view cell)
| BLoader
| BForm (buttons : list (string * bool))
| BCards (l : list (string * card_view)).

(** [EntityModal]: its title, and the buttons of the form in it with [loading]. *)
Record entity_modal := EntityModal { em_title : string; em_buttons : list (string * bool) }.

Record tab_screen := TabScreen {
  ts_title : cell;
  ts_head : list head_control;
  ts_body : list body_view;
  ts_modal : option entity_modal;
}.

(** [<Button onClick={onCancel}>Cancel</Button>] and
    [<Button type="submit" loading={saving}>Save</Button>], which every form ends with. *)
Definition form_buttons (saving : bool) : list (string * bool) := [("Cancel", false); ("Save", saving)].

(** [opened={modalOpen}] *)
Definition modal_view (opened : bool) (title : string) (saving : bool) : option entity_modal :=
  if opened then Some (EntityModal title (form_buttons saving)) else None.

(** ** The upstream tabs *)

Section crud.
Context {E V : Type} `{C : Crud.Crud E V} `{F : UseForm V}.

(** [saving={create.isPending || update.isPending}] *)
Definition crud_modal {A} (what : string) (t : Crud.tab E V) (ps : list (nat * A)) : option entity_modal :=
  modal_view (Crud.modalOpen t) (modal_title (Crud.editTarget t) what) (Crud.saving ps).
End crud.

Section upstream.
Context `{UseForm resolver_form} `{UseForm pool_form} `{UseForm route_form} `{UseForm policy_form}.

Definition ResolversTab {A} (isLoading : bool) (probingId : option string) (resolvers : list resolver)
    (t : Crud.tab resolver resolver_form) (ps : list (nat * A)) : tab_screen :=
  TabScreen (Dim "Named upstream DNS server profiles. Group them into pools for load-balancing and failover.")
    [HButton "Add resolver" false None]
    [BTable (resolvers_table isLoading probingId resolvers)]
    (crud_modal "resolver" t ps).

Definition PoolsTab {A} (isLoading : bool) (resolvers : list resolver) (pools : list pool)
    (t : Crud.tab pool pool_form) (ps : list (nat * A)) : tab_screen :=
  TabScreen
    (Dim "Pools group resolvers under a load-balancing / failover strategy. Assign pools to upstream routes.")
    [HButton "Add pool" false None]
    [BTable (pools_table isLoading resolvers pools)]
    (crud_modal "pool" t ps).

(** [tenants.map((t) => ({ value: t.id, label: t.name }))]; everything but the select
    appears with the tenant, the modal too. *)
Definition RoutesTab {A} (tenants : list (string * string)) (tenantId : option string) (isLoading : bool)
    (pools : list pool) (routes : list route) (t : Crud.tab route route_form) (ps : list (nat * A)) : tab_screen :=
  TabScreen (Dim "Routes map a (tenant, qname pattern) to an upstream pool. Evaluated in priority order.")
    (HSelect "Select a tenant to manage routes" tenants tenantId ::
     (if routes_shown tenantId then [HButton "Add route" false None] else []))
    (from_option (λ v, [BTable v]) [] (routes_table tenantId isLoading pools routes))
    (if routes_shown tenantId then crud_modal "route" t ps else None).

Definition PolicyTab (tenants : list (string * string)) (isLoading saving : bool) (s : policy_tab) : tab_screen :=
  let chosen := truthy_opt (pt_tenantId s) in
  TabScreen
    (Dim "Per-tenant upstream DNS behaviour: DNSSEC enforcement, encryption requirements, TTL clamping, and blocked-query response type.")
    [HSelect "Select a tenant" tenants (pt_tenantId s)]
    ((if chosen && isLoading then [BLoader] else []) ++
     (if chosen && negb isLoading then [BForm [("Save policy", saving)]] else []))
    None.
End upstream.

Definition HealthTab : tab_screen :=
  TabScreen (Dim "Upstream Health Dashboard") []
    [BText (Dim "Per-resolver health state timelines, latency P50/P95/P99 charts, error breakdown, and pool utilization will appear here once the Sprint 18 health monitor is active in the filter node.")]
    None.

(** ** The DHCP tabs *)

Section dhcp.
Context `{UseForm scope_form} `{UseForm scope6_form}.

Definition ScopesTab {A} (isLoading : bool) (scopes : list scope) (t : Crud.tab scope scope_form)
    (ps : list (nat * A)) : tab_screen :=
  TabScreen (Txt "DHCP Scopes") [HButton "Add scope" false None] [BTable (scopes_table isLoading scopes)]
    (crud_modal "scope" t ps).

Definition Scope6sTab {A} (isLoading : bool) (scopes : list scope6) (t : Crud.tab scope6 scope6_form)
    (ps : list (nat * A)) : tab_screen :=
  TabScreen (Txt "IPv6 Scopes") [HButton "Add scope" false None] [BTable (scopes6_table isLoading scopes)]
    (crud_modal "IPv6 scope" t ps).
End dhcp.

Section reservations.
Context {E V F : Type} `{R : ReservationTab.Reservations E V F} `{U : UseForm V}.

(** The head of a reservations tab: the search box while a scope is selected, the
    select, and the button, which is disabled until then. *)
Definition reservations_head (placeholder add search : string) (options : list (string * string))
    (scopeId : option string) : list head_control :=
  (if truthy_opt scopeId then [HSearch placeholder search] else []) ++
  [ HSelect "Select scope" options scopeId;
    HButton add (negb (truthy_opt scopeId)) (if truthy_opt scopeId then None else Some "Select a scope first") ].

(** [title={editing?.id ? "Edit reservation" : add}] *)
Definition reservation_title (add : string) (p : ReservationTab.panel E V) : string :=
  match ReservationTab.editing_id p with Some _ => "Edit reservation" | None => add end.

Definition reservations_screen (heading placeholder button add search : string) (options : list (string * string))
    (saving : bool) (table : cell + table_view cell) (h : ReservationTab.half E V F) (p : ReservationTab.panel E V) :
    tab_screen :=
  TabScreen (Txt heading) (reservations_head placeholder button search options (ReservationTab.h_scopeId h))
    [match table with inl c => BText c | inr v => BTable v end]
    (modal_view (ReservationTab.p_modalOpen p) (reservation_title add p) saving).
End reservations.

Section reservation_tabs.
Context `{UseForm reservation_form} `{UseForm reservation6_form}.

Definition ReservationsTab (options : list (string * string)) (isLoading : bool) (search : string)
    (rs : list reservation) (h : ReservationTab.half reservation reservation_form prefill)
    (p : ReservationTab.panel reservation reservation_form)
    (ps : list (nat * nat * inflight (ReservationTab.half reservation reservation_form prefill))) : tab_screen :=
  reservations_screen "Host Reservations" "Search MAC, IP, hostname…" "Add reservation" "Add reservation" search
    options (ReservationTab.saving h ps) (reservations_table (ReservationTab.h_scopeId h) isLoading search rs) h p.

Definition Reservation6sTab (options : list (string * string)) (isLoading : bool) (search : string)
    (rs : list reservation6) (h : ReservationTab.half reservation6 reservation6_form prefill6)
    (p : ReservationTab.panel reservation6 reservation6_form)
    (ps : list (nat * nat * inflight (ReservationTab.half reservation6 reservation6_form prefill6))) : tab_screen :=
  reservations_screen "IPv6 Reservations" "Search DUID, IP, hostname…" "Add" "Add IPv6 reservation" search
    options (ReservationTab.saving h ps) (reservations6_table (ReservationTab.h_scopeId h) isLoading search rs) h p.
End reservation_tabs.

Section leases.
Variables (local : Z → Z) (now : Z).

(** The search box, the select of a scope, and the refresh icon. *)
Definition leases_head (placeholder search : string) (options : list (string * string)) (scopeId : option string)
    (isFetching : bool) : list head_control :=
  [HSearch placeholder search; HSelect "All scopes" options scopeId; HRefresh isFetching].

Definition LeasesTab (options : list (string * string)) (scopeId : option string) (isLoading isFetching : bool)
    (search : string) (leases : list lease) : tab_screen :=
  TabScreen (Txt "Active Leases") (leases_head "Search IP, MAC, hostname…" search options scopeId isFetching)
    [BTable (leases_table local now scopeId options isLoading search leases)] None.

Definition Leases6Tab (options : list (string * string)) (scopeId : option string) (isLoading isFetching : bool)
    (search : string) (leases : list lease6) : tab_screen :=
  TabScreen (Txt "Active IPv6 Leases") (leases_head "Search IP, DUID, hostname…" search options scopeId isFetching)
    [BTable (leases6_table local now scopeId options isLoading search leases)] None.

Definition status_screen (statsLoading healthLoading : bool) (stats : list subnet_stat) (instances : list heartbeat) :
    tab_screen :=
  let '(health, util) := StatusTab local now statsLoading healthLoading stats instances in
  TabScreen (Txt "") [] [BCards [("DHCP daemon health", health); ("Subnet utilisation", util)]] None.
End leases.

(** ** The pages *)

(** [<Tabs value={value} keepMounted={false}>]: the tabs with the one that is chosen,
    and the panel whose value it is; a value without a panel shows none. *)
Record tabs_view (P : Type) := TabsView {
  tv_tabs : list (string * string * bool);
  tv_panel : option P;
}.
Arguments TabsView {P}.
Arguments tv_tabs {P}.
Arguments tv_panel {P}.

Definition Tabs {P} (value : string) (tabs : list (string * string * P)) : tabs_view P :=
  TabsView ((λ '(v, label, _), (v, label, bool_decide (v = value))) <$> tabs)
    (snd <$> List.find (λ x, bool_decide (x.1.1 = value)) tabs).

(** [useUrlFilters({ tab: "resolvers" })] and [onChange={(v) => setFilters({ tab: v ?? "resolvers" })}] *)
#[export] Instance upstream_tab : UrlList string (option string) := {|
  url_defaults := [("tab", "resolvers")];
  url_values get := get "tab";
  url_patch _ v := ("tab", default "resolvers" v);
  url_apply _ v := default "resolvers" v |}.

Definition UPSTREAM_TABS : list (string * string) :=
  [ ("resolvers", "Resolvers"); ("pools", "Pools"); ("routes", "Routes"); ("policy", "Tenant policy");
    ("health", "Health") ].

Definition UPSTREAM_INTRO : string :=
  "Manage upstream resolver profiles, HA pools, per-tenant routing rules, and forwarding policy. All config is delivered to filter nodes as signed upstream bundles.".

(** [panel v] is the component of the tab [v]. *)
Definition UpstreamPage {P} (panel : string → P) (h : UrlFilters.history) : string * string * tabs_view P :=
  ("DNS Upstream", UPSTREAM_INTRO, Tabs (filters_of h) ((λ '(v, label), (v, label, panel v)) <$> UPSTREAM_TABS)).

Definition upstream_panel (resolvers pools routes policy : tab_screen) (v : string) : tab_screen :=
  if decide (v = "resolvers") then resolvers else if decide (v = "pools") then pools
  else if decide (v = "routes") then routes else if decide (v = "policy") then policy else HealthTab.

Definition DHCP_TABS : list (string * string) :=
  [("scopes", "Scopes"); ("reservations", "Reservations"); ("leases", "Leases"); ("status", "Status")].

Definition FAMILIES : list (string * string) := [("4", "DHCPv4"); ("6", "DHCPv6")].

Record dhcp_screen (P : Type) := DhcpScreen {
  dp_stale : option string;
  dp_family : list (string * string * bool);
  dp_tabs : tabs_view P;
}.
Arguments DhcpScreen {P}.
Arguments dp_stale {P}.
Arguments dp_family {P}.
Arguments dp_tabs {P}.

(** [panel f v] is the component of the tab [v] for the family [f]; the badge appears
    while a daemon is stale. *)
Definition dhcp_view {P} (panel : string → string → P) (health : list bool) (url : params) : dhcp_screen P :=
  DhcpScreen (if anyStale health then Some "Daemon not responding" else None)
    ((λ '(v, label), (v, label, bool_decide (v = family url))) <$> FAMILIES)
    (Tabs (tab url) ((λ '(v, label), (v, label, panel (family url) v)) <$> DHCP_TABS)).

(** [family === "4" ? ... : ...] in each panel. *)
Definition dhcp_panel (scopes reservations leases scopes6 reservations6 leases6 status : tab_screen)
    (f v : string) : tab_screen :=
  let four := bool_decide (f = "4") in
  if decide (v = "scopes") then if four then scopes else scopes6
  else if decide (v = "reservations") then if four then reservations else reservations6
  else if decide (v = "leases") then if four then leases else leases6 else status.

(** ** The modal says what Save sends *)

Section told.
Context {E V : Type} `{C : Crud.Crud E V} `{F : UseForm V}.

Lemma busy_sent {A} h (i : A) ps : busy h (Crud.sent h i ps) = true.
Proof.
  unfold busy, Crud.sent. apply bool_decide_eq_true. rewrite fmap_app, elem_of_app. right. by left.
Qed.

Lemma saving_sent {A} (target : option E) (i : A) ps : Crud.saving (Crud.sent (Crud.save_hook target) i ps) = true.
Proof.
  unfold Crud.saving. apply orb_true_iff. destruct target; [right|left]; apply busy_sent.
Qed.

(** What the modal for [target] shows, and what its form then sends. *)
Definition tells (what : string) : Prop :=
  ∀ es (t : Crud.tab E V) ps i,
    Crud.tab_run (Crud.tab_init, []) es (t, ps) → Crud.submit t = Some i →
    ∃ v, Crud.shows t = Crud.Open (Crud.editTarget t) v ∧ Forall (λ x, x = None) (Crud.c_validate (Crud.editTarget t) v) ∧
      em_title <$> crud_modal what t ps =
        Some (match Crud.editTarget t with Some _ => "Edit " +:+ what | None => "Add " +:+ what end) ∧
      f_call i = Crud.save_call (Crud.editTarget t) v ∧
      (em_buttons <$> crud_modal what t ps) = Some (form_buttons (Crud.saving ps)) ∧
      (em_buttons <$> crud_modal what t (Crud.sent (Crud.save_hook (Crud.editTarget t)) i ps)) =
        Some (form_buttons true).

Lemma crud_tells what : tells what.
Proof.
  intros es t ps i (a & _ & Hok & _)%Crud.run_refines Hi. cbn in Hok.
  unfold Crud.submit in Hi. destruct (Crud.modal_form t) as [f|] eqn:Hf; [cbn in Hi|done].
  apply onSubmit_Some in Hi as [Hv ->].
  assert (Crud.modalOpen t = true) as Hm by (apply Hok; rewrite Hf; by eauto).
  exists (form_values f). unfold crud_modal, modal_view. rewrite Hm, saving_sent. cbn.
  split_and!; [|done|by destruct (Crud.editTarget t)|by apply Crud.save_sends|done|done].
  unfold Crud.shows. by rewrite Hf.
Qed.
End told.
Arguments tells {E V} C {F} what.

Section reservation_told.
Context {E V F : Type} `{R : ReservationTab.Reservations E V F} `{U : UseForm V}.

Lemma reservation_saving_sent (h : ReservationTab.half E V F) i ps :
  ReservationTab.saving h (ReservationTab.through h (ReservationTab.save_hook h) i ps) = true.
Proof.
  assert (∀ k, (ReservationTab.h_mounts h, k) ∈ (ReservationTab.through h k i ps).*1) as Hk.
  { intros k. unfold ReservationTab.through. rewrite fmap_app, elem_of_app. right. by left. }
  unfold ReservationTab.saving, ReservationTab.save_hook. apply orb_true_iff. rewrite !bool_decide_eq_true.
  case_decide; [left|right]; apply Hk.
Qed.

Definition reservation_tells (add : string) : Prop :=
  ∀ (h : ReservationTab.half E V F) p i ps,
    ReservationTab.h_panel h = Some p → ReservationTab.submit h = Some i →
    ReservationTab.saving h (ReservationTab.through h (ReservationTab.save_hook h) i ps) = true ∧
    ∃ f, ReservationTab.p_form p = Some f ∧ Forall (λ x, x = None) (ReservationTab.e_validate (form_values f)) ∧
      match ReservationTab.editing_id p with
      | Some id =>
          reservation_title add p = "Edit reservation" ∧
          f_call i = mutationFn (ReservationTab.e_update (ReservationTab.h_scopeId h))
                       (id, ReservationTab.e_body (form_values f))
      | None =>
          reservation_title add p = add ∧
          f_call i = mutationFn (ReservationTab.e_create (ReservationTab.h_scopeId h))
                       (ReservationTab.e_body (form_values f))
      end.

Lemma reservations_tell add : reservation_tells add.
Proof.
  intros h p i ps Hp Hi. split; [apply reservation_saving_sent|]. unfold ReservationTab.submit in Hi. rewrite Hp in Hi. cbn in Hi.
  destruct (ReservationTab.p_form p) as [f|]; [cbn in Hi|done]. apply onSubmit_Some in Hi as [Hv ->].
  exists f. split_and!; [done..|]. unfold ReservationTab.save, reservation_title.
  by destruct (ReservationTab.editing_id p).
Qed.
End reservation_told.
Arguments reservation_tells {E V F} R {U} add.

(** On the seven tabs with a modal, the modal says what its Save button will send.
    Whenever the form of a tab can be submitted, over every run of the tab, the modal
    is on screen, with the title Edit and the request an update of the very entity the
    modal was opened for, or with the title Add and the request a new entity; the form
    in it is valid, and Save turns into a loader with the request.  A reservation that
    was prefilled from a lease is titled as, and sent as, a new one. *)
Theorem modals_tell `{UseForm resolver_form} `{UseForm pool_form} `{UseForm route_form} `{UseForm scope_form}
    `{UseForm scope6_form} `{UseForm reservation_form} `{UseForm reservation6_form} (tenantId : option string) :
  tells resolvers_tab "resolver" ∧ tells pools_tab "pool" ∧ tells (routes_tab tenantId) "route" ∧
  tells scopes_tab "scope" ∧ tells scopes6_tab "IPv6 scope" ∧
  reservation_tells reservations_tab "Add reservation" ∧
  reservation_tells reservations6_tab "Add IPv6 reservation" ∧
  (∀ f p, reservation_title "Add reservation" (ReservationTab.open_with (R := reservations_tab) (Some (prefilled f)) p)
     = "Add reservation") ∧
  (∀ f p, reservation_title "Add IPv6 reservation"
     (ReservationTab.open_with (R := reservations6_tab) (Some (prefilled6 f)) p) = "Add IPv6 reservation").
Proof. split_and!; (apply crud_tells || apply reservations_tell || done). Qed.

(** ** The URL chooses the panel *)

#[export] Instance upstream_tab_ok : UrlListOk string (option string).
Proof.
  split.
  - intros v e. cbn. set_solver.
  - intros f g Hfg. cbn in *. by rewrite Hfg by set_solver.
  - by intros get e.
Qed.

Lemma Tabs_panel {P} (value : string) (tabs : list (string * string)) (panel : string → P) :
  tv_panel (Tabs value ((λ '(v, label), (v, label, panel v)) <$> tabs)) =
  if decide (value ∈ tabs.*1) then Some (panel value) else None.
Proof.
  induction tabs as [|[v label] tabs IH]; [done|]. unfold Tabs in *. cbn in *.
  case_bool_decide as Hv.
  - subst. by rewrite decide_True by (by left).
  - rewrite IH. destruct (decide (value ∈ tabs.*1)); case_decide as Hd; try done; exfalso; set_solver.
Qed.

Lemma Tabs_chosen {P} (value : string) (tabs : list (string * string * P)) :
  value ∉ tabs.*1.*1 → Forall (λ x, x.2 = false) (tv_tabs (Tabs value tabs)).
Proof.
  intros Hv. cbn. apply Forall_fmap, Forall_forall. intros [[v label] p] Hin. cbn.
  apply bool_decide_eq_false. intros ->. apply Hv. rewrite <- list_fmap_compose. apply list_elem_of_fmap.
  by exists (value, label, p).
Qed.

Lemma tab_setTab t url : tab (setTab t url) = t ∧ family (setTab t url) = family url.
Proof. unfold tab, family, setTab. by rewrite Params.get_set_same, Params.get_set_other. Qed.

Lemma family_setFamily f url :
  f ∈ FAMILIES.*1 → family (setFamily f url) = f ∧ tab (setFamily f url) = tab url.
Proof.
  intros Hf. unfold tab, family, setFamily. rewrite Params.get_set_same, Params.get_set_other by done. split; [|done].
  cbn in Hf. rewrite !elem_of_cons in Hf. destruct Hf as [-> | [-> | Hf]]; [done..|]. by apply not_elem_of_nil in Hf.
Qed.

(** The two pages with tabs show the panel the URL names.  On the upstream page,
    after any clicks from any URL, the panel is that of the last tab clicked, the link
    opened elsewhere shows the same page, and the rest of the URL and the history are
    as they were.  On the DHCP page a click on a tab keeps the family and one on a
    family keeps the tab, the badge of a daemon that does not respond leads to the
    status, and a reservations tab is mounted exactly while it is the panel shown.  A
    tab the URL invents shows no panel, and no tab is marked. *)
Theorem pages_show {P} (panel : string → P) (h : UrlFilters.history) (es : list (option string)) (k : string)
    `{UseForm reservation_form} `{UseForm reservation6_form} (p : page) (f v : string) (health : list bool) :
  let hs := foldl filter_step h es in
  let dhcp url := tv_panel (dp_tabs (dhcp_view pair health url)) in
  tv_panel (UpstreamPage panel hs).2 =
    (let t := foldl (λ _ e, default "resolvers" e) (filters_of h) es in
     if decide (t ∈ UPSTREAM_TABS.*1) then Some (panel t) else None) ∧
  UpstreamPage panel (reopened hs) = UpstreamPage panel hs ∧
  UrlFilters.past hs = UrlFilters.past h ∧
  (k ≠ "tab" → Params.get k (UrlFilters.current hs) = Params.get k (UrlFilters.current h)) ∧
  (filters_of h ∉ UPSTREAM_TABS.*1 → Forall (λ x, x.2 = false) (tv_tabs (UpstreamPage panel h).2)) ∧
  (v ∈ DHCP_TABS.*1 → dhcp (tab_changed (Some v) (pg_url p)) = Some (family (pg_url p), v)) ∧
  (f ∈ FAMILIES.*1 → dhcp (setFamily f (pg_url p)) = (λ x, (f, x.2)) <$> dhcp (pg_url p)) ∧
  dhcp (pg_url (click_stale p)) = Some (family (pg_url p), "status") ∧
  (sync p = p →
   (h_panel (pg_4 p) ≠ None ↔ dhcp (pg_url p) = Some ("4", "reservations")) ∧
   (h_panel (pg_6 p) ≠ None ↔ dhcp (pg_url p) = Some ("6", "reservations"))).
Proof.
  intros hs dhcp.
  assert (∀ url, dhcp url = if decide (tab url ∈ DHCP_TABS.*1) then Some (family url, tab url) else None) as Hd.
  { intros url. unfold dhcp, dhcp_view. cbn [dp_tabs]. apply (Tabs_panel _ _ (pair (family url))). }
  assert (∀ g url, shows_reservations g url = true ↔ dhcp url = Some (g, "reservations")) as Hs.
  { intros g url. rewrite Hd. unfold shows_reservations. rewrite bool_decide_eq_true. split.
    - intros [<- Ht]. rewrite Ht, decide_True by (cbn; set_solver). done.
    - case_decide; naive_solver. }
  split_and!.
  - unfold UpstreamPage. cbn [snd]. rewrite Tabs_panel. unfold hs. by rewrite filters_run.
  - unfold UpstreamPage. by rewrite filters_reopened.
  - apply (filters_leave es h "*"). cbn. set_solver.
  - intros Hk. apply (filters_leave es). cbn. set_solver.
  - intros Hn. apply Tabs_chosen. by rewrite <- !list_fmap_compose.
  - intros Hv. rewrite Hd. change (tab_changed (Some v)) with (setTab v). destruct (tab_setTab v (pg_url p)) as [-> ->].
    by rewrite decide_True.
  - intros Hf. rewrite !Hd. destruct (family_setFamily f (pg_url p) Hf) as [-> ->]. by case_decide.
  - rewrite Hd. unfold click_stale, navigate, sync. cbn [pg_url].
    destruct (tab_setTab "status" (pg_url p)) as [-> ->]. rewrite decide_True by (cbn; set_solver). done.
  - intros Hp. rewrite <- Hp at 1 3. cbn [sync pg_4 pg_6]. rewrite !sync_half_mounted. by rewrite !Hs.
Qed.
