(* ===== verification/FeedsScreen.v ===== *)
(** * The page of feeds as it is driven

    [pages/FeedsPage.tsx]: the three modals, the selection with its bar, the switches
    and buttons of the rows, the confirmations, and the requests in flight.  Each step
    sees the feeds, the category registry and the URL of that time.  Forms, rows and
    requests are those of [Feeds.v] and [ListPages.v]; hooks are heard as in
    [RowPage.v]: [mutate] and [mutateAsync] of the same hook supersede each other. *)

From S2P Require Import Prelude JsText Json Web Search Client Errors Queries Auth Hooks Locale Forms Effects Modal RowPage Registry RegistryPages Zones ZonePages Feeds ListPages.

(** ** State *)

Record fstate := FState {
  fx_page : feeds_page;
  fx_add : kept add_form;
  fx_bulk : bulk_modal;
  fx_edit : edit_modal;
}.

Definition set_fpage (p : feeds_page) (s : fstate) : fstate := FState p (fx_add s) (fx_bulk s) (fx_edit s).
Definition set_fadd (m : kept add_form) (s : fstate) : fstate := FState (fx_page s) m (fx_bulk s) (fx_edit s).
Definition set_fbulk (m : bulk_modal) (s : fstate) : fstate := FState (fx_page s) (fx_add s) m (fx_edit s).
Definition set_fedit (m : edit_modal) (s : fstate) : fstate := FState (fx_page s) (fx_add s) (fx_bulk s) m.

(** [BulkAddFeedModal] is mounted closed. *)
Definition bulk_mount : bulk_modal := BulkModal false false bulk_initial.

Definition fstate_init : fstate := FState page_init (kept_init add_initial) bulk_mount None.

(** A confirmation: for one feed, or for those selected when it was opened. *)
Inductive fask := AskFeed (f : feed) | AskFeeds (p : feeds_page).

(** Requests sent together, of one part of the state. *)
Definition bulk_on {S P} (get : P → S) (set : S → P → P) (b : bulk S) : bulk P :=
  Bulk (b_calls b) (λ rs p, let '(notes, s) := b_settled b rs (get p) in (notes, set s p)).

Record fconf := FConf {
  fc_state : fstate;
  fc_asked : option fask;
  fc_flying : list (nat * inflight fstate);
  fc_bulks : list (bulk fstate);
}.

Definition fconf_init : fconf := FConf fstate_init None [] [].

(** What a step sees. *)
Record fenv := FEnv { fe_feeds : result (list feed); fe_registry : list category; fe_url : UrlFilters.history }.

Inductive fevent :=
| FRender | FOpenAdd | FInAdd (e : form_event add_form)
| FOpenBulk | FTypeBulk (g : bulk_form → bulk_form) | FSubmitBulk | FCloseBulk
| FEdit (n : nat) | FInEdit (e : form_event edit_form)
| FSwitch (n : nat) | FSync (n : nat) | FDelete (n : nat)
| FSelect (n : nat) | FSelectGroup (n : nat) | FSelectAll | FClear
| FBulkSync | FBulkEnable (b : bool) | FBulkDelete
| FConfirm | FCancel | FAnswered (n : nat) (o : exc (option json)) | FAllSettled (n : nat) (rs : list (exc (option json))).

(** The hooks: 1 of the add modal, 2 of the edit modal, 3 to 5 of the page: update,
    delete and ingest. *)
Definition go (h : nat) (i : inflight fstate) (c : fconf) : fconf * list out :=
  (FConf (fc_state c) (fc_asked c) (launch h i (fc_flying c)) (fc_bulks c), [Sent (f_call i)]).

(** [mutateAsync] for each of a list, awaited together: the hook's earlier call of
    [mutate] is superseded. *)
Definition go_all (h : option nat) (b : bulk fstate) (c : fconf) : fconf * list out :=
  (FConf (fc_state c) (fc_asked c) (from_option (λ h, unheard h (fc_flying c)) (fc_flying c) h) (fc_bulks c ++ [b]),
   Sent <$> b_calls b).

Definition on_fpage : inflight feeds_page → inflight fstate := inflight_on fx_page set_fpage.

Definition with_fstate (s : fstate) (c : fconf) : fconf := FConf s (fc_asked c) (fc_flying c) (fc_bulks c).
Definition with_fasked (a : option fask) (c : fconf) : fconf := FConf (fc_state c) a (fc_flying c) (fc_bulks c).

(** A modal covers the page. *)
Definition fcovered (c : fconf) : bool :=
  bool_decide (is_Some (fc_asked c)) || k_opened (fx_add (fc_state c)) || bm_opened (fx_bulk (fc_state c)) ||
  bool_decide (is_Some (fx_edit (fc_state c))).

(** The loader is shown in place of the page: its modals are mounted anew later. *)
Definition funmount (s : fstate) : fstate :=
  FState (fx_page s) (remount_kept add_initial (fx_add s))
    (BulkModal (bm_opened (fx_bulk s)) false bulk_initial) (remount (λ f, edit_initial (Some f)) (fx_edit s)).

Definition frender (en : fenv) (c : fconf) : fconf :=
  if q_loading (fe_feeds en)
  then FConf (funmount (fc_state c)) (fc_asked c) (filter (λ x, x.1 ∉ [1; 2]) (fc_flying c)) (fc_bulks c)
  else c.

Section steps.
Variables (validURL : string → bool) (toLocaleString : Z → string) (lc : string → string → Z) (u : option AuthUser).

Definition fall (en : fenv) : list feed := default [] (q_data (fe_feeds en)).
Definition fvisible (en : fenv) : list feed := visible_feeds lc (filters_of (fe_url en)) (fall en).

(** The rows as they are shown, group after group. *)
Definition frows (en : fenv) : list feed := concat (groupedRows (fe_registry en) (fvisible en)).*2.

(** The part of the page that only administrators have, while nothing covers it. *)
Definition admin_step (en : fenv) (c : fconf) (e : fevent) : fconf * list out :=
  let s := fc_state c in
  let p := fx_page s in
  let page p' := with_fstate (set_fpage p' s) c in
  let row n (k : feed → fconf * list out) := from_option k (c, []) (frows en !! n) in
  let bar (k : fconf * list out) := if decide (selected p = []) then (c, []) else k in
  match e with
  | FOpenAdd => (with_fstate (set_fadd (kept_open (fx_add s)) s) c, [])
  | FOpenBulk =>
      (with_fstate (set_fbulk (BulkModal true (bm_submitting (fx_bulk s)) (bm_values (fx_bulk s))) s) c, [])
  | FEdit n => row n (λ f, (with_fstate (set_fedit (setEditFeed f (fx_edit s)) s) c, []))
  | FSwitch n => row n (λ f, go 3 (on_fpage (toggleEnabled f)) c)
  | FSync n =>
      row n (λ f,
        (* [loading={syncingId === f.id || syncingIds.has(f.id)} disabled={!f.enabled}] *)
        if bool_decide (syncingId p = Some (f_id f)) || bool_decide (f_id f ∈ syncingIds p) || negb (f_enabled f)
        then (c, [])
        else let '(p', i) := ingest toLocaleString f p in go 5 (on_fpage i) (page p'))
  | FDelete n => row n (λ f, (with_fasked (Some (AskFeed f)) c, []))
  | FSelect n => row n (λ f, (page (toggleSelected (f_id f) p), []))
  | FSelectGroup n =>
      from_option (λ g, (page (click_group (f_id <$> g.2) p), [])) (c, []) (groupedRows (fe_registry en) (fvisible en) !! n)
  | FSelectAll =>
      (* unlike the checkbox of a group, [visible.every(...)] of no rows is true *)
      (page (setGroupSelected (f_id <$> fvisible en)
               (negb (forallb (λ f, bool_decide (f_id f ∈ selected p)) (fvisible en))) p), [])
  | FClear => bar (page (clear_selection p), [])
  | FBulkSync =>
      bar (if decide (syncingIds p = []) then
             match bulkSync (fall en) p with
             | (notes, p', Some b) => go_all (Some 5) (bulk_on fx_page set_fpage b) (page p')
             | (notes, _, None) => (c, Told <$> notes)
             end
           else (c, []))
  | FBulkEnable b => bar (go_all (Some 3) (bulk_on fx_page set_fpage (bulkSetEnabled b p)) c)
  | FBulkDelete => bar (with_fasked (Some (AskFeeds p)) c, [])
  | _ => (c, [])
  end.

(** The forms of the modals. *)
Definition modal_step (c : fconf) (e : fevent) : fconf * list out :=
  let s := fc_state c in
  match e with
  | FInAdd e =>
      match on_kept 1 add_initial (add_submit validURL) (fx_add s) e with
      | (m, Call h i) =>
          if busy h (fc_flying c) then (c, []) else go h (inflight_on fx_add set_fadd i) (with_fstate (set_fadd m s) c)
      | (m, _) => (with_fstate (set_fadd m s) c, [])
      end
  | FTypeBulk g =>
      (if bm_opened (fx_bulk s)
       then with_fstate (set_fbulk (BulkModal true (bm_submitting (fx_bulk s)) (g (bm_values (fx_bulk s)))) s) c else c, [])
  | FSubmitBulk =>
      if bm_opened (fx_bulk s) && negb (bm_submitting (fx_bulk s)) then
        match bulk_submit (bm_values (fx_bulk s)) with
        | Some b =>
            go_all None (bulk_on fx_bulk set_fbulk b)
              (with_fstate (set_fbulk (BulkModal true true (bm_values (fx_bulk s))) s) c)
        | None => (c, [])
        end
      else (c, [])
  | FCloseBulk => (if bm_opened (fx_bulk s) then with_fstate (set_fbulk (bulk_close (fx_bulk s)) s) c else c, [])
  | FInEdit e =>
      match on_form 2 edit_submit (fx_edit s) e with
      | (m, Call h i) =>
          if busy h (fc_flying c) then (c, []) else go h (inflight_on fx_edit set_fedit i) (with_fstate (set_fedit m s) c)
      | (m, Unmounts h) => (FConf (set_fedit m s) (fc_asked c) (unheard h (fc_flying c)) (fc_bulks c), [])
      | (m, Nothing) => (with_fstate (set_fedit m s) c, [])
      end
  | _ => (c, [])
  end.

Definition feeds_confirm (c : fconf) : fconf * list out :=
  match fc_asked c with
  | Some (AskFeed f) => go 4 (on_fpage (delete_feed f)) (with_fasked None c)
  | Some (AskFeeds p) => go_all (Some 4) (bulk_on fx_page set_fpage (bulkDelete p)) (with_fasked None c)
  | None => (c, [])
  end.

Definition fstep (c0 : fconf) (x : fenv * fevent) : fconf * list out :=
  let '(en, e) := x in
  let c := frender en c0 in
  match e with
  | FConfirm => feeds_confirm c
  | FCancel => (with_fasked None c, [])
  | FAnswered n o =>
      match fc_flying c !! n with
      | Some (h, i) =>
          let '(notes, s) := f_settled i o (fc_state c) in
          (FConf s (fc_asked c) (delete n (fc_flying c)) (fc_bulks c), Told <$> notes)
      | None => (c, [])
      end
  | FAllSettled n rs =>
      match fc_bulks c !! n with
      | Some b =>
          if decide (length rs = length (b_calls b)) then
            let '(notes, s) := b_settled b rs (fc_state c) in
            (FConf s (fc_asked c) (fc_flying c) (delete n (fc_bulks c)), Told <$> notes)
          else (c, [])
      | None => (c, [])
      end
  | FInAdd _ | FTypeBulk _ | FSubmitBulk | FCloseBulk | FInEdit _ =>
      if q_loading (fe_feeds en) then (c, []) else modal_step c e
  | _ => if q_loading (fe_feeds en) || fcovered c || negb (hasRole u [Admin]) then (c, []) else admin_step en c e
  end.

Fixpoint frun (c : fconf) (script : list (fenv * fevent)) : fconf * list out :=
  match script with
  | [] => (c, [])
  | x :: r => let '(c1, o1) := fstep c x in let '(c2, o2) := frun c1 r in (c2, o1 ++ o2)
  end.

(** ** What every script keeps *)

Section keeps.
Variable full : list (fenv * fevent).

(** The feed was listed, and let through by the filters. *)
Definition feed_seen (f : feed) : Prop :=
  ∃ en e, (en, e) ∈ full ∧ q_loading (fe_feeds en) = false ∧ f ∈ fall en ∧
    feed_matches (filters_of (fe_url en)) f = true.
Definition id_seen (x : string) : Prop := ∃ f, feed_seen f ∧ f_id f = x.

Inductive feed_request : call → Prop :=
| req_add v : Forall (λ e, e = None) (add_validate validURL v) → feed_request (mutationFn useCreateFeed (add_body v))
| req_line v e :
    Forall (λ e, e = None) (bulk_validate v) → e ∈ parseBulkLines (bf_lines v) →
    feed_request (mutationFn useCreateFeed
      (feed_body (e_id e) (bf_category_id v) (e_url e) (bf_format v) (bf_interval_seconds v) (bf_provider v) (bf_license v)))
| req_edit f v : feed_seen f → feed_request (mutationFn useUpdateFeed (f_id f, edit_body v))
| req_enable x b : id_seen x → feed_request (mutationFn useUpdateFeed (x, JObj [("enabled", JBool b)]))
| req_sync x : id_seen x → feed_request (mutationFn useIngestFeedNow x)
| req_delete_feed x : id_seen x → feed_request (mutationFn useDeleteFeed x).

Definition sel_ok (p : feeds_page) : Prop := ∀ x, x ∈ selected p → id_seen x.

Definition fstate_inv (s : fstate) : Prop :=
  (k_opened (fx_add s) = true ∨ bm_opened (fx_bulk s) = true ∨ is_Some (fx_edit s) → hasRole u [Admin] = true) ∧
  opened_for feed_seen (fx_edit s) ∧ sel_ok (fx_page s).

Definition fask_ok (a : fask) : Prop :=
  hasRole u [Admin] = true ∧ match a with AskFeed f => feed_seen f | AskFeeds p => sel_ok p end.

Definition fkeeps (f : fstate → list note * fstate) : Prop := ∀ s, fstate_inv s → fstate_inv (f s).2.

Definition fconf_inv (c : fconf) : Prop :=
  fstate_inv (fc_state c) ∧ (∀ a, fc_asked c = Some a → fask_ok a) ∧
  Forall (λ x, ∀ o, fkeeps (f_settled x.2 o)) (fc_flying c) ∧ Forall (λ b, ∀ rs, fkeeps (b_settled b rs)) (fc_bulks c).

Definition fout_ok (o : out) : Prop :=
  match o with Sent c => hasRole u [Admin] = true ∧ feed_request c | Went _ => False | Told _ => True end.

Definition fok (r : fconf * list out) : Prop := fconf_inv r.1 ∧ Forall fout_ok r.2.

Lemma fidle_ok c : fconf_inv c → fok (c, []).
Proof. by split; [|constructor]. Qed.

Lemma with_fstate_inv s c : fconf_inv c → fstate_inv s → fconf_inv (with_fstate s c).
Proof. intros (H1 & H2 & H3 & H4) Hs. by split_and!. Qed.

Lemma with_fasked_inv a c : fconf_inv c → (∀ x, a = Some x → fask_ok x) → fconf_inv (with_fasked a c).
Proof. intros (H1 & H2 & H3 & H4) Ha. by split_and!. Qed.

Lemma Forall_filtered {A} (P Q : A → Prop) `{∀ x, Decision (Q x)} l : Forall P l → Forall P (filter Q l).
Proof. rewrite !Forall_forall. intros Hl x [_ Hx]%list_elem_of_filter. by apply Hl. Qed.

Lemma Forall_deleted {A} (P : A → Prop) n l : Forall P l → Forall P (delete n l).
Proof. rewrite !Forall_forall. intros Hl x Hx. apply Hl. eapply sublist_subseteq; [apply sublist_delete|exact Hx]. Qed.

Lemma go_ok h i c :
  fconf_inv c → hasRole u [Admin] = true → feed_request (f_call i) → (∀ o, fkeeps (f_settled i o)) → fok (go h i c).
Proof.
  intros (H1 & H2 & H3 & H4) Hr Hi Hk. split; [|by repeat constructor]. split_and!; cbn; try done.
  apply Forall_app_2; [by apply Forall_filtered|by constructor].
Qed.

Lemma go_all_ok h b c :
  fconf_inv c → hasRole u [Admin] = true → Forall feed_request (b_calls b) → (∀ rs, fkeeps (b_settled b rs)) →
  fok (go_all h b c).
Proof.
  intros (H1 & H2 & H3 & H4) Hr Hb Hk. split.
  - split_and!; cbn; try done; [destruct h; [by apply Forall_filtered|done]|]. apply Forall_app_2; [done|by constructor].
  - cbn. apply Forall_fmap. eapply Forall_impl; [exact Hb|]. by intros x.
Qed.

(** A request of the page that leaves the selection or clears it. *)
Lemma fpage_keeps (f : feeds_page → list note * feeds_page) :
  (∀ p, selected (f p).2 ⊆ selected p) →
  fkeeps (λ s, let '(notes, p) := f (fx_page s) in (notes, set_fpage p s)).
Proof.
  intros Hf s (H1 & H2 & H3). specialize (Hf (fx_page s)). destruct (f (fx_page s)) as [notes p]. cbn in *.
  split_and!; [done|done|]. intros x Hx. apply H3. by apply Hf.
Qed.

Lemma fpage_inv p s : fstate_inv s → sel_ok p → fstate_inv (set_fpage p s).
Proof. intros (H1 & H2 & H3) Hp. by split_and!. Qed.

Lemma frows_seen en e n f :
  (en, e) ∈ full → q_loading (fe_feeds en) = false → frows en !! n = Some f → feed_seen f.
Proof.
  intros Hin Hl Hf%list_elem_of_lookup_2. unfold frows in Hf. rewrite groupedRows_eq in Hf.
  rewrite <- list_fmap_compose in Hf.
  apply list_elem_of_In, in_concat in Hf as (l & Hl'%list_elem_of_In & Hf%list_elem_of_In).
  apply list_elem_of_fmap in Hl' as (id & -> & _). cbn in Hf. apply list_elem_of_filter in Hf as [_ Hf].
  apply elem_of_visible_feeds in Hf as [Ha Hm]. by exists en, e.
Qed.

Lemma visible_seen en e f :
  (en, e) ∈ full → q_loading (fe_feeds en) = false → f ∈ fvisible en → feed_seen f.
Proof. intros Hin Hl [Ha Hm]%elem_of_visible_feeds. by exists en, e. Qed.

Lemma frender_inv en c : fconf_inv c → fconf_inv (frender en c).
Proof.
  intros (H1 & H2 & H3 & H4). unfold frender. destruct (q_loading (fe_feeds en)); [|by split_and!].
  split_and!; cbn; try done; [|by apply Forall_filtered]. destruct H1 as (Ha & Hb & Hc). split_and!; cbn.
  - intros [?|[?|Ho]]; apply Ha; auto. right; right. by destruct (fx_edit (fc_state c)); destruct Ho.
  - by apply opened_remount.
  - done.
Qed.

Lemma group_sel_ok ids b p : sel_ok p → Forall id_seen ids → sel_ok (setGroupSelected ids b p).
Proof.
  intros Hp Hi x. rewrite setGroupSelected_spec. case_decide as Hd; [|apply Hp]. intros _.
  by eapply Forall_forall in Hi.
Qed.

Lemma bulk_send_keeps v rs : fkeeps (b_settled (bulk_on fx_bulk set_fbulk (bulk_handleSubmit v)) rs).
Proof.
  intros s (H1 & H2 & H3). cbn. split_and!; cbn; [|done|done]. intros Ho. apply H1. case_decide; cbn in *; naive_solver.
Qed.

Lemma modal_step_ok c e : fconf_inv c → fok (modal_step c e).
Proof.
  intros Hc. pose proof Hc as ((H1 & H2 & H3) & H4 & H5 & H6). destruct e; cbn; try (by apply fidle_ok).
  - destruct (on_kept 1 add_initial (add_submit validURL) (fx_add (fc_state c)) e) as [m x] eqn:E.
    assert (fstate_inv (set_fadd m (fc_state c))) as Hs.
    { split_and!; cbn; [|done|done]. intros [Ho|[Ho|Ho]]; apply H1; [left|by auto..].
      apply (on_kept_opened 1 add_initial (add_submit validURL) _ e). by rewrite E. }
    destruct x as [h i|h|]; [|apply fidle_ok; by apply with_fstate_inv..].
    destruct (busy h _); [by apply fidle_ok|].
    destruct (on_kept_sends 1 add_initial (add_submit validURL) (fx_add (fc_state c)) e h i) as [Ho [Hv ->]%onSubmit_Some];
      [by rewrite E|].
    apply go_ok; [by apply with_fstate_inv|by auto|by constructor|].
    intros o s (Ha & Hb & Hd). destruct o as [r|m']; cbn; split_and!; cbn; try done. intros [Hx|Hx]; [done|]. by apply Ha; right.
  - apply fidle_ok. destruct (bm_opened (fx_bulk (fc_state c))) eqn:E; [|done]. apply with_fstate_inv; [done|].
    split_and!; cbn; auto.
  - destruct (bm_opened (fx_bulk (fc_state c)) && _) eqn:E; [|by apply fidle_ok]. bools.
    destruct (bulk_submit _) as [b|] eqn:Eb; [|by apply fidle_ok]. apply onSubmit_Some in Eb as [Hv ->].
    apply go_all_ok; [apply with_fstate_inv; [done|split_and!; cbn; auto]|by auto| |apply bulk_send_keeps].
    cbn. apply Forall_fmap, Forall_forall. intros x Hx. cbn. by constructor.
  - apply fidle_ok. destruct (bm_opened (fx_bulk (fc_state c))); [|done]. apply with_fstate_inv; [done|].
    split_and!; cbn; [|done|done]. intros [?|[?|?]]; try done; apply H1; auto.
  - destruct (on_form 2 edit_submit (fx_edit (fc_state c)) e) as [m x] eqn:E.
    assert (fstate_inv (set_fedit m (fc_state c))) as Hs.
    { split_and!; cbn; [|change m with (m, x).1; rewrite <- E; by apply on_form_opened|done].
      intros [Ho|[Ho|Ho]]; apply H1; [by auto..|]. right; right. destruct (fx_edit (fc_state c)); [by eexists|].
      destruct Ho as [y Hy]. destruct e; cbn in E; simplify_eq. }
    destruct x as [h i|h|]; [|apply fidle_ok; split_and!; try done; by apply Forall_filtered|apply fidle_ok; by apply with_fstate_inv].
    destruct (busy h _); [by apply fidle_ok|].
    assert (edit_submit (fx_edit (fc_state c)) = Some i) as (f & v & Ef & _ & ->)%modal_submit_open
      by (apply (on_form_sends 2 _ _ e h); by rewrite E).
    apply go_ok; [by apply with_fstate_inv|apply H1; right; right; rewrite Ef; by eexists| |].
    + constructor. by rewrite Ef in H2.
    + intros o s (Ha & Hb & Hd). destruct o as [r|m']; cbn; split_and!; cbn; try done. intros [?|[?|[? ?]]]; try done; apply Ha; auto.
Qed.

Lemma fconfirm_ok c : fconf_inv c → fok (feeds_confirm c).
Proof.
  intros Hc. pose proof Hc as (H1 & H2 & H3 & H4). unfold feeds_confirm.
  destruct (fc_asked c) as [[f|p]|] eqn:E; [..|by apply fidle_ok]; destruct (H2 _ eq_refl) as [Hr Ha].
  - apply go_ok; [by apply with_fasked_inv|done|constructor; by exists f|].
    intros o. apply (fpage_keeps (f_settled (delete_feed f) o)). intros p. by destruct o.
  - apply go_all_ok; [by apply with_fasked_inv|done| |].
    + cbn. apply Forall_fmap, Forall_forall. intros x Hx. constructor. by apply Ha.
    + intros rs. apply (fpage_keeps (b_settled (bulkDelete p) rs)). set_solver.
Qed.

Lemma admin_step_ok en c e :
  (en, e) ∈ full → q_loading (fe_feeds en) = false → hasRole u [Admin] = true → fconf_inv c → fok (admin_step en c e).
Proof.
  intros Hin Hl Hr Hc. pose proof Hc as ((H1 & H2 & H3) & H4 & H5 & H6).
  assert (∀ n f, frows en !! n = Some f → feed_seen f) as Hrow by (intros n f; by eapply frows_seen).
  assert (∀ p, sel_ok p → fconf_inv (with_fstate (set_fpage p (fc_state c)) c)) as Hpage.
  { intros p Hp. apply with_fstate_inv; [done|]. by apply fpage_inv. }
  destruct e; cbn; try (apply fidle_ok; exact Hc).
  - apply fidle_ok, with_fstate_inv; [done|]. by split_and!.
  - apply fidle_ok, with_fstate_inv; [done|]. by split_and!.
  - destruct (frows en !! n) as [f|] eqn:E; cbn; [|by apply fidle_ok]. apply fidle_ok, with_fstate_inv; [done|].
    split_and!; cbn; [done|by eapply Hrow|done].
  - destruct (frows en !! n) as [f|] eqn:E; cbn; [|by apply fidle_ok]. apply go_ok; [done|done| |].
    + constructor. exists f. split; [by eapply Hrow|done].
    + intros o. apply (fpage_keeps (f_settled (toggleEnabled f) o)). intros p. by destruct o.
  - destruct (frows en !! n) as [f|] eqn:E; cbn; [|by apply fidle_ok]. cbn. destruct (_ || negb _); [by apply fidle_ok|].
    apply go_ok; [by apply Hpage|done|constructor; exists f; split; [by eapply Hrow|done]|].
    intros o. apply (fpage_keeps (f_settled (ingest toLocaleString f (fx_page (fc_state c))).2 o)). intros p. by destruct o.
  - destruct (frows en !! n) as [f|] eqn:E; cbn; [|by apply fidle_ok]. apply fidle_ok, with_fasked_inv; [done|].
    intros ? [= <-]. split; [done|by eapply Hrow].
  - destruct (frows en !! n) as [f|] eqn:E; cbn; [|by apply fidle_ok]. apply fidle_ok, Hpage. intros x. cbn.
    case_decide; [rewrite elem_of_set_delete; intros [_ Hx]; by apply H3|]. rewrite elem_of_set_add.
    intros [-> |Hx]; [|by apply H3]. exists f. split; [by eapply Hrow|done].
  - destruct (groupedRows (fe_registry en) (fvisible en) !! n) as [g|] eqn:E; cbn; [|by apply fidle_ok].
    apply fidle_ok, Hpage. apply group_sel_ok; [done|]. apply Forall_fmap, Forall_forall. intros f Hf. exists f.
    split; [|done]. rewrite groupedRows_eq, list_lookup_fmap in E. destruct (orderedIds _ _ !! n) as [id|]; [|done].
    cbn in E. injection E as <-. apply list_elem_of_filter in Hf as [_ Hf]. by eapply visible_seen.
  - apply fidle_ok, Hpage, group_sel_ok; [done|]. apply Forall_fmap, Forall_forall. intros f Hf. exists f.
    split; [by eapply visible_seen|done].
  - case_decide; [by apply fidle_ok|]. apply fidle_ok, Hpage. intros x Hx. by apply not_elem_of_nil in Hx.
  - case_decide; [by apply fidle_ok|]. case_decide; [|by apply fidle_ok].
    unfold bulkSync. case_decide; [split; [done|by repeat constructor]|].
    apply go_all_ok; [by apply Hpage|done| |by intros rs s (Ha & Hb & Hd); split_and!].
    cbn. apply Forall_fmap, Forall_forall. intros x [Hx _]%list_elem_of_In%filter_In. constructor. by apply H3, list_elem_of_In.
  - case_decide; [by apply fidle_ok|].
    apply go_all_ok; [done|done| |intros rs; apply (fpage_keeps (b_settled (bulkSetEnabled b (fx_page (fc_state c))) rs)); set_solver].
    cbn. apply Forall_fmap, Forall_forall. intros x Hx. constructor. by apply H3.
  - case_decide; [by apply fidle_ok|]. apply fidle_ok, with_fasked_inv; [done|]. by intros ? [= <-].
Qed.

Lemma fstep_ok c x : x ∈ full → fconf_inv c → fok (fstep c x).
Proof.
  destruct x as [en e]. intros Hin Hc%(frender_inv en). pose proof Hc as (H1 & H2 & H3 & H4).
  assert (Forall fout_ok []) by constructor. unfold fstep.
  assert (fok (if q_loading (fe_feeds en) || fcovered (frender en c) || negb (hasRole u [Admin])
    then (frender en c, []) else admin_step en (frender en c) e)) as Ha.
  { destruct (q_loading (fe_feeds en)) eqn:El; [by apply fidle_ok|]. destruct (fcovered _); [by apply fidle_ok|].
    destruct (hasRole u [Admin]) eqn:Er; [by apply admin_step_ok|by apply fidle_ok]. }
  assert (fok (if q_loading (fe_feeds en) then (frender en c, []) else modal_step (frender en c) e)) as Hm.
  { destruct (q_loading (fe_feeds en)); [by apply fidle_ok|by apply modal_step_ok]. }
  destruct e; try exact Ha; try exact Hm.
  - by apply fconfirm_ok.
  - apply fidle_ok. by apply with_fasked_inv.
  - destruct (fc_flying (frender en c) !! n) as [[h i]|] eqn:E; [|by apply fidle_ok].
    pose proof (Forall_lookup_1 _ _ _ _ H3 E o _ H1) as Hs. cbn in Hs.
    destruct (f_settled i o (fc_state (frender en c))) as [notes s]. cbn in Hs.
    split; [split_and!; cbn; try done; by apply Forall_deleted|by apply Forall_fmap, Forall_true].
  - destruct (fc_bulks (frender en c) !! n) as [b|] eqn:E; [|by apply fidle_ok]. case_decide; [|by apply fidle_ok].
    pose proof (Forall_lookup_1 _ _ _ _ H4 E rs _ H1) as Hs. cbn in Hs.
    destruct (b_settled b rs (fc_state (frender en c))) as [notes s]. cbn in Hs.
    split; [split_and!; cbn; try done; by apply Forall_deleted|by apply Forall_fmap, Forall_true].
Qed.

Lemma frun_ok script c : script ⊆ full → fconf_inv c → fok (frun c script).
Proof.
  revert c. induction script as [|x r IH]; intros c Hsub Hc; cbn; [by apply fidle_ok|].
  destruct (fstep_ok c x) as [H1 H2]; [set_solver|done|]. destruct (fstep c x) as [c1 o1]. cbn in *.
  destruct (IH c1 ltac:(set_solver) H1) as [H3 H4]. destruct (frun c1 r) as [c2 o2]. cbn in *.
  split; [done|]. by apply Forall_app_2.
Qed.
End keeps.
End steps.

(** ** The mark of a feed that is being synced *)

Section mark.
Variables (validURL : string → bool) (toLocaleString : Z → string) (lc : string → string → Z) (u : option AuthUser).

(** The feed whose Sync button is loading. *)
Definition mark (s : fstate) : option string := syncingId (fx_page s).

Definition flight_ok (x : nat * inflight fstate) : Prop := x.1 ≠ 5 → ∀ o s, mark (f_settled x.2 o s).2 = mark s.
Definition bulk_keeps (b : bulk fstate) : Prop := ∀ rs s, mark (b_settled b rs s).2 = mark s.
Definition mark_inv (c : fconf) : Prop := Forall flight_ok (fc_flying c) ∧ Forall bulk_keeps (fc_bulks c).

(** A step that leaves the mark alone while no sync is heard of. *)
Definition quiet (c : fconf) (r : fconf * list out) : Prop :=
  mark_inv r.1 ∧
  (5 ∉ (fc_flying c).*1 → mark (fc_state r.1) = mark (fc_state c) ∧ 5 ∉ (fc_flying r.1).*1).

Lemma quiet_idle c o : mark_inv c → quiet c (c, o).
Proof. by split. Qed.

Lemma quiet_state c s a o : mark_inv c → mark s = mark (fc_state c) → quiet c (FConf s a (fc_flying c) (fc_bulks c), o).
Proof. intros Hc Hs. split; [done|]. by intros ?. Qed.

Lemma quiet_go c h i s a :
  mark_inv c → h ≠ 5 → mark s = mark (fc_state c) → flight_ok (h, i) → quiet c (go h i (FConf s a (fc_flying c) (fc_bulks c))).
Proof.
  intros [Hf Hb] Hh Hs Hi. split; [split; cbn; [|done]|].
  - apply Forall_app_2; [by apply Forall_filtered|by constructor].
  - intros H5. split; [done|]. change (5 ∉ (launch h i (fc_flying c)).*1). rewrite elem_launch. naive_solver.
Qed.

Lemma quiet_go_all c h b s a :
  mark_inv c → mark s = mark (fc_state c) → bulk_keeps b → quiet c (go_all h b (FConf s a (fc_flying c) (fc_bulks c))).
Proof.
  intros [Hf Hb] Hs Hk. split; [split; cbn; [destruct h; [by apply Forall_filtered|done]|apply Forall_app_2; [done|by constructor]]|].
  intros H5. split; [done|]. destruct h as [h|]; [|done]. change (5 ∉ (unheard h (fc_flying c)).*1).
  rewrite unheard_hooks, list_elem_of_filter. tauto.
Qed.

Lemma modal_quiet c e : mark_inv c → quiet c (modal_step validURL c e).
Proof.
  intros Hc. destruct e; cbn; try (by apply quiet_idle).
  - destruct (on_kept 1 add_initial (add_submit validURL) (fx_add (fc_state c)) e) as [m [h i|h|]] eqn:E;
      [|by apply quiet_state..].
    assert (h = 1) as -> by (apply (on_kept_hook 1 add_initial (add_submit validURL) (fx_add (fc_state c)) e h i); by rewrite E).
    destruct (busy 1 _); [by apply quiet_idle|]. apply quiet_go; [done..|]. intros _ o s. cbn. by destruct (f_settled i o (fx_add s)).
  - destruct (bm_opened _); [by apply quiet_state|by apply quiet_idle].
  - destruct (_ && _); [|by apply quiet_idle]. destruct (bulk_submit _) as [b|]; [|by apply quiet_idle].
    apply quiet_go_all; [done..|]. intros rs s. cbn. by destruct (b_settled b rs (fx_bulk s)).
  - destruct (bm_opened _); [by apply quiet_state|by apply quiet_idle].
  - destruct (on_form 2 edit_submit (fx_edit (fc_state c)) e) as [m [h i|h|]] eqn:E; [| |by apply quiet_state].
    + assert (h = 2) as -> by (apply (on_form_hook 2 edit_submit (fx_edit (fc_state c)) e h i); by rewrite E).
      destruct (busy 2 _); [by apply quiet_idle|]. apply quiet_go; [done..|]. intros _ o s. cbn. by case_match.
    + destruct Hc as [Hf Hb]. split; [split; [by apply Forall_filtered|done]|]. intros H5. split; [done|].
      change (5 ∉ (unheard h (fc_flying c)).*1). rewrite unheard_hooks, list_elem_of_filter. tauto.
Qed.

Lemma confirm_quiet c : mark_inv c → quiet c (feeds_confirm c).
Proof.
  intros Hc. unfold feeds_confirm. destruct (fc_asked c) as [[f|p]|]; [..|by apply quiet_idle].
  - apply quiet_go; [done..|]. by intros _ [] s.
  - by apply quiet_go_all.
Qed.

Lemma admin_quiet en c e : (∀ n, e ≠ FSync n) → mark_inv c → quiet c (admin_step toLocaleString lc en c e).
Proof.
  intros He Hc. destruct e; cbn; try (by apply quiet_idle); try (by apply quiet_state);
    try (destruct (frows lc en !! n) as [f|]; cbn; [|by apply quiet_idle]); try (by apply quiet_state); try (by apply quiet_idle).
  - apply quiet_go; [done..|]. by intros _ [] s.
  - by destruct (He n).
  - destruct (groupedRows _ _ !! n); cbn; [by apply quiet_state|by apply quiet_idle].
  - case_decide; [by apply quiet_idle|by apply quiet_state].
  - case_decide; [by apply quiet_idle|]. case_decide; [|by apply quiet_idle]. unfold bulkSync.
    case_decide; [by apply quiet_idle|]. by apply quiet_go_all.
  - case_decide; [by apply quiet_idle|]. by apply quiet_go_all.
  - case_decide; [by apply quiet_idle|by apply quiet_state].
Qed.

Lemma sync_inv en c n : mark_inv c → mark_inv (admin_step toLocaleString lc en c (FSync n)).1.
Proof.
  intros [Hf Hb]. cbn. destruct (frows lc en !! n) as [f|]; cbn; [|done]. destruct (_ || negb _); cbn; [done|].
  split; [|done]. apply Forall_app_2; [by apply Forall_filtered|]. constructor; [by intros []|constructor].
Qed.

Lemma frender_quiet en c : mark_inv c → quiet c (frender en c, []).
Proof.
  intros [Hf Hb]. unfold frender. destruct (q_loading (fe_feeds en)); [|by apply quiet_idle].
  split; [split; [by apply Forall_filtered|done]|]. cbn. intros H5. split; [done|].
  rewrite list_elem_of_fmap. intros (x & E & [_ Hin]%list_elem_of_filter). apply H5, list_elem_of_fmap. by exists x.
Qed.

Lemma fstep_quiet c en e :
  mark_inv c → mark_inv (fstep validURL toLocaleString lc u c (en, e)).1 ∧
  ((∀ n, e ≠ FSync n) → quiet c (fstep validURL toLocaleString lc u c (en, e))).
Proof.
  intros Hc. destruct (frender_quiet en c Hc) as [Hr Hq]. set (c1 := frender en c) in *.
  assert ((∀ n, e ≠ FSync n) → quiet c1 (fstep validURL toLocaleString lc u c (en, e))) as Hmain.
  { intros He. unfold fstep. fold c1.
    assert (quiet c1 (if q_loading (fe_feeds en) || fcovered c1 || negb (hasRole u [Admin]) then (c1, [])
      else admin_step toLocaleString lc en c1 e)) as Ha by (destruct (_ || _); [by apply quiet_idle|by apply admin_quiet]).
    assert (quiet c1 (if q_loading (fe_feeds en) then (c1, []) else modal_step validURL c1 e)) as Hm
      by (destruct (q_loading _); [by apply quiet_idle|by apply modal_quiet]).
    destruct e; try exact Ha; try exact Hm.
    - by apply confirm_quiet.
    - by apply quiet_state.
    - destruct (fc_flying c1 !! n) as [[h i]|] eqn:E; [|by apply quiet_idle]. destruct Hr as [Hf Hb].
      pose proof (Forall_lookup_1 _ _ _ _ Hf E) as Hi. unfold flight_ok in Hi. cbn in Hi.
      destruct (f_settled i o (fc_state c1)) as [notes s] eqn:Es.
      split; [split; [by apply Forall_deleted|done]|]. intros H5. cbn. split.
      + assert (h ≠ 5) as Hh.
        { intros Eh. apply H5, list_elem_of_fmap. exists (h, i). split; [done|]. by eapply list_elem_of_lookup_2. }
        pose proof (Hi Hh o (fc_state c1)) as Hi'. rewrite Es in Hi'. exact Hi'.
      + rewrite list_elem_of_fmap. intros (x & Ex & Hx). apply H5, list_elem_of_fmap. exists x. split; [done|].
        eapply sublist_subseteq; [apply sublist_delete|exact Hx].
    - destruct (fc_bulks c1 !! n) as [b|] eqn:E; [|by apply quiet_idle]. case_decide; [|by apply quiet_idle].
      destruct Hr as [Hf Hb]. pose proof (Forall_lookup_1 _ _ _ _ Hb E rs (fc_state c1)) as Hi.
      destruct (b_settled b rs (fc_state c1)) as [notes s]. split; [split; [done|by apply Forall_deleted]|].
      intros H5. by split. }
  assert ((∀ n, e ≠ FSync n) → quiet c (fstep validURL toLocaleString lc u c (en, e))) as Hall.
  { intros He. destruct (Hmain He) as [Hi Hq2]. split; [done|]. intros H5. destruct (Hq H5) as [E1 H51]. cbn in E1, H51.
    destruct (Hq2 H51) as [E2 H52]. split; [|done]. etransitivity; [exact E2|exact E1]. }
  split; [|done]. destruct e; try (apply Hall; done).
  unfold fstep. fold c1. destruct (_ || _); [done|]. by apply sync_inv.
Qed.

Lemma frun_marks c script :
  mark_inv c → mark_inv (frun validURL toLocaleString lc u c script).1 ∧
  (5 ∉ (fc_flying c).*1 → (∀ en n, (en, FSync n) ∉ script) →
   mark (fc_state (frun validURL toLocaleString lc u c script).1) = mark (fc_state c)).
Proof.
  revert c. induction script as [|[en e] r IH]; intros c Hc; [done|]. cbn -[fstep].
  destruct (fstep_quiet c en e Hc) as [Hi Hq]. destruct (fstep validURL toLocaleString lc u c (en, e)) as [c1 o1]. cbn in *.
  destruct (IH c1 Hi) as [H1 H2]. destruct (frun validURL toLocaleString lc u c1 r) as [c2 o2]. cbn in *. split; [done|].
  intros H5 Hs. destruct Hq as [_ Hq]; [intros n ->; apply (Hs en n); left|]. destruct (Hq H5) as [E1 H51].
  rewrite H2; [done|done|]. intros en' n Hin. apply (Hs en' n). by right.
Qed.

(** A sync of the selected feeds supersedes the one of a single feed. *)
Lemma bulk_sync_supersedes c en x :
  mark_inv c → Sent x ∈ (fstep validURL toLocaleString lc u c (en, FBulkSync)).2 →
  (5 ∉ (fc_flying (fstep validURL toLocaleString lc u c (en, FBulkSync)).1).*1) ∧
  mark (fc_state (fstep validURL toLocaleString lc u c (en, FBulkSync)).1) = mark (fc_state c).
Proof.
  intros Hc. destruct (frender_quiet en c Hc) as [_ Hq]. unfold fstep. destruct (_ || _); [by intros ?%not_elem_of_nil|].
  assert (mark (fc_state (frender en c)) = mark (fc_state c)) as Hm by (unfold frender; by destruct (q_loading _)).
  cbn. case_decide; [by intros ?%not_elem_of_nil|]. case_decide; [|by intros ?%not_elem_of_nil]. unfold bulkSync.
  case_decide; [by intros (? & ? & _)%list_elem_of_fmap|]. intros _. split; [|done].
  change (5 ∉ (unheard 5 (fc_flying (frender en c))).*1). rewrite unheard_hooks, list_elem_of_filter. tauto.
Qed.
End mark.

(** ** Properties *)

Section properties.
Variables (validURL : string → bool) (toLocaleString : Z → string) (lc : string → string → Z) (u : option AuthUser).
Variables (local : Z → Z) (now : Z).

(** C12: on the page of feeds, over every script of clicks, typing, filtering, refetches
    and answers: nothing is sent below the admin role, and every request creates a feed
    of a valid form, or is about a feed that was listed and let through by the filters,
    also when it was selected long before.  What the code does not do: when feeds are
    synced together while one is synced alone, the call for the one is superseded, the
    answer that should end its mark is never heard, and its Sync button stays loading
    until some feed is synced alone again. *)
Theorem feeds_gate (script later : list (fenv * fevent)) (en : fenv) (x : call) (f : feed) :
  let c := (frun validURL toLocaleString lc u fconf_init script).1 in
  let outs := (frun validURL toLocaleString lc u fconf_init script).2 in
  (∀ c, Sent c ∈ outs → hasRole u [Admin] = true ∧ feed_request validURL script c) ∧
  (∀ to, Went to ∉ outs) ∧
  (let r := fstep validURL toLocaleString lc u c (en, FBulkSync) in
   let p := fx_page (fc_state (frun validURL toLocaleString lc u r.1 later).1) in
   syncingId (fx_page (fc_state c)) = Some (f_id f) → Sent x ∈ r.2 → (∀ en' n, (en', FSync n) ∉ later) →
   fr_sync (row_view toLocaleString local now true p f) = Some (true, negb (f_enabled f))).
Proof.
  intros c outs. split_and!.
  - destruct (frun_ok validURL toLocaleString lc u script script fconf_init) as [_ Ho]; [done| |].
    { split_and!; cbn; try done; [|constructor..]. split_and!; cbn; [|done|by intros y ?%not_elem_of_nil].
      intros [?|[?|[? ?]]]; done. }
    intros k Hk. exact (proj1 (Forall_forall _ _) Ho _ Hk).
  - destruct (frun_ok validURL toLocaleString lc u script script fconf_init) as [_ Ho]; [done| |].
    { split_and!; cbn; try done; [|constructor..]. split_and!; cbn; [|done|by intros y ?%not_elem_of_nil].
      intros [?|[?|[? ?]]]; done. }
    intros to Hto. exact (proj1 (Forall_forall _ _) Ho _ Hto).
  - intros r p Hm Hx Hl.
    assert (mark_inv c) as Hc by (apply frun_marks; split; constructor).
    destruct (bulk_sync_supersedes validURL toLocaleString lc u c en x Hc Hx) as [H5 E1].
    destruct (fstep_quiet validURL toLocaleString lc u c en FBulkSync Hc) as [Hi _].
    destruct (frun_marks validURL toLocaleString lc u r.1 later Hi) as [_ E2].
    assert (syncingId p = Some (f_id f)) as Ep.
    { change (mark (fc_state (frun validURL toLocaleString lc u r.1 later).1) = Some (f_id f)). rewrite E2; [|done|done].
      by etransitivity. }
    unfold row_view. cbn. rewrite Ep. by rewrite bool_decide_eq_true_2.
Qed.
End properties.

(** ** Examples *)

Definition feed2 : feed :=
  Feed "list-2" "malware" "https://b.example.com/list.txt" "hostfile" 3600 "CC0" "B" false true None None.
Definition two_feeds : fenv := FEnv (Result (Some [feed0; feed2]) false None) [] (UrlFilters.History [] []).

(** One feed is synced alone, another as selected; both answers arrive. *)
Definition script2 : list (fenv * fevent) := [(two_feeds, FSync 0); (two_feeds, FSelect 1)].
Definition later2 : list (fenv * fevent) := [(two_feeds, FAnswered 0 (Ok None)); (two_feeds, FAllSettled 0 [Ok None])].
Definition run2 (c : fconf) (s : list (fenv * fevent)) : fconf :=
  (frun (λ _, true) Z_str code_unit_compare (signed_in Admin) c s).1.
Definition stuck2 : fconf := run2 (run2 (run2 fconf_init script2) [(two_feeds, FBulkSync)]) later2.

Lemma feeds_gate_witness :
  let r := fstep (λ _, true) Z_str code_unit_compare (signed_in Admin) (run2 fconf_init script2) (two_feeds, FBulkSync) in
  r.2 = [Sent (mutationFn useIngestFeedNow "list-2")] ∧ fc_flying stuck2 = [] ∧ fc_bulks stuck2 = [] ∧
  fr_sync (row_view Z_str (λ _, 0%Z) 0 true (fx_page (fc_state (frun (λ _, true) Z_str code_unit_compare (signed_in Admin)
    r.1 later2).1)) feed0) = Some (true, negb (f_enabled feed0)).
Proof.
  intros r. assert (r.2 = [Sent (mutationFn useIngestFeedNow "list-2")]) as Hs by reflexivity.
  split; [exact Hs|]. split; [reflexivity|]. split; [reflexivity|].
  refine (proj2 (proj2 (feeds_gate (λ _, true) Z_str code_unit_compare (signed_in Admin) (λ _, 0%Z) 0 script2 later2 two_feeds
    (mutationFn useIngestFeedNow "list-2") feed0)) _ _ _).
  - reflexivity.
  - change (Sent (mutationFn useIngestFeedNow "list-2") ∈ r.2). rewrite Hs. left.
  - intros en' n Hin. unfold later2 in Hin. rewrite !elem_of_cons in Hin.
    destruct Hin as [E|[E|E]]; [injection E; discriminate..|by apply not_elem_of_nil in E].
Defined.
