(* ===== verification/ZoneListPage.v ===== *)
(** * The list of zones as it is driven

    [pages/ZonesPage.tsx]: the add modal, whose form is kept while it is closed, the
    edit modal, which is mounted with the page and has one form for all zones, the
    links and the deletions.  The page is a [row_page] of [RowPage.v] over the zones
    that its filters let through; forms, rows and requests are those of [Zones.v],
    [ZonePages.v] and [ListPages.v]. *)

From S2P Require Import Prelude JsText Json Web Search Client Errors Schema Queries Auth Hooks Locale Forms Effects Modal Tables RowPage Registry Routing Zones ZonePages Feeds ListPages.

Section page.
Context `{UseForm zone_form}.

(** The add modal, [editZone], and the form of the edit modal. *)
Record zones_state := ZonesState { zl_add : kept add_zone_form; zl_edit : option zone; zl_form : form }.

Definition zones_init : zones_state := ZonesState (kept_init add_zone_initial) None list_page_mount.

Definition set_add (m : kept add_zone_form) (s : zones_state) : zones_state := ZonesState m (zl_edit s) (zl_form s).

(** [setEditZone(z)], and [handleClose()] of the modal: each renders the form again. *)
Definition setEditZone (z : zone) (s : zones_state) : zones_state :=
  ZonesState (zl_add s) (Some z) (edit_clicked (zl_form s) z).
Definition close_edit_zone (s : zones_state) : zones_state :=
  ZonesState (zl_add s) None (edit_closed (zl_form s)).

Inductive zones_event :=
| OpenAddZone | InAddZone (e : form_event add_zone_form) | EditZoneOf (n : nat) | InEditZone (e : form_event zone_form).

(** The form of the edit modal, while a zone is edited. *)
Definition on_edit_zone (z : zone) (s : zones_state) (e : form_event zone_form) : zones_state * effect zones_state :=
  match e with
  | Change g => (ZonesState (zl_add s) (zl_edit s) (setValues g (zl_form s)), Nothing)
  | Submit => (s, Call 2 (edit_zone_send z (form_values (zl_form s)) close_edit_zone))
  | Close => (close_edit_zone s, Nothing)
  end.

Section view.
(** The tenants of the select, and [z.tenant_id]. *)
Variables (tenants : list Tenant) (tenant_of : zone → option string).

Definition zone_cells (z : zone) : list cell :=
  let r := zone_row_view true tenants (tenant_of z) z in
  [ Cells (Code (zr_name r) :: if truthy (z_description z) then [Dim (z_description z)] else []) ] ++
  (Txt <$> firstn 1 (zr_texts r)) ++
  [ Badge (zr_type r).1.2 (zr_type r).1.1; Badge (zr_status r).2 (zr_status r).1 ] ++ (Txt <$> skipn 1 (zr_texts r)).

Definition ZonesListPage : row_page zones_state zone zones_event :=
  {| row_key := z_id;
     headings := ["Zone"; "Tenant"; "Type"; "Status"; "Records"; "TTL"; "Forwarder"; ""];
     row_cells := zone_cells;
     header_buttons u := if hasRole u [Operator] then ["Add zone"] else [];
     row_buttons u := "Open zone" :: if hasRole u [Operator] then ["Edit"; "Delete"] else [];
     none_text _ := "No zones match the current filters";
     row_link z := Some (zone_link (z_id z));
     can_delete u _ := hasRole u [Operator];
     delete_text z := "Delete " +:+ z_name z +:+ "? All " +:+ Z_str (z_record_count z) +:+ " records will be removed.";
     delete_row := delete_zone;
     own u rows s e :=
       match e with
       | OpenAddZone => (if hasRole u [Operator] then set_add (kept_open (zl_add s)) s else s, Nothing)
       | InAddZone e =>
           let '(m, x) := on_kept 1 add_zone_initial add_zone_clicked (zl_add s) e in
           (set_add m s, effect_on zl_add set_add x)
       | EditZoneOf n =>
           match rows !! n with
           | Some z => (if hasRole u [Operator] then setEditZone z s else s, Nothing)
           | None => (s, Nothing)
           end
       | InEditZone e => match zl_edit s with Some z => on_edit_zone z s e | None => (s, Nothing) end
       end;
     unmount s :=
       ZonesState (remount_kept add_zone_initial (zl_add s)) (zl_edit s) (useForm None (edit_zone_initial (zl_edit s))) |}.

(** The zones that are listed: an error of the query is not read. *)
Definition zones_listed (lc : string → string → Z) (h : UrlFilters.history) (r : result (list zone)) :
    result (list zone) :=
  Result (Some (visible_zones lc (filters_of h) (default [] (q_data r)))) (q_loading r) None.

(** Each step sees the URL and the answer of the query at that time. *)
Definition on_zones (lc : string → string → Z)
    (script : list (UrlFilters.history * result (list zone) * event zones_event)) :
    list (result (list zone) * event zones_event) :=
  (λ '(h, r, e), (zones_listed lc h r, e)) <$> script.

Definition zones_run (lc : string → string → Z) (u : option AuthUser)
    (script : list (UrlFilters.history * result (list zone) * event zones_event)) : conf zones_state zone * list out :=
  run ZonesListPage u (Conf zones_init None []) (on_zones lc script).

(** ** Promises *)

Section promises.
Variables (u : option AuthUser) (listed : zone → Prop).

Definition zones_sends (c : call) : Prop :=
  hasRole u [Operator] = true ∧
  ((∃ v, Forall (λ e, e = None) (add_zone_validate v) ∧ c = mutationFn useCreateZone (add_zone_body v)) ∨
   (∃ z v, listed z ∧ c = mutationFn useUpdateZone (z_id z, zone_update_body v))).

Definition zones_inv (s : zones_state) : Prop :=
  (k_opened (zl_add s) = true ∨ zl_edit s ≠ None → hasRole u [Operator] = true) ∧ ∀ z, zl_edit s = Some z → listed z.

Lemma zones_closed_inv s : zones_inv s → zones_inv (close_edit_zone s).
Proof. intros [H1 H2]. split; [|done]. intros [Hk|Hk]; [|done]. apply H1. by left. Qed.

#[export] Program Instance zones_forms : PageForms ZonesListPage u listed := {|
  forms_inv := zones_inv;
  sends := zones_sends |}.
Next Obligation.
  intros rows s e Hl Hs. pose proof Hs as [H1 H2]. destruct e as [|e|n|e]; cbn.
  - destruct (hasRole u [Operator]) eqn:Er; [|done]. by split.
  - destruct (on_kept 1 add_zone_initial add_zone_clicked (zl_add s) e) as [k x] eqn:E. split; [|done]. cbn.
    intros [Hk|Hk]; apply H1; [left|by right].
    apply (on_kept_opened 1 add_zone_initial add_zone_clicked (zl_add s) e). by rewrite E.
  - destruct (rows !! n) as [z|] eqn:Ez; [|done]. destruct (hasRole u [Operator]) eqn:Er; [|done].
    split; [done|]. cbn. intros ? [= <-]. by apply (Forall_lookup_1 _ _ _ _ Hl Ez).
  - destruct (zl_edit s) as [z|] eqn:Ez; [|done]. destruct e; cbn; [|done|by apply zones_closed_inv].
    split; cbn; rewrite Ez; [|done]. intros _. apply H1. right. congruence.
Qed.
Next Obligation.
  intros rows s e h i Hl [H1 H2]. destruct e as [|e|n|e]; cbn.
  - done.
  - destruct (on_kept 1 add_zone_initial add_zone_clicked (zl_add s) e) as [k [h' j|h'|]] eqn:E; try done.
    cbn. intros [= <- <-].
    destruct (on_kept_sends 1 add_zone_initial add_zone_clicked (zl_add s) e h' j) as [Ho [Hv ->]%onSubmit_Some];
      [by rewrite E|].
    split; [split; [by auto|]; left; by exists (k_values (zl_add s))|].
    intros [r|m] s' [H3 H4]; (split; [|done]); cbn; intros [Hk|Hk]; try done; apply H3; auto.
  - by destruct (rows !! n).
  - destruct (zl_edit s) as [z|] eqn:Ez; [|done]. destruct e; cbn; try done. intros [= <- <-]. split.
    + split; [apply H1; right; congruence|]. right. exists z, (form_values (zl_form s)). split; [by apply H2|done].
    + intros [r|m] s' Hs'; [by apply zones_closed_inv|done].
Qed.
Next Obligation. by intros s [H1 H2]. Qed.
Next Obligation. by intros t [] s. Qed.
End promises.
End view.

(** ** Properties *)

Section properties.
Context `{Router} (lc : string → string → Z) (u : option AuthUser) (tenants : list Tenant).
Variable tenant_of : zone → option string.
Implicit Type script : list (UrlFilters.history * result (list zone) * event zones_event).

(** The zone was listed, and let through by the filters in the URL of that time. *)
Definition shown_zone script (z : zone) : Prop :=
  ∃ h r e, (h, r, e) ∈ script ∧ q_loading r = false ∧ z ∈ default [] (q_data r) ∧
    zone_matches (filters_of h) z = true.

Lemma zone_listed_shown script z : was_listed (on_zones lc script) z → shown_zone script z.
Proof.
  intros (ld & e & ([[h r] e'] & [= -> ->] & Hin)%list_elem_of_fmap & Hx). exists h, r, e'.
  unfold on_screen, replaced, zones_listed in Hx. cbn in Hx. destruct (q_loading r); [by apply not_elem_of_nil in Hx|].
  cbn in Hx. unfold visible_zones in Hx. apply list_elem_of_In, filter_In in Hx as [Hx Hm].
  apply list_elem_of_In in Hx. unfold sorted_zones in Hx. rewrite sort_perm in Hx. by split_and!.
Qed.

Lemma zone_clicked_shown script (click : nat → event zones_event) z :
  was_shown (on_zones lc script) click z → shown_zone script z.
Proof.
  intros (ld & n & Hin & Hx). apply zone_listed_shown. exists ld, (click n). split; [done|].
  by eapply list_elem_of_lookup_2.
Qed.

(** C19: on the list of zones, over every script of clicks, typing, filtering and
    answers: below the operator role nothing is sent; a new zone comes from a valid form; what is edited or
    deleted is a zone that was listed and let through by the filters; and a zone's
    link opens the page for its id. *)
Theorem zones_gate script :
  let outs := (zones_run tenants tenant_of lc u script).2 in
  (hasRole u [Operator] = false → ∀ c, Sent c ∉ outs) ∧
  (∀ c, Sent c ∈ outs →
     (∃ v, Forall (λ e, e = None) (add_zone_validate v) ∧ c = mutationFn useCreateZone (add_zone_body v)) ∨
     (∃ z v, shown_zone script z ∧ c = mutationFn useUpdateZone (z_id z, zone_update_body v)) ∨
     (∃ z, shown_zone script z ∧ c = mutationFn useDeleteZone (z_id z))) ∧
  (∀ to, Went to ∈ outs → ∃ z, shown_zone script z ∧
     (segment_ok (z_id z) = true → opens to = (Show PZoneDetail, [("zoneId", z_id z)]))).
Proof.
  intros outs. assert (∀ o, o ∈ outs → out_ok (ZonesListPage tenants tenant_of) u (on_zones lc script) o) as Ho.
  { intros o. apply outs_elem. split; [|done]. cbn. naive_solver. }
  split_and!.
  - intros Hu c [[Hr _]|(z & Hr & _)]%Ho; cbn in *; congruence.
  - intros c [[_ [Hc|(z & v & Hz & ->)]]|(z & _ & Hz & ->)]%Ho; [by left|right; left|right; right].
    + exists z, v. split; [by apply zone_listed_shown|done].
    + exists z. split; [by apply zone_clicked_shown in Hz|done].
  - intros to (z & Hz & [= <-])%Ho. exists z. split; [by apply zone_clicked_shown in Hz|]. apply zone_route.
Qed.

(** The edit modal is one component for all zones: closed while a zone is being saved
    and opened for another, it is closed by the answer of the first, and the changes
    typed for the other are gone. *)
Lemma late_save_discards (s : zones_state) (z z' : zone) (g : zone_form → zone_form) (a : option json) :
  let i := edit_zone_send z (form_values (zl_form s)) close_edit_zone in
  let s1 := setEditZone z' (close_edit_zone s) in
  let s2 := (on_edit_zone z' s1 (Change g)).1 in
  (on_edit_zone z s Submit).2 = Call 2 i ∧ zl_edit s2 = Some z' ∧ form_values (zl_form s2) = g (form_initial (zl_form s)) ∧
  zl_edit (f_settled i (Ok a) s2).2 = None ∧
  form_values (zl_form (f_settled i (Ok a) s2).2) = form_initial (zl_form s).
Proof.
  cbn. unfold edit_closed, edit_clicked. autorewrite with mantis. done.
Qed.
End properties.
End page.
