(* ===== verification/ZoneDetail.v ===== *)
(** * The page of a zone

    [pages/ZoneDetailPage.tsx] as a whole: the header, the two tabs, the table of
    records with its modals, the settings form, the deletions with their confirmation,
    and the export.  Each step sees the answers of the two queries at that time.  The
    forms, rows and requests are those of [Zones.v] and [ZonePages.v], the header is in
    [ListPages.v]; hooks are heard as in [RowPage.v]. *)

From S2P Require Import Prelude JsText Json Web Search Client Errors Schema Queries Auth Hooks Locale Forms Effects Modal RowPage Registry RegistryPages Routing Zones ZonePages Feeds ListPages.

(** ** What the page shows *)

(** The page's own table of zone types: colour and label. *)
Definition DETAIL_TYPE_META : list (string * (string * string)) :=
  [ ("local", ("blue", "Local")); ("forward", ("violet", "Forward")); ("passthrough", ("teal", "Passthrough")) ].

Definition detail_typeMeta (t : string) : string * string :=
  default ("gray", t) (snd <$> List.find (λ kv, bool_decide (kv.1 = t)) DETAIL_TYPE_META).

Definition DETAIL_TYPE_OPTIONS : list (string * string) :=
  [ ("local", "Local — authoritative zone"); ("forward", "Forward — relay to upstream resolver");
    ("passthrough", "Passthrough — exempt from filtering") ].

(** The title of the record modal, and its submit button with [loading]. *)
Definition record_modal_title (r : option dns_record) : string :=
  match r with Some r => "Edit record: " +:+ r_name r +:+ " " +:+ r_record_type r | None => "Add DNS record" end.

Definition record_modal_button (r : option dns_record) : string :=
  match r with Some _ => "Save changes" | None => "Add record" end.

Definition RECORD_HEADINGS : list string := [""; "Name"; "Type"; "TTL"; "Priority"; "Data"; "On"; ""].

(** The records tab: the loader, or the line, the buttons above the table, and its rows
    or a text. *)
Record records_screen := RecordsScreen {
  rt_line : string;
  rt_buttons : list string;
  rt_rows : list (list string * string * list string) + string;
}.

Definition records_view (canWrite : bool) (rr : result (list dns_record)) : option records_screen :=
  if q_loading rr then None
  else
    let records := default [] (q_data rr) in
    Some (RecordsScreen (records_line records) ("Export zone file" :: if canWrite then ["Add record"] else [])
      (if decide (records = [])
       then inr ("No records yet." +:+ if canWrite then " Click “Add record” to create the first one." else "")
       else inl (record_row canWrite <$> records))).

Definition PASSTHROUGH_TEXT : string :=
  "Passthrough zones do not contain DNS records — all queries for this zone bypass filtering and are forwarded to the default resolver.".

(** The settings form: its name field is off, the rest follows the role, and so does the
    button. *)
Definition settings_fields (canWrite : bool) (v : zone_form) : list (string * bool) :=
  [("Zone name", false); ("Zone type", canWrite)] ++
  (if decide (zf_zone_type v = Some "forward") then [("Forwarder address", canWrite)] else []) ++
  [("Description", canWrite); ("Default TTL (seconds)", canWrite); ("Zone enabled", canWrite)].

Definition settings_buttons (canWrite : bool) : list string := if canWrite then ["Save settings"] else [].

(** ** State *)

Section page.
Context `{UseForm zone_form}.

(** The tab, the modals of the records tab, the form of the settings tab, which is there
    while a zone is shown, and where [navigate] was asked to go. *)
Record detail := Detail { zd_tab : string; zd_records : records_tab; zd_form : option form; zd_goto : option string }.

Definition detail_init : detail := Detail "records" records_init None None.

Definition set_tab (t : string) (d : detail) : detail := Detail t (zd_records d) (zd_form d) (zd_goto d).
Definition set_records (t : records_tab) (d : detail) : detail := Detail (zd_tab d) t (zd_form d) (zd_goto d).
Definition set_form (f : option form) (d : detail) : detail := Detail (zd_tab d) (zd_records d) f (zd_goto d).
Definition set_goto (to : string) (d : detail) : detail := Detail (zd_tab d) (zd_records d) (zd_form d) (or_null to).

(** A confirmation, which is shown over all pages. *)
Inductive ask := AskZone (z : zone) | AskRecord (zoneId : string) (r : dns_record).

Record zpage := ZPage {
  zp_here : bool;
  zp_detail : detail;
  zp_asked : option ask;
  zp_flying : list (nat * inflight detail);
  zp_exporting : list zone;
}.

Definition zpage_init : zpage := ZPage true detail_init None [] [].

Inductive detail_event :=
| Renders | ChooseTab (t : string) | ClickDeleteZone | AddRecord | EditRecordOf (n : nat) | DeleteRecordOf (n : nat)
| InNew (e : form_event record_form) | InRecord (e : form_event record_form)
| TypeSettings (g : zone_form → zone_form) | SaveSettings
| ConfirmAsk | CancelAsk | ClickExport | ExportAnswered (n : nat) (a : exc response)
| Answered (n : nat) (o : exc (option json)) | Leave.

Inductive detail_out := Page (o : out) | Fetched (r : request) | Did (x : export_effect).

(** The answers of [useZone] and [useRecords]. *)
Definition env : Type := result zone * result (list dns_record).

(** The zone on screen, and whether its records tab is. *)
Definition zone_shown (en : env) : option zone := if q_loading en.1 then None else q_data en.1.
Definition has_records (z : zone) : bool := negb (bool_decide (z_zone_type z = "passthrough")).

(** What a render does to the state: without a zone all is unmounted; the records tab
    goes with the type of the zone, its modals while the records load; the settings
    form starts with the zone. *)
Definition rendered (en : env) (d : detail) : detail :=
  match zone_shown en with
  | None => detail_init
  | Some z =>
      let t := zd_records d in
      Detail (zd_tab d)
        (if has_records z then
           if q_loading en.2
           then RecordsTab ((λ _, record_initial None) <$> showModal t)
                  ((λ '(r, _), (r, record_initial (Some r))) <$> editRecord t)
           else t
         else records_init)
        (Some match zd_form d with Some f => settings_rerender f z | None => settings_mount z end) (zd_goto d)
  end.

(** The hooks: 0 deletes the zone, 1 and 2 belong to the two record modals, 3 deletes
    records, 4 saves the settings. *)
Definition heard_hooks (en : env) : nat → bool :=
  match zone_shown en with
  | None => λ h, bool_decide (h = 0)
  | Some z => λ h, if has_records z then if q_loading en.2 then bool_decide (h ∉ [1; 2]) else true
                   else bool_decide (h ∉ [1; 2; 3])
  end.

(** A modal covers what is under it; those for records are not there while they load. *)
Definition covered (loaded : bool) (p : zpage) : bool :=
  bool_decide (is_Some (zp_asked p)) ||
  loaded && (bool_decide (is_Some (showModal (zd_records (zp_detail p)))) ||
             bool_decide (is_Some (editRecord (zd_records (zp_detail p))))).

Definition with_detail (d : detail) (p : zpage) : zpage :=
  ZPage (zp_here p) d (zp_asked p) (zp_flying p) (zp_exporting p).

Definition with_asked (a : option ask) (p : zpage) : zpage :=
  ZPage (zp_here p) (zp_detail p) a (zp_flying p) (zp_exporting p).

(** A submit button: off while its hook is busy. *)
Definition press (h : nat) (i : inflight detail) (p : zpage) : zpage * list detail_out :=
  if busy h (zp_flying p) then (p, [])
  else (ZPage (zp_here p) (zp_detail p) (zp_asked p) (launch h i (zp_flying p)) (zp_exporting p), [Page (Sent (f_call i))]).

Definition on_records : inflight records_tab → inflight detail := inflight_on zd_records set_records.

(** [deleteZone.mutate(zone.id, ...)]; success goes to the list. *)
Definition delete_zone_here (z : zone) : inflight detail :=
  inflight_on (λ d, default "" (zd_goto d)) set_goto (delete_this_zone z).

(** The settings are saved; the form stays. *)
Definition save_here (z : zone) (v : zone_form) : inflight detail :=
  Inflight (f_call (settings_send z v)) (f_cache (settings_send z v)) (λ o d, ((f_settled (settings_send z v) o v).1, d)).

Definition delete_record_here (zoneId : string) (r : dns_record) : inflight detail :=
  on_records (delete_record zoneId r).

(** ** Steps *)

(** The form of a modal: [close] unmounts it with its hook. *)
Definition on_record (h : nat) (edit : (record_form → record_form) → records_tab → records_tab)
    (submit : records_tab → option (inflight records_tab)) (close : records_tab → records_tab)
    (e : form_event record_form) (p : zpage) : zpage * list detail_out :=
  let t := zd_records (zp_detail p) in
  match e with
  | Change g => (with_detail (set_records (edit g t) (zp_detail p)) p, [])
  | Submit => from_option (λ i, press h (on_records i) p) (p, []) (submit t)
  | Close =>
      (ZPage (zp_here p) (set_records (close t) (zp_detail p)) (zp_asked p) (unheard h (zp_flying p)) (zp_exporting p), [])
  end.

Definition edit_new (g : record_form → record_form) (t : records_tab) : records_tab :=
  RecordsTab (g <$> showModal t) (editRecord t).
Definition edit_old (g : record_form → record_form) (t : records_tab) : records_tab :=
  RecordsTab (showModal t) ((λ '(r, v), (r, g v)) <$> editRecord t).

(** The page is left: nothing of it is heard any more; a confirmation stays on screen,
    and an export goes on. *)
Definition leave (p : zpage) : zpage := ZPage false detail_init (zp_asked p) [] (zp_exporting p).

(** The panel with the component that has the hook. *)
Definition panel_of (h : nat) : option string :=
  if decide (h = 0) then None else if decide (h = 4) then Some "settings" else Some "records".

Section steps.
Variables (apiUrl : string → string) (u : option AuthUser).
(** Is the answer for a hook in the panel of the other tab heard? *)
Variable hears_hidden : bool.

Definition canWrite : bool := hasRole u [Operator].

(** A step on a page that shows the zone [z], with the answer for its records. *)
Definition zone_step (z : zone) (rr : result (list dns_record)) (p : zpage) (e : detail_event) : zpage * list detail_out :=
  let d := zp_detail p in
  let loaded := negb (q_loading rr) in
  let rows := default [] (q_data rr) in
  let free := negb (covered loaded p) in
  let on_tab := free && has_records z && loaded && bool_decide (zd_tab d = "records") in
  let on_settings := free && bool_decide (zd_tab d = "settings") in
  match e with
  | ChooseTab t => (if free then with_detail (set_tab t d) p else p, [])
  | ClickDeleteZone => (if free && canWrite then with_asked (Some (AskZone z)) p else p, [])
  | AddRecord => (if on_tab && canWrite then with_detail (set_records (show_modal (zd_records d)) d) p else p, [])
  | EditRecordOf n =>
      match rows !! n with
      | Some r => (if on_tab && canWrite then with_detail (set_records (edit_record r (zd_records d)) d) p else p, [])
      | None => (p, [])
      end
  | DeleteRecordOf n =>
      match rows !! n with
      | Some r => (if on_tab && canWrite then with_asked (Some (AskRecord (z_id z) r)) p else p, [])
      | None => (p, [])
      end
  | InNew e => if has_records z && loaded then on_record 1 edit_new (submit_new (z_id z)) close_new e p else (p, [])
  | InRecord e => if has_records z && loaded then on_record 2 edit_old (submit_edit (z_id z)) close_edit e p else (p, [])
  | TypeSettings g => (if on_settings && canWrite then with_detail (set_form (setValues g <$> zd_form d) d) p else p, [])
  | SaveSettings =>
      if on_settings && canWrite then
        match zd_form d with Some f => press 4 (save_here z (form_values f)) p | None => (p, []) end
      else (p, [])
  | ClickExport =>
      if on_tab
      then (ZPage (zp_here p) d (zp_asked p) (zp_flying p) (zp_exporting p ++ [z]), [Fetched (export_request apiUrl z)])
      else (p, [])
  | _ => (p, [])
  end.

(** The button of the confirmation. *)
Definition confirmed (p : zpage) : zpage * list detail_out :=
  let go h i := (ZPage (zp_here p) (zp_detail p) None (if zp_here p then launch h i (zp_flying p) else zp_flying p)
                   (zp_exporting p), [Page (Sent (f_call i))]) in
  match zp_asked p with
  | Some (AskZone z) => go 0 (delete_zone_here z)
  | Some (AskRecord zoneId r) => go 3 (delete_record_here zoneId r)
  | None => (p, [])
  end.

(** An answer: its notifications, and the way to where [navigate] was asked to go. *)
Definition answered (n : nat) (o : exc (option json)) (p : zpage) : zpage * list detail_out :=
  match zp_flying p !! n with
  | Some (h, i) =>
      let rest d := ZPage (zp_here p) d (zp_asked p) (delete n (zp_flying p)) (zp_exporting p) in
      if hears_hidden || from_option (λ t, bool_decide (t = zd_tab (zp_detail p))) true (panel_of h) then
        let '(notes, d) := f_settled i o (zp_detail p) in
        let told := Page ∘ Told <$> notes in
        match zd_goto d with
        | Some to => (leave (rest d), told ++ [Page (Went to)])
        | None => (rest d, told)
        end
      else (rest (zp_detail p), [])
  | None => (p, [])
  end.

Definition render_page (en : env) (p : zpage) : zpage :=
  if zp_here p
  then ZPage true (rendered en (zp_detail p)) (zp_asked p) (filter (λ x, heard_hooks en x.1 = true) (zp_flying p)) (zp_exporting p)
  else p.

Definition detail_step (p0 : zpage) (x : env * detail_event) : zpage * list detail_out :=
  let '(en, e) := x in
  let p := render_page en p0 in
  match e with
  | ConfirmAsk => confirmed p
  | CancelAsk => (with_asked None p, [])
  | ExportAnswered n a =>
      match zp_exporting p !! n with
      | Some z => (ZPage (zp_here p) (zp_detail p) (zp_asked p) (zp_flying p) (delete n (zp_exporting p)), Did <$> handleExport z a)
      | None => (p, [])
      end
  | Answered n o => answered n o p
  | Leave => (leave p, [])
  | _ =>
      if zp_here p then
        match zone_shown en with
        | Some z => zone_step z en.2 p e
        | None => (p, [])
        end
      else (p, [])
  end.

Fixpoint detail_run (p : zpage) (script : list (env * detail_event)) : zpage * list detail_out :=
  match script with
  | [] => (p, [])
  | x :: r => let '(p1, o1) := detail_step p x in let '(p2, o2) := detail_run p1 r in (p2, o1 ++ o2)
  end.

(** ** What every script keeps *)

Section keeps.
Variables (full : list (env * detail_event)) (zid : string).

Definition zone_seen (z : zone) : Prop := ∃ en e, (en, e) ∈ full ∧ zone_shown en = Some z.
Definition record_seen (r : dns_record) : Prop :=
  ∃ en e z, (en, e) ∈ full ∧ zone_shown en = Some z ∧ has_records z = true ∧ q_loading en.2 = false ∧
    r ∈ default [] (q_data en.2).

Definition record_valid (v : record_form) : Prop := Forall (λ e, e = None) (record_validate v).

(** The requests about the zone of the page. *)
Inductive zone_request : call → Prop :=
| req_create v : record_valid v → zone_request (mutationFn (useCreateRecord zid) (record_body v))
| req_update r v : record_seen r → record_valid v → zone_request (mutationFn (useUpdateRecord zid) (r_id r, record_body v))
| req_delete r : record_seen r → zone_request (mutationFn (useDeleteRecord zid) (r_id r))
| req_settings v : zone_request (mutationFn useUpdateZone (zid, zone_update_body v))
| req_zone : zone_request (mutationFn useDeleteZone zid).

Definition detail_inv (d : detail) : Prop :=
  (is_Some (showModal (zd_records d)) ∨ is_Some (editRecord (zd_records d)) → canWrite = true) ∧
  (∀ r v, editRecord (zd_records d) = Some (r, v) → record_seen r) ∧ zd_goto d = None.

Definition settles (x : nat * inflight detail) : Prop :=
  ∀ o d, detail_inv d →
    detail_inv (f_settled x.2 o d).2 ∨ (zd_goto (f_settled x.2 o d).2 = Some "/zones" ∧ canWrite = true).

Definition ask_ok (a : ask) : Prop :=
  canWrite = true ∧ match a with AskZone z => z_id z = zid | AskRecord zoneId r => zoneId = zid ∧ record_seen r end.

Definition page_inv (p : zpage) : Prop :=
  detail_inv (zp_detail p) ∧ (∀ a, zp_asked p = Some a → ask_ok a) ∧ Forall settles (zp_flying p) ∧
  Forall (λ z, zone_seen z) (zp_exporting p).

Definition page_out_ok (o : detail_out) : Prop :=
  match o with
  | Page (Sent c) => canWrite = true ∧ zone_request c
  | Page (Went to) => to = "/zones" ∧ canWrite = true
  | Page (Told _) => True
  | Fetched q => ∃ z, zone_seen z ∧ has_records z = true ∧ q = export_request apiUrl z
  | Did x => ∃ z a, zone_seen z ∧ x ∈ handleExport z a
  end.

Hypothesis same_zone : ∀ z, zone_seen z → z_id z = zid.

Definition ok_step (r : zpage * list detail_out) : Prop := page_inv r.1 ∧ Forall page_out_ok r.2.

Lemma detail_init_inv : detail_inv detail_init.
Proof. split_and!; [|done|done]. cbn. by intros [[? ?]|[? ?]]. Qed.

Lemma rendered_inv en d : detail_inv d → detail_inv (rendered en d).
Proof.
  intros (H1 & H2 & H3). unfold rendered. destruct (zone_shown en) as [z|]; [|apply detail_init_inv].
  destruct (has_records z); [destruct (q_loading en.2)|]; split_and!; cbn; try done.
  - intros Ho. apply H1. by destruct Ho as [[? ?%fmap_Some]|[? ?%fmap_Some]]; naive_solver.
  - intros r v. destruct (editRecord (zd_records d)) as [[r' v']|] eqn:E; [|done]. cbn. intros [= <- <-]. by eapply H2.
  - by intros [[? ?]|[? ?]].
Qed.

Lemma render_page_inv en p : page_inv p → page_inv (render_page en p).
Proof.
  intros (H1 & H2 & H3 & H4). unfold render_page. destruct (zp_here p); [|by split_and!].
  split_and!; cbn; [by apply rendered_inv|done| |done].
  rewrite Forall_forall in *. intros x [_ Hx]%list_elem_of_filter. by apply H3.
Qed.

Lemma idle_ok p : page_inv p → ok_step (p, []).
Proof. by split; [|constructor]. Qed.

Lemma with_detail_inv d p : page_inv p → detail_inv d → page_inv (with_detail d p).
Proof. intros (H1 & H2 & H3 & H4) Hd. by split_and!. Qed.

Lemma with_asked_inv a p : page_inv p → (∀ x, a = Some x → ask_ok x) → page_inv (with_asked a p).
Proof. intros (H1 & H2 & H3 & H4) Ha. by split_and!. Qed.

Lemma launch_settles h i fl : settles (h, i) → Forall settles fl → Forall settles (launch h i fl).
Proof.
  intros Hi Hf. apply Forall_app_2; [|by constructor]. rewrite Forall_forall in *.
  intros x [_ Hx]%list_elem_of_filter. by apply Hf.
Qed.

Lemma press_ok h i p :
  page_inv p → canWrite = true → zone_request (f_call i) → settles (h, i) → ok_step (press h i p).
Proof.
  intros Hp Hc Hr Hi. unfold press. destruct (busy h (zp_flying p)); [by apply idle_ok|].
  destruct Hp as (H1 & H2 & H3 & H4). split; [|by repeat constructor]. split_and!; cbn; try done. by apply launch_settles.
Qed.

(** An answer that closes a modal or leaves the tab. *)
Lemma records_settles h (i : inflight records_tab) :
  (∀ o t, (f_settled i o t).2 = t ∨ (f_settled i o t).2 = close_new t ∨ (f_settled i o t).2 = close_edit t) →
  settles (h, on_records i).
Proof.
  intros Hi o d (H1 & H2 & H3). left. cbn. specialize (Hi o (zd_records d)).
  destruct (f_settled i o (zd_records d)) as [notes t']. cbn in *. destruct Hi as [-> |[-> | ->]]; split_and!; cbn; try done.
  - intros [[? ?]|?]; [done|]. apply H1. by right.
  - intros [?|[? ?]]; [|done]. apply H1. by left.
Qed.

Lemma handleSubmit_settles h r v : settles (h, on_records (record_handleSubmit zid r v)).
Proof. apply records_settles. intros o t. destruct r, o; cbn; auto. Qed.

Lemma delete_record_settles h r : settles (h, delete_record_here zid r).
Proof. apply records_settles. intros o t. destruct o; cbn; auto. Qed.

Lemma save_here_settles h z v : settles (h, save_here z v).
Proof. intros o d Hd. by left. Qed.

Lemma delete_zone_settles h z : canWrite = true → settles (h, delete_zone_here z).
Proof.
  intros Hc o d (H1 & H2 & H3). destruct o as [a|e]; cbn; [by right|left]. split_and!; [done|done|]. cbn. by rewrite H3.
Qed.

Lemma record_event_ok h edit submit close e p :
  page_inv p →
  (∀ g, detail_inv (set_records (edit g (zd_records (zp_detail p))) (zp_detail p))) →
  detail_inv (set_records (close (zd_records (zp_detail p))) (zp_detail p)) →
  (∀ i, submit (zd_records (zp_detail p)) = Some i →
     canWrite = true ∧ zone_request (f_call i) ∧ settles (h, on_records i)) →
  ok_step (on_record h edit submit close e p).
Proof.
  intros Hp He Hc Hs. destruct e as [g| |]; cbn.
  - apply idle_ok. by apply with_detail_inv.
  - destruct (submit _) as [i|]; [|by apply idle_ok]. destruct (Hs i eq_refl) as (H1 & H2 & H3).
    by apply press_ok.
  - apply idle_ok. destruct Hp as (H1 & H2 & H3 & H4). split_and!; cbn; try done.
    rewrite Forall_forall in *. intros x [_ Hx]%list_elem_of_filter. by apply H3.
Qed.

Lemma new_event_ok e p : page_inv p → ok_step (on_record 1 edit_new (submit_new zid) close_new e p).
Proof.
  intros Hp. pose proof Hp as ((H1 & H2 & H3) & _). apply record_event_ok; [done|..].
  - intros g. split_and!; cbn; [|done|done]. intros [Ho|Ho]; apply H1; [left|by right].
    by destruct (showModal (zd_records (zp_detail p))); destruct Ho.
  - split_and!; cbn; [|done|done]. intros [[? ?]|Ho]; [done|]. apply H1. by right.
  - intros i. unfold submit_new. destruct (showModal (zd_records (zp_detail p))) as [v|] eqn:E; [|done]. cbn.
    intros [Hv ->]%onSubmit_Some. split_and!; [apply H1; left; by eexists|by constructor|apply handleSubmit_settles].
Qed.

Lemma old_event_ok e p : page_inv p → ok_step (on_record 2 edit_old (submit_edit zid) close_edit e p).
Proof.
  intros Hp. pose proof Hp as ((H1 & H2 & H3) & _). apply record_event_ok; [done|..].
  - intros g. destruct (editRecord (zd_records (zp_detail p))) as [[r v]|] eqn:E; unfold edit_old; rewrite E; cbn.
    + split_and!; cbn; [|intros ? ? [= <- <-]; by eapply H2|done]. intros _. apply H1. right. by eexists.
    + split_and!; cbn; [|done|done]. intros [Ho|[? ?]]; [|done]. apply H1. by left.
  - split_and!; cbn; [|done|done]. intros [Ho|[? ?]]; [|done]. apply H1. by left.
  - intros i. unfold submit_edit. destruct (editRecord (zd_records (zp_detail p))) as [[r v]|] eqn:E; [|done]. cbn.
    intros [Hv ->]%onSubmit_Some.
    split_and!; [apply H1; right; by eexists|constructor; [by eapply H2|done]|apply handleSubmit_settles].
Qed.

Lemma zone_step_ok en e z p :
  (en, e) ∈ full → zone_shown en = Some z → page_inv p → ok_step (zone_step z en.2 p e).
Proof.
  intros Hin Hz Hp. assert (zone_seen z) as Hseen by (by exists en, e). pose proof (same_zone _ Hseen) as Hid.
  pose proof Hp as ((H1 & H2 & H3) & Ha & Hf & Hx).
  assert (∀ n r, default [] (q_data en.2) !! n = Some r → has_records z = true → q_loading en.2 = false → record_seen r) as Hrow.
  { intros n r Hr Hh Hl. exists en, e, z. split_and!; try done. by eapply list_elem_of_lookup_2. }
  unfold zone_step. rewrite Hid. destruct e as [|t| | |n|n|e|e|g| | | | |n a|n o|]; try (by apply idle_ok).
  - apply idle_ok. by destruct (negb _).
  - apply idle_ok. destruct (negb _ && canWrite) eqn:E; [|done]. bools. apply with_asked_inv; [done|].
    intros ? [= <-]. by split.
  - apply idle_ok. destruct (_ && canWrite) eqn:E; [|done]. bools. apply with_detail_inv; [done|]. by split_and!.
  - destruct (default [] (q_data en.2) !! n) as [r|] eqn:Er; [|by apply idle_ok]. apply idle_ok.
    destruct (_ && canWrite) eqn:E; [|done]. bools. apply with_detail_inv; [done|]. split_and!; cbn; [done| |done].
    intros ? ? [= <- <-]. by eapply Hrow.
  - destruct (default [] (q_data en.2) !! n) as [r|] eqn:Er; [|by apply idle_ok]. apply idle_ok.
    destruct (_ && canWrite) eqn:E; [|done]. bools. apply with_asked_inv; [done|]. intros ? [= <-].
    split_and!; [done..|]. by eapply Hrow.
  - destruct (has_records z && _); [by apply new_event_ok|by apply idle_ok].
  - destruct (has_records z && _); [by apply old_event_ok|by apply idle_ok].
  - apply idle_ok. destruct (_ && canWrite); [|done]. by apply with_detail_inv.
  - destruct (_ && canWrite) eqn:E; [|by apply idle_ok]. bools. destruct (zd_form (zp_detail p)) as [f|]; [|by apply idle_ok].
    apply press_ok; [done|done| |apply save_here_settles]. cbn. rewrite Hid. constructor.
  - destruct (_ && bool_decide (zd_tab (zp_detail p) = "records")) eqn:E; [|by apply idle_ok]. bools. split.
    + split_and!; cbn; try done. apply Forall_app_2; [done|by constructor].
    + constructor; [|constructor]. by exists z.
Qed.

Lemma confirmed_ok p : page_inv p → ok_step (confirmed p).
Proof.
  intros Hp. pose proof Hp as (Hd & Ha & Hf & Hx). unfold confirmed.
  destruct (zp_asked p) as [[z|zoneId r]|] eqn:E; [..|by apply idle_ok]; destruct (Ha _ eq_refl) as [Hc Hk].
  - split; [|constructor; [split; [done|]; cbn; rewrite Hk; constructor|constructor]]. split_and!; cbn; try done.
    destruct (zp_here p); [|done]. apply launch_settles; [by apply delete_zone_settles|done].
  - destruct Hk as [-> Hr]. split; [|constructor; [split; [done|by constructor]|constructor]]. split_and!; cbn; try done.
    destruct (zp_here p); [|done]. apply launch_settles; [apply delete_record_settles|done].
Qed.

Lemma answered_ok n o p : page_inv p → ok_step (answered n o p).
Proof.
  intros Hp. pose proof Hp as (Hd & Ha & Hf & Hx). unfold answered.
  destruct (zp_flying p !! n) as [[h i]|] eqn:E; [|by apply idle_ok].
  assert (Forall settles (delete n (zp_flying p))) as Hf'.
  { rewrite Forall_forall in *. intros x Hx'. apply Hf. eapply sublist_subseteq; [apply sublist_delete|exact Hx']. }
  destruct (_ || _); [|apply idle_ok; by split_and!].
  pose proof (Forall_lookup_1 _ _ _ _ Hf E o _ Hd) as Hs. cbn in Hs.
  destruct (f_settled i o (zp_detail p)) as [notes d]. cbn in Hs.
  assert (Forall page_out_ok (Page ∘ Told <$> notes)) as Ht by (by apply Forall_fmap, Forall_true).
  destruct Hs as [Hd'|[Hg Hc]].
  - pose proof Hd' as (_ & _ & ->). by split; [split_and!|].
  - rewrite Hg. split; [|apply Forall_app_2; [done|by repeat constructor]].
    split_and!; cbn; [apply detail_init_inv|done|constructor|done].
Qed.

Lemma detail_step_ok p x : x ∈ full → page_inv p → ok_step (detail_step p x).
Proof.
  destruct x as [en e]. intros Hin Hp%(render_page_inv en). unfold detail_step. pose proof Hp as (Hd & Ha & Hf & Hx).
  assert (ok_step (if zp_here (render_page en p) then
      match zone_shown en with Some z => zone_step z en.2 (render_page en p) e | None => (render_page en p, []) end
    else (render_page en p, []))) as Hz.
  { destruct (zp_here _); [|by apply idle_ok]. destruct (zone_shown en) as [z|] eqn:Ez; [|by apply idle_ok].
    by apply zone_step_ok. }
  destruct e as [|t| | |n|n|e|e|g| | | | |n a|n o|]; try exact Hz.
  - by apply confirmed_ok.
  - apply idle_ok. by apply with_asked_inv.
  - destruct (zp_exporting (render_page en p) !! n) as [z|] eqn:Ez; [|by apply idle_ok]. split.
    + split_and!; cbn; try done. rewrite Forall_forall in *. intros y Hy. apply Hx.
      eapply sublist_subseteq; [apply sublist_delete|exact Hy].
    + apply Forall_fmap, Forall_forall. intros y Hy. exists z, a. split; [|done]. by eapply Forall_lookup_1 in Hx.
  - by apply answered_ok.
  - apply idle_ok. split_and!; cbn; [apply detail_init_inv|done|constructor|done].
Qed.

Lemma detail_run_ok script p : script ⊆ full → page_inv p → ok_step (detail_run p script).
Proof.
  revert p. induction script as [|x r IH]; intros p Hsub Hp; cbn; [by apply idle_ok|].
  destruct (detail_step_ok p x) as [H1 H2]; [set_solver|done|]. destruct (detail_step p x) as [p1 o1]. cbn in *.
  destruct (IH p1 ltac:(set_solver) H1) as [H3 H4]. destruct (detail_run p1 r) as [p2 o2]. cbn in *.
  split; [done|]. by apply Forall_app_2.
Qed.
End keeps.
End steps.
End page.

(** ** Properties *)

Section properties.
Context `{UseForm zone_form} (apiUrl : string → string) (u : option AuthUser) (hears_hidden : bool).

(** C8: on the page of a zone, over every script of clicks, typing, answers and
    refetches, also when the page is left with a request in flight or a confirmation
    open: nothing is changed below the operator role; every request is about the zone
    of the page, a record is created or updated from a valid form, and only a record
    that was listed is updated or deleted; the page goes to the list of zones and
    nowhere else on its own; what is exported is a zone that was shown with records,
    and a download or a message follows an answer only for such a zone.  Without the
    role no field of the settings can be used. *)
Theorem zone_detail_gate (zid : string) (script : list (env * detail_event)) :
  (∀ z, zone_seen script z → z_id z = zid) →
  let outs := (detail_run apiUrl u hears_hidden zpage_init script).2 in
  (∀ c, Page (Sent c) ∈ outs → hasRole u [Operator] = true ∧ zone_request script zid c) ∧
  (∀ to, Page (Went to) ∈ outs → to = "/zones" ∧ hasRole u [Operator] = true) ∧
  (∀ q, Fetched q ∈ outs → ∃ z, zone_seen script z ∧ z_zone_type z ≠ "passthrough" ∧ q = export_request apiUrl z) ∧
  (∀ x, Did x ∈ outs → ∃ z a, zone_seen script z ∧ x ∈ handleExport z a) ∧
  (hasRole u [Operator] = false → ∀ v, Forall (λ f, f.2 = false) (settings_fields (hasRole u [Operator]) v)).
Proof.
  intros Hid outs. destruct (detail_run_ok apiUrl u hears_hidden script zid Hid script zpage_init) as [_ Ho]; [done| |].
  { split_and!; cbn; [apply detail_init_inv|done|constructor|constructor]. }
  fold outs in Ho. rewrite Forall_forall in Ho. split_and!.
  - intros c Hc. exact (Ho _ Hc).
  - intros to Hto. exact (Ho _ Hto).
  - intros q Hq. destruct (Ho _ Hq) as (z & Hz & Hr & ->). exists z. split_and!; [done| |done].
    unfold has_records in Hr. bools. done.
  - intros x Hx. exact (Ho _ Hx).
  - intros -> v. unfold settings_fields. case_decide; by repeat constructor.
Qed.

(** The confirmation stays when the page is left: it still deletes the zone, and
    nothing is said of the outcome. *)
Lemma confirm_after_leaving (en en' : env) (z : zone) (o : exc (option json)) :
  zone_shown en = Some z → hasRole u [Operator] = true →
  (detail_run apiUrl u hears_hidden zpage_init [(en, ClickDeleteZone); (en, Leave); (en', ConfirmAsk); (en', Answered 0 o)]).2 =
    [Page (Sent (mutationFn useDeleteZone (z_id z)))].
Proof.
  intros Hz Hr. assert (covered (negb (q_loading en.2)) (render_page en zpage_init) = false) as Hc.
  { unfold covered, render_page, rendered. cbn. rewrite Hz. cbn. by destruct (has_records z), (q_loading en.2). }
  cbn -[render_page covered]. replace (zp_here (render_page en zpage_init)) with true by done. rewrite Hz.
  unfold zone_step, canWrite. rewrite Hc, Hr. done.
Qed.

(** The tables of zone types of the two pages agree. *)
Lemma typeMeta_agree t : detail_typeMeta t = ((typeMeta t).1.1, (typeMeta t).1.2).
Proof.
  unfold detail_typeMeta, typeMeta, DETAIL_TYPE_META, ZONE_TYPE_META. cbn. by repeat case_bool_decide.
Qed.
End properties.

(** ** Examples *)

Definition shown0 : env := (Result (Some zone0) false None, Result (Some [record0]) false None).
Definition typed0 : record_form := RecordForm "mail" (Some "A") "10.0.0.2" NumNull NumNull true.
Definition script0 : list (env * detail_event) :=
  [(shown0, AddRecord); (shown0, InNew (Change (λ _, typed0))); (shown0, InNew Submit); (shown0, InNew Submit)].

Lemma zone_detail_gate_witness :
  (detail_run (H := pair_form zone_form) id (signed_in Operator) true zpage_init script0).2 =
    [Page (Sent (mutationFn (useCreateRecord "z1") (record_body typed0)))] ∧
  zone_request script0 "z1" (mutationFn (useCreateRecord "z1") (record_body typed0)).
Proof.
  split; [reflexivity|].
  assert (∀ z, zone_seen script0 z → z_id z = "z1") as Hid.
  { intros z (en & e & Hin & Hz). unfold script0 in Hin. rewrite !elem_of_cons in Hin.
    destruct Hin as [E|[E|[E|[E|E]]]]; [..|by apply not_elem_of_nil in E]; injection E as -> ->; by injection Hz as <-. }
  apply (proj1 (zone_detail_gate (H := pair_form zone_form) id (signed_in Operator) true "z1" script0 Hid)).
  left.
Defined.
