(* ===== verification/ZoneForms.v ===== *)
(** * The forms of the DNS zones pages

    The controls of the forms that create a zone ([AddZoneModal]) and edit one
    ([EditZoneModal] of [pages/ZonesPage.tsx], [SettingsTab] of
    [pages/ZoneDetailPage.tsx]) and of the form of a record ([RecordModal]): what
    they can and cannot be filled in with. *)

From S2P Require Import Prelude JsText Json Schema Forms Controls Zones ZonePages.

(** ** Controls *)

Definition ZONE_TYPE_OPTIONS : list string := ["local"; "forward"; "passthrough"].

Definition add_zone_controls (tenants : list string) (v : add_zone_form) : list (control add_zone_form) :=
  [ Select "Tenant" tenants (λ x v, v <| az_tenant_id := x |>);
    TextInput "Zone name" (λ x v, v <| az_name := x |>);
    Select "Zone type" ZONE_TYPE_OPTIONS (λ x v, v <| az_zone_type := x |>) ] ++
  (if decide (az_zone_type v = Some "forward")
   then [TextInput "Forwarder address" (λ x v, v <| az_forwarder := x |>)] else []) ++
  [ TextInput "Description" (λ x v, v <| az_description := x |>);
    NumberInput "Default TTL (seconds)" (Some 0%Z) (Some 86400%Z) (λ x v, v <| az_ttl_default := x |>);
    Switch "Enable zone" (λ x v, v <| az_enabled := x |>) ].

Definition edit_zone_controls (v : zone_form) : list (control zone_form) :=
  [ Disabled "Zone name"; Select "Zone type" ZONE_TYPE_OPTIONS (λ x v, v <| zf_zone_type := x |>) ] ++
  (if decide (zf_zone_type v = Some "forward")
   then [TextInput "Forwarder address" (λ x v, v <| zf_forwarder := x |>)] else []) ++
  [ TextInput "Description" (λ x v, v <| zf_description := x |>);
    NumberInput "Default TTL (seconds)" (Some 0%Z) (Some 86400%Z) (λ x v, v <| zf_ttl_default := x |>);
    Switch "Enable zone" (λ x v, v <| zf_enabled := x |>) ].

Definition settings_controls (canWrite : bool) (v : zone_form) : list (control zone_form) :=
  [ Disabled "Zone name";
    disabled_if (negb canWrite) (Select "Zone type" ZONE_TYPE_OPTIONS (λ x v, v <| zf_zone_type := x |>)) ] ++
  (if decide (zf_zone_type v = Some "forward")
   then [disabled_if (negb canWrite) (TextInput "Forwarder address" (λ x v, v <| zf_forwarder := x |>))] else []) ++
  [ disabled_if (negb canWrite) (TextInput "Description" (λ x v, v <| zf_description := x |>));
    disabled_if (negb canWrite)
      (NumberInput "Default TTL (seconds)" (Some 0%Z) (Some 86400%Z) (λ x v, v <| zf_ttl_default := x |>));
    disabled_if (negb canWrite) (Switch "Zone enabled" (λ x v, v <| zf_enabled := x |>)) ].

Definition record_controls (v : record_form) : list (control record_form) :=
  [ TextInput "Name" (λ x v, v <| rf_name := x |>);
    Select "Type" RECORD_TYPE_OPTIONS (λ x v, v <| rf_record_type := x |>);
    TextInput "Data" (λ x v, v <| rf_data := x |>) ] ++
  (if showPriority v
   then [NumberInput "Priority" (Some 0%Z) (Some 65535%Z) (λ x v, v <| rf_priority := x |>)] else []) ++
  [ NumberInput "TTL (seconds)" (Some 0%Z) None (λ x v, v <| rf_ttl := x |>);
    Switch "Enabled" (λ x v, v <| rf_enabled := x |>) ].

(** The placeholder of the data of a record. *)
Definition data_placeholder (v : record_form) : string :=
  match rf_record_type v with
  | Some "A" => "10.0.0.1"
  | Some "AAAA" => "2001:db8::1"
  | Some "CNAME" => "target.example.com."
  | Some "MX" => "mail.corp.local."
  | Some "TXT" => "v=spf1 include:example.com ~all"
  | _ => "value"
  end.

(** ** Entering a zone or a record *)

(** The forwarder is set while the type is forward. *)
Definition zone_script (enable : string) (z : zone) : list (string * input) :=
  [ ("Zone type", Chosen "forward"); ("Forwarder address", Typed (default "" (z_forwarder z)));
    ("Description", Typed (z_description z)); ("Default TTL (seconds)", Entered (z_ttl_default z));
    (enable, Switched (z_enabled z)); ("Zone type", Chosen (z_zone_type z)) ].

Definition add_zone_script (tenant : string) (z : zone) : list (string * input) :=
  [("Tenant", Chosen tenant); ("Zone name", Typed (z_name z))] ++ zone_script "Enable zone" z.

(** The priority is set for the types that have one. *)
Definition record_script (r : dns_record) : list (string * input) :=
  [("Name", Typed (r_name r)); ("Data", Typed (r_data r)); ("Enabled", Switched (r_enabled r))] ++
  from_option (λ n, [("TTL (seconds)", Entered n)]) [] (r_ttl r) ++
  from_option (λ n, [("Type", Chosen "MX"); ("Priority", Entered n)]) [] (r_priority r) ++
  [("Type", Chosen (r_record_type r))].

Definition zone_enterable (z : zone) : Prop :=
  z_zone_type z ∈ ZONE_TYPE_OPTIONS ∧ (0 ≤ z_ttl_default z ≤ 86400)%Z.

Definition record_enterable (r : dns_record) : Prop :=
  r_record_type r ∈ RECORD_TYPE_OPTIONS ∧
  (∀ n, r_ttl r = Some n → 0 ≤ n)%Z ∧ (∀ n, r_priority r = Some n → 0 ≤ n ≤ 65535)%Z.

Lemma add_zone_script_fills tenants t z :
  t ∈ tenants → zone_enterable z →
  fill (add_zone_controls tenants) (add_zone_script t z) add_zone_initial =
    Some (AddZoneForm (Some t) (z_name z) (Some (z_zone_type z)) (z_description z) (z_enabled z)
            (Num (z_ttl_default z)) (default "" (z_forwarder z))).
Proof. intros Ht [Hz Hn]. unfold add_zone_script, zone_script. cbn [app]. fill_in. Qed.

(** Whatever the form holds. *)
Lemma edit_zone_script_fills z v :
  zone_enterable z → fill edit_zone_controls (zone_script "Enable zone" z) v = Some (edit_zone_initial (Some z)).
Proof. intros [Hz Hn]. unfold zone_script. fill_in. Qed.

Lemma settings_script_fills z v :
  zone_enterable z → fill (settings_controls true) (zone_script "Zone enabled" z) v = Some (settings_initial z).
Proof. intros [Hz Hn]. unfold zone_script. fill_in. Qed.

Lemma record_script_fills r :
  record_enterable r → fill record_controls (record_script r) (record_initial None) = Some (record_initial (Some r)).
Proof.
  destruct r as [id name ty data ttl prio enb]. intros (Hty & Ht & Hp). cbn [r_record_type r_ttl r_priority] in *.
  unfold record_script. cbn [r_ttl r_priority].
  destruct ttl as [n|]; [specialize (Ht n eq_refl)|clear Ht]; (destruct prio as [k|]; [specialize (Hp k eq_refl)|clear Hp]);
    cbn [from_option app]; fill_in.
Qed.

(** ** What the forms can hold *)

Definition add_zone_ok (tenants : list string) (v : add_zone_form) : Prop :=
  from_options (az_tenant_id v) ("" :: tenants) ∧ from_options (az_zone_type v) ZONE_TYPE_OPTIONS ∧
  az_ttl_default v ≠ NumNull.

Lemma add_zone_keeps tenants v :
  add_zone_ok tenants v → Forall (keeps any_input (add_zone_ok tenants) v) (add_zone_controls tenants v).
Proof.
  unfold add_zone_ok. intros (Ht & Hz & Hn). unfold add_zone_controls. each_control; cbn; split_and!; try done.
  destruct o as [t|]; [|by apply from_options_None]. apply from_options_Some. right. by apply from_options_Some.
Qed.

Lemma add_zone_filled tenants v : fillable (add_zone_controls tenants) add_zone_initial v → add_zone_ok tenants v.
Proof.
  apply fillable_keeps; [apply add_zone_keeps|]. split_and!; [by apply from_options_Some; left| |done].
  apply from_options_Some. by left.
Qed.

Lemma add_zone_bounds tenants l v :
  Forall (λ a, left_input a.2) l → fill (add_zone_controls tenants) l add_zone_initial = Some v →
  in_bounds (Some 0%Z) (Some 86400%Z) (az_ttl_default v).
Proof.
  intros Hl. eapply (fill_keeps _ left_input (λ v, in_bounds (Some 0%Z) (Some 86400%Z) (az_ttl_default v))); [|done|done].
  intros u Hu. unfold add_zone_controls. each_control; done.
Qed.

(** Without the permission nothing can be changed. *)
Lemma settings_read_only v w : fillable (settings_controls false) v w → w = v.
Proof.
  apply (fillable_keeps _ (λ u, u = v)); [|done]. intros u ->. unfold settings_controls. cbn [negb disabled_if].
  each_control.
Qed.

Definition ttl_given (v : record_form) : Prop := rf_ttl v ≠ NumNull.

Lemma ttl_keeps v : ttl_given v → Forall (keeps any_input ttl_given v) (record_controls v).
Proof. unfold ttl_given. intros Hv. unfold record_controls. each_control; done. Qed.

Definition record_type_ok (v : record_form) : Prop := from_options (rf_record_type v) RECORD_TYPE_OPTIONS.

Lemma record_type_keeps v : record_type_ok v → Forall (keeps any_input record_type_ok v) (record_controls v).
Proof. unfold record_type_ok. intros Hv. unfold record_controls. each_control; done. Qed.

(** ** Properties *)

(** A number being typed is sent as it is: the bounds of the input apply when it is
    left, and the form has no check of its own. *)
Lemma keyed_ttl_sent tenants t k :
  t ∈ tenants → t ≠ "" →
  let z := AddZoneForm (Some t) "corp.local" (Some "local") "" true (Num k) "" in
  fill (add_zone_controls tenants)
    [("Tenant", Chosen t); ("Zone name", Typed "corp.local"); ("Default TTL (seconds)", Keyed k)] add_zone_initial =
    Some z ∧
  add_zone_submit z = Some (add_zone_body z) ∧ conforms (TRef "ZoneCreate") (add_zone_body z) = true.
Proof.
  intros Ht Hne z. assert (add_zone_submit z = Some (add_zone_body z)) as Hs.
  { apply onSubmit_Some. split; [|done]. unfold add_zone_validate. cbn. unfold truthy.
    rewrite !bool_decide_eq_true_2 by done. repeat constructor. }
  split; [|split; [done|]].
  - eapply fill_step; [reflexivity|by apply operate_chosen|]. reflexivity.
  - by destruct (add_zone_accepted _ _ Hs) as (_ & _ & _ & _ & _ & ->).
Qed.

(** C32: what the zone forms send.  Whatever is filled in for a new zone, an accepted
    form names a tenant that was offered and one of the three types, and sends a
    [ZoneCreate] exactly when the TTL was not cleared.  When every number input was left
    before the form was submitted, the TTL is within 0 and 86400, or was cleared; a form
    that is submitted while its TTL is still being typed is accepted and sends whatever
    number was typed.  Without the permission to write, the settings of a zone stay as
    they are.  A new record is sent with one of the offered types, as a [RecordIn]
    exactly when a type is selected and no number it shows was cleared.  The TTL of a
    record that has one cannot be taken back: of all that can be filled in, what is a
    [RecordUpdate] has a number. *)
Theorem zone_forms_send (tenants : list string) (z : add_zone_form) (l : list (string * input)) (body : json)
    (v w : zone_form) (r : dns_record) (n : Z) (new old : record_form) :
  fill (add_zone_controls tenants) l add_zone_initial = Some z → add_zone_submit z = Some body →
  fillable (settings_controls false) v w →
  fillable record_controls (record_initial None) new →
  r_ttl r = Some n → fillable record_controls (record_initial (Some r)) old →
  (∃ t ty, az_tenant_id z = Some t ∧ t ∈ tenants ∧ az_zone_type z = Some ty ∧ ty ∈ ZONE_TYPE_OPTIONS) ∧
  conforms (TRef "ZoneCreate") body = not_cleared (az_ttl_default z) ∧
  (Forall (λ a, left_input a.2) l →
     az_ttl_default z = NumEmpty ∨ ∃ k, az_ttl_default z = Num k ∧ (0 ≤ k ≤ 86400)%Z) ∧
  (∀ t k, t ∈ tenants → t ≠ "" →
     ∃ l' z', fill (add_zone_controls tenants) l' add_zone_initial = Some z' ∧ az_ttl_default z' = Num k ∧
       add_zone_submit z' = Some (add_zone_body z') ∧ conforms (TRef "ZoneCreate") (add_zone_body z') = true) ∧
  w = v ∧
  (∀ ty, rf_record_type new = Some ty → ty ∈ RECORD_TYPE_OPTIONS) ∧
  conforms (TRef "RecordIn") (record_body new) =
    bool_decide (is_Some (rf_record_type new)) &&
    (not_cleared (rf_ttl new) && (negb (showPriority new) || not_cleared (rf_priority new))) ∧
  (conforms (TRef "RecordUpdate") (record_body old) = true → ∃ k, rf_ttl old = Num k).
Proof.
  intros Hz (-> & Ht & _ & Hty & _ & Hc)%add_zone_accepted Hvw Hnew Hr Hold.
  destruct (add_zone_filled tenants z) as (T1 & T2 & T3); [by exists l|].
  split_and!.
  - destruct (az_tenant_id z) as [t|]; [|done]. destruct (az_zone_type z) as [ty|]; [|done].
    apply from_options_Some in T1, T2. exists t, ty. split_and!; try done.
    apply elem_of_cons in T1 as [-> |]; done.
  - rewrite Hc. by destruct (az_ttl_default z).
  - intros Hl. pose proof (add_zone_bounds _ _ _ Hl Hz) as Hb. destruct (az_ttl_default z) as [| |k]; [done|by left|].
    right. by exists k.
  - intros t k Hin Hne. destruct (keyed_ttl_sent tenants t k Hin Hne) as (H1 & H2 & H3).
    eexists _, _. split; [exact H1|]. by split.
  - by apply settings_read_only.
  - intros ty Hy. apply (fillable_keeps _ _ _ _ record_type_keeps) in Hnew;
      [|apply from_options_Some; by left]. unfold record_type_ok in Hnew. rewrite Hy in Hnew.
    by apply from_options_Some.
  - rewrite (proj1 (record_conforms new)). by destruct (showPriority new).
  - rewrite (proj2 (record_conforms old)). apply (fillable_keeps _ _ _ _ ttl_keeps) in Hold;
      [|unfold ttl_given, record_initial; cbn; by rewrite Hr].
    unfold ttl_given in Hold. destruct (rf_ttl old) as [| |k]; [done..|]. by exists k.
Qed.

(** What the API holds of a zone, as the bodies that create and update it. *)
Definition zone_settings (z : zone) : list (string * json) :=
  [ ("zone_type", JStr (z_zone_type z)); ("description", JStr (z_description z)); ("enabled", JBool (z_enabled z));
    ("ttl_default", JInt (z_ttl_default z)); ("forwarder", str_json (z_forwarder z)) ].
Definition zone_json (tenant : string) (z : zone) : json :=
  JObj ([("tenant_id", JStr tenant); ("name", JStr (z_name z))] ++ zone_settings z).

(** A zone has a name, and a forwarder exactly when it forwards. *)
Definition zone_sound (z : zone) : Prop :=
  trim (z_name z) ≠ "" ∧
  match z_forwarder z with
  | Some f => z_zone_type z = "forward" ∧ trim f ≠ ""
  | None => z_zone_type z ≠ "forward"
  end.

Lemma zone_update_unchanged z v :
  zone_sound z → v = edit_zone_initial (Some z) → zone_update_body v = JObj (zone_settings z).
Proof.
  intros [_ Hf] ->. unfold zone_update_body, edit_zone_initial, zone_settings. cbn [zf_zone_type zf_forwarder].
  cbn -[str_json null_json]. destruct (z_forwarder z) as [f|].
  - destruct Hf as [-> Hf]. rewrite decide_True by done. cbn [default from_option].
    pose proof (null_json_default (Some f)) as E. cbn [default from_option] in E.
    by rewrite E by (intros [= ->]; done).
  - rewrite decide_False by congruence. done.
Qed.

Lemma add_zone_sends t z :
  t ≠ "" → z_zone_type z ≠ "" → zone_sound z →
  add_zone_submit (AddZoneForm (Some t) (z_name z) (Some (z_zone_type z)) (z_description z) (z_enabled z)
    (Num (z_ttl_default z)) (default "" (z_forwarder z))) = Some (zone_json t z).
Proof.
  intros Ht Hz [Hn Hf]. apply onSubmit_Some. unfold add_zone_validate, add_zone_body, zone_json, zone_settings, blank.
  cbn -[trim str_json truthy]. split.
  - rewrite (proj2 (bool_decide_eq_false _)) by done. unfold truthy. rewrite !bool_decide_eq_true_2 by done.
    repeat constructor. destruct (z_forwarder z) as [f|]; cbn -[trim].
    + destruct Hf as [_ Hf]. by rewrite (bool_decide_eq_true_2 (trim f ≠ "")), andb_false_r by done.
    + by rewrite bool_decide_eq_false_2 by congruence.
  - destruct (z_forwarder z) as [f|]; cbn -[trim].
    + destruct Hf as [-> _]. by rewrite decide_True.
    + by rewrite decide_False by congruence.
Qed.

(** Every zone and record can be entered.  For each zone of an offered tenant with
    a TTL within the bounds, a script fills the form for a new one so that exactly
    that zone is sent, and scripts bring the form of either edit dialog, whatever it
    holds, to send exactly its settings; for each record of an offered type with
    numbers within the bounds a script makes the form send exactly it. *)
Theorem zone_forms_complete (tenants : list string) (t : string) (z : zone) (r : dns_record) (v : zone_form) :
  t ∈ tenants → t ≠ "" → zone_enterable z → zone_sound z → record_enterable r →
  (hasPriority (r_record_type r) = true ∨ r_priority r = None) →
  (fill (add_zone_controls tenants) (add_zone_script t z) add_zone_initial ≫= add_zone_submit) =
    Some (zone_json t z) ∧
  zone_update_body <$> fill edit_zone_controls (zone_script "Enable zone" z) v = Some (JObj (zone_settings z)) ∧
  zone_update_body <$> fill (settings_controls true) (zone_script "Zone enabled" z) v =
    Some (JObj (zone_settings z)) ∧
  record_body <$> fill record_controls (record_script r) (record_initial None) = Some (record_json r).
Proof.
  intros Ht Ht' Hz Hs Hr Hp.
  rewrite add_zone_script_fills, edit_zone_script_fills, settings_script_fills, record_script_fills by done.
  cbn [fmap option_fmap option_map mbind option_bind]. rewrite !(zone_update_unchanged z), record_unchanged by done.
  split_and!; try done. apply add_zone_sends; try done. intros He. destruct Hz as [Hz _]. rewrite He in Hz.
  revert Hz. unfold ZONE_TYPE_OPTIONS. set_solver.
Qed.

(** ** Examples *)

Definition zone1 : zone := Zone "z1" "corp.local" "forward" "Office" false 60 (Some "10.0.0.53") 4.
Definition record1 : dns_record := DnsRecord "r1" "mail" "MX" "mx.corp.local." (Some 300%Z) (Some 10%Z) true.

Lemma zone_forms_complete_witness :
  (fill (add_zone_controls ["t1"]) (add_zone_script "t1" zone1) add_zone_initial ≫= add_zone_submit) =
    Some (zone_json "t1" zone1) ∧
  record_body <$> fill record_controls (record_script record1) (record_initial None) = Some (record_json record1).
Proof.
  destruct (zone_forms_complete ["t1"] "t1" zone1 record1 (edit_zone_initial None)) as (H1 & _ & _ & H2);
    [by left|done|split; [apply (bool_decide_eq_true_1 _); vm_compute; reflexivity|cbn; lia]|
     split; [by vm_compute|by vm_compute]| |by left|by split].
  split; [apply (bool_decide_eq_true_1 _); vm_compute; reflexivity|]. split; intros n [= <-]; lia.
Defined.

Lemma zone_forms_send_witness :
  conforms (TRef "ZoneCreate") (zone_json "t1" zone1) = true ∧
  (∃ l' z', fill (add_zone_controls ["t1"]) l' add_zone_initial = Some z' ∧ az_ttl_default z' = Num 999999 ∧
     is_Some (add_zone_submit z')) ∧
  (conforms (TRef "RecordUpdate") (record_body (record_initial (Some record1))) = true →
   ∃ k, rf_ttl (record_initial (Some record1)) = Num k).
Proof.
  destruct (zone_forms_send ["t1"]
    (AddZoneForm (Some "t1") "corp.local" (Some "forward") "Office" false (Num 60) "10.0.0.53")
    (add_zone_script "t1" zone1) (zone_json "t1" zone1) (edit_zone_initial None) (edit_zone_initial None)
    record1 300 (record_initial (Some record1)) (record_initial (Some record1)))
    as (_ & H1 & _ & H3 & _ & _ & _ & H2); try (vm_compute; reflexivity); try apply fillable_refl.
  - exists (record_script record1). vm_compute. reflexivity.
  - split; [exact H1|]. split; [|exact H2].
    destruct (H3 "t1" 999999%Z) as (l' & z' & Hf & Hk & Hs & _); [by left|discriminate|].
    exists l', z'. split; [exact Hf|]. split; [exact Hk|]. by rewrite Hs.
Defined.
