(* ===== verification/Frame.v ===== *)
(** * The entry point and the small components

    What surrounds the pages: the tree of providers that [main.tsx] renders and the
    context of [auth/AuthContext.tsx], the theme and the translations it is given, and
    the components that only show what they get: [components/KpiCard.tsx],
    [components/PageHeader.tsx], [components/BrandMark.tsx], the fallback of
    [App.tsx], the form of [pages/LoginPage.tsx], the preview frame of
    [pages/BlockPageCard.tsx], the endpoint row of [pages/SettingsPage.tsx] and the skip
    link of [app/Shell.tsx].  They are trees of elements, as JSX describes them. *)

From S2P Require Import Prelude JsText Json Client Auth Html BlockPage Translations Widgets.

(** ** Elements *)

(** A text, or a component with the props that matter and its children. *)
#[local] Unset Elimination Schemes.
Inductive element := T (s : string) | El (name : string) (props : list (string * string)) (children : list element).
#[local] Set Elimination Schemes.

Section element_rect.
Variable P : element → Prop.
Hypothesis P_text : ∀ s, P (T s).
Hypothesis P_el : ∀ name props children, Forall P children → P (El name props children).

Fixpoint element_tree_ind (x : element) : P x :=
  match x with
  | T s => P_text s
  | El name props children =>
      P_el name props children
        ((fix go (l : list element) : Forall P l :=
            match l with [] => List.Forall_nil P | y :: r => List.Forall_cons P y r (element_tree_ind y) (go r) end) children)
  end.
End element_rect.

(** [{cond && <...>}] *)
Definition when {A} (b : bool) (x : A) : list A := if b then [x] else [].

(** The texts on screen, in order; the elements of a component. *)
Fixpoint texts_of (x : element) : list string :=
  match x with T s => [s] | El _ _ children => mjoin (texts_of <$> children) end.

Fixpoint named (n : string) (x : element) : list (list (string * string)) :=
  match x with
  | T _ => []
  | El name props children => when (bool_decide (name = n)) props ++ mjoin (named n <$> children)
  end.

(** ** Components *)

(** [bar !== undefined] and [sub && ...]: an empty text under the value is not shown, a
    bar of zero is. *)
Definition KpiCard (label value : string) (sub : option string) (icon : option string) (accent : option string)
    (bar : option string) : element :=
  let accent := default "blue" accent in
  El "Card" [] (
    [ El "Group" [] (El "Text" [("tt", "uppercase")] [T label] ::
        from_option (λ i, [El i [("color", "var(--mantine-color-" +:+ accent +:+ "-6)")] []]) [] icon);
      El "Text" [("size", "xl")] [T value] ] ++
    from_option (λ b, [El "Progress" [("value", b); ("color", accent)] []]) [] bar ++
    when (truthy_opt sub) (El "Text" [("c", "dimmed")] [T (default "" sub)])).

(** No page uses it. *)
Definition PageHeader (title : string) (icon description : option string) (status actions : option element) : element :=
  El "Group" [] (
    El "Stack" [] (
      El "Group" [] (from_option (λ i, [El i [] []]) [] icon ++ [El "Title" [] [T title]] ++ option_list status) ::
      when (truthy_opt description) (El "Text" [("c", "dimmed")] [T (default "" description)])) ::
    from_option (λ a, [El "Group" [] [a]]) [] actions).

(** Two antennae and six facets. *)
Definition BrandMark (size : string) : element :=
  let line p := El "polyline" [("points", p)] [] in
  let facet p fill := El "polygon" [("points", p); ("fill", fill)] [] in
  El "svg" [("width", size); ("height", size); ("viewBox", "0 0 100 100"); ("aria-hidden", "true")]
    [ El "g" [("transform", "translate(0,5)")]
        [ El "g" [("fill", "none"); ("stroke", "#4c6ef5")] [line "28,24 18,10 8,-2"; line "72,24 82,10 92,-2"];
          El "g" [("stroke", "#fff")]
            [ facet "8,40 28,24 50,46" "#748ffc"; facet "8,40 50,46 26,56" "#4c6ef5";
              facet "92,40 72,24 50,46" "#748ffc"; facet "92,40 50,46 74,56" "#4c6ef5";
              facet "26,56 50,46 50,92" "#4c6ef5"; facet "74,56 50,46 50,92" "#3b5bdb" ] ] ].

Definition RouteFallback : element := El "Center" [("h", "60vh")] [El "Loader" [] []].

Definition js_bool (b : bool) : string := if b then "true" else "false".

(** The sign-in form, for the error and the state of its button. *)
Definition login_view (f : login_form) : element :=
  El "Center" []
    [ El "Card" []
        [ El "Stack" [] [BrandMark "40"; El "Title" [] [T "Mantis-DNS"]; El "Text" [] [T "Sign in to the control plane"]];
          El "form" []
            (when (truthy_opt (lf_error f))
               (El "Alert" [("color", "red"); ("title", "Sign-in failed")] [T (default "" (lf_error f))]) ++
             [ El "TextInput" [("label", "Email"); ("placeholder", "admin@mantis.local"); ("required", "true")] [];
               El "PasswordInput" [("label", "Password"); ("required", "true")] [];
               El "Button" [("type", "submit"); ("loading", js_bool (submitting f))] [T "Sign in"] ]) ] ].

(** The preview: a frame with the document in it and no permission at all. *)
Definition preview_frame (t : upsert) : element :=
  El "div" []
    [ El "Text" [("tt", "uppercase")] [T "Live preview"];
      El "iframe" [("title", "Block page preview"); ("sandbox", ""); ("srcDoc", previewHtml t)] [] ].

(** An endpoint: the button that copies its address, and the link that opens it. *)
Definition EndpointRow (label url description : string) (copied : bool) : element :=
  El "Group" []
    [ El "Stack" [] [El "Text" [] [T label]; El "Text" [("c", "dimmed")] [T description]];
      El "Group" []
        [ El "Text" [("ff", "monospace")] [T url];
          El "CopyButton" [("value", url)]
            [El "Tooltip" [("label", if copied then "Copied" else "Copy URL")]
               [El "Button" [("color", if copied then "teal" else "gray")] []]];
          El "Anchor" [("href", url); ("target", "_blank"); ("rel", "noreferrer")] [El "Button" [] [T "Open"]] ] ].

(** *** The skip link *)

(** [style] of the element, property by property. *)
Definition skip_style : gmap string string :=
  list_to_map [ ("position", "absolute"); ("left", "-9999px"); ("top", "auto"); ("width", "1px"); ("height", "1px");
                ("overflow", "hidden") ].

(** [e.currentTarget.style.k = v], one after the other. *)
Definition assign (l : list (string * string)) (s : gmap string string) : gmap string string := foldl (λ s '(k, v), <[k := v]> s) s l.

Definition onFocus : gmap string string → gmap string string :=
  assign [ ("left", "8px"); ("top", "8px"); ("width", "auto"); ("height", "auto"); ("overflow", "visible");
           ("zIndex", "9999"); ("padding", "8px 16px"); ("background", "var(--mantine-color-blue-6)");
           ("color", "#fff"); ("borderRadius", "4px") ].

Definition onBlur : gmap string string → gmap string string :=
  assign [ ("left", "-9999px"); ("top", "auto"); ("width", "1px"); ("height", "1px"); ("overflow", "hidden") ].

Inductive focus_event := Focus | Blur.

Definition skip_step (s : gmap string string) (e : focus_event) : gmap string string :=
  match e with Focus => onFocus s | Blur => onBlur s end.
Definition skip_run (es : list focus_event) : gmap string string := foldl skip_step skip_style es.

(** Off the screen, and a pixel large. *)
Definition hidden (s : gmap string string) : Prop :=
  s !! "left" = Some "-9999px" ∧ s !! "width" = Some "1px" ∧ s !! "height" = Some "1px" ∧ s !! "overflow" = Some "hidden".
Definition visible_at_corner (s : gmap string string) : Prop :=
  s !! "left" = Some "8px" ∧ s !! "top" = Some "8px" ∧ s !! "overflow" = Some "visible".

(** ** The tree of providers *)

Record Theme := CreateTheme { primaryColor : string; defaultRadius : string; fontFamily : string }.
Definition theme : Theme := CreateTheme "indigo" "md" "Inter, system-ui, sans-serif".

(** [i18n.init(...)]: the resources by language, the language, and the one to fall back on. *)
Record i18n_options := I18nOptions {
  resources : list (string * texts);
  lng : string;
  fallbackLng : string;
  escapeValue : bool;
}.
Definition i18n : i18n_options := I18nOptions [("en", en)] "en" "en" false.

(** What components find around them: contexts, and for [notifications.show] and
    [modals.openConfirmModal] the components that show what they are given. *)
Inductive context := CMantine | CNotifications | CModals | CQuery | CRouter | CAuth.
#[export] Instance context_eq_dec : EqDecision context.
Proof. solve_decision. Defined.

Definition provides (name : string) : list context :=
  if decide (name = "MantineProvider") then [CMantine] else if decide (name = "ModalsProvider") then [CModals]
  else if decide (name = "QueryClientProvider") then [CQuery] else if decide (name = "BrowserRouter") then [CRouter]
  else if decide (name = "AuthProvider") then [CAuth] else [].

(** The hooks the components call; the pages and the shell are [App]. *)
Definition needs (name : string) : list context :=
  if decide (name = "Notifications") then [CMantine] else if decide (name = "ModalsProvider") then [CMantine]
  else if decide (name = "App") then [CMantine; CModals; CQuery; CRouter; CAuth] else [].

(** The contexts a component needs and does not find, over a tree. *)
Fixpoint missing (found : list context) (x : element) : list (string * context) :=
  match x with
  | T _ => []
  | El name _ children =>
      (pair name <$> filter (λ c, c ∉ found) (needs name)) ++
      mjoin (missing (provides name ++ found) <$> children)
  end.

(** [render(...)]; [dialogs] is what [ModalsProvider] shows: a confirmation is rendered
    there, next to what it encloses. *)
Definition root (dialogs : list element) : element :=
  El "StrictMode" []
    [ El "MantineProvider" [("theme", primaryColor theme); ("defaultColorScheme", "auto")]
        [ El "Notifications" [("position", "top-right")] [];
          El "ModalsProvider" []
            (dialogs ++
             [ El "QueryClientProvider" []
                 [El "BrowserRouter" [] [El "AuthProvider" [] [El "App" [] []]]] ]) ] ].

(** [useAuth()] *)
Definition useAuth {A} (ctx : option A) : exc A :=
  match ctx with Some v => Ok v | None => Throw "useAuth must be used within AuthProvider" end.

(** The content of a confirmation: [<Text size="sm">Delete <strong>{name}</strong>? ...</Text>] *)
Definition confirm_text (before name after : string) : element :=
  El "Text" [("size", "sm")] [T before; El "strong" [] [T name]; T after].

(** ** Properties *)

Lemma mjoin_nil {A B} (f : A → list B) (l : list A) : mjoin (f <$> l) = [] ↔ Forall (λ x, f x = []) l.
Proof.
  induction l as [|x l IH]; [by split; constructor|]. rewrite fmap_cons, Forall_cons, <- IH. cbn.
  apply app_nil.
Qed.

(** Every hook of the application finds its provider; a confirmation is outside of the
    router, the query client and the session, so it must do without them, as the texts
    that the pages show there do. *)
Theorem providers_complete (dialogs : list element) (before name after : string) :
  missing [] (root []) = [] ∧
  (missing [] (root dialogs) = [] ↔ Forall (λ d, missing [CModals; CMantine] d = []) dialogs) ∧
  missing [] (root [confirm_text before name after]) = [] ∧
  missing [] (root [El "App" [] []]) = [("App", CQuery); ("App", CRouter); ("App", CAuth)].
Proof.
  assert (∀ ds, missing [] (root ds) = [] ↔ Forall (λ d, missing [CModals; CMantine] d = []) ds) as Hroot.
  { intros ds. rewrite <- mjoin_nil. unfold root. cbn. rewrite fmap_app, join_app, !app_nil_r. cbn. done. }
  split_and!; [done|apply Hroot|done|done].
Qed.

Lemma useAuth_provided {A} (v : A) (ctx : option A) : useAuth ctx = Ok v ↔ ctx = Some v.
Proof. destruct ctx; cbn; naive_solver. Qed.

(** Reads a property of a style through the assignments before. *)
Ltac read_style := repeat first [rewrite lookup_insert_eq | rewrite lookup_insert_ne by done]; try done.

Lemma skip_shape es :
  let s := skip_run es in
  (hidden s ∧ (last es = None ∨ last es = Some Blur)) ∨ (visible_at_corner s ∧ last es = Some Focus).
Proof.
  destruct es as [|e es _] using rev_ind; [left; split; [done|by left]|].
  unfold skip_run. rewrite foldl_snoc, last_snoc. destruct e; [right|left]; (split; [|by auto]);
    unfold hidden, visible_at_corner, skip_step, onBlur, onFocus, assign; cbn [foldl]; split_and!; read_style.
Qed.

(** The skip link is on screen exactly while it has the focus; what the first focus set
    besides its place stays for good. *)
Theorem skip_link (es : list focus_event) :
  (hidden (skip_run es) ↔ last es ≠ Some Focus) ∧ (visible_at_corner (skip_run es) ↔ last es = Some Focus) ∧
  (skip_run es !! "background" ≠ None ↔ Focus ∈ es) ∧ skip_run [Focus; Blur] ≠ skip_style.
Proof.
  assert (∀ s, hidden s → ¬ visible_at_corner s) as Hx.
  { unfold hidden, visible_at_corner. intros s (-> & _) [? _]. congruence. }
  split_and!.
  - destruct (skip_shape es) as [[Hh Hl]|[Hv Hl]]; naive_solver congruence.
  - destruct (skip_shape es) as [[Hh Hl]|[Hv Hl]]; naive_solver congruence.
  - induction es as [|e es IH] using rev_ind; [cbn; set_solver|]. unfold skip_run in *.
    rewrite foldl_snoc, elem_of_app, list_elem_of_singleton. destruct e; unfold skip_step, onFocus, onBlur, assign; cbn [foldl].
    + split; [auto|]. intros _. by read_style.
    + rewrite !lookup_insert_ne by done. rewrite IH. naive_solver.
  - intros H. apply (f_equal (lookup "background")) in H. by vm_compute in H.
Qed.

(** What a figure shows. *)
Lemma kpi_texts label value sub icon accent bar :
  texts_of (KpiCard label value sub icon accent bar) = [label; value] ++ when (truthy_opt sub) (default "" sub) ∧
  (icon ≠ Some "Progress" → length (named "Progress" (KpiCard label value sub icon accent bar)) = 1 ↔ is_Some bar).
Proof.
  split; [by destruct sub as [[|c s]|], icon, bar|].
  unfold KpiCard. destruct sub as [[|c s]|], icon as [i|], bar; cbn; intros Hi;
    rewrite ?bool_decide_eq_false_2 by naive_solver; cbn; split; try done; by intros [].
Qed.

(** The figures of the dashboard, as they are passed to [KpiCard]: when the summary
    failed, nothing but the labels and dashes is on screen. *)
Lemma failed_strip (tls : Z → string) (hours : Z) (e : string) (s prev : option summary) (icons : string → option string) :
  mjoin ((λ c, texts_of (KpiCard c.1.1 c.1.2 c.2 (icons c.1.1) None None))
           <$> kpi_strip tls hours false (Some e) s prev) =
  ["Total queries"; "—"; "Block ratio"; "—"; "Cache hit"; "—"; "Active clients"; "—"; "Tenants"; "—"].
Proof.
  assert (∀ c, texts_of (KpiCard c.1.1 c.1.2 c.2 (icons c.1.1) None None) =
    [c.1.1; c.1.2] ++ when (truthy_opt c.2) (default "" c.2)) as H by (intros c; apply kpi_texts).
  rewrite (list_fmap_ext _ (λ c : string * string * option string, [c.1.1; c.1.2] ++ when (truthy_opt c.2) (default "" c.2)))
    by (intros; apply H). reflexivity.
Qed.

(** Signing in, as it looks: the alert is the message of the last attempt, if that
    failed, and the button turns exactly while an attempt is under way. *)
Lemma login_shows (a : exc AuthUser) (from : option string) (s : auth_state) (f : login_form) :
  let f' := (handleSubmit a from s f).2 in
  (lf_error f' ≠ Some "" →
   named "Alert" (login_view f') =
     match lf_error f' with Some m => [[("color", "red"); ("title", "Sign-in failed")]] | None => [] end) ∧
  named "Button" (login_view f') = [[("type", "submit"); ("loading", "false")]] ∧
  (∀ m, a = Throw m → lf_error f' = Some m) ∧ (∀ u, a = Ok u → lf_error f' = None).
Proof.
  cbn. unfold handleSubmit. destruct (login a s) as [s' r] eqn:El'. unfold login in El'.
  destruct a as [u|m]; injection El' as <- <-; cbn; [naive_solver|].
  unfold login_view. cbn. destruct m; cbn; naive_solver.
Qed.

(** Nothing runs in the preview: the frame grants no permission, and what it shows
    reads as the document of the settings. *)
Lemma preview_inert (t : upsert) :
  named "iframe" (preview_frame t) = [[("title", "Block page preview"); ("sandbox", ""); ("srcDoc", previewHtml t)]] ∧
  reads (previewHtml t) (document t).
Proof. split; [done|apply reads_preview]. Qed.
