(* ===== verification/PolicyPage.v ===== *)
(** * The policy page around its editor

    [pages/PolicyPage.tsx]: what its buttons send for the editor of [Policy.v], the
    domain test, the breadcrumbs and the rows; and [pages/DuplicatePolicyModal.tsx],
    which chooses the policy of another group to start from.  The page is mounted
    anew for every path, so its group does not change. *)

From S2P Require Import Prelude JsText Json Client Errors Queries Hooks Locale Forms Policy Effects Registry.

(** ** Saving and publishing *)

Section page.
Variable localeCompare : string → string → Z.

(** [save()]: the snapshot for [onSuccess] is taken when the button is clicked. *)
Definition save (groupId : option string) (e : editor) : option (inflight editor) :=
  if truthy_opt groupId
  then Some (mutate (useUpsertPolicy groupId) (save_body e)
         (λ _ now, ([green "Policy saved"], save_succeeded localeCompare e now)) show_error)
  else None.

(** [compile()] *)
Definition compile {S} (groupId : option string) : option (inflight S) :=
  match groupId with
  | Some g =>
      if truthy g then Some (mutate_report useCompileBundle g "Bundle compiled and published") else None
  | None => None
  end.

(** The bar of the page, for operators: the text and its colour, the two buttons
    with whether they are disabled, and the hint. *)
Record action_bar := ActionBar {
  ab_text : string * string;
  ab_save_disabled : bool;
  ab_compile_disabled : bool;
  ab_hint : option string;
}.

Definition action_bar_view (canEdit : bool) (e : editor) : option action_bar :=
  let dirty := isDirty localeCompare e in
  if canEdit
  then Some (ActionBar (if dirty then ("Unsaved changes", "orange") else ("All changes saved", "green"))
         (negb (save_enabled localeCompare e)) (negb (compile_enabled localeCompare e))
         (if dirty then Some "Save first" else None))
  else None.

(** What the domain test says about unsaved edits. *)
Definition test_hint (e : editor) : string :=
  if isDirty localeCompare e
  then "You have unsaved changes — this tests the last saved policy, not your edits below."
  else "Checks the saved policy (overrides + category feeds) without requiring a compiled bundle.".
End page.

(** ** Rows *)

(** The badge of an override; React shows nothing for a kind that is [null]. *)
Definition override_row (o : Override) : string * string * string :=
  (default "" (kind o), if decide (kind o = Some "allow") then "green" else "red", domain o).

(** [onChange={(v) => v && onChange(v)}] of a category row. *)
Definition category_changed (id : string) (v : option string) (e : editor) : editor :=
  match v with Some a => if truthy a then setCategoryAction id a e else e | None => e end.

(** A row of the top domains: key, texts and colour. *)
Definition top_domain_row (d : string * string * Z) : string * list string * string :=
  let '(qname, decision, count) := d in
  (qname +:+ "-" +:+ decision, [qname; decision; Z_str count],
   if decide (decision = "block") then "red" else "green").

(** ** Testing a domain *)

(** The submit handler: a domain that is not empty is sent. *)
Definition test_submit (groupId : option string) (v : string) : option call :=
  mutationFn (useTestPolicy groupId) <$> test_domain v.

(** [PolicyTestResult] *)
Record test_result := TestResult {
  tr_decision : string;
  tr_matched : string;
  tr_matched_category : option string;
  tr_matched_feed_id : option string;
}.

(** The text of a [string | null] in the page. *)
Definition shown (o : option string) : string := default "" o.

Definition test_reason (r : test_result) : string :=
  (if decide (tr_matched r = "override_allow") then "matched allow override" else "") +:+
  (if decide (tr_matched r = "override_deny") then "matched deny override" else "") +:+
  (if decide (tr_matched r = "category")
   then "category " +:+ shown (tr_matched_category r) +:+
        (if truthy_opt (tr_matched_feed_id r) then " · feed " +:+ shown (tr_matched_feed_id r) else "")
   else "") +:+
  (if decide (tr_matched r = "default") then "no rule matched — default allow" else "").

(** The badge with its colour, and the reason. *)
Definition test_view (r : test_result) : string * string * string :=
  (toUpperCase (tr_decision r), if decide (tr_decision r = "block") then "red" else "green", test_reason r).

(** [String(testPolicy.error)] *)
Definition test_error (message : string) : string := "Error: " +:+ message.

(** ** Breadcrumbs *)

(** The targets; a click goes through [confirmNavigation]. *)
Definition breadcrumbs (tenantId : string) : list string := ["/tenants"; tenant_link tenantId].

(** ** The duplicate modal *)

(** [opened], and the two selects of the modal, which stays mounted. *)
Record dup := Dup { d_opened : bool; d_tenantId : option string; d_groupId : option string }.

Definition dup_init : dup := Dup false None None.
Definition openDuplicate (d : dup) : dup := Dup true (d_tenantId d) (d_groupId d).

Definition tenant_options (tenants : option (list Tenant)) : list (string * string) :=
  (λ t, (tn_id t, tn_name t)) <$> default [] tenants.

Definition group_options (excludeGroupId : option string) (groups : option (list Group)) :
    list (string * string) :=
  (λ g, (gr_id g, gr_name g)) <$>
    List.filter (λ g, bool_decide (Some (gr_id g) ≠ excludeGroupId)) (default [] groups).

Definition choose_tenant (v : option string) (d : dup) : dup := Dup (d_opened d) v None.
Definition choose_group (v : option string) (d : dup) : dup := Dup (d_opened d) (d_tenantId d) v.

(** [handleClose]: [reset(); onClose();] *)
Definition dup_close (d : dup) : dup := Dup false None None.

(** The queries of the modal. *)
Definition dup_queries (d : dup) : list query := [useGroups (d_tenantId d); usePolicy (d_groupId d)].

(** [confirm()] for the policy the second query has, with [onSelect]. *)
Definition dup_confirm (sourcePolicy : option PolicyOut) (s : dup * editor) : list note * (dup * editor) :=
  match sourcePolicy with
  | None => ([], s)
  | Some p => ([Note None "Policy loaded — review and click Save policy" "blue"],
               (dup_close s.1, applyDuplicatedPolicy p s.2))
  end.

(** What the modal says below the selects, and whether Load policy is disabled. *)
Definition dup_status (d : dup) (isLoading isFetched : bool) (sourcePolicy : option PolicyOut) :
    list string * bool :=
  ((if truthy_opt (d_groupId d) && isLoading then ["Loading policy…"] else []) ++
   (if truthy_opt (d_groupId d) && isFetched && negb (bool_decide (is_Some sourcePolicy))
    then ["This group has no saved policy yet."] else []),
   negb (bool_decide (is_Some sourcePolicy))).

(** ** Sessions

    The editor with the save that is in flight, if any, the policy the control plane
    has for the group, which other operators write too, and for the statements what
    this page knows of it: the policy it last loaded into the editor or saved, and
    whether somebody else has written since.  While a save is in flight its button is
    loading and cannot be clicked.  A successful save stores what was sent, under the
    id the policy has or gets.  A refetch gives the stored policy to the effect, which
    takes it only under another id. *)

Section session.
Variable localeCompare : string → string → Z.
Context `{LO : !LocaleOrder localeCompare}.

Record session := Session {
  s_editor : editor;
  s_saving : option editor;
  s_stored : option PolicyOut;
  s_known : option PolicyOut;
  s_elsewhere : bool;
}.

Definition policy_of (id : string) (e : editor) : PolicyOut :=
  MkPolicy id (onLoadFailure e) (categoryToggles e) (overrides e).

(** The page as it is when the policy has been fetched first. *)
Definition session_init (stored : option PolicyOut) : session :=
  Session (render_policy localeCompare stored editor_init) None stored stored false.

(** A refetch: the effect runs when the id has changed. *)
Definition session_fetched (s : session) : session :=
  let ran := negb (bool_decide (effect_id (s_editor s) = Some (p_id <$> s_stored s))) in
  Session (render_policy localeCompare (s_stored s) (s_editor s)) (s_saving s) (s_stored s)
    (if ran then s_stored s else s_known s) (if ran then false else s_elsewhere s).

Inductive session_step : session → session → Prop :=
| ss_edit e sv st k w x : session_step (Session e sv st k w) (Session (apply_edit e x) sv st k w)
| ss_save e st k w :
    save_enabled localeCompare e = true → session_step (Session e None st k w) (Session e (Some e) st k w)
| ss_saved e e0 st k w id i groupId r :
    save localeCompare groupId e0 = Some i → (∀ p, st = Some p → id = p_id p) →
    session_step (Session e (Some e0) st k w)
      (Session (f_settled i (Ok r) e).2 None (Some (policy_of id e0)) (Some (policy_of id e0)) false)
| ss_failed e e0 st k w i groupId m :
    save localeCompare groupId e0 = Some i →
    session_step (Session e (Some e0) st k w) (Session (f_settled i (Throw m) e).2 None st k w)
| ss_elsewhere e sv st k w st' : session_step (Session e sv st k w) (Session e sv st' k true)
| ss_fetched s : session_step s (session_fetched s).

Definition session_run : session → session → Prop := rtc session_step.

(** The editor holds a policy, or an empty one when there is none, up to the order of
    toggles and overrides. *)
Definition shows_stored (e : editor) (st : option PolicyOut) : Prop :=
  categoryToggles e ≡ₚ from_option p_category_toggles [] st ∧
  overrides e ≡ₚ from_option p_overrides [] st ∧
  onLoadFailure e = from_option p_on_load_failure "FAIL_OPEN" st.

(** The invariant: the baseline is the snapshot of the policy the page knows, which is
    the stored one unless somebody else has written since. *)
Definition session_ok (s : session) : Prop :=
  baseline (s_editor s) =
    normalizePolicyState localeCompare (from_option p_category_toggles [] (s_known s))
      (from_option p_overrides [] (s_known s)) (from_option p_on_load_failure "FAIL_OPEN" (s_known s)) ∧
  (s_elsewhere s = false → s_known s = s_stored s).

Lemma apply_edit_baseline e x : baseline (apply_edit e x) = baseline e.
Proof. destruct x; try done. cbn. by case_match. Qed.

Lemma save_Some groupId e i :
  save localeCompare groupId e = Some i →
  ∀ o now, (f_settled i o now).2 = match o with Ok _ => save_succeeded localeCompare e now | Throw _ => now end.
Proof. unfold save. destruct (truthy_opt groupId); [|done]. by intros [= <-] [r|m] now. Qed.

Lemma session_ok_init st : session_ok (session_init st).
Proof. done. Qed.

Lemma session_ok_step s s' : session_ok s → session_step s s' → session_ok s'.
Proof.
  unfold session_ok. intros [Hb Hw] Hstep.
  destruct Hstep as [e sv st k w x|e st k w _|e e0 st k w id i g r Hi _|e e0 st k w i g m Hi|e sv st k w st'|s];
    cbn in *.
  - by rewrite apply_edit_baseline.
  - done.
  - by rewrite (save_Some _ _ _ Hi).
  - by rewrite (save_Some _ _ _ Hi).
  - done.
  - unfold render_policy. case_decide; [rewrite bool_decide_eq_true_2|rewrite bool_decide_eq_false_2]; done.
Qed.

Lemma session_ok_run s s' : session_run s s' → session_ok s → session_ok s'.
Proof. induction 1; eauto using session_ok_step. Qed.

Lemma dirty_stored s :
  session_ok s → editor_ok (s_editor s) →
  isDirty localeCompare (s_editor s) = false ↔ shows_stored (s_editor s) (s_known s).
Proof.
  intros [Hs _] He. apply (isDirty_false localeCompare (s_editor s)
    (load localeCompare (s_known s) (s_editor s))); [done|]. exact Hs.
Qed.

(** What another operator saves under the id of the policy is not seen: after the
    refetch too, the editor, the baseline and so the buttons are as they were. *)
Lemma other_writer_unseen (p p' : PolicyOut) :
  p_id p' = p_id p → ¬ shows_stored (s_editor (session_init (Some p))) (Some p') →
  let s := session_fetched (Session (s_editor (session_init (Some p))) None (Some p') (Some p) true) in
  session_run (session_init (Some p)) s ∧ compile_enabled localeCompare (s_editor s) = true ∧
  s_stored s = Some p' ∧ ¬ shows_stored (s_editor s) (s_stored s).
Proof.
  intros Hid Hne s.
  assert (s_editor s = s_editor (session_init (Some p))) as He.
  { unfold s, session_fetched. cbn [s_editor s_stored]. unfold render_policy at 1. rewrite decide_True; [done|].
    cbn. by rewrite Hid. }
  split_and!; [|rewrite He; unfold compile_enabled; by apply negb_true_iff, bool_decide_eq_false; auto|done|by rewrite He].
  eapply rtc_l; [apply (ss_elsewhere _ _ _ _ _ (Some p'))|]. apply rtc_once, ss_fetched.
Qed.

(** C27: the page knows when the editor shows what it last loaded or saved.  Over every
    sequence of edits, saves, failures, refetches and writes of other operators, Compile
    is enabled, the page says that all is saved, and leaving it does not ask, exactly
    when the editor shows, up to order, the policy this page last loaded into it or
    saved; that is the policy stored for the group unless somebody else has written
    since, and then what Compile publishes while no save is in flight is what the page
    shows.  A policy saved elsewhere under the same id is not noticed, also after a
    refetch: Compile stays enabled and everything is said to be saved, while the stored
    policy is another one.  Compile and Save are requests for the page's group. *)
Theorem compile_publishes_shown (st : option PolicyOut) (s : session) (g : string)
    (es : list NavGuard.event) (p p' : PolicyOut) :
  session_run (session_init st) s → editor_ok (s_editor s) → truthy g = true →
  let e := s_editor s in
  (compile_enabled localeCompare e = true ↔ shows_stored e (s_known s)) ∧
  (NavGuard.confirmNavigation (NavGuard.run (es ++ [NavGuard.Commit (isDirty localeCompare e)])) =
     NavGuard.Proceed ↔ shows_stored e (s_known s)) ∧
  (ab_text <$> action_bar_view localeCompare true e = Some ("All changes saved", "green") ↔
     shows_stored e (s_known s)) ∧
  (s_elsewhere s = false → s_known s = s_stored s) ∧
  (p_id p' = p_id p → ¬ shows_stored (s_editor (session_init (Some p))) (Some p') →
     let s' := session_fetched (Session (s_editor (session_init (Some p))) None (Some p') (Some p) true) in
     session_run (session_init (Some p)) s' ∧ compile_enabled localeCompare (s_editor s') = true ∧
     s_stored s' = Some p' ∧ ¬ shows_stored (s_editor s') (s_stored s')) ∧
  f_call <$> compile (S := unit) (Some g) = Some (mutationFn useCompileBundle g) ∧
  f_call <$> save localeCompare (Some g) e = Some (mutationFn (useUpsertPolicy (Some g)) (save_body e)).
Proof.
  intros Hr He Hg. cbn zeta. pose proof (session_ok_run _ _ Hr (session_ok_init st)) as Hs.
  rewrite <- (dirty_stored s) by done.
  assert (∀ d, NavGuard.confirmNavigation (NavGuard.run (es ++ [NavGuard.Commit d])) = NavGuard.Proceed ↔ d = false) as Hn.
  { intros d. pose proof (NavGuard.inv_run (es ++ [NavGuard.Commit d])) as Hi.
    unfold NavGuard.inv in Hi. rewrite NavGuard.mounted_run, NavGuard.last_commit_snoc in Hi. cbn in Hi.
    unfold NavGuard.confirmNavigation. rewrite Hi. by destruct d. }
  split_and!.
  - unfold compile_enabled. by destruct (isDirty _ _).
  - apply Hn.
  - unfold action_bar_view. by destruct (isDirty _ _).
  - apply Hs.
  - apply other_writer_unseen.
  - unfold compile. cbn [truthy_opt]. by rewrite Hg.
  - unfold save. cbn [truthy_opt]. by rewrite Hg.
Qed.
End session.

(** ** The domain test and the overrides *)

Lemma split_on_snoc c s : split_on c (s +:+ String c "") = split_on c s ++ [""].
Proof.
  induction s as [|a s IH]; [by apply (split_on_cons c "")|].
  rewrite sapp_cons. cbn. rewrite IH. destruct (Ascii.eqb a c); [done|].
  pose proof (split_on_ne c s). by destruct (split_on c s) as [|w ws].
Qed.

Lemma DOMAIN_RE_snoc_dot s : DOMAIN_RE (s +:+ ".") = false.
Proof.
  unfold DOMAIN_RE. rewrite split_on_snoc, forallb_app. cbn. by rewrite !andb_false_r.
Qed.

Lemma DOMAIN_RE_endsWith s : DOMAIN_RE s = true → endsWith s "." = false.
Proof.
  intros H. destruct (endsWith s ".") eqn:E; [|done].
  apply endsWith_true in E as [r ->]. by rewrite DOMAIN_RE_snoc_dot in H.
Qed.

(** The domain test names a domain the way the overrides do.  Where the form of the
    overrides takes a text, testing that text, or the domain written with the final
    dot of the DNS, asks the page's group about exactly the domain of the override;
    and a text that is blank or a single dot sends nothing. *)
Theorem test_matches_override (g v : string) (k : option string) (o : Override) :
  submit_override v k = Some o →
  let sent := Some (mutationFn (useTestPolicy (Some g)) (domain o)) in
  test_submit (Some g) v = sent ∧
  test_submit (Some g) (domain o) = sent ∧
  test_submit (Some g) (domain o +:+ ".") = sent ∧
  test_submit (Some g) "  " = None ∧ test_submit (Some g) " . " = None.
Proof.
  intros Hs. cbn zeta. pose proof (submit_override_Some _ _ _ Hs) as (Hd & Hl & Ht & Hv & _).
  assert (toLowerCase (trim v) = domain o) as Hlow.
  { unfold submit_override in Hs. destruct (validate_domain v); [done|]. by injection Hs as <-. }
  assert (or_null (domain o) = Some (domain o)) as Hne.
  { destruct (domain o) eqn:E; [done|reflexivity]. }
  unfold test_submit, test_domain. rewrite Hlow, Ht, Hl, DOMAIN_RE_endsWith, Hne by done.
  split_and!; try done.
  rewrite trim_visible by (by rewrite sforall_app, Hv).
  rewrite toLowerCase_app, Hl. cbn [toLowerCase]. change (String (lower_char ".") "") with ".".
  rewrite endsWith_app. change 1%nat with (String.length "."). by rewrite drop_last_app, Hne.
Qed.

(** ** Runs of the duplicate modal *)

Section duplicate.
(** The group of the page, and what the control plane answers: the groups of a
    tenant and the policy of a group. *)
Variable excludeGroupId : option string.
Variable groups_of : string → list Group.
Variable policy_at : string → option PolicyOut.

(** What the two queries of the modal have when they have answered. *)
Definition dup_groups (d : dup) : option (list Group) := groups_of <$> d_tenantId d.
Definition dup_source (d : dup) : option PolicyOut := d_groupId d ≫= policy_at.

(** The actions on the open modal: the source select is disabled without a tenant,
    and Load policy without a policy. *)
Inductive dup_step : dup * editor → dup * editor → Prop :=
| ds_open d e : dup_step (d, e) (openDuplicate d, e)
| ds_tenant d e v : d_opened d = true → dup_step (d, e) (choose_tenant v d, e)
| ds_group d e v :
    d_opened d = true → truthy_opt (d_tenantId d) = true →
    (∀ g, v = Some g → g ∈ fst <$> group_options excludeGroupId (dup_groups d)) →
    dup_step (d, e) (choose_group v d, e)
| ds_close d e : d_opened d = true → dup_step (d, e) (dup_close d, e)
| ds_confirm d e n s :
    d_opened d = true → (dup_status d false true (dup_source d)).2 = false →
    dup_confirm (dup_source d) (d, e) = (n, s) → dup_step (d, e) s.

Definition dup_run : dup * editor → dup * editor → Prop := rtc dup_step.

(** A group of some tenant that is not the page's own. *)
Definition other_group (t g : string) : Prop :=
  g ∈ gr_id <$> groups_of t ∧ Some g ≠ excludeGroupId.

(** The group chosen is another one, of the tenant chosen; a closed modal has
    nothing chosen. *)
Definition dup_ok (d : dup) : Prop :=
  (∀ g, d_groupId d = Some g → ∃ t, d_tenantId d = Some t ∧ other_group t g) ∧
  (d_opened d = false → d = dup_init).

(** The editor is as it was, or holds the policy of another group, with the baseline
    it had. *)
Definition dup_editor (e e' : editor) : Prop :=
  e' = e ∨ ∃ t g p, other_group t g ∧ policy_at g = Some p ∧ e' = applyDuplicatedPolicy p e.

Lemma group_options_spec groups g :
  g ∈ fst <$> group_options excludeGroupId groups →
  g ∈ gr_id <$> default [] groups ∧ Some g ≠ excludeGroupId.
Proof.
  unfold group_options. rewrite <- list_fmap_compose. intros (x & -> & Hx)%list_elem_of_fmap.
  apply list_elem_of_In, filter_In in Hx as [Hx%list_elem_of_In Hg%bool_decide_eq_true].
  split; [|done]. by apply list_elem_of_fmap_2.
Qed.

Lemma dup_editor_again e e' t g p :
  dup_editor e e' → other_group t g → policy_at g = Some p → dup_editor e (applyDuplicatedPolicy p e').
Proof.
  intros He Hg Hp. right. exists t, g, p. split_and!; [done..|].
  by destruct He as [-> | (? & ? & ? & _ & _ & ->)].
Qed.

Lemma dup_step_ok e0 d e d' e' :
  dup_step (d, e) (d', e') → dup_ok d → dup_editor e0 e → dup_ok d' ∧ dup_editor e0 e'.
Proof.
  intros Hs [Hg Hc] He. inversion Hs as [| |? ? v Ho Ht Hv| |? ? n s Ho Hsrc Heq]; subst; clear Hs.
  - by split.
  - split; [|done]. split; [done|]. cbn. congruence.
  - split; [|done]. split; [|cbn; congruence]. intros g [= ->]. cbn.
    destruct (d_tenantId d) as [t|] eqn:Et; [|done]. exists t. split; [done|].
    specialize (Hv _ eq_refl). unfold dup_groups in Hv. rewrite Et in Hv.
    by apply group_options_spec in Hv.
  - by split.
  - unfold dup_source in *. destruct (d_groupId d) as [g|] eqn:Eg; [|done].
    cbn [mbind option_bind] in *. destruct (policy_at g) as [p|] eqn:Ep; [|done].
    injection Heq as _ <- <-. split; [by split|].
    destruct (Hg _ eq_refl) as (t & _ & Ht). by eapply dup_editor_again.
Qed.

Lemma dup_run_ok e0 s s' :
  dup_run s s' → dup_ok s.1 → dup_editor e0 s.2 → dup_ok s'.1 ∧ dup_editor e0 s'.2.
Proof.
  induction 1 as [|[d e] [d' e'] s' Hs _ IH]; intros Hd He; [done|].
  destruct (dup_step_ok _ _ _ _ _ Hs Hd He). by apply IH.
Qed.

(** Duplicating is safe.  However the modal is used, a group that is chosen is
    one of the chosen tenant's and never the page's own, and a closed modal keeps no
    choice; the editor is as it was or holds the policy stored for another group,
    and in both cases its baseline is the one it had: nothing counts as saved that
    was only loaded.  When Load policy is enabled it puts the policy of the chosen
    group into the editor, says so, closes the modal and clears both selects. *)
Theorem duplicate_safe (localeCompare : string → string → Z) (e e' : editor) (d : dup) :
  dup_run (dup_init, e) (d, e') →
  dup_ok d ∧ dup_editor e e' ∧ baseline e' = baseline e ∧
  ((dup_status d false true (dup_source d)).2 = false →
   ∃ g p n, d_groupId d = Some g ∧ policy_at g = Some p ∧
     dup_confirm (dup_source d) (d, e') = ([n], (dup_init, applyDuplicatedPolicy p e')) ∧
     (isDirty localeCompare (applyDuplicatedPolicy p e') = false ↔
      normalizePolicyState localeCompare (p_category_toggles p) (p_overrides p) (p_on_load_failure p) =
        baseline e)).
Proof.
  intros Hr. destruct (dup_run_ok e _ _ Hr) as [Hd He]; [by split|by left|]. cbn in Hd, He.
  assert (baseline e' = baseline e) as Hb by (by destruct He as [-> | (? & ? & ? & _ & _ & ->)]).
  split_and!; [done..|]. intros Hs. unfold dup_source in *.
  destruct (d_groupId d) as [g|] eqn:Eg; [|done]. cbn [mbind option_bind] in *.
  destruct (policy_at g) as [p|] eqn:Ep; [|done].
  eexists g, p, _. split_and!; [done..|]. rewrite <- Hb. unfold isDirty. cbn.
  rewrite bool_decide_eq_false. split; [apply dec_stable|auto].
Qed.
End duplicate.

(** ** Examples *)

Lemma compile_publishes_shown_witness :
  compile_enabled code_unit_compare editor0 = true ∧
  s_stored (session_fetched code_unit_compare
    (Session (s_editor (session_init code_unit_compare (Some policy0))) None
      (Some (MkPolicy (p_id policy0) "FAIL_CLOSED" [] [])) (Some policy0) true)) =
    Some (MkPolicy (p_id policy0) "FAIL_CLOSED" [] []).
Proof.
  destruct (compile_publishes_shown code_unit_compare (Some policy0)
    (session_init code_unit_compare (Some policy0)) "g1" [] policy0 (MkPolicy (p_id policy0) "FAIL_CLOSED" [] [])
    (rtc_refl _ _) editor0_ok eq_refl) as (H1 & _ & _ & _ & H2 & _).
  split; [apply H1; by split_and!|]. apply H2; [reflexivity|]. intros (_ & _ & H). discriminate H.
Defined.

Lemma test_matches_override_witness :
  test_submit (Some "g1") "ads.example.com." =
  Some (mutationFn (useTestPolicy (Some "g1")) "ads.example.com").
Proof.
  refine (proj1 (proj2 (proj2 (test_matches_override "g1" " Ads.Example.com " (Some "deny")
    (MkOverride "ads.example.com" (Some "deny")) _)))). vm_compute. reflexivity.
Defined.

(** The modal of group [g1] after opening it and choosing the tenant and [g2]. *)
Definition groups0 (t : string) : list Group := [MkGroup "g1" "Staff" None "2026-01-01T00:00:00Z"; MkGroup "g2" "Guests" None "2026-01-01T00:00:00Z"].
Definition policies0 (g : string) : option PolicyOut := if decide (g = "g2") then Some policy0 else None.
Definition dup0 : dup := choose_group (Some "g2") (choose_tenant (Some "t1") (openDuplicate dup_init)).

Lemma dup0_run : dup_run (Some "g1") groups0 policies0 (dup_init, editor_init) (dup0, editor_init).
Proof.
  eapply rtc_l; [apply ds_open|]. eapply rtc_l; [by apply ds_tenant|].
  eapply rtc_l; [|apply rtc_refl]. apply ds_group; [done..|].
  intros g [= <-]. apply (bool_decide_eq_true_1 _). vm_compute. reflexivity.
Qed.

Lemma duplicate_safe_witness :
  ∃ n, dup_confirm (dup_source policies0 dup0) (dup0, editor_init) =
    ([n], (dup_init, applyDuplicatedPolicy policy0 editor_init)).
Proof.
  destruct (duplicate_safe (Some "g1") groups0 policies0 code_unit_compare editor_init editor_init dup0
    dup0_run) as (_ & _ & _ & Hc).
  destruct (Hc eq_refl) as (g & p & n & Hg & Hp & Hn & _).
  exists n. injection Hg as <-. injection Hp as <-. exact Hn.
Defined.
