(* ===== verification/PolicyScreen.v ===== *)
(** * The screen of the policy page

    [pages/PolicyPage.tsx] as a whole: the category cards with the icons of
    [categoryIcons.tsx], the overrides, the bar for operators, the domain test, the
    breadcrumbs behind the guard of [hooks/useUnsavedChangesGuard.ts], and what a
    script of clicks sends.  The editor is that of [Policy.v], the requests those of
    [PolicyPage.v]. *)

From S2P Require Import Prelude JsText Json Client Queries Auth Hooks Locale Policy Effects Registry PolicyPage.

(** ** Categories *)

(** The icon of tabler for a name; another name gives [IconCategory]. *)
Definition CATEGORY_ICONS : list string :=
  [ "Virus"; "Fish"; "Lock"; "AlertTriangle"; "CoinBitcoin"; "CalendarPlus"; "EyeOff"; "Dice"; "Pill"; "Download";
    "Bomb"; "Swords"; "MessageCircle"; "DeviceTv"; "DeviceGamepad2"; "Heart"; "Ad2"; "EyeCheck"; "Activity"; "ShieldLock" ].

Definition categoryIcon (icon : string) : string :=
  if decide (icon ∈ CATEGORY_ICONS) then "Icon" +:+ icon else "IconCategory".

Definition CATEGORY_GROUP_LABEL : list (string * string) :=
  [ ("security", "Security"); ("content", "Content"); ("distraction", "Distraction"); ("privacy", "Privacy");
    ("network", "Network") ].

Definition group_label (g : string) : string :=
  default g (snd <$> List.find (λ kv, bool_decide (kv.1 = g)) CATEGORY_GROUP_LABEL).

Record category_card := CategoryCard {
  cc_id : string;
  cc_icon : string * string;
  cc_label : string;
  cc_no_feed : bool;
  cc_description : string;
  cc_action : string;
}.

Definition CategoryRow (c : Category) (act : string) : category_card :=
  CategoryCard (cat_id c) (categoryIcon (cat_icon c), cat_color c) (cat_label c) (negb (cat_has_bundled_feed c))
    (cat_description c) act.

Definition FAILURE_OPTIONS : list (string * string) :=
  [ ("FAIL_OPEN", "Fail open — resolve normally if bundle fails to load");
    ("FAIL_CLOSED", "Fail closed — block all resolution") ].

(** ** The screen *)

(** The state of the page, and the requests in flight, each with whether it is a save. *)
Record screen := Screen {
  sc_editor : editor;
  sc_dup : dup;
  sc_test : string;
  sc_guard : NavGuard.guard;
  sc_flying : list (bool * inflight editor);
}.

Record policy_view := PolicyView {
  pv_bar : option action_bar;
  pv_cards : list (string * list category_card);
  pv_overrides : list (string * string * string) + string;
  pv_failure : string;
  pv_hint : string;
  pv_top : list (string * list string * string) + string;
}.

(** [l.length === 0 && text], and the rows. *)
Definition rows_or {A R} (row : A → R) (text : string) (l : list A) : list R + string :=
  match l with [] => inr text | _ => inl (row <$> l) end.

Section screen.
Context (localeCompare : string → string → Z) (u : option AuthUser) (tenantId : string) (groupId : option string).

Definition canEdit : bool := hasRole u [Operator].

(** The loader, or the page. *)
Definition screen_view (isLoading : bool) (categories : option (list Category))
    (topDomains : option (list (string * string * Z))) (s : screen) : option policy_view :=
  let e := sc_editor s in
  if isLoading then None
  else Some (PolicyView (action_bar_view localeCompare canEdit e)
    ((λ g : string * list Category, (group_label g.1, (λ c, CategoryRow c (row_action e (cat_id c))) <$> g.2)) <$> category_rows categories)
    (rows_or override_row "No overrides yet." (overrides e)) (onLoadFailure e) (test_hint localeCompare e)
    (rows_or top_domain_row "No query telemetry yet for this group." (default [] topDomains))).

(** The page is mounted with no policy yet. *)
Definition screen_init : screen := Screen editor_init dup_init "" NavGuard.init [].

Inductive event :=
| Rendered (policy : option PolicyOut)
| Choose (id : string) (v : option string) | AddDomain (v : string) (k : option string) | RemoveDomain (d : string)
| Failure (v : option string)
| ClickSave | ClickCompile | ClickDuplicate | UseSource (source : PolicyOut) | CloseDuplicate
| TypeTest (v : string) | SubmitTest | Crumb (n : nat) | Settled (n : nat) (o : exc (option json)).

(** What a step does besides: a request, a navigation, or the question before one. *)
Inductive out := Sent (c : call) | Went (to : string) | Asks (to : string).

Definition set_editor (e : editor) (s : screen) : screen :=
  Screen e (sc_dup s) (sc_test s) (sc_guard s) (sc_flying s).
Definition set_dup (d : dup) (s : screen) : screen :=
  Screen (sc_editor s) d (sc_test s) (sc_guard s) (sc_flying s).
Definition set_test (v : string) (s : screen) : screen :=
  Screen (sc_editor s) (sc_dup s) v (sc_guard s) (sc_flying s).

(** [upsertPolicy.isPending] and [compileBundle.isPending] *)
Definition isPending (saving : bool) (s : screen) : bool := existsb (λ x, Bool.eqb x.1 saving) (sc_flying s).

(** A button of the bar that is there, not disabled and not loading. *)
Definition bar_button (saving : bool) (disabled : action_bar → bool) (s : screen) : bool :=
  match action_bar_view localeCompare canEdit (sc_editor s) with
  | Some b => negb (disabled b) && negb (isPending saving s)
  | None => false
  end.

Definition fire (saving : bool) (i : option (inflight editor)) (s : screen) : screen * list out :=
  match i with
  | Some i =>
      (Screen (sc_editor s) (sc_dup s) (sc_test s) (sc_guard s) (sc_flying s ++ [(saving, i)]), [Sent (f_call i)])
  | None => (s, [])
  end.

(** [confirmNavigation(() => navigate(to))] *)
Definition click_crumb (n : nat) (s : screen) : list out :=
  match breadcrumbs tenantId !! n with
  | Some to => [match NavGuard.confirmNavigation (sc_guard s) with NavGuard.Proceed => Went to | NavGuard.AskFirst => Asks to end]
  | None => []
  end.

Definition handle (s : screen) (x : event) : screen * list out :=
  let e := sc_editor s in
  match x with
  | Rendered policy => (set_editor (render_policy localeCompare policy e) s, [])
  | Choose id v => (set_editor (category_changed id v e) s, [])
  | AddDomain v k => (set_editor (apply_edit e (AddOverride v k)) s, [])
  | RemoveDomain d => (set_editor (removeOverride d e) s, [])
  | Failure (Some v) => (set_editor (if truthy v then setOnLoadFailure v e else e) s, [])
  | Failure None => (s, [])
  | ClickSave => if bar_button true ab_save_disabled s then fire true (save localeCompare groupId e) s else (s, [])
  | ClickCompile => if bar_button false ab_compile_disabled s then fire false (compile groupId) s else (s, [])
  | ClickDuplicate => (if canEdit then set_dup (openDuplicate (sc_dup s)) s else s, [])
  | UseSource source =>
      if d_opened (sc_dup s)
      then (let '(d, e') := (dup_confirm (Some source) (sc_dup s, e)).2 in set_dup d (set_editor e' s), []) else (s, [])
  | CloseDuplicate => (set_dup (dup_close (sc_dup s)) s, [])
  | TypeTest v => (set_test v s, [])
  | SubmitTest => (s, match test_submit groupId (sc_test s) with Some c => [Sent c] | None => [] end)
  | Crumb n => (s, click_crumb n s)
  | Settled n o =>
      match sc_flying s !! n with
      | Some (_, i) => (Screen (f_settled i o e).2 (sc_dup s) (sc_test s) (sc_guard s) (delete n (sc_flying s)), [])
      | None => (s, [])
      end
  end.

(** The effect of [useUnsavedChangesGuard(isDirty)] after the render. *)
Definition committed (s : screen) : screen :=
  Screen (sc_editor s) (sc_dup s) (sc_test s)
    (NavGuard.commit (isDirty localeCompare (sc_editor s)) (sc_guard s)) (sc_flying s).

Definition step (s : screen) (x : event) : screen * list out := let '(s', o) := handle s x in (committed s', o).

Fixpoint run (s : screen) (script : list event) : screen * list out :=
  match script with
  | [] => (s, [])
  | x :: r => let '(s1, o1) := step s x in let '(s2, o2) := run s1 r in (s2, o1 ++ o2)
  end.
End screen.

(** ** What every script keeps *)

Section keeps.
Context (lc : string → string → Z) (u : option AuthUser) (tenantId : string) (groupId : option string).
Notation step := (step lc u tenantId groupId).
Notation run := (run lc u tenantId groupId).

(** The guard follows the editor, and without the role the modal is closed. *)
Definition screen_ok (s : screen) : Prop :=
  NavGuard.inv (sc_guard s) ∧ (canEdit u = false → d_opened (sc_dup s) = false).

(** Why a request is sent. *)
Definition sent_by (s : screen) (x : event) (c : call) : Prop :=
  (x = ClickSave ∧ canEdit u = true ∧ isDirty lc (sc_editor s) = true ∧
     c = mutationFn (useUpsertPolicy groupId) (save_body (sc_editor s))) ∨
  (x = ClickCompile ∧ canEdit u = true ∧ isDirty lc (sc_editor s) = false ∧
     ∃ g, groupId = Some g ∧ c = mutationFn useCompileBundle g) ∨
  (x = SubmitTest ∧ test_submit groupId (sc_test s) = Some c).

Lemma bar_save s : bar_button lc u true ab_save_disabled s = true → canEdit u = true ∧ isDirty lc (sc_editor s) = true.
Proof.
  unfold bar_button, action_bar_view. destruct (canEdit u); [|done]. cbn. unfold save_enabled.
  rewrite negb_involutive. by intros [? _]%andb_prop.
Qed.

Lemma bar_compile s : bar_button lc u false ab_compile_disabled s = true → canEdit u = true ∧ isDirty lc (sc_editor s) = false.
Proof.
  unfold bar_button, action_bar_view. destruct (canEdit u); [|done]. cbn. unfold compile_enabled.
  rewrite negb_involutive. by intros [?%negb_true_iff _]%andb_prop.
Qed.

Lemma elem_fire c b i s : Sent c ∈ (fire b i s).2 → ∃ j, i = Some j ∧ c = f_call j.
Proof. destruct i as [j|]; cbn; [intros [= ->]%list_elem_of_singleton; eauto|by intros ?%not_elem_of_nil]. Qed.

Lemma step_sends s x c : Sent c ∈ (step s x).2 → sent_by s x c.
Proof.
  unfold step. assert ((let '(s', o) := handle lc u tenantId groupId s x in (committed lc s', o)).2 =
    (handle lc u tenantId groupId s x).2) as -> by (by destruct (handle _ _ _ _ _ _)).
  destruct x as [policy|id v|v k|d|[v|]| | | |source| |v| |n|n o]; cbn [handle]; try (by intros ?%not_elem_of_nil).
  - destruct (bar_button lc u true ab_save_disabled s) eqn:E; [|by intros ?%not_elem_of_nil].
    apply bar_save in E as [Hr Hd]. intros (i & Hi & ->)%elem_fire. left. split_and!; try done.
    unfold save in Hi. destruct (truthy_opt groupId); [|done]. by injection Hi as <-.
  - destruct (bar_button lc u false ab_compile_disabled s) eqn:E; [|by intros ?%not_elem_of_nil].
    apply bar_compile in E as [Hr Hd]. intros (i & Hi & ->)%elem_fire. right. left. split_and!; try done.
    unfold compile in Hi. destruct groupId as [g|]; [|done]. destruct (truthy g); [|done].
    exists g. split; [done|]. by injection Hi as <-.
  - destruct (d_opened (sc_dup s)); by intros ?%not_elem_of_nil.
  - destruct (test_submit groupId (sc_test s)) as [c'|] eqn:E; [|by intros ?%not_elem_of_nil].
    intros [= <-]%list_elem_of_singleton. right. right. done.
  - unfold click_crumb. destruct (breadcrumbs tenantId !! n); [|by intros ?%not_elem_of_nil].
    destruct (NavGuard.confirmNavigation _); by intros ?%list_elem_of_singleton.
  - destruct (sc_flying s !! n) as [[? ?]|]; by intros ?%not_elem_of_nil.
Qed.

Lemma step_dup s x :
  canEdit u = false → d_opened (sc_dup s) = false → d_opened (sc_dup (step s x).1) = false.
Proof.
  intros Hu Hd. unfold step.
  destruct x as [policy|id v|v k|d|[v|]| | | |source| |v| |n|n o]; cbn; rewrite ?Hu, ?Hd; try done.
  - destruct (bar_button _ _ _ _ _); [|done]. unfold fire. by destruct (save _ _ _).
  - destruct (bar_button _ _ _ _ _); [|done]. unfold fire. by destruct (compile _).
  - by destruct (sc_flying s !! n) as [[? ?]|].
Qed.

Lemma handle_guard s x : sc_guard (handle lc u tenantId groupId s x).1 = sc_guard s.
Proof.
  destruct x as [policy|id v|v k|d|[v|]| | | |source| |v| |n|n o]; cbn; try done.
  - destruct (bar_button _ _ _ _ _); [|done]. unfold fire. by destruct (save _ _ _).
  - destruct (bar_button _ _ _ _ _); [|done]. unfold fire. by destruct (compile _).
  - by destruct (canEdit u).
  - by destruct (d_opened (sc_dup s)).
  - by destruct (sc_flying s !! n) as [[? ?]|].
Qed.

(** After a render the guard blocks exactly when the editor is dirty. *)
Lemma commit_tracks b g : NavGuard.inv g → NavGuard.isBlocked (NavGuard.commit b g) = b ∧ NavGuard.inv (NavGuard.commit b g).
Proof.
  unfold NavGuard.inv, NavGuard.commit. destruct g as [bl [m|]]; cbn; intros H; [|done].
  case_decide; cbn; by subst.
Qed.

Lemma step_guard s x :
  NavGuard.inv (sc_guard s) →
  NavGuard.isBlocked (sc_guard (step s x).1) = isDirty lc (sc_editor (step s x).1) ∧ NavGuard.inv (sc_guard (step s x).1).
Proof.
  intros Hg. pose proof (handle_guard s x) as E. unfold step.
  destruct (handle lc u tenantId groupId s x) as [s' o]. cbn in *. rewrite E. by apply commit_tracks.
Qed.

Lemma run_keeps script : ∀ s,
  screen_ok s →
  screen_ok (run s script).1 ∧
  (script ≠ [] → NavGuard.isBlocked (sc_guard (run s script).1) = isDirty lc (sc_editor (run s script).1)) ∧
  (canEdit u = false → ∀ c, Sent c ∈ (run s script).2 → ∃ v, test_submit groupId v = Some c).
Proof.
  induction script as [|x r IH]; intros s Hs; cbn [PolicyScreen.run]; [split_and!; [done|done|by intros _ c ?%not_elem_of_nil]|].
  destruct Hs as [Hg Hd]. destruct (step_guard s x Hg) as [Hb Hg'].
  assert (Hd' : canEdit u = false → d_opened (sc_dup (step s x).1) = false) by (intros Hu; apply step_dup; auto).
  pose proof (step_sends s x) as Hsend. destruct (step s x) as [s1 o1]. cbn [fst snd] in *.
  destruct (IH s1) as (H1 & H2 & H3); [by split|]. destruct (run s1 r) as [s2 o2] eqn:Er. cbn [fst snd] in *.
  split_and!; [done| |].
  - intros _. destruct r as [|y r]; [|by apply H2]. injection Er as <- <-. done.
  - intros Hu c [Hc|Hc]%elem_of_app; [|by apply H3].
    destruct (Hsend c Hc) as [(_ & ? & _)|[(_ & ? & _)|(_ & Ht)]]; [congruence|congruence|by eexists].
Qed.
End keeps.

(** C11: on the policy page, whatever is chosen, typed, duplicated and answered: Save
    sends the editor's policy and only while it differs from the saved one, Compile
    publishes only while it does not, and below the operator role nothing but domain
    tests is ever sent.  A breadcrumb leads away at once exactly when there is nothing
    to lose.  Without the role there is no bar, but the editor can be changed, and
    then leaving asks about changes that cannot be saved. *)
Theorem policy_screen_gate (lc : string → string → Z) (u : option AuthUser) (tenantId : string)
    (groupId : option string) (script : list event) (x : event) (c : call) :
  let s := (run lc u tenantId groupId screen_init (Rendered None :: script)).1 in
  (Sent c ∈ (step lc u tenantId groupId s x).2 → sent_by lc u groupId s x c) ∧
  (canEdit u = false → Sent c ∈ (run lc u tenantId groupId screen_init (Rendered None :: script)).2 →
     ∃ v, test_submit groupId v = Some c) ∧
  (∀ n to, breadcrumbs tenantId !! n = Some to →
     (step lc u tenantId groupId s (Crumb n)).2 = [if isDirty lc (sc_editor s) then Asks to else Went to]) ∧
  (canEdit u = false → ∀ isLoading cats top, from_option pv_bar None (screen_view lc u isLoading cats top s) = None).
Proof.
  intros s. destruct (run_keeps lc u tenantId groupId (Rendered None :: script) screen_init) as (_ & Hb & Hsend); [by split|].
  fold s in Hb, Hsend. specialize (Hb ltac:(done)). split_and!.
  - apply step_sends.
  - intros Hu. by apply Hsend.
  - intros n to Hn. unfold step. cbn [handle snd]. unfold click_crumb. rewrite Hn.
    unfold NavGuard.confirmNavigation. rewrite Hb. by destruct (isDirty lc (sc_editor s)).
  - intros Hu [] cats top; [done|]. cbn. unfold action_bar_view. by rewrite Hu.
Qed.

Definition viewer : option AuthUser := Some (MkAuthUser "u1" "ann@corp.local" Viewer None).

Lemma policy_screen_gate_witness :
  (run code_unit_compare viewer "t1" (Some "g1") screen_init
     [Rendered None; Choose "ads" (Some "ACTION_BLOCK"); ClickSave; ClickCompile; Crumb 0]).2 = [Asks "/tenants"] ∧
  (step code_unit_compare viewer "t1" (Some "g1")
     (run code_unit_compare viewer "t1" (Some "g1") screen_init [Rendered None]).1 (Crumb 0)).2 = [Went "/tenants"].
Proof.
  split; [vm_compute; reflexivity|].
  rewrite (proj1 (proj2 (proj2 (policy_screen_gate code_unit_compare viewer "t1" (Some "g1") [] (Crumb 0)
    (RawGet [] [])))) 0 "/tenants"); [vm_compute; reflexivity|reflexivity].
Defined.
