(* ===== verification/ModalViews.v ===== *)
(** * The modals on screen

    The modals of the pages for tenants, groups, clients, users, zones, feeds and syslog
    sinks, and the drawer and the modal of the dashboard and of the policy page: their
    titles, the texts above the forms, and their buttons.  What the button of a form
    shows is decided by the requests in flight of [RowPage.v], [FeedsScreen.v] and
    [SettingsPage.v]. *)

From S2P Require Import Prelude JsText Json Client Queries Auth Forms Effects Modal Tables RowPage Registry Users Zones.
From S2P Require Import Feeds Settings Policy Widgets Dashboard DashboardPage PolicyPage.
From S2P Require Import RegistryPages UsersPage SettingsPage ZonePages ListPages FeedsScreen ZoneListPage.

(** The title, the texts, and the buttons with [loading]. *)
Record frame := Frame { fr_title : string; fr_texts : list string; fr_buttons : list (string * bool) }.

(** Cancel, and the submit button that turns while the hook [h] has a request. *)
Definition cancel_or {A} (label : string) (h : nat) (fl : list (nat * A)) : list (string * bool) :=
  [("Cancel", false); (label, busy h fl)].

(** A modal that is open for something. *)
Definition shown_for {T V} (f : T → frame) (m : modal T V) : option frame :=
  match m with Some (t, _) => Some (f t) | None => None end.

(** *** Tenants, groups and clients *)

Definition new_tenant_frame (c : conf (modal unit string) Tenant) : option frame :=
  shown_for (λ _, Frame "New tenant" [] [("Create tenant", busy 1 (flying c))]) (st c).

Definition new_group_frame (c : conf groups_state Group) : option frame :=
  shown_for (λ _, Frame "New group" [] [("Create group", busy 1 (flying c))]) (st c).1.

Definition rename_frame (c : conf groups_state Group) : option frame :=
  shown_for (λ _, Frame "Rename group" [] [("Save", busy 2 (flying c))]) (st c).2.

(** [editing && <Modal opened={editOpened} title={`Edit client ${editing.ip}`}>] *)
Definition edit_client_frame (c : conf clients_page ClientEntry) : option frame :=
  match Registry.editing (st c), edit_opened (st c) with
  | Some k, Some _ => Some (Frame ("Edit client " +:+ cl_ip k) [] [("Save", busy 1 (flying c))])
  | _, _ => None
  end.

(** *** Users and zones *)

Definition add_user_frame (c : conf users_state User) : option frame :=
  if k_opened (st c).1 then Some (Frame "Add user" [] (cancel_or "Create user" 1 (flying c))) else None.

Definition edit_user_frame (c : conf users_state User) : option frame :=
  shown_for (λ x, Frame ("Edit user: " +:+ us_email x) [] (cancel_or "Save" 2 (flying c))) (st c).2.

Section zones.
Context `{UseForm zone_form}.

Definition add_zone_frame (c : conf zones_state zone) : option frame :=
  if k_opened (zl_add (st c)) then Some (Frame "Add DNS zone" [] (cancel_or "Create zone" 1 (flying c))) else None.

Definition edit_zone_frame (c : conf zones_state zone) : option frame :=
  match zl_edit (st c) with
  | Some z => Some (Frame ("Edit zone: " +:+ z_name z) [] (cancel_or "Save changes" 2 (flying c)))
  | None => None
  end.
End zones.

(** *** Feeds *)

Definition add_feed_frame (c : fconf) : option frame :=
  if k_opened (fx_add (fc_state c)) then Some (Frame "Add custom feed" [] (cancel_or "Add feed" 1 (fc_flying c))) else None.

(** [submitting] is a state of the modal, not of a hook. *)
Definition bulk_add_frame (c : fconf) : option frame :=
  let m := fx_bulk (fc_state c) in
  if bm_opened m then Some (Frame "Bulk add feeds" ["One feed per line, as id,url. Category, format, and schedule below apply to every line."]
          [("Cancel", false); ("Add feeds", bm_submitting m)]) else None.

Definition CATALOG_NOTE : string :=
  "Catalog feed — URL and format are read-only. You can adjust schedule, category override, and metadata.".

Definition edit_feed_frame (c : fconf) : option frame :=
  shown_for (λ f, Frame ("Edit feed: " +:+ f_id f) (if f_from_catalog f then [CATALOG_NOTE] else [])
    (cancel_or "Save changes" 2 (fc_flying c))) (fx_edit (fc_state c)).

(** *** Settings, policy, dashboard *)

Definition syslog_frame (s : siem) : option frame :=
  shown_for (λ _, Frame "Add syslog sink" [] (cancel_or "Add syslog sink" 1 (si_flying s))) (si_state s).2.

(** The Load button is disabled, not loading, until there is a policy. *)
Definition duplicate_frame (d : dup) (isLoading isFetched : bool) (source : option PolicyOut) :
    option (frame * bool) :=
  if d_opened d then
    let '(texts, disabled) := dup_status d isLoading isFetched source in
    Some (Frame "Duplicate policy from another group"
            (("Loads another group's category toggles, overrides, and failure policy into this editor. Nothing is saved until you click " +:+
              quoted "Save policy" +:+ ".") :: texts)
            [("Cancel", false); ("Load policy", false)], disabled)
  else None.

Definition drawer_frame (opened : bool) (c : list WidgetConfig) : option frame :=
  if opened then
    Some (Frame "Customize dashboard"
            ("Toggle widgets on or off and reorder them. Changes are saved automatically." :: option_list (hidden_text c))
            [("Reset to defaults", false)])
  else None.

(** ** A button turns exactly while its request is pending *)

(** The submit button, the last one, is loading. *)
Definition turning (fr : frame) : bool := from_option snd false (last (fr_buttons fr)).

(** The modal tells what its submit event can do: while the button turns the event sends
    nothing, and once it sent something the modal is still there, with the button
    turning. *)
Definition told {C X : Type} (modal : C → option frame) (step : C → C * list X) (sent : X → Prop) : Prop :=
  ∀ c fr, modal c = Some fr →
    (turning fr = true → Forall (λ x, ¬ sent x) (step c).2) ∧
    (∀ x, x ∈ (step c).2 → sent x → turning fr = false ∧ (turning <$> modal (step c).1) = Some true).

Definition is_sent (o : out) : Prop := match o with Sent _ => True | _ => False end.

Lemma busy_launch {A} h (i : A) fl : busy h (launch h i fl) = true.
Proof. unfold busy. apply bool_decide_eq_true, elem_launch. by left. Qed.

Section rows.
Context {S T E : Type} (pg : row_page S T E).

(** The event [e] submits a form through the hook [h]: it leaves the page as it is. *)
Definition submits (e : E) (h : nat) : Prop :=
  ∀ u rows s, (own pg u rows s e).1 = s ∧ ((own pg u rows s e).2 = Nothing ∨ ∃ i, (own pg u rows s e).2 = Call h i).

Lemma rows_told (e : E) (h : nat) (modal : conf S T → option frame) (u : option AuthUser) (ld : result (list T)) :
  replaced ld = None → submits e h →
  (∀ c fr, modal c = Some fr → turning fr = busy h (flying c)) →
  (∀ c c', st c' = st c → is_Some (modal c) → is_Some (modal c')) →
  told modal (λ c, RowPage.step pg u c (ld, Own e)) is_sent.
Proof.
  intros Hr He Ht Hk c fr Hm. rewrite (Ht _ _ Hm). unfold RowPage.step, mounted, heard. rewrite Hr.
  destruct (He u (on_screen ld) (st c)) as [Hs Hx].
  destruct (own pg u (on_screen ld) (st c) e) as [s' x]. cbn in Hs, Hx. subst s'. destruct Hx as [-> | [i ->]].
  - cbn. split; [constructor|]. by intros x ?%not_elem_of_nil.
  - destruct (busy h (flying c)) eqn:Eb; cbn.
    + split; [constructor|]. by intros x ?%not_elem_of_nil.
    + split; [done|]. intros x _ _. split; [done|].
      match goal with |- context [modal ?d] => destruct (Hk c d eq_refl (mk_is_Some _ _ Hm)) as [fr' Hf]; rewrite Hf;
        cbn; rewrite (Ht _ _ Hf); cbn [flying]; by rewrite busy_launch end.
Qed.
End rows.

(** Every case of the matches in the goal, the inner ones first. *)
Ltac cases :=
  repeat (match goal with |- context [match ?x with _ => _ end] =>
            lazymatch x with context [match _ with _ => _ end] => fail | _ => destruct x end end; cbn).
Ltac solve_submits :=
  intros ? ? s; cbn; unfold on_form, on_kept, from_option; cases; (split; [first [done|by destruct s]|solve [eauto]]).
Ltac frames :=
  unfold new_tenant_frame, new_group_frame, rename_frame, edit_client_frame, add_user_frame, edit_user_frame,
    add_zone_frame, edit_zone_frame, shown_for; cbn.
Ltac solve_turning := intros [? ? ?] fr; frames; cases; intros [=]; by subst.
Ltac solve_kept := intros [? ? ?] [? ? ?]; cbn; intros ->; frames; cases; solve [eauto|by intros []].
Ltac told_by h := apply (rows_told _ _ h); [done|solve_submits|solve_turning|solve_kept].

(** The forms of the feeds and of the syslog sinks. *)
Ltac nothing_sent := split; [intros; constructor|by intros ? ?%not_elem_of_nil].

Lemma add_feed_told validURL : told add_feed_frame (λ c, modal_step validURL c (FInAdd Submit)) is_sent.
Proof.
  intros c fr Hm. unfold add_feed_frame in *. destruct (k_opened (fx_add (fc_state c))) eqn:Ek; [|done].
  injection Hm as <-. cbn. unfold on_kept. rewrite Ek. destruct (add_submit validURL (fx_add (fc_state c))); cbn;
    [|nothing_sent]. destruct (busy 1 (fc_flying c)) eqn:Eb; cbn; [nothing_sent|].
  split; [done|]. intros x _ _. rewrite Ek. split; [done|]. cbn. f_equal. apply (busy_launch 1).
Qed.

Lemma edit_feed_told validURL : told edit_feed_frame (λ c, modal_step validURL c (FInEdit Submit)) is_sent.
Proof.
  intros c fr Hm. unfold edit_feed_frame, shown_for in *. destruct (fx_edit (fc_state c)) as [[f v]|] eqn:Ek; [|done].
  injection Hm as <-. cbn. rewrite Ek. cbn.
  destruct (onSubmit _ (edit_send f) v); cbn; [|nothing_sent].
  destruct (busy 2 (fc_flying c)) eqn:Eb; cbn; [nothing_sent|].
  split; [done|]. intros x _ _. rewrite ?Ek. split; [done|]. cbn. f_equal. apply (busy_launch 2).
Qed.

Lemma bulk_add_told validURL : told bulk_add_frame (λ c, modal_step validURL c FSubmitBulk) is_sent.
Proof.
  intros c fr Hm. unfold bulk_add_frame in *. destruct (bm_opened (fx_bulk (fc_state c))) eqn:Ek; [|done].
  injection Hm as <-. cbn. rewrite Ek. destruct (bm_submitting (fx_bulk (fc_state c))); cbn; [nothing_sent|].
  destruct (bulk_submit (bm_values (fx_bulk (fc_state c)))); cbn; [|nothing_sent]. split; [done|]. by intros x _ _.
Qed.

Lemma syslog_told sinks : told syslog_frame (λ s, siem_step sinks s (InSyslog Submit)) is_sent.
Proof.
  intros [[t m] a fl] fr Hm. unfold syslog_frame, shown_for in *. cbn [si_state snd] in *. destruct m as [[x v]|]; [|done].
  injection Hm as <-. cbn -[syslog_submit]. destruct (syslog_submit (Some (x, v))); cbn; [|nothing_sent].
  destruct (busy 1 fl) eqn:Eb; cbn; [nothing_sent|]. split; [done|]. intros y _ _. split; [done|]. cbn. f_equal. apply (busy_launch 1).
Qed.

(** The forms in the modals of the seven pages show what is pending.
    While the button of a form turns, clicking it sends nothing; when it is clicked and
    something is sent, it was not turning, the modal stays, and the button turns until
    the answer. *)
Theorem modals_told `{UseForm zone_form} (date : string → string) (tenantId : string) (u me : option AuthUser)
    (tenants : list Tenant) (tenant_of : zone → option string) (ldt : result (list Tenant)) (ldg : result (list Group))
    (ldc : result (list ClientEntry)) (ldu : result (list User)) (ldz : result (list zone))
    (sinks : list SiemSyslogSink) (validURL : string → bool) :
  replaced ldt = None → replaced ldg = None → replaced ldc = None → replaced ldu = None → replaced ldz = None →
  told new_tenant_frame (λ c, RowPage.step (TenantsPage date) u c (ldt, Own (InTenant Submit))) is_sent ∧
  told new_group_frame (λ c, RowPage.step (GroupsPage date tenantId) u c (ldg, Own (InGroup Submit))) is_sent ∧
  told rename_frame (λ c, RowPage.step (GroupsPage date tenantId) u c (ldg, Own (InRename Submit))) is_sent ∧
  told edit_client_frame (λ c, RowPage.step (RegistryPages.ClientsPage date tenantId) u c (ldc, Own SaveClient)) is_sent ∧
  told add_user_frame (λ c, RowPage.step (UsersPage me) u c (ldu, Own (InAdd Submit))) is_sent ∧
  told edit_user_frame (λ c, RowPage.step (UsersPage me) u c (ldu, Own (InEdit Submit))) is_sent ∧
  told add_zone_frame (λ c, RowPage.step (ZonesListPage tenants tenant_of) u c (ldz, Own (InAddZone Submit))) is_sent ∧
  told edit_zone_frame (λ c, RowPage.step (ZonesListPage tenants tenant_of) u c (ldz, Own (InEditZone Submit))) is_sent ∧
  told add_feed_frame (λ c, modal_step validURL c (FInAdd Submit)) is_sent ∧
  told bulk_add_frame (λ c, modal_step validURL c FSubmitBulk) is_sent ∧
  told edit_feed_frame (λ c, modal_step validURL c (FInEdit Submit)) is_sent ∧
  told syslog_frame (λ s, siem_step sinks s (InSyslog Submit)) is_sent.
Proof.
  intros Ht Hg Hc Hu Hz. split_and!.
  - told_by 1.
  - told_by 1.
  - told_by 2.
  - told_by 1.
  - told_by 1.
  - told_by 2.
  - told_by 1.
  - told_by 2.
  - apply add_feed_told.
  - apply bulk_add_told.
  - apply edit_feed_told.
  - apply syslog_told.
Qed.
